(* ===== verification/_CoqProject ===== *)
-Q . S2P
Prelude.v
JsNum.v
JsString.v
JsArray.v
JsObject.v
JsRegExp.v
JsMatch.v
JsDate.v
Async.v
Luci.v
IpMath.v
Forms.v
Components.v
Format.v
Validators.v
InterfaceForm.v
Widgets.v
WidgetsFacts.v
Policy.v
PolicyFacts.v
PolicyApply.v
EditorNode.v
PolicyPage.v
Simulator.v
Configuration.v
ConfigurationFacts.v
Globals.v
RuleForm.v
IpsetForm.v
SimulatorFacts.v
RuleAnalysis.v
SimulatorUi.v
Status.v
Routing.v
IpsetPanel.v
Troubleshooting.v
LivePages.v
IndentGuides.v
GuideUpdates.v
ClashData.v
OcText.v
OcStyles.v
OcEditor.v
OcBackend.v
OcBackendFacts.v
OcLog.v
OcPage.v
SmartDns.v
SmartDnsFacts.v
SmartDnsForm.v
SmartDnsPage.v
OcTheme.v
OcSetup.v
OcLoad.v
OcIcons.v
OcScroll.v
OcDashboard.v
Homebox.v
HomeboxFacts.v
Iperf3.v
NetSpeed.v
OnlineSpeed.v
LogViews.v
AppForms.v
AppStatus.v
Services.v
AppPages.v
AppActions.v
MwanPages.v
WanPage.v
LogArea.v
DdnsReset.v
