(* ===== verification/Prelude.v ===== *)
(** * A model of the LuCI front ends of an OpenWrt router

    The browser programs under src/swlplay/apk: pages that run in LuCI, read
    and write the router's configuration and show the state of its services.
    - [luci-app-mwan3], the MultiWAN manager: its pages edit the configuration
      file mwan3 (interfaces, members, policies, rules, IP sets, globals),
      analyse it, simulate it, and show the state the service reports.  Its
      sources are named below relative to htdocs/luci-static/resources/ of
      that package.
    - [luci-app-openclash], a proxy: the helpers of its configuration editor
      (tools/codemirror/entry.js), of its pages (common.js and oc-icons.js under
      root/www/luci-static/resources/openclash/js/) and its check of
      subscription converters (subconverter-version.js beside them).
    - [luci-app-smartdns] (smartdns.js): one form of six pages, with texts kept
      in files.
    - The small applications: netspeedtest (homebox.js, wanspeedtest.js,
      iperf3.js, onlinespeedtest.js, logs.js), ddns-go, timecontrol, openlist2, qbittorrent,
      unblockneteasemusic.

    ** Parts and how they interact

    The configuration pages of mwan3 read and write sections through LuCI's
    [uci] module and check input with [validation] and mwan3/validators.js.
    The policy page opens the tier editor of mwan3/widgets.js, which computes
    a specification; the page turns it into section writes.  The simulator and
    the static analysis read the same sections and share the address and port
    arithmetic of mwan3/ipmath.js.  The status pages draw the service's RPC
    replies with mwan3/components.js and mwan3/format.js.  The other
    applications share LuCI and nothing else: their forms are declarations
    ([Forms]) with validators and hooks, their pages are machines over clicks,
    polls and the replies of the router, or scripts of requests and page
    updates ([Async]).

    ** Files

    The language and LuCI:
    - [Prelude]: the result type of code that can throw, list and arithmetic
      lemmas, tactics.
    - [JsNum], [JsString], [JsArray], [JsObject], [JsRegExp], [JsMatch]: the parts
      of the language the code uses.  [num] is an integer-valued double, an infinity
      or NaN; bit operators go through the 32-bit conversions; quotients that
      are rounded (percentages) go through IEEE binary64 division and
      multiplication; [sort] is a stable insertion sort; an object is the list
      of its own properties in creation order with [Object.prototype] behind
      it; a regular expression is a syntax tree, [test] goes by derivatives and
      is proved to find a match wherever there is one; where the code needs the
      groups of a match, [JsMatch] tries the candidates of each item greedily;
      [JsDate] is the calendar behind [Date].
    - [Async]: promises as finite trees of requests with a continuation per
      answer; [wp] says what holds of every answer, [settles] that a promise
      ends fulfilled whatever the answers are, [run_with] evaluates one on given answers.
    - [Luci]: LuCI as interfaces: [Validation] (address parsers), [Uci] (a
      store of named, typed sections: [uci_view] is its abstract content and
      the laws [UciLaws] say what each operation does to it), [I18n]
      (translation and [format]).  Each has a concrete instance
      ([plain_validation], [mem_uci], [plain_i18n]) used by the witnesses; DOM
      nodes are recorded as the [E(...)] call that builds them.
    - [Forms]: form declarations (maps, sections, tabs, tables, options with
      their choices, defaults, types and dependencies) and [form_ok], what
      makes a declaration hang together.

    mwan3:
    - [IpMath] (mwan3/ipmath.js): CIDR and set membership, ports.
    - [Validators] (mwan3/validators.js), [Components] (mwan3/components.js),
      [Format] (mwan3/format.js).
    - [InterfaceForm] (view/mwan3/network/interface.js, member.js), [Globals]
      (globals.js, mwan3/constants.js), [RuleForm] (rule.js), [IpsetForm]
      (ipset.js, notify.js): the configuration forms, their validators, value
      translations and interlocks.
    - [Widgets], [WidgetsFacts] (mwan3/widgets.js): the editor's [state], one
      [edit_event] per listener, [handle] running a listener with the redraw
      that follows it, [getErrors], [getValue]; [EditorNode]: the number field
      and the nodes of the editor.
    - [Policy], [PolicyFacts], [PolicyApply] (view/mwan3/network/policy.js):
      lookup tables, descriptions, [applySpec] and the section list it leaves;
      [PolicyPage]: the page as a session of dialogs, edits, saves, replies
      and reloads.
    - [Simulator], [SimulatorFacts], [SimulatorUi]
      (view/mwan3/network/simulator.js): rule matching; [handleSimulate] as a
      tree of request batches, one per [Promise.all]; [simulate], the
      specification of a run; pages with overlapping runs as a step relation.
    - [Configuration], [ConfigurationFacts] (configuration.js): rule
      containment, the issues in the order they are collected, the page;
      [RuleAnalysis]: what the analysis says of the simulator's runs.
    - [Status] (status/overview.js, detail.js, diagnostics.js and
      view/status/include/90_mwan3.js), [Routing] (status/routing.js),
      [IpsetPanel] (status/ipsets.js, one panel as a state machine over clicks
      and replies), [Troubleshooting] (status/troubleshooting.js);
      [LivePages]: these pages with their polls.
    - [MwanPages]: what the views of policy.js, simulator.js and notify.js draw
      around their forms: the toolbar's place, the hints beside the fields and
      how they change while a name is being resolved.

    OpenClash:
    - entry.js: [IndentGuides] ([_build], the indentation guides of the
      visible lines), [GuideUpdates] (when they are drawn: a machine over the
      editor's updates, animation frames, measures and microtasks),
      [ClashData] (keywords and snippets), [OcText]
      (completion, linter, HTML escaping), [OcStyles] (the mirrored scrollbar
      rules), [OcLog] (the stream parser of the
      log view, over a CodeMirror [StringStream] that is an interface with
      laws), [OcSetup] (the key bindings, the theme and the lists of extensions
      that configure an editor).
    - common.js: [OcEditor] (zoom, hotkeys and the fullscreen mode as a machine
      over events, loading overlays, busy buttons), [OcTheme] (colour scheme),
      [OcScroll] (batches of messages animated by requested frames, debouncing,
      the copy button), [OcDashboard] (addresses of the dashboards), [OcPage]
      (times and sizes, reduced motion, the substitute for [WeakMap], the
      tidying of CBI pages; of entry.js the folds and the preloading), [OcLoad]
      (the script as the templates include it, more than once, and the
      listeners each inclusion leaves), [OcIcons] (oc-icons.js: the sprite and
      its inclusion in the document).
    - [OcBackend], [OcBackendFacts] (subconverter-version.js): candidates,
      version texts, the cache, and a page with any number of chains of
      requests under way, as a step relation over edits, timers and replies.

    The other applications:
    - [SmartDns], [SmartDnsFacts], [SmartDnsForm], [SmartDnsPage] (smartdns.js):
      validators, texts kept in files, the options of the whole form, and its
      sections with their tabs.
    - [Homebox], [HomeboxFacts] (homebox.js): the page as a machine of clicks,
      edits, polls and replies; [Iperf3] (iperf3.js): the same for its server;
      [NetSpeed], [WanPage] (wanspeedtest.js): the parser of a test's output,
      the page, the start and the polls; [OnlineSpeed] (onlinespeedtest.js).
    - [LogViews] (the log pages of ddns-go, timecontrol, smartdns, openlist2),
      [LogArea] (the text area of netspeedtest's and openlist2's log with the
      browser's scroll events),
      [AppForms] (the forms of qbittorrent, openlist2, ddns-go,
      unblockneteasemusic and timecontrol), [AppStatus] (their status lines,
      certificates), [Services] (the requests behind them: service lists,
      process checks, restarts, updates, logs cleared, the debug report),
      [AppPages] (the pages with their style sheets, around the forms and
      logs), [AppActions] (what controls do beside their declaration: buttons
      of smartdns, the download of a certificate, the fields of a time mode),
      [DdnsReset] (the password reset of ddns-go).

    ** What the theorems show

    - Policies: a saved policy opens as it was edited
      ([PolicyApply.saved_policy_reopens]); no sequence of edits, saves,
      deletions of unused members, replies and reloads leaves a policy with an
      undefined member ([PolicyPage.policy_session_safe]).  Both are for saves
      whose state meets [PolicyApply.save_ok]: among other things the policy
      does not bear the name of a member it creates, which the code accepts and
      which breaks the claim ([PolicyApply.policy_replaces_its_member],
      [PolicyPage.namesake_session_breaks]); and for sessions with one save in
      flight at a time.  Weights are the shares in
      lowest terms and redistribution keeps the shares at 100%
      ([WidgetsFacts]).
    - Simulation: the asynchronous run refines its specification, a verdict is
      the first enabled matching rule, blank fields never match
      ([SimulatorFacts]); pending runs always end, whatever the router answers
      each time, and the page shows the one that ended last ([SimulatorUi]).
    - Analysis: a reported shadowing is real for the simulator, and no error
      is reported exactly when every reference is found, as the code looks it
      up, names of [Object.prototype] included ([ConfigurationFacts]); a rule
      reported as unreachable decides no simulated packet, and without errors
      the policy of a verdict is found unless the rule names none or one of
      those names ([RuleAnalysis]).
    - Addresses and ports: the static containment test is inclusion of address
      sets; [::] abbreviations, set membership and port lists agree with their
      reference readings ([IpMath]).
    - Forms: each rule base is accepted exactly when its band of identifiers
      follows those it must, and accepted bands share no identifier; the mask's
      bits are counted correctly ([Globals]); the mark field accepts exactly a
      value and a mask apart from mwan3's ([RuleForm]), and round-trips; an enabled
      rule never refers to a disabled set ([IpsetForm]); the declarations of
      smartdns and of the small applications are consistent
      ([SmartDnsForm], [AppForms]); a text kept in a file reads back as it was
      saved ([SmartDnsFacts]); a reset of ddns-go's file is, line by line, the
      replacement of each name that stands on the line of its key, and is
      idempotent ([DdnsReset]).
    - Status: classification of interface health, order of tracking rows,
      coherence of a set's panel; the diagnostic dump is read back as
      [mwan3 internal] prints it ([Troubleshooting.parse_print]); logs are
      shown newest first ([LogViews]).
    - OpenClash: the one-pass scan draws exactly the guides that the lines of
      its window ask for ([IndentGuides.guides_spec]; a line above the window
      is not seen), and what is drawn settles to
      the text in view ([GuideUpdates.guides_settle]); any sequence of hotkeys
      keeps zoom classes, fullscreen flags and inline styles coherent
      ([OcEditor.hotkeys_coherent]); the log's tokens are the line in pieces
      ([OcLog]); escaping is safe and loses nothing ([OcText]); the newest
      check of a converter is the one shown and superseded chains are silent
      ([OcBackendFacts]); one batch is animated at a time ([OcScroll]); a
      dashboard's address carries the login once ([OcDashboard]); every icon a
      page asks for is in the sprite, which is inserted once ([OcIcons]); two
      inclusions of the script bind every hotkey twice ([OcLoad]).
    - Pages: an element a script of the small applications looks up is one
      element of its page, and an element it holds is one the page drew
      ([AppPages.scripts_find_their_elements]); the page of smartdns appears for
      every configuration, each field under a tab its section declares
      ([AppActions.sd_view_appears]); the first view of the speed test is the
      one its first poll leaves ([WanPage]); the fields time control shows for a
      mode are those whose dependencies hold ([AppActions]).
    - Machines of the small pages: the Homebox page's status line, button and
      container agree with each other after any events ([HomeboxFacts]); the
      iperf3 page runs no command but those it is meant to ([Iperf3]); a poll
      shows the state of the result file it read ([WanPage]).
    - Failures: what a restart of ddns-go runs and says in each case
      ([Services.restart_reports]), and the requests of the small applications
      listed in [Services.handlers_settle] leave no rejection unhandled.
    - Substitutes: the map of overlays behaves as a map of the elements
      ([OcPage.lid_map_refines]).
    Several theorems record behaviour that is probably unintended; they say so.

    ** Fuel and bounds

    The fuel of [gcd] exceeds the sum of its arguments' absolute values, and
    each step decreases the second ([WidgetsFacts] proves that it computes the
    greatest common divisor); [countBits] shifts a 32-bit word to zero in at
    most 33 steps ([Globals.countBits_popcount] shows the fuel suffices for
    every number); [parse_lines] takes one line per step, with the number of
    lines as fuel; the log tokenizer takes at least one character per token,
    with the length of the line as fuel ([OcLog.line_tokens_spec]).  The
    bounds of the Homebox page (quick checks after an operation, replies per
    operation) are those of the code.  Doubles outside the integers, and
    integers above 2^53, occur nowhere but in the roundings named above: the
    modelled code adds shares, ports, 32-bit addresses and counts.

    ** Parameters

    What the browser and the libraries supply is an argument with its
    documented laws: the router's file store ([SmartDns]), [URL] and
    [URLSearchParams] ([OcDashboard]), CodeMirror's [StringStream] ([OcLog]),
    [Math.pow], [Math.log] as the power of 1024 a size has, the time zone's
    offset, [localeCompare], the height of a text, the inputs of LuCI's [ui] in
    [EditorNode], the commands and extensions of CodeMirror in [OcSetup], the
    addresses of objects in [AppActions], [marked.parse] in [OcPage] and the
    replies of the router.

    ** Not modelled

    What LuCI does with a form declaration.  The groups of servers that
    smartdns offers are collected when the page is drawn and its validator reads
    them when it runs: the model gives both the same list
    ([SmartDns.server_group_validate]).  The layout of an editor's text is a
    function of the text and the window ([GuideUpdates]): a zoom that moves the
    lines without a change of either is not expressed.  The service behind the RPC calls
    is another program (shell and ucode); its replies are inputs, but for
    [mwan3 internal], of which [Troubleshooting] has the printing.  Of the policy
    page, a second save while the first is on its way: what it leaves is
    decided by what the framework's [uci.save] does with the changes of the
    first, which is not part of these sources.  Of common.js, the function
    [ocGetEditorDom], which nothing calls.  Minified bundles are left aside, and
    the OpenWrt build tree, which is not JavaScript. *)
From stdpp Require Import base list strings option.
From Stdlib Require Import ZArith Lia Ascii.

Declare Scope js_scope.
Delimit Scope js_scope with js.
#[global] Open Scope Z_scope.

(** ** Exceptions

    A JavaScript expression either has a value or throws.  The only
    exceptions the modelled code can raise are those of the language's own
    operations; the payload is the name of the error class. *)

Inductive res (A : Type) : Type :=
  | Ok (a : A)
  | Throw (e : string).
Arguments Ok {A} a.
Arguments Throw {A} e.

Definition rbind {A B} (m : res A) (f : A → res B) : res B :=
  match m with
  | Ok a => f a
  | Throw e => Throw e
  end.

Definition rmap {A B} (f : A → B) (m : res A) : res B :=
  match m with
  | Ok a => Ok (f a)
  | Throw e => Throw e
  end.

Notation "'let*' x ':=' m 'in' k" := (rbind m (λ x, k))
  (at level 10, x name, m at level 100, k at level 200) : js_scope.
#[global] Open Scope js_scope.

Lemma rbind_Ok {A B} (a : A) (f : A → res B) : rbind (Ok a) f = f a.
Proof. done. Qed.

Lemma rbind_Ok_inv {A B} (m : res A) (f : A → res B) b :
  rbind m f = Ok b → ∃ a, m = Ok a ∧ f a = Ok b.
Proof. destruct m; simpl; [eauto | done]. Qed.

Lemma rbind_assoc {A B C} (m : res A) (f : A → res B) (g : B → res C) :
  rbind (rbind m f) g = rbind m (λ a, rbind (f a) g).
Proof. by destruct m. Qed.

(** [Array.prototype.some] and friends with a predicate that may throw:
    elements are visited in order and the visit stops at the first truthy
    answer. *)
Fixpoint some_res {A} (f : A → res bool) (l : list A) : res bool :=
  match l with
  | [] => Ok false
  | x :: l' => let* b := f x in if b then Ok true else some_res f l'
  end.

(** A loop that maps every element and stops at the first exception. *)
Fixpoint map_res {A B} (f : A → res B) (l : list A) : res (list B) :=
  match l with
  | [] => Ok []
  | x :: l' => let* y := f x in let* ys := map_res f l' in Ok (y :: ys)
  end.

Lemma some_res_true {A} (f : A → res bool) l :
  some_res f l = Ok true → ∃ x, x ∈ l ∧ f x = Ok true.
Proof.
  induction l as [|x l IH]; simpl; [done|].
  intros (b & Hx & Hb)%rbind_Ok_inv. destruct b.
  - exists x. split; [left|done].
  - destruct (IH Hb) as (y & ? & ?). exists y. split; [by right|done].
Qed.

Lemma some_res_total {A} (f : A → res bool) (g : A → bool) l :
  (∀ x, x ∈ l → f x = Ok (g x)) → some_res f l = Ok (existsb g l).
Proof.
  induction l as [|x l IH]; simpl; intros H; [done|].
  rewrite (H x) by left. simpl. destruct (g x); simpl; [done|].
  apply IH. intros y Hy. apply H. by right.
Qed.

(** The double quote, for texts that contain it. *)
Definition dq : string := String (Ascii.ascii_of_nat 34) EmptyString.

(** ** Booleans, lists and options *)

Lemma existsb_elem_of {A} (f : A → bool) l :
  existsb f l = true ↔ ∃ x, x ∈ l ∧ f x = true.
Proof.
  rewrite existsb_exists. by setoid_rewrite list_elem_of_In.
Qed.

Lemma existsb_false {A} (f : A → bool) l :
  existsb f l = false ↔ ∀ x, x ∈ l → f x = false.
Proof.
  rewrite <- not_true_iff_false, existsb_elem_of. split.
  - intros H x Hx. apply not_true_iff_false. naive_solver.
  - intros H (x & Hx & Hf). rewrite H in Hf; done.
Qed.

Lemma forallb_elem_of {A} (f : A → bool) l :
  forallb f l = true ↔ ∀ x, x ∈ l → f x = true.
Proof.
  rewrite forallb_forall. by setoid_rewrite list_elem_of_In.
Qed.

Definition zsum (l : list Z) : Z := foldr Z.add 0 l.

Lemma zsum_app l1 l2 : zsum (l1 ++ l2) = zsum l1 + zsum l2.
Proof. induction l1; simpl; lia. Qed.

Lemma zsum_repeat x n : zsum (replicate n x) = x * Z.of_nat n.
Proof.
  unfold zsum. induction n as [|n IH]; [simpl; lia|].
  cbn [replicate foldr]. rewrite IH. lia.
Qed.

(** ** Prefix masks

    The mask of a prefix of length [w - k] in a [w]-bit word, and what masking
    with it keeps. *)

Lemma prefix_mask_shiftl w k :
  0 <= k <= w → 2 ^ w - 2 ^ k = Z.shiftl (Z.ones (w - k)) k.
Proof.
  intros H. rewrite Z.shiftl_mul_pow2, Z.ones_equiv by lia.
  rewrite <- Z.sub_1_r, Z.mul_sub_distr_r, <- Z.pow_add_r by lia.
  replace (w - k + k) with w by lia. lia.
Qed.

Lemma prefix_mask_testbit w k i :
  0 <= k <= w → 0 <= i → Z.testbit (2 ^ w - 2 ^ k) i = (k <=? i) && (i <? w).
Proof.
  intros H Hi. rewrite prefix_mask_shiftl, Z.shiftl_spec by lia.
  destruct (Z.leb_spec k i); simpl.
  - destruct (Z.ltb_spec i w); [apply Z.ones_spec_low|apply Z.ones_spec_high]; lia.
  - apply Z.testbit_neg_r. lia.
Qed.

Lemma testbit_high w x i : 0 <= x < 2 ^ w → w <= i → Z.testbit x i = false.
Proof.
  intros Hx Hi. destruct (decide (w < 0)) as [|Hw].
  { rewrite Z.pow_neg_r in Hx; lia. }
  rewrite <- (Z.mod_small x (2 ^ w)) by done. apply Z.mod_pow2_bits_high. lia.
Qed.

Lemma land_prefix_mask w k x :
  0 <= k <= w → 0 <= x < 2 ^ w → Z.land x (2 ^ w - 2 ^ k) = x / 2 ^ k * 2 ^ k.
Proof.
  intros Hk Hx. rewrite <- Z.shiftr_div_pow2, <- Z.shiftl_mul_pow2 by lia.
  apply Z.bits_inj'. intros i Hi.
  rewrite Z.land_spec, prefix_mask_testbit, Z.shiftl_spec by lia.
  destruct (Z.leb_spec k i); simpl.
  - rewrite Z.shiftr_spec by lia. replace (i - k + k) with i by lia.
    destruct (Z.ltb_spec i w); [by rewrite andb_true_r|].
    rewrite andb_false_r. symmetry. eapply testbit_high; [done|lia].
  - rewrite andb_false_r. symmetry. apply Z.testbit_neg_r. lia.
Qed.

Lemma prefix_eq_mul k a b : a * 2 ^ k = b * 2 ^ k ↔ a = b ∨ k < 0.
Proof.
  destruct (decide (k < 0)).
  - rewrite Z.pow_neg_r by done. split; [by right|lia].
  - assert (0 < 2 ^ k) by (apply Z.pow_pos_nonneg; lia). nia.
Qed.

(** Two addresses that agree on a longer prefix agree on a shorter one. *)
Lemma prefix_coarsen x y j k :
  0 <= j <= k → x / 2 ^ j = y / 2 ^ j → x / 2 ^ k = y / 2 ^ k.
Proof.
  intros Hjk H. replace k with (j + (k - j)) by lia.
  rewrite Z.pow_add_r by lia.
  rewrite <- !Z.div_div by (try apply Z.pow_nonzero; try apply Z.pow_pos_nonneg; lia).
  by rewrite H.
Qed.

Lemma pow2_pos k : 0 <= k → 0 < 2 ^ k.
Proof. intros. by apply Z.pow_pos_nonneg. Qed.

(** ** Finite checks

    A decidable property of every integer of an interval, by evaluation. *)
Definition all_below (n : nat) (f : Z → bool) : bool :=
  forallb (λ i, f (Z.of_nat i)) (seq 0 n).

Lemma all_below_spec n f :
  all_below n f = true → ∀ z, 0 <= z < Z.of_nat n → f z = true.
Proof.
  unfold all_below. intros H z Hz. rewrite forallb_forall in H.
  rewrite <- (Z2Nat.id z) by lia. apply H. apply in_seq. lia.
Qed.

(** ** Automation *)

Ltac bool_to_prop :=
  repeat match goal with
  | H : (_ && _)%bool = true |- _ => apply andb_true_iff in H as [? ?]
  | H : (_ || _)%bool = false |- _ => apply orb_false_iff in H as [? ?]
  | H : negb _ = true |- _ => apply negb_true_iff in H
  | H : negb _ = false |- _ => apply negb_false_iff in H
  | H : (_ =? _)%Z = true |- _ => apply Z.eqb_eq in H
  | H : (_ =? _)%Z = false |- _ => apply Z.eqb_neq in H
  | H : (_ <=? _)%Z = true |- _ => apply Z.leb_le in H
  | H : (_ <=? _)%Z = false |- _ => apply Z.leb_gt in H
  | H : (_ <? _)%Z = true |- _ => apply Z.ltb_lt in H
  | H : (_ <? _)%Z = false |- _ => apply Z.ltb_ge in H
  | H : String.eqb _ _ = true |- _ => apply String.eqb_eq in H
  | H : String.eqb _ _ = false |- _ => apply String.eqb_neq in H
  end.

Ltac case_if :=
  match goal with
  | |- context [if ?b then _ else _] => destruct b eqn:?
  | H : context [if ?b then _ else _] |- _ => destruct b eqn:?
  end.

Create HintDb js.
#[export] Hint Resolve rbind_Ok : js.
