(* ===== verification/JsNum.v ===== *)
(** JavaScript numbers, as far as the modelled code computes with them: the
    integer-valued doubles, the infinities and NaN, with the 32-bit integer
    conversions behind the bit operators. *)
From stdpp Require Import base list strings.
From Stdlib Require Import ZArith Lia Bool Floats.SpecFloat.
From S2P Require Import Prelude.

(** [Fin z] is the double whose value is the integer [z]; every [Fin z] the
    operations below build carries a [z] that a double can represent. *)
Inductive num : Type :=
  | NaN
  | Inf (neg : bool)
  | Fin (z : Z).

#[export] Instance num_eq_dec : EqDecision num.
Proof. solve_decision. Defined.

(** Rounding an integer to the nearest double, ties to even. *)
Definition num_of_Z (z : Z) : num :=
  let a := Z.abs z in
  if a <? 2 ^ 53 then Fin z
  else
    let sh := Z.log2 a - 52 in
    let q := Z.shiftr a sh in
    let r := a - Z.shiftl q sh in
    let half := Z.shiftl 1 (sh - 1) in
    let up := (half <? r) || ((half =? r) && Z.odd q) in
    let v := Z.shiftl (if up then q + 1 else q) sh in
    if v <? 2 ^ 1024 then Fin (if z <? 0 then - v else v)
    else Inf (z <? 0).

Definition safe (z : Z) : Prop := Z.abs z < 2 ^ 53.

Lemma num_of_Z_safe z : safe z → num_of_Z z = Fin z.
Proof.
  unfold safe, num_of_Z. intros H. cbv zeta.
  by rewrite (proj2 (Z.ltb_lt _ _) H).
Qed.

(** ** Arithmetic and comparison *)

Definition num_neg (x : num) : num :=
  match x with
  | NaN => NaN
  | Inf s => Inf (negb s)
  | Fin z => Fin (- z)
  end.

Definition num_add (x y : num) : num :=
  match x, y with
  | NaN, _ | _, NaN => NaN
  | Inf s, Inf t => if Bool.eqb s t then Inf s else NaN
  | Inf s, _ => Inf s
  | _, Inf t => Inf t
  | Fin a, Fin b => num_of_Z (a + b)
  end.

Definition num_sub (x y : num) : num := num_add x (num_neg y).

Definition num_sign (x : num) : Z :=
  match x with
  | NaN => 0
  | Inf s => if s then -1 else 1
  | Fin z => Z.sgn z
  end.

Definition num_mul (x y : num) : num :=
  match x, y with
  | NaN, _ | _, NaN => NaN
  | Fin a, Fin b => num_of_Z (a * b)
  | _, _ =>
      let s := num_sign x * num_sign y in
      if s =? 0 then NaN else Inf (s <? 0)
  end.

(** The remainder operator: the result takes the sign of the dividend. *)
Definition num_rem (x y : num) : num :=
  match x, y with
  | NaN, _ | _, NaN | Inf _, _ => NaN
  | Fin a, Inf _ => Fin a
  | Fin a, Fin b => if b =? 0 then NaN else Fin (Z.rem a b)
  end.

(** [===] on numbers, and the relational operators: NaN compares false. *)
Definition num_eqb (x y : num) : bool :=
  match x, y with
  | Fin a, Fin b => a =? b
  | Inf s, Inf t => Bool.eqb s t
  | _, _ => false
  end.

Definition num_ltb (x y : num) : bool :=
  match x, y with
  | NaN, _ | _, NaN => false
  | Inf s, Inf t => s && negb t
  | Inf s, Fin _ => s
  | Fin _, Inf t => negb t
  | Fin a, Fin b => a <? b
  end.

Definition num_leb (x y : num) : bool := num_ltb x y || num_eqb x y.

(** The truth value of a number. *)
Definition num_truthy (x : num) : bool :=
  match x with
  | NaN => false
  | Inf _ => true
  | Fin z => negb (z =? 0)
  end.

Definition is_NaN (x : num) : bool :=
  match x with NaN => true | _ => false end.

(** ** 32-bit conversions and bit operators *)

Definition wrap_u32 (z : Z) : Z := z mod 2 ^ 32.

Definition wrap_i32 (z : Z) : Z :=
  let u := wrap_u32 z in if u <? 2 ^ 31 then u else u - 2 ^ 32.

Definition to_u32 (x : num) : Z :=
  match x with Fin z => wrap_u32 z | _ => 0 end.

Definition to_i32 (x : num) : Z :=
  match x with Fin z => wrap_i32 z | _ => 0 end.

Definition num_shl (x y : num) : num :=
  Fin (wrap_i32 (Z.shiftl (to_i32 x) (to_u32 y mod 32))).

Definition num_ushr (x y : num) : num :=
  Fin (Z.shiftr (to_u32 x) (to_u32 y mod 32)).

Definition num_and (x y : num) : num := Fin (Z.land (to_i32 x) (to_i32 y)).
Definition num_or (x y : num) : num := Fin (Z.lor (to_i32 x) (to_i32 y)).

(** ** Division

    Quotients need not be integers: they are computed on binary64 values and
    come back to integers through [Math.round]. *)

Definition sf_of_num (x : num) : spec_float :=
  match x with
  | NaN => S754_nan
  | Inf s => S754_infinity s
  | Fin z => binary_normalize 53 1024 z 0 false
  end.

Definition sf_div (x y : spec_float) : spec_float := SFdiv 53 1024 x y.
Definition sf_mul (x y : spec_float) : spec_float := SFmul 53 1024 x y.

(** [Math.round(x)]: the integer nearest to [x], halves towards +infinity. *)
Definition math_round (x : spec_float) : num :=
  match x with
  | S754_nan => NaN
  | S754_infinity s => Inf s
  | S754_zero _ => Fin 0
  | S754_finite s m e =>
      let v := if s then Zneg m else Zpos m in
      if 0 <=? e then Fin (Z.shiftl v e)
      else Fin ((2 * v + 2 ^ (- e)) / 2 ^ (1 - e))
  end.

(** [x / y] where [y] divides [x], as in the reduction of a list by its
    greatest common divisor; the code never divides otherwise without
    rounding. *)
Definition num_div_exact (x y : num) : num :=
  match x, y with
  | NaN, _ | _, NaN | Inf _, Inf _ => NaN
  | Inf s, Fin b => Inf (if b <? 0 then negb s else s)
  | Fin _, Inf _ => Fin 0
  | Fin a, Fin b =>
      if b =? 0 then (if a =? 0 then NaN else Inf (a <? 0))
      else if a mod b =? 0 then Fin (a / b) else NaN
  end.

(** [x || 0] *)
Definition num_or0 (x : num) : num := if num_truthy x then x else Fin 0.

(** ** Facts *)

Lemma wrap_u32_range z : 0 <= wrap_u32 z < 2 ^ 32.
Proof. apply Z.mod_pos_bound. lia. Qed.

Lemma wrap_u32_small z : 0 <= z < 2 ^ 32 → wrap_u32 z = z.
Proof. apply Z.mod_small. Qed.

Lemma wrap_i32_cong z : wrap_u32 (wrap_i32 z) = wrap_u32 z.
Proof.
  unfold wrap_i32. pose proof (wrap_u32_range z).
  case_if; [by apply wrap_u32_small|].
  unfold wrap_u32 at 1.
  replace (wrap_u32 z - 2 ^ 32) with (wrap_u32 z + (-1) * 2 ^ 32) by lia.
  rewrite Z.mod_add by lia. by apply Z.mod_small.
Qed.

Lemma wrap_i32_inj a b : wrap_i32 a = wrap_i32 b ↔ wrap_u32 a = wrap_u32 b.
Proof.
  split; intros H.
  - by rewrite <- (wrap_i32_cong a), <- (wrap_i32_cong b), H.
  - unfold wrap_i32. by rewrite H.
Qed.

Lemma wrap_u32_testbit z i :
  Z.testbit (wrap_u32 z) i = (i <? 32) && Z.testbit z i.
Proof.
  unfold wrap_u32. destruct (Z.ltb_spec i 32); simpl.
  - by rewrite Z.mod_pow2_bits_low.
  - apply Z.mod_pow2_bits_high; lia.
Qed.

Lemma wrap_u32_land a b : wrap_u32 (Z.land a b) = Z.land (wrap_u32 a) (wrap_u32 b).
Proof.
  apply Z.bits_inj'. intros i Hi.
  rewrite Z.land_spec, !wrap_u32_testbit, Z.land_spec.
  by destruct (i <? 32), (Z.testbit a i), (Z.testbit b i).
Qed.

Lemma wrap_u32_lor a b : wrap_u32 (Z.lor a b) = Z.lor (wrap_u32 a) (wrap_u32 b).
Proof.
  apply Z.bits_inj'. intros i Hi.
  rewrite Z.lor_spec, !wrap_u32_testbit, Z.lor_spec.
  by destruct (i <? 32), (Z.testbit a i), (Z.testbit b i).
Qed.

(** An integer in the signed 32-bit range is determined by its low 32 bits. *)
Lemma i32_range z : - 2 ^ 31 <= wrap_i32 z < 2 ^ 31.
Proof.
  unfold wrap_i32. pose proof (wrap_u32_range z). case_if; bool_to_prop; lia.
Qed.

Lemma wrap_i32_id z : - 2 ^ 31 <= z < 2 ^ 31 → wrap_i32 z = z.
Proof.
  intros H. unfold wrap_i32, wrap_u32.
  destruct (decide (0 <= z)).
  - rewrite Z.mod_small by lia. case_if; bool_to_prop; lia.
  - assert (z mod 2 ^ 32 = z + 2 ^ 32) as ->.
    { symmetry. apply Z.mod_unique with (-1); lia. }
    case_if; bool_to_prop; lia.
Qed.

Lemma wrap_i32_testbit z i :
  0 <= i → Z.testbit (wrap_i32 z) i = Z.testbit z (Z.min i 31).
Proof.
  intros Hi. unfold wrap_i32. pose proof (wrap_u32_range z) as Hu.
  assert (Z.testbit (wrap_u32 z) 31 = Z.testbit z 31) as H31 by apply wrap_u32_testbit.
  assert (∀ j, 0 <= j < 32 → Z.testbit (wrap_u32 z) j = Z.testbit z j) as Hlow.
  { intros j Hj. rewrite wrap_u32_testbit. by rewrite (proj2 (Z.ltb_lt j 32)) by lia. }
  case_if; bool_to_prop.
  - destruct (Z.le_gt_cases i 31); [rewrite Z.min_l by lia; apply Hlow; lia|].
    rewrite Z.min_r, <- H31 by lia.
    rewrite !(testbit_high 31) by lia. done.
  - assert (Z.testbit z 31 = true) as Hz.
    { rewrite <- H31. apply Z.testbit_true; [lia|].
      change (2 ^ 31) with 2147483648 in *. change (2 ^ 32) with 4294967296 in *.
      replace (wrap_u32 z / 2147483648) with 1; [done|].
      apply Z.div_unique with (wrap_u32 z - 2147483648); lia. }
    assert (wrap_u32 z - 2 ^ 32 = wrap_u32 z + Z.shiftl (-1) 32) as -> by (rewrite Z.shiftl_mul_pow2; lia).
    assert (Z.land (wrap_u32 z) (Z.shiftl (-1) 32) = 0) as Hland.
    { apply Z.bits_inj'. intros j Hj. rewrite Z.land_spec, Z.shiftl_spec, Z.bits_0 by lia.
      destruct (Z.le_gt_cases 32 j).
      - rewrite (testbit_high 32) by lia. done.
      - rewrite (Z.testbit_neg_r (-1)) by lia. apply andb_false_r. }
    rewrite Z.add_nocarry_lxor by done. rewrite Z.lxor_spec, Z.shiftl_spec by lia.
    destruct (Z.le_gt_cases i 31).
    + rewrite Z.min_l, (Z.testbit_neg_r (-1)), xorb_false_r by lia. apply Hlow. lia.
    + rewrite Z.min_r, (testbit_high 32), Z.bits_m1, Hz by lia. done.
Qed.

Lemma land_i32 x y :
  wrap_i32 (Z.land (wrap_i32 x) (wrap_i32 y)) = Z.land (wrap_i32 x) (wrap_i32 y).
Proof.
  apply Z.bits_inj'. intros i Hi.
  rewrite wrap_i32_testbit, !Z.land_spec, !wrap_i32_testbit by lia.
  by replace (Z.min (Z.min i 31) 31) with (Z.min i 31) by lia.
Qed.

Lemma lor_i32 x y :
  wrap_i32 (Z.lor (wrap_i32 x) (wrap_i32 y)) = Z.lor (wrap_i32 x) (wrap_i32 y).
Proof.
  apply Z.bits_inj'. intros i Hi.
  rewrite wrap_i32_testbit, !Z.lor_spec, !wrap_i32_testbit by lia.
  by replace (Z.min (Z.min i 31) 31) with (Z.min i 31) by lia.
Qed.

(** Comparing two words masked with [&], as signed or as unsigned integers. *)
Lemma num_and_eqb x y m :
  0 <= x < 2 ^ 32 → 0 <= y < 2 ^ 32 → 0 <= m < 2 ^ 32 →
  num_eqb (num_and (Fin x) (Fin m)) (num_and (Fin y) (Fin m)) =
  (Z.land x m =? Z.land y m).
Proof.
  intros Hx Hy Hm. simpl. apply eq_true_iff_eq. rewrite !Z.eqb_eq.
  rewrite <- (land_i32 x m), <- (land_i32 y m), wrap_i32_inj.
  by rewrite !wrap_u32_land, !wrap_i32_cong, !wrap_u32_small.
Qed.

Lemma num_and_ushr x m :
  0 <= x < 2 ^ 32 → 0 <= m < 2 ^ 32 →
  num_ushr (num_and (Fin x) (Fin m)) (Fin 0) = Fin (Z.land x m).
Proof.
  intros Hx Hm. unfold num_ushr, num_and. cbn [to_u32 to_i32].
  rewrite wrap_u32_land, !wrap_i32_cong, !wrap_u32_small by done.
  by rewrite Z.shiftr_0_r.
Qed.

Lemma num_eqb_spec_Fin a b : num_eqb (Fin a) (Fin b) = true ↔ a = b.
Proof. apply Z.eqb_eq. Qed.

Lemma num_add_safe a b : safe (a + b) → num_add (Fin a) (Fin b) = Fin (a + b).
Proof. intros H. simpl. by apply num_of_Z_safe. Qed.

Lemma num_sub_safe a b : safe (a - b) → num_sub (Fin a) (Fin b) = Fin (a - b).
Proof. intros H. unfold num_sub, num_add, num_neg. rewrite Z.add_opp_r. by apply num_of_Z_safe. Qed.

#[export] Hint Resolve num_of_Z_safe num_add_safe num_sub_safe : js.
