(* ===== verification/JsString.v ===== *)
(** The string operations of the language the modelled code uses: splitting,
    joining, searching, slicing, trimming, case folding, [parseInt], and the
    decimal form of an integer.

    A string is a [string] of 8-bit characters, one per UTF-16 code unit
    below 256.  Literals outside that range (typographic quotes and the like,
    which occur in displayed text only) are written in UTF-8; no operation
    of the model measures or indexes such a text. *)
From stdpp Require Import base list strings.
From Stdlib Require Import ZArith Lia Ascii Bool.
From S2P Require Import Prelude JsNum.

Fixpoint str_forall (P : ascii → bool) (s : string) : bool :=
  match s with
  | EmptyString => true
  | String c s' => P c && str_forall P s'
  end.

Definition char_free (c : ascii) (s : string) : bool :=
  str_forall (λ x, negb (Ascii.eqb x c)) s.

(** The truth value of a string. *)
Definition str_truthy (s : string) : bool := negb (String.eqb s "").

(** [s.length] *)
Definition str_len (s : string) : Z := Z.of_nat (String.length s).

(** [s.split(sep)] for a non-empty separator: the first piece and the rest. *)
Fixpoint split_go (sep : string) (skip : nat) (s : string) : string * list string :=
  match s with
  | EmptyString => ("", [])
  | String c s' =>
      match skip with
      | S k => split_go sep k s'
      | O =>
          if String.prefix sep s then
            let '(p, ps) := split_go sep (String.length sep - 1) s' in ("", p :: ps)
          else
            let '(p, ps) := split_go sep 0 s' in (String c p, ps)
      end
  end.

Definition str_split (sep s : string) : list string :=
  let '(p, ps) := split_go sep 0 s in p :: ps.

(** [l.join(sep)] *)
Fixpoint str_join (sep : string) (l : list string) : string :=
  match l with
  | [] => ""
  | [s] => s
  | s :: l' => s +:+ sep +:+ str_join sep l'
  end.

(** [s.indexOf(pat)] *)
Fixpoint index_of_go (pat s : string) (i : Z) : Z :=
  if String.prefix pat s then i
  else match s with
       | EmptyString => -1
       | String _ s' => index_of_go pat s' (i + 1)
       end.

Definition str_index_of (s pat : string) : Z := index_of_go pat s 0.

Fixpoint str_drop (n : nat) (s : string) : string :=
  match n, s with
  | O, _ => s
  | S _, EmptyString => EmptyString
  | S n', String _ s' => str_drop n' s'
  end.

Fixpoint str_take (n : nat) (s : string) : string :=
  match n, s with
  | O, _ | S _, EmptyString => EmptyString
  | S n', String c s' => String c (str_take n' s')
  end.

(** [s.substring(i)] and [s.substring(0, i)]; a negative bound counts as 0. *)
Definition str_from (i : Z) (s : string) : string := str_drop (Z.to_nat i) s.
Definition str_upto (i : Z) (s : string) : string := str_take (Z.to_nat i) s.

(** White space in the sense of [String.prototype.trim] and of [\s]. *)
Definition is_ws (c : ascii) : bool :=
  let n := nat_of_ascii c in
  (Nat.leb 9 n && Nat.leb n 13) || Nat.eqb n 32 || Nat.eqb n 160.

Fixpoint trim_start (s : string) : string :=
  match s with
  | EmptyString => EmptyString
  | String c s' => if is_ws c then trim_start s' else s
  end.

Fixpoint trim_end (s : string) : string :=
  match s with
  | EmptyString => EmptyString
  | String c s' =>
      match trim_end s' with
      | EmptyString => if is_ws c then EmptyString else String c EmptyString
      | t => String c t
      end
  end.

Definition str_trim (s : string) : string := trim_end (trim_start s).

(** [s.toLowerCase()] on code units below 256. *)
Definition ascii_lower (c : ascii) : ascii :=
  let n := nat_of_ascii c in
  if (Nat.leb 65 n && Nat.leb n 90)
     || (Nat.leb 192 n && Nat.leb n 222 && negb (Nat.eqb n 215))
  then ascii_of_nat (n + 32) else c.

Fixpoint str_lower (s : string) : string :=
  match s with
  | EmptyString => EmptyString
  | String c s' => String (ascii_lower c) (str_lower s')
  end.

(** The line feed. *)
Definition lf : string := String "010" "".

(** [s.replace(/\r\n/g, '\n')] *)
Fixpoint crlf_to_lf (s : string) : string :=
  match s with
  | EmptyString => EmptyString
  | String c r =>
      match r with
      | String d _ =>
          if Ascii.eqb c "013" && Ascii.eqb d "010" then crlf_to_lf r else String c (crlf_to_lf r)
      | EmptyString => s
      end
  end.

(** [s.replace(/c/g, by)] for a single character. *)
Fixpoint replace_char (c : ascii) (by_ : string) (s : string) : string :=
  match s with
  | EmptyString => EmptyString
  | String d r => (if Ascii.eqb d c then by_ else String d "") +:+ replace_char c by_ r
  end.

(** ** [parseInt] *)

Definition digit_val (c : ascii) : option Z :=
  let n := Z.of_nat (nat_of_ascii c) in
  if (48 <=? n) && (n <=? 57) then Some (n - 48)
  else if (97 <=? n) && (n <=? 122) then Some (n - 87)
  else if (65 <=? n) && (n <=? 90) then Some (n - 55)
  else None.

Definition radix_digit (radix : Z) (c : ascii) : option Z :=
  match digit_val c with
  | Some d => if d <? radix then Some d else None
  | None => None
  end.

(** The value of the longest prefix of digits, continuing from [acc]. *)
Fixpoint parse_digits (radix : Z) (acc : Z) (s : string) : Z :=
  match s with
  | EmptyString => acc
  | String c s' =>
      match radix_digit radix c with
      | Some d => parse_digits radix (acc * radix + d) s'
      | None => acc
      end
  end.

Definition parse_unsigned (radix : Z) (s : string) : option Z :=
  match s with
  | EmptyString => None
  | String c _ =>
      match radix_digit radix c with
      | Some _ => Some (parse_digits radix 0 s)
      | None => None
      end
  end.

Definition strip_0x (s : string) : string :=
  match s with
  | String "0" (String "x" s') | String "0" (String "X" s') => s'
  | _ => s
  end.

(** [parseInt(s, radix)] for the radixes 10 and 16. *)
Definition parseInt (s : string) (radix : Z) : num :=
  let s := trim_start s in
  let '(neg, s) :=
    match s with
    | String "-" s' => (true, s')
    | String "+" s' => (false, s')
    | _ => (false, s)
    end in
  let s := if radix =? 16 then strip_0x s else s in
  match parse_unsigned radix s with
  | Some z => num_of_Z (if neg then - z else z)
  | None => NaN
  end.

(** [parseInt(a[i], radix)] where the index may be out of range: the argument
    is then [undefined], whose text is not a number. *)
Definition parseInt_opt (o : option string) (radix : Z) : num :=
  match o with
  | Some s => parseInt s radix
  | None => NaN
  end.

(** ** Decimal form *)

Definition digit_char (d : Z) : ascii := ascii_of_nat (Z.to_nat (48 + d)).

Fixpoint dec_go (fuel : nat) (n : Z) (acc : string) : string :=
  match fuel with
  | O => acc
  | S f =>
      let acc := String (digit_char (n mod 10)) acc in
      if n / 10 =? 0 then acc else dec_go f (n / 10) acc
  end.

Definition dec_nonneg (n : Z) : string := dec_go (S (Z.to_nat (Z.log2 n))) n "".

(** [String(z)] for an integer below 10^21 in absolute value. *)
Definition dec (z : Z) : string :=
  if z <? 0 then String "-" (dec_nonneg (- z)) else dec_nonneg z.

Definition num_to_string (x : num) : string :=
  match x with
  | NaN => "NaN"
  | Inf false => "Infinity"
  | Inf true => "-Infinity"
  | Fin z => dec z
  end.

(** ** Splitting and joining on one character *)

Lemma prefix_char c s :
  String.prefix (String c "") s =
  match s with EmptyString => false | String d _ => Ascii.eqb c d end.
Proof.
  destruct s as [|d s]; [done|]. simpl.
  destruct (ascii_dec c d) as [->|Hne].
  - rewrite Ascii.eqb_refl. by destruct s.
  - by apply Ascii.eqb_neq in Hne as ->.
Qed.

Lemma str_app_nil_r s : s +:+ "" = s.
Proof. induction s as [|c s IH]; [done|]. simpl. change (String c (s +:+ "") = String c s). by rewrite IH. Qed.

Lemma str_app_nil_l s : "" +:+ s = s.
Proof. done. Qed.

Lemma str_app_cons c s t : String c s +:+ t = String c (s +:+ t).
Proof. done. Qed.

Lemma str_app_assoc s t u : (s +:+ t) +:+ u = s +:+ (t +:+ u).
Proof. induction s as [|c s IH]; [done|]. by rewrite !str_app_cons, IH. Qed.

Lemma prefix_app p s : String.prefix p (p +:+ s) = true.
Proof. induction p as [|c p IH]; [by destruct s|]. rewrite str_app_cons. cbn. by destruct (ascii_dec c c). Qed.

Lemma index_of_go_ge pat s i : 0 <= i → index_of_go pat s i = -1 ∨ i <= index_of_go pat s i.
Proof.
  revert i. induction s as [|c s IH]; intros i Hi; cbn [index_of_go]; destruct (String.prefix pat _); try lia.
  destruct (IH (i + 1)); lia.
Qed.

Lemma prefix_iff p s : String.prefix p s = true ↔ ∃ r, s = p +:+ r.
Proof.
  revert s. induction p as [|c p IH]; intros s.
  - split; [intros _; exists s; by rewrite str_app_nil_l|by destruct s].
  - destruct s as [|d s]; [split; [done|by intros [r ?]]|]. cbn [String.prefix].
    destruct (ascii_dec c d) as [->|Hne].
    + rewrite IH. split; intros [r H]; exists r; [by rewrite H|].
      rewrite str_app_cons in H. by injection H.
    + split; [done|]. intros [r H]. rewrite str_app_cons in H. by injection H as -> _.
Qed.

Lemma str_app_inj s a b : s +:+ a = s +:+ b → a = b.
Proof. induction s as [|c s IH]; [done|]. rewrite !str_app_cons. by intros [= H%IH]. Qed.

(** [indexOf] finds a text wherever it stands. *)
Lemma index_of_contains a pat b : 0 <= str_index_of (a +:+ pat +:+ b) pat.
Proof.
  unfold str_index_of. assert (∀ i, 0 <= i → 0 <= index_of_go pat (a +:+ pat +:+ b) i) as H; [|by apply H].
  induction a as [|c a IH]; intros i Hi.
  - rewrite str_app_nil_l. destruct (pat +:+ b) eqn:E; cbn [index_of_go]; rewrite <- E, prefix_app; done.
  - rewrite str_app_cons. cbn [index_of_go]. destruct (String.prefix _ _); [done|]. apply IH. lia.
Qed.

Lemma replace_char_app c b s t : replace_char c b (s +:+ t) = replace_char c b s +:+ replace_char c b t.
Proof.
  induction s as [|d s IH]; [done|]. rewrite str_app_cons. cbn [replace_char]. by rewrite IH, str_app_assoc.
Qed.

Lemma str_length_app s t : String.length (s +:+ t) = (String.length s + String.length t)%nat.
Proof. induction s as [|c s IH]; [done|]. rewrite str_app_cons. simpl. by rewrite IH. Qed.

Lemma str_forall_app P s t : str_forall P (s +:+ t) = str_forall P s && str_forall P t.
Proof.
  induction s as [|c s IH]; [done|]. rewrite str_app_cons. simpl. by rewrite IH, andb_assoc.
Qed.

Lemma char_free_cons c d s :
  char_free c (String d s) = negb (Ascii.eqb d c) && char_free c s.
Proof. done. Qed.

Lemma char_free_app c s t : char_free c (s +:+ t) = char_free c s && char_free c t.
Proof. apply str_forall_app. Qed.

Lemma split_go_char c d s :
  split_go (String c "") 0 (String d s) =
  let '(p, ps) := split_go (String c "") 0 s in
  if Ascii.eqb c d then ("", p :: ps) else (String d p, ps).
Proof.
  change (split_go (String c "") 0 (String d s)) with
    (if String.prefix (String c "") (String d s)
     then let '(p, ps) := split_go (String c "") 0 s in ("", p :: ps)
     else let '(p, ps) := split_go (String c "") 0 s in (String d p, ps)).
  rewrite prefix_char. by destruct (Ascii.eqb c d), (split_go _ 0 s).
Qed.

Lemma split_go_free_app c s r :
  char_free c s = true →
  split_go (String c "") 0 (s +:+ r) =
  let '(p, ps) := split_go (String c "") 0 r in (s +:+ p, ps).
Proof.
  induction s as [|d s IH]; intros Hs.
  - change ("" +:+ r) with r. by destruct (split_go _ 0 r).
  - rewrite char_free_cons in Hs. apply andb_true_iff in Hs as [Hd Hs].
    rewrite str_app_cons, split_go_char, IH by done.
    apply negb_true_iff in Hd. rewrite Ascii.eqb_sym in Hd.
    destruct (split_go _ 0 r). by rewrite Hd.
Qed.

Lemma str_split_free c s : char_free c s = true → str_split (String c "") s = [s].
Proof.
  intros Hs. unfold str_split.
  rewrite <- (str_app_nil_r s), split_go_free_app by done. done.
Qed.

Lemma str_split_cons c s r :
  char_free c s = true →
  str_split (String c "") (s +:+ String c r) = s :: str_split (String c "") r.
Proof.
  intros Hs. unfold str_split. rewrite split_go_free_app, split_go_char by done.
  rewrite Ascii.eqb_refl. destruct (split_go _ 0 r) as [p ps].
  by rewrite str_app_nil_r.
Qed.

Lemma str_join_cons2 sep s t l :
  str_join sep (s :: t :: l) = s +:+ sep +:+ str_join sep (t :: l).
Proof. done. Qed.

(** Splitting undoes joining when no piece contains the separator. *)
Lemma str_split_join c l :
  l ≠ [] → Forall (λ s, char_free c s = true) l →
  str_split (String c "") (str_join (String c "") l) = l.
Proof.
  intros Hne Hl. induction Hl as [|s l Hs Hl IH]; [done|].
  destruct l as [|t l]; [by apply str_split_free|].
  rewrite str_join_cons2, (str_app_cons c ""), str_app_nil_l, str_split_cons by done.
  by rewrite IH.
Qed.

(** Joining undoes splitting. *)
Lemma str_join_split c s : str_join (String c "") (str_split (String c "") s) = s.
Proof.
  unfold str_split. induction s as [|d s IH]; [done|].
  rewrite split_go_char. destruct (split_go _ 0 s) as [p ps].
  destruct (Ascii.eqb c d) eqn:E.
  - apply Ascii.eqb_eq in E as ->. rewrite str_join_cons2, IH. done.
  - destruct ps as [|q ps]; simpl in IH |- *; [by rewrite <- IH|].
    by rewrite str_app_cons, IH.
Qed.

Lemma str_split_pieces_free c s :
  Forall (λ p, char_free c p = true) (str_split (String c "") s).
Proof.
  unfold str_split. induction s as [|d s IH]; [by repeat constructor|].
  rewrite split_go_char. destruct (split_go _ 0 s) as [p ps].
  destruct (Ascii.eqb c d) eqn:E; [by constructor|].
  inversion IH; subst. constructor; [|done].
  rewrite char_free_cons, Ascii.eqb_sym, E. done.
Qed.

Lemma str_split_not_nil sep s : str_split sep s ≠ [].
Proof. unfold str_split. by destruct (split_go sep 0 s). Qed.

(** ** Searching and slicing on one character *)

Lemma index_of_go_char c s i :
  index_of_go (String c "") s i =
  match s with
  | EmptyString => -1
  | String d s' => if Ascii.eqb c d then i else index_of_go (String c "") s' (i + 1)
  end.
Proof.
  destruct s as [|d s]; [done|].
  change (index_of_go (String c "") (String d s) i) with
    (if String.prefix (String c "") (String d s) then i
     else index_of_go (String c "") s (i + 1)).
  by rewrite prefix_char.
Qed.

Lemma index_of_free c s : char_free c s = true → str_index_of s (String c "") = -1.
Proof.
  unfold str_index_of. generalize 0. induction s as [|d s IH]; intros i Hs; [done|].
  rewrite char_free_cons in Hs. apply andb_true_iff in Hs as [Hd Hs].
  rewrite index_of_go_char, Ascii.eqb_sym. apply negb_true_iff in Hd.
  rewrite Hd. by apply IH.
Qed.

Lemma index_of_app c s r :
  char_free c s = true → str_index_of (s +:+ String c r) (String c "") = str_len s.
Proof.
  unfold str_index_of. intros Hs. cut (∀ i, index_of_go (String c "") (s +:+ String c r) i = i + str_len s).
  { intros H. by rewrite H. }
  unfold str_len. induction s as [|d s IH]; intros i.
  - change ("" +:+ String c r) with (String c r).
    rewrite index_of_go_char, Ascii.eqb_refl. simpl. lia.
  - rewrite char_free_cons in Hs. apply andb_true_iff in Hs as [Hd Hs].
    rewrite str_app_cons, index_of_go_char, Ascii.eqb_sym.
    apply negb_true_iff in Hd. rewrite Hd, IH by done.
    cbn [String.length]. lia.
Qed.

Lemma index_of_char_neg c s :
  (str_index_of s (String c "") <? 0) = char_free c s.
Proof.
  destruct (char_free c s) eqn:E.
  - rewrite index_of_free by done. done.
  - unfold str_index_of. cut (∀ i, 0 <= i → 0 <= index_of_go (String c "") s i).
    { intros H. apply Z.ltb_ge. by apply H. }
    induction s as [|d s IH]; [done|]. intros i Hi.
    rewrite char_free_cons in E. rewrite index_of_go_char, Ascii.eqb_sym.
    destruct (Ascii.eqb d c); [done|]. apply IH; [done|lia].
Qed.

Lemma str_upto_app s r : str_upto (str_len s) (s +:+ r) = s.
Proof.
  unfold str_upto, str_len. rewrite Nat2Z.id.
  induction s as [|c s IH]; [by destruct r|].
  rewrite str_app_cons. simpl. by rewrite IH.
Qed.

Lemma str_from_app s c r : str_from (str_len s + 1) (s +:+ String c r) = r.
Proof.
  unfold str_from, str_len.
  replace (Z.to_nat (Z.of_nat (String.length s) + 1)) with (S (String.length s)) by lia.
  induction s as [|d s IH]; [done|]. by rewrite str_app_cons.
Qed.

(** ** Decimal numerals *)

Definition is_digit (c : ascii) : bool :=
  let n := nat_of_ascii c in Nat.leb 48 n && Nat.leb n 57.

Lemma digit_char_spec d :
  0 <= d < 10 → radix_digit 10 (digit_char d) = Some d ∧ is_digit (digit_char d) = true
  ∧ is_ws (digit_char d) = false.
Proof.
  intros H. assert (d = 0 ∨ d = 1 ∨ d = 2 ∨ d = 3 ∨ d = 4 ∨ d = 5 ∨ d = 6 ∨ d = 7 ∨ d = 8 ∨ d = 9)
    as Hd by lia.
  by destruct_or! Hd; subst.
Qed.

Lemma dec_go_parse fuel n acc :
  0 <= n < 10 ^ Z.of_nat fuel →
  parse_digits 10 0 (dec_go fuel n acc) = parse_digits 10 n acc.
Proof.
  revert n acc. induction fuel as [|f IH]; intros n acc Hn; [simpl in *; f_equal; lia|].
  assert (0 <= n mod 10 < 10) as Hm by (apply Z.mod_pos_bound; lia).
  pose proof (Z.div_mod n 10 ltac:(lia)) as Hdm.
  assert (∀ a, parse_digits 10 a (String (digit_char (n mod 10)) acc)
               = parse_digits 10 (a * 10 + n mod 10) acc) as Hstep.
  { intros a. simpl. by rewrite (proj1 (digit_char_spec _ Hm)). }
  cbn [dec_go]. case_if; bool_to_prop.
  - rewrite Hstep. f_equal. lia.
  - rewrite IH, Hstep; [f_equal; lia|].
    split; [apply Z.div_pos; lia|]. apply Z.div_lt_upper_bound; [lia|].
    rewrite Nat2Z.inj_succ, Z.pow_succ_r in Hn by lia. lia.
Qed.

Lemma dec_go_digits fuel n acc :
  0 <= n → str_forall is_digit acc = true → str_forall is_digit (dec_go fuel n acc) = true.
Proof.
  revert n acc. induction fuel as [|f IH]; intros n acc Hn Hacc; [done|].
  assert (0 <= n mod 10 < 10) as Hm by (apply Z.mod_pos_bound; lia).
  cbn [dec_go]. case_if; simpl; [|apply IH; [apply Z.div_pos; lia|]; simpl];
    by rewrite (proj1 (proj2 (digit_char_spec _ Hm))).
Qed.

Lemma dec_go_nonempty fuel n acc : acc ≠ "" → dec_go fuel n acc ≠ "".
Proof.
  revert n acc. induction fuel as [|f IH]; intros n acc H; [done|].
  cbn [dec_go]. case_if; [done|by apply IH].
Qed.

Lemma dec_fuel n : 0 <= n → n < 10 ^ Z.of_nat (S (Z.to_nat (Z.log2 n))).
Proof.
  intros Hn. rewrite Nat2Z.inj_succ, Z2Nat.id by apply Z.log2_nonneg.
  destruct (decide (n = 0)) as [->|]; [simpl; lia|].
  pose proof (proj2 (Z.log2_spec n ltac:(lia))).
  eapply Z.lt_le_trans; [done|]. apply Z.pow_le_mono_l. lia.
Qed.

Lemma dec_nonneg_digits n : 0 <= n → str_forall is_digit (dec_nonneg n) = true.
Proof. intros. by apply dec_go_digits. Qed.

Lemma dec_nonneg_nonempty n : dec_nonneg n ≠ "".
Proof. unfold dec_nonneg. cbn [dec_go]. case_if; [done|by apply dec_go_nonempty]. Qed.

Lemma is_digit_radix c : is_digit c = true → is_Some (radix_digit 10 c) ∧ is_ws c = false
  ∧ Ascii.eqb c "-" = false ∧ Ascii.eqb c "+" = false.
Proof.
  destruct c as [[] [] [] [] [] [] [] []]; try (intros; discriminate); intros _;
    (split; [by eexists|done]).
Qed.

Lemma digits_free c s :
  is_digit c = false → str_forall is_digit s = true → char_free c s = true.
Proof.
  intros Hc. induction s as [|d s IH]; [done|]. cbn [str_forall]. intros H.
  apply andb_true_iff in H as [Hd Hs]. rewrite char_free_cons, IH by done.
  rewrite andb_true_r. apply negb_true_iff, Ascii.eqb_neq. by intros ->; congruence.
Qed.

Lemma dec_free c n : is_digit c = false → 0 <= n → char_free c (dec n) = true.
Proof.
  intros Hc Hn. unfold dec. rewrite (proj2 (Z.ltb_ge n 0)) by lia.
  by apply digits_free, dec_nonneg_digits.
Qed.

Lemma parse_digits_stop radix a s c r :
  radix_digit radix c = None →
  parse_digits radix a (s +:+ String c r) = parse_digits radix a s.
Proof.
  intros Hc. revert a. induction s as [|d s IH]; intros a.
  - change ("" +:+ String c r) with (String c r). simpl. by rewrite Hc.
  - rewrite str_app_cons. simpl. by destruct (radix_digit radix d).
Qed.

(** A text that starts with a digit is read from its first character. *)
Lemma parseInt10_digit c s :
  is_digit c = true → parseInt (String c s) 10 = num_of_Z (parse_digits 10 0 (String c s)).
Proof.
  intros Hc. destruct (is_digit_radix _ Hc) as ([d Hd] & Hws & Hm & Hp).
  unfold parseInt. cbn [trim_start]. rewrite Hws.
  assert ((match String c s with
           | String "-" s' => (true, s') | String "+" s' => (false, s')
           | _ => (false, String c s) end) = (false, String c s)) as ->.
  { destruct c as [[] [] [] [] [] [] [] []]; done. }
  cbn [Z.eqb Pos.eqb parse_unsigned]. by rewrite Hd.
Qed.

Lemma dec_nonneg_cons n : 0 <= n → ∃ c s, dec_nonneg n = String c s ∧ is_digit c = true.
Proof.
  intros Hn. pose proof (dec_nonneg_digits n Hn) as Hd.
  pose proof (dec_nonneg_nonempty n) as Hne.
  destruct (dec_nonneg n) as [|c s]; [done|]. cbn [str_forall] in Hd.
  apply andb_true_iff in Hd as [? ?]. eauto.
Qed.

Lemma parse_dec_nonneg n : 0 <= n → parse_digits 10 0 (dec_nonneg n) = n.
Proof.
  intros Hn. unfold dec_nonneg. rewrite dec_go_parse; [done|].
  split; [done|]. by apply dec_fuel.
Qed.

(** [parseInt] reads back the decimal form of an integer. *)
Lemma parseInt_dec n : 0 <= n → safe n → parseInt (dec n) 10 = Fin n.
Proof.
  intros Hn Hs. unfold dec. rewrite (proj2 (Z.ltb_ge n 0)) by lia.
  destruct (dec_nonneg_cons n Hn) as (c & s & Heq & Hc).
  rewrite Heq, parseInt10_digit by done. rewrite <- Heq, parse_dec_nonneg by done.
  by apply num_of_Z_safe.
Qed.

(** It stops at the first character that is not a digit. *)
Lemma parseInt_dec_stop n c r :
  0 <= n → safe n → radix_digit 10 c = None → parseInt (dec n +:+ String c r) 10 = Fin n.
Proof.
  intros Hn Hs Hc. unfold dec. rewrite (proj2 (Z.ltb_ge n 0)) by lia.
  destruct (dec_nonneg_cons n Hn) as (d & s & Heq & Hd).
  rewrite Heq, str_app_cons, parseInt10_digit by done.
  rewrite <- str_app_cons, <- Heq, parse_digits_stop, parse_dec_nonneg by done.
  by apply num_of_Z_safe.
Qed.

Lemma dec_inj a b : 0 <= a → 0 <= b → dec a = dec b → a = b.
Proof.
  intros Ha Hb. unfold dec. rewrite !(proj2 (Z.ltb_ge _ 0)) by lia. intros H.
  by rewrite <- (parse_dec_nonneg a), <- (parse_dec_nonneg b), H.
Qed.

#[export] Hint Resolve dec_free parseInt_dec : js.

(** ** Texts without white space *)

Definition no_ws (s : string) : bool := str_forall (λ c, negb (is_ws c)) s.

Lemma trim_start_no_ws s : no_ws s = true → trim_start s = s.
Proof.
  destruct s as [|c s]; [done|]. unfold no_ws. cbn [str_forall trim_start].
  intros [Hc _]%andb_true_iff. apply negb_true_iff in Hc. by rewrite Hc.
Qed.

Lemma trim_end_no_ws s : no_ws s = true → trim_end s = s.
Proof.
  unfold no_ws. induction s as [|c s IH]; [done|]. cbn [str_forall trim_end].
  intros [Hc Hs]%andb_true_iff. rewrite IH by done. apply negb_true_iff in Hc.
  rewrite Hc. by destruct s.
Qed.

Lemma str_trim_no_ws s : no_ws s = true → str_trim s = s.
Proof. intros H. unfold str_trim. by rewrite trim_start_no_ws, trim_end_no_ws. Qed.

Lemma str_forall_impl P Q s :
  (∀ c, P c = true → Q c = true) → str_forall P s = true → str_forall Q s = true.
Proof.
  intros H. induction s as [|c s IH]; [done|]. cbn [str_forall].
  intros [? ?]%andb_true_iff. rewrite H, IH by done. done.
Qed.

Lemma dec_no_ws n : 0 <= n → no_ws (dec n) = true.
Proof.
  intros Hn. unfold dec. rewrite (proj2 (Z.ltb_ge n 0)) by lia.
  eapply str_forall_impl; [|by apply dec_nonneg_digits].
  intros c Hc. destruct (is_digit_radix c Hc) as (_ & Hw & _). by rewrite Hw.
Qed.

Lemma dec_truthy n : str_truthy (dec n) = true.
Proof.
  unfold dec. case_if; [done|]. pose proof (dec_nonneg_nonempty n).
  unfold str_truthy. apply negb_true_iff. by apply String.eqb_neq.
Qed.

Lemma str_truthy_app_r s t : str_truthy t = true → str_truthy (s +:+ t) = true.
Proof. by destruct s. Qed.

Lemma str_truthy_app_l s t : str_truthy s = true → str_truthy (s +:+ t) = true.
Proof. by destruct s. Qed.

Lemma index_of_char_nonneg c s :
  (0 <=? str_index_of s (String c "")) = negb (char_free c s).
Proof. rewrite <- index_of_char_neg. by rewrite Z.leb_antisym. Qed.
