(* ===== verification/JsArray.v ===== *)
(** [Array.prototype.sort] with a comparison function, and small array
    helpers. *)
From stdpp Require Import base list sorting.
From Stdlib Require Import ZArith Lia Bool.
From S2P Require Import Prelude.

(** [l.sort(cmp)] where [before x y] is [cmp(x, y) < 0].  The sort of the
    language is stable, so for a comparison that is a strict weak order the
    result is determined; insertion sort computes it. *)
Fixpoint insert_by {A} (before : A → A → bool) (x : A) (l : list A) : list A :=
  match l with
  | [] => [x]
  | y :: l' => if before y x then y :: insert_by before x l' else x :: l
  end.

(** Inserting from the right end keeps equal elements in their order. *)
Fixpoint sort_by {A} (before : A → A → bool) (l : list A) : list A :=
  match l with
  | [] => []
  | x :: l' => insert_by before x (sort_by before l')
  end.

Section SortFacts.
Context {A : Type} (before : A → A → bool).

Lemma insert_by_perm x l : insert_by before x l ≡ₚ x :: l.
Proof.
  induction l as [|y l IH]; [done|]. cbn [insert_by]. case_if; [|done].
  rewrite IH. apply Permutation_swap.
Qed.

Lemma sort_by_perm l : sort_by before l ≡ₚ l.
Proof.
  induction l as [|x l IH]; [done|]. cbn [sort_by]. by rewrite insert_by_perm, IH.
Qed.

(** The order the sorted array is in: no element is before an earlier one. *)
Definition not_after (x y : A) : Prop := before y x = false.

Context (before_asym : ∀ x y, before x y = true → before y x = false).
Context (not_after_trans : ∀ x y z, not_after x y → not_after y z → not_after x z).

Lemma insert_by_sorted x l : StronglySorted not_after l → StronglySorted not_after (insert_by before x l).
Proof.
  induction 1 as [|y l Hl IH Hy]; [by repeat constructor|]. cbn [insert_by].
  destruct (before y x) eqn:E.
  - constructor; [done|]. rewrite insert_by_perm. constructor; [|done].
    by apply before_asym.
  - constructor; [by constructor|]. constructor; [done|].
    eapply Forall_impl; [exact Hy|]. intros z Hz. by apply not_after_trans with y.
Qed.

Lemma sort_by_sorted l : StronglySorted not_after (sort_by before l).
Proof. induction l; [constructor|]. by apply insert_by_sorted. Qed.

(** Stability: the elements that compare equal to [c] keep their order. *)
Definition same_class (c x : A) : bool := negb (before c x) && negb (before x c).

Lemma insert_by_stable c x l :
  (∀ y, same_class c x = true → before y x = true → same_class c y = false) →
  List.filter (same_class c) (insert_by before x l) = List.filter (same_class c) (x :: l).
Proof.
  intros Hx. induction l as [|y l IH]; [done|]. cbn [insert_by].
  destruct (before y x) eqn:E; [|done]. cbn [List.filter] in *.
  destruct (same_class c x) eqn:Ex.
  - rewrite (Hx y) by done. exact IH.
  - by rewrite IH.
Qed.

Lemma sort_by_stable c l :
  (∀ x y, same_class c x = true → before y x = true → same_class c y = false) →
  List.filter (same_class c) (sort_by before l) = List.filter (same_class c) l.
Proof.
  intros H. induction l as [|x l IH]; [done|]. cbn [sort_by].
  rewrite insert_by_stable by (intros y; apply H). cbn [List.filter].
  by rewrite IH.
Qed.

(** An array already in order is left as it is. *)
Lemma sort_by_id l : StronglySorted (λ x y, before y x = false) l → sort_by before l = l.
Proof.
  induction 1 as [|x l Hl IH Hx]; [done|]. cbn [sort_by]. rewrite IH.
  destruct Hx as [|y l Hy _]; [done|]. cbn [insert_by]. by rewrite Hy.
Qed.
End SortFacts.

(** [a[i] = v] inside the bounds, as the handlers of the views use it. *)
Definition list_update {A} (f : A → A) (i : nat) (l : list A) : list A := alter f i l.

(** [a.splice(i, 1)] *)
Fixpoint list_remove {A} (i : nat) (l : list A) : list A :=
  match l, i with
  | [], _ => []
  | _ :: l', O => l'
  | x :: l', S i' => x :: list_remove i' l'
  end.

Lemma list_remove_Forall {A} (P : A → Prop) i l : Forall P l → Forall P (list_remove i l).
Proof.
  intros Hl. revert i. induction Hl as [|x l Hx Hl IH]; intros i; [by destruct i|].
  destruct i; cbn [list_remove]; [done|]. constructor; [done|apply IH].
Qed.

Lemma list_update_Forall {A} (P : A → Prop) f i l :
  Forall P l → (∀ x, P x → P (f x)) → Forall P (list_update f i l).
Proof.
  intros Hl Hf. unfold list_update. apply Forall_alter; [done|]. intros; eauto.
Qed.
