(* ===== verification/JsObject.v ===== *)
(** Objects used as dictionaries.

    A plain object [{}] remembers the order in which its own properties were
    created, and a lookup that finds no own property continues in
    [Object.prototype], whose members are truthy values.  Assigning to the
    key [__proto__] creates no property; the change of the prototype such an
    assignment makes when the value is an object is not modelled. *)
From stdpp Require Import base list strings.
From Stdlib Require Import ZArith Lia Ascii Bool.
From S2P Require Import Prelude JsNum JsString JsArray.

Definition jsobj (A : Type) : Type := list (string * A).

Definition proto_keys : list string :=
  ["constructor"; "__defineGetter__"; "__defineSetter__"; "hasOwnProperty";
   "__lookupGetter__"; "__lookupSetter__"; "isPrototypeOf";
   "propertyIsEnumerable"; "toString"; "valueOf"; "__proto__"; "toLocaleString"].

Definition in_proto (k : string) : bool := existsb (String.eqb k) proto_keys.

(** [o[k]] *)
Inductive slot (A : Type) : Type :=
  | Own (a : A)
  | Inherited
  | Absent.
Arguments Own {A} a.
Arguments Inherited {A}.
Arguments Absent {A}.

Fixpoint obj_own {A} (k : string) (o : jsobj A) : option A :=
  match o with
  | [] => None
  | (k', v) :: o' => if String.eqb k k' then Some v else obj_own k o'
  end.

Definition obj_get {A} (k : string) (o : jsobj A) : slot A :=
  match obj_own k o with
  | Some a => Own a
  | None => if in_proto k then Inherited else Absent
  end.

Fixpoint obj_put {A} (k : string) (v : A) (o : jsobj A) : jsobj A :=
  match o with
  | [] => [(k, v)]
  | (k', v') :: o' => if String.eqb k k' then (k, v) :: o' else (k', v') :: obj_put k v o'
  end.

(** [o[k] = v] *)
Definition obj_set {A} (k : string) (v : A) (o : jsobj A) : jsobj A :=
  if String.eqb k "__proto__" then o else obj_put k v o.

(** [!!o[k]] for an object whose own values are all truthy. *)
Definition obj_has {A} (k : string) (o : jsobj A) : bool :=
  match obj_get k o with Absent => false | _ => true end.

(** [Object.keys(o)]: array indices in ascending order, then the other keys
    in order of creation. *)
Definition array_index (k : string) : option Z :=
  match k with
  | EmptyString => None
  | String c r =>
      if str_forall is_digit k && (negb (Ascii.eqb c "0") || String.eqb r "") then
        let v := parse_digits 10 0 k in
        if v <? 2 ^ 32 - 1 then Some v else None
      else None
  end.

Definition obj_names {A} (o : jsobj A) : list string := map fst o.

Definition index_before (a b : string) : bool :=
  match array_index a, array_index b with
  | Some x, Some y => x <? y
  | Some _, None => true
  | None, _ => false
  end.

Definition obj_keys {A} (o : jsobj A) : list string := sort_by index_before (obj_names o).

(** ** Facts *)

Lemma obj_own_put {A} k k' (v : A) o :
  obj_own k' (obj_put k v o) = if String.eqb k' k then Some v else obj_own k' o.
Proof.
  induction o as [|[j w] o IH]; cbn [obj_put obj_own]; [done|].
  destruct (String.eqb k j) eqn:E; cbn [obj_own].
  - apply String.eqb_eq in E as ->. by destruct (String.eqb k' j).
  - rewrite IH. destruct (String.eqb k' j) eqn:E1, (String.eqb k' k) eqn:E2; try done.
    apply String.eqb_eq in E1, E2. subst. by rewrite String.eqb_refl in E.
Qed.

Lemma obj_own_set {A} k k' (v : A) o :
  k ≠ "__proto__" →
  obj_own k' (obj_set k v o) = if String.eqb k' k then Some v else obj_own k' o.
Proof.
  intros Hk. unfold obj_set. apply String.eqb_neq in Hk. rewrite Hk. apply obj_own_put.
Qed.

Lemma obj_has_own {A} k (o : jsobj A) :
  in_proto k = false → obj_has k o = match obj_own k o with Some _ => true | None => false end.
Proof.
  intros Hk. unfold obj_has, obj_get. by destruct (obj_own k o); rewrite ?Hk.
Qed.

Lemma obj_has_or {A} k (o : jsobj A) :
  obj_has k o = in_proto k || match obj_own k o with Some _ => true | None => false end.
Proof. unfold obj_has, obj_get. destruct (obj_own k o), (in_proto k); done. Qed.

Lemma obj_own_names {A} k (o : jsobj A) : is_Some (obj_own k o) ↔ k ∈ obj_names o.
Proof.
  induction o as [|[j v] o IH]; cbn [obj_own].
  - split; [by intros [? ?]|by intros ?%not_elem_of_nil].
  - unfold obj_names in *. cbn [map fst]. rewrite elem_of_cons, <- IH.
    destruct (String.eqb k j) eqn:E.
    + apply String.eqb_eq in E. naive_solver.
    + apply String.eqb_neq in E. naive_solver.
Qed.

Lemma obj_keys_elem {A} k (o : jsobj A) : k ∈ obj_keys o ↔ is_Some (obj_own k o).
Proof. unfold obj_keys. by rewrite sort_by_perm, obj_own_names. Qed.

Lemma obj_put_names {A} k (v : A) o :
  obj_names (obj_put k v o) =
  if bool_decide (k ∈ obj_names o) then obj_names o else obj_names o ++ [k].
Proof.
  unfold obj_names. induction o as [|[j w] o IH]; cbn [obj_put map fst].
  { done. }
  destruct (String.eqb k j) eqn:E.
  - apply String.eqb_eq in E as ->. rewrite bool_decide_true by left. done.
  - apply String.eqb_neq in E. cbn [map fst]. rewrite IH.
    destruct (decide (k ∈ map fst o)).
    + rewrite !bool_decide_true by (done || by right). done.
    + rewrite !bool_decide_false; [done| |done]. by rewrite elem_of_cons; intros [?|?].
Qed.

Lemma obj_put_NoDup {A} k (v : A) o : NoDup (obj_names o) → NoDup (obj_names (obj_put k v o)).
Proof.
  intros H. rewrite obj_put_names. case_bool_decide; [done|].
  apply NoDup_app. split_and!; [done| |apply NoDup_singleton].
  intros x Hx ->%list_elem_of_singleton. done.
Qed.

(** An object built by assigning a truthy value to every key of a list. *)
Definition obj_of_keys (ks : list string) : jsobj bool :=
  fold_left (λ o k, obj_set k true o) ks [].

Lemma obj_of_keys_own k ks :
  obj_own k (obj_of_keys ks) =
  if bool_decide (k ∈ ks) && negb (String.eqb k "__proto__") then Some true else None.
Proof.
  unfold obj_of_keys.
  enough (∀ o, obj_own k (fold_left (λ o k, obj_set k true o) ks o) =
    if bool_decide (k ∈ ks) && negb (String.eqb k "__proto__") then Some true else obj_own k o) as H
    by apply H.
  induction ks as [|j ks IH]; intros o; cbn [fold_left]; [done|]. rewrite IH.
  destruct (decide (k ∈ ks)).
  { rewrite !bool_decide_true by (done || by right).
    destruct (String.eqb k "__proto__") eqn:E; [|done]. cbn. unfold obj_set.
    destruct (String.eqb j "__proto__") eqn:Ej; [done|]. rewrite obj_own_put.
    apply String.eqb_eq in E as ->. by rewrite String.eqb_sym, Ej. }
  rewrite (bool_decide_false (k ∈ ks)) by done. cbn.
  unfold obj_set. destruct (String.eqb j "__proto__") eqn:Ej.
  - apply String.eqb_eq in Ej as ->. destruct (String.eqb k "__proto__") eqn:E.
    + by rewrite andb_false_r.
    + rewrite bool_decide_false; [done|]. apply String.eqb_neq in E.
      by rewrite elem_of_cons; intros [?|?].
  - rewrite obj_own_put. destruct (String.eqb k j) eqn:E.
    + apply String.eqb_eq in E as ->. rewrite Ej, bool_decide_true by left. done.
    + apply String.eqb_neq in E. rewrite bool_decide_false; [done|].
      by rewrite elem_of_cons; intros [?|?].
Qed.
