(* ===== verification/JsRegExp.v ===== *)
(** Regular expressions of the language: characters, concatenation,
    alternation, repetition and the word boundary, [test] by derivatives, and
    the relation that says what a text matches. *)
From stdpp Require Import base list strings.
From Stdlib Require Import ZArith Lia Ascii Bool.
From S2P Require Import Prelude JsString.

(** ** Expressions *)

Inductive re : Type :=
  | RNone
  | REps
  | RChar (P : ascii → bool)
  | RCat (a b : re)
  | RAlt (a b : re)
  | RStar (a : re)
  | RBound.

Definition RPlus (a : re) : re := RCat a (RStar a).
Definition ROpt (a : re) : re := RAlt a REps.

(** [a{n}] and [a{n,m}]. *)
Fixpoint RTimes (n : nat) (a : re) : re :=
  match n with O => REps | S n' => RCat a (RTimes n' a) end.

Fixpoint RUpTo (n : nat) (a : re) : re :=
  match n with O => REps | S n' => ROpt (RCat a (RUpTo n' a)) end.

Definition RBetween (n m : nat) (a : re) : re := RCat (RTimes n a) (RUpTo (m - n) a).


(** A literal text; with the flag [i], any of its spellings. *)
Fixpoint RText (s : string) : re :=
  match s with
  | EmptyString => REps
  | String c r => RCat (RChar (λ d, Ascii.eqb d c)) (RText r)
  end.

(** [(a|b|c)] over literal texts. *)
Definition RTexts (l : list string) : re := fold_right (λ s r, RAlt (RText s) r) RNone l.

Fixpoint RText_i (s : string) : re :=
  match s with
  | EmptyString => REps
  | String c r => RCat (RChar (λ d, Ascii.eqb (ascii_lower d) (ascii_lower c))) (RText_i r)
  end.

(** [\w] *)
Definition is_word (c : ascii) : bool :=
  let n := nat_of_ascii c in
  (Nat.leb 48 n && Nat.leb n 57) || (Nat.leb 65 n && Nat.leb n 90)
  || (Nat.leb 97 n && Nat.leb n 122) || Nat.eqb n 95.

(** [\b] between two characters, or an end of the subject and a character. *)
Definition boundary (prev next : option ascii) : bool :=
  xorb (from_option is_word false prev) (from_option is_word false next).

(** ** Matching *)

Fixpoint nullable (prev next : option ascii) (r : re) : bool :=
  match r with
  | RNone | RChar _ => false
  | REps | RStar _ => true
  | RCat a b => nullable prev next a && nullable prev next b
  | RAlt a b => nullable prev next a || nullable prev next b
  | RBound => boundary prev next
  end.

Definition mk_cat (a b : re) : re :=
  match a with RNone => RNone | REps => b | _ => RCat a b end.

Definition mk_alt (a b : re) : re :=
  match a, b with RNone, _ => b | _, RNone => a | _, _ => RAlt a b end.

(** What remains to match after the character [c]. *)
Fixpoint deriv (prev : option ascii) (c : ascii) (r : re) : re :=
  match r with
  | RNone | REps | RBound => RNone
  | RChar P => if P c then REps else RNone
  | RCat a b =>
      let d := mk_cat (deriv prev c a) b in
      if nullable prev (Some c) a then mk_alt d (deriv prev c b) else d
  | RAlt a b => mk_alt (deriv prev c a) (deriv prev c b)
  | RStar a => mk_cat (deriv prev c a) (RStar a)
  end.

Definition first_of (s : string) (next : option ascii) : option ascii :=
  match s with EmptyString => next | String c _ => Some c end.

Fixpoint last_of (prev : option ascii) (s : string) : option ascii :=
  match s with EmptyString => prev | String c r => last_of (Some c) r end.

(** A match that begins here. *)
Fixpoint match_here (prev : option ascii) (s : string) (r : re) : bool :=
  nullable prev (first_of s None) r
  || match s with
     | EmptyString => false
     | String c s' => match_here (Some c) s' (deriv prev c r)
     end.

Fixpoint test_from (prev : option ascii) (s : string) (r : re) : bool :=
  match_here prev s r
  || match s with
     | EmptyString => false
     | String c s' => test_from (Some c) s' r
     end.

(** [r.test(s)] *)
Definition re_test (r : re) (s : string) : bool := test_from None s r.

(** [/^r$/.test(s)] and [/r$/.test(s)]: without the flag [m], [$] is the end of
    the subject. *)
Fixpoint match_all (prev : option ascii) (s : string) (r : re) : bool :=
  match s with
  | EmptyString => nullable prev None r
  | String c s' => match_all (Some c) s' (deriv prev c r)
  end.

Definition re_full (r : re) (s : string) : bool := match_all None s r.

Fixpoint ends_from (prev : option ascii) (s : string) (r : re) : bool :=
  match_all prev s r
  || match s with
     | EmptyString => false
     | String c s' => ends_from (Some c) s' r
     end.

Definition re_ends (r : re) (s : string) : bool := ends_from None s r.

(** [/^r/.test(s)] *)
Definition re_begins (r : re) (s : string) : bool := match_here None s r.

(** ** What a text matches, between the characters around it *)

Inductive matches : option ascii → re → string → option ascii → Prop :=
  | M_eps p n : matches p REps "" n
  | M_char p n (P : ascii → bool) c : P c = true → matches p (RChar P) (String c "") n
  | M_cat p n a b s t :
      matches p a s (first_of t n) → matches (last_of p s) b t n → matches p (RCat a b) (s +:+ t) n
  | M_alt_l p n a b s : matches p a s n → matches p (RAlt a b) s n
  | M_alt_r p n a b s : matches p b s n → matches p (RAlt a b) s n
  | M_star_nil p n a : matches p (RStar a) "" n
  | M_star p n a c s t :
      matches p a (String c s) (first_of t n) → matches (last_of (Some c) s) (RStar a) t n →
      matches p (RStar a) (String c (s +:+ t)) n
  | M_bound p n : boundary p n = true → matches p RBound "" n.

Lemma str_app_nil_inv s t : s +:+ t = "" → s = "" ∧ t = "".
Proof. by destruct s, t. Qed.

Lemma str_app_cons_inv s t c u :
  s +:+ t = String c u →
  (s = "" ∧ t = String c u) ∨ ∃ s', s = String c s' ∧ s' +:+ t = u.
Proof.
  destruct s as [|d s]; [by left|]. rewrite str_app_cons. intros [= -> <-]. right. by exists s.
Qed.

Lemma nullable_spec p n r : nullable p n r = true ↔ matches p r "" n.
Proof.
  revert p n. induction r as [| |P|a IHa b IHb|a IHa b IHb|a IHa|]; intros p n; cbn [nullable].
  - split; [done|inversion 1].
  - split; [constructor|done].
  - split; [done|inversion 1].
  - rewrite andb_true_iff, IHa, IHb. split.
    + intros [Ha Hb]. by apply (M_cat p n a b "" "").
    + inversion 1 as [| |? ? ? ? s t Ha Hb E| | | | |]. subst.
      match goal with E : _ +:+ _ = "" |- _ => apply str_app_nil_inv in E as [-> ->] end. by split.
  - rewrite orb_true_iff, IHa, IHb. split.
    + by intros [?|?]; [apply M_alt_l|apply M_alt_r].
    + inversion 1; subst; [by left|by right].
  - split; [constructor|done].
  - split; [by constructor|by inversion 1].
Qed.

Lemma mk_cat_spec p a b s n : matches p (mk_cat a b) s n ↔ matches p (RCat a b) s n.
Proof.
  destruct a; cbn [mk_cat]; try done.
  - split; [inversion 1|]. inversion 1; subst.
    match goal with H : matches _ RNone _ _ |- _ => inversion H end.
  - split.
    + intros H. by apply (M_cat p n REps b "" s); [constructor|].
    + inversion 1; subst. match goal with H : matches _ REps _ _ |- _ => inversion H; by subst end.
Qed.

Lemma alt_spec p a b s n : matches p (RAlt a b) s n ↔ matches p a s n ∨ matches p b s n.
Proof.
  split; [inversion 1; subst; [by left|by right]|].
  by intros [?|?]; [apply M_alt_l|apply M_alt_r].
Qed.

Lemma none_spec p s n : ¬ matches p RNone s n.
Proof. by inversion 1. Qed.

Lemma mk_alt_spec p a b s n : matches p (mk_alt a b) s n ↔ matches p a s n ∨ matches p b s n.
Proof.
  pose proof (none_spec p s n). destruct a, b; cbn [mk_alt]; rewrite ?alt_spec; tauto.
Qed.

Lemma cat_cons p a b c s n :
  matches p (RCat a b) (String c s) n ↔
  (matches p a "" (Some c) ∧ matches p b (String c s) n) ∨
  ∃ u v, s = u +:+ v ∧ matches p a (String c u) (first_of v n) ∧ matches (last_of (Some c) u) b v n.
Proof.
  split.
  - inversion 1; subst. match goal with E : _ +:+ _ = String _ _ |- _ =>
      apply str_app_cons_inv in E as [[-> ->]|(u & -> & <-)] end; [by left|]. right. eauto.
  - intros [[Ha Hb]|(u & v & -> & Ha & Hb)].
    + by apply (M_cat p n a b "" (String c s)).
    + by apply (M_cat p n a b (String c u) v).
Qed.

Lemma star_cons p a c s n :
  matches p (RStar a) (String c s) n ↔
  ∃ u v, s = u +:+ v ∧ matches p a (String c u) (first_of v n) ∧ matches (last_of (Some c) u) (RStar a) v n.
Proof.
  split; [inversion 1; subst; eauto 6|]. intros (u & v & -> & Ha & Hs). by apply M_star.
Qed.

Lemma deriv_spec p c r s n : matches (Some c) (deriv p c r) s n ↔ matches p r (String c s) n.
Proof.
  revert p s n. induction r as [| |P|a IHa b IHb|a IHa b IHb|a IHa|]; intros p s n; cbn [deriv].
  - split; inversion 1.
  - split; inversion 1.
  - destruct (P c) eqn:E.
    + split; inversion 1; subst; by constructor.
    + split; inversion 1; subst; congruence.
  - rewrite cat_cons, <- nullable_spec.
    assert (matches (Some c) (mk_cat (deriv p c a) b) s n ↔
            ∃ u v, s = u +:+ v ∧ matches p a (String c u) (first_of v n) ∧ matches (last_of (Some c) u) b v n) as Hc.
    { rewrite mk_cat_spec. split.
      - inversion 1; subst. do 2 eexists. split; [done|]. by rewrite <- IHa.
      - intros (u & v & -> & Ha & Hb). apply M_cat; [by apply IHa|done]. }
    destruct (nullable p (Some c) a); rewrite ?mk_alt_spec, Hc, ?IHb; naive_solver.
  - by rewrite mk_alt_spec, alt_spec, IHa, IHb.
  - rewrite star_cons, mk_cat_spec. split.
    + inversion 1; subst. do 2 eexists. split; [done|]. by rewrite <- IHa.
    + intros (u & v & -> & Ha & Hb). apply M_cat; [by apply IHa|done].
  - split; inversion 1.
Qed.

Lemma match_here_spec p s r :
  match_here p s r = true ↔ ∃ m t, s = m +:+ t ∧ matches p r m (first_of t None).
Proof.
  revert p r. induction s as [|c s IH]; intros p r; cbn [match_here]; rewrite orb_true_iff, nullable_spec.
  - split.
    + intros [H|?]; [|done]. by exists "", "".
    + intros (m & t & E & H). symmetry in E. apply str_app_nil_inv in E as [-> ->]. by left.
  - rewrite IH. split.
    + intros [H|(m & t & -> & H)]; [by exists "", (String c s)|].
      exists (String c m), t. split; [done|]. by apply deriv_spec.
    + intros (m & t & E & H). symmetry in E. apply str_app_cons_inv in E as [[-> ->]|(m' & -> & <-)]; [by left|].
      right. exists m', t. split; [done|]. by apply deriv_spec.
Qed.

Lemma test_from_spec p s r :
  test_from p s r = true ↔
  ∃ a m t, s = a +:+ m +:+ t ∧ matches (last_of p a) r m (first_of t None).
Proof.
  revert p. induction s as [|c s IH]; intros p; cbn [test_from]; rewrite orb_true_iff, match_here_spec.
  - split.
    + intros [(m & t & E & H)|?]; [|done]. exists "", m, t. by rewrite str_app_nil_l.
    + intros (a & m & t & E & H). symmetry in E. apply str_app_nil_inv in E as [-> E].
      left. exists m, t. by rewrite E.
  - rewrite IH. split.
    + intros [(m & t & E & H)|(a & m & t & -> & H)]; [exists "", m, t; by rewrite str_app_nil_l|].
      by exists (String c a), m, t.
    + intros (a & m & t & E & H). symmetry in E. apply str_app_cons_inv in E as [[-> E]|(a' & -> & <-)].
      * left. exists m, t. by rewrite E.
      * right. by exists a', m, t.
Qed.

(** [test] finds a match wherever there is one. *)
Lemma re_test_spec r s :
  re_test r s = true ↔
  ∃ a m t, s = a +:+ m +:+ t ∧ matches (last_of None a) r m (first_of t None).
Proof. apply test_from_spec. Qed.

Lemma match_all_spec p s r : match_all p s r = true ↔ matches p r s None.
Proof.
  revert p r. induction s as [|c s IH]; intros p r; cbn [match_all]; [apply nullable_spec|].
  by rewrite IH, deriv_spec.
Qed.

Lemma re_full_spec r s : re_full r s = true ↔ matches None r s None.
Proof. apply match_all_spec. Qed.

Lemma ends_from_spec p s r :
  ends_from p s r = true ↔ ∃ a m, s = a +:+ m ∧ matches (last_of p a) r m None.
Proof.
  revert p. induction s as [|c s IH]; intros p; cbn [ends_from]; rewrite orb_true_iff, match_all_spec.
  - split.
    + intros [H|?]; [|done]. by exists "", "".
    + intros (a & m & E & H). symmetry in E. apply str_app_nil_inv in E as [-> ->]. by left.
  - rewrite IH. split.
    + intros [H|(a & m & -> & H)]; [by exists "", (String c s)|]. by exists (String c a), m.
    + intros (a & m & E & H). symmetry in E. apply str_app_cons_inv in E as [[-> ->]|(a' & -> & <-)].
      * by left.
      * right. by exists a', m.
Qed.

(** ** Matching the constructions *)

Lemma eps_spec p s n : matches p REps s n ↔ s = "".
Proof. split; [by inversion 1|intros ->; constructor]. Qed.

Lemma char_spec p P s n : matches p (RChar P) s n ↔ ∃ c, s = String c "" ∧ P c = true.
Proof. split; [inversion 1; eauto|]. intros (c & -> & H). by constructor. Qed.

Lemma cat_spec p a b s n :
  matches p (RCat a b) s n ↔
  ∃ u v, s = u +:+ v ∧ matches p a u (first_of v n) ∧ matches (last_of p u) b v n.
Proof. split; [inversion 1; subst; eauto 6|]. intros (u & v & -> & Ha & Hb). by apply M_cat. Qed.

Lemma opt_spec p a s n : matches p (ROpt a) s n ↔ matches p a s n ∨ s = "".
Proof. unfold ROpt. by rewrite alt_spec, eps_spec. Qed.

(** An expression without word boundaries matches a text wherever it stands. *)
Fixpoint context_free (r : re) : bool :=
  match r with
  | RBound => false
  | RCat a b | RAlt a b => context_free a && context_free b
  | RStar a => context_free a
  | _ => true
  end.

Lemma matches_anywhere p n r s p' n' : context_free r = true → matches p r s n → matches p' r s n'.
Proof.
  intros Hr H. revert p' n' Hr. induction H; intros p' n' Hr; cbn [context_free] in Hr;
    try apply andb_true_iff in Hr as [Hr1 Hr2]; try done; try (by constructor; auto).
Qed.

(** The language of an expression without word boundaries. *)
Definition lang (r : re) (s : string) : Prop := matches None r s None.

Lemma lang_cat a b s :
  context_free a = true → context_free b = true →
  lang (RCat a b) s ↔ ∃ u v, s = u +:+ v ∧ lang a u ∧ lang b v.
Proof.
  intros Ha Hb. unfold lang. rewrite cat_spec. split; intros (u & v & -> & Hu & Hv); exists u, v;
    (split; [done|]); split; by eapply matches_anywhere.
Qed.

Lemma lang_alt a b s : lang (RAlt a b) s ↔ lang a s ∨ lang b s.
Proof. apply alt_spec. Qed.

Lemma lang_opt a s : lang (ROpt a) s ↔ lang a s ∨ s = "".
Proof. apply opt_spec. Qed.

Lemma lang_char P s : lang (RChar P) s ↔ ∃ c, s = String c "" ∧ P c = true.
Proof. apply char_spec. Qed.

Lemma context_text s : context_free (RText s) = true.
Proof. induction s as [|c s IH]; [done|]. exact IH. Qed.

Lemma lang_text t s : lang (RText t) s ↔ s = t.
Proof.
  revert s. induction t as [|c t IH]; intros s; cbn [RText]; [apply eps_spec|].
  rewrite lang_cat by (done || apply context_text). split.
  - intros (u & v & -> & (d & -> & Hd)%lang_char & Hv%IH). apply Ascii.eqb_eq in Hd as ->. by rewrite Hv.
  - intros ->. exists (String c ""), t. split; [done|]. split; [|by apply IH].
    apply lang_char. exists c. split; [done|apply Ascii.eqb_refl].
Qed.

(** A run of characters. *)
Lemma lang_star_char P s : lang (RStar (RChar P)) s ↔ str_forall P s = true.
Proof.
  induction s as [|c s IH]; [split; [done|constructor]|]. unfold lang in *. rewrite star_cons. cbn [str_forall].
  rewrite andb_true_iff. split.
  - intros (u & v & -> & (d & [= -> ->] & Hd)%char_spec & Hs). split; [done|]. apply IH.
    by eapply matches_anywhere.
  - intros [Hc Hs]. exists "", s. split; [done|]. split; [by apply char_spec; eauto|].
    apply matches_anywhere with (p := None) (n := None); [done|]. by apply IH.
Qed.

Lemma lang_plus_char P s : lang (RPlus (RChar P)) s ↔ s ≠ "" ∧ str_forall P s = true.
Proof.
  unfold RPlus. rewrite lang_cat by done. split.
  - intros (u & v & -> & (c & -> & Hc)%lang_char & Hv%lang_star_char). split; [done|].
    rewrite str_app_cons, str_app_nil_l. cbn. by rewrite Hc.
  - intros [Hne Hs]. destruct s as [|c s]; [done|]. cbn in Hs. apply andb_true_iff in Hs as [Hc Hs].
    exists (String c ""), s. split; [done|]. split; [by apply lang_char; eauto|by apply lang_star_char].
Qed.

(** ** Bounds on what matches *)

(** Every character satisfies [Q]. *)
Fixpoint chars_ok (Q : ascii → bool) (r : re) : Prop :=
  match r with
  | RChar P => ∀ c, P c = true → Q c = true
  | RCat a b | RAlt a b => chars_ok Q a ∧ chars_ok Q b
  | RStar a => chars_ok Q a
  | _ => True
  end.

Lemma chars_forall Q p r s n : chars_ok Q r → matches p r s n → str_forall Q s = true.
Proof.
  intros Hr H. induction H; cbn [chars_ok] in Hr; try done; try (destruct Hr as [Hr1 Hr2]; auto).
  - cbn. by rewrite (Hr c).
  - rewrite str_forall_app. apply andb_true_iff. auto.
  - specialize (IHmatches1 Hr). specialize (IHmatches2 Hr). cbn in *.
    apply andb_true_iff in IHmatches1 as [Hc Hs]. rewrite str_forall_app. by rewrite Hc, Hs, IHmatches2.
Qed.

(** The greatest length, where there is one. *)
Fixpoint max_len (r : re) : option nat :=
  match r with
  | RChar _ => Some 1%nat
  | RCat a b =>
      match max_len a, max_len b with Some x, Some y => Some (x + y)%nat | _, _ => None end
  | RAlt a b =>
      match max_len a, max_len b with Some x, Some y => Some (Nat.max x y) | _, _ => None end
  | RStar _ => None
  | _ => Some 0%nat
  end.

Lemma max_len_bound p r s n k : max_len r = Some k → matches p r s n → (String.length s <= k)%nat.
Proof.
  intros Hk H. revert k Hk. induction H; intros k Hk; cbn [max_len] in Hk; try (injection Hk as <-; cbn; lia);
    try done; destruct (max_len a) as [x|]; try done; destruct (max_len b) as [y|]; try done; injection Hk as <-.
  - rewrite str_length_app. specialize (IHmatches1 x eq_refl). specialize (IHmatches2 y eq_refl). lia.
  - specialize (IHmatches x eq_refl). lia.
  - specialize (IHmatches y eq_refl). lia.
Qed.
