(* ===== verification/JsMatch.v ===== *)
(** Regular expressions that are a sequence of texts and runs of characters,
    matched with their groups: [exec] and [replace] with the flag [g].  An item
    has candidates, longest first as the language's greedy quantifiers try
    them; the first choice that lets the rest match is taken. *)
From stdpp Require Import base list strings.
From Stdlib Require Import ZArith Lia Ascii Bool.
From S2P Require Import Prelude JsString.

(** A text among several (tried in order; [ci] is the flag [i]), at least
    [least] characters of a class, one of them, or a character that may be
    missing. *)
Inductive item : Type :=
  | Texts (ci : bool) (l : list string)
  | Run (P : ascii → bool) (least : nat)
  | One (P : ascii → bool)
  | Maybe (c : ascii).

(** The text is at the start of the subject. *)
Fixpoint starts_i (t s : string) : bool :=
  match t, s with
  | EmptyString, _ => true
  | String c t, String d s => if Ascii.eqb (ascii_lower c) (ascii_lower d) then starts_i t s else false
  | _, _ => false
  end.

Definition starts (ci : bool) (t s : string) : bool := if ci then starts_i t s else String.prefix t s.

Fixpoint run_length (P : ascii → bool) (s : string) : nat :=
  match s with
  | EmptyString => 0
  | String c s => if P c then S (run_length P s) else 0
  end.

(** [n], [n - 1], down to [least]. *)
Fixpoint down_to (least n : nat) : list nat :=
  if (n <? least)%nat then []
  else n :: match n with O => [] | S n => down_to least n end.

(** How many characters the item can take, in the order they are tried. *)
Definition candidates (i : item) (s : string) : list nat :=
  match i with
  | Texts ci l =>
      omap (λ t, if starts ci t s then Some (String.length t) else None) l
  | Run P least => down_to least (run_length P s)
  | One P => match s with String c _ => if P c then [1%nat] else [] | _ => [] end
  | Maybe c => match s with String d _ => if Ascii.eqb c d then [1%nat; 0%nat] else [0%nat] | _ => [0%nat] end
  end.

Fixpoint first_some {A B} (f : A → option B) (l : list A) : option B :=
  match l with
  | [] => None
  | x :: l => match f x with Some y => Some y | None => first_some f l end
  end.

(** The texts the items take from here, with what follows. *)
Fixpoint match_items (items : list item) (s : string) : option (list string * string) :=
  match items with
  | [] => Some ([], s)
  | i :: items =>
      first_some (λ n,
        match match_items items (str_drop n s) with
        | Some (ps, rest) => Some (str_take n s :: ps, rest)
        | None => None
        end) (candidates i s)
  end.

(** [exec]: the text before the leftmost match, the match and what follows. *)
Fixpoint exec (items : list item) (s : string) : option (string * list string * string) :=
  match match_items items s with
  | Some (ps, rest) => Some ("", ps, rest)
  | None =>
      match s with
      | EmptyString => None
      | String c s' =>
          match exec items s' with
          | Some (before, ps, rest) => Some (String c before, ps, rest)
          | None => None
          end
      end
  end.

(** The matches of an expression with the flag [g], none of them empty, each
    with the text before it, and the text after the last. *)
Fixpoint match_all_go (fuel : nat) (items : list item) (s : string) : list (string * list string) * string :=
  match fuel with
  | O => ([], s)
  | S fuel =>
      match exec items s with
      | Some (before, ps, rest) =>
          let '(l, last) := match_all_go fuel items rest in ((before, ps) :: l, last)
      | None => ([], s)
      end
  end.

Definition all_matches (items : list item) (s : string) : list (string * list string) * string :=
  match_all_go (S (String.length s)) items s.

(** The text with [f] in the place of each match. *)
Definition put_back (f : list string → string) (r : list (string * list string) * string) : string :=
  fold_right (λ m s, fst m +:+ f (snd m) +:+ s) (snd r) (fst r).

(** [s.replace(re, f)] *)
Definition replace_all (items : list item) (f : list string → string) (s : string) : string :=
  put_back f (all_matches items s).

Definition text_of (ps : list string) : string := fold_right (λ p s, p +:+ s) "" ps.

(** ** Facts *)

Lemma take_drop_str n s : str_take n s +:+ str_drop n s = s.
Proof. revert s. induction n as [|n IH]; intros [|c s]; try done. cbn [str_take str_drop]. by rewrite str_app_cons, IH. Qed.

Lemma text_of_cons p ps : text_of (p :: ps) = p +:+ text_of ps.
Proof. done. Qed.

Lemma first_some_inv {A B} (f : A → option B) l y : first_some f l = Some y → ∃ x, x ∈ l ∧ f x = Some y.
Proof.
  induction l as [|x l IH]; [done|]. cbn. destruct (f x) eqn:E.
  - intros [= ->]. exists x. split; [apply elem_of_cons; by left|done].
  - intros (z & Hz & Hf)%IH. exists z. split; [apply elem_of_cons; by right|done].
Qed.

Lemma match_items_text items s ps rest : match_items items s = Some (ps, rest) → text_of ps +:+ rest = s.
Proof.
  revert s ps rest. induction items as [|i items IH]; intros s ps rest H; [by injection H as <- <-|].
  cbn in H. apply first_some_inv in H as (n & _ & H).
  destruct (match_items items (str_drop n s)) as [[qs r]|] eqn:E; [|done]. injection H as <- <-.
  rewrite text_of_cons, str_app_assoc, (IH _ _ _ E). apply take_drop_str.
Qed.

Lemma exec_text items s before ps rest :
  exec items s = Some (before, ps, rest) → before +:+ text_of ps +:+ rest = s.
Proof.
  revert before. induction s as [|c s IH]; intros before; cbn [exec];
    destruct (match_items items _) as [[qs r]|] eqn:E; try done.
  - intros [= <- <- <-]. by apply match_items_text in E.
  - intros [= <- <- <-]. by apply match_items_text in E.
  - destruct (exec items s) as [[[b qs] r]|]; [|done]. intros [= <- -> ->]. rewrite str_app_cons. by rewrite IH.
Qed.

Lemma match_all_go_text fuel items s : put_back text_of (match_all_go fuel items s) = s.
Proof.
  revert s. induction fuel as [|fuel IH]; intros s; [done|]. cbn.
  destruct (exec items s) as [[[b ps] r]|] eqn:E; [|done]. apply exec_text in E.
  specialize (IH r). destruct (match_all_go fuel items r) as [l last]. unfold put_back in *. cbn in *. by rewrite IH.
Qed.

(** The matches and the text between them are the subject. *)
Lemma all_matches_text items s : put_back text_of (all_matches items s) = s.
Proof. apply match_all_go_text. Qed.

(** A match needs the text its expression begins with. *)
Fixpoint none_in (t b s : string) : Prop :=
  match b with
  | EmptyString => True
  | String _ b' => String.prefix t (b +:+ s) = false ∧ none_in t b' s
  end.

Lemma prefix_take t s : String.prefix t s = String.eqb t (str_take (String.length t) s).
Proof.
  revert s. induction t as [|c t IH]; intros [|d s]; try done.
  cbn. destruct (ascii_dec c d) as [->|Hne].
  - by rewrite Ascii.eqb_refl, IH.
  - by apply Ascii.eqb_neq in Hne as ->.
Qed.

Lemma take_prefix n a b : (n <= String.length a)%nat → str_take n (a +:+ b) = str_take n a.
Proof.
  revert a. induction n as [|n IH]; intros [|c a] H; try done; cbn in H; try lia.
  rewrite str_app_cons. cbn. rewrite IH; [done|lia].
Qed.

Lemma prefix_ext t a b : (String.length t <= String.length a)%nat → String.prefix t (a +:+ b) = String.prefix t a.
Proof. intros H. by rewrite !prefix_take, take_prefix. Qed.

Lemma match_items_prefix t items s :
  String.prefix t s = false → match_items (Texts false [t] :: items) s = None.
Proof. intros H. cbn. by rewrite H. Qed.

Lemma match_items_start t items s :
  match_items (Texts false [t] :: items) (t +:+ s) =
  match match_items items s with Some (ps, rest) => Some (t :: ps, rest) | None => None end.
Proof.
  assert (str_take (String.length t) (t +:+ s) = t ∧ str_drop (String.length t) (t +:+ s) = s) as [Ht Hd].
  { induction t as [|c t [IH1 IH2]]; [by destruct s|]. rewrite str_app_cons. cbn. by rewrite IH1, IH2. }
  cbn. rewrite prefix_app. cbn. rewrite Hd, Ht. by destruct (match_items items s) as [[]|].
Qed.

Lemma exec_before t items b s ps rest :
  none_in t b s → match_items (Texts false [t] :: items) s = Some (ps, rest) →
  exec (Texts false [t] :: items) (b +:+ s) = Some (b, ps, rest).
Proof.
  intros Hb Hm. induction b as [|c b IH].
  - rewrite str_app_nil_l. destruct s; cbn [exec]; by rewrite Hm.
  - destruct Hb as [Hc Hb]. rewrite str_app_cons in Hc |- *. cbn [exec].
    rewrite match_items_prefix by done. by rewrite IH.
Qed.

Lemma exec_none t items s : none_in t s "" → String.prefix t "" = false → exec (Texts false [t] :: items) s = None.
Proof.
  intros Hs Ht. induction s as [|c s IH]; cbn [exec]; [by rewrite match_items_prefix|].
  destruct Hs as [Hc Hs]. rewrite str_app_nil_r in Hc. rewrite match_items_prefix by done. by rewrite IH.
Qed.


(** The recursion is on what follows a match, which is shorter. *)
Definition consuming (items : list item) : Prop :=
  ∀ s b ps rest, exec items s = Some (b, ps, rest) → text_of ps ≠ "".

Lemma exec_shorter items s b ps rest :
  consuming items → exec items s = Some (b, ps, rest) → (String.length rest < String.length s)%nat.
Proof.
  intros Hc H. pose proof (Hc _ _ _ _ H) as Hne. apply exec_text in H as <-. rewrite !str_length_app.
  destruct (text_of ps); [done|]. cbn. lia.
Qed.

Lemma match_all_enough items f g s :
  consuming items → (String.length s < f)%nat → (String.length s < g)%nat →
  match_all_go f items s = match_all_go g items s.
Proof.
  intros Hc. revert g s. induction f as [|f IH]; intros [|g] s Hf Hg; try lia. cbn.
  destruct (exec items s) as [[[b ps] r]|] eqn:E; [|done]. apply exec_shorter in E; [|done].
  by rewrite (IH g) by lia.
Qed.

Lemma all_matches_some items s b ps rest :
  consuming items → exec items s = Some (b, ps, rest) →
  all_matches items s = ((b, ps) :: fst (all_matches items rest), snd (all_matches items rest)).
Proof.
  intros Hc E. unfold all_matches at 1. cbn [match_all_go]. rewrite E. apply exec_shorter in E; [|done].
  rewrite (match_all_enough items _ (S (String.length rest))) by (done || lia).
  fold (all_matches items rest). by destruct (all_matches items rest).
Qed.

Lemma all_matches_none items s : exec items s = None → all_matches items s = ([], s).
Proof. intros E. unfold all_matches. cbn. by rewrite E. Qed.

Lemma replace_some items f s b ps rest :
  consuming items → exec items s = Some (b, ps, rest) →
  replace_all items f s = b +:+ f ps +:+ replace_all items f rest.
Proof. intros Hc E. unfold replace_all. rewrite (all_matches_some items s b ps rest) by done. done. Qed.

Lemma replace_none items f s : exec items s = None → replace_all items f s = s.
Proof. intros E. unfold replace_all. by rewrite all_matches_none. Qed.

(** ** Texts that do not occur *)

Lemma none_in_ext t b s : none_in t b t → none_in t b (t +:+ s).
Proof.
  induction b as [|c b IH]; [done|]. intros [Hc Hb]. split; [|by apply IH].
  rewrite <- str_app_assoc, prefix_ext; [done|]. rewrite str_length_app. lia.
Qed.

Lemma none_in_app t a b s : none_in t (a +:+ b) s ↔ none_in t a (b +:+ s) ∧ none_in t b s.
Proof.
  induction a as [|c a IH]; [rewrite !str_app_nil_l; cbn; tauto|].
  rewrite str_app_cons. cbn [none_in]. rewrite IH, <- str_app_cons, str_app_assoc. tauto.
Qed.

Lemma prefix_stops t a c s : char_free c t = true → String.prefix t (a +:+ String c s) = String.prefix t a.
Proof.
  revert a. induction t as [|d t IH]; intros a Ht; [by destruct a|]. rewrite char_free_cons in Ht.
  apply andb_true_iff in Ht as [Hd Ht]. destruct a as [|e a].
  - rewrite str_app_nil_l. cbn. destruct (ascii_dec d c) as [->|]; [|done]. by rewrite Ascii.eqb_refl in Hd.
  - rewrite str_app_cons. cbn. destruct (ascii_dec d e); [by apply IH|done].
Qed.

Lemma none_in_stops t a c s : char_free c t = true → none_in t a "" → none_in t a (String c s).
Proof.
  intros Ht. induction a as [|d a IH]; [done|]. intros [Hd Ha]. split; [|by apply IH].
  rewrite prefix_stops by done. by rewrite str_app_nil_r in Hd.
Qed.
