(* ===== verification/JsDate.v ===== *)
(** The calendar behind [Date]: the year, month and day of a day counted from
    1970-01-01, checked against the language's definition of a year's first day,
    and the local time a time value shows. *)
From stdpp Require Import base list strings.
From Stdlib Require Import ZArith Lia Ascii Bool.
From S2P Require Import Prelude JsNum JsString.

(** ** Years, months and days *)

(** DayFromYear of the language: the days from 1970-01-01 to the first day of
    the year. *)
Definition days_before_year (y : Z) : Z :=
  365 * (y - 1970) + (y - 1969) / 4 - (y - 1901) / 100 + (y - 1601) / 400.

Definition leap_year (y : Z) : bool :=
  (y mod 4 =? 0) && (negb (y mod 100 =? 0) || (y mod 400 =? 0)).

Definition days_before_month (y m : Z) : Z :=
  let l := if leap_year y then 1 else 0 in
  nth (Z.to_nat m - 1)
    [0; 31; 59 + l; 90 + l; 120 + l; 151 + l; 181 + l; 212 + l; 243 + l; 273 + l; 304 + l; 334 + l; 365 + l] 0.

Definition month_length (y m : Z) : Z := days_before_month y (m + 1) - days_before_month y m.

Definition days_of (y m d : Z) : Z := days_before_year y + days_before_month y m + d - 1.

(** The last number from [lo] on, among the next [n], whose [f] is not past
    [z]. *)
Fixpoint last_from (n : nat) (lo : Z) (f : Z → Z) (z : Z) : Z :=
  match n with
  | O => lo
  | S n => if z <? f (lo + 1) then lo else last_from n (lo + 1) f z
  end.

(** YearFromTime looks for the last year that starts no later than the day; 400
    years have 146097 days. *)
Definition year_of_day (z : Z) : Z := last_from 400 (1970 + 400 * (z / 146097)) days_before_year z.

Definition month_of_day (y z : Z) : Z := last_from 12 1 (λ m, days_before_year y + days_before_month y m) z.

Definition date_of_day (z : Z) : Z * Z * Z :=
  let y := year_of_day z in
  let m := month_of_day y z in
  (y, m, z - days_before_year y - days_before_month y m + 1).

Lemma last_from_spec n lo f z :
  f lo <= z < f (lo + Z.of_nat n) →
  let r := last_from n lo f z in f r <= z < f (r + 1) ∧ lo <= r < lo + Z.of_nat n.
Proof.
  revert lo. induction n as [|n IH]; intros lo Hz; cbn [last_from].
  - rewrite Z.add_0_r in Hz. lia.
  - destruct (z <? f (lo + 1)) eqn:E; [lia|].
    replace (lo + Z.of_nat (S n)) with (lo + 1 + Z.of_nat n) in * by lia.
    destruct (IH (lo + 1)) as [H1 H2]; [lia|]. cbv zeta. split; [exact H1|lia].
Qed.

Lemma div_next a k : 0 < k → (a + 1) / k = a / k + if (a + 1) mod k =? 0 then 1 else 0.
Proof.
  intros Hk. pose proof (Z.div_mod (a + 1) k ltac:(lia)). pose proof (Z.mod_pos_bound (a + 1) k Hk).
  pose proof (Z.div_mod a k ltac:(lia)). pose proof (Z.mod_pos_bound a k Hk).
  destruct ((a + 1) mod k =? 0) eqn:E; bool_to_prop; nia.
Qed.

Lemma mod_shift y a k : 0 < k → (y - a * k) mod k = y mod k.
Proof. intros Hk. replace (y - a * k) with (y + - a * k) by lia. by rewrite Z.mod_add by lia. Qed.

(** A year has 365 days, a leap year one more. *)
Lemma days_before_next y : days_before_year (y + 1) = days_before_year y + 365 + if leap_year y then 1 else 0.
Proof.
  unfold days_before_year, leap_year.
  replace (y + 1 - 1969) with (y - 1969 + 1) by lia. replace (y + 1 - 1901) with (y - 1901 + 1) by lia.
  replace (y + 1 - 1601) with (y - 1601 + 1) by lia. rewrite !div_next by lia.
  replace (y - 1969 + 1) with (y - 492 * 4) by lia. replace (y - 1901 + 1) with (y - 19 * 100) by lia.
  replace (y - 1601 + 1) with (y - 4 * 400) by lia. rewrite !mod_shift by lia.
  assert (y mod 400 = 0 → y mod 100 = 0) as H1.
  { intros H. apply Z.mod_divide in H as [q ->]; [|lia]. replace (q * 400) with (q * 4 * 100) by lia. apply Z.mod_mul. lia. }
  assert (y mod 100 = 0 → y mod 4 = 0) as H2.
  { intros H. apply Z.mod_divide in H as [q ->]; [|lia]. replace (q * 100) with (q * 25 * 4) by lia. apply Z.mod_mul. lia. }
  destruct (y mod 4 =? 0) eqn:E4, (y mod 100 =? 0) eqn:E100, (y mod 400 =? 0) eqn:E400; bool_to_prop; cbn; lia.
Qed.

Lemma days_before_year_era y k : days_before_year (y + 400 * k) = days_before_year y + 146097 * k.
Proof.
  unfold days_before_year.
  replace (y + 400 * k - 1969) with (y - 1969 + (100 * k) * 4) by lia.
  replace (y + 400 * k - 1901) with (y - 1901 + (4 * k) * 100) by lia.
  replace (y + 400 * k - 1601) with (y - 1601 + k * 400) by lia.
  rewrite !Z.div_add by lia. lia.
Qed.

(** The date is the day's, and it is a date of the calendar. *)
Lemma date_of_day_spec z :
  let '(y, m, d) := date_of_day z in
  days_of y m d = z ∧ 1 <= m <= 12 ∧ 1 <= d <= month_length y m.
Proof.
  unfold date_of_day. destruct (last_from_spec 400 (1970 + 400 * (z / 146097)) days_before_year z) as [Hy _].
  { pose proof (Z.div_mod z 146097 ltac:(lia)). pose proof (Z.mod_pos_bound z 146097 ltac:(lia)).
    change (Z.of_nat 400) with 400. set (q := z / 146097) in *.
    replace (1970 + 400 * q + 400) with (1970 + 400 * (q + 1)) by ring.
    rewrite !days_before_year_era. change (days_before_year 1970) with 0. lia. }
  fold (year_of_day z) in Hy. generalize dependent (year_of_day z). intros y Hy.
  rewrite days_before_next in Hy.
  destruct (last_from_spec 12 1 (λ m, days_before_year y + days_before_month y m) z) as [Hm Hr].
  { change (1 + Z.of_nat 12) with 13. change (days_before_month y 1) with 0.
    change (days_before_month y 13) with (365 + if leap_year y then 1 else 0). destruct (leap_year y); lia. }
  fold (month_of_day y z) in Hm, Hr. unfold days_of, month_length. lia.
Qed.

(** ** Local time *)

(** The largest time value. *)
Definition max_time : Z := 8640000000000000.

Record local_time : Type := mkLocal {
  lt_year : Z; lt_month : Z; lt_day : Z; lt_hours : Z; lt_minutes : Z; lt_seconds : Z;
}.

(** The fields of a time value; [offset] is what the local time zone adds. *)
Definition local_of (offset : Z → Z) (t : Z) : local_time :=
  let l := t + offset t in
  let '(y, m, d) := date_of_day (l / 86400000) in
  mkLocal y m d (l mod 86400000 / 3600000) (l mod 3600000 / 60000) (l mod 60000 / 1000).

Definition ms_of (t : local_time) : Z :=
  days_of (lt_year t) (lt_month t) (lt_day t) * 86400000
  + lt_hours t * 3600000 + lt_minutes t * 60000 + lt_seconds t * 1000.

Record local_ok (t : local_time) : Prop := mkLocalOk {
  lo_month : 1 <= lt_month t <= 12;
  lo_day : 1 <= lt_day t <= month_length (lt_year t) (lt_month t);
  lo_hours : 0 <= lt_hours t < 24;
  lo_minutes : 0 <= lt_minutes t < 60;
  lo_seconds : 0 <= lt_seconds t < 60;
}.

Lemma local_of_spec offset t :
  local_ok (local_of offset t) ∧ 0 <= t + offset t - ms_of (local_of offset t) < 1000.
Proof.
  unfold local_of. set (l := t + offset t). pose proof (date_of_day_spec (l / 86400000)) as H.
  destruct (date_of_day (l / 86400000)) as [[y m] d]. destruct H as (Hd & Hm & Hl).
  pose proof (Z.div_mod l 86400000 ltac:(lia)). pose proof (Z.mod_pos_bound l 86400000 ltac:(lia)).
  assert (l mod 3600000 = l mod 86400000 mod 3600000) as E1
    by (rewrite <- (Znumtheory.Zmod_div_mod 3600000 86400000 l) by (lia || by exists 24); done).
  assert (l mod 60000 = l mod 3600000 mod 60000) as E2
    by (rewrite <- (Znumtheory.Zmod_div_mod 60000 3600000 l) by (lia || by exists 60); done).
  pose proof (Z.div_mod (l mod 86400000) 3600000 ltac:(lia)). pose proof (Z.mod_pos_bound (l mod 86400000) 3600000 ltac:(lia)).
  pose proof (Z.div_mod (l mod 3600000) 60000 ltac:(lia)). pose proof (Z.mod_pos_bound (l mod 3600000) 60000 ltac:(lia)).
  pose proof (Z.div_mod (l mod 60000) 1000 ltac:(lia)). pose proof (Z.mod_pos_bound (l mod 60000) 1000 ltac:(lia)).
  split; [constructor; cbn; lia|]. unfold ms_of. cbn. rewrite Hd. lia.
Qed.
