(* ===== verification/Async.v ===== *)
(** Asynchronous code: scripts that ask the router and the browser for
    something and go on with the answer, and promises, which may end rejected.
    A script is a finite tree; what holds of every answer is stated with a
    weakest precondition over the steps taken. *)
From stdpp Require Import base list strings.
From Stdlib Require Import ZArith Lia Ascii Bool.
From S2P Require Import Prelude JsString.

(** ** Scripts *)

(** [E X] is the requests that are answered by an [X]. *)
Inductive async (E : Type → Type) (A : Type) : Type :=
  | Ret (a : A)
  | Call (X : Type) (e : E X) (k : X → async E A).
Arguments Ret {E A} a.
Arguments Call {E A X} e k.

Section Scripts.
Context {E : Type → Type}.

Fixpoint abind {A B} (p : async E A) (f : A → async E B) : async E B :=
  match p with
  | Ret a => f a
  | Call e k => Call e (λ x, abind (k x) f)
  end.

Definition send {X} (e : E X) : async E X := Call e Ret.

(** ** Promises

    [inl] is a rejection, with the text of the error. *)

Definition promise (A : Type) : Type := async E (string + A).

Definition resolve {A} (a : A) : promise A := Ret (inr a).
Definition reject {A} (e : string) : promise A := Ret (inl e).

(** [await p], and [p.then(k)] *)
Definition await {A B} (p : promise A) (k : A → promise B) : promise B :=
  abind p (λ r, match r with inl e => reject e | inr a => k a end).

(** [p.catch(h)], and [try { ... } catch (e) { ... }] *)
Definition catch {A} (p : promise A) (h : string → promise A) : promise A :=
  abind p (λ r, match r with inl e => h e | inr a => resolve a end).

(** [p.finally(f)] *)
Definition finally {A} (p : promise A) (f : promise unit) : promise A :=
  abind p (λ r, abind f (λ s, match s with inl e => reject e | inr _ => Ret r end)).

(** [L.resolveDefault(p, d)] *)
Definition resolveDefault {A} (p : promise A) (d : A) : promise A := catch p (λ _, resolve d).

(** A step whose answer is no promise. *)
Definition perform {X} (e : E X) : promise X := abind (send e) resolve.

(** An expression that may throw inside a handler. *)
Definition of_res {A} (r : res A) : promise A := match r with Ok a => resolve a | Throw e => reject e end.

(** ** Runs *)

Inductive taken : Type :=
  | Step (X : Type) (e : E X) (x : X).

(** [Q] holds of the steps and the result, whatever the answers. *)
Fixpoint wp {A} (p : async E A) (Q : list taken → A → Prop) : Prop :=
  match p with
  | Ret a => Q [] a
  | Call e k => ∀ x, wp (k x) (λ tr a, Q (Step _ e x :: tr) a)
  end.

Fixpoint run_with {A} (env : ∀ X, E X → X) (p : async E A) : list taken * A :=
  match p with
  | Ret a => ([], a)
  | Call e k => let '(tr, a) := run_with env (k (env _ e)) in (Step _ e (env _ e) :: tr, a)
  end.

Lemma wp_mono {A} (p : async E A) (Q R : list taken → A → Prop) :
  (∀ tr a, Q tr a → R tr a) → wp p Q → wp p R.
Proof.
  revert Q R. induction p as [a|X e k IH]; intros Q R HQR; cbn; [apply HQR|].
  intros H x. apply (IH x (λ tr a, Q (Step _ e x :: tr) a)); [auto|apply H].
Qed.

Lemma wp_bind {A B} (p : async E A) (f : A → async E B) Q :
  wp (abind p f) Q ↔ wp p (λ tr a, wp (f a) (λ tr' b, Q (tr ++ tr') b)).
Proof.
  revert Q. induction p as [a|X e k IH]; intros Q; cbn; [done|].
  split; intros H x.
  - apply (proj1 (IH x (λ tr b, Q (Step _ e x :: tr) b)) (H x)).
  - apply (proj2 (IH x (λ tr b, Q (Step _ e x :: tr) b)) (H x)).
Qed.

Lemma wp_run {A} env (p : async E A) Q : wp p Q → Q (fst (run_with env p)) (snd (run_with env p)).
Proof.
  revert Q. induction p as [a|X e k IH]; intros Q; cbn; [done|]. intros H. specialize (IH _ _ (H (env X e))).
  by destruct (run_with env (k (env X e))).
Qed.

Lemma wp_await {A B} (p : promise A) (k : A → promise B) Q :
  wp (await p k) Q ↔
  wp p (λ tr r, match r with inl e => Q tr (inl e) | inr a => wp (k a) (λ tr' b, Q (tr ++ tr') b) end).
Proof.
  unfold await. rewrite wp_bind.
  split; apply wp_mono; intros tr [e|a]; cbn; rewrite ?app_nil_r; done.
Qed.

Lemma wp_catch {A} (p : promise A) h Q :
  wp (catch p h) Q ↔
  wp p (λ tr r, match r with inl e => wp (h e) (λ tr' b, Q (tr ++ tr') b) | inr a => Q tr (inr a) end).
Proof.
  unfold catch. rewrite wp_bind.
  split; apply wp_mono; intros tr [e|a]; cbn; rewrite ?app_nil_r; done.
Qed.

(** ** Promises that are never rejected *)

Definition settles {A} (p : promise A) : Prop := wp p (λ _ r, is_Some (match r with inl _ => None | inr a => Some a end)).

Lemma settles_resolve {A} (a : A) : settles (resolve a).
Proof. by eexists. Qed.

Lemma settles_perform {X} (e : E X) : settles (perform e).
Proof. intros x. by eexists. Qed.

Lemma settles_await {A B} (p : promise A) (k : A → promise B) :
  settles p → (∀ a, settles (k a)) → settles (await p k).
Proof.
  intros Hp Hk. unfold settles. apply wp_await. eapply wp_mono; [|exact Hp].
  intros tr [e|a] [b Hb]; [done|]. exact (Hk a).
Qed.

Lemma settles_catch {A} (p : promise A) h : (∀ e, settles (h e)) → settles (catch p h).
Proof.
  intros Hh. unfold settles. apply wp_catch. apply wp_mono with (λ _ _, True).
  - intros tr [e|a] _; [exact (Hh e)|by eexists].
  - clear. unfold promise in p. generalize (string + A)%type as R, p. clear. intros R p.
    induction p as [r|X e k IH]; [done|]. intros x. apply IH.
Qed.

Lemma settles_default {A} (p : promise A) d : settles (resolveDefault p d).
Proof. apply settles_catch. intros e. apply settles_resolve. Qed.

(** ** What every step of a promise satisfies *)

Definition all_steps (P : taken → Prop) {A} (p : async E A) : Prop := wp p (λ tr _, Forall P tr).

Lemma all_steps_resolve P {A} (a : string + A) : all_steps P (Ret a : promise A).
Proof. constructor. Qed.

Lemma all_steps_call P {X A} (e : E X) (k : X → async E A) :
  (∀ x, P (Step X e x)) → (∀ x, all_steps P (k x)) → all_steps P (Call e k).
Proof. intros He Hk x. eapply wp_mono; [|apply Hk]. intros tr a Htr. by constructor. Qed.

Lemma all_steps_bind P {A B} (p : async E A) (f : A → async E B) :
  all_steps P p → (∀ a, all_steps P (f a)) → all_steps P (abind p f).
Proof.
  intros Hp Hf. unfold all_steps. apply wp_bind. eapply wp_mono; [|exact Hp]. intros tr a Htr.
  eapply wp_mono; [|apply Hf]. intros tr' b Htr'. by apply Forall_app.
Qed.

Lemma all_steps_await P {A B} (p : promise A) (k : A → promise B) :
  all_steps P p → (∀ a, all_steps P (k a)) → all_steps P (await p k).
Proof. intros Hp Hk. apply all_steps_bind; [done|]. intros [e|a]; [apply all_steps_resolve|apply Hk]. Qed.

Lemma all_steps_catch P {A} (p : promise A) h :
  all_steps P p → (∀ e, all_steps P (h e)) → all_steps P (catch p h).
Proof. intros Hp Hh. apply all_steps_bind; [done|]. intros [e|a]; [apply Hh|apply all_steps_resolve]. Qed.

Lemma all_steps_perform P {X} (e : E X) : (∀ x, P (Step X e x)) → all_steps P (perform e).
Proof. intros He x. cbn. constructor; [apply He|constructor]. Qed.

(** What a rejection-free promise yields can be assumed to be a value. *)
Lemma wp_settles {A} (p : promise A) (Q : list taken → string + A → Prop) :
  settles p → wp p (λ tr r, match r with inl _ => True | inr a => Q tr (inr a) end) → wp p Q.
Proof.
  unfold settles. unfold promise in p. revert Q. induction p as [r|X e k IH]; intros Q Hs Hq; cbn in *.
  - destruct r; [by destruct Hs|done].
  - intros x. apply (IH x); [apply Hs|apply Hq].
Qed.
End Scripts.

Arguments promise E A : clear implicits.
Arguments taken E : clear implicits.

Declare Scope async_scope.
Delimit Scope async_scope with async.
Notation "'let!' x := p 'in' k" := (await p (λ x, k))
  (at level 200, x pattern, p at level 100, k at level 200) : async_scope.
Notation "p ;! k" := (await p (λ _ : unit, k)) (at level 99, right associativity) : async_scope.

Create HintDb async.
#[export] Hint Resolve settles_resolve settles_perform settles_await settles_catch settles_default : async.
