(* ===== verification/Luci.v ===== *)
(** The LuCI framework the views are written against, as the interfaces the
    modelled code relies on.  Nothing of LuCI is part of the repository, so
    each service is a class whose laws state its documented behaviour, with
    an instance that shows the laws can hold. *)
From stdpp Require Import base list strings.
From Stdlib Require Import ZArith Lia Ascii Bool.
From S2P Require Import Prelude JsNum JsString JsArray JsObject.

(** ** [validation]: the address parsers

    [validation.parseIPv4] and [validation.parseIPv6] return the parsed
    address or [null]; the code only tests the result for truth. *)
Class Validation : Type := {
  parseIPv4 : string → bool;
  parseIPv6 : string → bool;
}.

(** What the code relies on: an IPv6 text has a colon and is made of
    hexadecimal digits, colons and dots; an IPv4 text has no colon. *)
Class ValidationLaws (V : Validation) : Prop := {
  parseIPv6_colon s : parseIPv6 s = true → char_free ":" s = false;
  parseIPv6_chars s c :
    parseIPv6 s = true →
    (c = "-" ∨ c = "/" ∨ c = ",")%char → char_free c s = true;
  parseIPv6_no_ws s : parseIPv6 s = true → no_ws s = true;
  parseIPv4_colon s : parseIPv4 s = true → char_free ":" s = true;
}.

(** A syntactic check in the spirit of LuCI's, used where a statement about
    concrete texts needs some parser. *)
Definition v6_char (c : ascii) : bool :=
  match radix_digit 16 c with
  | Some _ => true
  | None => Ascii.eqb c ":" || Ascii.eqb c "."
  end.

Definition octet_text (s : string) : bool :=
  str_forall is_digit s && Nat.leb 1 (String.length s) && Nat.leb (String.length s) 3
  && num_leb (parseInt s 10) (Fin 255).

#[export] Instance plain_validation : Validation := {
  parseIPv4 s :=
    let parts := str_split "." s in
    Nat.eqb (length parts) 4 && forallb octet_text parts
    && char_free ":" s;
  parseIPv6 s := str_forall v6_char s && negb (char_free ":" s);
}.

Lemma v6_char_free c s :
  v6_char c = false → str_forall v6_char s = true → char_free c s = true.
Proof.
  intros Hc. induction s as [|d s IH]; [done|]. cbn [str_forall].
  intros [Hd Hs]%andb_true_iff. rewrite char_free_cons, IH by done.
  rewrite andb_true_r. apply negb_true_iff, Ascii.eqb_neq. intros ->; congruence.
Qed.

Lemma v6_char_no_ws s : str_forall v6_char s = true → no_ws s = true.
Proof.
  unfold no_ws. induction s as [|d s IH]; [done|]. cbn [str_forall].
  intros [Hd Hs]%andb_true_iff. rewrite IH, andb_true_r by done.
  revert Hd. destruct d as [[] [] [] [] [] [] [] []]; vm_compute; done.
Qed.

#[export] Instance plain_validation_laws : ValidationLaws plain_validation.
Proof.
  split; simpl.
  - intros s [_ H]%andb_true_iff. by apply negb_true_iff in H.
  - intros s c [H _]%andb_true_iff Hc. apply v6_char_free; [|done].
    by destruct_or! Hc; subst.
  - intros s [H _]%andb_true_iff. by apply v6_char_no_ws.
  - by intros s [_ H]%andb_true_iff.
Qed.

(** ** [uci]: the configuration store

    A configuration is an ordered list of named sections with string or list
    options. *)
Inductive uval : Type :=
  | UStr (s : string)
  | UList (l : list string).

#[export] Instance uval_eq_dec : EqDecision uval.
Proof. solve_decision. Defined.

Record section : Type := mkSection {
  sec_name : string;
  sec_type : string;
  sec_opts : list (string * uval);
}.

Fixpoint opt_lookup (o : string) (l : list (string * uval)) : option uval :=
  match l with
  | [] => None
  | (o', v) :: l' => if String.eqb o o' then Some v else opt_lookup o l'
  end.

Definition sec_opt (o : string) (s : section) : option uval := opt_lookup o (sec_opts s).

(** [s.opt || d] for an option used as a text: an unset or empty option gives
    the default, a list option is used through its text. *)
Definition opt_text (v : option uval) : option string :=
  match v with
  | Some (UStr s) => if str_truthy s then Some s else None
  | Some (UList l) => Some (str_join "," l)
  | None => None
  end.

Definition sec_text (o : string) (s : section) : option string := opt_text (sec_opt o s).

(** [s.opt] compared with [===] to a text. *)
Definition opt_is (v : option uval) (t : string) : bool :=
  match v with
  | Some (UStr s) => String.eqb s t
  | _ => false
  end.

(** [var l = s.opt || []; if (!Array.isArray(l)) l = [l];] *)
Definition opt_list (v : option uval) : list string :=
  match v with
  | Some (UStr s) => if str_truthy s then [s] else []
  | Some (UList l) => l
  | None => []
  end.

Fixpoint opts_put (o : string) (v : uval) (l : list (string * uval)) : list (string * uval) :=
  match l with
  | [] => [(o, v)]
  | (o', w) :: l' => if String.eqb o o' then (o, v) :: l' else (o', w) :: opts_put o v l'
  end.

Definition opts_del (o : string) (l : list (string * uval)) : list (string * uval) :=
  List.filter (λ p, negb (String.eqb o (fst p))) l.

Definition on_section (n : string) (f : section → section) (l : list section) : list section :=
  map (λ s, if String.eqb (sec_name s) n then f s else s) l.

Definition sec_put (o : string) (v : uval) (s : section) : section :=
  mkSection (sec_name s) (sec_type s) (opts_put o v (sec_opts s)).

Definition sec_del (o : string) (s : section) : section :=
  mkSection (sec_name s) (sec_type s) (opts_del o (sec_opts s)).

Definition find_section (n : string) (l : list section) : option section :=
  List.find (λ s, String.eqb (sec_name s) n) l.

Definition sections_of_type (ty : string) (l : list section) : list section :=
  List.filter (λ s, String.eqb (sec_type s) ty) l.

(** The store of the framework.  [uci_view] is the configuration a page
    works on: the loaded sections with the pending changes applied. *)
Class Uci (St : Type) : Type := {
  uci_view : St → string → list section;
  uci_sections : St → string → string → list section;
  uci_get : St → string → string → string → option uval;
  uci_set : St → string → string → string → uval → St;
  uci_unset : St → string → string → string → St;
  uci_add : St → string → string → string → St;
  uci_remove : St → string → string → St;
}.

(** Their documented effects.  Nothing is said of setting the empty text
    (which unsets) nor of adding a name that is in use. *)
Class UciLaws {St} (U : Uci St) : Prop := {
  sections_view st c ty : uci_sections st c ty = sections_of_type ty (uci_view st c);
  get_view st c n o :
    uci_get st c n o = match find_section n (uci_view st c) with
                       | Some s => sec_opt o s | None => None end;
  set_view st c n o v :
    v ≠ UStr "" → uci_view (uci_set st c n o v) c = on_section n (sec_put o v) (uci_view st c);
  unset_view st c n o :
    uci_view (uci_unset st c n o) c = on_section n (sec_del o) (uci_view st c);
  add_view st c ty n :
    n ≠ "" → n ∉ map sec_name (uci_view st c) →
    uci_view (uci_add st c ty n) c = uci_view st c ++ [mkSection n ty []];
  remove_view st c n :
    uci_view (uci_remove st c n) c =
    List.filter (λ s, negb (String.eqb (sec_name s) n)) (uci_view st c);
}.

(** A store kept as a function from configuration names to sections; adding a
    name in use replaces the section, as the framework does with one created
    and not yet saved. *)
Definition mem_uci : Type := string → list section.

Definition mem_upd (st : mem_uci) (c : string) (l : list section) : mem_uci :=
  λ c', if String.eqb c' c then l else st c'.

#[export] Instance mem_uci_store : Uci mem_uci := {
  uci_view st c := st c;
  uci_sections st c ty := sections_of_type ty (st c);
  uci_get st c n o :=
    match find_section n (st c) with Some s => sec_opt o s | None => None end;
  uci_set st c n o v :=
    mem_upd st c (on_section n (if bool_decide (v = UStr "") then sec_del o else sec_put o v) (st c));
  uci_unset st c n o := mem_upd st c (on_section n (sec_del o) (st c));
  uci_add st c ty n :=
    mem_upd st c (List.filter (λ s, negb (String.eqb (sec_name s) n)) (st c) ++ [mkSection n ty []]);
  uci_remove st c n := mem_upd st c (List.filter (λ s, negb (String.eqb (sec_name s) n)) (st c));
}.

#[export] Instance mem_uci_laws : UciLaws mem_uci_store.
Proof.
  split; simpl; unfold mem_upd; intros; rewrite ?String.eqb_refl; try done.
  - by rewrite bool_decide_false.
  - f_equal. match goal with H : _ ∉ map sec_name _ |- _ => revert H end.
    induction (st c) as [|s l IH]; [done|]. cbn. intros [Hs Hl]%not_elem_of_cons.
    rewrite (proj2 (String.eqb_neq (sec_name s) n)) by congruence. cbn. by rewrite IH.
Qed.

Lemma on_section_names n f l :
  (∀ s, sec_name (f s) = sec_name s) → map sec_name (on_section n f l) = map sec_name l.
Proof.
  intros Hf. unfold on_section. rewrite map_map. apply map_ext. intros s.
  case_if; [apply Hf|done].
Qed.

Lemma find_on_section n m f l :
  (∀ s, sec_name (f s) = sec_name s) →
  find_section m (on_section n f l) =
  if String.eqb m n then f <$> find_section m l else find_section m l.
Proof.
  intros Hf. unfold find_section, on_section. induction l as [|s l IH]; [by case_if|].
  cbn [map List.find]. destruct (String.eqb (sec_name s) n) eqn:En.
  - rewrite Hf. apply String.eqb_eq in En. subst n.
    destruct (String.eqb (sec_name s) m) eqn:Em.
    + apply String.eqb_eq in Em as <-. by rewrite String.eqb_refl.
    + exact IH.
  - destruct (String.eqb (sec_name s) m) eqn:Em; [|exact IH].
    apply String.eqb_eq in Em as <-. by rewrite En.
Qed.

Lemma find_section_app n l1 l2 :
  find_section n (l1 ++ l2) =
  match find_section n l1 with Some s => Some s | None => find_section n l2 end.
Proof.
  unfold find_section. induction l1 as [|s l1 IH]; [done|]. cbn [app List.find]. by case_if.
Qed.

Lemma find_section_name n l s : find_section n l = Some s → sec_name s = n ∧ s ∈ l.
Proof.
  intros [Hin Hn]%find_some. split; [by apply String.eqb_eq|by apply list_elem_of_In].
Qed.

Lemma find_section_None n l : find_section n l = None ↔ n ∉ map sec_name l.
Proof.
  unfold find_section. induction l as [|s l IH]; cbn [List.find map].
  - split; [intros _; apply not_elem_of_nil|done].
  - rewrite not_elem_of_cons. destruct (String.eqb (sec_name s) n) eqn:E.
    + apply String.eqb_eq in E. naive_solver.
    + apply String.eqb_neq in E. rewrite IH. naive_solver.
Qed.

Lemma find_section_filter n m l :
  n ≠ m →
  find_section n (List.filter (λ s, negb (String.eqb (sec_name s) m)) l) = find_section n l.
Proof.
  intros Hne. unfold find_section. induction l as [|s l IH]; [done|]. cbn [List.filter List.find].
  destruct (String.eqb (sec_name s) m) eqn:Em; cbn [negb List.find].
  - apply String.eqb_eq in Em. rewrite IH. rewrite (proj2 (String.eqb_neq _ n)); [done|congruence].
  - by rewrite IH.
Qed.

Lemma opt_lookup_put o o' v l :
  opt_lookup o' (opts_put o v l) = if String.eqb o' o then Some v else opt_lookup o' l.
Proof.
  induction l as [|[j w] l IH]; cbn [opts_put opt_lookup]; [done|].
  destruct (String.eqb o j) eqn:E; cbn [opt_lookup].
  - apply String.eqb_eq in E as ->. by destruct (String.eqb o' j).
  - rewrite IH. destruct (String.eqb o' j) eqn:E1, (String.eqb o' o) eqn:E2; try done.
    apply String.eqb_eq in E1, E2. subst. by rewrite String.eqb_refl in E.
Qed.

(** ** Section names as keys *)

Definition names (l : list section) : list string := map sec_name l.

Lemma elem_of_sections_of_type ty l s :
  s ∈ sections_of_type ty l ↔ s ∈ l ∧ sec_type s = ty.
Proof.
  unfold sections_of_type. rewrite !list_elem_of_In, filter_In, String.eqb_eq. done.
Qed.

Lemma names_unique l s1 s2 :
  NoDup (names l) → s1 ∈ l → s2 ∈ l → sec_name s1 = sec_name s2 → s1 = s2.
Proof.
  unfold names. induction l as [|s l IH]; [by intros _ ?%not_elem_of_nil|].
  cbn [map]. rewrite NoDup_cons, !elem_of_cons. intros [Hs Hl] [->|H1] [->|H2] Heq; try done.
  - destruct Hs. rewrite Heq. apply list_elem_of_fmap. eauto.
  - destruct Hs. rewrite <- Heq. apply list_elem_of_fmap. eauto.
  - by apply IH.
Qed.

Lemma find_unique l s : NoDup (names l) → s ∈ l → find_section (sec_name s) l = Some s.
Proof.
  intros Hnd Hs. destruct (find_section (sec_name s) l) as [s'|] eqn:E.
  - apply find_section_name in E as [Hn Hs']. f_equal. by apply (names_unique l).
  - apply find_section_None in E. destruct E. apply list_elem_of_fmap. eauto.
Qed.

Lemma fold_set_own {A} (g : section → A) l o n :
  NoDup (names l) → "__proto__" ∉ names l →
  obj_own n (fold_left (λ o s, obj_set (sec_name s) (g s) o) l o) =
  match find_section n l with Some s => Some (g s) | None => obj_own n o end.
Proof.
  revert o. induction l as [|s l IH]; intros o; [done|]. unfold names. cbn [map fold_left].
  intros [Hs Hl]%NoDup_cons [Hp Hpl]%not_elem_of_cons. rewrite IH by done.
  rewrite obj_own_set by congruence. unfold find_section at 2. cbn [List.find]. fold (find_section n l).
  rewrite (String.eqb_sym (sec_name s)). destruct (String.eqb n (sec_name s)) eqn:E; [|done].
  apply String.eqb_eq in E as ->. by rewrite (proj2 (find_section_None _ _)).
Qed.

Lemma sections_of_type_names ty l : ∀ n, n ∈ names (sections_of_type ty l) → n ∈ names l.
Proof.
  intros n (s & -> & Hs)%list_elem_of_fmap. apply elem_of_sections_of_type in Hs as [Hs _].
  apply list_elem_of_fmap. eauto.
Qed.

Lemma filter_names_NoDup (f : section → bool) l : NoDup (names l) → NoDup (names (List.filter f l)).
Proof.
  unfold names. induction l as [|s l IH]; [done|]. cbn [map List.filter]. intros [Hs Hl]%NoDup_cons.
  destruct (f s); [|by apply IH]. cbn [map]. constructor; [|by apply IH].
  intros (s' & Heq & Hin%list_elem_of_In)%list_elem_of_fmap. apply filter_In in Hin as [Hin _].
  apply Hs. rewrite Heq. apply list_elem_of_fmap. exists s'. split; [done|by apply list_elem_of_In].
Qed.

Lemma sections_filter_map ty (w : section → section) (k : section → bool) l :
  (∀ s, sec_type (w s) = sec_type s) →
  (∀ s, s ∈ l → sec_type s = ty → w s = s ∧ k s = true) →
  sections_of_type ty (List.filter k (map w l)) = sections_of_type ty l.
Proof.
  intros Hw. unfold sections_of_type. induction l as [|s l IH]; intros Hl; [done|]. cbn [map List.filter].
  assert (∀ s, s ∈ l → sec_type s = ty → w s = s ∧ k s = true) as Hl' by (intros ? ?; apply Hl; by right).
  destruct (String.eqb (sec_type s) ty) eqn:E.
  - apply String.eqb_eq in E. destruct (Hl s ltac:(left) E) as [Hws Hks].
    rewrite Hws, Hks. cbn [List.filter]. by rewrite E, String.eqb_refl, IH.
  - destruct (k (w s)); cbn [List.filter]; rewrite ?Hw, ?E; by apply IH.
Qed.

(** ** Translation and formatting

    [_()] and [String.prototype.format] are LuCI's; the model passes texts
    through them unexamined. *)
Inductive fmt_arg : Type :=
  | FNum (n : num)
  | FStr (s : string).

Class I18n : Type := {
  tr : string → string;
  format : string → list fmt_arg → string;
}.

(** The identity translation, with arguments appended. *)
#[export] Instance plain_i18n : I18n := {
  tr s := s;
  format s args :=
    fold_left (λ acc a, acc +:+ "|" +:+ match a with FNum n => num_to_string n | FStr t => t end)
      args s;
}.

(** ** Document nodes

    [E(tag, attrs, children)] builds a DOM element.  A node is recorded as
    the call that builds it.  Children given in an array become text nodes
    when they are strings; a bare string is assigned to [innerHTML], which is
    why the views wrap free-form data with [components.text]. *)
Inductive node : Type :=
  | E (tag : string) (attrs : list (string * string)) (children : kids)
  | TextNode (s : string)
with kids : Type :=
  | Kids (l : list node)
  | Html (s : string)
  | One (n : node).

(** A string child inside an array. *)
Abbreviation Txt := TextNode.
