(* ===== verification/IpMath.v ===== *)
(** [resources/mwan3/ipmath.js]: IPv4 and IPv6 addresses, CIDR containment,
    set membership and port matching. *)
From stdpp Require Import base list strings.
From Stdlib Require Import ZArith Lia Ascii Bool.
From S2P Require Import Prelude JsNum JsString Luci.

(** ** IPv4 *)

Definition ipv4ToUint (ip : string) : num :=
  let parts := str_split "." ip in
  num_ushr
    (num_or (num_or (num_or
       (num_shl (parseInt_opt (parts !! 0%nat) 10) (Fin 24))
       (num_shl (parseInt_opt (parts !! 1%nat) 10) (Fin 16)))
       (num_shl (parseInt_opt (parts !! 2%nat) 10) (Fin 8)))
       (parseInt_opt (parts !! 3%nat) 10))
    (Fin 0).

(** [prefix === 0 ? 0 : ((0xFFFFFFFF << (32 - prefix)) >>> 0)] *)
Definition ipv4_mask (prefix : num) : num :=
  if num_eqb prefix (Fin 0) then Fin 0
  else num_ushr (num_shl (Fin 0xFFFFFFFF) (num_sub (Fin 32) prefix)) (Fin 0).

Definition ipv4InCidr (ip cidr : string) : bool :=
  let slash := str_index_of cidr "/" in
  if slash <? 0 then String.eqb ip cidr
  else
    let prefix := parseInt (str_from (slash + 1) cidr) 10 in
    let mask := ipv4_mask prefix in
    let network := num_and (ipv4ToUint (str_upto slash cidr)) mask in
    num_eqb (num_and (ipv4ToUint ip) mask) network.

Definition ipv4CidrContains (a b : string) : bool :=
  let slashA := str_index_of a "/" in
  let slashB := str_index_of b "/" in
  let prefA := if slashA <? 0 then Fin 32 else parseInt (str_from (slashA + 1) a) 10 in
  let prefB := if slashB <? 0 then Fin 32 else parseInt (str_from (slashB + 1) b) 10 in
  if num_ltb prefB prefA then false
  else
    let maskA := ipv4_mask prefA in
    let netA := num_ushr
      (num_and (ipv4ToUint (if slashA <? 0 then a else str_upto slashA a)) maskA) (Fin 0) in
    let netB := num_ushr
      (num_and (ipv4ToUint (if slashB <? 0 then b else str_upto slashB b)) maskA) (Fin 0) in
    num_eqb netA netB.

(** ** IPv6 *)

(** [BigInt(x)] throws on a number that is not an integer. *)
Definition BigInt (x : num) : res Z :=
  match x with
  | Fin z => Ok z
  | _ => Throw "RangeError"
  end.

Definition split_half (h : string) : list string :=
  if str_truthy h then str_split ":" h else [].

Definition expandIPv6 (ip : string) : list string :=
  match str_split "::" ip with
  | [h0; h1] =>
      let left := split_half h0 in
      let right := split_half h1 in
      let fill := 8 - Z.of_nat (length left) - Z.of_nat (length right) in
      (left ++ replicate (Z.to_nat fill) "0") ++ right
  | _ => str_split ":" ip
  end.

(** [groups[i] || '0'] *)
Definition group_text (o : option string) : string :=
  match o with
  | Some s => if str_truthy s then s else "0"
  | None => "0"
  end.

(** The loop over the eight groups, from index [i], [n] groups to go. *)
Fixpoint bigint_groups (groups : list string) (i n : nat) (result : Z) : res Z :=
  match n with
  | O => Ok result
  | S n' =>
      let* g := BigInt (parseInt (group_text (groups !! i)) 16) in
      bigint_groups groups (S i) n' (Z.lor (Z.shiftl result 16) g)
  end.

Definition ipv6ToBigInt (ip : string) : res Z :=
  bigint_groups (expandIPv6 ip) 0 8 0.

Definition allOnes : Z := Z.shiftl 1 128 - 1.

(** [prefix === 0 ? 0n : allOnes ^ ((1n << BigInt(128 - prefix)) - 1n)] *)
Definition ipv6_mask (prefix : num) : res Z :=
  if num_eqb prefix (Fin 0) then Ok 0
  else
    let* k := BigInt (num_sub (Fin 128) prefix) in
    Ok (Z.lxor allOnes (Z.shiftl 1 k - 1)).

Definition ipv6InCidr (ip cidr : string) : res bool :=
  let slash := str_index_of cidr "/" in
  if slash <? 0 then Ok (String.eqb (str_lower ip) (str_lower cidr))
  else
    let prefix := parseInt (str_from (slash + 1) cidr) 10 in
    let* mask := ipv6_mask prefix in
    let* ipInt := ipv6ToBigInt ip in
    let* netInt := ipv6ToBigInt (str_upto slash cidr) in
    Ok (Z.land ipInt mask =? Z.land netInt mask).

Definition ipv6CidrContains (a b : string) : res bool :=
  let slashA := str_index_of a "/" in
  let slashB := str_index_of b "/" in
  let prefA := if slashA <? 0 then Fin 128 else parseInt (str_from (slashA + 1) a) 10 in
  let prefB := if slashB <? 0 then Fin 128 else parseInt (str_from (slashB + 1) b) 10 in
  if num_ltb prefB prefA then Ok false
  else
    let* maskA := ipv6_mask prefA in
    let* intA := ipv6ToBigInt (if slashA <? 0 then a else str_upto slashA a) in
    let* intB := ipv6ToBigInt (if slashB <? 0 then b else str_upto slashB b) in
    Ok (Z.land intA maskA =? Z.land intB maskA).

(** ** Family detection and dispatch, set membership *)

Section Dispatch.
Context `{V : Validation}.

Definition isIPv6 (ip : string) : bool :=
  parseIPv6 (hd "" (str_split "/" ip)).

Definition ipInCidr (ip cidr : string) : res bool :=
  if negb (str_truthy ip) || negb (str_truthy cidr) then Ok false
  else if isIPv6 ip then ipv6InCidr ip cidr else Ok (ipv4InCidr ip cidr).

Definition cidrContains (a b : string) : res bool :=
  if (0 <=? str_index_of a ",") || (0 <=? str_index_of b ",") then Ok false
  else
    let a_v6 := parseIPv6 (hd "" (str_split "/" a)) in
    let b_v6 := parseIPv6 (hd "" (str_split "/" b)) in
    if a_v6 && b_v6 then ipv6CidrContains a b
    else if negb a_v6 && negb b_v6 then Ok (ipv4CidrContains a b)
    else Ok false.

(** The body of the loop of [ipInSet] for one member. *)
Definition ipMatchesMember (ip m : string) : res bool :=
  if (0 <? str_index_of m "-") && negb (isIPv6 m) then
    let ends := str_split "-" m in
    let start := ipv4ToUint (default "" (ends !! 0%nat)) in
    let stop := ipv4ToUint (default "" (ends !! 1%nat)) in
    let addr := ipv4ToUint ip in
    Ok (num_leb start addr && num_leb addr stop)
  else if 0 <=? str_index_of m "/" then ipInCidr ip m
  else Ok (String.eqb m ip).

Definition ipInSet (ip : string) (members : list string) : res bool :=
  some_res (ipMatchesMember ip) members.
End Dispatch.

(** ** Port matching *)

Definition port_part_matches (p : num) (part : string) : bool :=
  let part := str_trim part in
  if 0 <=? str_index_of part ":" then
    let range := str_split ":" part in
    num_leb (parseInt_opt (range !! 0%nat) 10) p && num_leb p (parseInt_opt (range !! 1%nat) 10)
  else num_eqb (parseInt part 10) p.

Definition portMatches (port : string) (spec : option string) : bool :=
  match spec with
  | None => true
  | Some spec =>
      if negb (str_truthy spec) then true
      else if negb (str_truthy port) then true
      else
        let p := parseInt port 10 in
        if is_NaN p then false
        else existsb (port_part_matches p) (str_split "," spec)
  end.

(** ** The value of an IPv4 text

    [ipv4ToUint] is total: every text has a value below 2^32. *)

Definition v4_value (ip : string) : Z := to_u32 (ipv4ToUint ip).

Lemma ipv4ToUint_value ip : ipv4ToUint ip = Fin (v4_value ip).
Proof.
  unfold v4_value, ipv4ToUint, num_ushr. cbn [to_u32].
  change (wrap_u32 0 mod 32) with 0. rewrite Z.shiftr_0_r.
  by rewrite wrap_u32_small by apply wrap_u32_range.
Qed.

Lemma v4_value_range ip : 0 <= v4_value ip < 2 ^ 32.
Proof.
  unfold v4_value. rewrite ipv4ToUint_value. apply wrap_u32_range.
Qed.

#[global] Opaque v4_value.

(** The dotted form of a 32-bit address. *)
Definition dotted (a b c d : Z) : string :=
  str_join "." [dec a; dec b; dec c; dec d].

Definition v4_text (x : Z) : string :=
  dotted (x / 2 ^ 24) (x / 2 ^ 16 mod 2 ^ 8) (x / 2 ^ 8 mod 2 ^ 8) (x mod 2 ^ 8).

Definition cidr_text (net : string) (p : Z) : string := net +:+ "/" +:+ dec p.

Lemma octet_shl a k :
  0 <= a < 2 ^ 8 → 0 <= k <= 24 →
  wrap_u32 (match num_shl (Fin a) (Fin k) with Fin z => z | _ => 0 end) = a * 2 ^ k.
Proof.
  intros Ha Hk. unfold num_shl. cbn [to_i32 to_u32].
  assert (a * 2 ^ k < 2 ^ 32).
  { apply Z.lt_le_trans with (2 ^ 8 * 2 ^ k); [apply Z.mul_lt_mono_pos_r; [apply pow2_pos; lia|lia]|].
    rewrite <- Z.pow_add_r by lia. apply Z.pow_le_mono_r; lia. }
  assert (0 < 2 ^ k) by (apply pow2_pos; lia).
  rewrite wrap_i32_cong, wrap_i32_id by lia.
  rewrite (wrap_u32_small k), (Z.mod_small k) by lia.
  rewrite Z.shiftl_mul_pow2 by lia. apply wrap_u32_small. nia.
Qed.

Lemma shl_Fin x y : num_shl x y = Fin (match num_shl x y with Fin z => z | _ => 0 end).
Proof. done. Qed.

Lemma lor_add_shift hi lo k :
  0 <= k → 0 <= lo < 2 ^ k → Z.lor (hi * 2 ^ k) lo = hi * 2 ^ k + lo.
Proof.
  intros Hk Hlo. symmetry. rewrite <- Z.shiftl_mul_pow2 by done.
  rewrite Z.add_nocarry_lxor, Z.lxor_lor; try done; apply Z.bits_inj'; intros i Hi;
    rewrite Z.land_spec, Z.bits_0, Z.shiftl_spec by lia;
    (destruct (Z.le_gt_cases k i);
      [rewrite (testbit_high k lo) by lia; by rewrite andb_false_r
      |rewrite Z.testbit_neg_r by lia; done]).
Qed.

Lemma octets_value a b c d :
  0 <= a < 2 ^ 8 → 0 <= b < 2 ^ 8 → 0 <= c < 2 ^ 8 → 0 <= d < 2 ^ 8 →
  num_ushr (num_or (num_or (num_or (num_shl (Fin a) (Fin 24)) (num_shl (Fin b) (Fin 16)))
    (num_shl (Fin c) (Fin 8))) (Fin d)) (Fin 0)
  = Fin (a * 2 ^ 24 + b * 2 ^ 16 + c * 2 ^ 8 + d).
Proof.
  intros Ha Hb Hc Hd.
  pose proof (octet_shl a 24 Ha ltac:(lia)) as Ea.
  pose proof (octet_shl b 16 Hb ltac:(lia)) as Eb.
  pose proof (octet_shl c 8 Hc ltac:(lia)) as Ec.
  rewrite (shl_Fin (Fin a)), (shl_Fin (Fin b)), (shl_Fin (Fin c)).
  revert Ea Eb Ec. generalize (match num_shl (Fin a) (Fin 24) with Fin z => z | _ => 0 end).
  generalize (match num_shl (Fin b) (Fin 16) with Fin z => z | _ => 0 end).
  generalize (match num_shl (Fin c) (Fin 8) with Fin z => z | _ => 0 end).
  intros zc zb za Ea Eb Ec. unfold num_ushr, num_or. cbn [to_i32 to_u32].
  change (wrap_u32 0 mod 32) with 0. rewrite Z.shiftr_0_r. f_equal.
  rewrite !wrap_u32_lor, !wrap_i32_cong, !wrap_u32_lor, !wrap_i32_cong.
  rewrite !wrap_u32_lor, !wrap_i32_cong, Ea, Eb, Ec, (wrap_u32_small d) by lia.
  replace (a * 2 ^ 24) with (a * 2 ^ 8 * 2 ^ 16) by lia.
  rewrite <- Z.lor_assoc, <- Z.lor_assoc.
  rewrite (lor_add_shift c d), (lor_add_shift b) by nia.
  replace (a * 2 ^ 8 * 2 ^ 16) with (a * 2 ^ 24) by lia.
  rewrite lor_add_shift by nia. lia.
Qed.

Lemma octet_safe a : 0 <= a < 2 ^ 8 → safe a.
Proof. unfold safe. lia. Qed.

(** A dotted text is read in network order. *)
Lemma ipv4ToUint_dotted a b c d :
  0 <= a < 2 ^ 8 → 0 <= b < 2 ^ 8 → 0 <= c < 2 ^ 8 → 0 <= d < 2 ^ 8 →
  ipv4ToUint (dotted a b c d) = Fin (a * 2 ^ 24 + b * 2 ^ 16 + c * 2 ^ 8 + d).
Proof.
  intros Ha Hb Hc Hd. unfold ipv4ToUint, dotted.
  rewrite str_split_join; [|done|].
  - cbn. rewrite !parseInt_dec by (lia || by apply octet_safe).
    by apply octets_value.
  - repeat constructor; apply dec_free; (done || lia).
Qed.

Lemma v4_text_value x : 0 <= x < 2 ^ 32 → v4_value (v4_text x) = x.
Proof.
  intros Hx. enough (Fin (v4_value (v4_text x)) = Fin x) as [=]; [done|].
  rewrite <- ipv4ToUint_value. unfold v4_text.
  rewrite ipv4ToUint_dotted; try (apply Z.mod_pos_bound; lia).
  - f_equal. Z.div_mod_to_equations; lia.
  - Z.div_mod_to_equations; lia.
Qed.

Lemma dotted_free c a b d e :
  is_digit c = false → Ascii.eqb "." c = false →
  0 <= a → 0 <= b → 0 <= d → 0 <= e → char_free c (dotted a b d e) = true.
Proof.
  intros Hc Hdot Ha Hb Hd He. unfold dotted, str_join.
  rewrite !char_free_app, !dec_free by done.
  unfold char_free; cbn [str_forall]. by rewrite Hdot.
Qed.

Lemma v4_text_free c x :
  is_digit c = false → Ascii.eqb "." c = false → 0 <= x → char_free c (v4_text x) = true.
Proof.
  intros Hc Hdot Hx. apply dotted_free; try done;
    (apply Z.mod_pos_bound || apply Z.div_pos); lia.
Qed.

(** ** CIDR texts *)

Lemma cidr_text_index net p :
  char_free "/" net = true → str_index_of (cidr_text net p) "/" = str_len net.
Proof. intros H. unfold cidr_text. by rewrite (str_app_cons "/" ""), index_of_app. Qed.

Lemma cidr_text_net net p : str_upto (str_len net) (cidr_text net p) = net.
Proof. apply str_upto_app. Qed.

Lemma cidr_text_prefix net p : str_from (str_len net + 1) (cidr_text net p) = dec p.
Proof. apply str_from_app. Qed.

Lemma str_len_nonneg s : (str_len s <? 0) = false.
Proof. apply Z.ltb_ge. unfold str_len. lia. Qed.

Lemma prefix_safe p : 0 <= p <= 128 → safe p.
Proof. unfold safe. lia. Qed.

Lemma ipv4_mask_spec p : 0 <= p <= 32 → ipv4_mask (Fin p) = Fin (2 ^ 32 - 2 ^ (32 - p)).
Proof.
  intros Hp.
  pose proof (all_below_spec 33
    (λ p, bool_decide (ipv4_mask (Fin p) = Fin (2 ^ 32 - 2 ^ (32 - p)))) eq_refl p) as H.
  apply bool_decide_eq_true in H; [done|lia].
Qed.

Lemma prefix_eqb_spec w k x y :
  0 <= k <= w → 0 <= x < 2 ^ w → 0 <= y < 2 ^ w →
  (Z.land x (2 ^ w - 2 ^ k) =? Z.land y (2 ^ w - 2 ^ k)) = (x / 2 ^ k =? y / 2 ^ k).
Proof.
  intros Hk Hx Hy. rewrite !land_prefix_mask by lia.
  apply eq_true_iff_eq. rewrite !Z.eqb_eq, prefix_eq_mul. lia.
Qed.

(** The network part of an address under a prefix of [p] bits out of [w]. *)
Definition net_part (w p x : Z) : Z := x / 2 ^ (w - p).

Lemma ipv4InCidr_value ip net p :
  char_free "/" net = true → 0 <= p <= 32 →
  ipv4InCidr ip (cidr_text net p) =
  (net_part 32 p (v4_value ip) =? net_part 32 p (v4_value net)).
Proof.
  intros Hnet Hp. unfold ipv4InCidr.
  rewrite cidr_text_index, str_len_nonneg, cidr_text_net, cidr_text_prefix by done.
  rewrite parseInt_dec, ipv4_mask_spec, !ipv4ToUint_value by (lia || apply prefix_safe; lia).
  assert (0 < 2 ^ (32 - p) <= 2 ^ 32).
  { split; [apply pow2_pos|apply Z.pow_le_mono_r]; lia. }
  rewrite num_and_eqb by (try apply v4_value_range; lia).
  apply prefix_eqb_spec; try apply v4_value_range; lia.
Qed.

Lemma ipv4CidrContains_value na pa nb pb :
  char_free "/" na = true → char_free "/" nb = true →
  0 <= pa <= 32 → 0 <= pb <= 32 →
  ipv4CidrContains (cidr_text na pa) (cidr_text nb pb) =
  (pa <=? pb) && (net_part 32 pa (v4_value na) =? net_part 32 pa (v4_value nb)).
Proof.
  intros Ha Hb Hpa Hpb. unfold ipv4CidrContains.
  rewrite !cidr_text_index, !str_len_nonneg, !cidr_text_net, !cidr_text_prefix by done.
  rewrite !parseInt_dec by (lia || apply prefix_safe; lia). cbn [num_ltb].
  destruct (Z.ltb_spec pb pa).
  { by rewrite (proj2 (Z.leb_gt pa pb)) by lia. }
  rewrite (proj2 (Z.leb_le pa pb)), andb_true_l by lia.
  rewrite !ipv4ToUint_value, ipv4_mask_spec by lia.
  assert (0 < 2 ^ (32 - pa) <= 2 ^ 32).
  { split; [apply pow2_pos|apply Z.pow_le_mono_r]; lia. }
  rewrite !num_and_ushr by (try apply v4_value_range; lia). cbn [num_eqb].
  apply prefix_eqb_spec; try apply v4_value_range; lia.
Qed.

(** If every address under the prefix [pb] of [y] is under the prefix [pa] of
    [x], the second prefix is no shorter and agrees with the first. *)
Lemma prefix_subset_inv w pa pb x y :
  0 <= pa <= w → 0 <= pb <= w → 0 <= x < 2 ^ w → 0 <= y < 2 ^ w →
  (∀ z, 0 <= z < 2 ^ w → z / 2 ^ (w - pb) = y / 2 ^ (w - pb) →
        z / 2 ^ (w - pa) = x / 2 ^ (w - pa)) →
  pa <= pb ∧ x / 2 ^ (w - pa) = y / 2 ^ (w - pa).
Proof.
  intros Hpa Hpb Hx Hy Hsub.
  pose proof (Hsub y Hy eq_refl) as Hxy. split; [|done].
  destruct (Z.le_gt_cases pa pb); [done|exfalso].
  (* flip the bit just below the prefix [pb]: it belongs to the prefix [pa] *)
  set (k := w - pb - 1) in *.
  assert (0 < 2 ^ k) as Hk by (apply pow2_pos; lia).
  assert (2 ^ (w - pb) = 2 * 2 ^ k) as Hpow.
  { rewrite <- Z.pow_succ_r by lia. f_equal. lia. }
  set (base := y / 2 ^ (w - pb) * 2 ^ (w - pb)).
  assert (0 <= base /\ base + 2 ^ (w - pb) <= 2 ^ w) as [Hb0 Hb1].
  { unfold base. split; [apply Z.mul_nonneg_nonneg; [apply Z.div_pos|]; lia|].
    assert (y / 2 ^ (w - pb) < 2 ^ pb) as Hlt.
    { apply Z.div_lt_upper_bound; [lia|]. rewrite <- Z.pow_add_r by lia.
      replace (w - pb + pb) with w by lia. lia. }
    replace (2 ^ w) with (2 ^ pb * 2 ^ (w - pb)) by (rewrite <- Z.pow_add_r by lia; f_equal; lia).
    nia. }
  assert (∀ r, 0 <= r < 2 ^ (w - pb) → (base + r) / 2 ^ (w - pb) = y / 2 ^ (w - pb)) as Hdiv.
  { intros r Hr. unfold base. rewrite Z.add_comm, Z.div_add, Z.div_small by lia. lia. }
  pose proof (Hsub (base + 0) ltac:(lia) (Hdiv 0 ltac:(lia))) as H0.
  pose proof (Hsub (base + 2 ^ k) ltac:(lia) (Hdiv (2 ^ k) ltac:(lia))) as H1.
  assert ((base + 0) / 2 ^ k = (base + 2 ^ k) / 2 ^ k) as Heq.
  { apply prefix_coarsen with (w - pa); [lia|congruence]. }
  rewrite (Z.add_0_r base), <- (Z.mul_1_l (2 ^ k)) in Heq at 1.
  rewrite Z.mul_1_l in Heq.
  replace (base + 2 ^ k) with (base + 1 * 2 ^ k) in Heq by lia.
  rewrite Z.div_add in Heq by lia. lia.
Qed.

(** C7: for IPv4 CIDR texts the static test [ipv4CidrContains] decides
    exactly the inclusion of the address sets that [ipv4InCidr] accepts: it
    answers true iff every address text inside B is also inside A. *)
Theorem ipv4CidrContains_iff_subset na pa nb pb :
  char_free "/" na = true → char_free "/" nb = true →
  0 <= pa <= 32 → 0 <= pb <= 32 →
  ipv4CidrContains (cidr_text na pa) (cidr_text nb pb) = true ↔
  (∀ ip, ipv4InCidr ip (cidr_text nb pb) = true → ipv4InCidr ip (cidr_text na pa) = true).
Proof.
  intros Ha Hb Hpa Hpb. rewrite ipv4CidrContains_value by assumption.
  pose proof (v4_value_range na) as Hna. pose proof (v4_value_range nb) as Hnb.
  rewrite andb_true_iff, Z.leb_le, Z.eqb_eq. unfold net_part. split.
  - intros [Hle Heq] ip. rewrite !ipv4InCidr_value by assumption.
    rewrite !Z.eqb_eq. unfold net_part. intros Hip.
    rewrite Heq. apply prefix_coarsen with (32 - pb); [lia|done].
  - intros Hsub.
    assert (∀ x, 0 <= x < 2 ^ 32 → x / 2 ^ (32 - pb) = v4_value nb / 2 ^ (32 - pb) →
            x / 2 ^ (32 - pa) = v4_value na / 2 ^ (32 - pa)) as Hval.
    { intros x Hx. specialize (Hsub (v4_text x)).
      rewrite !ipv4InCidr_value, !v4_text_value, !Z.eqb_eq in Hsub by assumption.
      unfold net_part in Hsub. assumption. }
    apply (prefix_subset_inv 32 pa pb (v4_value na) (v4_value nb)); assumption.
Qed.

(** ** IPv6 values *)

Lemma ipv6_mask_spec p : 0 <= p <= 128 → ipv6_mask (Fin p) = Ok (2 ^ 128 - 2 ^ (128 - p)).
Proof.
  intros Hp.
  pose proof (all_below_spec 129 (λ p,
    match ipv6_mask (Fin p) with Ok m => m =? 2 ^ 128 - 2 ^ (128 - p) | _ => false end)
    eq_refl p) as H.
  cbv beta in H. specialize (H ltac:(lia)).
  destruct (ipv6_mask (Fin p)); [|discriminate H].
  f_equal. by apply Z.eqb_eq.
Qed.

(** [v6_value ip x]: the text denotes the 128-bit address [x]. *)
Definition v6_value (ip : string) (x : Z) : Prop :=
  ipv6ToBigInt ip = Ok x ∧ 0 <= x < 2 ^ 128.

Lemma ipv6InCidr_value ip net p x n :
  char_free "/" net = true → 0 <= p <= 128 → v6_value ip x → v6_value net n →
  ipv6InCidr ip (cidr_text net p) = Ok (net_part 128 p x =? net_part 128 p n).
Proof.
  intros Hnet Hp [Hip Hx] [Hn Hnr]. unfold ipv6InCidr.
  rewrite cidr_text_index, str_len_nonneg, cidr_text_net, cidr_text_prefix by done.
  rewrite parseInt_dec, ipv6_mask_spec by (lia || apply prefix_safe; lia).
  rewrite Hip, Hn. cbn [rbind]. f_equal. apply prefix_eqb_spec; lia.
Qed.

Lemma ipv6CidrContains_value na pa nb pb x y :
  char_free "/" na = true → char_free "/" nb = true →
  0 <= pa <= 128 → 0 <= pb <= 128 → v6_value na x → v6_value nb y →
  ipv6CidrContains (cidr_text na pa) (cidr_text nb pb) =
  Ok ((pa <=? pb) && (net_part 128 pa x =? net_part 128 pa y)).
Proof.
  intros Ha Hb Hpa Hpb [Hx Hxr] [Hy Hyr]. unfold ipv6CidrContains.
  rewrite !cidr_text_index, !str_len_nonneg, !cidr_text_net, !cidr_text_prefix by done.
  rewrite !parseInt_dec by (lia || apply prefix_safe; lia). cbn [num_ltb].
  destruct (Z.ltb_spec pb pa).
  { by rewrite (proj2 (Z.leb_gt pa pb)) by lia. }
  rewrite (proj2 (Z.leb_le pa pb)), andb_true_l by lia.
  rewrite ipv6_mask_spec, Hx, Hy by lia. cbn [rbind]. f_equal.
  apply prefix_eqb_spec; lia.
Qed.

(** The IPv6 test is sound: when [ipv6CidrContains] answers true, every
    address inside B is inside A. *)
Theorem ipv6CidrContains_sound na pa nb pb x y ip z :
  char_free "/" na = true → char_free "/" nb = true →
  0 <= pa <= 128 → 0 <= pb <= 128 →
  v6_value na x → v6_value nb y → v6_value ip z →
  ipv6CidrContains (cidr_text na pa) (cidr_text nb pb) = Ok true →
  ipv6InCidr ip (cidr_text nb pb) = Ok true →
  ipv6InCidr ip (cidr_text na pa) = Ok true.
Proof.
  intros Ha Hb Hpa Hpb Hx Hy Hz.
  rewrite (ipv6CidrContains_value _ _ _ _ x y), (ipv6InCidr_value _ nb _ z y),
    (ipv6InCidr_value _ na _ z x) by assumption.
  intros [= [Hle Hab]%andb_true_iff] [= Hzb]. f_equal.
  apply Z.leb_le in Hle. apply Z.eqb_eq in Hab, Hzb. apply Z.eqb_eq.
  unfold net_part in *. rewrite Hab. apply prefix_coarsen with (128 - pb); [lia|done].
Qed.

(** *** The [::] abbreviation *)

Definition group_ok (g : string) : Prop := g ≠ "" ∧ char_free ":" g = true.

Lemma prefix_dcolon c s :
  String.prefix "::" (String c s) =
  Ascii.eqb ":" c && match s with EmptyString => false | String d _ => Ascii.eqb ":" d end.
Proof.
  change (String.prefix "::" (String c s)) with
    (if ascii_dec ":" c then String.prefix ":" s else false).
  destruct (ascii_dec ":" c) as [<-|Hc].
  - by rewrite prefix_char.
  - by apply Ascii.eqb_neq in Hc as ->.
Qed.

Lemma split_dcolon_group g r :
  char_free ":" g = true →
  split_go "::" 0 (g +:+ r) = let '(p, ps) := split_go "::" 0 r in (g +:+ p, ps).
Proof.
  induction g as [|c g IH]; intros Hg.
  { rewrite str_app_nil_l. by destruct (split_go _ 0 r). }
  rewrite char_free_cons in Hg. apply andb_true_iff in Hg as [Hc Hg].
  rewrite str_app_cons. cbn [split_go]. rewrite prefix_dcolon.
  apply negb_true_iff in Hc. rewrite Ascii.eqb_sym in Hc. rewrite Hc, IH by done.
  by destruct (split_go _ 0 r).
Qed.

Lemma split_dcolon_mark s :
  split_go "::" 0 ("::" +:+ s) = let '(p, ps) := split_go "::" 0 s in ("", p :: ps).
Proof.
  rewrite !str_app_cons, str_app_nil_l.
  change (split_go "::" 0 (String ":" (String ":" s))) with
    (if String.prefix "::" (String ":" (String ":" s))
     then let '(p, ps) := split_go "::" 0 s in ("", p :: ps)
     else let '(p, ps) := split_go "::" 0 (String ":" s) in (String ":" p, ps)).
  by rewrite prefix_dcolon.
Qed.

(** Groups joined by single colons never contain the two-colon mark. *)
Lemma split_dcolon_join l r :
  l ≠ [] → Forall group_ok l →
  split_go "::" 0 (str_join ":" l +:+ r) =
  let '(p, ps) := split_go "::" 0 r in (str_join ":" l +:+ p, ps).
Proof.
  intros Hne Hl. induction Hl as [|g l [Hg Hgc] Hl IH]; [done|].
  destruct l as [|h l]; [by apply split_dcolon_group|].
  rewrite str_join_cons2, !str_app_assoc, split_dcolon_group by done.
  assert (∃ c t, str_join ":" (h :: l) = String c t ∧ Ascii.eqb ":" c = false) as (c & t & Heq & Hc).
  { inversion Hl as [|? ? [Hh Hhc]]; subst. destruct h as [|c h]; [done|].
    rewrite char_free_cons in Hhc. apply andb_true_iff in Hhc as [Hc _].
    apply negb_true_iff in Hc. rewrite Ascii.eqb_sym in Hc.
    exists c. destruct l; eexists; (split; [|exact Hc]); [done|].
    rewrite str_join_cons2, str_app_cons. done. }
  rewrite (str_app_cons ":" ""), str_app_nil_l. cbn [split_go]. rewrite prefix_dcolon.
  rewrite Heq, str_app_cons, Hc, andb_false_r, <- str_app_cons, <- Heq, IH by done.
  destruct (split_go "::" 0 r). by rewrite !str_app_assoc.
Qed.

Lemma str_join_truthy l :
  l ≠ [] → Forall group_ok l → str_truthy (str_join ":" l) = true.
Proof.
  intros Hne Hl. destruct Hl as [|g l [Hg _] Hl]; [done|].
  destruct g as [|c g]; [done|]. destruct l; [done|].
  rewrite str_join_cons2. done.
Qed.

Lemma split_half_join l : Forall group_ok l → split_half (str_join ":" l) = l.
Proof.
  intros Hl. destruct l as [|g l]; [done|]. unfold split_half.
  rewrite str_join_truthy by done.
  apply str_split_join; [done|]. eapply Forall_impl; [exact Hl|]. by intros ? [_ ?].
Qed.

Lemma expandIPv6_compressed l r :
  Forall group_ok l → Forall group_ok r → (length l + length r <= 8)%nat →
  expandIPv6 (str_join ":" l +:+ "::" +:+ str_join ":" r) =
  l ++ replicate (8 - length l - length r) "0" ++ r.
Proof.
  intros Hl Hr Hlen. unfold expandIPv6, str_split.
  assert (∀ l', Forall group_ok l' → split_go "::" 0 (str_join ":" l') = (str_join ":" l', [])) as Hj.
  { intros l' Hl'. destruct l' as [|g l']; [done|].
    rewrite <- (str_app_nil_r (str_join _ _)), split_dcolon_join by done. done. }
  assert (split_go "::" 0 (str_join ":" l +:+ "::" +:+ str_join ":" r)
          = (str_join ":" l, [str_join ":" r])) as ->.
  { assert (split_go "::" 0 ("::" +:+ str_join ":" r) = ("", [str_join ":" r])) as Hd.
    { by rewrite split_dcolon_mark, Hj. }
    destruct l as [|g l]; [cbn [str_join]; by rewrite str_app_nil_l, Hd|].
    rewrite split_dcolon_join, Hd, str_app_nil_r by done. done. }
  rewrite !split_half_join, <- app_assoc by done.
  do 3 f_equal. lia.
Qed.

Lemma expandIPv6_full l :
  l ≠ [] → Forall group_ok l → expandIPv6 (str_join ":" l) = l.
Proof.
  intros Hne Hl. unfold expandIPv6. unfold str_split at 1.
  rewrite <- (str_app_nil_r (str_join ":" l)) at 1.
  rewrite split_dcolon_join by done. cbn [split_go].
  apply str_split_join; [done|]. eapply Forall_impl; [exact Hl|]. by intros ? [_ ?].
Qed.

Lemma zero_group_ok : group_ok "0".
Proof. split; done. Qed.

(** C36: a text abbreviated with [::] denotes the same address as the text
    with the missing groups written out as zeros. *)
Theorem ipv6ToBigInt_compressed l r :
  Forall group_ok l → Forall group_ok r → (length l + length r < 8)%nat →
  ipv6ToBigInt (str_join ":" l +:+ "::" +:+ str_join ":" r) =
  ipv6ToBigInt (str_join ":" (l ++ replicate (8 - length l - length r) "0" ++ r)).
Proof.
  intros Hl Hr Hlen. unfold ipv6ToBigInt. rewrite expandIPv6_compressed by (done || lia).
  rewrite expandIPv6_full; [done| |].
  - intros E. apply (f_equal length) in E. rewrite !length_app, length_replicate in E.
    simpl in E. lia.
  - rewrite !Forall_app. split_and!; [done| |done].
    apply Forall_replicate, zero_group_ok.
Qed.

(** The value of eight groups, most significant first. *)
Definition groups_value (vs : list Z) : Z := fold_left (λ acc v, acc * 2 ^ 16 + v) vs 0.

Lemma bigint_groups_value groups i vs acc :
  0 <= acc →
  (∀ j v, vs !! j = Some v →
     parseInt (group_text (groups !! (i + j)%nat)) 16 = Fin v ∧ 0 <= v < 2 ^ 16) →
  bigint_groups groups i (length vs) acc =
  Ok (fold_left (λ acc v, acc * 2 ^ 16 + v) vs acc).
Proof.
  revert i acc. induction vs as [|v vs IH]; intros i acc Hacc Hvs; [done|].
  destruct (Hvs 0%nat v eq_refl) as [Hp Hv]. rewrite Nat.add_0_r in Hp.
  cbn [length bigint_groups fold_left]. rewrite Hp. cbn [BigInt rbind].
  rewrite Z.shiftl_mul_pow2, lor_add_shift by lia.
  apply IH; [lia|]. intros j w Hj. specialize (Hvs (S j) w Hj).
  by rewrite Nat.add_succ_r in Hvs.
Qed.

Lemma groups_value_range vs acc n :
  0 <= acc < 2 ^ (16 * n) → 0 <= n → Forall (λ v, 0 <= v < 2 ^ 16) vs →
  0 <= fold_left (λ acc v, acc * 2 ^ 16 + v) vs acc < 2 ^ (16 * (n + Z.of_nat (length vs))).
Proof.
  intros Ha Hn Hvs. revert acc n Ha Hn. induction Hvs as [|v vs Hv Hvs IH]; intros acc n Ha Hn.
  { simpl. by rewrite Z.add_0_r. }
  cbn [fold_left length]. replace (n + Z.of_nat (S (length vs))) with (n + 1 + Z.of_nat (length vs)) by lia.
  apply IH; [|lia]. replace (16 * (n + 1)) with (16 * n + 16) by lia.
  rewrite Z.pow_add_r by lia. lia.
Qed.

(** A text with eight groups of at most four hexadecimal digits denotes the
    128-bit number they spell. *)
Lemma ipv6_groups_value ip vs :
  length vs = 8%nat →
  (∀ j v, vs !! j = Some v →
     parseInt (group_text (expandIPv6 ip !! j)) 16 = Fin v ∧ 0 <= v < 2 ^ 16) →
  v6_value ip (groups_value vs).
Proof.
  intros Hlen Hvs. split.
  - unfold ipv6ToBigInt. rewrite <- Hlen. apply bigint_groups_value; [lia|]. apply Hvs.
  - pose proof (groups_value_range vs 0 0 ltac:(lia) ltac:(lia)) as Hr.
    rewrite Hlen in Hr. apply Hr. apply Forall_forall. intros v [j Hj]%list_elem_of_lookup.
    by destruct (Hvs j v Hj).
Qed.

(** ** Port specifications *)

Inductive port_item : Type :=
  | PPort (n : Z)
  | PRange (lo hi : Z).

Definition port_ok (n : Z) : Prop := 0 <= n < 65536.

Definition port_item_ok (i : port_item) : Prop :=
  match i with
  | PPort n => port_ok n
  | PRange lo hi => port_ok lo ∧ port_ok hi
  end.

Definition port_item_text (i : port_item) : string :=
  match i with
  | PPort n => dec n
  | PRange lo hi => dec lo +:+ ":" +:+ dec hi
  end.

Definition port_item_accepts (p : Z) (i : port_item) : bool :=
  match i with
  | PPort n => n =? p
  | PRange lo hi => (lo <=? p) && (p <=? hi)
  end.

Lemma port_safe n : port_ok n → safe n.
Proof. unfold port_ok, safe. lia. Qed.

Lemma num_leb_Fin a b : num_leb (Fin a) (Fin b) = (a <=? b).
Proof. unfold num_leb. simpl. lia. Qed.

Lemma port_item_matches p i :
  port_item_ok i → port_part_matches (Fin p) (port_item_text i) = port_item_accepts p i.
Proof.
  unfold port_part_matches. destruct i as [n|lo hi]; cbn [port_item_ok port_item_text].
  - intros Hn. assert (0 <= n) by (unfold port_ok in Hn; lia).
    rewrite str_trim_no_ws, index_of_char_nonneg, dec_free by (done || by apply dec_no_ws).
    cbn [negb]. by rewrite parseInt_dec by (done || by apply port_safe).
  - intros [Hlo Hhi]. assert (0 <= lo ∧ 0 <= hi) as [? ?] by (unfold port_ok in *; lia).
    rewrite str_trim_no_ws.
    2: { unfold no_ws. rewrite !str_forall_app. apply andb_true_iff. split; [by apply dec_no_ws|].
         apply andb_true_iff. split; [done|by apply dec_no_ws]. }
    rewrite index_of_char_nonneg, !char_free_app. cbn. rewrite andb_false_r. cbn [negb].
    rewrite (str_app_cons ":" ""), str_app_nil_l, str_split_cons, str_split_free
      by (by apply dec_free).
    cbn. rewrite !parseInt_dec by (done || by apply port_safe).
    by rewrite !num_leb_Fin.
Qed.

Lemma port_item_text_free i : port_item_ok i → char_free "," (port_item_text i) = true.
Proof.
  destruct i as [n|lo hi]; cbn [port_item_ok port_item_text]; unfold port_ok.
  - intros. apply dec_free; [done|lia].
  - intros. rewrite !char_free_app, !dec_free by (done || lia). done.
Qed.

Lemma str_join_nonempty sep s l : str_truthy s = true → str_truthy (str_join sep (s :: l)) = true.
Proof. intros H. destruct l; [done|]. rewrite str_join_cons2. by apply str_truthy_app_l. Qed.

(** C20: [portMatches] agrees with the reference reading of a port
    specification: a comma-separated list of ports and [lo:hi] ranges accepts
    exactly the ports some item of the list accepts. *)
Theorem portMatches_spec p items :
  port_ok p → items ≠ [] → Forall port_item_ok items →
  portMatches (dec p) (Some (str_join "," (map port_item_text items))) =
  existsb (port_item_accepts p) items.
Proof.
  intros Hp Hne Hi. assert (0 <= p) by (unfold port_ok in Hp; lia).
  unfold portMatches. rewrite dec_truthy, parseInt_dec by (done || by apply port_safe).
  assert (str_truthy (str_join "," (map port_item_text items)) = true) as ->.
  { destruct Hi as [|[n|lo hi] items]; [done| |]; apply str_join_nonempty;
      [apply dec_truthy|apply str_truthy_app_l, dec_truthy]. }
  cbn [negb is_NaN]. rewrite str_split_join.
  - clear Hne. induction Hi as [|i items Hi His IH]; [done|].
    cbn [map existsb]. by rewrite port_item_matches, IH.
  - by destruct items.
  - apply Forall_map. eapply Forall_impl; [exact Hi|]. apply port_item_text_free.
Qed.

(** A range written with a dash, the form the rule editor's help text
    offers, is not read as a range: only its first port matches. *)
Theorem portMatches_dash_range p lo hi :
  port_ok p → port_ok lo → port_ok hi →
  portMatches (dec p) (Some (dec lo +:+ "-" +:+ dec hi)) = (lo =? p).
Proof.
  intros Hp Hlo Hhi. unfold port_ok in *.
  unfold portMatches. rewrite dec_truthy, parseInt_dec by (unfold safe; lia).
  rewrite str_truthy_app_l by apply dec_truthy. cbn [negb is_NaN].
  rewrite (str_app_cons "-" ""), str_app_nil_l, str_split_free.
  2: { rewrite char_free_app, char_free_cons, !dec_free by (done || lia). done. }
  cbn [existsb]. rewrite orb_false_r. unfold port_part_matches.
  rewrite str_trim_no_ws.
  2: { unfold no_ws. rewrite str_forall_app. apply andb_true_iff. split; [apply dec_no_ws; lia|].
       cbn [str_forall]. apply dec_no_ws. lia. }
  rewrite index_of_char_nonneg, char_free_app, char_free_cons, !dec_free by (done || lia).
  cbn -[parseInt dec]. by rewrite parseInt_dec_stop by (done || unfold safe; lia).
Qed.

(** ** Set membership *)

Section DispatchFacts.
Context {V : Validation} {VL : ValidationLaws V}.

Lemma isIPv6_no_colon s : char_free "/" s = true → char_free ":" s = true → isIPv6 s = false.
Proof.
  intros Hs Hc. unfold isIPv6. rewrite str_split_free by done. cbn [hd].
  destruct (parseIPv6 s) eqn:E; [|done].
  rewrite (parseIPv6_colon s E) in Hc. done.
Qed.

Lemma isIPv6_v4_text x : 0 <= x → isIPv6 (v4_text x) = false.
Proof. intros Hx. apply isIPv6_no_colon; by apply v4_text_free. Qed.

Lemma v4_text_truthy x : str_truthy (v4_text x) = true.
Proof. unfold v4_text, dotted. apply str_join_nonempty, dec_truthy. Qed.

Lemma cidr_text_truthy net p : str_truthy (cidr_text net p) = true.
Proof. unfold cidr_text. by apply str_truthy_app_r. Qed.

(** One member of a set: an address, a prefix, or a range. *)
Inductive v4_member : Type :=
  | MAddr (x : Z)
  | MCidr (net p : Z)
  | MRange (lo hi : Z).

Definition v4_ok (x : Z) : Prop := 0 <= x < 2 ^ 32.

Definition v4_member_ok (m : v4_member) : Prop :=
  match m with
  | MAddr x => v4_ok x
  | MCidr net p => v4_ok net ∧ 0 <= p <= 32
  | MRange lo hi => v4_ok lo ∧ v4_ok hi
  end.

Definition v4_member_text (m : v4_member) : string :=
  match m with
  | MAddr x => v4_text x
  | MCidr net p => cidr_text (v4_text net) p
  | MRange lo hi => v4_text lo +:+ "-" +:+ v4_text hi
  end.

Definition v4_member_covers (x : Z) (m : v4_member) : bool :=
  match m with
  | MAddr y => y =? x
  | MCidr net p => net_part 32 p x =? net_part 32 p net
  | MRange lo hi => (lo <=? x) && (x <=? hi)
  end.

Lemma v4_text_eqb x y : v4_ok x → v4_ok y → String.eqb (v4_text x) (v4_text y) = (x =? y).
Proof.
  intros Hx Hy. apply eq_true_iff_eq. rewrite String.eqb_eq, Z.eqb_eq. split; [|by intros ->].
  intros E. by rewrite <- (v4_text_value x), <- (v4_text_value y), E.
Qed.

Lemma no_dash_index s : char_free "-" s = true → (0 <? str_index_of s "-") = false.
Proof. intros H. by rewrite index_of_free. Qed.

Lemma ipInCidr_v4 x net p :
  v4_ok x → v4_ok net → 0 <= p <= 32 →
  ipInCidr (v4_text x) (cidr_text (v4_text net) p) = Ok (net_part 32 p x =? net_part 32 p net).
Proof.
  unfold v4_ok. intros Hx Hn Hp. unfold ipInCidr.
  rewrite v4_text_truthy, cidr_text_truthy, isIPv6_v4_text by lia. cbn [negb orb].
  rewrite ipv4InCidr_value, !v4_text_value by (done || apply v4_text_free; done || lia). done.
Qed.

Lemma ipMatchesMember_v4 x m :
  v4_ok x → v4_member_ok m →
  ipMatchesMember (v4_text x) (v4_member_text m) = Ok (v4_member_covers x m).
Proof.
  unfold v4_ok. intros Hx. unfold ipMatchesMember.
  destruct m as [y|net p|lo hi]; cbn [v4_member_ok v4_member_text v4_member_covers]; unfold v4_ok.
  - intros Hy. rewrite no_dash_index, index_of_char_nonneg by (apply v4_text_free; done || lia).
    rewrite (v4_text_free "/") by (done || lia). cbn [andb negb]. by rewrite v4_text_eqb.
  - intros [Hn Hp]. rewrite no_dash_index.
    2: { unfold cidr_text. rewrite !char_free_app, v4_text_free, dec_free by (done || lia). done. }
    cbn [andb]. rewrite index_of_char_nonneg.
    assert (char_free "/" (cidr_text (v4_text net) p) = false) as ->.
    { unfold cidr_text. rewrite !char_free_app. cbn. by rewrite andb_false_r. }
    cbn [negb]. by apply ipInCidr_v4.
  - intros [Hlo Hhi]. rewrite (str_app_cons "-" ""), str_app_nil_l.
    rewrite index_of_app by (apply v4_text_free; done || lia).
    rewrite str_split_cons by (apply v4_text_free; done || lia).
    rewrite str_split_free by (apply v4_text_free; done || lia).
    assert ((0 <? str_len (v4_text lo)) = true) as ->.
    { apply Z.ltb_lt. pose proof (v4_text_truthy lo). unfold str_len.
      destruct (v4_text lo); [done|]. cbn [String.length]. lia. }
    rewrite isIPv6_no_colon.
    2, 3: rewrite char_free_app, char_free_cons, !v4_text_free by (done || lia); done.
    cbn [andb negb].
    change (default "" ([v4_text lo; v4_text hi] !! 0%nat)) with (v4_text lo).
    change (default "" ([v4_text lo; v4_text hi] !! 1%nat)) with (v4_text hi).
    rewrite !ipv4ToUint_value, !v4_text_value by done. by rewrite !num_leb_Fin.
Qed.

(** C33: [ipInSet] decides IPv4 membership: a text of an address is in a set
    listed as addresses, prefixes and ranges iff some element covers it,
    and no exception is raised. *)
Theorem ipInSet_v4_spec x ms :
  v4_ok x → Forall v4_member_ok ms →
  ipInSet (v4_text x) (map v4_member_text ms) = Ok (existsb (v4_member_covers x) ms).
Proof.
  intros Hx Hms. unfold ipInSet. induction Hms as [|m ms Hm Hms IH]; [done|].
  cbn [map some_res existsb]. rewrite ipMatchesMember_v4 by done. cbn [rbind].
  destruct (v4_member_covers x m); [done|]. exact IH.
Qed.

(** The family of the CIDR text is never compared with that of the
    address: an IPv4 address is reported inside every zero-length prefix,
    the IPv6 default route included. *)
Theorem ipInCidr_zero_prefix_any_family x net :
  0 <= x → char_free "/" net = true → ipInCidr (v4_text x) (net +:+ "/0") = Ok true.
Proof.
  intros Hx Hnet. unfold ipInCidr.
  rewrite v4_text_truthy, str_truthy_app_r, isIPv6_v4_text by done. cbn [negb orb].
  change (net +:+ "/0") with (cidr_text net 0).
  rewrite ipv4InCidr_value by (done || lia). unfold net_part.
  rewrite !Z.div_small by apply v4_value_range. done.
Qed.

(** An IPv6 range member is compared with IPv4 arithmetic: a host that
    lies outside the range of the set is nevertheless reported inside it. *)
Theorem ipInSet_v6_range_misread :
  ipInSet "2001:db8::ff" ["2001:db8::1-2001:db8::5"] = Ok true.
Proof.
  unfold ipInSet, some_res, ipMatchesMember.
  assert (isIPv6 "2001:db8::1-2001:db8::5" = false) as ->.
  { unfold isIPv6. rewrite str_split_free by done. cbn [hd].
    destruct (parseIPv6 "2001:db8::1-2001:db8::5") eqn:E; [|done].
    by pose proof (parseIPv6_chars _ "-"%char E (or_introl eq_refl)). }
  vm_compute. done.
Qed.
End DispatchFacts.

(** ** Witnesses *)

Lemma ipv4CidrContains_iff_subset_witness :
  ipv4CidrContains (cidr_text "10.0.0.0" 8) (cidr_text "10.1.0.0" 16) = true ↔
  (∀ ip, ipv4InCidr ip (cidr_text "10.1.0.0" 16) = true →
         ipv4InCidr ip (cidr_text "10.0.0.0" 8) = true).
Proof. apply (ipv4CidrContains_iff_subset "10.0.0.0" 8 "10.1.0.0" 16); (reflexivity || lia). Defined.

Lemma v6_value_compute ip x :
  match ipv6ToBigInt ip with Ok y => (y =? x) && (0 <=? x) && (x <? 2 ^ 128) | _ => false end = true →
  v6_value ip x.
Proof.
  unfold v6_value. destruct (ipv6ToBigInt ip); [|done]. intros H. bool_to_prop.
  subst. split; [done|lia].
Qed.

Lemma ipv6CidrContains_sound_witness :
  ipv6InCidr "2001:db8:1::7" (cidr_text "2001:db8::" 32) = Ok true.
Proof.
  apply (ipv6CidrContains_sound "2001:db8::" 32 "2001:db8:1::" 48
    0x20010db8000000000000000000000000 0x20010db8000100000000000000000000
    "2001:db8:1::7" 0x20010db8000100000000000000000007);
    try (reflexivity || lia); apply v6_value_compute; reflexivity.
Defined.

Lemma ipv6ToBigInt_compressed_witness :
  ipv6ToBigInt "2001:db8::1" = ipv6ToBigInt "2001:db8:0:0:0:0:0:1".
Proof.
  apply (ipv6ToBigInt_compressed ["2001"; "db8"] ["1"]);
    [repeat constructor; discriminate|repeat constructor; discriminate|simpl; lia].
Defined.

Lemma portMatches_spec_witness :
  portMatches "8080" (Some "80,8000:9000") = true.
Proof.
  apply (portMatches_spec 8080 [PPort 80; PRange 8000 9000]);
    [unfold port_ok; lia|discriminate|].
  repeat constructor; unfold port_ok; simpl; lia.
Defined.

Lemma portMatches_dash_range_witness : portMatches "1500" (Some "1024-2048") = false.
Proof. apply (portMatches_dash_range 1500 1024 2048); unfold port_ok; lia. Defined.

Lemma ipInSet_v4_spec_witness :
  ipInSet "192.168.1.7" ["10.0.0.0/8"; "192.168.1.5-192.168.1.9"] = Ok true.
Proof.
  apply (ipInSet_v4_spec 3232235783 [MCidr 167772160 8; MRange 3232235781 3232235785]);
    [unfold v4_ok; lia|].
  repeat constructor; unfold v4_ok; simpl; lia.
Defined.

Lemma ipInCidr_zero_prefix_any_family_witness : ipInCidr "8.8.8.8" "::/0" = Ok true.
Proof. apply (ipInCidr_zero_prefix_any_family 134744072 "::"); [lia|reflexivity]. Defined.

Lemma ipInSet_v6_range_misread_witness :
  ipInSet "2001:db8::ff" ["2001:db8::1-2001:db8::5"] = Ok true.
Proof. apply (ipInSet_v6_range_misread (V := plain_validation)). Defined.
