(* ===== verification/Forms.v ===== *)
(** The declarative part of LuCI's [form] module as the configuration views
    use it: a map of sections, each with options built by [s.option(...)] and
    attribute assignments.  A form is recorded as data; what the framework
    does with it is not modelled. *)
From stdpp Require Import base list strings.
From Stdlib Require Import ZArith Lia Ascii Bool.
From S2P Require Import Prelude JsNum JsString JsArray Luci.

(** The option classes of [form] the views instantiate. *)
Inductive widget : Type :=
  | Value
  | ListValue
  | DynamicList
  | Flag
  | DummyValue
  | FileUpload
  | TextValue
  | Button
  | SectionValue.

#[export] Instance widget_eq_dec : EqDecision widget.
Proof. solve_decision. Defined.

(** [o.default]: unset, a boolean, or a text. *)
Inductive default_value : Type :=
  | DUnset
  | DBool (b : bool)
  | DText (s : string).

Record form_option : Type := mkOption {
  fo_widget : widget;
  fo_name : string;
  fo_title : string;
  fo_description : string;
  fo_default : default_value;
  fo_placeholder : option string;
  fo_datatype : option string;
  fo_rmempty : option bool;
  fo_modalonly : bool;
  fo_editable : bool;
  fo_rawhtml : bool;
  (** [o.value(key, label)] in call order; the label defaults to the key. *)
  fo_values : list (string * string);
  (** [o.depends(...)] in call order: alternatives, each a list of option
      values that must all hold, and of settings, whose names begin with an
      exclamation mark. *)
  fo_depends : list (list (string * string));
  (** Other attributes assigned to the option, with their values as texts. *)
  fo_attrs : list (string * string);
}.

(** [s.option(cls, name, title, description)] *)
Definition option_ (w : widget) (name title descr : string) : form_option :=
  mkOption w name title descr DUnset None None None false false false [] [] [].

Definition dflt (d : string) (o : form_option) : form_option :=
  mkOption (fo_widget o) (fo_name o) (fo_title o) (fo_description o) (DText d) (fo_placeholder o)
    (fo_datatype o) (fo_rmempty o) (fo_modalonly o) (fo_editable o) (fo_rawhtml o) (fo_values o)
    (fo_depends o) (fo_attrs o).
Definition dflt_bool (b : bool) (o : form_option) : form_option :=
  mkOption (fo_widget o) (fo_name o) (fo_title o) (fo_description o) (DBool b) (fo_placeholder o)
    (fo_datatype o) (fo_rmempty o) (fo_modalonly o) (fo_editable o) (fo_rawhtml o) (fo_values o)
    (fo_depends o) (fo_attrs o).
Definition placeholder (p : string) (o : form_option) : form_option :=
  mkOption (fo_widget o) (fo_name o) (fo_title o) (fo_description o) (fo_default o) (Some p)
    (fo_datatype o) (fo_rmempty o) (fo_modalonly o) (fo_editable o) (fo_rawhtml o) (fo_values o)
    (fo_depends o) (fo_attrs o).
Definition datatype (t : string) (o : form_option) : form_option :=
  mkOption (fo_widget o) (fo_name o) (fo_title o) (fo_description o) (fo_default o)
    (fo_placeholder o) (Some t) (fo_rmempty o) (fo_modalonly o) (fo_editable o) (fo_rawhtml o)
    (fo_values o) (fo_depends o) (fo_attrs o).
Definition rmempty (b : bool) (o : form_option) : form_option :=
  mkOption (fo_widget o) (fo_name o) (fo_title o) (fo_description o) (fo_default o)
    (fo_placeholder o) (fo_datatype o) (Some b) (fo_modalonly o) (fo_editable o) (fo_rawhtml o)
    (fo_values o) (fo_depends o) (fo_attrs o).
Definition modalonly (o : form_option) : form_option :=
  mkOption (fo_widget o) (fo_name o) (fo_title o) (fo_description o) (fo_default o)
    (fo_placeholder o) (fo_datatype o) (fo_rmempty o) true (fo_editable o) (fo_rawhtml o)
    (fo_values o) (fo_depends o) (fo_attrs o).
Definition editable (o : form_option) : form_option :=
  mkOption (fo_widget o) (fo_name o) (fo_title o) (fo_description o) (fo_default o)
    (fo_placeholder o) (fo_datatype o) (fo_rmempty o) (fo_modalonly o) true (fo_rawhtml o)
    (fo_values o) (fo_depends o) (fo_attrs o).
Definition rawhtml (o : form_option) : form_option :=
  mkOption (fo_widget o) (fo_name o) (fo_title o) (fo_description o) (fo_default o)
    (fo_placeholder o) (fo_datatype o) (fo_rmempty o) (fo_modalonly o) (fo_editable o) true
    (fo_values o) (fo_depends o) (fo_attrs o).
Definition values (l : list (string * string)) (o : form_option) : form_option :=
  mkOption (fo_widget o) (fo_name o) (fo_title o) (fo_description o) (fo_default o)
    (fo_placeholder o) (fo_datatype o) (fo_rmempty o) (fo_modalonly o) (fo_editable o)
    (fo_rawhtml o) (fo_values o ++ l) (fo_depends o) (fo_attrs o).
Definition keys (l : list string) (o : form_option) : form_option := values (map (λ k, (k, k)) l) o.
Definition depends_all (l : list (string * string)) (o : form_option) : form_option :=
  mkOption (fo_widget o) (fo_name o) (fo_title o) (fo_description o) (fo_default o)
    (fo_placeholder o) (fo_datatype o) (fo_rmempty o) (fo_modalonly o) (fo_editable o)
    (fo_rawhtml o) (fo_values o) (fo_depends o ++ [l]) (fo_attrs o).
Definition depends (n v : string) (o : form_option) : form_option := depends_all [(n, v)] o.
Definition attr (n v : string) (o : form_option) : form_option :=
  mkOption (fo_widget o) (fo_name o) (fo_title o) (fo_description o) (fo_default o)
    (fo_placeholder o) (fo_datatype o) (fo_rmempty o) (fo_modalonly o) (fo_editable o)
    (fo_rawhtml o) (fo_values o) (fo_depends o) (fo_attrs o ++ [(n, v)]).

(** Attribute assignments read in the order of the source. *)
Notation "o '▷' f" := (f o) (at level 50, left associativity, only parsing) : js_scope.

(** [m.section(cls, type, ...)] *)
Inductive section_class : Type :=
  | GridSection
  | TypedSection
  | TableSection
  | NamedSection (name : string).

Record form_section : Type := mkFormSection {
  fs_class : section_class;
  fs_type : string;
  fs_addremove : bool;
  fs_anonymous : bool;
  fs_sortable : bool;
  fs_nodescriptions : bool;
  fs_options : list form_option;
}.

(** What [o.validate] and the name validators answer: [true] or a message. *)
Inductive verdict : Type :=
  | Valid
  | Invalid (msg : string).

#[export] Instance verdict_eq_dec : EqDecision verdict.
Proof. solve_decision. Defined.

Definition is_valid (v : verdict) : bool := match v with Valid => true | _ => false end.

(** ** Consistency of a form

    What makes the declarations of a section hang together: option names are
    distinct, the default of a choice list is one of its choices, and an
    option only depends on values some other option of the section can take. *)
Definition find_option (n : string) (l : list form_option) : option form_option :=
  List.find (λ o, String.eqb (fo_name o) n) l.

Definition default_ok (o : form_option) : bool :=
  match fo_widget o, fo_default o with
  | ListValue, DText d => existsb (λ kv, String.eqb (fst kv) d) (fo_values o)
  | ListValue, DBool _ => false
  | Flag, DText d => String.eqb d "0" || String.eqb d "1"
  | _, _ => true
  end.

Definition can_take (o : form_option) (v : string) : bool :=
  match fo_widget o with
  | ListValue => existsb (λ kv, String.eqb (fst kv) v) (fo_values o)
  | Flag => String.eqb v "0" || String.eqb v "1"
  | _ => true
  end.

Definition depends_ok (l : list form_option) (o : form_option) : bool :=
  forallb (λ '(n, v),
    String.prefix "!" n
    || negb (String.eqb n (fo_name o))
    && match find_option n l with Some p => can_take p v | None => false end)
    (concat (fo_depends o)).

Fixpoint distinct (l : list string) : bool :=
  match l with
  | [] => true
  | x :: l' => negb (existsb (String.eqb x) l') && distinct l'
  end.

Definition form_ok (s : form_section) : bool :=
  distinct (map fo_name (fs_options s))
  && forallb default_ok (fs_options s)
  && forallb (depends_ok (fs_options s)) (fs_options s).

Lemma distinct_NoDup l : distinct l = true → NoDup l.
Proof.
  induction l as [|x l IH]; cbn [distinct]; [constructor|].
  intros [Hx Hl]%andb_true_iff. constructor; [|by apply IH].
  intros Hin. apply negb_true_iff in Hx. rewrite existsb_false in Hx.
  specialize (Hx x Hin). by rewrite String.eqb_refl in Hx.
Qed.
