(* ===== verification/Components.v ===== *)
(** [resources/mwan3/components.js]: stateless render helpers, and what a
    rendered node lets the browser parse as HTML. *)
From stdpp Require Import base list strings.
From Stdlib Require Import ZArith Lia Ascii Bool.
From S2P Require Import Prelude JsNum JsString JsArray Luci.

(** ** Severities *)

Inductive severity : Type :=
  | success
  | warning
  | danger
  | muted
  | info.

#[export] Instance severity_eq_dec : EqDecision severity.
Proof. solve_decision. Defined.

Definition CARD_CLASS (s : severity) : string :=
  match s with
  | success => "mwan3-card--ok"
  | warning => "mwan3-card--warn"
  | danger => "mwan3-card--bad"
  | muted => "mwan3-card--muted"
  | info => "mwan3-card--info"
  end.

Definition TEXT_CLASS (s : severity) : string :=
  match s with
  | success => "mwan3-ok"
  | warning => "mwan3-warn"
  | danger => "mwan3-bad"
  | muted => "mwan3-muted"
  | info => "mwan3-info"
  end.

Definition cardClass (s : option severity) : string := CARD_CLASS (default muted s).
Definition textClass (s : option severity) : string := TEXT_CLASS (default muted s).

(** ** Stylesheet loader

    The state is the list of the [href]s of the [link] elements in the
    document head; [L.resource] is a parameter. *)
Definition loadStyle (resource : string → string) (head : list string) : list string :=
  let href := resource "view/mwan3/mwan3.css" in
  if existsb (String.eqb href) head then head else head ++ [href].

(** ** Cards, bars and inline primitives *)

Definition card (sev : option severity) (children : kids) (extraClass : option string) : node :=
  let cls := "mwan3-card"
    +:+ (match sev with Some s => " " +:+ cardClass (Some s) | None => "" end)
    +:+ (match extraClass with
         | Some x => if str_truthy x then " " +:+ x else ""
         | None => "" end) in
  E "div" [("class", cls)] children.

Definition summaryBar (sev : severity) (text : string) : node :=
  E "div" [("class", "mwan3-summary " +:+ cardClass (Some sev) +:+ " " +:+ textClass (Some sev))]
    (Kids [Txt text]).

(** [text(value)]: [null] and [undefined] give the empty text. *)
Definition text (value : option string) : node := Txt (default "" value).

Definition statusText (t : string) (sev : severity) (bold : bool) : node :=
  E "span" [("class", textClass (Some sev) +:+ (if bold then " mwan3-strong" else ""))]
    (Kids [Txt t]).

Definition badge (t : string) : node := E "span" [("class", "mwan3-badge")] (Kids [Txt t]).

Definition familyBadge (setType : option string) : node :=
  badge (if bool_decide (setType = Some "ipv6_addr") then "IPv6" else "IPv4").

Definition mono (t : string) : node := E "span" [("class", "mwan3-mono")] (Kids [Txt t]).
Definition emptyHint (t : string) : node := E "em" [] (Kids [Txt t]).

Section Components.
Context {I : I18n}.

Definition presenceBadge (present : bool) (expectation : option bool) : node :=
  match expectation with
  | Some true =>
      if present then statusText (tr "Present") success true
      else statusText (tr "Missing") danger true
  | Some false =>
      if present then statusText (tr "Present (unexpected)") warning true
      else statusText (tr "Absent") muted true
  | None =>
      if present then statusText (tr "Present") muted true
      else statusText (tr "Absent") muted true
  end.

(** ** Tracked interface status *)

(** The fields of an interface's status the helpers read; a field the
    response lacks is [None]. *)
Record iface_status : Type := mkStatus {
  is_status : option string;
  is_online : option num;
  is_offline : option num;
  is_uptime : option num;
}.

Record status_info : Type := mkStatusInfo {
  si_label : string;
  si_severity : severity;
  si_duration : option num;
  si_durationLabel : option string;
}.

(** [d.uptime > 0] *)
Definition positive (v : option num) : bool :=
  match v with Some x => num_ltb (Fin 0) x | None => false end.

Definition status_is (d : iface_status) (s : string) : bool := bool_decide (is_status d = Some s).

Definition statusInfo (d : iface_status) : status_info :=
  if status_is d "online" then
    mkStatusInfo (tr "Online") success (is_online d) (Some (tr "Online"))
  else if status_is d "offline" then
    mkStatusInfo (tr "Offline") danger (is_offline d) (Some (tr "Offline"))
  else if status_is d "notracking" then
    mkStatusInfo (tr "No Tracking")
      (if positive (is_uptime d) then success else warning)
      (if positive (is_uptime d) then is_uptime d else None)
      (Some (tr "Uptime"))
  else mkStatusInfo (tr "Disabled") muted None None.
End Components.

(** ** Key/value block: labels and values are whatever the caller passes. *)

Definition kvRow (label value : kids) : node :=
  E "tr" [("class", "mwan3-kv-row")]
    (Kids [E "td" [("class", "mwan3-kv-label")] label;
           E "td" [("class", "mwan3-kv-value")] value]).

Definition kvBlock (pairs : list (kids * kids)) : node :=
  E "table" [("class", "mwan3-kv")] (Kids (map (λ p, kvRow (fst p) (snd p)) pairs)).

(** ** Tables

    [ui.Table] belongs to the framework: a table is recorded as what is handed
    to it, its column captions, its options (a list joined by commas, [null] as
    the empty text), its rows and its placeholder.  A cell is a string or a
    node. *)
Inductive cell : Type :=
  | CText (s : string)
  | CNode (n : node)
  | CPair (key : string) (n : node)
  | CKids (l : list node).

Record ui_table : Type := mkTable {
  tb_captions : list string;
  tb_attrs : list (string * string);
  tb_rows : list (list cell);
  tb_placeholder : cell;
}.

(** ** What is parsed as HTML

    The strings a node assigns to [innerHTML] when it is built. *)
Fixpoint html_of (n : node) : list string :=
  match n with
  | E _ _ k =>
      match k with
      | Kids l => flat_map html_of l
      | Html s => [s]
      | One m => html_of m
      end
  | TextNode _ => []
  end.

Definition html_of_kids (k : kids) : list string :=
  match k with
  | Kids l => flat_map html_of l
  | Html s => [s]
  | One m => html_of m
  end.

(** The strings shown as text. *)
Fixpoint texts_of (n : node) : list string :=
  match n with
  | E _ _ k =>
      match k with
      | Kids l => flat_map texts_of l
      | Html s => []
      | One m => texts_of m
      end
  | TextNode s => [s]
  end.

Lemma html_of_E tag attrs k : html_of (E tag attrs k) = html_of_kids k.
Proof. by destruct k. Qed.

Lemma html_of_card sev k x : html_of (card sev k x) = html_of_kids k.
Proof. by destruct k. Qed.

Lemma html_of_kvRow l v : html_of (kvRow l v) = html_of_kids l ++ html_of_kids v.
Proof. cbn [html_of kvRow flat_map]. rewrite app_nil_r. by destruct l, v. Qed.

Lemma html_of_kvBlock pairs :
  html_of (kvBlock pairs) = flat_map (λ p, html_of_kids (fst p) ++ html_of_kids (snd p)) pairs.
Proof.
  unfold kvBlock. rewrite html_of_E. cbn [html_of_kids].
  induction pairs as [|p l IH]; [done|]. cbn [map flat_map]. by rewrite html_of_kvRow, IH.
Qed.

(** Nothing a map over children produces is parsed when no child is. *)
Lemma html_of_map {A} (f : A → node) l :
  (∀ x, x ∈ l → html_of (f x) = []) → flat_map html_of (map f l) = [].
Proof.
  intros H. induction l as [|x l IH]; [done|]. cbn [map flat_map].
  rewrite H by left. apply IH. intros y Hy. apply H. by right.
Qed.

#[export] Hint Rewrite html_of_E html_of_card html_of_kvRow : html.

(** Loading the stylesheet twice adds one link. *)
Lemma loadStyle_idem resource head :
  loadStyle resource (loadStyle resource head) = loadStyle resource head.
Proof.
  unfold loadStyle. destruct (existsb _ head) eqn:E; [by rewrite E|].
  rewrite existsb_app. cbn. by rewrite String.eqb_refl, orb_true_r.
Qed.
