(* ===== verification/Format.v ===== *)
(** [resources/mwan3/format.js]: value formatters of the status views. *)
From stdpp Require Import base list strings.
From Stdlib Require Import ZArith Lia Ascii Bool.
From S2P Require Import Prelude JsNum JsString JsArray Luci.

(** [Math.floor(a / b)] for an integer [a] of at most 53 bits and a positive
    integer [b]: the rounded quotient has the floor of the exact one, because
    a non-integral quotient is at least [1/b] away from the next integer and
    its rounding error is below [a / b * 2^-53 < 1/b]. *)
Definition floor_div (a b : Z) : Z := a / b.

(** [secs] is a whole number of seconds. *)
Definition formatDuration (secs : Z) : string :=
  let d := floor_div secs 86400 in
  let h := floor_div (Z.rem secs 86400) 3600 in
  let m := floor_div (Z.rem secs 3600) 60 in
  let parts :=
    (if 0 <? d then [dec d +:+ "d"] else [])
    ++ (if (0 <? d) || (0 <? h) then [dec h +:+ "h"] else [])
    ++ [dec m +:+ "m"] in
  str_join " " parts.

(** [(n / 2^k).toFixed(digits)]: the quotient is exact; the decimal chosen is
    the nearest one, the larger of two equally near. *)
Definition scaled_fixed (n k digits : Z) : Z := (2 * n * 10 ^ digits + 2 ^ k) / 2 ^ (k + 1).

Definition toFixed_scaled (n k digits : Z) : string :=
  let v := scaled_fixed n k digits in
  let frac := dec (v mod 10 ^ digits) in
  dec (v / 10 ^ digits) +:+ "." +:+
  (if (String.length frac <? Z.to_nat digits)%nat
   then str_join "" (replicate (Z.to_nat digits - String.length frac) "0") +:+ frac else frac).

(** [n] is a non-negative byte count, absent, or negative. *)
Definition fmtBytes (n : option Z) : string :=
  match n with
  | None => "-"
  | Some n =>
      if n <? 0 then "-"
      else if n <? 1024 then dec n +:+ " B"
      else if n <? 1048576 then toFixed_scaled n 10 1 +:+ " KiB"
      else if n <? 1073741824 then toFixed_scaled n 20 1 +:+ " MiB"
      else toFixed_scaled n 30 2 +:+ " GiB"
  end.

Definition non_empty (s : option string) : option string :=
  match s with Some t => if str_truthy t then Some t else None | None => None end.

Definition fmtAddr (addr port : option string) : option string :=
  match non_empty addr, non_empty port with
  | Some a, Some p => Some (a +:+ ":" +:+ p)
  | Some a, None => Some a
  | None, Some p => Some ("*:" +:+ p)
  | None, None => None
  end.

Section Format.
Context {I : I18n}.

Definition summarise (list : list string) : option string :=
  match list with
  | [] => None
  | [x] => Some x
  | x :: rest => Some (format "%s +%d" [FStr x; FNum (Fin (Z.of_nat (length rest)))])
  end.

(** The trimmed, non-blank items of a comma-separated value. *)
Definition addr_items (value : string) : list string :=
  List.filter str_truthy (map str_trim (str_split "," value)).

Definition fmtAddrList (value : option string) : option string :=
  summarise (addr_items (default "" value)).
End Format.

(** ** Facts *)

Lemma append_inj_r s t u : s +:+ u = t +:+ u → s = t.
Proof.
  revert t. induction s as [|c s IH]; intros [|d t]; rewrite ?str_app_nil_l, ?str_app_cons.
  - done.
  - intros H. apply (f_equal String.length) in H. cbn in H. rewrite str_length_app in H. lia.
  - intros H. apply (f_equal String.length) in H. cbn in H. rewrite str_length_app in H. lia.
  - intros [= -> H]. f_equal. by apply IH.
Qed.

(** The parts of a duration, as (number, unit) pairs. *)
Definition duration_parts (d h m : Z) : list (Z * string) :=
  (if 0 <? d then [(d, "d")] else [])
  ++ (if (0 <? d) || (0 <? h) then [(h, "h")] else []) ++ [(m, "m")].

Definition part_text (p : Z * string) : string := dec (fst p) +:+ snd p.

Lemma formatDuration_parts secs :
  formatDuration secs =
  str_join " " (map part_text (duration_parts (secs / 86400) (Z.rem secs 86400 / 3600)
                                 (Z.rem secs 3600 / 60))).
Proof.
  unfold formatDuration, duration_parts, floor_div. cbv zeta. f_equal.
  rewrite !map_app. f_equal; [by case_if|]. f_equal. by case_if.
Qed.

Lemma duration_fields secs :
  0 <= secs →
  let d := secs / 86400 in let h := Z.rem secs 86400 / 3600 in let m := Z.rem secs 3600 / 60 in
  0 <= d ∧ 0 <= h < 24 ∧ 0 <= m < 60 ∧ secs / 60 = d * 1440 + h * 60 + m.
Proof.
  intros Hs. cbv zeta. rewrite !Z.rem_mod_nonneg by lia.
  assert (secs / 3600 = secs / 86400 * 24 + secs mod 86400 / 3600) as H1.
  { rewrite (Z.div_mod secs 86400) at 1 by lia.
    replace (86400 * (secs / 86400) + secs mod 86400)
      with (secs mod 86400 + secs / 86400 * 24 * 3600) by lia.
    rewrite Z.div_add by lia. lia. }
  assert (secs / 60 = secs / 3600 * 60 + secs mod 3600 / 60) as H2.
  { rewrite (Z.div_mod secs 3600) at 1 by lia.
    replace (3600 * (secs / 3600) + secs mod 3600)
      with (secs mod 3600 + secs / 3600 * 60 * 60) by lia.
    rewrite Z.div_add by lia. lia. }
  pose proof (Z.mod_pos_bound secs 86400 ltac:(lia)). pose proof (Z.mod_pos_bound secs 3600 ltac:(lia)).
  split_and!; try (apply Z.div_pos; lia); try (apply Z.div_lt_upper_bound; lia). lia.
Qed.

Lemma part_text_inj (p q : Z * string) :
  0 <= fst p → 0 <= fst q → snd p = snd q → part_text p = part_text q → fst p = fst q.
Proof.
  unfold part_text. intros Hp Hq Hs H. rewrite Hs in H. apply append_inj_r in H. by apply dec_inj.
Qed.

Lemma part_text_free p : 0 <= fst p → char_free " " (snd p) = true → char_free " " (part_text p) = true.
Proof. intros Hp Hs. unfold part_text. by rewrite char_free_app, dec_free, Hs. Qed.

Lemma duration_parts_free d h m :
  0 <= d → 0 <= h → 0 <= m →
  Forall (λ s, char_free " " s = true) (map part_text (duration_parts d h m)).
Proof.
  intros. unfold duration_parts. apply Forall_map.
  repeat (apply Forall_app; split); repeat case_if; repeat constructor; by apply part_text_free.
Qed.

Lemma duration_parts_inj d h m d' h' m' :
  0 <= d → 0 <= h → 0 <= m → 0 <= d' → 0 <= h' → 0 <= m' →
  map part_text (duration_parts d h m) = map part_text (duration_parts d' h' m') →
  d = d' ∧ h = h' ∧ m = m'.
Proof.
  intros ??????. unfold duration_parts.
  destruct (Z.ltb_spec 0 d), (Z.ltb_spec 0 h), (Z.ltb_spec 0 d'), (Z.ltb_spec 0 h');
    cbn [orb app map]; try discriminate; intros E; injection E; intros;
    repeat match goal with
    | H : part_text (?a, ?u) = part_text (?b, ?u) |- _ =>
        apply part_text_inj in H; cbn [fst snd] in H; [|done..]
    end; lia.
Qed.

(** A duration's text determines its whole minutes: two durations are
    shown alike exactly when they agree up to their seconds. *)
Theorem formatDuration_inj a b :
  0 <= a → 0 <= b → formatDuration a = formatDuration b ↔ a / 60 = b / 60.
Proof.
  intros Ha Hb. destruct (duration_fields a Ha) as (Ha1 & Ha2 & Ha3 & Ha4).
  destruct (duration_fields b Hb) as (Hb1 & Hb2 & Hb3 & Hb4).
  rewrite !formatDuration_parts, Ha4, Hb4. split.
  - intros H. apply (f_equal (str_split " ")) in H.
    rewrite !str_split_join in H
      by (try apply duration_parts_free; try (unfold duration_parts; repeat case_if; done); lia).
    apply duration_parts_inj in H; lia.
  - intros H.
    assert (a / 86400 = b / 86400 ∧ Z.rem a 86400 / 3600 = Z.rem b 86400 / 3600 ∧
            Z.rem a 3600 / 60 = Z.rem b 3600 / 60) as (-> & -> & ->); [|done].
    lia.
Qed.

Lemma formatDuration_inj_witness :
  formatDuration 90061 = "1d 1h 1m" ∧ (formatDuration 90061 = formatDuration 90119 ↔ 90061 / 60 = 90119 / 60).
Proof. split; [reflexivity|]. apply formatDuration_inj; lia. Defined.

Lemma scaled_fixed_near n k digits :
  0 <= k → Z.abs (2 ^ k * scaled_fixed n k digits - n * 10 ^ digits) * 2 <= 2 ^ k.
Proof.
  intros Hk. unfold scaled_fixed. rewrite Z.pow_add_r, Z.pow_1_r by lia.
  pose proof (pow2_pos k Hk) as Hp. set (p := 2 ^ k) in *. set (x := n * 10 ^ digits).
  pose proof (Z.div_mod (2 * n * 10 ^ digits + p) (p * 2) ltac:(lia)) as Hd.
  pose proof (Z.mod_pos_bound (2 * n * 10 ^ digits + p) (p * 2) ltac:(lia)).
  replace (2 * n * 10 ^ digits) with (2 * x) in * by (unfold x; ring).
  set (q := (2 * x + p) / (p * 2)) in *. nia.
Qed.

(** The unit a byte count is shown in: its exponent and decimals. *)
Definition byte_unit (n : Z) : Z * Z * string :=
  if n <? 1048576 then (10, 1, " KiB") else if n <? 1073741824 then (20, 1, " MiB") else (30, 2, " GiB").

(** A byte count of at least 1 KiB is shown as a decimal of its unit whose
    distance from the exact quotient is at most half of the last digit. *)
Theorem fmtBytes_near n k digits u :
  1024 <= n → byte_unit n = (k, digits, u) →
  ∃ v, fmtBytes (Some n) = dec (v / 10 ^ digits) +:+ "." +:+
         (if (String.length (dec (v mod 10 ^ digits)) <? Z.to_nat digits)%nat
          then str_join "" (replicate (Z.to_nat digits - String.length (dec (v mod 10 ^ digits))) "0")
               +:+ dec (v mod 10 ^ digits)
          else dec (v mod 10 ^ digits)) +:+ u ∧
       Z.abs (2 ^ k * v - n * 10 ^ digits) * 2 <= 2 ^ k.
Proof.
  intros Hn Hu. exists (scaled_fixed n k digits).
  assert (0 <= k) as Hk by (unfold byte_unit in Hu; repeat case_if; injection Hu; lia).
  split; [|by apply scaled_fixed_near].
  assert (fmtBytes (Some n) = toFixed_scaled n k digits +:+ u) as ->.
  { unfold fmtBytes. rewrite (proj2 (Z.ltb_ge n 0)), (proj2 (Z.ltb_ge n 1024)) by lia.
    unfold byte_unit in Hu. repeat case_if; by injection Hu as <- <- <-. }
  unfold toFixed_scaled. by rewrite !str_app_assoc.
Qed.

Lemma fmtBytes_near_witness :
  ∃ v, fmtBytes (Some 1048575) = dec (v / 10 ^ 1) +:+ "." +:+
         (if (String.length (dec (v mod 10 ^ 1)) <? Z.to_nat 1)%nat
          then str_join "" (replicate (Z.to_nat 1 - String.length (dec (v mod 10 ^ 1))) "0")
               +:+ dec (v mod 10 ^ 1)
          else dec (v mod 10 ^ 1)) +:+ " KiB" ∧
       Z.abs (2 ^ 10 * v - 1048575 * 10 ^ 1) * 2 <= 2 ^ 10.
Proof. apply (fmtBytes_near 1048575 10 1 " KiB"); [lia|reflexivity]. Defined.

Lemma summarise_None {I : I18n} l : summarise l = None ↔ l = [].
Proof. by destruct l as [|x [|y l]]. Qed.

(** A list without blank items shows its first one. *)
Lemma addr_items_elem v x : x ∈ addr_items v → str_truthy x = true.
Proof. unfold addr_items. rewrite list_elem_of_In, filter_In. by intros [_ H]. Qed.
