(* ===== verification/Validators.v ===== *)
(** [resources/mwan3/validators.js]: validation helpers shared by the
    configuration views. *)
From stdpp Require Import base list strings.
From Stdlib Require Import ZArith Lia Ascii Bool.
From S2P Require Import Prelude JsNum JsString JsArray JsObject Luci IpMath.

(** Address families: the texts 'ipv4' and 'ipv6'. *)
Inductive family : Type :=
  | ipv4
  | ipv6.

#[export] Instance family_eq_dec : EqDecision family.
Proof. solve_decision. Defined.

Definition family_eqb (a b : family) : bool := bool_decide (a = b).

Definition family_text (f : family) : string :=
  match f with ipv4 => "ipv4" | ipv6 => "ipv6" end.

(** ** The shim for datatypes

    [stub()] gives a datatype's function the two things it reads of its
    validator: the value and [assert].  The datatypes are the framework's: a
    parameter, a function of the shim's value and the arguments. *)
Definition datatypes : Type := string → option (option string → list string → res bool).

(** [apply]: the value is kept for the next calls; a type the framework does
    not have cannot be called. *)
Definition stub_apply (types : datatypes) (this : option string) (type : string) (value : option string)
    (args : list string) : res (option string * bool) :=
  let this := match value with Some v => Some v | None => this end in
  match types type with
  | Some check => let* ok := check this args in Ok (this, ok)
  | None => Throw "TypeError"
  end.

Definition stub_assert (condition : bool) : bool := condition.

(** ** The address patterns *)

Definition digits_1_to (n : nat) (s : string) : bool :=
  str_forall is_digit s && Nat.leb 1 (String.length s) && Nat.leb (String.length s) n.

(** [\d+\.\d+\.\d+\.\d+] *)
Definition is_quad (s : string) : bool :=
  let parts := str_split "." s in
  Nat.eqb (length parts) 4
  && forallb (λ p, str_forall is_digit p && str_truthy p) parts.

(** [[0-9a-fA-F:.]+] *)
Definition is_v6_chars (s : string) : bool := str_forall v6_char s && str_truthy s.

(** [/^(\d+\.\d+\.\d+\.\d+)(?:\/(\d+\.\d+\.\d+\.\d+)|\/(\d{1,2}))?$/]: the
    captured groups, the optional ones as options. *)
Definition match_v4 (value : string) : option (string * option string * option string) :=
  let slash := str_index_of value "/" in
  if slash <? 0 then
    if is_quad value then Some (value, None, None) else None
  else
    let base := str_upto slash value in
    let rest := str_from (slash + 1) value in
    if is_quad base then
      if is_quad rest then Some (base, Some rest, None)
      else if digits_1_to 2 rest then Some (base, None, Some rest)
      else None
    else None.

(** [/^([0-9a-fA-F:.]+)(?:\/(\d{1,3}))?$/] *)
Definition match_v6 (value : string) : option (string * option string) :=
  let slash := str_index_of value "/" in
  if slash <? 0 then
    if is_v6_chars value then Some (value, None) else None
  else
    let base := str_upto slash value in
    let rest := str_from (slash + 1) value in
    if is_v6_chars base && digits_1_to 3 rest then Some (base, Some rest) else None.

(** [+text <= n] for a captured run of digits. *)
Definition digits_le (s : string) (n : Z) : bool := num_leb (parseInt s 10) (Fin n).
Definition digits_ge (s : string) (n : Z) : bool := num_leb (Fin n) (parseInt s 10).

Section Validators.
Context `{V : Validation}.

Definition ipFamily (ip : option string) : option family :=
  match ip with
  | None => None
  | Some ip =>
      if negb (str_truthy ip) || (str_len ip =? 0) then None
      else
        let first := hd "" (str_split "/" (str_trim (hd "" (str_split "," ip)))) in
        Some (if parseIPv6 first then ipv6 else ipv4)
  end.

Definition ipAddrOrPrefix (value : string) : bool :=
  let v4 :=
    match match_v4 value with
    | Some (m1, m2, m3) =>
        parseIPv4 m1
        && match m2, m3 with
           | Some mask, _ => parseIPv4 mask
           | None, Some p => digits_le p 32
           | None, None => true
           end
    | None => false
    end in
  if v4 then true
  else
    match match_v6 value with
    | Some (m1, m2) =>
        parseIPv6 m1 && match m2 with Some p => digits_le p 128 | None => true end
    | None => false
    end.

(** [/^([0-9a-fA-F:.]+)\/(\d{1,3})$/]: the prefix is mandatory. *)
Definition ipv6Cidr (value : string) (minPrefix maxPrefix : Z) : bool :=
  match match_v6 value with
  | Some (m1, Some m2) =>
      parseIPv6 m1 && digits_ge m2 minPrefix && digits_le m2 maxPrefix
  | _ => false
  end.
End Validators.

(** ** Section names *)

Section Names.
Context {St : Type} {U : Uci St}.

Definition named_sections (st : St) : list section :=
  uci_sections st "mwan3" "interface" ++ uci_sections st "mwan3" "member"
  ++ uci_sections st "mwan3" "policy" ++ uci_sections st "mwan3" "rule".

Fixpoint name_in_use (value : string) (exceptName : option string) (l : list section) : bool :=
  match l with
  | [] => false
  | s :: l' =>
      if match exceptName with Some n => String.eqb (sec_name s) n | None => false end
      then name_in_use value exceptName l'
      else if String.eqb (sec_name s) value then true
      else name_in_use value exceptName l'
  end.

Definition sectionNameInUse (st : St) (value : string) (exceptName : option string) : bool :=
  name_in_use value exceptName (named_sections st).
End Names.

(** ** Facts *)

Lemma name_in_use_spec value except l :
  name_in_use value except l = true ↔
  value ∈ map sec_name l ∧ except ≠ Some value.
Proof.
  induction l as [|s l IH]; cbn [name_in_use map].
  - split; [done|]. by intros [?%not_elem_of_nil _].
  - destruct except as [n|]; cbn.
    + destruct (String.eqb (sec_name s) n) eqn:En.
      * apply String.eqb_eq in En as <-. rewrite IH, elem_of_cons. naive_solver.
      * apply String.eqb_neq in En. destruct (String.eqb (sec_name s) value) eqn:Ev.
        -- apply String.eqb_eq in Ev as <-. rewrite elem_of_cons. naive_solver.
        -- apply String.eqb_neq in Ev. rewrite IH, elem_of_cons. naive_solver.
    + destruct (String.eqb (sec_name s) value) eqn:Ev.
      * apply String.eqb_eq in Ev as <-. rewrite elem_of_cons. naive_solver.
      * apply String.eqb_neq in Ev. rewrite IH, elem_of_cons. naive_solver.
Qed.

(** A datatype sees the last value given, through any calls without one
    (framework datatypes call [apply] for a part of their own check). *)
Lemma stub_keeps types v type ty2 args args2 ok1 this this' ok2 :
  stub_apply types this type (Some v) args = Ok (this', ok1) →
  stub_apply types this' ty2 None args2 = Ok (Some v, ok2) ↔
  ∃ check, types ty2 = Some check ∧ check (Some v) args2 = Ok ok2.
Proof.
  unfold stub_apply. destruct (types type) as [c|]; cbn; [|done].
  destruct (c (Some v) args); cbn; intros [=]; subst.
  destruct (types ty2) as [c2|]; cbn; [|split; [done|by intros (? & [=] & _)]].
  split; [destruct (c2 (Some v) args2) eqn:E; cbn; intros [=]; subst; eauto|].
  by intros (check & [=] & Hc); subst; rewrite Hc.
Qed.

(** Every section type whose name the check protects. *)
Definition named_type (ty : string) : bool :=
  existsb (String.eqb ty) ["interface"; "member"; "policy"; "rule"].

Lemma named_sections_spec {St} {U : Uci St} {UL : UciLaws U} st value :
  value ∈ map sec_name (named_sections st) ↔
  ∃ s, s ∈ uci_view st "mwan3" ∧ sec_name s = value ∧ named_type (sec_type s) = true.
Proof.
  unfold named_sections. rewrite !sections_view, !map_app, !elem_of_app.
  rewrite !list_elem_of_fmap. setoid_rewrite elem_of_sections_of_type.
  unfold named_type. cbn [existsb]. setoid_rewrite orb_true_iff. setoid_rewrite orb_true_iff.
  setoid_rewrite orb_true_iff. setoid_rewrite orb_true_iff. setoid_rewrite String.eqb_eq.
  naive_solver.
Qed.

(** A name passes the check iff no interface, member, policy or rule
    section of the configuration bears it, the excepted section aside. *)
Theorem sectionNameInUse_spec {St} (U : Uci St) (UL : UciLaws U) st value except :
  sectionNameInUse st value except = true ↔
  except ≠ Some value ∧
  ∃ s, s ∈ uci_view st "mwan3" ∧ sec_name s = value ∧ named_type (sec_type s) = true.
Proof.
  unfold sectionNameInUse. rewrite name_in_use_spec, (and_comm (_ ∈ _)). apply and_iff_compat_l.
  apply named_sections_spec.
Qed.

Lemma sectionNameInUse_spec_witness :
  sectionNameInUse (λ _ : string, [mkSection "wan" "interface" []]) "wan" None = true.
Proof.
  apply (sectionNameInUse_spec mem_uci_store mem_uci_laws).
  split; [discriminate|]. eexists. split; [apply elem_of_cons; left; reflexivity|split; reflexivity].
Defined.

Lemma index_split c s :
  char_free c s = false →
  ∃ a b, s = a +:+ String c b ∧ char_free c a = true.
Proof.
  induction s as [|d s IH]; [done|]. rewrite char_free_cons.
  destruct (Ascii.eqb d c) eqn:Ed; cbn.
  - apply Ascii.eqb_eq in Ed as ->. intros _. by exists "", s.
  - intros H. destruct (IH H) as (a & b & -> & Ha). exists (String d a), b.
    split; [done|]. by rewrite char_free_cons, Ed.
Qed.

(** A netmask in dotted form is accepted by the validator, but the address
    arithmetic reads only its first octet, as a prefix length. *)
Lemma ipv4_mask_255 : ipv4_mask (Fin 255) = Fin (2 ^ 32 - 2 ^ 1).
Proof. reflexivity. Qed.

(** A rule address with a dotted netmask, which [ipAddrOrPrefix] accepts,
    is matched by [ipv4InCidr] as if the netmask were a 31-bit prefix, because
    only the leading 255 is read. *)
Theorem netmask_read_as_prefix ip net rest :
  char_free "/" net = true →
  ipv4InCidr ip (net +:+ "/255." +:+ rest) =
  (v4_value ip / 2 =? v4_value net / 2).
Proof.
  intros Hnet. unfold ipv4InCidr.
  change ("/255." +:+ rest) with (String "/" ("255." +:+ rest)).
  rewrite index_of_app, str_len_nonneg, str_upto_app, str_from_app by done.
  replace (parseInt ("255." +:+ rest) 10) with (Fin 255).
  2: { change ("255." +:+ rest) with (dec 255 +:+ String "." rest).
       by rewrite parseInt_dec_stop by (done || unfold safe; lia). }
  rewrite ipv4_mask_255, !ipv4ToUint_value.
  rewrite num_and_eqb by (try apply v4_value_range; lia).
  change 2 with (2 ^ 1) at 5 6. apply (prefix_eqb_spec 32 1); try apply v4_value_range; lia.
Qed.

Lemma netmask_read_as_prefix_witness :
  ipAddrOrPrefix "10.0.0.0/255.0.0.0" = true ∧
  ipv4InCidr "10.1.2.3" "10.0.0.0/255.0.0.0" = false.
Proof. split; [reflexivity|]. apply (netmask_read_as_prefix "10.1.2.3" "10.0.0.0" "0.0.0"). reflexivity. Defined.
