(* ===== verification/InterfaceForm.v ===== *)
(** [view/mwan3/network/interface.js] and [member.js]: the interface and
    member forms. *)
From stdpp Require Import base list strings.
From Stdlib Require Import ZArith Lia Ascii Bool.
From S2P Require Import Prelude JsNum JsString JsArray Luci Forms Validators.

Section Forms.
Context {St : Type} {U : Uci St} {I : I18n}.

(** [ui.addValidator(nameEl, 'uciname', ...)] in [renderSectionAdd]: the
    check of a new section's name; each view has its own message. *)
Definition new_name_verdict (st : St) (taken : string) (v : string) : verdict :=
  if sectionNameInUse st v None then Invalid taken
  else if 15 <? str_len v then Invalid (tr "Name length shall not exceed 15 characters")
  else Valid.

Definition interface_name_verdict (st : St) (v : string) : verdict :=
  new_name_verdict st
    (tr "Interfaces may not share the same name as configured members, policies or rules.") v.

Definition member_name_verdict (st : St) (v : string) : verdict :=
  new_name_verdict st
    (tr "Members may not share the same name as configured interfaces, policies or rules.") v.

(** The results of the three [fs.stat] calls: whether the tool is a file. *)
Record tools : Type := mkTools {
  has_httping : bool;
  has_nping : bool;
  has_arping : bool;
}.

(** The choices the three interval options share. *)
Definition interval_values : list (string * string) :=
  [("1", format (tr "%d second") [FStr "1"]);
   ("3", format (tr "%d seconds") [FStr "3"]);
   ("5", format (tr "%d seconds") [FStr "5"]);
   ("10", format (tr "%d seconds") [FStr "10"]);
   ("20", format (tr "%d seconds") [FStr "20"]);
   ("30", format (tr "%d seconds") [FStr "30"]);
   ("60", format (tr "%d minute") [FStr "1"]);
   ("300", format (tr "%d minutes") [FStr "5"]);
   ("600", format (tr "%d minutes") [FStr "10"]);
   ("900", format (tr "%d minutes") [FStr "15"]);
   ("1800", format (tr "%d minutes") [FStr "30"]);
   ("3600", format (tr "%d hour") [FStr "1"])].

(** [for (var i = 2; i <= 10; i++) o.value(String(i), ...)] *)
Definition timeout_values : list (string * string) :=
  ("1", format (tr "%d second") [FStr "1"])
  :: map (λ i, (dec (Z.of_nat i), format (tr "%d seconds") [FNum (Fin (Z.of_nat i))])) (seq 2 9).

Definition track_methods (t : tools) : list string :=
  ["ping"]
  ++ (if has_httping t then ["httping"] else [])
  ++ (if has_nping t then ["nping-tcp"; "nping-udp"; "nping-icmp"; "nping-arp"] else [])
  ++ (if has_arping t then ["arping"] else []).

Definition interface_general : list form_option :=
  [option_ Flag "enabled" (tr "Enabled") "" ▷ dflt_bool false;
   option_ ListValue "initial_state" (tr "Initial state") (tr "Expect interface state on up event")
     ▷ dflt "online" ▷ values [("online", tr "Online"); ("offline", tr "Offline")] ▷ modalonly;
   option_ ListValue "family" (tr "Internet Protocol") ""
     ▷ dflt "ipv4" ▷ values [("ipv4", tr "IPv4"); ("ipv6", tr "IPv6")] ▷ modalonly;
   option_ Flag "track_gateway" (tr "Track gateway")
     (tr "Automatically track the next hop peer. Applies only to point to point connections.")
     ▷ depends "family" "ipv4" ▷ dflt "0" ▷ modalonly;
   option_ Value "snat6" (tr "IPv6 SNAT")
     (tr ("Source-NAT mwan3-rerouted router-originated IPv6 traffic egressing this interface. "
      +:+ "Leave blank or set to 0 to disable (default). Set to 1 to SNAT to the interface's primary global address. "
      +:+ "Set to a literal IPv6 address to SNAT to that address (e.g. NPTv6-style fixed source). "
      +:+ "Default is off because RFC 6724 source-address selection and SADR routing can solve the same "
      +:+ "problem without translation, and NAT66 is harmful in PA/ULA designs."))
     ▷ depends "family" "ipv6" ▷ placeholder "0" ▷ rmempty true ▷ modalonly;
   option_ DynamicList "track_ip" (tr "Tracking hostname or IP address")
     (tr "This hostname or IP address will be pinged to determine if the link is up or down. Leave blank to assume interface is always online")
     ▷ datatype "host" ▷ modalonly].

Definition interface_tracking (t : tools) : list form_option :=
  [option_ ListValue "track_method" (tr "Tracking method") "" ▷ dflt "ping" ▷ keys (track_methods t);
   option_ Flag "httping_ssl" (tr "Enable ssl tracking") (tr "Enables https tracking on ssl port 443")
     ▷ depends "track_method" "httping" ▷ rmempty false ▷ modalonly;
   option_ Value "reliability" (tr "Tracking reliability")
     (tr "Acceptable values: 1-100. This many Tracking IP addresses must respond for the link to be deemed up")
     ▷ datatype "range(1, 100)" ▷ dflt "1";
   option_ ListValue "count" (tr "Ping count") "" ▷ dflt "1" ▷ keys ["1"; "2"; "3"; "4"; "5"] ▷ modalonly;
   option_ Value "size" (tr "Ping size") "" ▷ dflt "56" ▷ depends "track_method" "ping"
     ▷ keys ["8"; "24"; "56"; "120"; "248"; "504"; "1016"; "1472"; "2040"]
     ▷ datatype "range(1, 65507)" ▷ modalonly;
   option_ Value "max_ttl" (tr "Max TTL") "" ▷ dflt "60" ▷ depends "track_method" "ping"
     ▷ keys ["10"; "20"; "30"; "40"; "50"; "60"; "70"] ▷ datatype "range(1, 255)" ▷ modalonly].

Definition interface_quality : list form_option :=
  [option_ Flag "check_quality" (tr "Check link quality") ""
     ▷ depends "track_method" "ping" ▷ dflt_bool false ▷ modalonly;
   option_ Value "failure_latency" (tr "Failure latency [ms]") ""
     ▷ depends "check_quality" "1" ▷ dflt "1000"
     ▷ keys ["25"; "50"; "75"; "100"; "150"; "200"; "250"; "300"] ▷ modalonly;
   option_ Value "failure_loss" (tr "Failure packet loss [%]") ""
     ▷ depends "check_quality" "1" ▷ dflt "40" ▷ keys ["2"; "5"; "10"; "20"; "25"] ▷ modalonly;
   option_ Value "recovery_latency" (tr "Recovery latency [ms]") ""
     ▷ depends "check_quality" "1" ▷ dflt "500"
     ▷ keys ["25"; "50"; "75"; "100"; "150"; "200"; "250"; "300"] ▷ modalonly;
   option_ Value "recovery_loss" (tr "Recovery packet loss [%]") ""
     ▷ depends "check_quality" "1" ▷ dflt "10" ▷ keys ["2"; "5"; "10"; "20"; "25"] ▷ modalonly].

Definition one_to_ten : list string := map (λ i, dec (Z.of_nat i)) (seq 1 10).

Definition interface_timing : list form_option :=
  [option_ ListValue "timeout" (tr "Ping timeout") "" ▷ dflt "4" ▷ values timeout_values ▷ modalonly;
   option_ ListValue "interval" (tr "Ping interval") "" ▷ dflt "10" ▷ values interval_values;
   option_ Value "failure_interval" (tr "Failure interval") (tr "Ping interval during failure detection")
     ▷ dflt "5" ▷ values interval_values ▷ modalonly;
   option_ Flag "keep_failure_interval" (tr "Keep failure interval")
     (tr "Keep ping failure interval during failure state") ▷ dflt_bool false ▷ modalonly;
   option_ Value "recovery_interval" (tr "Recovery interval") (tr "Ping interval during failure recovering")
     ▷ dflt "5" ▷ values interval_values ▷ modalonly;
   option_ ListValue "down" (tr "Interface down")
     (tr "Interface will be deemed down after this many failed ping tests")
     ▷ dflt "5" ▷ keys one_to_ten;
   option_ ListValue "up" (tr "Interface up")
     (tr "Downed interface will be deemed up after this many successful ping tests")
     ▷ dflt "5" ▷ keys one_to_ten;
   option_ DynamicList "flush_conntrack" (tr "Flush conntrack table")
     (tr "Flush the entire global conntrack table on selected events. Per-interface conntrack entries are already flushed automatically on ifdown.")
     ▷ values [("ifup", tr "ifup (netifd)"); ("ifdown", tr "ifdown (netifd)");
               ("connected", tr "connected (mwan3)"); ("disconnected", tr "disconnected (mwan3)")]
     ▷ modalonly;
   option_ DummyValue "metric" (tr "Metric")
     (tr "This displays the metric assigned to this interface in /etc/config/network") ▷ rawhtml].

Definition interface_form (t : tools) : form_section :=
  mkFormSection GridSection "interface" true false false true
    (interface_general ++ interface_tracking t ++ interface_quality ++ interface_timing).

(** [cfgvalue] of the metric column. *)
Definition metric_cfgvalue (st : St) (s : string) : string :=
  match opt_text (uci_get st "network" s "metric") with
  | Some metric => metric
  | None => tr "No interface metric set!"
  end.

(** The choices of the member form are the configured interfaces. *)
Definition member_form (st : St) : form_section :=
  mkFormSection GridSection "member" true false false true
    [option_ ListValue "interface" (tr "Interface") ""
       ▷ keys (map sec_name (uci_sections st "mwan3" "interface"));
     option_ Value "metric" (tr "Metric") (tr "Acceptable values: 1-256. Defaults to 1 if not set")
       ▷ datatype "range(1, 256)";
     option_ Value "weight" (tr "Weight") (tr "Acceptable values: 1-1000. Defaults to 1 if not set")
       ▷ datatype "range(1, 1000)"].

(** The banner [member.js] adds below the "add section" row. *)
Definition member_banner : node :=
  E "div" [("class", "mwan3-banner")]
    (Html (tr "The Policy tab creates and manages members automatically. Only edit this section if you need custom metric or weight values.")).
End Forms.

(** Whichever tracking tools are installed, the interface form is
    consistent except for one dependency: option names are distinct, every
    choice list's default is a choice, every dependency names another option;
    the dependency of [httping_ssl] can be met only when httping is there. *)
Theorem interface_form_ok {I : I18n} t :
  form_ok (interface_form t) = has_httping t.
Proof. destruct t as [[] [] []]; reflexivity. Qed.

(** A new section's name is accepted iff it has at most 15 characters and
    no interface, member, policy or rule section bears it. *)
Theorem new_name_accepted {St} (U : Uci St) (UL : UciLaws U) (I : I18n) st taken v :
  new_name_verdict st taken v = Valid ↔
  str_len v <= 15 ∧
  ∀ s, s ∈ uci_view st "mwan3" → named_type (sec_type s) = true → sec_name s ≠ v.
Proof.
  unfold new_name_verdict. pose proof (name_in_use_spec v None (named_sections st)) as Hs.
  fold (sectionNameInUse st v None) in Hs.
  assert (v ∈ map sec_name (named_sections st) ↔
    ∃ s, s ∈ uci_view st "mwan3" ∧ sec_name s = v ∧ named_type (sec_type s) = true) as Hv.
  { apply named_sections_spec. }
  destruct (sectionNameInUse st v None) eqn:E.
  - split; [done|]. intros [_ H]. destruct (proj1 Hs eq_refl) as [Hin _].
    apply Hv in Hin as (s & ? & ? & ?). by destruct (H s).
  - destruct (Z.ltb_spec 15 (str_len v)).
    + split; [done|]. intros [? _]. lia.
    + split; [|done]. intros _. split; [done|]. intros s H1 H2 H3.
      enough (false = true) by done. apply Hs. split; [|done]. apply Hv. by exists s.
Qed.

Lemma new_name_accepted_witness :
  new_name_verdict (I := plain_i18n) (λ _ : string, [mkSection "wan" "interface" []]) "taken" "wanb" = Valid.
Proof.
  apply (new_name_accepted mem_uci_store mem_uci_laws plain_i18n).
  split; [vm_compute; discriminate|].
  intros s [->|[]%not_elem_of_nil]%elem_of_cons _. discriminate.
Defined.
