(* ===== verification/Widgets.v ===== *)
(** [resources/mwan3/widgets.js]: the policy tier editor.

    The editor's state is a record; the handlers its controls install are the
    [edit_event]s, and [handle] runs one of them together with the redraw
    that follows it (a redraw repairs entries whose interface is no longer on
    offer).  Entries are mutated in place by the handlers; every entry is
    reachable from exactly one position of [st_tiers], so updating that
    position is the whole effect of a mutation. *)
From stdpp Require Import base list strings.
From Stdlib Require Import ZArith Lia Ascii Bool.
From S2P Require Import Prelude JsNum JsString JsArray JsObject Luci Validators.

(** ** Weight arithmetic *)

(** [gcd(a, b) = b ? gcd(b, a % b) : a] *)
Fixpoint gcd_go (fuel : nat) (a b : num) : num :=
  match fuel with
  | O => a
  | S f => if num_truthy b then gcd_go f b (num_rem a b) else a
  end.

(** The second argument shrinks in absolute value once both are finite. *)
Definition gcd_fuel (b : num) : nat :=
  match b with
  | Fin z => Z.to_nat (Z.abs z) + 2
  | _ => 4
  end.

Definition gcd (a b : num) : num := gcd_go (S (gcd_fuel a + gcd_fuel b)) a b.

(** [arr.reduce(gcd)] on a non-empty array. *)
Definition gcdList (arr : list num) : num :=
  match arr with
  | [] => NaN
  | x :: l => fold_left gcd l x
  end.

Record entry : Type := mkEntry {
  en_family : family;
  en_iface : string;
  en_pct : num;
}.

#[export] Instance entry_eq_dec : EqDecision entry.
Proof. solve_decision. Defined.

Definition computeWeights (famEntries : list entry) : list num :=
  match famEntries with
  | [_] => [Fin 1]
  | _ =>
      let pcts := map en_pct famEntries in
      let g := gcdList pcts in
      map (λ p, num_div_exact p g) pcts
  end.

Definition with_pct (p : num) (e : entry) : entry := mkEntry (en_family e) (en_iface e) p.
Definition with_iface (i : string) (e : entry) : entry := mkEntry (en_family e) i (en_pct e).
Definition with_family (f : family) (i : string) (e : entry) : entry := mkEntry f i (en_pct e).

(** [distributeEqual(famEntries)] on the entries themselves: equal shares,
    the first entry absorbing the remainder. *)
Definition equal_shares (n : nat) : list num :=
  match n with
  | O => []
  | S O => [Fin 100]
  | S k =>
      let share := 100 / Z.of_nat n in
      Fin (100 - share * (Z.of_nat n - 1)) :: replicate k (Fin share)
  end.

Definition distributeEqual (famEntries : list entry) : list entry :=
  zip_with with_pct (equal_shares (length famEntries)) famEntries.

Definition tier : Type := list entry.

Definition fam_entries (f : family) (t : tier) : list entry :=
  List.filter (λ e, family_eqb (en_family e) f) t.

(** Writing the entries of one family back to their positions in the tier. *)
Fixpoint put_fam (f : family) (new : list entry) (t : tier) : tier :=
  match t with
  | [] => []
  | e :: t' =>
      if family_eqb (en_family e) f then
        match new with
        | e' :: new' => e' :: put_fam f new' t'
        | [] => e :: t'
        end
      else e :: put_fam f new t'
  end.

(** [distributeEqual(tier.entries.filter(family is f))] *)
Definition distribute_fam (f : family) (t : tier) : tier :=
  put_fam f (distributeEqual (fam_entries f t)) t.

(** ** Editor state *)

Inductive mode : Type :=
  | ModeNew
  | ModeExisting.

Definition is_new (m : mode) : bool := match m with ModeNew => true | _ => false end.

Record state : Type := mkState {
  st_mode : mode;
  st_policyName : string;
  st_newPolicyName : string;
  st_lastResort : string;
  st_tiers : list tier;
}.

(** What the page looks up about a member section. *)
Record member_info : Type := mkInfo {
  mi_iface : string;
  mi_metric : num;
  mi_weight : num;
  mi_family : string;
}.

Record editor_opts : Type := mkOpts {
  op_ifaces4 : list string;
  op_ifaces6 : list string;
  op_memberInfo : jsobj member_info;
}.

Definition ifaces_of (o : editor_opts) (f : family) : list string :=
  match f with ipv4 => op_ifaces4 o | ipv6 => op_ifaces6 o end.

Definition new_state (name : string) : state :=
  mkState ModeNew "" name "unreachable" [[]].

(** ** [stateFromPolicy] *)

(** [byMetric]: per metric, the (iface, weight) lists of the two families. *)
Definition metric_group : Type := num * (list (string * num) * list (string * num)).

(** Two numbers that are the same property key. *)
Definition same_key (x y : num) : bool := bool_decide (x = y).

Definition push_family (f : string) (iw : string * num)
    (g : list (string * num) * list (string * num))
    : res (list (string * num) * list (string * num)) :=
  if String.eqb f "ipv4" then Ok (fst g ++ [iw], snd g)
  else if String.eqb f "ipv6" then Ok (fst g, snd g ++ [iw])
  else Throw "TypeError".

Fixpoint push_metric (m : num) (f : string) (iw : string * num) (l : list metric_group)
    : res (list metric_group) :=
  match l with
  | [] => let* g := push_family f iw ([], []) in Ok [(m, g)]
  | (m', g) :: l' =>
      if same_key m m' then let* g' := push_family f iw g in Ok ((m', g') :: l')
      else let* l'' := push_metric m f iw l' in Ok ((m', g) :: l'')
  end.

Fixpoint collect_metrics (info : jsobj member_info) (useMembers : list string)
    (l : list metric_group) : res (list metric_group) :=
  match useMembers with
  | [] => Ok l
  | mname :: rest =>
      match obj_get mname info with
      | Own i =>
          let* l' := push_metric (mi_metric i) (mi_family i) (mi_iface i, mi_weight i) l in
          collect_metrics info rest l'
      | Inherited => Throw "TypeError"
      | Absent => collect_metrics info rest l
      end
  end.

(** [Math.round(e.weight / total * 100)] *)
Definition weight_pct (w total : num) : num :=
  math_round (sf_mul (sf_div (sf_of_num w) (sf_of_num total)) (sf_of_num (Fin 100))).

Definition total_weight (l : list (string * num)) : num :=
  fold_left (λ s iw, num_add s (snd iw)) l (Fin 0).

Definition family_pcts (f : family) (l : list (string * num)) : list entry :=
  map (λ iw, mkEntry f (fst iw) (weight_pct (snd iw) (total_weight l))) l.

Definition group_entries (g : metric_group) : tier :=
  family_pcts ipv4 (fst (snd g)) ++ family_pcts ipv6 (snd (snd g)).

Definition metric_before (a b : metric_group) : bool := num_ltb (fst a) (fst b).

Definition policy_tiers (info : jsobj member_info) (useMembers : list string) : res (list tier) :=
  let* byMetric := collect_metrics info useMembers [] in
  let tiers := map group_entries (sort_by metric_before byMetric) in
  Ok (match tiers with [] => [[]] | _ => tiers end).

Section Editor.
Context {St : Type} {U : Uci St} {I : I18n}.

Definition stateFromPolicy (info : jsobj member_info) (st : St) (pname : string) : res state :=
  let useMembers := opt_list (uci_get st "mwan3" pname "use_member") in
  let* tiers := policy_tiers info useMembers in
  Ok (mkState ModeExisting pname ""
        (default "unreachable" (opt_text (uci_get st "mwan3" pname "last_resort"))) tiers).

(** ** Members *)

Definition parse_or1 (v : option uval) : num := parseInt (default "1" (opt_text v)) 10.

Definition member_matches (iface : string) (metric weight : num) (sec : section) : bool :=
  match sec_opt "interface" sec with
  | Some (UStr s) => String.eqb s iface
  | Some (UList _) => false
  | None => String.eqb "" iface
  end
  && num_eqb (parse_or1 (sec_opt "metric" sec)) metric
  && num_eqb (parse_or1 (sec_opt "weight" sec)) weight.

Definition findExistingMember (st : St) (iface : string) (metric weight : num) : option section :=
  List.find (member_matches iface metric weight) (uci_sections st "mwan3" "member").

Definition member_name (iface : string) (metric weight : num) : string :=
  iface +:+ "_m" +:+ num_to_string metric +:+ "_w" +:+ num_to_string weight.

(** ** [getErrors] *)

Definition name_char (c : ascii) : bool :=
  let n := nat_of_ascii c in
  is_digit c || (Nat.leb 65 n && Nat.leb n 90) || (Nat.leb 97 n && Nat.leb n 122)
  || Ascii.eqb c "_".

(** [/^[a-zA-Z0-9_]+$/] *)
Definition name_regex (s : string) : bool := str_forall name_char s && str_truthy s.

Definition name_errors (st : St) (s : state) : list string :=
  if is_new (st_mode s) then
    let nm := st_newPolicyName s in
    if negb (str_truthy nm) then [tr "Policy name is required"]
    else if negb (name_regex nm) then
      [tr "Policy name may only contain A-Z, a-z, 0-9 and _"]
    else if 15 <? str_len nm then [tr "Policy name must be 15 characters or less"]
    else if sectionNameInUse st nm None then [tr "This name is already in use"]
    else []
  else [].

Definition entries_errors (s : state) : list string :=
  if existsb (λ t, negb (Nat.eqb (length t) 0)) (st_tiers s) then []
  else [tr "At least one interface entry is required"].

(** [famTotals]: the total per family, in order of first appearance. *)
Fixpoint add_total (f : family) (p : num) (l : list (family * num)) : list (family * num) :=
  match l with
  | [] => [(f, num_add (Fin 0) p)]
  | (f', t) :: l' =>
      if family_eqb f f' then (f', num_add (num_or0 t) p) :: l' else (f', t) :: add_total f p l'
  end.

Definition famTotals (t : tier) : list (family * num) :=
  fold_left (λ l e, add_total (en_family e) (en_pct e) l) t [].

Definition family_label (f : family) : string :=
  match f with ipv4 => "IPv4" | ipv6 => "IPv6" end.

Definition share_errors (i : nat) (t : tier) : list string :=
  flat_map (λ '(f, total),
    if num_eqb total (Fin 100) then []
    else [format (tr "Tier %d %s shares must total 100%% (currently %d%%)")
            [FNum (Fin (Z.of_nat i + 1)); FStr (family_label f); FNum total]])
    (famTotals t).

Definition iface_errors (i : nat) (t : tier) : list string :=
  flat_map (λ e,
    if str_truthy (en_iface e) then []
    else [format (tr "Tier %d has an entry with no interface selected")
            [FNum (Fin (Z.of_nat i + 1))]]) t.

Definition tier_errors (i : nat) (t : tier) : list string :=
  iface_errors i t ++ share_errors i t.

Definition name_taken (st : St) (mname : string) : bool :=
  existsb (λ sec, String.eqb (sec_name sec) mname) (uci_sections st "mwan3" "member").

Definition entry_collision (st : St) (metric : num) (e : entry) (weight : num) : list string :=
  if negb (str_truthy (en_iface e)) then []
  else
    match findExistingMember st (en_iface e) metric weight with
    | Some _ => []
    | None =>
        let mname := member_name (en_iface e) metric weight in
        if name_taken st mname then
          [format (tr ("Cannot create member " +:+ dq +:+ "%s" +:+ dq
             +:+ ": name already in use with different settings. Rename or remove it first."))
             [FStr mname]]
        else []
    end.

Definition collision_errors (st : St) (i : nat) (t : tier) : list string :=
  let metric := Fin (Z.of_nat i + 1) in
  flat_map (λ f,
    let famEntries := fam_entries f t in
    concat (zip_with (entry_collision st metric) famEntries (computeWeights famEntries)))
    [ipv4; ipv6].

Definition getErrors (st : St) (s : state) : list string :=
  name_errors st s ++ entries_errors s
  ++ concat (imap tier_errors (st_tiers s))
  ++ concat (imap (collision_errors st) (st_tiers s)).

Definition isValid (st : St) (s : state) : bool := Nat.eqb (length (getErrors st s)) 0.

(** ** [getValue]: the policy specification *)

Record member_spec : Type := mkMember {
  ms_name : string;
  ms_iface : string;
  ms_metric : num;
  ms_weight : num;
}.

Record policy_spec : Type := mkSpec {
  ps_isNew : bool;
  ps_policyName : string;
  ps_lastResort : string;
  ps_useMembers : list string;
  ps_membersToCreate : list member_spec;
  ps_orphans : list string;
}.

(** The member an entry uses, and the member to create when none matches. *)
Definition resolve_entry (st : St) (metric : num) (e : entry) (weight : num)
    : string * list member_spec :=
  match findExistingMember st (en_iface e) metric weight with
  | Some sec => (sec_name sec, [])
  | None =>
      let mname := member_name (en_iface e) metric weight in
      (mname, [mkMember mname (en_iface e) metric weight])
  end.

Definition resolve_family (st : St) (metric : num) (f : family) (t : tier)
    : list (string * list member_spec) :=
  let famEntries := fam_entries f t in
  zip_with (resolve_entry st metric) famEntries (computeWeights famEntries).

Definition resolve_tier (st : St) (tierIdx : nat) (t : tier) : list (string * list member_spec) :=
  let metric := Fin (Z.of_nat tierIdx + 1) in
  resolve_family st metric ipv4 t ++ resolve_family st metric ipv6 t.

Definition resolve_tiers (st : St) (tiers : list tier) : list (string * list member_spec) :=
  concat (imap (resolve_tier st) tiers).

Definition used_elsewhere (st : St) (pname mname : string) : bool :=
  existsb (λ pol,
    if String.eqb (sec_name pol) pname then false
    else existsb (String.eqb mname) (opt_list (sec_opt "use_member" pol)))
    (uci_sections st "mwan3" "policy").

Definition getValue (st : St) (s : state) : policy_spec :=
  let pname := if is_new (st_mode s) then st_newPolicyName s else st_policyName s in
  let oldMembers :=
    if is_new (st_mode s) then [] else opt_list (uci_get st "mwan3" pname "use_member") in
  let resolved := resolve_tiers st (st_tiers s) in
  let useMembers := map fst resolved in
  let newSet := obj_of_keys useMembers in
  mkSpec (is_new (st_mode s)) pname (st_lastResort s) useMembers
    (concat (map snd resolved))
    (List.filter (λ mname, negb (obj_has mname newSet) && negb (used_elsewhere st pname mname))
       oldMembers).

(** ** The handlers of the editor's controls *)

Definition refresh_entry (o : editor_opts) (e : entry) : entry :=
  match ifaces_of o (en_family e) with
  | [] => e
  | i0 :: _ =>
      if negb (str_truthy (en_iface e))
         || negb (existsb (String.eqb (en_iface e)) (ifaces_of o (en_family e)))
      then with_iface i0 e else e
  end.

Definition with_tiers (ts : list tier) (s : state) : state :=
  mkState (st_mode s) (st_policyName s) (st_newPolicyName s) (st_lastResort s) ts.

(** [refreshTiers]: the redraw after a structural change. *)
Definition refreshTiers (o : editor_opts) (s : state) : state :=
  with_tiers (map (map (refresh_entry o)) (st_tiers s)) s.

Definition first_iface (o : editor_opts) (f : family) : string := hd "" (ifaces_of o f).

Definition change_family (o : editor_opts) (ei : nat) (f : family) (t : tier) : tier :=
  let t' := list_update (with_family f (first_iface o f)) ei t in
  distribute_fam ipv6 (distribute_fam ipv4 t').

Definition remove_entry (ei : nat) (t : tier) : tier :=
  match t !! ei with
  | None => t
  | Some e => distribute_fam (en_family e) (list_remove ei t)
  end.

Definition default_family (o : editor_opts) (t : tier) : family :=
  match fam_entries ipv4 t, fam_entries ipv6 t with
  | _ :: _, [] => ipv4
  | [], _ :: _ => ipv6
  | _, _ => match op_ifaces4 o with [] => ipv6 | _ => ipv4 end
  end.

Definition add_entry (o : editor_opts) (t : tier) : tier :=
  let f := default_family o t in
  distribute_fam f (t ++ [mkEntry f (first_iface o f) (Fin 0)]).

Definition input_pct (text : string) (e : entry) : entry :=
  let v := parseInt text 10 in
  if negb (is_NaN v) && num_leb (Fin 1) v && num_leb v (Fin 100) then with_pct v e else e.

(** ** What the editor shows *)

(** One entry row: the family choice, the interface choices with the selected
    one, the share and whether it is locked.  Without an interface of the
    family the select holds the empty choice and is disabled. *)
Record row_view : Type := mkRow {
  rw_family : family;
  rw_choices : list string;
  rw_iface : string;
  rw_disabled : bool;
  rw_pct : string;
  rw_locked : bool;
}.

Definition entry_row (o : editor_opts) (t : tier) (e : entry) : row_view :=
  let avail := ifaces_of o (en_family e) in
  let isLocked := Nat.eqb (length (fam_entries (en_family e) t)) 1 in
  match avail with
  | [] => mkRow (en_family e) [""] "" true (num_to_string (en_pct e)) isLocked
  | _ => mkRow (en_family e) avail (en_iface (refresh_entry o e)) false
           (num_to_string (en_pct e)) isLocked
  end.

Definition tier_label (i : nat) : string :=
  if Nat.eqb i 0 then tr "Tier 1 - Primary"
  else format (tr "Tier %d - Failover") [FNum (Fin (Z.of_nat i + 1))].

(** A tier block: its label, whether "Remove tier" is disabled, its rows. *)
Record tier_view : Type := mkTierView {
  tv_label : string;
  tv_rm_disabled : bool;
  tv_rows : list row_view;
}.

Definition renderTierBlock (o : editor_opts) (s : state) (i : nat) (t : tier) : tier_view :=
  mkTierView (tier_label i) (Nat.eqb (length (st_tiers s)) 1) (map (entry_row o t) t).

Definition render_tiers (o : editor_opts) (s : state) : list tier_view :=
  imap (renderTierBlock o s) (st_tiers s).

(** The controls around the tiers: the policy selector, hidden for a new
    policy; the name field, shown only for one; the last-resort selector. *)
Record controls : Type := mkControls {
  ct_policySel : string;
  ct_policyHidden : bool;
  ct_newName : string;
  ct_nameHidden : bool;
  ct_lastResort : string;
}.

Definition render_controls (s : state) : controls :=
  mkControls (if is_new (st_mode s) then "__new__" else st_policyName s) (is_new (st_mode s))
    (st_newPolicyName s) (negb (is_new (st_mode s))) (st_lastResort s).

(** [setValue]: the state is replaced, the controls follow it, the tiers are
    redrawn. *)
Definition setValue (o : editor_opts) (s : state) : state * controls :=
  (refreshTiers o s, render_controls s).

Definition policy_choices (st : St) : list (string * string) :=
  ("__new__", tr "- New policy -")
  :: map (λ p, (sec_name p, sec_name p)) (uci_sections st "mwan3" "policy").

Definition last_resort_choices : list (string * string) :=
  [("unreachable", tr "unreachable (reject)"); ("blackhole", tr "blackhole (drop)");
   ("default", tr "default (use main routing table)")].

Inductive edit_event : Type :=
  | EvFamily (ti ei : nat) (f : family)
  | EvIface (ti ei : nat) (iface : string)
  | EvPct (ti ei : nat) (text : string)
  | EvRemove (ti ei : nat)
  | EvAddEntry (ti : nat)
  | EvRemoveTier (ti : nat)
  | EvAddTier
  | EvNewName (text : string)
  | EvLastResort (v : string)
  | EvSelectNew (nameField : string)
  | EvSelectPolicy (pname : string).

Definition on_tier (ti : nat) (f : tier → tier) (s : state) : state :=
  with_tiers (list_update f ti (st_tiers s)) s.

Definition handle (o : editor_opts) (st : St) (ev : edit_event) (s : state) : res state :=
  match ev with
  | EvFamily ti ei f => Ok (refreshTiers o (on_tier ti (change_family o ei f) s))
  | EvIface ti ei iface => Ok (on_tier ti (list_update (with_iface iface) ei) s)
  | EvPct ti ei text => Ok (on_tier ti (list_update (input_pct text) ei) s)
  | EvRemove ti ei => Ok (refreshTiers o (on_tier ti (remove_entry ei) s))
  | EvAddEntry ti => Ok (refreshTiers o (on_tier ti (add_entry o) s))
  | EvRemoveTier ti =>
      if Nat.eqb (length (st_tiers s)) 1 then Ok s
      else Ok (refreshTiers o (with_tiers (list_remove ti (st_tiers s)) s))
  | EvAddTier => Ok (refreshTiers o (with_tiers (st_tiers s ++ [[]]) s))
  | EvNewName text =>
      Ok (mkState (st_mode s) (st_policyName s) text (st_lastResort s) (st_tiers s))
  | EvLastResort v =>
      Ok (mkState (st_mode s) (st_policyName s) (st_newPolicyName s) v (st_tiers s))
  | EvSelectNew nameField => Ok (refreshTiers o (new_state nameField))
  | EvSelectPolicy pname =>
      let* s' := stateFromPolicy (op_memberInfo o) st pname in Ok (refreshTiers o s')
  end.

(** Handlers run one at a time, in the order of the user's actions. *)
Inductive edits (o : editor_opts) (st : St) : list edit_event → state → state → Prop :=
  | edits_nil s : edits o st [] s s
  | edits_snoc evs ev s s' s'' :
      edits o st evs s s' → handle o st ev s' = Ok s'' → edits o st (evs ++ [ev]) s s''.
End Editor.
