(* ===== verification/WidgetsFacts.v ===== *)
(** The policy tier editor: theorems about the weight arithmetic, the editing
    operations and the policy specification. *)
From stdpp Require Import base list strings.
From Stdlib Require Import ZArith Lia Ascii Bool.
From S2P Require Import Prelude JsNum JsString JsArray JsObject Luci Validators Widgets.

(** ** The greatest common divisor *)

Lemma gcd_go_Fin fuel a b :
  0 <= a → 0 <= b → (Z.to_nat b < fuel)%nat → gcd_go fuel (Fin a) (Fin b) = Fin (Z.gcd a b).
Proof.
  revert a b. induction fuel as [|f IH]; intros a b Ha Hb Hf; [lia|].
  cbn [gcd_go num_truthy]. destruct (Z.eqb_spec b 0) as [->|Hne]; cbn [negb].
  - by rewrite Z.gcd_0_r, Z.abs_eq.
  - cbn [num_rem]. rewrite (proj2 (Z.eqb_neq b 0)) by done.
    rewrite Z.rem_mod_nonneg by lia. pose proof (Z.mod_pos_bound a b ltac:(lia)).
    rewrite IH by lia. f_equal. rewrite (Z.gcd_comm b), Z.gcd_mod by done. apply Z.gcd_comm.
Qed.

Lemma gcd_Fin a b : 0 <= a → 0 <= b → gcd (Fin a) (Fin b) = Fin (Z.gcd a b).
Proof.
  intros Ha Hb. unfold gcd. apply gcd_go_Fin; [done..|]. cbn [gcd_fuel]. lia.
Qed.

Definition zgcd (l : list Z) : Z := fold_right Z.gcd 0 l.

Lemma fold_gcd_Fin x l :
  0 <= x → Forall (λ p, 0 <= p) l →
  fold_left gcd (map Fin l) (Fin x) = Fin (Z.gcd x (zgcd l)).
Proof.
  intros Hx Hl. revert x Hx. induction Hl as [|y l Hy Hl IH]; intros x Hx; cbn [map fold_left zgcd fold_right].
  - by rewrite Z.gcd_0_r, Z.abs_eq.
  - rewrite gcd_Fin by done. rewrite IH by apply Z.gcd_nonneg. f_equal.
    unfold zgcd. by rewrite Z.gcd_assoc.
Qed.

Lemma gcdList_Fin l :
  l ≠ [] → Forall (λ p, 0 <= p) l → gcdList (map Fin l) = Fin (zgcd l).
Proof.
  intros Hne Hl. destruct Hl as [|x l Hx Hl]; [done|]. cbn [map gcdList].
  rewrite fold_gcd_Fin by done. done.
Qed.

Lemma zgcd_divide l p : p ∈ l → (zgcd l | p).
Proof.
  intros Hp. unfold zgcd. induction l as [|x l IH]; [by apply not_elem_of_nil in Hp|].
  cbn [fold_right]. apply elem_of_cons in Hp as [->|Hp].
  - apply Z.gcd_divide_l.
  - eapply Z.divide_trans; [apply Z.gcd_divide_r|by apply IH].
Qed.

Lemma zgcd_greatest l d : (∀ p, p ∈ l → (d | p)) → (d | zgcd l).
Proof.
  intros H. unfold zgcd. induction l as [|x l IH]; cbn [fold_right]; [apply Z.divide_0_r|].
  apply Z.gcd_greatest; [apply H; left|apply IH]. intros p Hp. apply H. by right.
Qed.

Lemma zgcd_nonneg l : 0 <= zgcd l.
Proof. destruct l; [done|apply Z.gcd_nonneg]. Qed.

Lemma zgcd_pos l p : p ∈ l → 0 < p → 0 < zgcd l.
Proof.
  intros Hp Hpos. pose proof (zgcd_divide l p Hp) as Hd. pose proof (zgcd_nonneg l).
  destruct (decide (zgcd l = 0)) as [Hz|]; [|lia]. rewrite Hz in Hd.
  apply Z.divide_0_l in Hd. lia.
Qed.

(** The weights of a list of positive integer shares. *)
Definition reduced (ps : list Z) : list Z :=
  match ps with [_] => [1] | _ => map (λ p, p / zgcd ps) ps end.

Lemma div_exact_Fin p g : 0 < g → (g | p) → num_div_exact (Fin p) (Fin g) = Fin (p / g).
Proof.
  intros Hg Hd. cbn [num_div_exact]. rewrite (proj2 (Z.eqb_neq g 0)) by lia.
  by rewrite (Znumtheory.Zdivide_mod _ _ Hd).
Qed.

Lemma computeWeights_Fin l ps :
  map en_pct l = map Fin ps → Forall (λ p, 0 < p) ps → computeWeights l = map Fin (reduced ps).
Proof.
  intros Hl Hps. unfold computeWeights.
  assert (map (λ p, num_div_exact p (gcdList (map en_pct l))) (map en_pct l)
          = map Fin (map (λ p, p / zgcd ps) ps)) as Hgen.
  { rewrite Hl. destruct (decide (ps = [])) as [->|Hne]; [done|].
    rewrite gcdList_Fin; [|done|eapply Forall_impl; [exact Hps|]; simpl; lia].
    rewrite !map_map. apply map_ext_in. intros p Hp%list_elem_of_In.
    rewrite Forall_forall in Hps. apply div_exact_Fin; [|by apply zgcd_divide].
    apply zgcd_pos with p; [done|by apply Hps]. }
  destruct l as [|x [|y l]]; destruct ps as [|p [|q ps]]; try done.
Qed.

(** The weights given to the entries of a tier are the shares divided by
    their greatest common divisor: the ratios are kept exactly and no smaller
    integers have the same ratios. *)
Theorem computeWeights_reduced l ps :
  map en_pct l = map Fin ps → Forall (λ p, 0 < p) ps → (2 <= length ps)%nat →
  ∃ ws g, computeWeights l = map Fin ws ∧ 0 < g ∧ map (λ w, w * g) ws = ps ∧
          (∀ d, 0 <= d → (∀ w, w ∈ ws → (d | w)) → d = 1).
Proof.
  intros Hl Hps Hlen. exists (map (λ p, p / zgcd ps) ps), (zgcd ps).
  assert (∃ p, p ∈ ps ∧ 0 < p) as (p0 & Hp0 & Hpos).
  { destruct Hps as [|p ps Hp Hps]; [simpl in Hlen; lia|]. exists p. split; [left|done]. }
  pose proof (zgcd_pos ps p0 Hp0 Hpos) as Hg. split_and!.
  - rewrite (computeWeights_Fin l ps) by done. destruct ps as [|? [|? ?]]; simpl in Hlen; (done || lia).
  - done.
  - rewrite map_map. transitivity (map id ps); [|apply map_id]. apply map_ext_in.
    intros p Hp%list_elem_of_In. unfold id. destruct (zgcd_divide ps p Hp) as [k ->].
    by rewrite Z.div_mul by lia.
  - intros d Hd Hdiv.
    assert ((d * zgcd ps | zgcd ps)) as Hdd.
    { apply zgcd_greatest. intros p Hp. destruct (zgcd_divide ps p Hp) as [k Hk].
      destruct (Hdiv (p / zgcd ps)) as [j Hj].
      { apply list_elem_of_fmap. eauto. }
      exists j. rewrite Hk at 1. rewrite Hk, Z.div_mul in Hj by lia. rewrite Hj. ring. }
    destruct Hdd as [k Hk]. assert (1 = k * d) as Hkd by nia.
    destruct (Z.mul_eq_1 _ _ (eq_sym Hkd)) as [->| ->]; lia.
Qed.

Lemma computeWeights_reduced_witness :
  ∃ ws g, computeWeights [mkEntry ipv4 "wan" (Fin 60); mkEntry ipv4 "wanb" (Fin 40)] = map Fin ws ∧
    0 < g ∧ map (λ w, w * g) ws = [60; 40] ∧
    (∀ d, 0 <= d → (∀ w, w ∈ ws → (d | w)) → d = 1).
Proof. apply computeWeights_reduced; [reflexivity|repeat constructor|simpl; lia]. Defined.

(** ** Equal shares *)

Definition shares_ok (l : list entry) : Prop :=
  l = [] ∨ ∃ ps, map en_pct l = map Fin ps ∧ Forall (λ p, 0 <= p <= 100) ps ∧ zsum ps = 100.

Lemma equal_shares_spec n :
  (n ≠ 0)%nat →
  ∃ ps, equal_shares n = map Fin ps ∧ length ps = n ∧ Forall (λ p, 0 <= p <= 100) ps ∧ zsum ps = 100.
Proof.
  intros Hn. destruct n as [|[|k]]; [done| |].
  { exists [100]. split_and!; [done|done| |done]. repeat constructor; lia. }
  set (n := S (S k)). set (share := 100 / Z.of_nat n).
  assert (0 <= share ∧ share * Z.of_nat n <= 100) as [Hs0 Hs1].
  { unfold share. split; [apply Z.div_pos; lia|].
    rewrite Z.mul_comm. apply Z.mul_div_le. lia. }
  exists ((100 - share * (Z.of_nat n - 1)) :: replicate (S k) share). split_and!.
  - cbn [map]. rewrite fmap_replicate. done.
  - cbn [length]. by rewrite length_replicate.
  - constructor; [nia|]. apply Forall_replicate. nia.
  - unfold zsum. cbn [foldr]. fold (zsum (replicate (S k) share)).
    rewrite zsum_repeat. lia.
Qed.

Lemma distributeEqual_length l : length (distributeEqual l) = length l.
Proof.
  unfold distributeEqual. rewrite length_zip_with.
  destruct (decide (length l = 0%nat)) as [->|Hn]; [done|].
  destruct (equal_shares_spec _ Hn) as (ps & -> & Hlen & _). rewrite length_map. lia.
Qed.

Lemma zip_with_pct_spec xs l :
  length xs = length l →
  map en_pct (zip_with with_pct xs l) = xs ∧
  map en_family (zip_with with_pct xs l) = map en_family l ∧
  map en_iface (zip_with with_pct xs l) = map en_iface l.
Proof.
  revert l. induction xs as [|x xs IH]; intros [|e l] H; try done.
  cbn [zip_with map]. destruct (IH l ltac:(simpl in H; lia)) as (-> & -> & ->). done.
Qed.

Lemma distributeEqual_spec l :
  map en_family (distributeEqual l) = map en_family l ∧
  map en_iface (distributeEqual l) = map en_iface l ∧ shares_ok (distributeEqual l).
Proof.
  destruct (decide (length l = 0%nat)) as [Hl|Hn].
  { destruct l; [|done]. split_and!; [done|done|by left]. }
  destruct (equal_shares_spec _ Hn) as (ps & Heq & Hlen & Hb & Hsum).
  unfold distributeEqual. rewrite Heq.
  destruct (zip_with_pct_spec (map Fin ps) l) as (Hp & Hf & Hi); [by rewrite length_map|].
  split_and!; [done|done|]. right. by exists ps.
Qed.

(** Redistributing the entries of a family keeps their families and
    interfaces, gives every entry an integer share between 0 and 100, and the
    shares add up to exactly 100. *)
Theorem distributeEqual_total l :
  l ≠ [] →
  ∃ ps, map en_pct (distributeEqual l) = map Fin ps ∧ zsum ps = 100 ∧
        Forall (λ p, 0 <= p <= 100) ps ∧
        map en_family (distributeEqual l) = map en_family l ∧
        map en_iface (distributeEqual l) = map en_iface l.
Proof.
  intros Hne. destruct (distributeEqual_spec l) as (Hf & Hi & [Hnil|(ps & Hp & Hb & Hs)]).
  - apply (f_equal length) in Hnil. rewrite distributeEqual_length in Hnil. by destruct l.
  - by exists ps.
Qed.

Lemma distributeEqual_total_witness :
  ∃ ps, map en_pct (distributeEqual [mkEntry ipv4 "a" NaN; mkEntry ipv4 "b" NaN]) = map Fin ps ∧
    zsum ps = 100 ∧ Forall (λ p, 0 <= p <= 100) ps ∧
    map en_family (distributeEqual [mkEntry ipv4 "a" NaN; mkEntry ipv4 "b" NaN]) = [ipv4; ipv4] ∧
    map en_iface (distributeEqual [mkEntry ipv4 "a" NaN; mkEntry ipv4 "b" NaN]) = ["a"; "b"].
Proof. apply (distributeEqual_total [mkEntry ipv4 "a" NaN; mkEntry ipv4 "b" NaN]). discriminate. Defined.

(** ** The shares of a tier *)

Definition other (f : family) : family := match f with ipv4 => ipv6 | ipv6 => ipv4 end.

Lemma family_eqb_refl f : family_eqb f f = true.
Proof. by destruct f. Qed.

Lemma family_eqb_other f : family_eqb (other f) f = false.
Proof. by destruct f. Qed.

Lemma family_eqb_true f g : family_eqb f g = true ↔ f = g.
Proof. apply bool_decide_eq_true. Qed.

Lemma family_cases f g : g = f ∨ g = other f.
Proof. destruct f, g; auto. Qed.

Lemma fam_entries_family f t : Forall (λ e, en_family e = f) (fam_entries f t).
Proof.
  apply Forall_forall. unfold fam_entries. intros e He%list_elem_of_In.
  apply filter_In in He as [_ He]. by apply family_eqb_true in He.
Qed.

Lemma put_fam_same f new t :
  length new = length (fam_entries f t) → Forall (λ e, en_family e = f) new →
  fam_entries f (put_fam f new t) = new.
Proof.
  unfold fam_entries. revert new. induction t as [|e t IH]; intros new Hlen Hnew; cbn in *.
  { by destruct new. }
  destruct (family_eqb (en_family e) f) eqn:Ee; cbn in *.
  - destruct new as [|e' new]; [done|]. inversion Hnew as [|? ? He' Hnew']; subst.
    cbn. rewrite family_eqb_refl. f_equal. apply IH; [by simpl in Hlen; lia|done].
  - rewrite Ee. by apply IH.
Qed.

Lemma put_fam_other f new t :
  Forall (λ e, en_family e = f) new →
  fam_entries (other f) (put_fam f new t) = fam_entries (other f) t.
Proof.
  unfold fam_entries. revert new. induction t as [|e t IH]; intros new Hnew; cbn; [done|].
  destruct (family_eqb (en_family e) f) eqn:Ee.
  - apply family_eqb_true in Ee. destruct new as [|e' new]; [done|].
    inversion Hnew as [|? ? He' Hnew']; subst. cbn. rewrite He', IH by done.
    by destruct (en_family e).
  - cbn. rewrite IH by done. done.
Qed.

Lemma distributeEqual_family f l :
  Forall (λ e, en_family e = f) l → Forall (λ e, en_family e = f) (distributeEqual l).
Proof.
  intros H. destruct (distributeEqual_spec l) as (Hf & _).
  apply Forall_map with (f := en_family) (P := λ g, g = f). rewrite Hf. by apply Forall_map.
Qed.

Lemma distribute_fam_same f t : fam_entries f (distribute_fam f t) = distributeEqual (fam_entries f t).
Proof.
  apply put_fam_same; [by rewrite distributeEqual_length|].
  apply distributeEqual_family, fam_entries_family.
Qed.

Lemma distribute_fam_other f t : fam_entries (other f) (distribute_fam f t) = fam_entries (other f) t.
Proof. apply put_fam_other, distributeEqual_family, fam_entries_family. Qed.

Definition balanced (t : tier) : Prop := ∀ f, shares_ok (fam_entries f t).

Lemma balanced_distribute f t :
  shares_ok (fam_entries (other f) t) → balanced (distribute_fam f t).
Proof.
  intros Ho g. destruct (family_cases f g) as [-> | ->].
  - rewrite distribute_fam_same. apply distributeEqual_spec.
  - by rewrite distribute_fam_other.
Qed.

Lemma fam_entries_app f t1 t2 : fam_entries f (t1 ++ t2) = fam_entries f t1 ++ fam_entries f t2.
Proof. apply List.filter_app. Qed.

Lemma fam_entries_remove f i t e :
  t !! i = Some e → en_family e = f → fam_entries (other f) (list_remove i t) = fam_entries (other f) t.
Proof.
  unfold fam_entries. revert i. induction t as [|e' t IH]; intros i Hi He; [done|].
  destruct i as [|i]; cbn in *.
  - injection Hi as ->. by rewrite He; destruct f.
  - by rewrite (IH i).
Qed.

Lemma change_family_balanced o ei f t : balanced (change_family o ei f t).
Proof.
  unfold change_family. apply (balanced_distribute ipv6). cbn [other].
  rewrite distribute_fam_same. apply distributeEqual_spec.
Qed.

Lemma remove_entry_balanced ei t : balanced t → balanced (remove_entry ei t).
Proof.
  intros H. unfold remove_entry. destruct (t !! ei) as [e|] eqn:Ee; [|done].
  apply balanced_distribute. by rewrite (fam_entries_remove _ _ _ e).
Qed.

Lemma add_entry_balanced o t : balanced t → balanced (add_entry o t).
Proof.
  intros H. unfold add_entry. apply balanced_distribute.
  rewrite fam_entries_app. unfold fam_entries at 2. cbn.
  destruct (default_family o t); cbn; rewrite app_nil_r; apply H.
Qed.

Lemma refresh_family o e : en_family (refresh_entry o e) = en_family e.
Proof. unfold refresh_entry. destruct (ifaces_of o (en_family e)); [done|]. by case_if. Qed.

Lemma refresh_pct o e : en_pct (refresh_entry o e) = en_pct e.
Proof. unfold refresh_entry. destruct (ifaces_of o (en_family e)); [done|]. by case_if. Qed.

(** Mapping over a tier keeps it balanced when families and shares stay. *)
Lemma map_balanced g t :
  (∀ e, en_family (g e) = en_family e) → (∀ e, en_pct (g e) = en_pct e) →
  balanced t → balanced (map g t).
Proof.
  intros Hf Hp Hb f. specialize (Hb f). unfold shares_ok in *.
  assert (map en_pct (fam_entries f (map g t)) = map en_pct (fam_entries f t)) as Heq.
  { unfold fam_entries. clear Hb. induction t as [|e t IH]; [done|]. cbn. rewrite Hf.
    case_if; cbn; rewrite ?Hp, IH; done. }
  destruct Hb as [Hn|Hb].
  - left. rewrite Hn in Heq. by apply map_eq_nil in Heq.
  - right. by rewrite Heq.
Qed.

Lemma alter_balanced g i t :
  (∀ e, en_family (g e) = en_family e) → (∀ e, en_pct (g e) = en_pct e) →
  balanced t → balanced (list_update g i t).
Proof.
  intros Hf Hp Hb f. specialize (Hb f). unfold shares_ok in *.
  assert (map en_pct (fam_entries f (list_update g i t)) = map en_pct (fam_entries f t)) as Heq.
  { unfold fam_entries, list_update. clear Hb. revert i. induction t as [|e t IH]; intros i; [done|].
    destruct i as [|i]; unfold alter; cbn [list_alter List.filter].
    - rewrite Hf. case_if; cbn [map]; rewrite ?Hp; done.
    - specialize (IH i). unfold alter in IH. case_if; cbn [map]; rewrite ?IH; done. }
  destruct Hb as [Hn|Hb].
  - left. rewrite Hn in Heq. by apply map_eq_nil in Heq.
  - right. by rewrite Heq.
Qed.

Definition balanced_state (s : state) : Prop := Forall balanced (st_tiers s).

Lemma refresh_balanced o s : balanced_state s → balanced_state (refreshTiers o s).
Proof.
  unfold balanced_state, refreshTiers. cbn. intros H. apply Forall_map.
  eapply Forall_impl; [exact H|]. intros t Ht. apply map_balanced; [apply refresh_family|apply refresh_pct|done].
Qed.

Lemma on_tier_balanced g ti s :
  (∀ t, balanced t → balanced (g t)) → balanced_state s → balanced_state (on_tier ti g s).
Proof. intros Hg Hs. unfold balanced_state, on_tier. cbn. by apply list_update_Forall. Qed.

Lemma new_state_balanced name : balanced_state (new_state name).
Proof. repeat constructor. Qed.

(** Every event but typing a share and opening an existing policy. *)
Definition structural (ev : edit_event) : bool :=
  match ev with EvPct _ _ _ | EvSelectPolicy _ => false | _ => true end.

#[local] Hint Resolve refresh_balanced on_tier_balanced new_state_balanced change_family_balanced
  remove_entry_balanced add_entry_balanced : core.

Section EditFacts.
Context {St : Type} {U : Uci St} {I : I18n}.

Lemma handle_balanced o st ev s s' :
  structural ev = true → balanced_state s → handle o st ev s = Ok s' → balanced_state s'.
Proof.
  intros Hev Hs. destruct ev; cbn [structural handle] in *; try discriminate Hev;
    try (intros [= <-]; auto; fail).
  - intros [= <-]. apply on_tier_balanced; [|done]. intros t Ht. by apply alter_balanced.
  - case_if; intros [= <-]; [done|]. apply refresh_balanced. by apply list_remove_Forall.
  - intros [= <-]. apply refresh_balanced. apply Forall_app. split; [done|].
    repeat constructor.
Qed.

(** *** No complaint about a balanced tier *)

Fixpoint total_of (f : family) (l : list (family * num)) : option num :=
  match l with
  | [] => None
  | (g, t) :: l' => if family_eqb f g then Some t else total_of f l'
  end.

Lemma total_of_add f g p l :
  total_of g (add_total f p l) =
  if family_eqb g f then
    Some (num_add (match total_of f l with Some t => num_or0 t | None => Fin 0 end) p)
  else total_of g l.
Proof.
  induction l as [|[h t] l IH]; cbn [add_total total_of]; [done|].
  destruct (family_eqb f h) eqn:Efh; cbn [total_of].
  - apply family_eqb_true in Efh as <-. by destruct (family_eqb g f).
  - rewrite IH. destruct (family_eqb g h) eqn:Egh, (family_eqb g f) eqn:Egf; try done.
    apply family_eqb_true in Egh as ->. apply family_eqb_true in Egf as ->.
    by rewrite family_eqb_refl in Efh.
Qed.

Lemma add_total_keys f p l :
  NoDup (map fst l) →
  NoDup (map fst (add_total f p l)) ∧ (∀ g, g ∈ map fst (add_total f p l) → g = f ∨ g ∈ map fst l).
Proof.
  induction l as [|[h t] l IH]; cbn [add_total map fst].
  { intros _. split; [repeat constructor; apply not_elem_of_nil|].
    intros g ->%list_elem_of_singleton. by left. }
  intros [Hh Hl]%NoDup_cons. destruct (family_eqb f h) eqn:Efh; cbn [map fst].
  - split; [by apply NoDup_cons|]. intros g Hg. by right.
  - destruct (IH Hl) as [IH1 IH2]. split.
    + apply NoDup_cons. split; [|done]. intros Hin. destruct (IH2 _ Hin) as [->|?]; [|done].
      by rewrite family_eqb_refl in Efh.
    + intros g [->|Hg]%elem_of_cons; [right; left|]. destruct (IH2 _ Hg); [by left|right; by right].
Qed.

Lemma total_of_elem f x l : NoDup (map fst l) → (f, x) ∈ l → total_of f l = Some x.
Proof.
  induction l as [|[g t] l IH]; cbn [map fst total_of]; [intros _ []%not_elem_of_nil|].
  intros [Hg Hl]%NoDup_cons [[= <- <-]|Hin]%elem_of_cons; [by rewrite family_eqb_refl|].
  destruct (family_eqb f g) eqn:E; [|by apply IH].
  apply family_eqb_true in E as <-. destruct Hg. apply list_elem_of_fmap. by exists (f, x).
Qed.

Lemma famTotals_snoc t e : famTotals (t ++ [e]) = add_total (en_family e) (en_pct e) (famTotals t).
Proof. unfold famTotals. by rewrite fold_left_app. Qed.

Lemma famTotals_keys t : NoDup (map fst (famTotals t)).
Proof.
  induction t as [|e t IH] using rev_ind; [constructor|].
  rewrite famTotals_snoc. by apply add_total_keys.
Qed.

Lemma zsum_bound l : Forall (λ p, 0 <= p <= 100) l → 0 <= zsum l <= 100 * Z.of_nat (length l).
Proof. induction 1 as [|x l Hx Hl IH]; cbn [zsum foldr length]; [|fold (zsum l)]; lia. Qed.

(** The total of a family is the sum of its shares. *)
Lemma famTotals_sum f t ps :
  map en_pct (fam_entries f t) = map Fin ps → Forall (λ p, 0 <= p <= 100) ps →
  Z.of_nat (length ps) < 2 ^ 40 →
  total_of f (famTotals t) = match ps with [] => None | _ => Some (Fin (zsum ps)) end.
Proof.
  revert ps. induction t as [|e t IH] using rev_ind; intros ps Hps Hb Hlen.
  { by destruct ps. }
  rewrite famTotals_snoc, total_of_add.
  rewrite fam_entries_app, map_app in Hps. unfold fam_entries at 2 in Hps. cbn [List.filter] in Hps.
  destruct (family_eqb f (en_family e)) eqn:E.
  - apply family_eqb_true in E as Ef. rewrite <- Ef, family_eqb_refl in Hps. rewrite <- ?Ef.
    destruct ps as [|p ps _] using rev_ind; [by destruct (map _ _)|].
    rewrite map_app in Hps. apply app_inj_tail in Hps as [Hps Hp]. cbn in Hp.
    apply Forall_app in Hb as [Hb Hp2]. rewrite Forall_singleton in Hp2.
    rewrite length_app in Hlen. change (length [p]) with 1%nat in Hlen.
    rewrite (IH ps) by (done || lia).
    rewrite Hp. pose proof (zsum_bound ps Hb) as Hz. rewrite zsum_app.
    replace (zsum [p]) with p by (cbn; lia).
    assert (match match ps with [] => None | _ => Some (Fin (zsum ps)) end with
            | Some t' => num_or0 t' | None => Fin 0 end = Fin (zsum ps)) as ->.
    { destruct ps; [done|]. unfold num_or0. cbn [num_truthy].
      destruct (Z.eqb_spec (zsum (z :: ps)) 0) as [->|]; done. }
    cbn [num_add]. rewrite num_of_Z_safe by (unfold safe; lia).
    destruct ps; done.
  - assert (family_eqb (en_family e) f = false) as E'
      by (destruct f, (en_family e); done).
    rewrite E' in Hps.
    cbn in Hps. rewrite app_nil_r in Hps. by apply IH.
Qed.

Lemma balanced_no_share_error i t :
  balanced t → Z.of_nat (length t) < 2 ^ 40 → share_errors i t = [].
Proof.
  intros Hb Hlen. unfold share_errors.
  assert (∀ l, (∀ f x, (f, x) ∈ l → x = Fin 100) →
    flat_map (λ '(f, total), if num_eqb total (Fin 100) then []
      else [format (tr "Tier %d %s shares must total 100%% (currently %d%%)")
            [FNum (Fin (Z.of_nat i + 1)); FStr (family_label f); FNum total]]) l = []) as Hgen.
  { induction l as [|[f x] l IH]; intros Hl; [done|]. cbn [flat_map].
    rewrite (Hl f x) by left. cbn. apply IH. intros g y Hy. apply (Hl g). by right. }
  apply Hgen. intros f x Hin. apply total_of_elem in Hin; [|apply famTotals_keys].
  assert (length (fam_entries f t) ≤ length t)%nat as Hfl by apply filter_length_le.
  destruct (Hb f) as [Hnil|(ps & Hps & Hpb & Hsum)].
  - rewrite (famTotals_sum f t []) in Hin; [done|by rewrite Hnil|constructor|done].
  - pose proof (f_equal length Hps) as Hl. rewrite !length_map in Hl.
    rewrite (famTotals_sum f t ps) in Hin by (done || lia).
    destruct ps as [|p ps]; [done|]. rewrite Hsum in Hin. congruence.
Qed.

Lemma edits_balanced o st evs s s' :
  edits o st evs s s' → Forall (λ ev, structural ev = true) evs →
  balanced_state s → balanced_state s'.
Proof.
  induction 1 as [|evs ev s s' s'' _ IH Hh]; [done|]. intros [Hevs Hev]%Forall_app Hs.
  rewrite Forall_singleton in Hev. eapply handle_balanced; [done| |done]. by apply IH.
Qed.

(** C11: starting from a new policy, no sequence of interface, family, tier,
    name and last-resort edits (everything but typing a percentage by hand)
    ever produces a tier whose shares fail the 100% check: the automatic
    redistribution keeps every family at exactly 100%. *)
Theorem edits_shares_total o st evs name s i t :
  edits o st evs (new_state name) s → Forall (λ ev, structural ev = true) evs →
  st_tiers s !! i = Some t → Z.of_nat (length t) < 2 ^ 40 → share_errors i t = [].
Proof.
  intros He Hev Ht Hlen. apply balanced_no_share_error; [|done].
  assert (balanced_state s) as Hs by (eapply edits_balanced; eauto).
  by eapply Forall_lookup_1.
Qed.
End EditFacts.

Definition demo_opts : editor_opts := mkOpts ["wan"; "wanb"; "wanc"] ["wan6"] [].

Lemma edits_shares_total_witness :
  share_errors (I := plain_i18n) 0
    [mkEntry ipv4 "wan" (Fin 34); mkEntry ipv4 "wan" (Fin 33); mkEntry ipv4 "wan" (Fin 33)] = [].
Proof.
  apply (edits_shares_total (I := plain_i18n) demo_opts (λ _ : string, [] : list section)
           [EvAddEntry 0; EvAddEntry 0; EvAddEntry 0] "p"
           (with_tiers [[mkEntry ipv4 "wan" (Fin 34); mkEntry ipv4 "wan" (Fin 33);
                         mkEntry ipv4 "wan" (Fin 33)]] (new_state "p")) 0%nat);
    [|repeat constructor|reflexivity|reflexivity].
  apply (edits_snoc _ _ [EvAddEntry 0; EvAddEntry 0] _ _
    (with_tiers [[mkEntry ipv4 "wan" (Fin 50); mkEntry ipv4 "wan" (Fin 50)]] (new_state "p")));
    [|reflexivity].
  apply (edits_snoc _ _ [EvAddEntry 0] _ _
    (with_tiers [[mkEntry ipv4 "wan" (Fin 100)]] (new_state "p"))); [|reflexivity].
  apply (edits_snoc _ _ [] _ _ (new_state "p")); [constructor|reflexivity].
Defined.
