(* ===== verification/Policy.v ===== *)
(** [view/mwan3/network/policy.js]: the lookup tables of the policy page, the
    description columns of its grid, and the writes that apply a policy
    specification produced by the tier editor. *)
From stdpp Require Import base list strings.
From Stdlib Require Import ZArith Lia Ascii Bool.
From S2P Require Import Prelude JsNum JsString JsArray JsObject Luci Forms Components Validators InterfaceForm.
From S2P Require Import Widgets.

Section Policy.
Context {St : Type} {U : Uci St} {I : I18n}.

(** ** Lookup tables *)

(** [iface.family || 'ipv4'] *)
Definition section_family (s : section) : string := default "ipv4" (sec_text "family" s).

Definition ifaceFamily (st : St) : jsobj string :=
  fold_left (λ o s, obj_set (sec_name s) (section_family s) o)
    (uci_sections st "mwan3" "interface") [].

(** One step of the loop that fills [ifacesByFamily]: a family that is the
    name of a member of [Object.prototype] has no [push]. *)
Definition add_iface (o : jsobj (list string)) (s : section) : res (jsobj (list string)) :=
  let fam := section_family s in
  match obj_get fam o with
  | Own l => Ok (obj_set fam (l ++ [sec_name s]) o)
  | Absent => Ok (obj_set fam [sec_name s] o)
  | Inherited => Throw "TypeError"
  end.

Definition ifacesByFamily (st : St) : res (jsobj (list string)) :=
  fold_left (λ r s, let* o := r in add_iface o s)
    (uci_sections st "mwan3" "interface") (Ok [("ipv4", []); ("ipv6", [])]).

(** [ifaceFamily[iface] || 'ipv4'].  A name that only [Object.prototype] has
    gives a function, which is no family. *)
Definition inherited_family : string := "[inherited]".

Definition family_of_iface (tbl : jsobj string) (iface : string) : string :=
  match obj_get iface tbl with
  | Own f => if str_truthy f then f else "ipv4"
  | Inherited => inherited_family
  | Absent => "ipv4"
  end.

Definition member_entry (tbl : jsobj string) (mbr : section) : member_info :=
  let iface := default "" (sec_text "interface" mbr) in
  mkInfo iface (parse_or1 (sec_opt "metric" mbr)) (parse_or1 (sec_opt "weight" mbr))
    (family_of_iface tbl iface).

Definition memberInfo (st : St) : jsobj member_info :=
  let tbl := ifaceFamily st in
  fold_left (λ o mbr, obj_set (sec_name mbr) (member_entry tbl mbr) o)
    (uci_sections st "mwan3" "member") [].

(** ** Grid column descriptions *)

(** [byMetric] of one family: the (iface, weight) lists by metric, and
    whether a member is undefined. *)
Fixpoint push_desc (m : num) (iw : string * num) (l : list (num * list (string * num)))
    : list (num * list (string * num)) :=
  match l with
  | [] => [(m, [iw])]
  | (m', g) :: l' =>
      if same_key m m' then (m', g ++ [iw]) :: l' else (m', g) :: push_desc m iw l'
  end.

(** What [memberInfo[mname]] contributes; a name found only in
    [Object.prototype] has an undefined family, which is not [fam]. *)
Fixpoint collect_desc (info : jsobj member_info) (fam : string) (useMembers : list string)
    (acc : list (num * list (string * num)) * bool) : list (num * list (string * num)) * bool :=
  match useMembers with
  | [] => acc
  | mname :: rest =>
      let acc' :=
        match obj_get mname info with
        | Absent => (fst acc, true)
        | Inherited => acc
        | Own i =>
            if String.eqb (mi_family i) fam
            then (push_desc (mi_metric i) (mi_iface i, mi_weight i) (fst acc), snd acc)
            else acc
        end in
      collect_desc info fam rest acc'
  end.

(** [Math.round(e.weight * 100 / total)] *)
Definition desc_pct (w total : num) : num :=
  math_round (sf_div (sf_of_num (num_mul w (Fin 100))) (sf_of_num total)).

Definition tierStr (entries : list (string * num)) : string :=
  match entries with
  | [e] => "[" +:+ fst e +:+ "]"
  | _ =>
      let total := total_weight entries in
      "[" +:+ str_join ", "
        (map (λ e, fst e +:+ " " +:+ num_to_string (desc_pct (snd e) total) +:+ "%") entries) +:+ "]"
  end.

Definition familyDesc (info : jsobj member_info) (st : St) (section_id fam : string) : string :=
  let useMembers := opt_list (uci_get st "mwan3" section_id "use_member") in
  let '(byMetric, hasMissing) := collect_desc info fam useMembers ([], false) in
  let metrics := sort_by (λ a b, num_ltb (fst a) (fst b)) byMetric in
  match metrics with
  | [] => if hasMissing then "(" +:+ tr "some members undefined" +:+ ")" else ""
  | _ =>
      str_join " → " (map (λ g, tierStr (snd g)) metrics)
      +:+ (if hasMissing then " (" +:+ tr "some members undefined" +:+ ")" else "")
  end.

(** ** Applying a specification *)

Definition create_member (st : St) (mb : member_spec) : St :=
  let st1 := uci_add st "mwan3" "member" (ms_name mb) in
  let st2 := uci_set st1 "mwan3" (ms_name mb) "interface" (UStr (ms_iface mb)) in
  let st3 := uci_set st2 "mwan3" (ms_name mb) "metric" (UStr (num_to_string (ms_metric mb))) in
  uci_set st3 "mwan3" (ms_name mb) "weight" (UStr (num_to_string (ms_weight mb))).

(** The configuration after the writes, before it is saved. *)
Definition applySpec (autoDelete : bool) (spec : policy_spec) (st : St) : St :=
  let st1 := fold_left create_member (ps_membersToCreate spec) st in
  let st2 := if ps_isNew spec then uci_add st1 "mwan3" "policy" (ps_policyName spec) else st1 in
  let st3 := uci_set st2 "mwan3" (ps_policyName spec) "use_member" (UList (ps_useMembers spec)) in
  let st4 := uci_set st3 "mwan3" (ps_policyName spec) "last_resort" (UStr (ps_lastResort spec)) in
  if autoDelete then fold_left (λ s m, uci_remove s "mwan3" m) (ps_orphans spec) st4 else st4.

(** [localStorage.getItem('mwan3.autoDeleteMembers') !== '0'] *)
Definition auto_delete (stored : option string) : bool := negb (bool_decide (stored = Some "0")).

(** What the page does once the save settles. *)
Inductive page_action : Type :=
  | HideModal
  | OrphanCleanup (orphans : list string)
  | Reload
  | Notify (msg : string).

Definition after_save (autoDelete : bool) (spec : policy_spec) (saved : string + unit)
    : list page_action :=
  match saved with
  | inr _ =>
      [HideModal;
       match ps_orphans spec with
       | [] => Reload
       | os => if autoDelete then Reload else OrphanCleanup os
       end]
  | inl err => [Notify (tr "Save failed: " +:+ err)]
  end.

Definition applyPolicy (stored : option string) (s : state) (st : St) (save : St → string + unit)
    : St * list page_action :=
  let spec := getValue st s in
  let st' := applySpec (auto_delete stored) spec st in
  (st', after_save (auto_delete stored) spec (save st')).

(** The Save button of the builder: nothing happens while the state has
    errors. *)
Definition saveBuilder (stored : option string) (s : state) (st : St) (save : St → string + unit)
    : St * list page_action :=
  if negb (isValid st s) then (st, []) else applyPolicy stored s st save.

(** ** Orphan cleanup

    The rows of the dialog are the orphans with the state of their boxes. *)
Definition orphan_rows (orphans : list string) : list (string * bool) :=
  map (λ m, (m, true)) orphans.

Definition orphan_row (mname : string) : node :=
  E "div" [("class", "mwan3-pb-orphan-row")]
    (Kids [E "input" [("type", "checkbox"); ("checked", "")] (Kids []);
           E "code" [] (Html mname)]).

Definition deleteSelected (items : list (string * bool)) (st : St) : St :=
  fold_left (λ s (it : string * bool), if snd it then uci_remove s "mwan3" (fst it) else s) items st.

Definition after_delete (saved : string + unit) : list page_action :=
  match saved with
  | inr _ => [HideModal; Reload]
  | inl err => [Notify (tr "Delete failed: " +:+ err)]
  end.

(** ** Opening the builder *)

Definition family_list (o : jsobj (list string)) (f : string) : list string :=
  match obj_get f o with Own l => l | _ => [] end.

Definition builder_opts (st : St) : res editor_opts :=
  let* o := ifacesByFamily st in
  Ok (mkOpts (family_list o "ipv4") (family_list o "ipv6") (memberInfo st)).

(** [mode] is 'edit' with the section's name, or 'new' with a typed name. *)
Inductive builder_mode : Type :=
  | BuildNew (newPolicyName : string)
  | BuildEdit (policyName : string).

Definition openWith (o : editor_opts) (b : builder_mode) (st : St) : res state :=
  let* s :=
    match b with
    | BuildEdit pname =>
        if str_truthy pname then stateFromPolicy (op_memberInfo o) st pname
        else Ok (new_state "")
    | BuildNew name => Ok (new_state name)
    end in
  Ok (refreshTiers o s).

(** The builder opened with the tables of the page. *)
Definition openBuilder (b : builder_mode) (st : St) : res state :=
  let* o := builder_opts st in openWith o b st.

(** ** The form *)

Definition policy_name_verdict (st : St) (v : string) : verdict :=
  new_name_verdict st
    (tr "Policies may not share the same name as configured interfaces, members or rules") v.

Definition last_resort_values : list (string * string) :=
  [("unreachable", tr "unreachable (reject)"); ("blackhole", tr "blackhole (drop)");
   ("default", tr "default (use main routing table)")].

Definition policy_form : form_section :=
  mkFormSection GridSection "policy" true false false true
    [option_ DummyValue "_ipv4" (tr "IPv4 Priority order") "";
     option_ DummyValue "_ipv6" (tr "IPv6 Priority order") "";
     option_ ListValue "last_resort" (tr "Last resort")
       (tr "When all policy members are offline use this behavior for matched traffic")
       ▷ dflt "unreachable" ▷ values last_resort_values].

Definition desc_textvalue (info : jsobj member_info) (st : St) (fam section_id : string) : node :=
  let t := familyDesc info st section_id fam in
  if str_truthy t then E "span" [] (Kids [Txt t]) else E "em" [] (Kids [Txt "-"]).
End Policy.
