(* ===== verification/PolicyFacts.v ===== *)
(** The policy page: a saved policy opens with the tiers it was saved with,
    and applying a specification keeps member references resolved. *)
From stdpp Require Import base list strings.
From Stdlib Require Import ZArith Lia Ascii Bool Sorting.Sorted.
From S2P Require Import Prelude JsNum JsString JsArray JsObject Luci Validators Widgets WidgetsFacts.
From S2P Require Import Policy.

(** ** Shares from weights *)

Definition pct_check (T w : Z) : bool :=
  (T =? 0) || negb (100 mod T =? 0) || (T <? w)
  || num_eqb (weight_pct (Fin w) (Fin T)) (Fin (w * (100 / T))).

Lemma pct_check_all : all_below 101 (λ T, all_below 101 (pct_check T)) = true.
Proof. vm_compute. reflexivity. Qed.

Lemma weight_pct_exact T w :
  1 <= T <= 100 → (T | 100) → 0 <= w <= T → weight_pct (Fin w) (Fin T) = Fin (w * (100 / T)).
Proof.
  intros HT Hd Hw.
  pose proof (all_below_spec _ _ (all_below_spec _ _ pct_check_all T ltac:(lia)) w ltac:(lia)) as H.
  unfold pct_check in H. rewrite (proj2 (Z.eqb_neq T 0)) in H by lia.
  apply Z.mod_divide in Hd; [|lia].
  rewrite Hd, (proj2 (Z.ltb_ge T w)) in H by lia. cbn [Z.eqb negb orb] in H.
  destruct (weight_pct (Fin w) (Fin T)); cbn in H; try done. by apply Z.eqb_eq in H as ->.
Qed.

(** ** The entries of one family *)

Definition good_shares (ps : list Z) : Prop := Forall (λ p, 1 <= p <= 100) ps ∧ zsum ps = 100.

Lemma total_weight_Fin l ws :
  map snd l = map Fin ws → Forall (λ w, 0 <= w <= 100) ws → zsum ws <= 100 →
  total_weight l = Fin (zsum ws).
Proof.
  unfold total_weight. intros Hl Hws Hs.
  assert (∀ a, 0 <= a → a + zsum ws <= 100 →
    fold_left (λ s (iw : string * num), num_add s (snd iw)) l (Fin a) = Fin (a + zsum ws)) as H.
  { clear Hs. revert l Hl. induction Hws as [|w ws Hw Hws IH]; intros [|[i n] l] Hl a Ha Hb; try done.
    - cbn. by rewrite Z.add_0_r.
    - cbn [map snd] in Hl. injection Hl as -> Hl. cbn [fold_left snd].
      change (zsum (w :: ws)) with (w + zsum ws) in *.
      assert (0 <= zsum ws) by (apply zsum_bound in Hws; lia).
      rewrite num_add_safe by (unfold safe; lia). rewrite IH by (done || lia). f_equal. lia. }
  apply (H 0); lia.
Qed.

Lemma zsum_mul g ws : zsum (map (λ w, w * g) ws) = zsum ws * g.
Proof. induction ws as [|w ws IH]; [done|]. cbn [map]. unfold zsum in *. cbn [foldr]. rewrite IH. ring. Qed.

(** The weights of good shares, and their common factor. *)
Lemma reduced_spec ps :
  ps ≠ [] → good_shares ps →
  ∃ g, 1 <= g ∧ map (λ w, w * g) (reduced ps) = ps ∧ zsum (reduced ps) * g = 100.
Proof.
  intros Hne [Hps Hsum].
  assert (∀ g, map (λ w, w * g) (reduced ps) = ps → zsum (reduced ps) * g = 100) as Hs.
  { intros g Hg. rewrite <- zsum_mul, Hg. done. }
  destruct ps as [|p [|q ps]]; [done| |].
  - exists 100. cbn in Hsum. split_and!; [lia| |done]. cbn. f_equal. lia.
  - set (l := p :: q :: ps) in *. exists (zgcd l).
    assert (0 < zgcd l) as Hg.
    { apply (zgcd_pos l p); [left|]. rewrite Forall_forall in Hps. specialize (Hps p ltac:(left)). lia. }
    assert (map (λ w, w * zgcd l) (reduced l) = l) as Hl.
    { unfold l at 2. cbn [reduced]. fold l. rewrite map_map. transitivity (map id l); [|apply map_id].
      apply map_ext_in. intros x Hx%list_elem_of_In. destruct (zgcd_divide l x Hx) as [k Hk].
      unfold id. rewrite Hk at 1. rewrite Z.div_mul by lia. lia. }
    split_and!; [lia|done|by apply Hs].
Qed.

Lemma computeWeights_good ents ps :
  map en_pct ents = map Fin ps → Forall (λ p, 1 <= p <= 100) ps →
  computeWeights ents = map Fin (reduced ps).
Proof.
  intros H1 H2. apply computeWeights_Fin; [done|]. eapply Forall_impl; [exact H2|]. simpl. lia.
Qed.

(** The (iface, weight) pairs stored for the entries of a family. *)
Definition stored (ents : list entry) : list (string * num) :=
  zip_with (λ e w, (en_iface e, w)) ents (computeWeights ents).

Lemma reduced_length ps : length (reduced ps) = length ps.
Proof. destruct ps as [|p [|q ps]]; try done. cbn [reduced]. by rewrite length_map. Qed.

Lemma family_pcts_aux f T g ents ws ps :
  1 <= T <= 100 → 100 / T = g → (T | 100) → Forall (λ w, 0 <= w <= T) ws →
  map (λ w, w * g) ws = ps → map en_pct ents = map Fin ps → Forall (λ e, en_family e = f) ents →
  map (λ iw, mkEntry f (fst iw) (weight_pct (snd iw) (Fin T)))
    (zip_with (λ e w, (en_iface e, w)) ents (map Fin ws)) = ents.
Proof.
  intros HT Hg Hd Hws <-. revert ents. induction Hws as [|w ws Hw Hws IH]; intros [|e ents] Hp Hf; try done.
  cbn [map zip_with fst snd] in *. injection Hp as He Hp. inversion Hf as [|? ? Hef Hf']; subst.
  rewrite IH by done. f_equal. rewrite weight_pct_exact by done. rewrite <- He. by destruct e.
Qed.

(** Reading the stored weights back gives the entries. *)
Lemma family_pcts_stored f ents ps :
  map en_pct ents = map Fin ps → good_shares ps → Forall (λ e, en_family e = f) ents →
  family_pcts f (stored ents) = ents.
Proof.
  intros Hp Hgood Hf. destruct (decide (ps = [])) as [->|Hne].
  { by destruct ents. }
  destruct (reduced_spec ps Hne Hgood) as (g & Hg & Hmul & Hsum).
  pose proof Hgood as [Hps Hs100]. set (T := zsum (reduced ps)) in *.
  assert (1 <= T <= 100) as HT by nia.
  assert (Forall (λ w, 0 <= w) (reduced ps)) as Hnn.
  { apply Forall_forall. intros w Hw.
    assert (w * g ∈ ps) as Hin by (rewrite <- Hmul; apply list_elem_of_fmap; eauto).
    rewrite Forall_forall in Hps. specialize (Hps _ Hin). nia. }
  assert (Forall (λ w, 0 <= w <= T) (reduced ps)) as Hws.
  { unfold T. clear -Hnn. induction Hnn as [|w ws Hw Hws IH]; [constructor|].
    assert (0 <= zsum ws) by (clear -Hws; induction Hws; cbn [zsum foldr]; [|fold (zsum l)]; lia).
    change (zsum (w :: ws)) with (w + zsum ws). constructor; [lia|].
    eapply Forall_impl; [exact IH|]. simpl. lia. }
  assert (100 / T = g) as HgT by (rewrite <- Hsum, Z.mul_comm; apply Z.div_mul; lia).
  unfold family_pcts, stored. rewrite (computeWeights_good ents ps) by done.
  assert (length ents = length (reduced ps)) as Hlen.
  { rewrite reduced_length. apply (f_equal length) in Hp. by rewrite !length_map in Hp. }
  assert (map snd (zip_with (λ e w, (en_iface e, w)) ents (map Fin (reduced ps))) = map Fin (reduced ps)) as Hsnd.
  { clear -Hlen. revert ents Hlen. induction (reduced ps) as [|w ws IH]; intros [|e ents] H; try done.
    cbn in *. f_equal. apply IH. lia. }
  rewrite (total_weight_Fin _ (reduced ps)); [|done| |lia].
  2: { eapply Forall_impl; [exact Hws|]. simpl. lia. }
  apply (family_pcts_aux f T g ents (reduced ps) ps); try done. exists g. lia.
Qed.

(** ** Reading the members back *)

Definition add_fam (f : family) (iws : list (string * num))
    (g : list (string * num) * list (string * num)) : list (string * num) * list (string * num) :=
  match f with ipv4 => (fst g ++ iws, snd g) | ipv6 => (fst g, snd g ++ iws) end.

(** A group is created by the first member that belongs to it. *)
Definition extend (l : list metric_group) (m : num) (g : list (string * num) * list (string * num))
    : list metric_group :=
  match g with ([], []) => l | _ => l ++ [(m, g)] end.

Lemma push_family_text f iw g : push_family (family_text f) iw g = Ok (add_fam f [iw] g).
Proof. by destruct f. Qed.

Lemma push_metric_extend m f iw l g :
  m ∉ map fst l → push_metric m (family_text f) iw (extend l m g) = Ok (extend l m (add_fam f [iw] g)).
Proof.
  intros Hm.
  assert (extend l m (add_fam f [iw] g) = l ++ [(m, add_fam f [iw] g)]) as ->.
  { unfold extend. destruct f, g as [[|? ?] [|? ?]]; done. }
  assert (∀ g0, g0 = g → push_metric m (family_text f) iw (l ++ [(m, g0)]) = Ok (l ++ [(m, add_fam f [iw] g0)])) as Hend.
  { intros g0 _. clear -Hm. induction l as [|[m' g'] l IH]; cbn [app push_metric].
    - unfold same_key. rewrite bool_decide_true by done. by rewrite push_family_text.
    - cbn [map fst] in Hm. apply not_elem_of_cons in Hm as [Hne Hm].
      unfold same_key. rewrite bool_decide_false by done. by rewrite IH. }
  assert (push_metric m (family_text f) iw l = Ok (l ++ [(m, add_fam f [iw] ([], []))])) as Hnew.
  { clear -Hm. induction l as [|[m' g'] l IH]; cbn [app push_metric].
    - by rewrite push_family_text.
    - cbn [map fst] in Hm. apply not_elem_of_cons in Hm as [Hne Hm].
      unfold same_key. rewrite bool_decide_false by done. by rewrite IH. }
  unfold extend. destruct g as [[|x l4] [|y l6]]; try by apply Hend. done.
Qed.

(** What the page must know about the members an entry list resolves to. *)
Definition info_ok (info : jsobj member_info) (metric : num) (f : family)
    (ews : list (entry * num)) (names : list string) : Prop :=
  Forall2 (λ ew n, obj_get n info = Own (mkInfo (en_iface (fst ew)) metric (snd ew) (family_text f)))
    ews names.

Lemma add_fam_app f a b g : add_fam f b (add_fam f a g) = add_fam f (a ++ b) g.
Proof. destruct f, g; cbn; by rewrite app_assoc. Qed.

Lemma add_fam_nil f g : add_fam f [] g = g.
Proof. destruct f, g; cbn; by rewrite app_nil_r. Qed.

Lemma collect_family info m f ews names rest l g :
  m ∉ map fst l → info_ok info m f ews names →
  collect_metrics info (names ++ rest) (extend l m g) =
  collect_metrics info rest (extend l m (add_fam f (map (λ ew, (en_iface (fst ew), snd ew)) ews) g)).
Proof.
  intros Hm H. revert g. induction H as [|ew n ews names Hn H IH]; intros g.
  - by rewrite add_fam_nil.
  - cbn [app collect_metrics]. rewrite Hn. cbn [mi_metric mi_family mi_iface mi_weight].
    rewrite push_metric_extend by done. cbn [rbind]. rewrite IH, add_fam_app. done.
Qed.

Definition tier_ews (f : family) (t : tier) : list (entry * num) :=
  zip (fam_entries f t) (computeWeights (fam_entries f t)).

Definition metric_of (i : nat) : num := Fin (Z.of_nat i + 1).

Section Resolve.
Context {St : Type} {U : Uci St}.

Definition tier_names (st : St) (f : family) (i : nat) (t : tier) : list string :=
  map fst (resolve_family st (metric_of i) f t).

(** [info] describes every member the tiers resolve to. *)
Definition tier_info_ok (info : jsobj member_info) (st : St) (i : nat) (t : tier) : Prop :=
  ∀ f, info_ok info (metric_of i) f (tier_ews f t) (tier_names st f i t).

Definition tier_group (i : nat) (t : tier) : list metric_group :=
  extend [] (metric_of i) (stored (fam_entries ipv4 t), stored (fam_entries ipv6 t)).

Fixpoint groups_from (k : nat) (ts : list tier) : list metric_group :=
  match ts with [] => [] | t :: ts' => tier_group k t ++ groups_from (S k) ts' end.

Lemma stored_ews f t :
  map (λ ew, (en_iface (fst ew), snd ew)) (tier_ews f t) = stored (fam_entries f t).
Proof.
  unfold tier_ews, stored. generalize (computeWeights (fam_entries f t)).
  induction (fam_entries f t) as [|e l IH]; intros [|w ws]; try done. cbn. by rewrite IH.
Qed.

Lemma resolve_tier_names st i t :
  map fst (resolve_tier st i t) = tier_names st ipv4 i t ++ tier_names st ipv6 i t.
Proof. unfold resolve_tier. by rewrite map_app. Qed.

Lemma extend_app l m g : extend l m g = l ++ extend [] m g.
Proof. unfold extend. destruct g as [[|? ?] [|? ?]]; by rewrite ?app_nil_r. Qed.

Lemma collect_tier info st i t rest l :
  metric_of i ∉ map fst l → tier_info_ok info st i t →
  collect_metrics info (map fst (resolve_tier st i t) ++ rest) l =
  collect_metrics info rest (l ++ tier_group i t).
Proof.
  intros Hm H. rewrite resolve_tier_names, <- app_assoc.
  change l with (extend l (metric_of i) ([], [])) at 1.
  rewrite (collect_family info (metric_of i) ipv4 (tier_ews ipv4 t)) by (done || apply H).
  rewrite (collect_family info (metric_of i) ipv6 (tier_ews ipv6 t)) by (done || apply H).
  rewrite !stored_ews. cbn [add_fam fst snd]. rewrite !app_nil_l.
  unfold tier_group. by rewrite extend_app.
Qed.

Lemma tier_group_keys i t m : m ∈ map fst (tier_group i t) → m = metric_of i.
Proof.
  unfold tier_group, extend. destruct (stored _); [destruct (stored _)|]; cbn.
  - intros []%not_elem_of_nil.
  - by intros ->%list_elem_of_singleton.
  - by intros ->%list_elem_of_singleton.
Qed.

Fixpoint resolve_from (st : St) (k : nat) (ts : list tier) : list (string * list member_spec) :=
  match ts with [] => [] | t :: ts' => resolve_tier st k t ++ resolve_from st (S k) ts' end.

Lemma resolve_tiers_from st ts : resolve_tiers st ts = resolve_from st 0 ts.
Proof.
  unfold resolve_tiers.
  assert (∀ k, concat (imap (λ i, resolve_tier st (k + i)%nat) ts) = resolve_from st k ts) as H.
  { induction ts as [|t ts IH]; intros k; [done|]. cbn [imap concat resolve_from].
    rewrite Nat.add_0_r. f_equal. rewrite <- (IH (S k)). f_equal. apply imap_ext. intros. cbn. by rewrite Nat.add_succ_r. }
  apply (H 0%nat).
Qed.

Lemma collect_from info st k ts l :
  (∀ m, m ∈ map fst l → ∃ j, m = metric_of j ∧ (j < k)%nat) →
  (∀ i t, ts !! i = Some t → tier_info_ok info st (k + i) t) →
  collect_metrics info (map fst (resolve_from st k ts)) l = Ok (l ++ groups_from k ts).
Proof.
  revert k l. induction ts as [|t ts IH]; intros k l Hl Hts.
  { cbn. by rewrite app_nil_r. }
  cbn [resolve_from groups_from]. rewrite map_app, collect_tier.
  - rewrite IH; [by rewrite <- app_assoc| |].
    + intros m. rewrite map_app, elem_of_app. intros [Hm|Hm].
      * destruct (Hl m Hm) as (j & -> & ?). exists j. split; [done|lia].
      * apply tier_group_keys in Hm as ->. exists k. split; [done|lia].
    + intros i t' Hi. replace (S k + i)%nat with (k + S i)%nat by lia. by apply Hts.
  - intros Hin. destruct (Hl _ Hin) as (j & [= Hj] & ?). lia.
  - rewrite <- (Nat.add_0_r k). by apply Hts.
Qed.

Lemma groups_from_keys k ts m :
  m ∈ map fst (groups_from k ts) → ∃ j, m = metric_of j ∧ (k <= j)%nat.
Proof.
  revert k. induction ts as [|t ts IH]; intros k; cbn [groups_from map]; [intros []%not_elem_of_nil|].
  rewrite map_app, elem_of_app. intros [H|H].
  - apply tier_group_keys in H. eauto.
  - destruct (IH _ H) as (j & -> & ?). exists j. split; [done|lia].
Qed.

Lemma groups_from_sorted k ts :
  StronglySorted (λ x y, metric_before y x = false) (groups_from k ts).
Proof.
  revert k. induction ts as [|t ts IH]; intros k; cbn [groups_from]; [constructor|].
  unfold tier_group. destruct (extend [] (metric_of k) _) as [|g l] eqn:E; [apply IH|].
  assert (l = [] ∧ fst g = metric_of k) as [-> Hg].
  { unfold extend in E. destruct (stored _); [destruct (stored _)|]; by simplify_eq/=. }
  cbn [app]. constructor; [apply IH|]. apply Forall_forall. intros g' Hg'.
  destruct (groups_from_keys (S k) ts (fst g')) as (j & Hj & ?).
  { apply list_elem_of_fmap. eauto. }
  unfold metric_before. rewrite Hj, Hg. cbn. apply Z.ltb_ge. lia.
Qed.
End Resolve.

(** ** The tiers as saved

    Within a tier the IPv4 entries come first; tiers without entries are not
    saved, and a policy without entries opens with one empty tier. *)
Definition norm_tier (t : tier) : tier := fam_entries ipv4 t ++ fam_entries ipv6 t.

Definition norm_tiers (ts : list tier) : list tier :=
  match List.filter (λ t, negb (Nat.eqb (length t) 0)) (map norm_tier ts) with
  | [] => [[]]
  | l => l
  end.

Definition tier_ok (t : tier) : Prop :=
  ∀ f, fam_entries f t = [] ∨ ∃ ps, map en_pct (fam_entries f t) = map Fin ps ∧ good_shares ps.

Lemma stored_length l : tier_ok l → ∀ f, stored (fam_entries f l) = [] ↔ fam_entries f l = [].
Proof.
  intros H f. destruct (H f) as [->|(ps & Hp & Hg)]; [done|]. unfold stored.
  rewrite (computeWeights_good _ ps) by (done || apply Hg).
  pose proof (f_equal length Hp) as Hlen. rewrite !length_map in Hlen.
  rewrite <- !length_zero_iff_nil, length_zip_with, length_map, reduced_length. lia.
Qed.

Lemma family_pcts_tier f t : tier_ok t → family_pcts f (stored (fam_entries f t)) = fam_entries f t.
Proof.
  intros H. destruct (H f) as [->|(ps & Hp & Hg)]; [done|].
  apply (family_pcts_stored f _ ps); [done..|]. apply fam_entries_family.
Qed.

Lemma groups_from_entries k ts :
  Forall tier_ok ts →
  map group_entries (groups_from k ts) =
  List.filter (λ t, negb (Nat.eqb (length t) 0)) (map norm_tier ts).
Proof.
  intros H. revert k. induction H as [|t ts Ht H IH]; intros k; [done|].
  cbn [groups_from map List.filter]. rewrite map_app, IH.
  pose proof (stored_length t Ht) as Hs.
  unfold tier_group, extend, norm_tier.
  destruct (stored (fam_entries ipv4 t)) as [|x l4] eqn:E4;
    [destruct (stored (fam_entries ipv6 t)) as [|y l6] eqn:E6|].
  - by rewrite (proj1 (Hs ipv4) E4), (proj1 (Hs ipv6) E6).
  - rewrite (proj1 (Hs ipv4) E4).
    cbn [app map]. unfold group_entries at 1. cbn [fst snd]. rewrite <- E6, family_pcts_tier by done.
    by destruct (fam_entries ipv6 t).
  - cbn [app map]. unfold group_entries at 1. cbn [fst snd]. rewrite <- E4, !family_pcts_tier by done.
    by destruct (fam_entries ipv4 t).
Qed.

Lemma policy_tiers_resolved {St} {U : Uci St} info st ts :
  Forall tier_ok ts → (∀ i t, ts !! i = Some t → tier_info_ok info st i t) →
  policy_tiers info (map fst (resolve_tiers st ts)) = Ok (norm_tiers ts).
Proof.
  intros Hok Hinfo. unfold policy_tiers. rewrite resolve_tiers_from, collect_from; [|by intros ? ?%not_elem_of_nil|done].
  cbn [rbind app]. rewrite sort_by_id by apply groups_from_sorted.
  rewrite groups_from_entries by done. unfold norm_tiers. by destruct (List.filter _ _).
Qed.
