(* ===== verification/PolicyApply.v ===== *)
(** Applying a policy specification to the configuration: the sections it
    leaves, the references that stay resolved, and the editor state a saved
    policy opens with. *)
From stdpp Require Import base list strings sets.
From Stdlib Require Import ZArith Lia Ascii Bool.
From S2P Require Import Prelude JsNum JsString JsArray JsObject Luci Validators Widgets WidgetsFacts.
From S2P Require Import Policy PolicyFacts.

Section Apply.
Context {St : Type} {U : Uci St} {UL : UciLaws U} {I : I18n}.

Definition cfg (st : St) : list section := uci_view st "mwan3".

(** ** The sections after the writes *)

Definition member_section (mb : member_spec) : section :=
  mkSection (ms_name mb) "member"
    [("interface", UStr (ms_iface mb)); ("metric", UStr (num_to_string (ms_metric mb)));
     ("weight", UStr (num_to_string (ms_weight mb)))].

Definition creatable (mb : member_spec) : Prop :=
  ms_name mb ≠ "" ∧ ms_iface mb ≠ "" ∧ num_to_string (ms_metric mb) ≠ ""
  ∧ num_to_string (ms_weight mb) ≠ "".

Lemma on_section_notin n f l : n ∉ names l → on_section n f l = l.
Proof.
  unfold on_section, names. induction l as [|s l IH]; [done|]. cbn [map].
  intros [Hne Hn]%not_elem_of_cons. rewrite (proj2 (String.eqb_neq (sec_name s) n)) by congruence.
  by rewrite IH.
Qed.

Lemma on_section_last n f l s :
  n ∉ names l → sec_name s = n → on_section n f (l ++ [s]) = l ++ [f s].
Proof.
  intros Hn Hs. unfold on_section. rewrite map_app. cbn [map].
  rewrite Hs, String.eqb_refl. f_equal. by apply (on_section_notin n f l).
Qed.

Lemma ustr_ne s : s ≠ "" → UStr s ≠ UStr "".
Proof. congruence. Qed.

Lemma create_member_view st mb :
  creatable mb → ms_name mb ∉ names (cfg st) →
  cfg (create_member st mb) = cfg st ++ [member_section mb].
Proof.
  intros (Hn & Hi & Hm & Hw) Hfresh. unfold create_member, cfg in *. cbv zeta.
  rewrite !set_view by (by apply ustr_ne). rewrite add_view by done.
  rewrite !on_section_last by done. reflexivity.
Qed.

Lemma create_members_view mbs st :
  Forall creatable mbs → NoDup (map ms_name mbs) →
  (∀ n, n ∈ map ms_name mbs → n ∉ names (cfg st)) →
  cfg (fold_left create_member mbs st) = cfg st ++ map member_section mbs.
Proof.
  intros Hc. revert st. induction Hc as [|mb mbs Hmb Hc IH]; intros st Hnd Hf; cbn [fold_left map].
  { by rewrite app_nil_r. }
  cbn [map] in Hnd. apply NoDup_cons in Hnd as [Hmbn Hnd].
  assert (ms_name mb ∉ names (cfg st)) as Hfresh by (apply Hf; left).
  rewrite IH; [by rewrite create_member_view, <- app_assoc|done|].
  intros n Hn. rewrite create_member_view by done. unfold names. rewrite map_app, elem_of_app. cbn.
  intros [Hin|Heq]; [eapply Hf; [by right|done]|]. apply list_elem_of_singleton in Heq as ->. done.
Qed.

Lemma filter_true {A} (f : A → bool) l : (∀ x, f x = true) → List.filter f l = l.
Proof. intros H. induction l as [|x l IH]; [done|]. cbn. by rewrite H, IH. Qed.

Lemma removes_view os st :
  cfg (fold_left (λ s m, uci_remove s "mwan3" m) os st) =
  List.filter (λ s, negb (existsb (String.eqb (sec_name s)) os)) (cfg st).
Proof.
  revert st. induction os as [|o os IH]; intros st; cbn [fold_left existsb].
  { by rewrite filter_true. }
  rewrite IH. unfold cfg at 1. rewrite remove_view. fold (cfg st).
  induction (cfg st) as [|s l IHl]; [done|]. cbn [List.filter].
  destruct (String.eqb (sec_name s) o); cbn [negb orb List.filter]; [done|].
  destruct (existsb (String.eqb (sec_name s)) os); cbn [negb]; by rewrite IHl.
Qed.

(** The written policy section. *)
Definition put_policy (spec : policy_spec) (s : section) : section :=
  sec_put "last_resort" (UStr (ps_lastResort spec)) (sec_put "use_member" (UList (ps_useMembers spec)) s).

Definition base_sections (spec : policy_spec) (st : St) : list section :=
  cfg st ++ map member_section (ps_membersToCreate spec)
  ++ (if ps_isNew spec then [mkSection (ps_policyName spec) "policy" []] else []).

Definition kept (autoDelete : bool) (spec : policy_spec) (s : section) : bool :=
  negb (autoDelete && existsb (String.eqb (sec_name s)) (ps_orphans spec)).

Record spec_ok (spec : policy_spec) (st : St) : Prop := mkSpecOk {
  so_create : Forall creatable (ps_membersToCreate spec);
  so_nodup : NoDup (map ms_name (ps_membersToCreate spec));
  so_fresh n : n ∈ map ms_name (ps_membersToCreate spec) → n ∉ names (cfg st);
  so_new : ps_isNew spec = true →
    ps_policyName spec ≠ "" ∧ ps_policyName spec ∉ names (cfg st)
    ∧ ps_policyName spec ∉ map ms_name (ps_membersToCreate spec);
  so_last : ps_lastResort spec ≠ "";
}.

Lemma names_member_section mbs : names (map member_section mbs) = map ms_name mbs.
Proof. unfold names. rewrite map_map. done. Qed.

Lemma on_section_comp n f g l :
  (∀ s, sec_name (g s) = sec_name s) →
  on_section n f (on_section n g l) = on_section n (λ s, f (g s)) l.
Proof.
  intros Hg. unfold on_section. rewrite map_map. apply map_ext. intros s.
  destruct (String.eqb (sec_name s) n) eqn:E; [rewrite Hg|]; by rewrite E.
Qed.

Lemma applySpec_view autoDelete spec st :
  spec_ok spec st →
  cfg (applySpec autoDelete spec st) =
  List.filter (kept autoDelete spec)
    (on_section (ps_policyName spec) (put_policy spec) (base_sections spec st)).
Proof.
  intros [Hc Hnd Hf Hnew Hlr].
  pose proof (create_members_view (ps_membersToCreate spec) st Hc Hnd Hf) as H1.
  unfold applySpec. cbv zeta. set (st1 := fold_left create_member _ st) in *.
  assert (cfg (if ps_isNew spec then uci_add st1 "mwan3" "policy" (ps_policyName spec) else st1)
          = base_sections spec st) as H2.
  { unfold base_sections. destruct (ps_isNew spec).
    - destruct (Hnew eq_refl) as (Hn1 & Hn2 & Hn3). unfold cfg at 1. rewrite add_view; [|done|].
      + fold (cfg st1). by rewrite H1, <- app_assoc.
      + fold (cfg st1). rewrite H1. fold (names (cfg st ++ map member_section (ps_membersToCreate spec))).
        unfold names. rewrite map_app, elem_of_app. fold (names (cfg st)).
        fold (names (map member_section (ps_membersToCreate spec))). rewrite names_member_section. naive_solver.
    - by rewrite H1, app_nil_r. }
  set (st2 := if ps_isNew spec then _ else _) in *.
  assert (∀ s v, v ≠ UStr "" → cfg (uci_set st2 "mwan3" (ps_policyName spec) s v) =
    on_section (ps_policyName spec) (sec_put s v) (base_sections spec st)) as H3.
  { intros s v Hv. unfold cfg at 1. rewrite set_view by done. by fold (cfg st2); rewrite H2. }
  assert (cfg (uci_set (uci_set st2 "mwan3" (ps_policyName spec) "use_member" (UList (ps_useMembers spec)))
            "mwan3" (ps_policyName spec) "last_resort" (UStr (ps_lastResort spec)))
     = on_section (ps_policyName spec) (put_policy spec) (base_sections spec st)) as H4.
  { unfold cfg at 1. rewrite set_view by (by apply ustr_ne). fold (cfg (uci_set st2 "mwan3" (ps_policyName spec) "use_member" (UList (ps_useMembers spec)))).
    rewrite H3 by done. by rewrite on_section_comp. }
  unfold kept. destruct autoDelete; cbn [andb negb].
  - by rewrite removes_view, H4.
  - by rewrite filter_true, H4.
Qed.

(** ** What validity gives *)

Definition pct_ok (e : entry) : Prop := ∃ p, en_pct e = Fin p ∧ 1 <= p <= 100.

Lemma pcts_of l : Forall pct_ok l → ∃ ps, map en_pct l = map Fin ps ∧ Forall (λ p, 1 <= p <= 100) ps.
Proof.
  induction 1 as [|e l (p & He & Hp) Hl (ps & Hps & Hb)]; [by exists []|].
  exists (p :: ps). cbn. rewrite He, Hps. split; [done|by constructor].
Qed.

Lemma total_of_in f l x : total_of f l = Some x → (f, x) ∈ l.
Proof.
  induction l as [|[g y] l IH]; [done|]. cbn [total_of]. destruct (family_eqb f g) eqn:E.
  - apply family_eqb_true in E as <-. intros [= ->]. left.
  - intros H. right. by apply IH.
Qed.

Lemma share_errors_tier_ok i t :
  share_errors i t = [] → Forall pct_ok t → Z.of_nat (length t) < 2 ^ 40 → tier_ok t.
Proof.
  intros He Hp Hlen f.
  assert (Forall pct_ok (fam_entries f t)) as Hpf.
  { apply Forall_forall. intros e Hin%list_elem_of_In. apply filter_In in Hin as [Hin _].
    rewrite Forall_forall in Hp. by apply Hp, list_elem_of_In. }
  destruct (pcts_of _ Hpf) as (ps & Hps & Hb).
  destruct (decide (fam_entries f t = [])) as [|Hne]; [by left|right].
  exists ps. split; [done|]. split; [done|].
  assert (length ps <= length t)%nat as Hl.
  { apply (f_equal length) in Hps. rewrite !length_map in Hps. rewrite <- Hps. apply filter_length_le. }
  destruct ps as [|p ps]; [by destruct (fam_entries f t)|].
  assert (total_of f (famTotals t) = Some (Fin (zsum (p :: ps)))) as Hsum.
  { rewrite (famTotals_sum f t (p :: ps)); [done|done|eapply Forall_impl; [exact Hb|simpl; lia]|lia]. }
  apply total_of_in in Hsum. unfold share_errors in He.
  apply list_elem_of_split in Hsum as (l1 & l2 & Heq). rewrite Heq in He.
  rewrite flat_map_app in He. apply app_nil in He as [_ He]. cbn [flat_map] in He.
  apply app_nil in He as [He _]. case_if; [|done]. by apply num_eqb_spec_Fin.
Qed.

Lemma concat_imap_nil {A B} (f : nat → A → list B) l i x :
  concat (imap f l) = [] → l !! i = Some x → f i x = [].
Proof.
  revert f i. induction l as [|y l IH]; intros f i; [done|]. cbn [imap concat].
  intros [H1 H2]%app_nil. destruct i as [|i]; cbn; [by intros [= <-]|].
  intros Hi. exact (IH _ _ H2 Hi).
Qed.

Lemma valid_tier_errors st s i t :
  isValid st s = true → st_tiers s !! i = Some t → tier_errors i t = [].
Proof.
  unfold isValid, getErrors. intros H Hi. apply Nat.eqb_eq, length_zero_iff_nil in H.
  apply app_nil in H as [_ H]. apply app_nil in H as [_ H]. apply app_nil in H as [H _].
  by eapply concat_imap_nil.
Qed.

Lemma iface_errors_nil i t e : iface_errors i t = [] → e ∈ t → en_iface e ≠ "".
Proof.
  unfold iface_errors. intros H He.
  apply list_elem_of_split in He as (l1 & l2 & ->).
  rewrite flat_map_app in H. apply app_nil in H as [_ H]. cbn [flat_map] in H.
  apply app_nil in H as [H _]. intros Hn. by rewrite Hn in H.
Qed.

(** A state the Save button accepts, whose writes keep to their own sections.
    The last two conditions are not checked by the page: the names of the
    members to create differ from each other, from the policy's and from those
    of the sections that are no members; and the name of a new policy is no
    section's of the kinds the page does not look at, while a policy that is
    edited is still there. *)
Record save_ok (st : St) (s : state) : Prop := mkSaveOk {
  eo_valid : isValid st s = true;
  eo_last : st_lastResort s ≠ "";
  eo_unique : NoDup (names (cfg st));
  eo_nodup : NoDup (map ms_name (ps_membersToCreate (getValue st s)));
  eo_free n : n ∈ map ms_name (ps_membersToCreate (getValue st s)) →
    n ≠ ps_policyName (getValue st s) ∧
    ∀ sec, sec ∈ cfg st → sec_name sec = n → sec_type sec = "member";
  eo_kind : if ps_isNew (getValue st s)
    then ∀ sec, sec ∈ cfg st → sec_name sec = ps_policyName (getValue st s) → named_type (sec_type sec) = true
    else ∃ pol, pol ∈ cfg st ∧ sec_name pol = ps_policyName (getValue st s) ∧ sec_type pol = "policy";
}.

(** And whose numbers are those the editor's controls give: whole shares
    between 1 and 100, and no more tiers and entries than a double counts. *)
Record edit_ok (st : St) (s : state) : Prop := mkEditOk {
  eo_save :> save_ok st s;
  eo_shares : Forall (Forall pct_ok) (st_tiers s);
  eo_sizes : Forall (λ t, Z.of_nat (length t) < 2 ^ 40) (st_tiers s);
  eo_count : Z.of_nat (length (st_tiers s)) < 2 ^ 40;
}.

(** What validity says of the names: a member to create is no member yet, and
    the name of a new policy is not in use. *)
Lemma valid_no_collision st s i t f e w :
  isValid st s = true → st_tiers s !! i = Some t → (e, w) ∈ tier_ews f t →
  entry_collision st (metric_of i) e w = [].
Proof.
  unfold isValid, getErrors. intros H Hi Hew. apply Nat.eqb_eq, length_zero_iff_nil in H.
  apply app_nil in H as [_ H]. apply app_nil in H as [_ H]. apply app_nil in H as [_ H].
  pose proof (concat_imap_nil (collision_errors st) _ i t H Hi) as Hc. unfold collision_errors in Hc.
  cbn [flat_map] in Hc. rewrite app_nil_r in Hc. apply app_nil in Hc as [H4 H6].
  assert (concat (zip_with (entry_collision st (metric_of i)) (fam_entries f t) (computeWeights (fam_entries f t))) = [])
    as Hf by (destruct f; assumption).
  apply concat_nil_Forall in Hf. rewrite List.Forall_forall in Hf. apply Hf. apply list_elem_of_In.
  apply elem_of_lookup_zip_with in Hew as (j & e' & w' & [= <- <-] & He & Hw).
  apply elem_of_lookup_zip_with. eauto 6.
Qed.

Lemma valid_name_free st s :
  isValid st s = true → is_new (st_mode s) = true → sectionNameInUse st (st_newPolicyName s) None = false.
Proof.
  unfold isValid, getErrors, name_errors. intros H Hn. rewrite Hn in H.
  apply Nat.eqb_eq, length_zero_iff_nil in H. apply app_nil in H as [H _].
  destruct (negb _); [done|]. destruct (negb _); [done|]. destruct (15 <? _); [done|].
  by destruct (sectionNameInUse _ _ _).
Qed.

Lemma edit_tier_ok st s : edit_ok st s → Forall tier_ok (st_tiers s).
Proof.
  intros H. apply Forall_lookup_2. intros i t Hi.
  pose proof (valid_tier_errors st s i t (eo_valid _ _ H) Hi) as He. apply app_nil in He as [_ He].
  eapply share_errors_tier_ok; [exact He|eapply Forall_lookup_1; [apply (eo_shares _ _ H)|done]|].
  eapply (Forall_lookup_1 (λ t, Z.of_nat (length t) < 2 ^ 40)); [apply (eo_sizes _ _ H)|done].
Qed.

(** Every resolved member comes from one entry and its weight. *)
Lemma resolved_inv st ts p :
  p ∈ resolve_tiers st ts →
  ∃ i t f e w, ts !! i = Some t ∧ (e, w) ∈ tier_ews f t ∧ p = resolve_entry st (metric_of i) e w.
Proof.
  rewrite resolve_tiers_from.
  assert (∀ k, p ∈ resolve_from st k ts →
    ∃ i t f e w, ts !! i = Some t ∧ (e, w) ∈ tier_ews f t ∧ p = resolve_entry st (metric_of (k + i)) e w) as H.
  { induction ts as [|t ts IH]; intros k; cbn [resolve_from]; [intros []%not_elem_of_nil|].
    rewrite elem_of_app. intros [Hp|Hp].
    - exists 0%nat, t. unfold resolve_tier in Hp. rewrite Nat.add_0_r.
      apply elem_of_app in Hp as [Hp|Hp]; unfold resolve_family in Hp;
        apply elem_of_lookup_zip_with in Hp as (j & e & w & -> & He & Hw);
        [exists ipv4|exists ipv6]; exists e, w; (split_and!; [done| |done]);
        apply elem_of_lookup_zip_with; eauto 6.
    - destruct (IH _ Hp) as (i & t' & f & e & w & ? & ? & ->). exists (S i), t', f, e, w.
      split_and!; [done|done|]. f_equal. unfold metric_of. f_equal. lia. }
  intros Hp. by apply (H 0%nat).
Qed.

Lemma tier_ews_facts t f e w :
  tier_ok t → (e, w) ∈ tier_ews f t →
  e ∈ t ∧ en_family e = f ∧ ∃ z, w = Fin z ∧ 1 <= z <= 100.
Proof.
  intros Ht Hin. unfold tier_ews in Hin.
  apply elem_of_lookup_zip_with in Hin as (j & e' & w' & [= <- <-] & He & Hw).
  apply list_elem_of_lookup_2 in He, Hw.
  pose proof (fam_entries_family f t) as Hfam. rewrite Forall_forall in Hfam.
  assert (e ∈ t) as Het.
  { apply list_elem_of_In in He. apply filter_In in He as [He _]. by apply list_elem_of_In. }
  split_and!; [done|by apply Hfam|].
  destruct (Ht f) as [Hn|(ps & Hps & Hg)].
  { rewrite Hn in He. by apply not_elem_of_nil in He. }
  rewrite (computeWeights_good _ ps) in Hw by (done || apply Hg).
  assert (ps ≠ []) as Hne by (intros ->; by destruct (fam_entries f t); [apply not_elem_of_nil in He|]).
  apply list_elem_of_fmap in Hw as (z & -> & Hz). exists z. split; [done|].
  destruct (reduced_spec ps Hne Hg) as (g & Hg1 & Hmul & _).
  assert (z * g ∈ ps) as Hin by (rewrite <- Hmul; apply list_elem_of_fmap; eauto).
  destruct Hg as [Hb _]. rewrite Forall_forall in Hb. specialize (Hb _ Hin). nia.
Qed.

(** ** The specification of an accepted state *)

Lemma useMembers_eq st s :
  ps_useMembers (getValue st s) = map fst (resolve_tiers st (st_tiers s)).
Proof. reflexivity. Qed.

Lemma creates_eq st s :
  ps_membersToCreate (getValue st s) = concat (map snd (resolve_tiers st (st_tiers s))).
Proof. reflexivity. Qed.

Lemma resolve_entry_existing st metric e w sec :
  findExistingMember st (en_iface e) metric w = Some sec →
  sec ∈ cfg st ∧ sec_type sec = "member" ∧ member_matches (en_iface e) metric w sec = true.
Proof.
  unfold findExistingMember. intros [Hin Hm]%find_some. rewrite sections_view in Hin.
  apply list_elem_of_In, elem_of_sections_of_type in Hin as [Hin Hty]. done.
Qed.

Lemma useMember_resolved st s m :
  m ∈ ps_useMembers (getValue st s) →
  (∃ sec, sec ∈ cfg st ∧ sec_type sec = "member" ∧ sec_name sec = m)
  ∨ m ∈ map ms_name (ps_membersToCreate (getValue st s)).
Proof.
  rewrite useMembers_eq, creates_eq. intros (p & -> & Hp)%list_elem_of_fmap.
  destruct (resolved_inv st _ p Hp) as (i & t & f & e & w & _ & _ & Heq).
  unfold resolve_entry in Heq.
  destruct (findExistingMember st (en_iface e) (metric_of i) w) as [sec|] eqn:E.
  - left. apply resolve_entry_existing in E as (? & ? & _). subst p. by exists sec.
  - right. subst p. cbn [fst]. apply list_elem_of_fmap.
    exists (mkMember (member_name (en_iface e) (metric_of i) w) (en_iface e) (metric_of i) w).
    split; [done|]. apply list_elem_of_In, in_concat.
    exists [mkMember (member_name (en_iface e) (metric_of i) w) (en_iface e) (metric_of i) w].
    split; [|by left]. apply in_map_iff. eexists (_, _). split; [|by apply list_elem_of_In, Hp]. done.
Qed.

(** A member to create comes from an entry no member matches. *)
Lemma created_from st s mb :
  mb ∈ ps_membersToCreate (getValue st s) →
  ∃ i t f e w, st_tiers s !! i = Some t ∧ (e, w) ∈ tier_ews f t ∧
    findExistingMember st (en_iface e) (metric_of i) w = None ∧
    mb = mkMember (member_name (en_iface e) (metric_of i) w) (en_iface e) (metric_of i) w.
Proof.
  rewrite creates_eq, list_elem_of_In, in_concat. intros (l & Hl & Hmb).
  apply in_map_iff in Hl as (p & <- & Hp%list_elem_of_In).
  destruct (resolved_inv st _ p Hp) as (i & t & f & e & w & Hi & Hew & ->).
  unfold resolve_entry in Hmb. destruct (findExistingMember _ _ _ _) eqn:E; [done|].
  destruct Hmb as [<-|[]]. by exists i, t, f, e, w.
Qed.

Lemma tier_ews_entry t f e w : (e, w) ∈ tier_ews f t → e ∈ t.
Proof.
  intros Hin. apply elem_of_lookup_zip_with in Hin as (j & e' & w' & [= <- <-] & He & _).
  apply list_elem_of_lookup_2, list_elem_of_In, filter_In in He as [He _]. by apply list_elem_of_In.
Qed.

Lemma valid_iface st s i t e : isValid st s = true → st_tiers s !! i = Some t → e ∈ t → en_iface e ≠ "".
Proof.
  intros Hv Hi He. pose proof (valid_tier_errors st s i t Hv Hi) as H. apply app_nil in H as [H _].
  exact (iface_errors_nil i t e H He).
Qed.

Lemma eo_fresh st s n :
  save_ok st s → n ∈ map ms_name (ps_membersToCreate (getValue st s)) →
  n ∉ ps_policyName (getValue st s) :: names (cfg st).
Proof.
  intros Hok Hn. destruct (eo_free _ _ Hok n Hn) as [Hp Hs]. apply not_elem_of_cons. split; [done|].
  intros (sec & Hname & Hsec)%list_elem_of_fmap.
  apply list_elem_of_fmap in Hn as (mb & -> & Hmb).
  destruct (created_from st s mb Hmb) as (i & t & f & e & w & Hi & Hew & Hnone & ->). cbn [ms_name] in *.
  pose proof (valid_no_collision st s i t f e w (eo_valid _ _ Hok) Hi Hew) as Hc. unfold entry_collision in Hc.
  pose proof (valid_iface st s i t e (eo_valid _ _ Hok) Hi (tier_ews_entry _ _ _ _ Hew)) as Hif.
  unfold str_truthy in Hc. rewrite (proj2 (String.eqb_neq _ _) Hif), Hnone in Hc. cbn [negb] in Hc.
  assert (name_taken st (member_name (en_iface e) (metric_of i) w) = true) as Ht; [|by rewrite Ht in Hc].
  unfold name_taken. rewrite sections_view. apply existsb_exists. exists sec. split; [|by rewrite <- Hname, String.eqb_refl].
  apply list_elem_of_In, elem_of_sections_of_type. split; [done|]. by apply Hs.
Qed.

Lemma eo_target st s :
  save_ok st s →
  if ps_isNew (getValue st s)
  then ps_policyName (getValue st s) ∉ names (cfg st)
  else ∃ pol, pol ∈ cfg st ∧ sec_name pol = ps_policyName (getValue st s) ∧ sec_type pol = "policy".
Proof.
  intros Hok. pose proof (eo_kind _ _ Hok) as Hk. destruct (ps_isNew (getValue st s)) eqn:En; [|done].
  assert (is_new (st_mode s) = true) as Hn by exact En.
  intros (sec & Hname & Hsec)%list_elem_of_fmap. specialize (Hk sec Hsec (eq_sym Hname)).
  pose proof (valid_name_free st s (eo_valid _ _ Hok) Hn) as Hf. apply not_true_iff_false in Hf. apply Hf.
  apply (sectionNameInUse_spec _ _). split; [done|]. exists sec. split_and!; [done| |done].
  rewrite <- Hname. unfold getValue. cbn. by rewrite Hn.
Qed.

Lemma num_text_ne x : num_to_string x ≠ "".
Proof.
  destruct x as [| [] |z]; [done..|]. cbn. intros H. pose proof (dec_truthy z) as Ht. by rewrite H in Ht.
Qed.

Lemma create_inv st s mb :
  edit_ok st s → mb ∈ ps_membersToCreate (getValue st s) →
  ∃ i z e, (Z.of_nat i < 2 ^ 40) ∧ 1 <= z <= 100 ∧ en_iface e ≠ "" ∧
    mb = mkMember (member_name (en_iface e) (metric_of i) (Fin z)) (en_iface e) (metric_of i) (Fin z).
Proof.
  intros Hok Hmb. destruct (created_from st s mb Hmb) as (i & t & f & e & w & Hi & Hew & _ & ->).
  pose proof (Forall_lookup_1 _ _ _ _ (edit_tier_ok st s Hok) Hi) as Ht.
  destruct (tier_ews_facts t f e w Ht Hew) as (Het & _ & z & -> & Hz).
  exists i, z, e. split_and!; [|lia|lia|by eapply valid_iface; [apply Hok|..]|done].
  pose proof (eo_count _ _ Hok). apply lookup_lt_Some in Hi. lia.
Qed.

Lemma dec_ne z : 0 <= z → dec z ≠ "".
Proof. intros Hz. unfold dec. rewrite (proj2 (Z.ltb_ge z 0)) by done. apply dec_nonneg_nonempty. Qed.

Lemma edit_creatable st s : isValid st s = true → Forall creatable (ps_membersToCreate (getValue st s)).
Proof.
  intros Hv. apply Forall_forall. intros mb Hmb.
  destruct (created_from st s mb Hmb) as (i & t & f & e & w & Hi & Hew & _ & ->).
  pose proof (valid_iface st s i t e Hv Hi (tier_ews_entry _ _ _ _ Hew)) as Hif.
  unfold creatable. cbn [ms_name ms_iface ms_metric ms_weight].
  split_and!; [|done|apply num_text_ne|apply num_text_ne]. unfold member_name. by destruct (en_iface e).
Qed.

Lemma valid_new_name st s :
  isValid st s = true → is_new (st_mode s) = true → st_newPolicyName s ≠ "".
Proof.
  unfold isValid, getErrors, name_errors. intros H Hn. rewrite Hn in H.
  apply Nat.eqb_eq, length_zero_iff_nil in H. apply app_nil in H as [H _].
  intros He. by rewrite He in H.
Qed.

Lemma edit_spec_ok st s : save_ok st s → spec_ok (getValue st s) st.
Proof.
  intros Hok. constructor.
  - apply edit_creatable, Hok.
  - apply (eo_nodup _ _ Hok).
  - intros n Hn. pose proof (eo_fresh st s n Hok Hn) as H. rewrite elem_of_cons in H. naive_solver.
  - intros Hnew. pose proof (eo_target _ _ Hok) as Ht. rewrite Hnew in Ht. split_and!; [|done|].
    + unfold getValue in *. cbn in *. rewrite Hnew. apply (valid_new_name st); [apply Hok|done].
    + intros Hin. apply (eo_fresh st s _ Hok) in Hin. apply Hin. left.
  - apply (eo_last _ _ Hok).
Qed.

Lemma obj_has_of_keys k ks : k ∈ ks → obj_has k (obj_of_keys ks) = true.
Proof.
  intros Hk. unfold obj_has, obj_get. rewrite obj_of_keys_own, bool_decide_true by done. cbn.
  destruct (String.eqb k "__proto__") eqn:E; [|done]. apply String.eqb_eq in E as ->. reflexivity.
Qed.

Lemma orphan_inv st s m :
  m ∈ ps_orphans (getValue st s) →
  ps_isNew (getValue st s) = false
  ∧ m ∉ ps_useMembers (getValue st s)
  ∧ used_elsewhere st (ps_policyName (getValue st s)) m = false
  ∧ m ∈ opt_list (uci_get st "mwan3" (ps_policyName (getValue st s)) "use_member").
Proof.
  rewrite useMembers_eq. cbn [getValue ps_orphans ps_isNew ps_policyName]. unfold getValue. cbn.
  rewrite list_elem_of_In, filter_In. intros [Hin [Hh Hu]%andb_true_iff].
  apply negb_true_iff in Hh, Hu. destruct (is_new (st_mode s)); [done|].
  split_and!; [done| |done|by apply list_elem_of_In].
  intros Hm. by rewrite obj_has_of_keys in Hh.
Qed.

(** ** References *)

(** Every member a policy names is a member section. *)
Definition refs_resolved (l : list section) : Prop :=
  ∀ pol m, pol ∈ l → sec_type pol = "policy" → m ∈ opt_list (sec_opt "use_member" pol) →
    ∃ sec, sec ∈ l ∧ sec_type sec = "member" ∧ sec_name sec = m.

Definition written (spec : policy_spec) (s : section) : section :=
  if String.eqb (sec_name s) (ps_policyName spec) then put_policy spec s else s.

Lemma written_name spec s : sec_name (written spec s) = sec_name s.
Proof. unfold written. by case_if. Qed.

Lemma written_type spec s : sec_type (written spec s) = sec_type s.
Proof. unfold written. by case_if. Qed.

Lemma applied_elem ad spec st x :
  spec_ok spec st →
  x ∈ cfg (applySpec ad spec st) ↔
  ∃ s, s ∈ base_sections spec st ∧ x = written spec s ∧ kept ad spec s = true.
Proof.
  intros H. rewrite applySpec_view by done. rewrite list_elem_of_In, filter_In, <- list_elem_of_In.
  change (on_section (ps_policyName spec) (put_policy spec) (base_sections spec st))
    with (map (written spec) (base_sections spec st)).
  rewrite list_elem_of_fmap. split.
  - intros [(s & -> & Hs) Hk]. exists s. split_and!; [done|done|].
    unfold kept in *. by rewrite written_name in Hk.
  - intros (s & Hs & -> & Hk). split; [by exists s|]. unfold kept in *. by rewrite written_name.
Qed.

(** Orphans name member sections, when references were resolved before. *)
Lemma orphan_member st s m sec :
  save_ok st s → refs_resolved (cfg st) → m ∈ ps_orphans (getValue st s) →
  sec ∈ cfg st → sec_name sec = m → sec_type sec = "member".
Proof.
  intros Hok Hr Hm Hsec Hn. apply orphan_inv in Hm as (Hnew & _ & _ & Hold).
  pose proof (eo_target _ _ Hok) as Ht. rewrite Hnew in Ht. destruct Ht as (pol & Hpol & Hpn & Hpt).
  rewrite get_view in Hold. fold (cfg st) in Hold. rewrite <- Hpn in Hold.
  rewrite find_unique in Hold by (done || apply Hok).
  destruct (Hr pol m Hpol Hpt Hold) as (sec' & Hs' & Ht' & Hn').
  rewrite (names_unique (cfg st) sec sec'); [done|apply Hok|done|done|congruence].
Qed.

Lemma kept_used ad st s sec :
  sec_name sec ∈ ps_useMembers (getValue st s) → kept ad (getValue st s) sec = true.
Proof.
  intros H. unfold kept. apply negb_true_iff, andb_false_iff. right.
  apply existsb_false. intros m Hm. apply String.eqb_neq. intros <-.
  apply orphan_inv in Hm as (_ & Hn & _). done.
Qed.

Lemma base_old spec st s : s ∈ cfg st → s ∈ base_sections spec st.
Proof. intros H. unfold base_sections. rewrite elem_of_app. by left. Qed.

Lemma base_created spec st mb :
  mb ∈ ps_membersToCreate spec → member_section mb ∈ base_sections spec st.
Proof.
  intros H. unfold base_sections. rewrite !elem_of_app. right. left. apply list_elem_of_fmap. eauto.
Qed.

(** A member a policy uses survives the writes. *)
Lemma used_member_present ad st s m :
  save_ok st s → m ∈ ps_useMembers (getValue st s) →
  ∃ sec, sec ∈ cfg (applySpec ad (getValue st s) st) ∧ sec_type sec = "member" ∧ sec_name sec = m.
Proof.
  intros Hok Hm. pose proof (edit_spec_ok st s Hok) as Hspec.
  destruct (useMember_resolved st s m Hm) as [(sec & Hs & Hty & <-)|(mb & -> & Hmb)%list_elem_of_fmap].
  - exists (written (getValue st s) sec). rewrite written_type, written_name. split_and!; try done.
    apply applied_elem; [done|]. exists sec. split_and!; [by apply base_old|done|by apply kept_used].
  - exists (written (getValue st s) (member_section mb)). rewrite written_type, written_name.
    split_and!; try done. apply applied_elem; [done|]. exists (member_section mb).
    split_and!; [by apply base_created|done|by apply kept_used].
Qed.

Lemma put_policy_members spec s :
  opt_list (sec_opt "use_member" (put_policy spec s)) = ps_useMembers spec.
Proof.
  unfold put_policy, sec_opt, sec_put. cbn [sec_opts]. rewrite !opt_lookup_put. done.
Qed.

(** Saving a policy leaves no policy with an undefined member. *)
Lemma applied_refs ad st s :
  save_ok st s → refs_resolved (cfg st) →
  refs_resolved (cfg (applySpec ad (getValue st s) st)).
Proof.
  intros Hok Hr pol m Hpol Hty Hm. pose proof (edit_spec_ok st s Hok) as Hspec.
  set (spec := getValue st s) in *.
  apply applied_elem in Hpol as (pol0 & Hpol0 & -> & _); [|done].
  rewrite written_type in Hty. unfold written in Hm.
  destruct (String.eqb (sec_name pol0) (ps_policyName spec)) eqn:En.
  { rewrite put_policy_members in Hm. by apply used_member_present. }
  unfold base_sections in Hpol0. rewrite !elem_of_app in Hpol0.
  destruct Hpol0 as [Hpol0|[(mb & -> & _)%list_elem_of_fmap|Hnew]]; [|done|].
  2: { destruct (ps_isNew spec); [|by apply not_elem_of_nil in Hnew].
       apply list_elem_of_singleton in Hnew as ->. cbn in En. by rewrite String.eqb_refl in En. }
  destruct (Hr pol0 m Hpol0 Hty Hm) as (sec & Hs & Hst & <-).
  exists (written spec sec). rewrite written_type, written_name. split_and!; try done.
  apply applied_elem; [done|]. exists sec. split_and!; [by apply base_old|done|].
  unfold kept. apply negb_true_iff, andb_false_iff. right. apply existsb_false.
  intros o Ho. apply String.eqb_neq. intros <-.
  apply orphan_inv in Ho as (_ & _ & Hu & _). unfold used_elsewhere in Hu.
  rewrite existsb_false in Hu. specialize (Hu pol0). fold spec in Hu.
  rewrite En in Hu. rewrite existsb_false in Hu. rewrite sections_view in Hu.
  specialize (Hu ltac:(by apply elem_of_sections_of_type) _ Hm). by rewrite String.eqb_refl in Hu.
Qed.

(** Saving a policy leaves no policy with an undefined member: when every
    member the policies name was a member section before, every member they
    name afterwards is one, the deletion of orphans included. *)
Theorem apply_refs_resolved ad st s :
  save_ok st s → refs_resolved (cfg st) →
  refs_resolved (cfg (applySpec ad (getValue st s) st)).
Proof. apply applied_refs. Qed.

(** ** Reopening a saved policy *)

Lemma member_name_no_proto i m w : member_name i m w ≠ "__proto__".
Proof.
  intros H. apply (f_equal (char_free "m")) in H. unfold member_name in H.
  change ("_m" +:+ num_to_string m +:+ "_w" +:+ num_to_string w)
    with (String "_" (String "m" (num_to_string m +:+ "_w" +:+ num_to_string w))) in H.
  rewrite char_free_app, !char_free_cons in H. cbn in H. by rewrite andb_false_r in H.
Qed.

(** The extra facts a round trip needs: every entry's interface has the
    entry's family, and no section bears the one name that is no key. *)
Record reopen_ok (st : St) (s : state) : Prop := mkReopenOk {
  ro_edit : edit_ok st s;
  ro_refs : refs_resolved (cfg st);
  ro_family : ∀ t e, t ∈ st_tiers s → e ∈ t →
    family_of_iface (ifaceFamily st) (en_iface e) = family_text (en_family e);
  ro_proto : "__proto__" ∉ ps_policyName (getValue st s) :: names (cfg st);
}.

(** Only the policy's own section is rewritten. *)
Lemma written_other st s sec :
  save_ok st s → sec ∈ cfg st → sec_type sec ≠ "policy" → written (getValue st s) sec = sec.
Proof.
  intros Hok Hs Hty. unfold written. destruct (String.eqb _ _) eqn:E; [|done].
  apply String.eqb_eq in E. pose proof (eo_target _ _ Hok) as Ht.
  destruct (ps_isNew (getValue st s)).
  - destruct Ht. rewrite <- E. apply list_elem_of_fmap. eauto.
  - destruct Ht as (pol & Hpol & Hn & Hpt). destruct Hty.
    by rewrite (names_unique (cfg st) sec pol ltac:(apply Hok) Hs Hpol ltac:(congruence)).
Qed.

Lemma written_created st s mb :
  save_ok st s → mb ∈ ps_membersToCreate (getValue st s) →
  written (getValue st s) (member_section mb) = member_section mb.
Proof.
  intros Hok Hmb. unfold written. destruct (String.eqb _ _) eqn:E; [|done].
  apply String.eqb_eq in E. cbn [sec_name member_section] in E.
  assert (ms_name mb ∈ map ms_name (ps_membersToCreate (getValue st s))) as Hin
    by (apply list_elem_of_fmap; eauto).
  apply (eo_fresh st s _ Hok) in Hin. rewrite E in Hin. destruct Hin. left.
Qed.

Lemma base_names_NoDup st s : save_ok st s → NoDup (names (base_sections (getValue st s) st)).
Proof.
  intros Hok. pose proof (edit_spec_ok st s Hok) as [_ Hnd Hf Hnew _].
  unfold base_sections, names. rewrite !map_app. fold (names (cfg st)).
  fold (names (map member_section (ps_membersToCreate (getValue st s)))).
  rewrite names_member_section. apply NoDup_app. split_and!; [apply Hok| |apply NoDup_app; split_and!].
  - intros n Hn. rewrite elem_of_app. intros [Hc|Hp]; [by eapply Hf|].
    destruct (ps_isNew (getValue st s)); [|by apply not_elem_of_nil in Hp].
    apply list_elem_of_singleton in Hp as ->. by destruct (Hnew eq_refl) as (_ & ? & _).
  - done.
  - intros n Hn Hp. destruct (ps_isNew (getValue st s)); [|by apply not_elem_of_nil in Hp].
    apply list_elem_of_singleton in Hp as ->. by destruct (Hnew eq_refl) as (_ & _ & ?).
  - destruct (ps_isNew _); cbn; [apply NoDup_singleton|constructor].
Qed.

Lemma applied_as_map ad st s :
  save_ok st s →
  cfg (applySpec ad (getValue st s) st) =
  List.filter (kept ad (getValue st s)) (map (written (getValue st s)) (base_sections (getValue st s) st)).
Proof. intros Hok. by rewrite applySpec_view by (by apply edit_spec_ok). Qed.

Lemma applied_names_NoDup ad st s : save_ok st s → NoDup (names (cfg (applySpec ad (getValue st s) st))).
Proof.
  intros Hok. rewrite applied_as_map by done. apply filter_names_NoDup. unfold names.
  rewrite map_map. erewrite map_ext by apply written_name. by apply base_names_NoDup.
Qed.

(** The interface sections, and so their families, are left alone. *)
Lemma applied_interfaces ad st s :
  save_ok st s → refs_resolved (cfg st) →
  sections_of_type "interface" (cfg (applySpec ad (getValue st s) st)) =
  sections_of_type "interface" (cfg st).
Proof.
  intros Hok Hr. rewrite applied_as_map by done. rewrite sections_filter_map.
  - unfold base_sections, sections_of_type. rewrite !List.filter_app.
    assert (List.filter (λ s, String.eqb (sec_type s) "interface")
      (map member_section (ps_membersToCreate (getValue st s))) = []) as ->.
    { by induction (ps_membersToCreate _). }
    by destruct (ps_isNew _); cbn; rewrite app_nil_r.
  - intros ?. by rewrite written_type.
  - intros sec Hs Hty. unfold base_sections in Hs. rewrite !elem_of_app in Hs.
    destruct Hs as [Hs|[(mb & -> & _)%list_elem_of_fmap|Hs]]; [|done|].
    2: { destruct (ps_isNew _); [|by apply not_elem_of_nil in Hs].
         by apply list_elem_of_singleton in Hs as ->. }
    split; [apply written_other; [done|done|by rewrite Hty]|].
    unfold kept. apply negb_true_iff, andb_false_iff. right. apply existsb_false.
    intros o Ho. apply String.eqb_neq. intros <-.
    pose proof (orphan_member st s _ sec Hok Hr Ho Hs eq_refl) as Hm. by rewrite Hty in Hm.
Qed.

Lemma applied_proto ad st s n :
  reopen_ok st s → n ∈ names (cfg (applySpec ad (getValue st s) st)) → n ≠ "__proto__".
Proof.
  intros [Hok Hr _ Hp] (x & -> & Hx)%list_elem_of_fmap.
  apply not_elem_of_cons in Hp as [Hp1 Hp2].
  apply applied_elem in Hx as (sec & Hs & -> & _); [|apply edit_spec_ok, Hok].
  rewrite written_name. unfold base_sections in Hs. rewrite !elem_of_app in Hs.
  destruct Hs as [Hs|[(mb & -> & Hmb)%list_elem_of_fmap|Hs]].
  - intros Heq. apply Hp2. rewrite <- Heq. apply list_elem_of_fmap. eauto.
  - destruct (create_inv st s mb Hok Hmb) as (i & z & e & _ & _ & _ & ->). apply member_name_no_proto.
  - destruct (ps_isNew _); [|by apply not_elem_of_nil in Hs].
    apply list_elem_of_singleton in Hs as ->. intros Heq. by destruct Hp1.
Qed.

(** What the reloaded page knows about a member section that is there. *)
Lemma applied_info ad st s sec :
  reopen_ok st s →
  sec ∈ cfg (applySpec ad (getValue st s) st) → sec_type sec = "member" →
  obj_get (sec_name sec) (memberInfo (applySpec ad (getValue st s) st)) =
  Own (member_entry (ifaceFamily st) sec).
Proof.
  intros Hro Hs Hty. pose proof (ro_edit _ _ Hro) as Hok. set (st' := applySpec ad _ st) in *.
  assert (ifaceFamily st' = ifaceFamily st) as Hif.
  { unfold ifaceFamily. rewrite !sections_view. fold (cfg st') (cfg st). unfold st'.
    rewrite applied_interfaces by (done || apply Hro). done. }
  unfold obj_get, memberInfo. rewrite Hif, sections_view. fold (cfg st').
  assert (NoDup (names (sections_of_type "member" (cfg st')))) as Hnd
    by (apply filter_names_NoDup, applied_names_NoDup, Hok).
  rewrite (fold_set_own (member_entry (ifaceFamily st))); [|done|].
  - rewrite find_unique; [done|done|]. by apply elem_of_sections_of_type.
  - intros Hin%sections_of_type_names. by apply (applied_proto ad st s "__proto__") in Hin.
Qed.

Lemma applied_old ad st s sec :
  save_ok st s → sec ∈ cfg st → sec_type sec = "member" →
  sec_name sec ∈ ps_useMembers (getValue st s) → sec ∈ cfg (applySpec ad (getValue st s) st).
Proof.
  intros Hok Hs Hty Hu. apply applied_elem; [apply edit_spec_ok, Hok|]. exists sec.
  split_and!; [by apply base_old| |by apply kept_used].
  symmetry. apply written_other; [done|done|by rewrite Hty].
Qed.

Lemma applied_created ad st s mb :
  save_ok st s → mb ∈ ps_membersToCreate (getValue st s) →
  ms_name mb ∈ ps_useMembers (getValue st s) →
  member_section mb ∈ cfg (applySpec ad (getValue st s) st).
Proof.
  intros Hok Hmb Hu. apply applied_elem; [apply edit_spec_ok, Hok|]. exists (member_section mb).
  split_and!; [by apply base_created| |by apply kept_used]. symmetry. by apply written_created.
Qed.

Lemma parse_or1_dec z : 0 <= z → safe z → parse_or1 (Some (UStr (dec z))) = Fin z.
Proof.
  intros Hz Hs. unfold parse_or1, opt_text.
  assert (str_truthy (dec z) = true) as ->.
  { unfold str_truthy. apply negb_true_iff, String.eqb_neq. by apply dec_ne. }
  by apply parseInt_dec.
Qed.

Lemma num_eqb_Fin_r x z : num_eqb x (Fin z) = true → x = Fin z.
Proof. destruct x; cbn; try done. by intros ->%Z.eqb_eq. Qed.

(** One resolved entry, as the reloaded page sees it. *)
Lemma resolved_info ad st s i t f e w :
  reopen_ok st s → st_tiers s !! i = Some t → (e, w) ∈ tier_ews f t →
  obj_get (fst (resolve_entry st (metric_of i) e w)) (memberInfo (applySpec ad (getValue st s) st)) =
  Own (mkInfo (en_iface e) (metric_of i) w (family_text f)).
Proof.
  intros Hro Hi Hew. pose proof (ro_edit _ _ Hro) as Hok.
  pose proof (Forall_lookup_1 _ _ _ _ (edit_tier_ok st s Hok) Hi) as Ht.
  destruct (tier_ews_facts t f e w Ht Hew) as (Het & Hf & z & -> & Hz).
  pose proof (ro_family _ _ Hro t e (list_elem_of_lookup_2 _ _ _ Hi) Het) as Hfam. rewrite Hf in Hfam.
  pose proof (valid_tier_errors st s i t (eo_valid _ _ Hok) Hi) as He. apply app_nil in He as [He _].
  pose proof (iface_errors_nil i t e He Het) as Hif.
  assert (resolve_entry st (metric_of i) e (Fin z) ∈ resolve_tiers st (st_tiers s)) as Hres.
  { rewrite resolve_tiers_from. clear -Hi Hew.
    assert (∀ k ts, ts !! i = Some t →
      resolve_entry st (metric_of (k + i)) e (Fin z) ∈ resolve_from st k ts) as H.
    { revert Hew. clear. intros Hew. induction i as [|i IH]; intros k [|t' ts] H; try done; cbn in H.
      - injection H as ->. cbn [resolve_from]. apply elem_of_app. left. rewrite Nat.add_0_r.
        unfold resolve_tier. apply elem_of_app.
        apply elem_of_lookup_zip_with in Hew as (j & e' & w' & [= <- <-] & H1 & H2).
        destruct f; [left|right]; apply elem_of_lookup_zip_with; eauto 6.
      - cbn [resolve_from]. apply elem_of_app. right. rewrite Nat.add_succ_r. apply (IH (S k)). done. }
    by apply (H 0%nat). }
  assert (fst (resolve_entry st (metric_of i) e (Fin z)) ∈ ps_useMembers (getValue st s)) as Huse.
  { rewrite useMembers_eq. apply list_elem_of_fmap. eauto. }
  unfold resolve_entry in *.
  destruct (findExistingMember st (en_iface e) (metric_of i) (Fin z)) as [sec|] eqn:E; cbn [fst] in *.
  - apply resolve_entry_existing in E as (Hs & Hty & Hm).
    rewrite (applied_info ad st s sec Hro) by (try (apply applied_old; try apply Hok); done).
    unfold member_matches in Hm. apply andb_true_iff in Hm as [[Hm1 Hm2]%andb_true_iff Hm3].
    apply num_eqb_Fin_r in Hm2, Hm3. unfold member_entry. rewrite Hm2, Hm3.
    destruct (sec_opt "interface" sec) as [[si|]|] eqn:Eo; [|done|].
    + apply String.eqb_eq in Hm1 as ->. unfold sec_text. rewrite Eo. cbn [opt_text].
      unfold str_truthy. rewrite (proj2 (String.eqb_neq _ _) Hif). cbn [negb default]. unfold id. by rewrite Hfam.
    + apply String.eqb_eq in Hm1. done.
  - set (mb := mkMember (member_name (en_iface e) (metric_of i) (Fin z)) (en_iface e) (metric_of i) (Fin z)) in *.
    assert (mb ∈ ps_membersToCreate (getValue st s)) as Hmb.
    { rewrite creates_eq. apply list_elem_of_In, in_concat. exists [mb]. split; [|by left].
      apply in_map_iff. exists (ms_name mb, [mb]). split; [done|by apply list_elem_of_In]. }
    change (member_name (en_iface e) (metric_of i) (Fin z)) with (sec_name (member_section mb)).
    rewrite (applied_info ad st s (member_section mb) Hro) by (try (apply applied_created; try apply Hok); done).
    unfold member_entry, sec_text, sec_opt. cbn [member_section sec_opts opt_lookup String.eqb Ascii.eqb Bool.eqb].
    cbn [opt_text ms_iface ms_metric ms_weight mb metric_of num_to_string].
    unfold str_truthy. rewrite (proj2 (String.eqb_neq _ _) Hif). cbn [negb default].
    pose proof (eo_count _ _ Hok). apply lookup_lt_Some in Hi.
    rewrite !parse_or1_dec by (unfold safe; lia). unfold id. by rewrite Hfam.
Qed.

(** The tiers of a saved policy, read back. *)
Lemma applied_reopens ad st s :
  reopen_ok st s →
  let spec := getValue st s in
  let st' := applySpec ad spec st in
  stateFromPolicy (memberInfo st') st' (ps_policyName spec) =
  Ok (mkState ModeExisting (ps_policyName spec) "" (st_lastResort s) (norm_tiers (st_tiers s))).
Proof.
  intros Hro spec st'. pose proof (ro_edit _ _ Hro) as Hok.
  assert (∃ sec, sec ∈ base_sections spec st ∧ sec_name sec = ps_policyName spec ∧ kept ad spec sec = true)
    as (sec & Hsec & Hn & Hk).
  { pose proof (eo_target _ _ Hok) as Ht. fold spec in Ht. destruct (ps_isNew spec) eqn:En.
    - exists (mkSection (ps_policyName spec) "policy" []). split_and!; [|done|].
      + unfold base_sections. rewrite En, !elem_of_app. right. right. left.
      + unfold kept. apply negb_true_iff, andb_false_iff. right. apply existsb_false.
        intros o Ho. apply orphan_inv in Ho as (Hnew & _). fold spec in Hnew. congruence.
    - destruct Ht as (pol & Hpol & Hn & Hty). exists pol. split_and!; [by apply base_old|done|].
      unfold kept. apply negb_true_iff, andb_false_iff. right. apply existsb_false.
      intros o Ho. apply String.eqb_neq. intros <-.
      pose proof (orphan_member st s _ pol Hok (ro_refs _ _ Hro) Ho Hpol eq_refl). by rewrite Hty in H. }
  assert (find_section (ps_policyName spec) (cfg st') = Some (put_policy spec sec)) as Hfind.
  { rewrite <- Hn. change (sec_name sec) with (sec_name (put_policy spec sec)).
    apply find_unique; [apply applied_names_NoDup, Hok|].
    apply applied_elem; [apply edit_spec_ok, Hok|]. exists sec. split_and!; [done| |done].
    unfold written. by rewrite Hn, String.eqb_refl. }
  unfold stateFromPolicy. rewrite !get_view. fold (cfg st'). rewrite Hfind, put_policy_members.
  unfold spec at 1. rewrite useMembers_eq, policy_tiers_resolved.
  - cbn [rbind]. f_equal. f_equal. unfold put_policy, sec_opt, sec_put. cbn [sec_opts].
    rewrite opt_lookup_put. cbn. unfold str_truthy.
    rewrite (proj2 (String.eqb_neq _ _)); [done|apply (eo_last _ _ Hok)].
  - exact (edit_tier_ok st s Hok).
  - intros i t Hi f. unfold info_ok, tier_names, resolve_family.
    assert (map fst (zip_with (resolve_entry st (metric_of i)) (fam_entries f t)
              (computeWeights (fam_entries f t))) =
            map (λ ew, fst (resolve_entry st (metric_of i) (fst ew) (snd ew))) (tier_ews f t)) as ->.
    { unfold tier_ews. generalize (computeWeights (fam_entries f t)).
      induction (fam_entries f t) as [|e l IH]; intros [|w ws]; try done. cbn. by rewrite IH. }
    apply Forall2_fmap_r, Forall_Forall2_diag, Forall_forall. intros [e w] Hew. cbn [fst snd].
    by apply (resolved_info ad st s i t f e w).
Qed.

(** C1: a saved policy opens as it was edited, where its new names are free:
    after the specification of a state that Save accepts is applied, opening
    the policy from the new configuration gives its tiers with the same
    interfaces and percentages, IPv4 entries first and empty tiers dropped, and
    the chosen last resort.  [reopen_ok] is what this takes.  Of the state: it is
    accepted, its shares are whole percentages, every interface has the family
    of its entry, and a last resort is chosen, as the editor's controls give
    them.  Of the configuration: its section names are distinct and none is
    [__proto__], its policies name members only, and a policy that is edited is
    there.  And of the new names, which the page compares with members only:
    the members to create differ from each other, from the policy and from the
    sections that are no members, and a new policy from the sections that are
    no interface, member, policy or rule.  Without that it does not hold: see
    [policy_replaces_its_member]. *)
Theorem saved_policy_reopens ad st s :
  reopen_ok st s →
  let spec := getValue st s in
  let st' := applySpec ad spec st in
  stateFromPolicy (memberInfo st') st' (ps_policyName spec) =
  Ok (mkState ModeExisting (ps_policyName spec) "" (st_lastResort s) (norm_tiers (st_tiers s))).
Proof. apply applied_reopens. Qed.
End Apply.

(** ** An example configuration *)

Definition demo_cfg : list section :=
  [mkSection "wan" "interface" []; mkSection "wanb" "interface" [];
   mkSection "wan_m1_w1" "member" [("interface", UStr "wan"); ("metric", UStr "1"); ("weight", UStr "1")];
   mkSection "balanced" "policy" [("use_member", UList ["wan_m1_w1"])];
   mkSection "spare" "policy" [("use_member", UStr "wan_m1_w1")]].

Definition demo_store : mem_uci := λ _, demo_cfg.

Definition demo_state : state :=
  mkState ModeExisting "balanced" "" "unreachable"
    [[mkEntry ipv4 "wan" (Fin 60); mkEntry ipv4 "wanb" (Fin 40)]; [mkEntry ipv4 "wanb" (Fin 100)]].

Lemma NoDup_dec_true (l : list string) : bool_decide (NoDup l) = true → NoDup l.
Proof. apply bool_decide_eq_true_1. Qed.

Lemma demo_save_ok : save_ok (I := plain_i18n) demo_store demo_state.
Proof.
  constructor.
  - vm_compute. reflexivity.
  - discriminate.
  - apply NoDup_dec_true. vm_compute. reflexivity.
  - apply NoDup_dec_true. vm_compute. reflexivity.
  - intros n Hn. change (n ∈ ["wan_m1_w3"; "wanb_m1_w2"; "wanb_m2_w1"]) in Hn. split.
    + intros ->. change ("balanced" ∈ ["wan_m1_w3"; "wanb_m1_w2"; "wanb_m2_w1"]) in Hn.
      apply list_elem_of_In in Hn. simpl in Hn. destruct_or! Hn; done.
    + intros sec Hs <-. apply (list_elem_of_fmap_2 sec_name) in Hs.
      change (sec_name sec ∈ ["wan"; "wanb"; "wan_m1_w1"; "balanced"; "spare"]) in Hs. exfalso.
      revert Hn Hs. generalize (sec_name sec). clear. set_solver.
  - exists (mkSection "balanced" "policy" [("use_member", UList ["wan_m1_w1"])]).
    split; [apply list_elem_of_In; simpl; tauto|split; reflexivity].
Qed.

Lemma demo_edit_ok : edit_ok (I := plain_i18n) demo_store demo_state.
Proof.
  constructor; [apply demo_save_ok| |by repeat constructor|done].
  repeat constructor; eexists; (split; [reflexivity|lia]).
Qed.

Lemma demo_refs : refs_resolved (cfg demo_store).
Proof.
  intros pol m Hpol Hty Hm.
  assert (m = "wan_m1_w1") as ->.
  { apply list_elem_of_In in Hpol. simpl in Hpol. destruct_or! Hpol; subst; try done;
      by apply list_elem_of_singleton in Hm. }
  exists (mkSection "wan_m1_w1" "member" [("interface", UStr "wan"); ("metric", UStr "1"); ("weight", UStr "1")]).
  split; [apply list_elem_of_In; simpl; tauto|split; reflexivity].
Qed.

Lemma demo_reopen_ok : reopen_ok (I := plain_i18n) demo_store demo_state.
Proof.
  constructor; [apply demo_edit_ok|apply demo_refs| |].
  - intros t e Ht He. apply list_elem_of_In in Ht. simpl in Ht.
    destruct_or! Ht; subst; try done; apply list_elem_of_In in He; simpl in He;
      destruct_or! He; subst; done.
  - change ("__proto__" ∉ ["balanced"; "wan"; "wanb"; "wan_m1_w1"; "balanced"; "spare"]). set_solver.
Qed.

Lemma apply_refs_resolved_witness :
  refs_resolved (cfg (applySpec true (getValue demo_store demo_state) demo_store)).
Proof. apply (apply_refs_resolved (I := plain_i18n)); [apply demo_edit_ok|apply demo_refs]. Defined.

Lemma saved_policy_reopens_witness :
  stateFromPolicy (memberInfo (applySpec true (getValue demo_store demo_state) demo_store))
    (applySpec true (getValue demo_store demo_state) demo_store) "balanced" = Ok demo_state.
Proof. exact (saved_policy_reopens (I := plain_i18n) true demo_store demo_state demo_reopen_ok). Defined.

(** A configuration whose policy names an interface where a member belongs. *)
Definition stray_cfg : list section :=
  [mkSection "wan" "interface" [];
   mkSection "m1" "member" [("interface", UStr "wan")];
   mkSection "balanced" "policy" [("use_member", UList ["wan"; "m1"])]].

Definition stray_state : state :=
  mkState ModeExisting "balanced" "" "unreachable" [[mkEntry ipv4 "wan" (Fin 100)]].

(** Orphans are removed by name alone: a policy whose member list names an
    interface section by mistake has that interface deleted when it is saved
    with automatic deletion on. *)
Theorem orphan_deletes_interface :
  isValid (I := plain_i18n) (λ _ : string, stray_cfg) stray_state = true ∧
  ps_orphans (getValue (λ _ : string, stray_cfg) stray_state) = ["wan"] ∧
  find_section "wan" (cfg (λ _ : string, stray_cfg)) ≠ None ∧
  find_section "wan" (cfg (applySpec true (getValue (λ _ : string, stray_cfg) stray_state)
                             (λ _ : string, stray_cfg))) = None.
Proof. vm_compute. split_and!; (reflexivity || discriminate). Qed.

(** The names of new members are compared with members only, and before the
    policy has its section: a new policy that bears the name of a member it
    needs is accepted, its section replaces the member's, and it opens with an
    empty tier, naming a member that is not there. *)
Definition alone_store : mem_uci := λ _, [mkSection "wan" "interface" []].

Definition namesake_state : state :=
  mkState ModeNew "" "wan_m1_w1" "unreachable" [[mkEntry ipv4 "wan" (Fin 100)]].

Theorem policy_replaces_its_member :
  let st' := applySpec true (getValue alone_store namesake_state) alone_store in
  isValid (I := plain_i18n) alone_store namesake_state = true ∧
  cfg st' = [mkSection "wan" "interface" [];
             mkSection "wan_m1_w1" "policy" [("use_member", UList ["wan_m1_w1"]); ("last_resort", UStr "unreachable")]] ∧
  stateFromPolicy (memberInfo st') st' "wan_m1_w1" = Ok (mkState ModeExisting "wan_m1_w1" "" "unreachable" [[]]).
Proof. vm_compute. split_and!; reflexivity. Qed.

(** Three members of equal weight. *)
Definition thirds_cfg : list section :=
  [mkSection "wan" "interface" []; mkSection "wanb" "interface" []; mkSection "wanc" "interface" [];
   mkSection "a" "member" [("interface", UStr "wan")];
   mkSection "b" "member" [("interface", UStr "wanb")];
   mkSection "c" "member" [("interface", UStr "wanc")];
   mkSection "balanced" "policy" [("use_member", UList ["a"; "b"; "c"])]].

Definition thirds_store : mem_uci := λ _, thirds_cfg.

(** The percentages of a policy with three equal members do not add up to
    100 when it is opened, so the unmodified policy is reported as invalid. *)
Theorem thirds_reopen_invalid :
  ∃ s, stateFromPolicy (memberInfo thirds_store) thirds_store "balanced" = Ok s ∧
    map en_pct (concat (st_tiers s)) = [Fin 33; Fin 33; Fin 33] ∧
    isValid (I := plain_i18n) thirds_store s = false.
Proof. eexists. split; [vm_compute; reflexivity|]. split; vm_compute; reflexivity. Qed.
