(* ===== verification/EditorNode.v ===== *)
(** The nodes [mwan3/widgets.js] builds: the number field and the body of the
    policy editor, from the views of [Widgets].  The inputs of the framework
    ([ui.Select], [ui.Textfield]) are parameters. *)
From stdpp Require Import base list strings.
From Stdlib Require Import ZArith Lia Ascii Bool.
From S2P Require Import Prelude JsNum JsString JsArray JsObject Luci Validators Components Widgets.

(** ** The DOM operations used *)

Definition attributes : Type := list (string * string).

Definition set_attr (k v : string) (a : attributes) : attributes :=
  List.filter (λ p, negb (String.eqb (fst p) k)) a ++ [(k, v)].

Definition get_attr (k : string) (a : attributes) : option string :=
  option_map snd (List.find (λ p, String.eqb (fst p) k) a).

(** [node.classList.add(c)] *)
Definition class_add (c : string) (n : node) : node :=
  match n with
  | E t a ks =>
      let present := default "" (get_attr "class" a) in
      E t (set_attr "class" (if str_truthy present then present +:+ " " +:+ c else c) a) ks
  | TextNode _ => n
  end.

(** The first of a list a partial function is defined on is replaced. *)
Definition on_first_of (f : node → option node) : list node → option (list node) :=
  fix go l := match l with
              | [] => None
              | n :: l' => match f n with
                           | Some n' => Some (n' :: l')
                           | None => option_map (cons n) (go l')
                           end
              end.

(** The first element with the tag, in document order, with its attributes
    changed. *)
Fixpoint on_first (tag : string) (f : attributes → attributes) (n : node) : option node :=
  match n with
  | E t a ks =>
      if String.eqb t tag then Some (E t (f a) ks)
      else match ks with
           | Kids l => option_map (λ l', E t a (Kids l')) (on_first_of (on_first tag f) l)
           | One m => option_map (λ m', E t a (One m')) (on_first tag f m)
           | Html _ => None
           end
  | TextNode _ => None
  end.

(** The attributes of that element. *)
Definition first_some {A} (f : node → option A) : list node → option A :=
  fix go l := match l with
              | [] => None
              | n :: l' => match f n with Some a => Some a | None => go l' end
              end.

Fixpoint first_attrs (tag : string) (n : node) : option attributes :=
  match n with
  | E t a ks =>
      if String.eqb t tag then Some a
      else match ks with
           | Kids l => first_some (first_attrs tag) l
           | One m => first_attrs tag m
           | Html _ => None
           end
  | TextNode _ => None
  end.

(** [node.querySelector(tag)] with an assignment; the node itself is a frame of
    the framework. *)
Definition with_first (tag : string) (f : attributes → attributes) (n : node) : node := default n (on_first tag f n).

(** [NumberField.render] on the node of the text field: the type, and the
    bounds that are given. *)
Record number_options : Type := mkNumberOptions {
  no_min : option Z;
  no_max : option Z;
  no_step : option Z;
}.

Definition bound_attr (k : string) (v : option Z) (a : attributes) : attributes :=
  match v with Some z => set_attr k (num_to_string (Fin z)) a | None => a end.

Definition number_attrs (o : number_options) (a : attributes) : attributes :=
  bound_attr "step" (no_step o) (bound_attr "max" (no_max o) (bound_attr "min" (no_min o) (set_attr "type" "number" a))).

Definition number_render (o : number_options) (text_field : node) : node := with_first "input" (number_attrs o) text_field.

(** ** The body of the editor *)

Section EditorNode.
Context {St : Type} {U : Uci St} {I : I18n}.

(** The framework's fields: a select with its value, choices and order, and a
    text field with its value, whether it is read only, and its placeholder and
    greatest length. *)
Variable ui_select : string → list (string * string) → node.
Variable ui_text : string → bool → option (string * Z) → node.

Definition family_node (f : family) : node :=
  class_add "mwan3-pb-fam" (ui_select (family_text f) [("ipv4", "IPv4"); ("ipv6", "IPv6")]).

Definition iface_node (r : row_view) : node :=
  class_add "mwan3-pb-iface"
    (if rw_disabled r then with_first "select" (set_attr "disabled" "") (ui_select "" [("", tr "(none)")])
     else ui_select (rw_iface r) (map (λ i, (i, i)) (rw_choices r))).

Definition pct_node (r : row_view) : node :=
  let n := class_add "mwan3-pb-pct"
             (number_render (mkNumberOptions (Some 1) (Some 100) None) (ui_text (rw_pct r) (rw_locked r) None)) in
  if rw_locked r then class_add "mwan3-pb-pct--locked" n else n.

Definition entry_node (r : row_view) : node :=
  E "div" [("class", "mwan3-pb-entry")]
    (Kids [family_node (rw_family r); iface_node r; pct_node r; E "span" [] (Html "%");
           E "button" [("class", "cbi-button cbi-button-remove mwan3-pb-entry-rm"); ("title", tr "Remove this entry")]
             (Html "×")]).

Definition tier_node (t : tier_view) : node :=
  E "div" [("class", "mwan3-pb-tier")]
    (Kids ([E "div" [("class", "mwan3-pb-tier-head")]
              (Kids [E "strong" [] (Html (tv_label t));
                     E "button" (("class", "cbi-button cbi-button-remove mwan3-pb-rm-tier")
                                 :: (if tv_rm_disabled t then [("disabled", "")] else []))
                       (Html (tr "Remove tier"))])]
           ++ map entry_node (tv_rows t)
           ++ [E "button" [("class", "cbi-button mwan3-pb-add-entry")] (Html (tr "+ Add interface"))])).

Definition error_node (err : string) : node :=
  E "div" [("class", "mwan3-pb-error " +:+ textClass (Some danger))] (Html err).

Definition hidden_class (hidden : bool) : string := if hidden then " mwan3-hidden" else "".

Definition labelled (hidden : bool) (label : string) (n : node) : node :=
  E "div" [("class", "mwan3-pb-row" +:+ hidden_class hidden)]
    (Kids [E "label" [("class", "mwan3-pb-label")] (Html label); n]).

(** [render]: the controls, the tiers and the errors of the state. *)
Definition editor_body (o : editor_opts) (st : St) (s : state) : node :=
  let c := render_controls s in
  E "div" []
    (Kids [labelled (ct_policyHidden c) (tr "Policy:")
             (class_add "mwan3-pb-policy" (ui_select (ct_policySel c) (policy_choices st)));
           labelled (ct_nameHidden c) (tr "Name:")
             (class_add "mwan3-pb-name" (ui_text (ct_newName c) false (Some (tr "policy name", 15))));
           labelled false (tr "Last resort:")
             (class_add "mwan3-pb-lastresort" (ui_select (ct_lastResort c) last_resort_choices));
           E "hr" [("class", "mwan3-pb-hr")] (Kids []);
           E "div" [("class", "mwan3-pb-tiers")] (Kids (map tier_node (render_tiers o s)));
           E "button" [("class", "cbi-button mwan3-pb-add-tier")] (Html (tr "+ Add tier"));
           E "div" [("class", "mwan3-pb-errors")] (Kids (map error_node (getErrors st s)))]).
End EditorNode.

(** ** Facts *)

(** Induction over a node and the lists in it. *)
Fixpoint node_nested (P : node → Prop) (Ht : ∀ s, P (TextNode s)) (Hh : ∀ t a s, P (E t a (Html s)))
    (Hk : ∀ t a l, Forall P l → P (E t a (Kids l))) (Ho : ∀ t a m, P m → P (E t a (One m))) (n : node) : P n :=
  let rec := node_nested P Ht Hh Hk Ho in
  match n with
  | TextNode s => Ht s
  | E t a (Html s) => Hh t a s
  | E t a (Kids l) =>
      Hk t a l ((fix go l := match l return Forall P l with
                             | [] => Forall_nil_2 P
                             | m :: l' => Forall_cons_2 P m l' (rec m) (go l')
                             end) l)
  | E t a (One m) => Ho t a m (rec m)
  end.

Lemma get_set_same k v a : get_attr k (set_attr k v a) = Some v.
Proof.
  unfold get_attr, set_attr. induction a as [|[j w] a IH]; cbn; [by rewrite String.eqb_refl|].
  destruct (String.eqb j k) eqn:Hj; cbn; [exact IH|]. by rewrite Hj.
Qed.

Lemma get_set_other j k v a : j ≠ k → get_attr j (set_attr k v a) = get_attr j a.
Proof.
  intros Hjk. unfold get_attr, set_attr. assert (String.eqb k j = false) as Hkj by (apply String.eqb_neq; congruence).
  induction a as [|[i w] a IH]; cbn; [by rewrite Hkj|].
  destruct (String.eqb_spec i k) as [->|Hi]; cbn; [by rewrite Hkj|]. by destruct (String.eqb i j).
Qed.

(** The element changed is the one found, and its attributes are those
    computed. *)
Lemma on_first_attrs tag f n :
  match on_first tag f n with
  | Some n' => first_attrs tag n' = option_map f (first_attrs tag n) ∧ is_Some (first_attrs tag n)
  | None => first_attrs tag n = None
  end.
Proof.
  induction n as [s|t a s|t a l Hl|t a m Hm] using node_nested; cbn; [done| | |];
    destruct (String.eqb t tag) eqn:E; cbn; rewrite ?E; try (by split).
  - induction Hl as [|n l Hn _ IH]; cbn; [done|].
    destruct (on_first tag f n) as [n'|]; cbn; rewrite ?E; cbn.
    + destruct Hn as [Hn' [b Hb]]. rewrite Hn', Hb. cbn. by split.
    + rewrite Hn. destruct (on_first_of _ l) as [l'|]; cbn in *; [|done]. rewrite E in *. cbn.
      assert (first_attrs tag n = None) as Hn0 by exact Hn. by rewrite Hn0.
  - destruct (on_first tag f m) as [m'|]; cbn; [rewrite E; exact Hm|exact Hm].
Qed.

Lemma with_first_attrs tag f n : first_attrs tag (with_first tag f n) = option_map f (first_attrs tag n).
Proof.
  unfold with_first. pose proof (on_first_attrs tag f n) as H. destruct (on_first tag f n); cbn; [by destruct H|].
  by rewrite H.
Qed.

(** A class changes no other attribute of any element. *)
Lemma class_add_attrs c tag n :
  first_attrs tag (class_add c n) = first_attrs tag n
  ∨ ∃ a v, first_attrs tag n = Some a ∧ first_attrs tag (class_add c n) = Some (set_attr "class" v a).
Proof. destruct n as [t a ks|s]; [|by left]. cbn. destruct (String.eqb t tag); [right; eauto|by left]. Qed.

Section EditorFacts.
Context {I : I18n}.
Variable ui_text : string → bool → option (string * Z) → node.

(** What an input keeps through the classes put on its frame. *)
Definition number_input (base a : attributes) : Prop :=
  get_attr "type" a = Some "number" ∧ get_attr "min" a = Some "1" ∧ get_attr "max" a = Some "100" ∧
  ∀ k, k ∉ ["type"; "min"; "max"; "class"] → get_attr k a = get_attr k base.

Lemma number_input_class base v a : number_input base a → number_input base (set_attr "class" v a).
Proof.
  intros (H1 & H2 & H3 & H4). unfold number_input. rewrite !get_set_other by done.
  repeat split; [done..|]. intros k Hk. rewrite get_set_other; [by apply H4|]. intros ->. apply Hk. rewrite !elem_of_cons. tauto.
Qed.

Lemma number_input_add base c n a :
  first_attrs "input" n = Some a → number_input base a →
  ∃ b, first_attrs "input" (class_add c n) = Some b ∧ number_input base b.
Proof.
  intros Hn Ha. destruct (class_add_attrs c "input" n) as [Hc|(a' & v & Ha' & Hc)]; rewrite Hc; [eauto|].
  simplify_eq. eexists. split; [done|by apply number_input_class].
Qed.

(** The share of an entry is shown by the framework's field, of which the input
    becomes a number input that offers the shares the handler takes; its value
    and everything else of it stay. *)
Theorem pct_node_input r base :
  first_attrs "input" (ui_text (rw_pct r) (rw_locked r) None) = Some base →
  ∃ a, first_attrs "input" (pct_node ui_text r) = Some a ∧ number_input base a.
Proof.
  intros Hb. unfold pct_node, number_render.
  assert (number_input base (number_attrs (mkNumberOptions (Some 1) (Some 100) None) base)) as Hn.
  { unfold number_input, number_attrs, bound_attr. cbn -[get_attr set_attr].
    rewrite get_set_same, !(get_set_other "type"), !(get_set_other "min"), !get_set_same by done.
    repeat split. intros k Hk. rewrite !get_set_other by (intros ->; apply Hk; rewrite !elem_of_cons; tauto). done. }
  destruct (number_input_add base "mwan3-pb-pct" (with_first "input" (number_attrs (mkNumberOptions (Some 1) (Some 100) None))
    (ui_text (rw_pct r) (rw_locked r) None)) _ ltac:(by rewrite with_first_attrs, Hb) Hn) as (a & Ha & Hna).
  destruct (rw_locked r); [|eauto]. by apply (number_input_add base _ _ a).
Qed.

(** Only a share the input offers is stored. *)
Lemma offered_shares text e :
  input_pct text e ≠ e → ∃ z, en_pct (input_pct text e) = Fin z ∧ (1 ≤ z ≤ 100)%Z.
Proof.
  unfold input_pct. intros H.
  destruct (parseInt text 10) as [|neg|z]; [done|by destruct neg|].
  assert (∀ x y, num_leb (Fin x) (Fin y) = (x <=? y)%Z) as Hle.
  { intros x y. unfold num_leb, num_ltb, num_eqb. cbn. lia. }
  rewrite !Hle in *. destruct ((1 <=? z)%Z) eqn:H1, ((z <=? 100)%Z) eqn:H2; cbn in *; try done.
  exists z. split; [done|lia].
Qed.
End EditorFacts.

(** LuCI's frame around an input. *)
Lemma pct_node_input_witness :
  ∃ a, first_attrs "input" (pct_node (λ v _ _, E "div" [("class", "cbi-x")]
         (Kids [E "input" [("type", "text"); ("value", v)] (Kids [])])) (mkRow ipv4 ["wan"] "wan" false "60" true)) = Some a
       ∧ number_input [("type", "text"); ("value", "60")] a.
Proof.
  exact (pct_node_input (λ v _ _, E "div" [("class", "cbi-x")]
    (Kids [E "input" [("type", "text"); ("value", v)] (Kids [])])) (mkRow ipv4 ["wan"] "wan" false "60" true) _ eq_refl).
Defined.
