(* ===== verification/PolicyPage.v ===== *)
(** [view/mwan3/network/policy.js] as a session: the page with its tables, the
    builder dialog around the tier editor, the dialog that offers unused members
    for deletion, the requests that save the configuration and their replies,
    the reloads, and the stored preference.  One request is in flight at a time;
    a second save while one is pending is outside the model. *)
From stdpp Require Import base list strings.
From Stdlib Require Import ZArith Lia Ascii Bool.
From S2P Require Import Prelude JsNum JsString JsArray JsObject Luci Validators Widgets WidgetsFacts.
From S2P Require Import Policy PolicyFacts PolicyApply.

(** ** The state *)

Section Session.
Context {St : Type} {U : Uci St} {I : I18n}.

(** The dialog on the page: the builder with its number, the state of its
    editor and whether its Save button is disabled; or the unused members with
    their boxes and whether the Delete button is. *)
Inductive modal : Type :=
  | NoModal
  | Builder (id : nat) (s : state) (disabled : bool)
  | Cleanup (items : list (string * bool)) (disabled : bool).

(** The page: the configuration as the browser has it, the tables made when it
    was rendered, the dialog, how many builders it opened, the box of the
    preference, and the notifications. *)
Record page : Type := mkPage {
  pg_local : St;
  pg_opts : editor_opts;
  pg_modal : modal;
  pg_opened : nat;
  pg_box : bool;
  pg_notes : list string;
}.

(** A request to save: the configuration sent, the load of the page it came
    from, and what follows its reply. *)
Inductive purpose : Type :=
  | SavePolicy (builder : nat) (autoDelete : bool) (spec : policy_spec)
  | DeleteMembers.

Record request : Type := mkRequest {
  rq_sent : St;
  rq_load : nat;
  rq_purpose : purpose;
}.

(** The router's configuration, [localStorage], the request in flight, how
    often the page was loaded, and the page, if it could be rendered. *)
Record system : Type := mkSystem {
  sy_server : St;
  sy_stored : option string;
  sy_flight : option request;
  sy_loads : nat;
  sy_page : option page;
}.

Definition with_modal (m : modal) (pg : page) : page :=
  mkPage (pg_local pg) (pg_opts pg) m (pg_opened pg) (pg_box pg) (pg_notes pg).

Definition with_local (st : St) (pg : page) : page :=
  mkPage st (pg_opts pg) (pg_modal pg) (pg_opened pg) (pg_box pg) (pg_notes pg).

Definition notified (text : string) (pg : page) : page :=
  mkPage (pg_local pg) (pg_opts pg) (pg_modal pg) (pg_opened pg) (pg_box pg) (pg_notes pg ++ [text]).

Definition with_page (pg : page) (sy : system) : system :=
  mkSystem (sy_server sy) (sy_stored sy) (sy_flight sy) (sy_loads sy) (Some pg).

(** ** Loading *)

(** [load] and [render]; a family that [Object.prototype] has makes the latter
    throw. *)
Definition render_page (server : St) (stored : option string) : option page :=
  match builder_opts server with
  | Ok o => Some (mkPage server o NoModal 0 (auto_delete stored) [])
  | Throw _ => None
  end.

(** [window.location.reload()] *)
Definition reload (sy : system) : system :=
  mkSystem (sy_server sy) (sy_stored sy) (sy_flight sy) (S (sy_loads sy))
    (render_page (sy_server sy) (sy_stored sy)).

(** The first visit. *)
Definition visit (server : St) (stored : option string) : system :=
  mkSystem server stored None 0 (render_page server stored).

(** ** The builder *)

Definition builder_shown (b : builder_mode) (pg : page) : page :=
  match openWith (pg_opts pg) b (pg_local pg) with
  | Ok s =>
      mkPage (pg_local pg) (pg_opts pg) (Builder (pg_opened pg) s (negb (isValid (pg_local pg) s)))
        (S (pg_opened pg)) (pg_box pg) (pg_notes pg)
  | Throw _ => pg
  end.

(** The controls whose listeners report a change: all but the choice of an
    interface and of the last resort. *)
Definition reports_change (e : edit_event) : bool :=
  match e with EvIface _ _ _ | EvLastResort _ => false | _ => true end.

Definition edited (e : edit_event) (pg : page) : page :=
  match pg_modal pg with
  | Builder id s disabled =>
      match handle (pg_opts pg) (pg_local pg) e s with
      | Ok s' =>
          with_modal (Builder id s' (if reports_change e then negb (isValid (pg_local pg) s') else disabled)) pg
      | Throw _ => pg
      end
  | _ => pg
  end.

(** ** Events

    [Served]: the reply to the request in flight, with the error if it failed. *)
Inductive event : Type :=
  | PressAdd (name : string)
  | PressEdit (pname : string)
  | Edit (e : edit_event)
  | DismissBuilder
  | PressSave
  | Toggle (i : nat)
  | PressDelete
  | DismissCleanup
  | SetPref (checked : bool)
  | Served (failed : option string).

(** The click on Save, when the button is enabled. *)
Definition pressed_save (sy : system) (pg : page) (id : nat) (s : state) : system :=
  if negb (isValid (pg_local pg) s) then sy
  else
    let autoDelete := auto_delete (sy_stored sy) in
    let spec := getValue (pg_local pg) s in
    let st := applySpec autoDelete spec (pg_local pg) in
    mkSystem (sy_server sy) (sy_stored sy)
      (Some (mkRequest st (sy_loads sy) (SavePolicy id autoDelete spec))) (sy_loads sy)
      (Some (with_modal (Builder id s true) (with_local st pg))).

Definition pressed_delete (sy : system) (pg : page) (items : list (string * bool)) : system :=
  let st := deleteSelected items (pg_local pg) in
  mkSystem (sy_server sy) (sy_stored sy) (Some (mkRequest st (sy_loads sy) DeleteMembers)) (sy_loads sy)
    (Some (with_modal (Cleanup items true) (with_local st pg))).

(** The button a failed request came from can be clicked again. *)
Definition released (p : purpose) (m : modal) : modal :=
  match p, m with
  | SavePolicy b _ _, Builder id s disabled => Builder id s (if Nat.eqb b id then false else disabled)
  | DeleteMembers, Cleanup items _ => Cleanup items false
  | _, _ => m
  end.

Definition failure_text (p : purpose) (err : string) : string :=
  match p with
  | SavePolicy _ _ _ => tr "Save failed: " +:+ err
  | DeleteMembers => tr "Delete failed: " +:+ err
  end.

(** What the page does when its request succeeded: [uci.save] has loaded the
    configuration again. *)
Definition settled (sy : system) (pg : page) (rq : request) : system :=
  let pg := with_modal NoModal (with_local (sy_server sy) pg) in
  match rq_purpose rq with
  | SavePolicy _ autoDelete spec =>
      match ps_orphans spec with
      | [] => reload sy
      | os => if autoDelete then reload sy else with_page (with_modal (Cleanup (orphan_rows os) false) pg) sy
      end
  | DeleteMembers => reload sy
  end.

Definition served (failed : option string) (rq : request) (sy : system) : system :=
  match failed with
  | None =>
      let sy := mkSystem (rq_sent rq) (sy_stored sy) None (sy_loads sy) (sy_page sy) in
      match sy_page sy with
      | Some pg => if Nat.eqb (rq_load rq) (sy_loads sy) then settled sy pg rq else sy
      | None => sy
      end
  | Some err =>
      let sy := mkSystem (sy_server sy) (sy_stored sy) None (sy_loads sy) (sy_page sy) in
      match sy_page sy with
      | Some pg =>
          if Nat.eqb (rq_load rq) (sy_loads sy)
          then with_page (with_modal (released (rq_purpose rq) (pg_modal pg)) (notified (failure_text (rq_purpose rq) err) pg)) sy
          else sy
      | None => sy
      end
  end.

Definition set_pref (checked : bool) (sy : system) (pg : page) : system :=
  mkSystem (sy_server sy) (Some (if checked then "1" else "0")) (sy_flight sy) (sy_loads sy)
    (Some (mkPage (pg_local pg) (pg_opts pg) (pg_modal pg) (pg_opened pg) checked (pg_notes pg))).

(** One event; [None] where it cannot happen. *)
Definition on_policy (ev : event) (sy : system) : option system :=
  match ev with
  | Served failed => rq ← sy_flight sy; Some (served failed rq sy)
  | _ =>
      pg ← sy_page sy;
      match ev, pg_modal pg, sy_flight sy with
      | PressAdd name, NoModal, _ => Some (with_page (builder_shown (BuildNew name) pg) sy)
      | PressEdit pname, NoModal, _ => Some (with_page (builder_shown (BuildEdit pname) pg) sy)
      | SetPref checked, NoModal, _ => Some (set_pref checked sy pg)
      | Edit e, Builder _ _ _, _ => Some (with_page (edited e pg) sy)
      | DismissBuilder, Builder _ _ _, _ => Some (with_page (with_modal NoModal pg) sy)
      | PressSave, Builder id s false, None => Some (pressed_save sy pg id s)
      | Toggle i, Cleanup items d, _ =>
          Some (with_page (with_modal (Cleanup (alter (λ it, (fst it, negb (snd it))) i items) d) pg) sy)
      | PressDelete, Cleanup items false, None => Some (pressed_delete sy pg items)
      | DismissCleanup, Cleanup _ _, _ => Some (reload sy)
      | _, _, _ => None
      end
  end.

Definition run_events (evs : list event) (sy : system) : option system :=
  foldl (λ o ev, sy ← o; on_policy ev sy) (Some sy) evs.

(** ** What the dialogs and the page show *)

Definition action_button (cls text : string) : node := E "button" [("class", cls)] (Html text).

(** The title and the content of the dialog for unused members. *)
Definition cleanup_dialog (orphans : list string) : string * list node :=
  (tr "Orphaned members",
   [E "p" [] (Html (tr "The following members are no longer referenced by any policy. Select those to delete:"));
    E "div" [("class", "mwan3-pb-orphan-list")] (Kids (map orphan_row orphans));
    E "div" [("class", "mwan3-pb-actions")]
      (Kids [action_button "cbi-button" (tr "Dismiss");
             action_button "cbi-button cbi-button-remove" (tr "Delete selected")])]).

(** The builder around the editor's node. *)
Definition builder_dialog (body : node) : string * list node :=
  (tr "Policy Builder",
   [body;
    E "div" [("class", "mwan3-pb-actions")]
      (Kids [action_button "cbi-button" (tr "Dismiss");
             action_button "cbi-button cbi-button-save" (tr "Save")])]).

(** The toolbar with the preference, whose box is set apart. *)
Definition toolbar : node :=
  E "div" [("class", "mwan3-pb-toolbar")]
    (Kids [E "label" [("for", "pref_delete_members"); ("class", "mwan3-pb-pref")]
      (Kids [Txt (tr "Delete unused member definitions");
             E "input" [("type", "checkbox"); ("id", "pref_delete_members")] (Kids [])])]).

(** The dialog on the page. *)
Definition dialog_shown (body : state → node) (m : modal) : option (string * list node) :=
  match m with
  | NoModal => None
  | Builder _ s _ => Some (builder_dialog (body s))
  | Cleanup items _ => Some (cleanup_dialog (map fst items))
  end.
End Session.

Arguments page : clear implicits.
Arguments request : clear implicits.
Arguments system : clear implicits.

(** ** Members no policy names *)

Definition unreferenced (l : list section) (m : string) : Prop :=
  ∀ pol, pol ∈ l → sec_type pol = "policy" → m ∉ opt_list (sec_opt "use_member" pol).

Section Sessions.
Context {St : Type} {U : Uci St} {UL : UciLaws U} {I : I18n}.

Lemma deleteSelected_eq items st :
  deleteSelected items st =
  fold_left (λ s m, uci_remove s "mwan3" m) (map fst (List.filter snd items)) st.
Proof.
  unfold deleteSelected. revert st. induction items as [|[m b] items IH]; intros st; [done|]. cbn.
  rewrite IH. by destruct b.
Qed.

Definition selected (items : list (string * bool)) (s : section) : bool :=
  existsb (String.eqb (sec_name s)) (map fst (List.filter snd items)).

Lemma deleteSelected_view items st :
  cfg (deleteSelected items st) = List.filter (λ s, negb (selected items s)) (cfg st).
Proof. rewrite deleteSelected_eq. apply removes_view. Qed.

Lemma elem_of_filtered {A} (f : A → bool) (l : list A) x : x ∈ List.filter f l ↔ x ∈ l ∧ f x = true.
Proof. by rewrite list_elem_of_In, filter_In, <- list_elem_of_In. Qed.

Lemma unreferenced_filter f l m : unreferenced l m → unreferenced (List.filter f l) m.
Proof. intros H pol [Hp _]%elem_of_filtered. by apply H. Qed.

Lemma selected_item items s : selected items s = true → sec_name s ∈ map fst items.
Proof.
  unfold selected. rewrite existsb_exists. intros (m & Hm & ->%String.eqb_eq).
  apply in_map_iff in Hm as (it & <- & [Hin _]%filter_In). by apply list_elem_of_In, in_map.
Qed.

(** The configurations of a session: distinct section names, and every member
    a policy names is there. *)
Record config_ok (st : St) : Prop := mkConfigOk {
  co_unique : NoDup (names (cfg st));
  co_refs : refs_resolved (cfg st);
}.

Lemma delete_ok items st :
  config_ok st → Forall (unreferenced (cfg st)) (map fst items) → config_ok (deleteSelected items st).
Proof.
  intros [Hn Hr] Hu. constructor; rewrite deleteSelected_view; [by apply filter_names_NoDup|].
  intros pol m [Hpol _]%elem_of_filtered Hty Hm. destruct (Hr pol m Hpol Hty Hm) as (sec & Hs & Hst & <-).
  exists sec. split_and!; [|done|done]. apply elem_of_filtered. split; [done|].
  apply negb_true_iff. destruct (selected items sec) eqn:E; [|done].
  apply selected_item in E. rewrite Forall_forall in Hu. by destruct (Hu _ E pol).
Qed.

Lemma apply_ok ad st s : save_ok st s → config_ok st → config_ok (applySpec ad (getValue st s) st).
Proof. intros He [_ Hr]. constructor; [by apply applied_names_NoDup|by apply applied_refs]. Qed.

(** Once the policy is written, no policy names its orphans. *)
Lemma orphans_unreferenced ad st s m :
  save_ok st s → m ∈ ps_orphans (getValue st s) →
  unreferenced (cfg (applySpec ad (getValue st s) st)) m.
Proof.
  intros Hok Ho pol Hpol Hty Hm. pose proof (edit_spec_ok st s Hok) as Hspec.
  apply applied_elem in Hpol as (pol0 & Hpol0 & -> & _); [|done].
  rewrite written_type in Hty. unfold written in Hm.
  apply orphan_inv in Ho as (Hnew & Hun & Hu & _).
  destruct (String.eqb (sec_name pol0) _) eqn:En; [by rewrite put_policy_members in Hm|].
  unfold base_sections in Hpol0. rewrite Hnew, app_nil_r, elem_of_app in Hpol0.
  destruct Hpol0 as [Hpol0|(mb & -> & _)%list_elem_of_fmap]; [|done].
  unfold used_elsewhere in Hu. rewrite existsb_false in Hu.
  specialize (Hu pol0). rewrite En, existsb_false, sections_view in Hu.
  specialize (Hu ltac:(by apply elem_of_sections_of_type) m Hm). by rewrite String.eqb_refl in Hu.
Qed.

(** ** The invariant *)

Definition modal_ok (st : St) (m : modal) : Prop :=
  match m with Cleanup items _ => Forall (unreferenced (cfg st)) (map fst items) | _ => True end.

Definition page_ok (pg : page St) : Prop := config_ok (pg_local pg) ∧ modal_ok (pg_local pg) (pg_modal pg).

Definition request_ok (rq : request St) : Prop :=
  config_ok (rq_sent rq) ∧
  match rq_purpose rq with
  | SavePolicy _ _ spec => Forall (unreferenced (cfg (rq_sent rq))) (ps_orphans spec)
  | DeleteMembers => True
  end.

Record session_ok (sy : system St) : Prop := mkSessionOk {
  sn_server : config_ok (sy_server sy);
  sn_page pg : sy_page sy = Some pg → page_ok pg;
  sn_flight rq : sy_flight sy = Some rq → request_ok rq;
}.

(** Where Save is pressed on a state it accepts, the new names are free
    ([save_ok]); nothing is asked of the other events. *)
Definition save_sound (ev : event) (sy : system St) : Prop :=
  match ev with
  | PressSave => ∀ pg id s d, sy_page sy = Some pg → pg_modal pg = Builder id s d →
      isValid (pg_local pg) s = true → save_ok (pg_local pg) s
  | _ => True
  end.

Inductive policy_session (sy : system St) : list event → system St → Prop :=
  | session_start : policy_session sy [] sy
  | session_step evs ev sy' sy'' :
      policy_session sy evs sy' → save_sound ev sy' → on_policy ev sy' = Some sy'' → policy_session sy (evs ++ [ev]) sy''.

Lemma render_ok server stored pg :
  config_ok server → render_page server stored = Some pg → page_ok pg.
Proof. unfold render_page. intros H. destruct (builder_opts server); [|done]. by intros [= <-]. Qed.

Lemma reload_ok sy : config_ok (sy_server sy) → (∀ rq, sy_flight sy = Some rq → request_ok rq) → session_ok (reload sy).
Proof. intros H Hf. constructor; [done| |done]. intros pg. by apply render_ok. Qed.

Lemma with_page_ok sy pg :
  session_ok sy → page_ok pg → session_ok (with_page pg sy).
Proof. intros [H1 _ H3] Hc. constructor; [done| |done]. by intros ? [= <-]. Qed.

Lemma orphan_rows_names os : map fst (orphan_rows os) = os.
Proof. unfold orphan_rows. rewrite map_map. apply map_id. Qed.

Lemma served_ok failed rq sy : session_ok sy → sy_flight sy = Some rq → session_ok (served failed rq sy).
Proof.
  intros [H1 H2 H3] Hf. destruct (H3 rq Hf) as [Hc Ho]. unfold served. destruct failed as [err|].
  - assert (session_ok (mkSystem (sy_server sy) (sy_stored sy) None (sy_loads sy) (sy_page sy))) as Hs
      by (constructor; done).
    cbn [sy_page]. destruct (sy_page sy) as [pg|] eqn:Ep; [|done]. destruct (Nat.eqb _ _); [|done].
    destruct (H2 pg eq_refl) as [Hl Hm]. apply with_page_ok; [done|]. split; [done|].
    cbn. destruct (rq_purpose rq), (pg_modal pg); done.
  - assert (session_ok (mkSystem (rq_sent rq) (sy_stored sy) None (sy_loads sy) (sy_page sy))) as Hs
      by (constructor; done).
    cbn [sy_page]. destruct (sy_page sy) as [pg|] eqn:Ep; [|done]. destruct (Nat.eqb _ _); [|done].
    unfold settled. destruct (rq_purpose rq) as [b ad spec|]; [|by apply reload_ok].
    destruct (ps_orphans spec) as [|o os] eqn:Eo; [by apply reload_ok|].
    destruct ad; [by apply reload_ok|]. apply with_page_ok; [done|]. split; [done|].
    cbn [modal_ok with_modal with_local pg_modal pg_local]. by rewrite orphan_rows_names.
Qed.

Lemma builder_shown_ok b pg :
  page_ok pg → page_ok (builder_shown b pg).
Proof. unfold builder_shown. intros [? ?]. by destruct (openWith _ _ _). Qed.

Lemma edited_ok e pg :
  page_ok pg → page_ok (edited e pg).
Proof.
  unfold edited. intros Hp. destruct (pg_modal pg) as [|id s d|items d]; [done| |done].
  destruct (handle _ _ _ _); [|done]. by destruct Hp.
Qed.

Lemma toggled_orphans i (items : list (string * bool)) :
  map fst (alter (λ it, (fst it, negb (snd it))) i items) = map fst items.
Proof. revert i. induction items as [|[m b] items IH]; intros [|i]; cbn; [done..|]. by rewrite IH. Qed.

Lemma on_policy_ok ev sy sy' :
  session_ok sy → save_sound ev sy → on_policy ev sy = Some sy' → session_ok sy'.
Proof.
  intros Hs Hsave. pose proof Hs as [H1 H2 H3]. unfold on_policy.
  destruct ev as [name|pname|e| | |i| | |checked|failed].
  10: { destruct (sy_flight sy) as [rq|] eqn:Ef; [|done]. intros [= <-]. by apply served_ok. }
  all: destruct (sy_page sy) as [pg|] eqn:Ep; [|done]; destruct (H2 pg eq_refl) as [Hc Hm]; cbn [mbind option_bind];
    destruct (pg_modal pg) as [|id s d|items d] eqn:Em; try done.
  - intros [= <-]. by apply with_page_ok, builder_shown_ok, H2.
  - intros [= <-]. by apply with_page_ok, builder_shown_ok, H2.
  - intros [= <-]. by apply with_page_ok, edited_ok, H2.
  - intros [= <-]. by apply with_page_ok.
  - destruct d; [done|]. destruct (sy_flight sy) eqn:Ef; [done|]. intros [= <-]. unfold pressed_save.
    destruct (isValid (pg_local pg) s) eqn:Ev; cbn [negb]; [|done].
    specialize (Hsave pg id s false Ep Em Ev).
    assert (config_ok (applySpec (auto_delete (sy_stored sy)) (getValue (pg_local pg) s) (pg_local pg))) as Ha
      by by apply apply_ok.
    constructor; cbn; [done|by intros ? [= <-]|]. intros rq [= <-]. split; [done|]. cbn.
    apply Forall_forall. intros m. by apply orphans_unreferenced.
  - intros [= <-]. apply with_page_ok; [done|]. split; [done|]. cbn. by rewrite toggled_orphans.
  - destruct d; [done|]. destruct (sy_flight sy) eqn:Ef; [done|]. intros [= <-].
    assert (config_ok (deleteSelected items (pg_local pg))) as Hd by by apply delete_ok.
    constructor; cbn; [done| |by intros rq [= <-]]. intros pg' [= <-]. split; [done|]. cbn.
    rewrite deleteSelected_view. eapply Forall_impl; [exact Hm|]. intros m. apply unreferenced_filter.
  - intros [= <-]. by apply reload_ok.
  - intros [= <-]. constructor; [done| |done]. intros ? [= <-]. split; [done|]. cbn. by rewrite Em.
Qed.

(** C2: a session on the policy page keeps the configuration whole, where the
    names it writes are free: whatever is opened, edited, saved, deleted,
    dismissed and answered, one request at a time, with requests that fail or
    succeed, every member a policy names is a member section, on the router, in
    the browser and in the request under way, and every member the cleanup
    dialog offers for deletion is named by no policy.  It starts from such a
    configuration with distinct section names, and at each save ([save_sound])
    a last resort is chosen, the policy that is edited is there, the members to
    create differ from each other, from the policy and from the sections that
    are no members, and a new policy differs from the sections that are no
    interface, member, policy or rule.  The page does not check these names, and
    without them it does not hold: see [namesake_session_breaks]. *)
Theorem policy_session_safe server stored evs sy :
  config_ok server → policy_session (visit server stored) evs sy → session_ok sy.
Proof.
  intros Hc Hr. remember (visit server stored) as sy0 eqn:E0.
  induction Hr as [|evs ev sy' sy'' _ IH Hsave Hev].
  - subst sy0. constructor; cbn; [done| |done]. intros pg. by apply render_ok.
  - eapply on_policy_ok; [by apply IH|done|done].
Qed.

(** ** Sessions from runs *)

Lemma session_app sy evs1 sy1 evs2 sy2 :
  policy_session sy evs1 sy1 → policy_session sy1 evs2 sy2 → policy_session sy (evs1 ++ evs2) sy2.
Proof.
  intros H1. induction 1 as [|evs ev sy' sy'' _ IH Hs He]; [by rewrite app_nil_r|].
  rewrite app_assoc. by eapply session_step.
Qed.

Lemma run_events_cons ev evs sy sy' :
  on_policy ev sy = Some sy' → run_events (ev :: evs) sy = run_events evs sy'.
Proof. intros H. unfold run_events. cbn [foldl mbind option_bind]. by rewrite H. Qed.

(** Save on a valid state: the configuration is written and sent. *)
Lemma save_event sy pg id s :
  sy_page sy = Some pg → pg_modal pg = Builder id s false → sy_flight sy = None →
  isValid (pg_local pg) s = true →
  let ad := auto_delete (sy_stored sy) in
  let spec := getValue (pg_local pg) s in
  let st := applySpec ad spec (pg_local pg) in
  on_policy PressSave sy =
  Some (mkSystem (sy_server sy) (sy_stored sy) (Some (mkRequest st (sy_loads sy) (SavePolicy id ad spec))) (sy_loads sy)
          (Some (with_modal (Builder id s true) (with_local st pg)))).
Proof.
  intros Hp Hm Hf Hv ad spec st. unfold on_policy. rewrite Hp. cbn [mbind option_bind]. rewrite Hm, Hf.
  unfold pressed_save. by rewrite Hv.
Qed.

Lemma served_auto_event server stored st loads id spec pg :
  on_policy (Served None) (mkSystem server stored (Some (mkRequest st loads (SavePolicy id true spec))) loads (Some pg)) =
  Some (reload (mkSystem st stored None loads (Some pg))).
Proof.
  unfold on_policy. cbn [sy_flight mbind option_bind]. unfold served. cbn [rq_sent rq_load sy_loads sy_page sy_stored].
  rewrite Nat.eqb_refl. unfold settled. cbn [rq_purpose]. by destruct (ps_orphans spec).
Qed.

Lemma edit_event server stored loads pg pname s :
  pg_modal pg = NoModal → openWith (pg_opts pg) (BuildEdit pname) (pg_local pg) = Ok s →
  on_policy (PressEdit pname) (mkSystem server stored None loads (Some pg)) =
  Some (mkSystem server stored None loads (Some
    (mkPage (pg_local pg) (pg_opts pg) (Builder (pg_opened pg) s (negb (isValid (pg_local pg) s)))
       (S (pg_opened pg)) (pg_box pg) (pg_notes pg)))).
Proof.
  intros Hm Hw. unfold on_policy. cbn [sy_page mbind option_bind]. rewrite Hm. unfold builder_shown. by rewrite Hw.
Qed.

Definition is_save (ev : event) : bool := match ev with PressSave => true | _ => false end.

Lemma session_quiet evs sy sy' :
  forallb (λ ev, negb (is_save ev)) evs = true → run_events evs sy = Some sy' → policy_session sy evs sy'.
Proof.
  revert sy'. induction evs as [|ev evs IH] using rev_ind; intros sy'.
  { cbn. intros _ [= <-]. constructor. }
  rewrite forallb_app. intros [Hq Hev]%andb_true_iff. unfold run_events. rewrite foldl_app. cbn [foldl].
  destruct (foldl _ _ _) as [sy1|] eqn:E; cbn; [|done]. intros Hon.
  eapply session_step; [by apply IH| |done]. by destruct ev.
Qed.

(** ** Failures and deletions *)

(** A new policy whose save failed cannot be saved again: its own unsaved
    section takes its name, and the button does nothing. *)
Lemma new_policy_present ad st s :
  save_ok st s → is_new (st_mode s) = true → isValid (applySpec ad (getValue st s) st) s = false.
Proof.
  intros Hok Hn. pose proof (edit_spec_ok st s Hok) as Hspec. set (st' := applySpec ad _ st).
  assert (ps_policyName (getValue st s) = st_newPolicyName s) as Hname by (unfold getValue; by rewrite Hn).
  assert (sectionNameInUse st' (st_newPolicyName s) None = true) as Hin.
  { apply (sectionNameInUse_spec _ _). split; [done|].
    exists (written (getValue st s) (mkSection (st_newPolicyName s) "policy" [])).
    rewrite written_name, written_type. split_and!; [|done|done]. apply (applied_elem ad); [done|].
    eexists. split_and!; [|reflexivity|].
    - unfold base_sections. rewrite !elem_of_app. right. right. cbn [getValue ps_isNew]. rewrite Hn, Hname.
      by apply list_elem_of_singleton.
    - unfold kept. apply negb_true_iff, andb_false_iff. right. apply existsb_false. intros m Hm.
      apply orphan_inv in Hm as (Hnew & _). unfold getValue in Hnew. cbn in Hnew. congruence. }
  unfold isValid, getErrors, name_errors. rewrite Hn, Hin.
  destruct (negb _); [done|]. destruct (negb _); [done|]. by destruct (15 <? _).
Qed.

Theorem failed_new_policy_stuck sy pg id s err :
  sy_page sy = Some pg → pg_modal pg = Builder id s false → sy_flight sy = None →
  save_ok (pg_local pg) s → is_new (st_mode s) = true →
  ∃ sy', run_events [PressSave; Served (Some err)] sy = Some sy' ∧
    on_policy PressSave sy' = Some sy' ∧ sy_server sy' = sy_server sy.
Proof.
  intros Hp Hm Hf Hok Hn. pose proof (save_event sy pg id s Hp Hm Hf (eo_valid _ _ Hok)) as Hs. cbv zeta in Hs.
  rewrite (run_events_cons _ _ _ _ Hs). set (st' := applySpec _ _ _).
  unfold run_events. cbn [foldl mbind option_bind on_policy sy_flight]. unfold served.
  cbn [rq_load rq_purpose sy_loads sy_page]. rewrite Nat.eqb_refl. cbn [released with_modal with_local notified pg_modal].
  rewrite Nat.eqb_refl. eexists. split; [reflexivity|]. split; [|done].
  unfold on_policy. cbn [mbind option_bind sy_page with_page pg_modal sy_flight]. unfold pressed_save.
  cbn [pg_local with_modal with_local notified pg_modal with_page sy_page].
  subst st'. by rewrite new_policy_present.
Qed.

(** Deleting every member the dialog offers gives what the automatic deletion
    gives. *)
Theorem delete_all_as_automatic st s :
  save_ok st s →
  let spec := getValue st s in
  cfg (deleteSelected (orphan_rows (ps_orphans spec)) (applySpec false spec st)) = cfg (applySpec true spec st).
Proof.
  intros Hok spec. pose proof (edit_spec_ok st s Hok) as Hspec.
  rewrite deleteSelected_view, !applySpec_view by done. fold spec. rewrite (filter_true (kept false spec)) by (intros ?; reflexivity).
  apply filter_ext. intros x. unfold kept, selected, orphan_rows.
  assert (∀ os : list string, map fst (List.filter snd (map (λ m, (m, true)) os)) = os) as ->; [|done].
  intros os. induction os as [|o os IH]; [done|]. cbn. by rewrite IH.
Qed.

(** The whole round: saved, reloaded and opened again, the policy shows what
    was saved. *)
Theorem save_then_edit sy pg id s o :
  sy_page sy = Some pg → pg_modal pg = Builder id s false → sy_flight sy = None →
  auto_delete (sy_stored sy) = true → reopen_ok (pg_local pg) s →
  let spec := getValue (pg_local pg) s in
  let st' := applySpec true spec (pg_local pg) in
  str_truthy (ps_policyName spec) = true → builder_opts st' = Ok o →
  ∃ sy' pg', run_events [PressSave; Served None; PressEdit (ps_policyName spec)] sy = Some sy' ∧
    sy_server sy' = st' ∧ sy_page sy' = Some pg' ∧ pg_local pg' = st' ∧
    pg_modal pg' =
      let s' := refreshTiers o (mkState ModeExisting (ps_policyName spec) "" (st_lastResort s) (norm_tiers (st_tiers s))) in
      Builder 0 s' (negb (isValid st' s')).
Proof.
  intros Hp Hm Hf Ha Hro spec st' Hname Ho.
  pose proof (applied_reopens true (pg_local pg) s Hro) as Hre. cbv zeta in Hre. fold spec st' in Hre.
  pose proof (save_event sy pg id s Hp Hm Hf (eo_valid _ _ (ro_edit _ _ Hro))) as Hs.
  cbv zeta in Hs. rewrite Ha in Hs. fold spec st' in Hs.
  rewrite (run_events_cons _ _ _ _ Hs), (run_events_cons _ _ _ _ (served_auto_event _ _ _ _ _ _ _)).
  set (p' := mkPage st' o NoModal 0 (auto_delete (sy_stored sy)) []).
  assert (reload (mkSystem st' (sy_stored sy) None (sy_loads sy)
                    (Some (with_modal (Builder id s true) (with_local st' pg)))) =
          mkSystem st' (sy_stored sy) None (S (sy_loads sy)) (Some p')) as ->.
  { unfold reload, render_page. cbn [sy_server]. by rewrite Ho. }
  assert (openWith o (BuildEdit (ps_policyName spec)) st' =
    Ok (refreshTiers o (mkState ModeExisting (ps_policyName spec) "" (st_lastResort s) (norm_tiers (st_tiers s))))) as Hw.
  { unfold openWith. rewrite Hname.
    assert (op_memberInfo o = memberInfo st') as ->; [|by rewrite Hre].
    revert Ho. unfold builder_opts. destruct (ifacesByFamily st'); [|done]. by intros [= <-]. }
  rewrite (run_events_cons _ _ _ _ (edit_event _ _ _ p' _ _ eq_refl Hw)). by eexists _, _.
Qed.
End Sessions.

(** ** Examples *)

Definition demo_session : list event :=
  [PressEdit "balanced"; Edit (EvAddEntry 0); Edit (EvIface 0 1 "wanb"); Edit (EvPct 0 0 "60"); Edit (EvPct 0 1 "40");
   Edit EvAddTier; Edit (EvAddEntry 1); Edit (EvIface 1 0 "wanb")].


Definition demo_opts : editor_opts := mkOpts ["wan"; "wanb"] [] (memberInfo demo_store).

(** The page after these events. *)
Definition demo_builder : system mem_uci :=
  mkSystem demo_store None None 0
    (Some (mkPage demo_store demo_opts (Builder 0 demo_state false) 1 true [])).

Lemma demo_edited : run_events demo_session (visit demo_store None) = Some demo_builder.
Proof. vm_compute. reflexivity. Qed.

Lemma demo_save_sound : save_sound PressSave demo_builder.
Proof. intros pg id s d [= <-] [= <- <- <-] _. apply demo_save_ok. Qed.

Definition demo_saved : system mem_uci :=
  default demo_builder (run_events [Served None; PressEdit "balanced"]
    (default demo_builder (on_policy PressSave demo_builder))).

Lemma demo_reached :
  policy_session (visit demo_store None) ((demo_session ++ [PressSave]) ++ [Served None; PressEdit "balanced"]) demo_saved.
Proof.
  eapply session_app; [eapply session_step; [eapply session_quiet; [reflexivity|apply demo_edited]|apply demo_save_sound|reflexivity]|].
  apply session_quiet; [reflexivity|]. vm_compute. reflexivity.
Qed.

Lemma demo_config_ok : config_ok demo_store.
Proof. constructor; [apply NoDup_dec_true; vm_compute; reflexivity|apply demo_refs]. Qed.

Lemma policy_session_safe_witness :
  option_map (λ pg, pg_modal pg) (sy_page demo_saved) = Some (Builder 0 demo_state false) ∧ session_ok demo_saved.
Proof.
  split; [vm_compute; reflexivity|].
  exact (policy_session_safe demo_store None _ demo_saved demo_config_ok demo_reached).
Defined.

(** The choice of an interface reports no change: after a name clash is
    resolved by it, Save stays disabled until another control is used.  Here
    the name of the member that the share of "wan" needs is that of a member of
    another interface. *)
Definition clash_store : mem_uci := λ _,
  [mkSection "wan" "interface" []; mkSection "wanb" "interface" []; mkSection "wan_m1_w1" "member" [("interface", UStr "wanb")]].

Definition clash_session : list event :=
  [PressAdd "p"; Edit (EvAddEntry 0); Edit (EvIface 0 0 "wanb")].

Lemma iface_choice_keeps_disabled :
  option_map (λ sy, option_map (λ pg,
      match pg_modal pg with Builder _ s d => (isValid clash_store s, d) | _ => (false, false) end) (sy_page sy))
    (run_events clash_session (visit clash_store None)) = Some (Some (true, true)).
Proof. vm_compute. reflexivity. Qed.

(** A new policy that bears the name of the member it needs: the page accepts
    it, and after the save the router's configuration has a policy that names a
    member that is not there. *)
Definition namesake_session : list event :=
  [PressAdd "wan_m1_w1"; Edit (EvAddEntry 0); PressSave; Served None].

Theorem namesake_session_breaks :
  ∃ sy, run_events (I := plain_i18n) namesake_session (visit alone_store None) = Some sy ∧
    ¬ refs_resolved (cfg (sy_server sy)).
Proof.
  eexists. split; [vm_compute; reflexivity|]. intros H.
  destruct (H (mkSection "wan_m1_w1" "policy" [("use_member", UList ["wan_m1_w1"]); ("last_resort", UStr "unreachable")])
              "wan_m1_w1") as (sec & Hs & Ht & _).
  - apply list_elem_of_In. vm_compute. auto.
  - reflexivity.
  - apply list_elem_of_In. vm_compute. auto.
  - apply list_elem_of_In in Hs. vm_compute in Hs. by destruct Hs as [<-|[<-|[]]].
Qed.
