(* ===== verification/Simulator.v ===== *)
(** [view/mwan3/network/simulator.js]: the traffic path simulator. *)
From stdpp Require Import base list strings.
From Stdlib Require Import ZArith Lia Ascii Bool.
From S2P Require Import Prelude JsNum JsString JsArray JsObject Luci Forms Components Format IpMath.

(** ** Host names *)

Definition all_digits (s : string) : bool := str_forall is_digit s && str_truthy s.

Definition looksLikeFqdn (str : string) : bool :=
  if negb (str_truthy str) then false
  else if 0 <=? str_index_of str ":" then false
  else
    let parts := str_split "." str in
    negb (Nat.eqb (length parts) 4 && forallb all_digits (take 3 parts)).

(** A [resolve_host] response: its two address lists, absent ones empty. *)
Record resolved : Type := mkResolved {
  rs_v4 : list string;
  rs_v6 : list string;
}.

Definition pickFamilyAddrs (res : resolved) (family : string) : list string :=
  if String.eqb family "ipv6" then rs_v6 res
  else if String.eqb family "ipv4" then rs_v4 res
  else match rs_v4 res with [] => rs_v6 res | l => l end.

(** ** Rule matching *)

(** The simulated packet; a blank field is "not specified". *)
Record sim : Type := mkSim {
  sm_src_ip : string;
  sm_dst_ip : string;
  sm_proto : string;
  sm_src_port : string;
  sm_dst_port : string;
  sm_family : string;
  sm_mark : string;
}.

Definition nftset_cache : Type := jsobj (list string).

(** [nftsetCache[name] || []] *)
Definition cache_get (c : nftset_cache) (name : string) : list string :=
  match obj_get name c with Own l => l | _ => [] end.

(** A truthy option on which the code calls a method of strings. *)
Definition string_opt (v : option uval) : res (option string) :=
  match v with
  | Some (UStr s) => Ok (if str_truthy s then Some s else None)
  | Some (UList _) => Throw "TypeError"
  | None => Ok None
  end.

(** [text.split(/[\s,]+/).filter(Boolean)] *)
Fixpoint port_tokens_go (s acc : string) : list string :=
  match s with
  | EmptyString => if str_truthy acc then [acc] else []
  | String c r =>
      if is_ws c || Ascii.eqb c "," then
        (if str_truthy acc then [acc] else []) ++ port_tokens_go r ""
      else port_tokens_go r (acc +:+ String c "")
  end.

Definition port_tokens (s : string) : list string := port_tokens_go s "".

Section Matching.
Context `{V : Validation}.

(** [rule.src_ip] against [sim.src_ip], and the same for destinations. *)
Definition addr_check (v : option uval) (ip : string) : res bool :=
  match v with
  | Some (UList _) => if str_truthy ip then Throw "TypeError" else Ok false
  | _ =>
      match opt_text v with
      | None => Ok true
      | Some spec =>
          if negb (str_truthy ip) then Ok false
          else some_res (ipInCidr ip) (map str_trim (str_split "," spec))
      end
  end.

Definition port_check (v : option uval) (ports : string) : res bool :=
  match v with
  | Some (UList _) =>
      if negb (str_truthy ports) then Ok false
      else if existsb (λ p, negb (is_NaN (parseInt p 10))) (port_tokens ports)
           then Throw "TypeError" else Ok false
  | _ =>
      match opt_text v with
      | None => Ok true
      | Some spec =>
          if negb (str_truthy ports) then Ok false
          else Ok (existsb (λ p, portMatches p (Some spec)) (port_tokens ports))
      end
  end.

Definition set_check (v : option uval) (ip : string) (cache : nftset_cache) : res bool :=
  match opt_text v with
  | None => Ok true
  | Some name => if negb (str_truthy ip) then Ok false else ipInSet ip (cache_get cache name)
  end.

Definition family_check (rule : section) (s : sim) : bool :=
  let ruleFam := default "" (sec_text "family" rule) in
  negb (str_truthy ruleFam && str_truthy (sm_family s)
        && ((String.eqb (sm_family s) "ipv4" && String.eqb ruleFam "ipv6")
            || (String.eqb (sm_family s) "ipv6" && String.eqb ruleFam "ipv4"))).

Definition proto_check (rule : section) (s : sim) : bool :=
  let ruleProto := default "all" (sec_text "proto" rule) in
  negb (negb (String.eqb ruleProto "all") && negb (String.eqb (sm_proto s) "all")
        && negb (String.eqb ruleProto (sm_proto s))).

(** [parseInt(text, 16) | 0] *)
Definition hex_i32 (s : string) : Z := to_i32 (parseInt s 16).

Definition mark_check (rule : section) (s : sim) : bool :=
  match sec_text "fwmark" rule, sec_text "fwmask" rule with
  | Some fwmark, Some fwmask =>
      let simMark := hex_i32 (if str_truthy (sm_mark s) then sm_mark s else "0") in
      Z.land simMark (hex_i32 fwmask) =? hex_i32 fwmark
  | _, _ => true
  end.

(** The guards in the order of the code; each answers whether to go on. *)
Fixpoint all_checks (l : list (unit → res bool)) : res bool :=
  match l with
  | [] => Ok true
  | c :: l' => let* b := c tt in if b then all_checks l' else Ok false
  end.

Definition rule_checks (rule : section) (s : sim) (cache : nftset_cache) : list (unit → res bool) :=
  [λ _, Ok (family_check rule s);
   λ _, Ok (proto_check rule s);
   λ _, addr_check (sec_opt "src_ip" rule) (sm_src_ip s);
   λ _, addr_check (sec_opt "dest_ip" rule) (sm_dst_ip s);
   λ _, port_check (sec_opt "src_port" rule) (sm_src_port s);
   λ _, port_check (sec_opt "dest_port" rule) (sm_dst_port s);
   λ _, set_check (sec_opt "ipset_src" rule) (sm_src_ip s) cache;
   λ _, set_check (sec_opt "ipset" rule) (sm_dst_ip s) cache;
   λ _, Ok (mark_check rule s)].

Definition ruleMatches (rule : section) (s : sim) (cache : nftset_cache) : res bool :=
  all_checks (rule_checks rule s cache).

(** [rule.enabled === '0'] *)
Definition rule_disabled (rule : section) : bool := opt_is (sec_opt "enabled" rule) "0".

(** The indices of the enabled rules that match, in rule order. *)
Fixpoint matched_from (i : nat) (rules : list section) (s : sim) (cache : nftset_cache)
    : res (list nat) :=
  match rules with
  | [] => Ok []
  | r :: rules' =>
      if rule_disabled r then matched_from (S i) rules' s cache
      else
        let* b := ruleMatches r s cache in
        let* rest := matched_from (S i) rules' s cache in
        Ok (if b then i :: rest else rest)
  end.

Definition allMatched (rules : list section) (s : sim) (cache : nftset_cache) : res (list nat) :=
  matched_from 0 rules s cache.
End Matching.

(** U+00A0, in UTF-8. *)
Definition nbsp : string := String (ascii_of_nat 194) (String (ascii_of_nat 160) "").

Section Rendering.
Context {I : I18n}.

Definition fmtResolutionHint (addrs : list string) : string :=
  let s := tr "Resolved" +:+ ": " +:+ default "undefined" (addrs !! 0%nat) in
  if (1 <? length addrs)%nat
  then s +:+ " (+" +:+ dec (Z.of_nat (length addrs) - 1) +:+ " " +:+ tr "more" +:+ ")"
  else s.

Definition part (o : option string) (f : string → string) : list string :=
  match o with Some s => [f s] | None => [] end.

(** [fmtAddrList] of a truthy text: a list without items shows as "null". *)
Definition addr_list_text (s : string) : string := default "null" (fmtAddrList (Some s)).

Definition matchSummary (rule : section) : string :=
  let parts :=
    (if opt_is (sec_opt "family" rule) "ipv4" then ["IPv4"]
     else if opt_is (sec_opt "family" rule) "ipv6" then ["IPv6"] else [])
    ++ part (sec_text "src_ip" rule) (λ s, tr "src" +:+ " " +:+ addr_list_text s)
    ++ part (sec_text "ipset_src" rule) (λ s, tr "src nftset" +:+ " " +:+ s)
    ++ part (sec_text "dest_ip" rule) (λ s, tr "dst" +:+ " " +:+ addr_list_text s)
    ++ (match sec_text "proto" rule with
        | Some p => if String.eqb p "all" then [] else [tr "proto" +:+ " " +:+ p]
        | None => [] end)
    ++ part (sec_text "src_port" rule) (λ s, tr "sport" +:+ " " +:+ s)
    ++ part (sec_text "dest_port" rule) (λ s, tr "dport" +:+ " " +:+ s)
    ++ part (sec_text "ipset" rule) (λ s, tr "nftset" +:+ " " +:+ s)
    ++ (match sec_text "fwmark" rule, sec_text "fwmask" rule with
        | Some m, Some k => [tr "mark" +:+ " " +:+ m +:+ "/" +:+ k]
        | _, _ => [] end)
    ++ (if opt_is (sec_opt "sticky" rule) "1" then [tr "sticky"] else []) in
  match parts with [] => tr "all traffic" | _ => str_join " | " parts end.

(** A policy member in the live status. *)
Record live_member : Type := mkLive {
  lm_interface : string;
  lm_metric : num;
  lm_weight : num;
  lm_percent : num;
  lm_status : string;
}.

(** The [policies] part of the status response: members by policy name. *)
Record live_policies : Type := mkLivePolicies {
  lp_ipv4 : jsobj (list live_member);
  lp_ipv6 : jsobj (list live_member);
}.

(** [(p.ipv4 && p.ipv4[name]) || (p.ipv6 && p.ipv6[name])]; arrays are truthy
    when empty.  Names that only [Object.prototype] has are not followed. *)
Definition liveMembers (p : live_policies) (name : string) : list live_member :=
  match obj_get name (lp_ipv4 p) with
  | Own l => l
  | _ => match obj_get name (lp_ipv6 p) with Own l => l | _ => [] end
  end.

Definition active (m : live_member) : bool := num_ltb (Fin 0) (lm_percent m).

Definition builtins : jsobj string :=
  [("unreachable", tr "unreachable (reject)"); ("blackhole", tr "blackhole (drop)");
   ("default", tr "use main routing table")].

(** [builtins[policyName]]; a member of [Object.prototype] is truthy too. *)
Definition builtin_policy (name : string) : option string :=
  match obj_get name builtins with
  | Own t => Some t
  | Inherited => Some "[inherited]"
  | Absent => None
  end.

Definition member_severity (m : live_member) : severity :=
  if active m then success else if String.eqb (lm_status m) "online" then warning else muted.

Definition member_label (m : live_member) : string :=
  lm_interface m +:+ " (" +:+ tr "metric" +:+ nbsp +:+ num_to_string (lm_metric m) +:+ ", "
  +:+ tr "weight" +:+ nbsp +:+ num_to_string (lm_weight m) +:+ ")"
  +:+ " — " +:+ (if active m then num_to_string (lm_percent m) +:+ "%" else lm_status m).

Definition text_cls (s : severity) : string := textClass (Some s).

Definition policy_outcome (members : list live_member) (lastResort : string) : node :=
  match List.filter active members with
  | [] =>
      E "div" [("class", "mwan3-sim-detail-sm " +:+ text_cls danger)]
        (One (text (Some (tr "All members offline - last resort" +:+ ": " +:+ lastResort))))
  | [m] =>
      E "div" [("class", "mwan3-sim-detail-sm " +:+ text_cls success)]
        (One (text (Some (tr "Traffic will use" +:+ ": " +:+ lm_interface m))))
  | l =>
      E "div" [("class", "mwan3-sim-detail-sm " +:+ text_cls success)]
        (Html (tr "Traffic will be load-balanced across " +:+ dec (Z.of_nat (length l))
               +:+ tr " members"))
  end.

Definition find_policy (name : string) (uciPolicies : list section) : option section :=
  List.find (λ p, String.eqb (sec_name p) name) uciPolicies.

Definition last_resort_of (pol : option section) : string :=
  match pol with
  | Some p => default "unreachable" (sec_text "last_resort" p)
  | None => "unreachable"
  end.

Definition renderPolicyDetail (policyName : string) (policiesData : live_policies)
    (uciPolicies : list section) : node :=
  match builtin_policy policyName with
  | Some t =>
      E "div" [("class", "mwan3-sim-detail " +:+ text_cls muted)]
        (Html (tr "Terminal policy" +:+ ": " +:+ t))
  | None =>
      match liveMembers policiesData policyName with
      | [] =>
          match find_policy policyName uciPolicies with
          | None => E "div" [("class", text_cls danger)] (Html (tr "Policy not found in configuration"))
          | Some _ =>
              E "div" [("class", "mwan3-sim-detail " +:+ text_cls muted)]
                (Html (tr "mwan3 not running - cannot show live member state"))
          end
      | members =>
          E "div" []
            (Kids
               ([E "div" [("class", "mwan3-sim-livehdr " +:+ text_cls muted)]
                   (Html (tr "Live member state" +:+ ":"))]
                ++ map (λ m, E "div" [("class", "mwan3-sim-member " +:+ text_cls (member_severity m))]
                               (One (text (Some (member_label m))))) members
                ++ [policy_outcome members (last_resort_of (find_policy policyName uciPolicies))]))
      end
  end.

Definition renderConnectedBypass (dstIp : string) (matchedCidr : option string) : node :=
  card (Some info)
    (Kids
       [E "div" [("class", text_cls info +:+ " mwan3-strong")]
          (Html (tr "mwan3 rules bypassed - directly connected network"));
        E "div" [("class", "mwan3-sim-detail")]
          (Html (tr "Destination" +:+ " " +:+ dstIp +:+ " " +:+ tr "is in the connected set"
                 +:+ (match matchedCidr with
                      | Some c => if str_truthy c then " (" +:+ c +:+ ")" else ""
                      | None => "" end) +:+ "."));
        E "div" [("class", "mwan3-sim-detail-sm " +:+ text_cls muted)]
          (Html (tr ("mwan3 exempts directly connected networks from policy routing before any rule is evaluated. "
             +:+ "Traffic is forwarded via the main routing table regardless of configured rules. "
             +:+ "Use firewall rules, not mwan3 policies, to control access to these networks.")))])
    (Some "mwan3-sim-card").

(** What [renderSimResult] shows. *)
Inductive sim_view : Type :=
  | SimNode (n : node)
  | SimCards (first : node) (shadowed : option ui_table).

Definition policy_name (rule : section) : string := default "-" (sec_text "use_policy" rule).

Definition sim_severity (pName : string) (policiesData : live_policies) : severity :=
  if String.eqb pName "blackhole" || String.eqb pName "unreachable" then warning
  else if existsb active (liveMembers policiesData pName) then success else danger.

Definition shadow_row (r : section) : list cell :=
  [CNode (text (Some (sec_name r))); CNode (text (Some (matchSummary r)));
   CNode (statusText (policy_name r) muted false)].

Definition shadow_table (shadowed : list section) : ui_table :=
  mkTable [tr "Shadowed rule"; tr "Match"; tr "Policy"]
    [("id", "mwan3-sim-shadowed"); ("sortable", "false"); ("classes", "mwan3-sim-shadow-table");
     ("captionClasses", ",,mwan3-sim-col-policy")]
    (map shadow_row shadowed) (CNode (emptyHint (tr "None"))).

Definition noMatch : node :=
  card (Some muted)
    (Kids [E "div" [("class", "mwan3-strong " +:+ text_cls muted)] (Html (tr "No rule matched"));
           E "div" [("class", "mwan3-sim-detail-sm")]
             (Html (tr "Traffic will be routed using the main routing table."))])
    (Some "mwan3-sim-card").

Definition match_card (matched : section) (policiesData : live_policies)
    (uciPolicies : list section) : node :=
  let pName := policy_name matched in
  card (Some (sim_severity pName policiesData))
    (Kids
       [E "div" [("class", "mwan3-sim-title")]
          (One (text (Some (tr "First matching rule" +:+ ": " +:+ sec_name matched))));
        E "div" [] (Kids [E "strong" [] (Html (tr "Match" +:+ ":" +:+ nbsp)); Txt (matchSummary matched)]);
        E "div" [] (Kids [E "strong" [] (Html (tr "Policy" +:+ ":" +:+ nbsp)); Txt pName]);
        renderPolicyDetail pName policiesData uciPolicies])
    (Some "mwan3-sim-card").

(** [matchedIdx] is the head of [matched], or [-1]. *)
Definition renderSimResult (rules : list section) (matched : list nat)
    (policiesData : live_policies) (uciPolicies : list section) : sim_view :=
  match matched with
  | [] => SimNode noMatch
  | idx :: _ =>
      match rules !! idx with
      | None => SimNode noMatch
      | Some r =>
          let shadowed :=
            flat_map (λ i, if Nat.eqb i idx then []
                           else match rules !! i with Some s => [s] | None => [] end) matched in
          SimCards (match_card r policiesData uciPolicies)
            (match shadowed with [] => None | _ => Some (shadow_table shadowed) end)
      end
  end.
End Rendering.

(** ** The form *)

Section Flow.
Context {I : I18n} `{V : Validation}.

Definition simulator_form : form_section :=
  mkFormSection (NamedSection "sim") "sim" false false false false
    [option_ Value "src_ip" (tr "Source IP/Name") "" ▷ placeholder (tr "e.g. 192.168.1.5 or hostname");
     option_ Value "dst_ip" (tr "Destination IP/Name") "" ▷ placeholder (tr "e.g. 8.8.4.4 or hostname");
     option_ Value "mark" (tr "Fwmark") "" ▷ placeholder "0x80000";
     option_ ListValue "proto" (tr "Protocol") "" ▷ keys ["all"; "tcp"; "udp"; "icmp"; "esp"] ▷ dflt "all";
     option_ Value "src_port" (tr "Source port") ""
       ▷ placeholder (tr "e.g. 80 or 443 1024:2048 or 80,443") ▷ depends "proto" "tcp" ▷ depends "proto" "udp";
     option_ Value "dst_port" (tr "Destination port") ""
       ▷ placeholder (tr "e.g. 80 or 443 1024:2048 or 80,443") ▷ depends "proto" "tcp" ▷ depends "proto" "udp";
     option_ ListValue "family" (tr "Address family") ""
       ▷ values [("", tr "IPv4 and IPv6"); ("ipv4", tr "IPv4 only"); ("ipv6", tr "IPv6 only")] ▷ dflt ""].

(** ** A run of the simulator

    [handleSimulate] suspends at every [Promise.all]; a run is a tree of
    batches of requests, each continued with the answers in request order.  A
    request that fails rejects the whole promise, whose handler shows the
    error. *)
Inductive request : Type :=
  | ResolveHost (host family : string)
  | ReloadUci
  | PoliciesStatus
  | NftsetMembers (set : string).

Inductive answer : Type :=
  | AResolved (r : resolved)
  | AUci (policies rules : list section)
  | APolicies (p : live_policies)
  | AMembers (l : list string).

(** What the page ends up showing. *)
Inductive outcome : Type :=
  | InvalidSource (msg : string)
  | InvalidDestination (msg : string)
  | Unresolved (msg : string)
  | Bypassed (dst cidr : string)
  | Verdict (rules : list section) (matched : list nat) (p : live_policies) (policies : list section)
  | Failed (err : string).

Inductive run : Type :=
  | Done (o : outcome) (srcHint dstHint : string)
  | Ask (reqs : list request) (k : list answer → run).

(** Field values as the form returns them. *)
Record sim_input : Type := mkInput {
  inp_src : option string;
  inp_dst : option string;
  inp_proto : option string;
  inp_sport : option string;
  inp_dport : option string;
  inp_family : option string;
  inp_mark : option string;
}.

Definition trimmed (o : option string) : string := str_trim (default "" o).

Definition bad_address (raw : string) : bool :=
  str_truthy raw && negb (looksLikeFqdn raw) && negb (parseIPv4 raw) && negb (parseIPv6 raw).

(** [for (...) if (ipmath.ipInCidr(dst, set[ci])) { matched = set[ci]; break; }] *)
Fixpoint first_cidr (dst : string) (connected : list string) : res (option string) :=
  match connected with
  | [] => Ok None
  | c :: rest => let* b := ipInCidr dst c in if b then Ok (Some c) else first_cidr dst rest
  end.

(** The nft sets the enabled rules refer to, each once. *)
Definition add_set (acc : list string) (o : option string) : list string :=
  match o with
  | Some n => if existsb (String.eqb n) acc then acc else acc ++ [n]
  | None => acc
  end.

Definition rule_sets (rules : list section) : list string :=
  fold_left (λ acc r,
    if rule_disabled r then acc
    else add_set (add_set acc (sec_text "ipset" r)) (sec_text "ipset_src" r)) rules [].

Definition members_of (a : answer) : list string := match a with AMembers l => l | _ => [] end.

Definition fail (srcHint dstHint : string) (e : string) : run := Done (Failed e) srcHint dstHint.

Definition evaluate (rules policies : list section) (p : live_policies) (s : sim) (sets : list string)
    (srcHint dstHint : string) (answers : list answer) : run :=
  let cache := fold_left (λ o (pr : string * list string), obj_set (fst pr) (snd pr) o)
                 (zip sets (map members_of answers)) [] in
  match allMatched rules s cache with
  | Ok matched => Done (Verdict rules matched p policies) srcHint dstHint
  | Throw e => fail srcHint dstHint e
  end.

Definition refreshed (s : sim) (srcHint dstHint : string) (answers : list answer) : run :=
  match answers with
  | [AUci policies rules; APolicies p; c4; c6] =>
      let connected := if isIPv6 (sm_dst_ip s) then members_of c6 else members_of c4 in
      match (if str_truthy (sm_dst_ip s) then first_cidr (sm_dst_ip s) connected else Ok None) with
      | Throw e => fail srcHint dstHint e
      | Ok (Some cidr) => Done (Bypassed (sm_dst_ip s) cidr) srcHint dstHint
      | Ok None =>
          let sets := rule_sets rules in
          Ask (map NftsetMembers sets) (evaluate rules policies p s sets srcHint dstHint)
      end
  | _ => fail srcHint dstHint "protocol"
  end.

Definition refresh_requests : list request :=
  [ReloadUci; PoliciesStatus; NftsetMembers "mwan3_connected_v4"; NftsetMembers "mwan3_connected_v6"].

Definition mk_sim (i : sim_input) (src dst : string) : sim :=
  mkSim src dst (match inp_proto i with Some p => if str_truthy p then p else "all" | None => "all" end)
    (trimmed (inp_sport i)) (trimmed (inp_dport i)) (default "" (inp_family i)) (trimmed (inp_mark i)).

(** The address and the hint of one side once its name is resolved; [None]
    when the name has no address. *)
Definition use_resolved (raw family : string) (a : option answer) : option (string * string) :=
  match a with
  | Some (AResolved r) =>
      match pickFamilyAddrs r family with
      | [] => None
      | addr :: _ => Some (addr, fmtResolutionHint (pickFamilyAddrs r family))
      end
  | _ => Some (raw, "")
  end.

Definition unresolved (which raw : string) : outcome := Unresolved (tr which +:+ ": " +:+ raw).

Definition resolved_then (i : sim_input) (src dst : option answer) : run :=
  let family := default "" (inp_family i) in
  match use_resolved (trimmed (inp_src i)) family src with
  | None => Done (unresolved "Could not resolve source hostname" (trimmed (inp_src i))) "" ""
  | Some (srcIp, srcHint) =>
      match use_resolved (trimmed (inp_dst i)) family dst with
      | None => Done (unresolved "Could not resolve destination hostname" (trimmed (inp_dst i))) srcHint ""
      | Some (dstIp, dstHint) => Ask refresh_requests (refreshed (mk_sim i srcIp dstIp) srcHint dstHint)
      end
  end.

Definition handleSimulate (i : sim_input) : run :=
  let srcRaw := trimmed (inp_src i) in
  let dstRaw := trimmed (inp_dst i) in
  let family := default "" (inp_family i) in
  if bad_address srcRaw then Done (InvalidSource (tr "Invalid source IP address" +:+ ": " +:+ srcRaw)) "" ""
  else if bad_address dstRaw then
    Done (InvalidDestination (tr "Invalid destination IP address" +:+ ": " +:+ dstRaw)) "" ""
  else
    match looksLikeFqdn srcRaw, looksLikeFqdn dstRaw with
    | false, false => resolved_then i None None
    | true, false => Ask [ResolveHost srcRaw family] (λ a, resolved_then i (a !! 0%nat) None)
    | false, true => Ask [ResolveHost dstRaw family] (λ a, resolved_then i None (a !! 0%nat))
    | true, true =>
        Ask [ResolveHost srcRaw family; ResolveHost dstRaw family]
          (λ a, resolved_then i (a !! 0%nat) (a !! 1%nat))
    end.

(** A run against a router that answers, or fails, each request. *)
Fixpoint run_with (env : request → res answer) (r : run) : outcome :=
  match r with
  | Done o _ _ => o
  | Ask reqs k =>
      match map_res env reqs with
      | Ok answers => run_with env (k answers)
      | Throw e => Failed e
      end
  end.

Definition render_outcome (o : outcome) : sim_view :=
  let err := λ m, SimNode (E "p" [("class", text_cls danger)] (One (text (Some m)))) in
  match o with
  | InvalidSource m | InvalidDestination m | Unresolved m => err m
  | Bypassed dst cidr => SimNode (renderConnectedBypass dst (Some cidr))
  | Verdict rules matched p policies => renderSimResult rules matched p policies
  | Failed e => SimNode (E "p" [("class", text_cls danger)] (Html e))
  end.
End Flow.
