(* ===== verification/Configuration.v ===== *)
(** [view/mwan3/network/configuration.js]: static analysis of the mwan3
    configuration. *)
From stdpp Require Import base list strings.
From Stdlib Require Import ZArith Lia Ascii Bool.
From S2P Require Import Prelude JsNum JsString JsArray JsObject Luci Components IpMath Widgets Simulator.

(** ** Option values as the code compares them *)

Definition opt_truthy (v : option uval) : bool :=
  match v with
  | Some (UStr s) => str_truthy s
  | Some (UList _) => true
  | None => false
  end.

(** [a === b] for options of two different sections: two arrays are never the
    same object. *)
Definition strict_eq (a b : option uval) : bool :=
  match a, b with
  | Some (UStr s), Some (UStr t) => String.eqb s t
  | None, None => true
  | _, _ => false
  end.

(** [v || ''] *)
Definition or_empty (v : option uval) : option uval := if opt_truthy v then v else Some (UStr "").

(** [v.indexOf(',') >= 0], on a text or an array. *)
Definition has_comma (v : option uval) : bool :=
  match v with
  | Some (UStr s) => 0 <=? str_index_of s ","
  | Some (UList l) => existsb (String.eqb ",") l
  | None => false
  end.

Definition portSpecContains (a b : option uval) : bool :=
  if negb (opt_truthy a) then true
  else if negb (opt_truthy b) then false
  else strict_eq a b.

Section Containment.
Context `{V : Validation}.

(** [ipmath.cidrContains(a, b)] on option values: arrays have [indexOf] but
    no [split]. *)
Definition opt_cidrContains (a b : option uval) : res bool :=
  match a, b with
  | Some (UStr s), Some (UStr t) => cidrContains s t
  | _, _ => if has_comma a || has_comma b then Ok false else Throw "TypeError"
  end.

Definition addr_contains (a b : option uval) : res bool :=
  if negb (opt_truthy a) then Ok true
  else if negb (opt_truthy b) then Ok false
  else if strict_eq a b then Ok true
  else opt_cidrContains a b.

Definition ruleAContainsB (a b : section) : res bool :=
  let famA := default "" (sec_text "family" a) in
  let famB := default "" (sec_text "family" b) in
  if str_truthy famA && negb (String.eqb famA famB) then Ok false
  else
    let protoA := default "all" (sec_text "proto" a) in
    let protoB := default "all" (sec_text "proto" b) in
    if negb (String.eqb protoA "all") && negb (String.eqb protoA protoB) then Ok false
    else
      let* src := addr_contains (sec_opt "src_ip" a) (sec_opt "src_ip" b) in
      if negb src then Ok false
      else
        let* dst := addr_contains (sec_opt "dest_ip" a) (sec_opt "dest_ip" b) in
        if negb dst then Ok false
        else if negb (portSpecContains (sec_opt "src_port" a) (sec_opt "src_port" b)) then Ok false
        else if negb (portSpecContains (sec_opt "dest_port" a) (sec_opt "dest_port" b)) then Ok false
        else if opt_truthy (sec_opt "fwmark" a)
             && (negb (opt_truthy (sec_opt "fwmark" b))
                 || negb (strict_eq (sec_opt "fwmark" a) (sec_opt "fwmark" b))
                 || negb (strict_eq (or_empty (sec_opt "fwmask" a)) (or_empty (sec_opt "fwmask" b))))
        then Ok false
        else if opt_truthy (sec_opt "ipset" a)
             && negb (strict_eq (sec_opt "ipset" a) (sec_opt "ipset" b)) then Ok false
        else if opt_truthy (sec_opt "ipset_src" a)
             && negb (strict_eq (sec_opt "ipset_src" a) (sec_opt "ipset_src" b)) then Ok false
        else Ok true.
End Containment.

(** ** Issues

    One constructor per [issue(...)] call of [collectIssues]. *)
Inductive issue : Type :=
  | MemberNoInterface (mname iface : string)
  | MemberUnused (mname : string)
  | PolicyEmpty (pname : string)
  | PolicyNoMember (pname mname : string)
  | PolicyOneInterface (pname iface : string)
  | PolicyUnused (pname : string)
  | RuleNoPolicy (rname pname : string)
  | RuleShadowed (later earlier : string)
  | InterfaceUnused (iname : string).

#[export] Instance issue_eq_dec : EqDecision issue.
Proof. solve_decision. Defined.

Inductive issue_level : Type :=
  | IssueError
  | IssueWarning.

#[export] Instance issue_level_eq_dec : EqDecision issue_level.
Proof. solve_decision. Defined.

Definition issue_severity (i : issue) : issue_level :=
  match i with
  | MemberNoInterface _ _ | PolicyEmpty _ | PolicyNoMember _ _ | RuleNoPolicy _ _ => IssueError
  | MemberUnused _ | PolicyOneInterface _ _ | PolicyUnused _ | RuleShadowed _ _
  | InterfaceUnused _ => IssueWarning
  end.

(** A name between typographic quotes. *)
Definition quoted (s : string) : string := "“" +:+ s +:+ "”".

Record policy_data : Type := mkPolicyData {
  pd_use_member : list string;
  pd_last_resort : string;
}.

Record member_data : Type := mkMemberData {
  md_interface : string;
  md_metric : num;
  md_weight : num;
}.

Record uci_data : Type := mkUciData {
  ud_interfaces : jsobj bool;
  ud_members : jsobj member_data;
  ud_policies : jsobj policy_data;
  ud_rules : list section;
}.

Section Issues.
Context `{V : Validation} {I : I18n}.

Definition issue_subject (i : issue) : string :=
  match i with
  | MemberNoInterface m f =>
      tr "Member" +:+ " " +:+ quoted m +:+ " " +:+ tr "references undefined interface" +:+ " " +:+ quoted f
  | MemberUnused m => tr "Member" +:+ " " +:+ quoted m +:+ " " +:+ tr "is not used by any policy"
  | PolicyEmpty p => tr "Policy" +:+ " " +:+ quoted p +:+ " " +:+ tr "has no members"
  | PolicyNoMember p m =>
      tr "Policy" +:+ " " +:+ quoted p +:+ " " +:+ tr "references undefined member" +:+ " " +:+ quoted m
  | PolicyOneInterface p f =>
      tr "Policy" +:+ " " +:+ quoted p +:+ " "
      +:+ tr "has multiple members but all reference the same interface" +:+ " " +:+ quoted f
  | PolicyUnused p => tr "Policy" +:+ " " +:+ quoted p +:+ " " +:+ tr "is not used by any rule"
  | RuleNoPolicy r p =>
      tr "Rule" +:+ " " +:+ quoted r +:+ " " +:+ tr "references undefined policy" +:+ " " +:+ quoted p
  | RuleShadowed l _ => tr "Rule" +:+ " " +:+ quoted l +:+ " " +:+ tr "is unreachable"
  | InterfaceUnused f =>
      tr "Interface" +:+ " " +:+ quoted f +:+ " " +:+ tr "is not referenced by any member"
  end.

Definition issue_detail (i : issue) : string :=
  match i with
  | MemberNoInterface _ _ =>
      tr "Traffic assigned to any policy using this member will not be routed correctly."
  | MemberUnused _ => tr "This member is defined but has no effect."
  | PolicyEmpty _ => tr "All traffic assigned to this policy will use the last-resort behaviour."
  | PolicyNoMember _ _ =>
      tr "This member will be ignored; the policy may have fewer active members than expected."
  | PolicyOneInterface _ _ =>
      tr "This provides no redundancy; failover will not occur if that interface goes down."
  | PolicyUnused _ => tr "This policy is defined but has no effect."
  | RuleNoPolicy _ _ => tr "Traffic matching this rule will be blackholed silently."
  | RuleShadowed _ e =>
      tr "Rule" +:+ " " +:+ quoted e +:+ " "
      +:+ tr "appears earlier and matches a superset of its traffic. The later rule will never be evaluated."
  | InterfaceUnused _ => tr "This interface will not be used for load balancing or failover."
  end.

(** [Object.keys(o).forEach(...)] with the value of each key. *)
Definition each {A B} (o : jsobj A) (f : string → A → list B) : list B :=
  flat_map (λ k, match obj_own k o with Some v => f k v | None => [] end) (obj_keys o).

Definition member_ref_issues (d : uci_data) : list issue :=
  each (ud_members d) (λ mname m,
    if obj_has (md_interface m) (ud_interfaces d) then []
    else [MemberNoInterface mname (md_interface m)]).

Definition membersInUse (d : uci_data) : jsobj bool :=
  obj_of_keys (each (ud_policies d) (λ _ p, pd_use_member p)).

Definition member_use_issues (d : uci_data) : list issue :=
  let used := membersInUse d in
  each (ud_members d) (λ mname _, if obj_has mname used then [] else [MemberUnused mname]).

(** The interface [members[mname].interface] that a member contributes; one
    found only in [Object.prototype] has an undefined interface. *)
Definition used_iface (d : uci_data) (mname : string) : list string :=
  match obj_get mname (ud_members d) with
  | Own m => [md_interface m]
  | Inherited => ["undefined"]
  | Absent => []
  end.

Definition policy_issues_of (d : uci_data) (pname : string) (p : policy_data) : list issue :=
  let useMembers := pd_use_member p in
  (match useMembers with [] => [PolicyEmpty pname] | _ => [] end)
  ++ flat_map (λ mname,
       if obj_has mname (ud_members d) then [] else [PolicyNoMember pname mname]) useMembers
  ++ (let usedIfaces := obj_keys (obj_of_keys (flat_map (used_iface d) useMembers)) in
      match usedIfaces with
      | [i] => if (1 <? length useMembers)%nat then [PolicyOneInterface pname i] else []
      | _ => []
      end).

Definition policy_issues (d : uci_data) : list issue :=
  each (ud_policies d) (policy_issues_of d).

Definition rule_policy (r : section) : option string := sec_text "use_policy" r.

Definition policiesInUse (d : uci_data) : jsobj bool :=
  obj_of_keys (flat_map (λ r, match rule_policy r with Some p => [p] | None => [] end) (ud_rules d)).

Definition policy_use_issues (d : uci_data) : list issue :=
  let used := policiesInUse d in
  each (ud_policies d) (λ pname _, if obj_has pname used then [] else [PolicyUnused pname]).

Definition builtin_names : jsobj bool := [("unreachable", true); ("blackhole", true); ("default", true)].

Definition rule_ref_issues (d : uci_data) : list issue :=
  flat_map (λ r,
    match rule_policy r with
    | Some p =>
        if obj_has p builtin_names || obj_has p (ud_policies d) then []
        else [RuleNoPolicy (sec_name r) p]
    | None => []
    end) (ud_rules d).

(** [for (i...) for (j = i + 1...)]: the pairs in order; the first exception
    ends the analysis. *)
Fixpoint shadowed_by (a : section) (later : list section) : res (list issue) :=
  match later with
  | [] => Ok []
  | b :: rest =>
      let* c := ruleAContainsB a b in
      let* l := shadowed_by a rest in
      Ok (if c then RuleShadowed (sec_name b) (sec_name a) :: l else l)
  end.

Fixpoint shadow_issues (rules : list section) : res (list issue) :=
  match rules with
  | [] => Ok []
  | a :: rest =>
      let* l := shadowed_by a rest in
      let* l' := shadow_issues rest in
      Ok (l ++ l')
  end.

Definition ifacesInUse (d : uci_data) : jsobj bool :=
  obj_of_keys (each (ud_members d) (λ _ m,
    if str_truthy (md_interface m) then [md_interface m] else [])).

Definition iface_use_issues (d : uci_data) : list issue :=
  let used := ifacesInUse d in
  each (ud_interfaces d) (λ iname _, if obj_has iname used then [] else [InterfaceUnused iname]).

Definition collectIssues (d : uci_data) : res (list issue) :=
  let* shadows := shadow_issues (ud_rules d) in
  Ok (member_ref_issues d ++ member_use_issues d ++ policy_issues d ++ policy_use_issues d
      ++ rule_ref_issues d ++ shadows ++ iface_use_issues d).

(** ** The lookup structures of [render] *)

Section Load.
Context {St : Type} {U : Uci St}.

Definition interfaces_of (st : St) : jsobj bool :=
  fold_left (λ o s, obj_set (sec_name s) true o) (uci_sections st "mwan3" "interface") [].

Definition member_of (s : section) : member_data :=
  mkMemberData (default "" (sec_text "interface" s))
    (parse_or1 (sec_opt "metric" s)) (parse_or1 (sec_opt "weight" s)).

Definition members_of (st : St) : jsobj member_data :=
  fold_left (λ o s, obj_set (sec_name s) (member_of s) o) (uci_sections st "mwan3" "member") [].

Definition policy_of (s : section) : policy_data :=
  mkPolicyData (opt_list (sec_opt "use_member" s)) (default "unreachable" (sec_text "last_resort" s)).

Definition policies_of (st : St) : jsobj policy_data :=
  fold_left (λ o s, obj_set (sec_name s) (policy_of s) o) (uci_sections st "mwan3" "policy") [].

Definition enabled_rules (st : St) : list section :=
  List.filter (λ s, negb (rule_disabled s)) (uci_sections st "mwan3" "rule").

Definition load_data (st : St) : uci_data :=
  mkUciData (interfaces_of st) (members_of st) (policies_of st) (enabled_rules st).
End Load.

(** ** Rendering *)

Definition issueSeverity (i : issue) : severity :=
  match issue_severity i with IssueError => danger | IssueWarning => warning end.

Definition severityLabel (i : issue) : string :=
  match issue_severity i with IssueError => tr "Error" | IssueWarning => tr "Warning" end.

Definition is_error (i : issue) : bool := bool_decide (issue_severity i = IssueError).
Definition is_warning (i : issue) : bool := bool_decide (issue_severity i = IssueWarning).

Definition count_of (f : issue → bool) (l : list issue) : nat := length (List.filter f l).

Definition counted (n : nat) (one many : string) : string :=
  dec (Z.of_nat n) +:+ " " +:+ (if Nat.eqb n 1 then tr one else tr many).

Definition summary_severity (issues : list issue) : severity :=
  match count_of is_error issues, count_of is_warning issues with
  | S _, _ => danger
  | O, S _ => warning
  | O, O => success
  end.

Definition renderSummary (issues : list issue) : node :=
  let errors := count_of is_error issues in
  let warnings := count_of is_warning issues in
  let label :=
    match errors, warnings with
    | S _, _ => counted errors "error" "errors" +:+ ", " +:+ counted warnings "warning" "warnings"
    | O, S _ => counted warnings "warning" "warnings"
    | O, O => tr "No issues found"
    end in
  summaryBar (summary_severity issues) label.

Definition issue_card (iss : issue) : node :=
  let sev := issueSeverity iss in
  card (Some sev)
    (Kids
       [E "div" [("class", "mwan3-issue-head")]
          (Kids [E "span" [("class", "mwan3-issue-label " +:+ textClass (Some sev))] (Html (severityLabel iss));
                 E "span" [("class", "mwan3-strong")] (Html (issue_subject iss))]);
        E "div" [("class", "mwan3-muted mwan3-issue-detail")] (Html (issue_detail iss))])
    None.

Definition renderIssues (issues : list issue) : node :=
  match issues with
  | [] => card (Some success) (Html (tr "Configuration looks consistent. No issues detected.")) (Some "mwan3-ok")
  | _ => E "div" [("class", "mwan3-issues")] (Kids (map issue_card issues))
  end.

Definition render_configuration (issues : list issue) : node :=
  E "div" [("class", "cbi-map")]
    (Kids [E "h2" [] (Html (tr "MultiWAN Manager - Configuration"));
           E "div" [("class", "cbi-section")]
             (Kids [E "p" [("class", "mwan3-muted")]
                      (Html (tr "Static analysis of the mwan3 UCI configuration. No live system state is consulted."));
                    renderSummary issues; renderIssues issues])]).
End Issues.
