(* ===== verification/ConfigurationFacts.v ===== *)
(** The static analysis: a reported shadowing is real for the simulator, and
    the error issues are exactly the unresolved references. *)
From stdpp Require Import base list strings.
From Stdlib Require Import ZArith Lia Ascii Bool.
From S2P Require Import Prelude JsNum JsString JsArray JsObject Luci IpMath Components Widgets Simulator.
From S2P Require Import Configuration.

(** ** Rule addresses that denote one prefix *)

Section Addresses.
Context {V : Validation} {VL : ValidationLaws V}.

(** [t] is the IPv4 address [net], or [net] with a prefix length [p]. *)
Definition v4_reads (t : string) (net p : Z) : Prop :=
  v4_ok net ∧ (t = v4_text net ∧ p = 32 ∨ 0 <= p <= 32 ∧ t = cidr_text (v4_text net) p).

(** [t] is an IPv6 prefix: an address of value [x] and a length [p]. *)
Definition v6_reads (t : string) (x p : Z) : Prop :=
  ∃ net, parseIPv6 net = true ∧ v6_value net x ∧ 0 <= p <= 128 ∧ t = cidr_text net p.

Lemma v4_text_no_slash x : v4_ok x → char_free "/" (v4_text x) = true.
Proof. intros [? ?]. by apply v4_text_free. Qed.

Lemma no_ws_app s t : no_ws (s +:+ t) = no_ws s && no_ws t.
Proof. apply str_forall_app. Qed.

Lemma v4_text_no_ws x : v4_ok x → no_ws (v4_text x) = true.
Proof.
  intros [Hx _]. unfold v4_text, dotted, str_join.
  pose proof (pow2_pos 24 ltac:(lia)). pose proof (pow2_pos 8 ltac:(lia)).
  rewrite !no_ws_app, !dec_no_ws; [done|apply Z.mod_pos_bound; lia|apply Z.mod_pos_bound; lia
    |apply Z.mod_pos_bound; lia|apply Z.div_pos; lia].
Qed.

Lemma cidr_text_no_ws net p : no_ws net = true → 0 <= p → no_ws (cidr_text net p) = true.
Proof. intros Hn Hp. unfold cidr_text. by rewrite !no_ws_app, Hn, dec_no_ws. Qed.

Lemma v6_no_slash net : parseIPv6 net = true → char_free "/" net = true.
Proof. intros H. by apply (parseIPv6_chars net); auto. Qed.

Lemma cidr_text_comma net p :
  char_free "," net = true → 0 <= p → char_free "," (cidr_text net p) = true.
Proof. intros Hn Hp. unfold cidr_text. by rewrite !char_free_app, Hn, dec_free. Qed.

(** Both kinds of texts are one item of a rule's address list. *)
Lemma single_item t :
  char_free "," t = true → no_ws t = true → map str_trim (str_split "," t) = [t].
Proof. intros Hc Hw. rewrite str_split_free by done. cbn. by rewrite str_trim_no_ws. Qed.

Lemma v4_reads_item t net p : v4_reads t net p → map str_trim (str_split "," t) = [t].
Proof.
  intros [Hn [[-> _]|[Hp ->]]]; apply single_item.
  - (apply v4_text_free; first [done|apply Hn]).
  - by apply v4_text_no_ws.
  - apply cidr_text_comma; [(apply v4_text_free; first [done|apply Hn])|lia].
  - apply cidr_text_no_ws; [by apply v4_text_no_ws|lia].
Qed.

Lemma v6_reads_item t x p : v6_reads t x p → map str_trim (str_split "," t) = [t].
Proof.
  intros (net & Hn & _ & Hp & ->). apply single_item.
  - apply cidr_text_comma; [|lia]. apply (parseIPv6_chars net); auto.
  - apply cidr_text_no_ws; [by apply parseIPv6_no_ws|lia].
Qed.

Lemma ipInCidr_v4_reads x t net p :
  v4_ok x → v4_reads t net p →
  ipInCidr (v4_text x) t = Ok (net_part 32 p x =? net_part 32 p net).
Proof.
  intros Hx [Hn [[-> ->]|[Hp ->]]]; [|by apply ipInCidr_v4].
  unfold ipInCidr. rewrite !v4_text_truthy, isIPv6_v4_text by apply Hx. cbn [negb orb].
  unfold ipv4InCidr. rewrite index_of_free by (by apply v4_text_no_slash). cbn [Z.ltb Z.compare].
  rewrite v4_text_eqb by done. unfold net_part. by rewrite !Z.div_1_r.
Qed.

Lemma ipv4CidrContains_plain_l a b :
  char_free "/" a = true → ipv4CidrContains a b = ipv4CidrContains (cidr_text a 32) b.
Proof.
  intros Ha. unfold ipv4CidrContains.
  rewrite cidr_text_index, str_len_nonneg, cidr_text_net, cidr_text_prefix, (index_of_free "/" a) by done.
  rewrite parseInt_dec by (lia || apply prefix_safe; lia). reflexivity.
Qed.

Lemma ipv4CidrContains_plain_r a b :
  char_free "/" b = true → ipv4CidrContains a b = ipv4CidrContains a (cidr_text b 32).
Proof.
  intros Hb. unfold ipv4CidrContains.
  rewrite (cidr_text_index b), str_len_nonneg, cidr_text_net, cidr_text_prefix, (index_of_free "/" b) by done.
  rewrite (parseInt_dec 32) by (lia || apply prefix_safe; lia). reflexivity.
Qed.

Lemma v4_reads_contains a b na pa nb pb :
  v4_reads a na pa → v4_reads b nb pb →
  ipv4CidrContains a b = (pa <=? pb) && (net_part 32 pa na =? net_part 32 pa nb).
Proof.
  intros [Hna Ha] [Hnb Hb].
  assert (ipv4CidrContains a b = ipv4CidrContains (cidr_text (v4_text na) pa) (cidr_text (v4_text nb) pb)) as ->.
  { destruct Ha as [[-> ->]|[Hpa ->]]; [rewrite ipv4CidrContains_plain_l by (by apply v4_text_no_slash)|];
      (destruct Hb as [[-> ->]|[Hpb ->]];
        [rewrite ipv4CidrContains_plain_r by (by apply v4_text_no_slash)|]); done. }
  rewrite ipv4CidrContains_value, !v4_text_value; [done|done|done| | | |].
  - by apply v4_text_no_slash.
  - by apply v4_text_no_slash.
  - destruct Ha as [[_ ->]|[? _]]; lia.
  - destruct Hb as [[_ ->]|[? _]]; lia.
Qed.

Lemma v4_reads_family t net p : v4_reads t net p → parseIPv6 (hd "" (str_split "/" t)) = false.
Proof.
  intros [Hn Ht].
  assert (hd "" (str_split "/" t) = v4_text net) as ->.
  { destruct Ht as [[-> _]|[_ ->]]; [rewrite str_split_free by (by apply v4_text_no_slash); done|].
    unfold cidr_text. change ("/" +:+ dec p) with (String "/" (dec p)).
    rewrite str_split_cons by (by apply v4_text_no_slash). done. }
  destruct (parseIPv6 (v4_text net)) eqn:E; [|done].
  apply parseIPv6_colon in E. rewrite v4_text_free in E by (done || apply Hn). done.
Qed.

Lemma v6_reads_family t x p : v6_reads t x p → parseIPv6 (hd "" (str_split "/" t)) = true.
Proof.
  intros (net & Hn & _ & _ & ->). unfold cidr_text. change ("/" +:+ dec p) with (String "/" (dec p)).
  rewrite str_split_cons by (by apply v6_no_slash). done.
Qed.

(** The simulated address and two rule texts of its family. *)
Inductive same_family (ip a b : string) : Prop :=
  | SameV4 x na pa nb pb :
      ip = v4_text x → v4_ok x → v4_reads a na pa → v4_reads b nb pb → same_family ip a b
  | SameV6 x na pa nb pb :
      parseIPv6 ip = true → v6_value ip x → v6_reads a na pa → v6_reads b nb pb → same_family ip a b.

Lemma some_res_single {A} (f : A → res bool) x : some_res f [x] = Ok true ↔ f x = Ok true.
Proof. cbn. destruct (f x) as [[]|]; cbn; naive_solver. Qed.

(** [cidrContains] is sound for the addresses of one family. *)
Lemma cidrContains_match ip a b :
  same_family ip a b → cidrContains a b = Ok true →
  some_res (ipInCidr ip) (map str_trim (str_split "," b)) = Ok true →
  some_res (ipInCidr ip) (map str_trim (str_split "," a)) = Ok true.
Proof.
  intros [x na pa nb pb -> Hx Ha Hb|x na pa nb pb Hip Hx Ha Hb]; unfold cidrContains; case_if; try done.
  - rewrite (v4_reads_item a na pa Ha), (v4_reads_item b nb pb Hb), !some_res_single.
    rewrite (v4_reads_family a na pa Ha), (v4_reads_family b nb pb Hb). cbn [andb negb].
    rewrite (v4_reads_contains a b na pa nb pb), (ipInCidr_v4_reads x a na pa), (ipInCidr_v4_reads x b nb pb) by done.
    intros [= [Hle Heq]%andb_true_iff] [= Hxb]. f_equal. bool_to_prop. apply Z.eqb_eq.
    unfold net_part in *. rewrite Heq. apply prefix_coarsen with (32 - pb); [|done].
    destruct Hb as [_ [[_ ->]|[? _]]]; lia.
  - rewrite (v6_reads_item a na pa Ha), (v6_reads_item b nb pb Hb), !some_res_single.
    rewrite (v6_reads_family a na pa Ha), (v6_reads_family b nb pb Hb). cbn [andb].
    destruct Ha as (ta & Hta & Hva & Hpa & ->), Hb as (tb & Htb & Hvb & Hpb & ->).
    assert (isIPv6 ip = true) as Hv6.
    { unfold isIPv6. rewrite str_split_free by (by apply v6_no_slash). done. }
    unfold ipInCidr. rewrite !cidr_text_truthy, Hv6. destruct (str_truthy ip); cbn [negb orb]; [|done].
    intros Hc Hm.
    apply (ipv6CidrContains_sound ta pa tb pb na nb ip x); try done; by apply v6_no_slash.
Qed.
End Addresses.

(** ** The guards of the two sides *)

Section Soundness.
Context {V : Validation} {VL : ValidationLaws V}.

Lemma all_checks_true l : all_checks l = Ok true ↔ Forall (λ c, c tt = Ok true) l.
Proof.
  induction l as [|c l IH]; cbn [all_checks]; [by split|].
  rewrite Forall_cons, <- IH. destruct (c tt) as [[]|]; cbn; naive_solver.
Qed.

Lemma opt_falsy v : opt_truthy v = false → opt_text v = None.
Proof. destruct v as [[s|l]|]; cbn; try done. by intros ->. Qed.

Lemma strict_eq_eq a b : strict_eq a b = true → a = b.
Proof. destruct a as [[?|?]|], b as [[?|?]|]; cbn; try done. by intros ->%String.eqb_eq. Qed.

Lemma or_empty_text v : opt_text (or_empty v) = opt_text v.
Proof. unfold or_empty. destruct (opt_truthy v) eqn:E; [done|]. by rewrite (opt_falsy v E). Qed.

(** When the two texts of a source or destination differ, both denote one
    prefix of the simulated address's family. *)
Definition addrs_ok (ip : string) (va vb : option uval) : Prop :=
  ∀ ta tb, va = Some (UStr ta) → vb = Some (UStr tb) → ta ≠ tb →
    char_free "," ta = true → char_free "," tb = true → same_family ip ta tb.

Lemma addr_check_falsy v ip : opt_truthy v = false → addr_check v ip = Ok true.
Proof. destruct v as [[s|l]|]; cbn; try done. by intros ->. Qed.

Lemma addr_contains_check ip va vb :
  addrs_ok ip va vb → addr_contains va vb = Ok true →
  addr_check vb ip = Ok true → addr_check va ip = Ok true.
Proof.
  unfold addr_contains. intros Hok. destruct (opt_truthy va) eqn:Ea; cbn [negb];
    [|intros _ _; by apply addr_check_falsy].
  destruct (opt_truthy vb) eqn:Eb; cbn [negb]; [|done].
  destruct (strict_eq va vb) eqn:Es; [by apply strict_eq_eq in Es as ->|].
  unfold opt_cidrContains.
  destruct va as [[ta|la]|]; [|by case_if|by case_if].
  destruct vb as [[tb|lb]|]; [|by case_if|by case_if].
  intros Hc. cbn [opt_truthy] in Ea, Eb. cbn [addr_check opt_text]. rewrite Ea, Eb.
  destruct (str_truthy ip) eqn:Ei; cbn [negb]; [|done].
  assert (ta ≠ tb) as Hne by (intros ->; cbn in Es; by rewrite String.eqb_refl in Es).
  unfold cidrContains in Hc. case_if; [done|]. fold (cidrContains ta tb) in Hc.
  rewrite !index_of_char_nonneg in Heqb. apply orb_false_iff in Heqb as [H1%negb_false_iff H2%negb_false_iff].
  apply cidrContains_match; [by apply Hok|]. unfold cidrContains.
  rewrite !index_of_char_nonneg, H1, H2. cbn [negb orb]. done.
Qed.

Lemma port_contains_check ports va vb :
  portSpecContains va vb = true → port_check vb ports = Ok true → port_check va ports = Ok true.
Proof.
  unfold portSpecContains. destruct (opt_truthy va) eqn:Ea; cbn [negb].
  - destruct (opt_truthy vb); cbn [negb]; [|done]. by intros ->%strict_eq_eq.
  - intros _ _. destruct va as [[s|l]|]; cbn in *; try done. by rewrite Ea.
Qed.

Lemma set_contains_check va vb ip cache :
  opt_truthy va && negb (strict_eq va vb) = false →
  set_check vb ip cache = Ok true → set_check va ip cache = Ok true.
Proof.
  destruct (opt_truthy va) eqn:Ea; cbn [andb].
  - by intros ->%negb_false_iff%strict_eq_eq.
  - intros _ _. unfold set_check. by rewrite opt_falsy.
Qed.

Lemma mark_contains_check a b s :
  opt_truthy (sec_opt "fwmark" a)
  && (negb (opt_truthy (sec_opt "fwmark" b))
      || negb (strict_eq (sec_opt "fwmark" a) (sec_opt "fwmark" b))
      || negb (strict_eq (or_empty (sec_opt "fwmask" a)) (or_empty (sec_opt "fwmask" b)))) = false →
  mark_check b s = true → mark_check a s = true.
Proof.
  unfold mark_check, sec_text. destruct (opt_truthy (sec_opt "fwmark" a)) eqn:Ea; cbn [andb].
  - intros [[_ H1%negb_false_iff]%orb_false_iff H2%negb_false_iff]%orb_false_iff.
    apply strict_eq_eq in H1, H2. rewrite <- H1.
    rewrite <- (or_empty_text (sec_opt "fwmask" a)), H2, or_empty_text. done.
  - intros _ _. by rewrite opt_falsy.
Qed.

Lemma family_contains_check a b s :
  (str_truthy (default "" (sec_text "family" a))
   && negb (String.eqb (default "" (sec_text "family" a)) (default "" (sec_text "family" b)))) = false →
  family_check b s = true → family_check a s = true.
Proof.
  unfold family_check. cbv zeta. destruct (str_truthy (default "" (sec_text "family" a))) eqn:Ea; cbn [andb].
  - intros H%negb_false_iff%String.eqb_eq. rewrite <- H, Ea. done.
  - done.
Qed.

Lemma proto_contains_check a b s :
  (negb (String.eqb (default "all" (sec_text "proto" a)) "all")
   && negb (String.eqb (default "all" (sec_text "proto" a)) (default "all" (sec_text "proto" b)))) = false →
  proto_check b s = true → proto_check a s = true.
Proof.
  unfold proto_check. cbv zeta.
  destruct (String.eqb (default "all" (sec_text "proto" a)) "all") eqn:Ea; cbn [andb negb]; [done|].
  intros H%negb_false_iff%String.eqb_eq. rewrite <- H, Ea. done.
Qed.

(** What [ruleAContainsB] answers is so in the simulation. *)
Lemma contains_sound a b s cache :
  addrs_ok (sm_src_ip s) (sec_opt "src_ip" a) (sec_opt "src_ip" b) →
  addrs_ok (sm_dst_ip s) (sec_opt "dest_ip" a) (sec_opt "dest_ip" b) →
  ruleAContainsB a b = Ok true →
  ruleMatches b s cache = Ok true → ruleMatches a s cache = Ok true.
Proof.
  intros Hsrc Hdst. unfold ruleAContainsB. cbv zeta.
  destruct (_ && negb (String.eqb (default "" _) _)) eqn:Hf; [done|].
  destruct (_ && negb (String.eqb (default "all" (sec_text "proto" a)) (default "all" (sec_text "proto" b)))) eqn:Hp; [done|].
  intros (src & Hs & H)%rbind_Ok_inv. destruct src; cbn [negb] in H; [|done].
  apply rbind_Ok_inv in H as (dst & Hd & H). destruct dst; cbn [negb] in H; [|done].
  destruct (portSpecContains (sec_opt "src_port" a) _) eqn:Hsp; cbn [negb] in H; [|done].
  destruct (portSpecContains (sec_opt "dest_port" a) _) eqn:Hdp; cbn [negb] in H; [|done].
  destruct (opt_truthy (sec_opt "fwmark" a) && _) eqn:Hm; [done|].
  destruct (opt_truthy (sec_opt "ipset" a) && _) eqn:Hi; [done|].
  destruct (opt_truthy (sec_opt "ipset_src" a) && _) eqn:His; [done|].
  unfold ruleMatches. rewrite !all_checks_true. unfold rule_checks.
  rewrite !Forall_cons. intros (C1 & C2 & C3 & C4 & C5 & C6 & C7 & C8 & C9 & _).
  injection C1 as C1. injection C2 as C2. injection C9 as C9.
  split_and!; try apply Forall_nil_2.
  - f_equal. by apply (family_contains_check a b).
  - f_equal. by apply (proto_contains_check a b).
  - by apply (addr_contains_check _ _ (sec_opt "src_ip" b)).
  - by apply (addr_contains_check _ _ (sec_opt "dest_ip" b)).
  - by apply (port_contains_check _ _ (sec_opt "src_port" b)).
  - by apply (port_contains_check _ _ (sec_opt "dest_port" b)).
  - by apply (set_contains_check _ (sec_opt "ipset_src" b)).
  - by apply (set_contains_check _ (sec_opt "ipset" b)).
  - f_equal. by apply (mark_contains_check a b).
Qed.

(** C4: a shadowing reported by the static analysis is real: when
    [ruleAContainsB] answers true, every simulated packet the later rule
    matches is matched by the earlier one, provided that source and
    destination texts that differ are single prefixes of the packet's family
    (lists of addresses are only ever compared as equal texts). *)
Theorem ruleAContainsB_sound a b s cache :
  addrs_ok (sm_src_ip s) (sec_opt "src_ip" a) (sec_opt "src_ip" b) →
  addrs_ok (sm_dst_ip s) (sec_opt "dest_ip" a) (sec_opt "dest_ip" b) →
  ruleAContainsB a b = Ok true →
  ruleMatches b s cache = Ok true → ruleMatches a s cache = Ok true.
Proof. apply contains_sound. Qed.
End Soundness.

(** An earlier rule for 10.0.0.0/8 and a later one for the host 10.1.2.3. *)
Definition wide_rule : section := mkSection "wide" "rule" [("src_ip", UStr (cidr_text (v4_text 167772160) 8))].
Definition host_rule : section :=
  mkSection "host" "rule" [("src_ip", UStr (v4_text 167838211)); ("proto", UStr "tcp")].
Definition host_packet : sim := mkSim (v4_text 167838211) "" "tcp" "" "" "" "".

Lemma ruleAContainsB_sound_witness : ruleMatches wide_rule host_packet [] = Ok true.
Proof.
  apply (ruleAContainsB_sound wide_rule host_rule).
  - intros ta tb Ha Hb _ _ _.
    assert (ta = cidr_text (v4_text 167772160) 8) as -> by (injection Ha; auto).
    assert (tb = v4_text 167838211) as -> by (injection Hb; auto).
    apply (SameV4 _ _ _ 167838211 167772160 8 167838211 32); [reflexivity|split; reflexivity || discriminate| |].
    + split; [split; reflexivity || discriminate|]. right. split; [lia|reflexivity].
    + split; [split; reflexivity || discriminate|]. left. split; reflexivity.
  - intros ta tb Ha. discriminate Ha.
  - vm_compute. reflexivity.
  - vm_compute. reflexivity.
Defined.

(** ** Error issues *)

Lemma flat_map_elem {A B} (f : A → list B) l x : x ∈ flat_map f l ↔ ∃ y, y ∈ l ∧ x ∈ f y.
Proof. rewrite list_elem_of_In, in_flat_map. by setoid_rewrite list_elem_of_In. Qed.

Lemma each_elem {A B} (o : jsobj A) (f : string → A → list B) x :
  x ∈ each o f ↔ ∃ k v, obj_own k o = Some v ∧ x ∈ f k v.
Proof.
  unfold each. rewrite flat_map_elem. split.
  - intros (k & _ & Hx). destruct (obj_own k o) as [v|] eqn:E; [by exists k, v|by apply not_elem_of_nil in Hx].
  - intros (k & v & Hk & Hx). exists k. rewrite Hk. split; [|done]. by apply obj_keys_elem; rewrite Hk.
Qed.

Section Errors.
Context {V : Validation} {I : I18n} {St : Type} {U : Uci St} {UL : UciLaws U}.

Definition of_type (st : St) (ty : string) : list section := sections_of_type ty (uci_view st "mwan3").

(** A section of the type bears the name. *)
Definition declared (st : St) (ty n : string) : Prop := n ∈ names (of_type st ty).

(** A reference the tables resolve: a section of the type bears the name, or
    every object inherits a property of that name ([constructor], say). *)
Definition found (st : St) (ty n : string) : Prop := in_proto n = true ∨ declared st ty n.

(** Section names are keys: unique per type and not the one name that is no
    key. *)
Record names_ok (st : St) : Prop := mkNamesOk {
  no_unique ty : NoDup (names (of_type st ty));
  no_proto ty : "__proto__" ∉ names (of_type st ty);
}.

Lemma table_own {A} (g : section → A) st ty n v :
  names_ok st →
  obj_own n (fold_left (λ o s, obj_set (sec_name s) (g s) o) (uci_sections st "mwan3" ty) []) = Some v ↔
  ∃ s, s ∈ of_type st ty ∧ sec_name s = n ∧ v = g s.
Proof.
  intros Hok. rewrite sections_view. fold (of_type st ty).
  rewrite fold_set_own by apply Hok. split.
  - destruct (find_section n (of_type st ty)) as [s|] eqn:E; [|done]. intros [= <-].
    apply find_section_name in E as [? ?]. by exists s.
  - intros (s & Hs & <- & ->). by rewrite find_unique by (done || apply Hok).
Qed.

Lemma table_has {A} (g : section → A) st ty n :
  names_ok st →
  obj_has n (fold_left (λ o s, obj_set (sec_name s) (g s) o) (uci_sections st "mwan3" ty) []) = true ↔
  found st ty n.
Proof.
  intros Hok. rewrite obj_has_or, orb_true_iff. unfold found, declared, names. rewrite list_elem_of_fmap.
  apply or_iff_compat_l. destruct (obj_own n _) as [v|] eqn:E.
  - apply (table_own g st ty n v Hok) in E as (s & ? & ? & _). naive_solver.
  - split; [done|]. intros (s & -> & Hs).
    pose proof (proj2 (table_own g st ty (sec_name s) (g s) Hok)) as H. rewrite H in E; [done|by exists s].
Qed.

(** Every reference of an enabled part of the configuration resolves and every
    policy has members. *)
Definition consistent (st : St) : Prop :=
  (∀ m, m ∈ of_type st "member" → found st "interface" (default "" (sec_text "interface" m))) ∧
  (∀ p, p ∈ of_type st "policy" →
     opt_list (sec_opt "use_member" p) ≠ [] ∧
     ∀ m, m ∈ opt_list (sec_opt "use_member" p) → found st "member" m) ∧
  (∀ r p, r ∈ of_type st "rule" → rule_disabled r = false → rule_policy r = Some p →
     p ∈ ["unreachable"; "blackhole"; "default"] ∨ found st "policy" p).

Lemma shadow_not_error rules l i : shadow_issues rules = Ok l → i ∈ l → is_error i = false.
Proof.
  revert l. induction rules as [|a rest IH]; intros l; cbn [shadow_issues].
  { intros [= <-] []%not_elem_of_nil. }
  intros (l1 & H1 & (l2 & H2 & [= <-])%rbind_Ok_inv)%rbind_Ok_inv. rewrite elem_of_app. intros [Hi|Hi]; [|by eapply IH].
  revert l1 H1 Hi. clear. induction rest as [|b rest IH]; intros l1; cbn [shadowed_by].
  { intros [= <-] []%not_elem_of_nil. }
  intros (c & _ & (l & H & [= <-])%rbind_Ok_inv)%rbind_Ok_inv. destruct c; [|by apply IH].
  intros [->|Hi]%elem_of_cons; [done|by eapply IH].
Qed.

Ltac absurd_nil := match goal with H : _ ∈ [] |- _ => by apply not_elem_of_nil in H end.

Lemma member_errors st i :
  names_ok st →
  i ∈ member_ref_issues (load_data st) ↔
  ∃ m, m ∈ of_type st "member" ∧ ¬ found st "interface" (default "" (sec_text "interface" m)) ∧
       i = MemberNoInterface (sec_name m) (default "" (sec_text "interface" m)).
Proof.
  intros Hok. unfold member_ref_issues. rewrite each_elem. split.
  - intros (k & v & (m & Hm & <- & ->)%table_own & Hi); [|done].
    cbn [md_interface member_of] in Hi.
    pose proof (table_has (λ _, true) st "interface" (default "" (sec_text "interface" m)) Hok) as Ht. cbn [ud_interfaces load_data] in Hi. unfold interfaces_of in Hi.
    destruct (obj_has _ _); [absurd_nil|]. apply list_elem_of_singleton in Hi as ->.
    exists m. split_and!; [done| |done]. intros Hd. apply Ht in Hd. done.
  - intros (m & Hm & Hn & ->). exists (sec_name m), (member_of m). split; [apply table_own; eauto|].
    cbn [md_interface member_of ud_interfaces load_data]. unfold interfaces_of.
    pose proof (table_has (λ _, true) st "interface" (default "" (sec_text "interface" m)) Hok) as Ht.
    destruct (obj_has _ _); [by destruct Hn; apply Ht|by left].
Qed.

Lemma policy_errors st i :
  names_ok st →
  i ∈ policy_issues (load_data st) ∧ is_error i = true ↔
  ∃ p, p ∈ of_type st "policy" ∧
    (opt_list (sec_opt "use_member" p) = [] ∧ i = PolicyEmpty (sec_name p) ∨
     ∃ m, m ∈ opt_list (sec_opt "use_member" p) ∧ ¬ found st "member" m ∧ i = PolicyNoMember (sec_name p) m).
Proof.
  intros Hok. unfold policy_issues. rewrite each_elem. split.
  - intros [(k & v & (p & Hp & <- & ->)%table_own & Hi) He]; [|done].
    exists p. split; [done|]. unfold policy_issues_of in Hi. cbn [pd_use_member policy_of] in Hi.
    rewrite !elem_of_app in Hi. destruct Hi as [Hi|[Hi|Hi]].
    + left. destruct (opt_list _); [|absurd_nil]. by apply list_elem_of_singleton in Hi.
    + right. apply flat_map_elem in Hi as (m & Hm & Hi). exists m.
      pose proof (table_has member_of st "member" m Hok) as Ht.
      cbn [ud_members load_data] in Hi. unfold members_of in Hi.
      destruct (obj_has _ _); [absurd_nil|]. apply list_elem_of_singleton in Hi as ->.
      split_and!; [done| |done]. intros Hd. apply Ht in Hd. done.
    + repeat case_match; try absurd_nil. apply list_elem_of_singleton in Hi as ->. done.
  - intros (p & Hp & Hi). split; [|destruct Hi as [[_ ->]|(m & _ & _ & ->)]; done].
    exists (sec_name p), (policy_of p). split; [apply table_own; eauto|].
    unfold policy_issues_of. cbn [pd_use_member policy_of]. rewrite !elem_of_app.
    destruct Hi as [[-> ->]|(m & Hm & Hn & ->)]; [left; by left|]. right. left.
    apply flat_map_elem. exists m. split; [done|]. cbn [ud_members load_data]. unfold members_of.
    pose proof (table_has member_of st "member" m Hok) as Ht.
    destruct (obj_has _ _); [by destruct Hn; apply Ht|by left].
Qed.

Lemma enabled_rule_elem st r :
  r ∈ enabled_rules st ↔ r ∈ of_type st "rule" ∧ rule_disabled r = false.
Proof. unfold enabled_rules. rewrite sections_view, list_elem_of_In, filter_In, <- list_elem_of_In. by rewrite negb_true_iff. Qed.

Lemma builtin_has p :
  obj_has p builtin_names = true ↔ in_proto p = true ∨ p ∈ ["unreachable"; "blackhole"; "default"].
Proof.
  rewrite obj_has_or, orb_true_iff. apply or_iff_compat_l. unfold builtin_names, obj_own.
  rewrite !elem_of_cons, elem_of_nil.
  destruct (String.eqb_spec p "unreachable"), (String.eqb_spec p "blackhole"), (String.eqb_spec p "default");
    (split; [first [discriminate | intros _; tauto]|]); intros H; destruct_or! H; congruence || done.
Qed.

Lemma rule_errors st i :
  names_ok st →
  i ∈ rule_ref_issues (load_data st) ↔
  ∃ r p, r ∈ of_type st "rule" ∧ rule_disabled r = false ∧ rule_policy r = Some p ∧
    p ∉ ["unreachable"; "blackhole"; "default"] ∧ ¬ found st "policy" p ∧
    i = RuleNoPolicy (sec_name r) p.
Proof.
  intros Hok. unfold rule_ref_issues. rewrite flat_map_elem. cbn [ud_rules ud_policies load_data].
  unfold policies_of. setoid_rewrite enabled_rule_elem. split.
  - intros (r & [Hr Hd] & Hi). destruct (rule_policy r) as [p|] eqn:Ep; [|absurd_nil].
    pose proof (table_has policy_of st "policy" p Hok) as Ht. pose proof (builtin_has p) as Hb.
    exists r, p. destruct (obj_has p builtin_names); cbn [orb] in Hi; [absurd_nil|].
    destruct (obj_has p _); [absurd_nil|]. apply list_elem_of_singleton in Hi as ->.
    split_and!; try done; [intros H; pose proof (proj2 Hb (or_intror H)); done|intros H; by apply Ht in H].
  - intros (r & p & Hr & Hd & Ep & Hnb & Hnd & ->). exists r. split; [done|]. rewrite Ep.
    pose proof (table_has policy_of st "policy" p Hok) as Ht. pose proof (builtin_has p) as Hb.
    destruct (obj_has p builtin_names);
      [by destruct (proj1 Hb eq_refl) as [Hp|Hp]; [destruct Hnd; left|destruct Hnb]|]. cbn [orb].
    destruct (obj_has p _); [by destruct Hnd; apply Ht|by left].
Qed.

Lemma unused_not_error {A} (o : jsobj A) (u : jsobj bool) (f : string → issue) i :
  (∀ n, is_error (f n) = false) → i ∈ each o (λ n _, if obj_has n u then [] else [f n]) → is_error i = false.
Proof.
  intros Hf (k & v & _ & Hi)%each_elem. destruct (obj_has k u); [absurd_nil|].
  by apply list_elem_of_singleton in Hi as ->.
Qed.

Lemma collect_errors st issues i :
  names_ok st → collectIssues (load_data st) = Ok issues →
  i ∈ issues ∧ is_error i = true ↔
  i ∈ member_ref_issues (load_data st)
  ∨ i ∈ policy_issues (load_data st) ∧ is_error i = true ∨ i ∈ rule_ref_issues (load_data st).
Proof.
  intros Hok. unfold collectIssues. intros (sh & Hsh & [= <-])%rbind_Ok_inv. rewrite !elem_of_app. split.
  - intros [[H|[H|[H|[H|[H|[H|H]]]]]] He]; try naive_solver.
    + pose proof (unused_not_error _ _ MemberUnused i (λ _, eq_refl) H). congruence.
    + pose proof (unused_not_error _ _ PolicyUnused i (λ _, eq_refl) H). congruence.
    + pose proof (shadow_not_error _ sh i Hsh H). congruence.
    + pose proof (unused_not_error _ _ InterfaceUnused i (λ _, eq_refl) H). congruence.
  - intros [H|[[H He]|H]]; (split; [tauto|]); try done.
    + apply member_errors in H as (m & _ & _ & ->); done.
    + apply rule_errors in H as (r & p & _ & _ & _ & _ & _ & ->); done.
Qed.

#[local] Instance found_dec st ty n : Decision (found st ty n).
Proof. unfold found, declared. apply _. Defined.

(** No error is reported for a consistent configuration, and for no other. *)
Lemma no_errors_consistent st issues :
  names_ok st → collectIssues (load_data st) = Ok issues →
  (∀ i, i ∈ issues → is_error i = false) ↔ consistent st.
Proof.
  intros Hok Hc.
  assert ((∀ i, i ∈ issues → is_error i = false) ↔ ∀ i, ¬ (i ∈ issues ∧ is_error i = true)) as ->.
  { split; intros H i; [intros [Hi He]; by rewrite H in He|]. intros Hi. apply not_true_iff_false. naive_solver. }
  setoid_rewrite (collect_errors st issues _ Hok Hc).
  setoid_rewrite (member_errors st _ Hok). setoid_rewrite (policy_errors st _ Hok).
  setoid_rewrite (rule_errors st _ Hok). unfold consistent. split.
  - intros H. split_and!.
    + intros m Hm. destruct (decide (found st "interface" (default "" (sec_text "interface" m)))); [done|].
      destruct (H _ (or_introl (ex_intro _ m (conj Hm (conj n eq_refl))))).
    + intros p Hp. split.
      * intros Hn. destruct (H (PolicyEmpty (sec_name p))). naive_solver.
      * intros m Hm. destruct (decide (found st "member" m)); [done|].
        destruct (H (PolicyNoMember (sec_name p) m)). right. left. exists p. split; [done|]. right. by exists m.
    + intros r p Hr Hd Hp. destruct (decide (p ∈ ["unreachable"; "blackhole"; "default"])); [by left|].
      destruct (decide (found st "policy" p)); [by right|].
      destruct (H (RuleNoPolicy (sec_name r) p)). right. right. by exists r, p.
  - intros (H1 & H2 & H3) i [(m & Hm & Hn & _)|[(p & Hp & [[He _]|(m & Hm & Hn & _)])|(r & p & Hr & Hd & Hp & Hb & Hn & _)]].
    + by apply Hn, H1.
    + by apply (H2 p Hp).
    + by apply Hn, (H2 p Hp).
    + destruct (H3 r p Hr Hd Hp); done.
Qed.

End Errors.

(** A small configuration with one unresolved member reference. *)
Definition sample_cfg : list section :=
  [mkSection "wan" "interface" [];
   mkSection "m1" "member" [("interface", UStr "wan")];
   mkSection "p1" "policy" [("use_member", UList ["m1"; "gone"])];
   mkSection "r1" "rule" [("use_policy", UStr "p1")]].

Definition sample_store : mem_uci := λ _, sample_cfg.

Lemma sample_names_ok : names_ok (U := mem_uci_store) sample_store.
Proof.
  constructor.
  - intros ty. apply filter_names_NoDup. apply (bool_decide_eq_true_1 _). vm_compute. reflexivity.
  - intros ty H%sections_of_type_names. revert H. apply (bool_decide_eq_true_1 _). vm_compute. reflexivity.
Qed.


(** ** What the page parses as HTML *)

Lemma html_of_issue_card {I : I18n} i :
  html_of (issue_card i) = [severityLabel i; issue_subject i; issue_detail i].
Proof. reflexivity. Qed.

(** The subject of every issue, which quotes section names and option
    values of the configuration, is handed to the page as HTML: a reference
    that contains markup is rendered as markup. *)
Theorem issue_subject_parsed {I : I18n} issues i :
  i ∈ issues → issue_subject i ∈ html_of (render_configuration issues).
Proof.
  intros Hi. unfold render_configuration, renderSummary, summaryBar.
  cbn [html_of flat_map app]. right. right. rewrite !app_nil_r.
  unfold renderIssues. destruct issues as [|j l]; [by apply not_elem_of_nil in Hi|].
  rewrite html_of_E. cbn [html_of_kids]. apply flat_map_elem. exists (issue_card i). split.
  - apply list_elem_of_fmap. eauto.
  - rewrite html_of_issue_card. right. left.
Qed.

Lemma issue_subject_parsed_witness :
  issue_subject (I := plain_i18n) (PolicyNoMember "p1" "<img src=x onerror=alert(1)>") ∈
  html_of (render_configuration (I := plain_i18n) [PolicyNoMember "p1" "<img src=x onerror=alert(1)>"]).
Proof. apply issue_subject_parsed. left. Defined.

(** A rule whose policy is named like a member of [Object.prototype]. *)
Definition proto_rule_cfg : list section :=
  [mkSection "r1" "rule" [("use_policy", UStr "constructor"); ("src_ip", UStr "10.0.0.1")]].

(** A rule that references a policy that does not exist goes unreported
    when the policy's name is a member of [Object.prototype]. *)
Theorem proto_policy_unreported :
  collectIssues (V := plain_validation) (load_data (U := mem_uci_store) (λ _ : string, proto_rule_cfg)) = Ok [].
Proof. vm_compute. reflexivity. Qed.

(** A rule's IPv6 host address is compared as text: a rule written with a
    different spelling of the simulated address does not match it, although
    both spellings denote the same 128-bit value. *)
Theorem ipv6_host_textual :
  ipv6ToBigInt "2001:db8:0:0:0:0:0:1" = ipv6ToBigInt "2001:db8::1" ∧
  ipInCidr (V := plain_validation) "2001:db8::1" "2001:db8:0:0:0:0:0:1" = Ok false.
Proof. vm_compute. split; reflexivity. Qed.
