(* ===== verification/Globals.v ===== *)
(** [view/mwan3/network/globals.js] and [resources/mwan3/constants.js]: the
    global settings form, the capacity of the firewall mask, and the checks
    that keep the ip rule priority bands apart. *)
From stdpp Require Import base list strings.
From Stdlib Require Import ZArith Lia Ascii Bool.
From S2P Require Import Prelude JsNum JsString JsArray JsObject Luci Forms Components Configuration.

(** ** Constants *)

Record rule_bases : Type := mkBases {
  rb_iif : Z;
  rb_fwmark : Z;
  rb_unreachable : Z;
  rb_src : Z;
}.

Definition RULE_BASE_DEFAULTS : rule_bases := mkBases 1000 2000 3000 3061.
Definition MMX_MASK_DEFAULT : string := "0x3F00".

(** ** Mask capacity *)

(** [while (n) { bits += n & 1; n >>>= 1; }]: [None] when the fuel runs out. *)
Fixpoint countBits_go (fuel : nat) (n : num) (bits : Z) : option Z :=
  match fuel with
  | O => None
  | S f =>
      if num_truthy n then
        countBits_go f (num_ushr n (Fin 1)) (bits + match num_and n (Fin 1) with Fin b => b | _ => 0 end)
      else Some bits
  end.

(** The first shift leaves at most 31 bits, each later one takes one away. *)
Definition countBits (n : num) : option Z := countBits_go 34 n 0.

(** Form values by option name; [None] when the option or its value is missing. *)
Definition form_values : Type := string → option string.

Definition mask_of (f : form_values) : num :=
  let mask := parseInt (match f "mmx_mask" with
                        | Some s => if str_truthy s then s else MMX_MASK_DEFAULT
                        | None => MMX_MASK_DEFAULT end) 16 in
  if is_NaN mask || num_eqb mask (Fin 0) then parseInt MMX_MASK_DEFAULT 16 else mask.

(** [(1 << countBits(mask)) - 4] *)
Definition interfaceMax (f : form_values) : num :=
  match countBits (mask_of f) with
  | Some b => num_sub (num_shl (Fin 1) (Fin b)) (Fin 4)
  | None => NaN
  end.

Definition liveInt (f : form_values) (name : string) (fallback : Z) : num :=
  match f name with
  | None => Fin fallback
  | Some s => let n := parseInt s 10 in if is_NaN n then Fin fallback else n
  end.

Section Globals.
Context {I : I18n}.

(** ** Validation of the three bases *)

Definition blank (value : string) : bool := negb (str_truthy value).

Definition iif_validate (f : form_values) (value : string) : verdict :=
  if blank value then Valid
  else
    let iif := parseInt value 10 in
    let max := interfaceMax f in
    let fwmark := liveInt f "fwmark_rule_base" (rb_fwmark RULE_BASE_DEFAULTS) in
    if num_leb fwmark (num_add iif max) then
      Invalid (format (tr "IIF rule base (%d) + %d max interfaces = %d, must be less than Fwmark rule base (%d)")
                 [FNum iif; FNum max; FNum (num_add iif max); FNum fwmark])
    else Valid.

Definition fwmark_validate (f : form_values) (value : string) : verdict :=
  if blank value then Valid
  else
    let fwmark := parseInt value 10 in
    let max := interfaceMax f in
    let iif := liveInt f "iif_rule_base" (rb_iif RULE_BASE_DEFAULTS) in
    let unreach := liveInt f "unreachable_rule_base" (rb_unreachable RULE_BASE_DEFAULTS) in
    if num_leb fwmark (num_add iif max) then
      Invalid (format (tr "Fwmark rule base (%d) must exceed IIF rule base (%d) + %d max interfaces = %d")
                 [FNum fwmark; FNum iif; FNum max; FNum (num_add iif max)])
    else if num_leb unreach (num_add (num_add fwmark max) (Fin 1)) then
      Invalid (format (tr "Fwmark rule base (%d) + %d max interfaces + 1 = %d, must be less than Unreachable rule base (%d)")
                 [FNum fwmark; FNum max; FNum (num_add (num_add fwmark max) (Fin 1)); FNum unreach])
    else Valid.

Definition unreach_validate (f : form_values) (value : string) : verdict :=
  if blank value then Valid
  else
    let unreach := parseInt value 10 in
    let max := interfaceMax f in
    let fwmark := liveInt f "fwmark_rule_base" (rb_fwmark RULE_BASE_DEFAULTS) in
    if num_leb unreach (num_add (num_add fwmark max) (Fin 1)) then
      Invalid (format (tr "Unreachable rule base (%d) must exceed Fwmark rule base (%d) + %d max interfaces + 1 = %d")
                 [FNum unreach; FNum fwmark; FNum max; FNum (num_add (num_add fwmark max) (Fin 1))])
    else Valid.

(** The descriptions [o.render] computes from the mask. *)
Definition fwmark_description (f : form_values) : string :=
  format (tr "Base priority for per-interface fwmark lookup ip rules. Must be at least %d above IIF rule base.")
    [FNum (num_add (interfaceMax f) (Fin 1))].

Definition unreach_description (f : form_values) : string :=
  format (tr "Base priority for per-interface fwmark unreachable ip rules. Must be at least %d above Fwmark rule base.")
    [FNum (num_add (interfaceMax f) (Fin 2))].

(** ** The form *)

Definition globals_form : form_section :=
  mkFormSection (NamedSection "globals") "globals" false false false false
    [option_ Value "mmx_mask" (tr "Firewall mask") (tr "Enter value in hex, starting with <code>0x</code>")
       ▷ datatype "hex(4)" ▷ dflt MMX_MASK_DEFAULT;
     option_ Value "iif_rule_base" (tr "IIF rule base")
       (tr "Base priority for per-interface incoming interface ip rules. Default preserves historical behaviour.")
       ▷ datatype "range(1, 32766)" ▷ dflt (dec (rb_iif RULE_BASE_DEFAULTS))
       ▷ placeholder (dec (rb_iif RULE_BASE_DEFAULTS));
     option_ Value "fwmark_rule_base" (tr "Fwmark rule base") ""
       ▷ datatype "range(1, 32766)" ▷ dflt (dec (rb_fwmark RULE_BASE_DEFAULTS))
       ▷ placeholder (dec (rb_fwmark RULE_BASE_DEFAULTS));
     option_ Value "unreachable_rule_base" (tr "Unreachable rule base") ""
       ▷ datatype "range(1, 32766)" ▷ dflt (dec (rb_unreachable RULE_BASE_DEFAULTS))
       ▷ placeholder (dec (rb_unreachable RULE_BASE_DEFAULTS));
     option_ Flag "logging" (tr "Logging") (tr "Enables global firewall logging");
     option_ Flag "verbose_logging" (tr "Verbose logging") (tr "Enables debug level logging for mwan3");
     option_ ListValue "loglevel" (tr "Loglevel") (tr "Firewall loglevel") ▷ dflt "notice"
       ▷ values [("emerg", tr "Emergency"); ("alert", tr "Alert"); ("crit", tr "Critical");
                 ("error", tr "Error"); ("warning", tr "Warning"); ("notice", tr "Notice");
                 ("info", tr "Info"); ("debug", tr "Debug")]
       ▷ depends "logging" "1";
     option_ DynamicList "rt_table_lookup" (tr "Routing table bypass")
       (tr "Networks from these routing tables bypass mwan3 policy routing and use the default route. Enter routing table number or name (see /etc/iproute2/rt_tables).")
       ▷ values [("220", tr "Routing table 220")];
     option_ DynamicList "bypass_network" (tr "Bypass networks")
       (tr "Traffic to these networks bypasses mwan3 policy routing and uses the default route. Enter IPv4 or IPv6 CIDR.")
       ▷ datatype "cidr"].

(** ** Restarting after a change of base

    [handleSaveApply] compares the bases before and after the save and, when
    one differs, registers a listener that restarts the service once, on the
    next 'uci-applied' event. *)
Definition bases_get {St} {U : Uci St} (st : St) : option uval * option uval * option uval :=
  (uci_get st "mwan3" "globals" "iif_rule_base", uci_get st "mwan3" "globals" "fwmark_rule_base",
   uci_get st "mwan3" "globals" "unreachable_rule_base").

Definition bases_changed (old new : option uval * option uval * option uval) : bool :=
  negb (strict_eq (fst (fst new)) (fst (fst old))) || negb (strict_eq (snd (fst new)) (snd (fst old)))
  || negb (strict_eq (snd new) (snd old)).

Record restart_state : Type := mkRestart {
  rst_listeners : nat;
  rst_restarts : nat;
}.

Inductive restart_event : Type :=
  | SaveApply (old new : option uval * option uval * option uval)
  | UciApplied.

Definition restart_step (s : restart_state) (e : restart_event) : restart_state :=
  match e with
  | SaveApply old new =>
      if bases_changed old new then mkRestart (S (rst_listeners s)) (rst_restarts s) else s
  | UciApplied => mkRestart 0 (rst_listeners s + rst_restarts s)
  end.
End Globals.

(** ** Facts *)

(** The number of set bits among the low [n]. *)
Fixpoint popcount (n : nat) (z : Z) : Z :=
  match n with
  | O => 0
  | S k => (if Z.odd z then 1 else 0) + popcount k (Z.div2 z)
  end.

Lemma popcount_zero n : popcount n 0 = 0.
Proof. induction n as [|n IH]; [done|]. cbn. exact IH. Qed.

Lemma popcount_trim n k z : 0 <= z < 2 ^ Z.of_nat k → (k <= n)%nat → popcount n z = popcount k z.
Proof.
  revert n z. induction k as [|k IH]; intros n z Hz Hkn.
  { replace z with 0 by lia. apply popcount_zero. }
  destruct n as [|n]; [lia|]. cbn [popcount]. f_equal. apply IH; [|lia].
  rewrite Nat2Z.inj_succ, Z.pow_succ_r in Hz by lia. rewrite Z.div2_div.
  split; [apply Z.div_pos; lia|apply Z.div_lt_upper_bound; lia].
Qed.

Lemma ushr1_small z : 0 <= z < 2 ^ 32 → num_ushr (Fin z) (Fin 1) = Fin (Z.div2 z).
Proof.
  intros Hz. unfold num_ushr. cbn [to_u32]. rewrite wrap_u32_small by done.
  change (wrap_u32 1 mod 32) with 1. by rewrite Z.div2_spec.
Qed.

Lemma and1 z : num_and (Fin z) (Fin 1) = Fin (if Z.odd z then 1 else 0).
Proof.
  unfold num_and. cbn [to_i32]. f_equal. change (wrap_i32 1) with 1.
  rewrite (Z.land_ones _ 1) by lia. change (2 ^ 1) with 2.
  assert (Z.odd (wrap_i32 z) = Z.odd z) as <-.
  { rewrite <- !Z.bit0_odd. rewrite wrap_i32_testbit by lia. done. }
  rewrite Zmod_odd. by destruct (Z.odd _).
Qed.

Lemma countBits_go_small k fuel z bits :
  0 <= z < 2 ^ Z.of_nat k → (k <= 32)%nat → (k < fuel)%nat →
  countBits_go fuel (Fin z) bits = Some (bits + popcount k z).
Proof.
  revert fuel z bits. induction k as [|k IH]; intros fuel z bits Hz Hk Hf.
  { destruct fuel; [lia|]. replace z with 0 by lia. cbn. f_equal. lia. }
  destruct fuel as [|fuel]; [lia|]. cbn [countBits_go num_truthy].
  assert (2 ^ Z.of_nat (S k) <= 2 ^ 32) by (apply Z.pow_le_mono_r; lia).
  destruct (Z.eqb_spec z 0) as [->|Hne]; cbn [negb].
  { f_equal. rewrite popcount_zero. lia. }
  rewrite ushr1_small, and1 by lia. rewrite IH.
  - cbn [popcount]. f_equal. lia.
  - rewrite Nat2Z.inj_succ, Z.pow_succ_r in Hz by lia. rewrite Z.div2_div.
    split; [apply Z.div_pos; lia|apply Z.div_lt_upper_bound; lia].
  - lia.
  - lia.
Qed.

Lemma odd_wrap z : Z.odd (wrap_u32 z) = Z.odd z.
Proof. rewrite <- !Z.bit0_odd, wrap_u32_testbit. done. Qed.

(** C19: the bit-counting loop stops on every number and yields the number of
    bits set in its 32-bit value. *)
Theorem countBits_popcount n : countBits n = Some (popcount 32 (to_u32 n)).
Proof.
  destruct n as [|s|z].
  - reflexivity.
  - destruct s; reflexivity.
  - unfold countBits. change 34%nat with (S 33). remember 33%nat as f eqn:Hf.
    cbn [countBits_go num_truthy]. cbn [to_u32].
    destruct (Z.eqb_spec z 0) as [->|Hne]; cbn [negb]; [reflexivity|].
    pose proof (wrap_u32_range z) as Hr.
    assert (num_ushr (Fin z) (Fin 1) = Fin (Z.div2 (wrap_u32 z))) as ->.
    { rewrite <- ushr1_small by done. unfold num_ushr. cbn [to_u32]. by rewrite (wrap_u32_small (wrap_u32 z)). }
    rewrite and1, (countBits_go_small 31).
    + change (popcount 32 (wrap_u32 z)) with
        ((if Z.odd (wrap_u32 z) then 1 else 0) + popcount 31 (Z.div2 (wrap_u32 z))).
      by rewrite odd_wrap.
    + change (Z.of_nat 31) with 31. change (2 ^ 32) with (2 * 2 ^ 31) in Hr. rewrite Z.div2_div.
      split; [apply Z.div_pos; lia|apply Z.div_lt_upper_bound; lia].
    + lia.
    + lia.
Qed.

Lemma blank_dec z : 0 <= z → blank (dec z) = false.
Proof. intros Hz. unfold blank. by rewrite dec_truthy. Qed.

Lemma liveInt_dec f name fallback z :
  f name = Some (dec z) → 0 <= z → safe z → liveInt f name fallback = Fin z.
Proof. intros Hf Hz Hs. unfold liveInt. by rewrite Hf, parseInt_dec. Qed.

Lemma num_leb_fin a b : num_leb (Fin a) (Fin b) = (a <=? b).
Proof. unfold num_leb. cbn. destruct (Z.ltb_spec a b), (Z.eqb_spec a b), (Z.leb_spec a b); cbn; lia || done. Qed.

(** The priorities of mwan3's rules, for the [m] interfaces the mask has room
    for: one per interface and base, two more of the fwmark tier for the global
    blackhole and unreachable rules, and the source rules that follow the
    unreachable ones after a gap of one. *)
Definition iif_band (iif m p : Z) : Prop := iif + 1 <= p <= iif + m.
Definition fwmark_band (fwmark m p : Z) : Prop := fwmark + 1 <= p <= fwmark + m + 2.
Definition unreach_band (unreach m p : Z) : Prop := unreach + 1 <= p <= unreach + m.
Definition source_band (unreach m p : Z) : Prop := unreach + m + 2 <= p <= unreach + 2 * m + 1.

(** Every priority of the first band goes before every one of the second. *)
Definition follows (a b : Z → Prop) : Prop := ∀ p q, a p → b q → p < q.

Lemma iif_follows iif fwmark m :
  1 <= m → follows (iif_band iif m) (fwmark_band fwmark m) ↔ iif + m <= fwmark.
Proof.
  intros Hm. unfold follows, iif_band, fwmark_band. split; [|lia].
  intros H. specialize (H (iif + m) (fwmark + 1)). lia.
Qed.

Lemma unreach_follows fwmark unreach m :
  1 <= m → follows (fwmark_band fwmark m) (unreach_band unreach m) ↔ fwmark + m + 1 < unreach.
Proof.
  intros Hm. unfold follows, fwmark_band, unreach_band. split; [|lia].
  intros H. specialize (H (fwmark + m + 2) (unreach + 1)). lia.
Qed.

(** C10: what each check on the rule bases accepts, for bases between 1 and
    32766 and a mask with room for at least one interface.  The unreachable base
    is accepted exactly when the unreachable rules follow the fwmark rules, the
    two global ones included; the incoming base exactly when the fwmark rules
    follow the incoming rules and the fwmark base is not the last incoming
    priority itself, one setting more than an overlap; the fwmark base exactly
    when both hold.  Where all are accepted no priority belongs to two of the
    bands, the derived source rules included. *)
Theorem bases_accepted_iff {I : I18n} f iif fwmark unreach m :
  f "iif_rule_base" = Some (dec iif) → f "fwmark_rule_base" = Some (dec fwmark) →
  f "unreachable_rule_base" = Some (dec unreach) → interfaceMax f = Fin m →
  1 <= iif <= 32766 → 1 <= fwmark <= 32766 → 1 <= unreach <= 32766 → 1 <= m <= 2 ^ 31 →
  let iif_checked := follows (iif_band iif m) (fwmark_band fwmark m) ∧ iif + m ≠ fwmark in
  let unreach_checked := follows (fwmark_band fwmark m) (unreach_band unreach m) in
  (iif_validate f (dec iif) = Valid ↔ iif_checked) ∧
  (fwmark_validate f (dec fwmark) = Valid ↔ iif_checked ∧ unreach_checked) ∧
  (unreach_validate f (dec unreach) = Valid ↔ unreach_checked) ∧
  (iif_validate f (dec iif) = Valid → unreach_validate f (dec unreach) = Valid →
   ∀ p, (iif_band iif m p → ¬ fwmark_band fwmark m p ∧ ¬ unreach_band unreach m p ∧ ¬ source_band unreach m p) ∧
        (fwmark_band fwmark m p → ¬ unreach_band unreach m p ∧ ¬ source_band unreach m p) ∧
        (unreach_band unreach m p → ¬ source_band unreach m p)).
Proof.
  intros Hi Hf Hu Hm Bi Bf Bu Bm. cbv zeta.
  rewrite iif_follows, unreach_follows by lia.
  unfold iif_validate, fwmark_validate, unreach_validate.
  rewrite !blank_dec, Hm by lia.
  rewrite (liveInt_dec f "iif_rule_base" _ iif), (liveInt_dec f "fwmark_rule_base" _ fwmark),
    (liveInt_dec f "unreachable_rule_base" _ unreach) by (done || unfold safe; lia).
  rewrite !parseInt_dec by (unfold safe; lia). cbv zeta.
  assert (∀ a, 1 <= a <= 32766 → num_add (Fin a) (Fin m) = Fin (a + m)) as Hadd
    by (intros a Ha; apply num_add_safe; unfold safe; lia).
  rewrite !Hadd by done.
  assert (num_add (Fin (fwmark + m)) (Fin 1) = Fin (fwmark + m + 1)) as Hadd1
    by (apply num_add_safe; unfold safe; lia).
  rewrite !Hadd1, !num_leb_fin.
  unfold iif_band, fwmark_band, unreach_band, source_band.
  destruct (Z.leb_spec fwmark (iif + m)), (Z.leb_spec unreach (fwmark + m + 1));
    (split_and!; [split; [try discriminate|]..|]); try done; try lia.
Qed.

Definition default_bases : form_values := λ n,
  if String.eqb n "iif_rule_base" then Some "1000"
  else if String.eqb n "fwmark_rule_base" then Some "2000"
  else if String.eqb n "unreachable_rule_base" then Some "3000" else None.

Lemma bases_accepted_iff_witness :
  iif_validate (I := plain_i18n) default_bases (dec 1000) = Valid ∧
  fwmark_validate (I := plain_i18n) default_bases (dec 2000) = Valid ∧
  unreach_validate (I := plain_i18n) default_bases (dec 3000) = Valid.
Proof.
  assert (follows (iif_band 1000 60) (fwmark_band 2000 60) ∧ 1000 + 60 ≠ 2000) as H1
    by (split; [apply iif_follows|]; lia).
  assert (follows (fwmark_band 2000 60) (unreach_band 3000 60)) as H2 by (apply unreach_follows; lia).
  pose proof (bases_accepted_iff (I := plain_i18n) default_bases 1000 2000 3000 60 eq_refl eq_refl eq_refl eq_refl
    ltac:(lia) ltac:(lia) ltac:(lia) ltac:(lia)) as (Hi & Hf & Hu & _).
  split_and!; [by apply Hi|by apply Hf|by apply Hu].
Defined.

(** With the default mask and bases, the derived base of the source rules
    is the one the constants record: the unreachable base plus the interface
    maximum plus one. *)
Theorem default_src_base f :
  f "mmx_mask" = None →
  num_add (num_add (Fin (rb_unreachable RULE_BASE_DEFAULTS)) (interfaceMax f)) (Fin 1)
  = Fin (rb_src RULE_BASE_DEFAULTS).
Proof. intros Hf. unfold interfaceMax, mask_of. rewrite Hf. vm_compute. reflexivity. Qed.

Lemma default_src_base_witness :
  num_add (num_add (Fin (rb_unreachable RULE_BASE_DEFAULTS)) (interfaceMax (λ _, None))) (Fin 1)
  = Fin (rb_src RULE_BASE_DEFAULTS).
Proof. apply default_src_base. reflexivity. Defined.

(** An applied configuration leaves no listener behind. *)
Lemma restart_applied s : rst_listeners (restart_step s UciApplied) = 0%nat.
Proof. reflexivity. Qed.
