(* ===== verification/RuleForm.v ===== *)
(** [view/mwan3/network/rule.js]: the rule form, its address and set checks,
    and the combined mark/mask field. *)
From stdpp Require Import base list strings.
From Stdlib Require Import ZArith Lia Ascii Bool.
From S2P Require Import Prelude JsNum JsString JsArray JsObject Luci IpMath Forms Components Format Validators.
From S2P Require Import InterfaceForm Configuration Globals.

(** The [nftset_info] response: the type of each set, by name. *)
Definition set_info : Type := jsobj (option string).

(** [nftset_info[name]?.type] *)
Definition set_type (info : set_info) (name : option string) : option string :=
  match name with
  | Some n => match obj_get n info with Own t => t | _ => None end
  | None => None
  end.

Definition is_type (t : option string) (s : string) : bool := bool_decide (t = Some s).
Definition opt_eqb (a b : option string) : bool := bool_decide (a = b).

(** [/^0x[0-9a-fA-F]+$/] *)
Definition hex_char (c : ascii) : bool := match radix_digit 16 c with Some _ => true | None => false end.

Definition hexre (s : string) : bool :=
  match s with
  | String c0 (String c1 r) =>
      Ascii.eqb c0 "0" && Ascii.eqb c1 "x" && str_forall hex_char r && str_truthy r
  | _ => false
  end.

Section RuleForm.
Context {St : Type} {U : Uci St} {I : I18n} `{V : Validation}.

Definition rule_name_verdict (st : St) (v : string) : verdict :=
  new_name_verdict st
    (tr "Rules may not share the same name as configured interfaces, members or policies.") v.

(** ** Columns *)

(** The address of a cell: the value's items, else the set. *)
Definition cell_addr (ip set : option string) : option string :=
  match non_empty ip with
  | Some _ => fmtAddrList ip
  | None => non_empty set
  end.

Definition addr_parts (addr port : option string) : list string :=
  match addr, non_empty port with
  | Some a, Some p => [a +:+ ":" +:+ p]
  | Some a, None => [a]
  | None, Some p => ["*:" +:+ p]
  | None, None => []
  end.

Definition parts_text (parts : list string) : string :=
  match parts with [] => "-" | _ => str_join " " parts end.

Definition get_text (st : St) (sid o : string) : option string := opt_text (uci_get st "mwan3" sid o).

Definition src_textvalue (st : St) (cfgvalue : option string) (sid : string) : string :=
  parts_text (addr_parts (cell_addr cfgvalue (get_text st sid "ipset_src")) (get_text st sid "src_port")).

Definition dest_textvalue (st : St) (cfgvalue : option string) (sid : string) : string :=
  parts_text
    (addr_parts (cell_addr cfgvalue (get_text st sid "ipset")) (get_text st sid "dest_port")
     ++ match get_text st sid "fwmark", get_text st sid "fwmask" with
        | Some m, Some k => ["mark:" +:+ m +:+ "/" +:+ k]
        | _, _ => []
        end).

(** ** Address lists *)

(** The loop over the trimmed items; [msg4] and [msg6] are the two family
    messages of the option. *)
Fixpoint addrs_validate (msg4 msg6 : string) (family : option string) (addrs : list string) : verdict :=
  match addrs with
  | [] => Valid
  | a :: rest =>
      if negb (str_truthy a) then Invalid (tr "Empty address in comma-separated list")
      else if negb (ipAddrOrPrefix a) then Invalid (tr "Invalid IP address or prefix: " +:+ a)
      else
        let is_v6 := parseIPv6 (hd "" (str_split "/" a)) in
        if opt_eqb family (Some "ipv4") && is_v6 then Invalid (tr msg4)
        else if opt_eqb family (Some "ipv6") && negb is_v6 then Invalid (tr msg6)
        else addrs_validate msg4 msg6 family rest
  end.

Definition addr_list_validate (msg4 msg6 : string) (f : form_values) (value : string) : verdict :=
  if negb (str_truthy value) then Valid
  else addrs_validate msg4 msg6 (f "family") (map str_trim (str_split "," value)).

Definition src_ip_validate : form_values → string → verdict :=
  addr_list_validate "Source address must be IPv4 when family is set to IPv4 only"
    "Source address must be IPv6 when family is set to IPv6 only".

Definition dest_ip_validate : form_values → string → verdict :=
  addr_list_validate "Destination address must be IPv4 when family is set to IPv4 only"
    "Destination address must be IPv6 when family is set to IPv6 only".

(** ** Mark and mask *)

Definition fwmark_cfgvalue (st : St) (sid : string) : option string :=
  match get_text st sid "fwmark", get_text st sid "fwmask" with
  | Some mark, Some mask => Some (mark +:+ "/" +:+ mask)
  | Some mark, None => Some mark
  | None, _ => None
  end.

(** [uci.set] of an undefined value unsets. *)
Definition set_opt_value (st : St) (sid o : string) (v : option string) : St :=
  match v with
  | Some s => uci_set st "mwan3" sid o (UStr s)
  | None => uci_unset st "mwan3" sid o
  end.

Definition fwmark_remove (st : St) (sid : string) : St :=
  uci_unset (uci_unset st "mwan3" sid "fwmark") "mwan3" sid "fwmask".

Definition fwmark_write (st : St) (sid value : string) : St :=
  if negb (str_truthy value) then fwmark_remove st sid
  else
    let parts := str_split "/" value in
    let st1 := set_opt_value st sid "fwmark" (parts !! 0%nat) in
    set_opt_value st1 sid "fwmask" (parts !! 1%nat).

(** The text of a number in base 16, used in the message only. *)
Definition mmx_mask (st : St) : num :=
  parseInt (default MMX_MASK_DEFAULT (get_text st "globals" "mmx_mask")) 16.

Definition fwmark_validate_field (to_hex : num → string) (st : St) (value : string) : verdict :=
  if negb (str_truthy value) then Valid
  else
    match str_split "/" value with
    | [mark; mask] =>
        if negb (hexre mark) || negb (hexre mask) then
          Invalid (tr "Format must be value/mask in hex notation (e.g. 0x80000/0xff0000)")
        else if negb (num_eqb (num_and (parseInt mask 16) (mmx_mask st)) (Fin 0)) then
          Invalid (tr ("Mask overlaps mwan3 internal mark bits (0x" +:+ to_hex (mmx_mask st) +:+ ")"))
        else Valid
    | _ => Invalid (tr "Format must be value/mask in hex notation (e.g. 0x80000/0xff0000)")
    end.

(** ** NFT sets *)

Definition ip_family (ip : option string) : option string :=
  match non_empty ip with
  | None => None
  | Some ip =>
      let first := hd "" (str_split "/" (str_trim (hd "" (str_split "," ip)))) in
      Some (if parseIPv6 first then "ipv6" else "ipv4")
  end.

Definition nftset_validate (info : set_info) (f : form_values) (value : string) : verdict :=
  if negb (str_truthy value) then Valid
  else
    match non_empty (f "family") with
    | None => Valid
    | Some family =>
        let ty := set_type info (Some value) in
        if String.eqb family "ipv4" && is_type ty "ipv6_addr" then
          Invalid (tr "Selected NFT set is IPv6 but family is set to IPv4 only")
        else if String.eqb family "ipv6" && is_type ty "ipv4_addr" then
          Invalid (tr "Selected NFT set is IPv4 but family is set to IPv6 only")
        else Valid
    end.

Definition ipset_src_validate (info : set_info) (f : form_values) (value : string) : verdict :=
  if negb (str_truthy value) then Valid
  else
    match non_empty (f "src_ip") with
    | Some _ => Invalid (tr "Source NFT set and source address both match source - use one or the other")
    | None =>
        let ty := set_type info (Some value) in
        let dest_fam := ip_family (f "dest_ip") in
        let ipset_type := set_type info (f "ipset") in
        if opt_eqb dest_fam (Some "ipv4") && is_type ty "ipv6_addr" then
          Invalid (tr "Source NFT set is IPv6 but destination address is IPv4")
        else if opt_eqb dest_fam (Some "ipv6") && is_type ty "ipv4_addr" then
          Invalid (tr "Source NFT set is IPv4 but destination address is IPv6")
        else
          match non_empty ty, non_empty ipset_type with
          | Some t, Some u =>
              if String.eqb t u then nftset_validate info f value
              else Invalid (tr "Source and destination NFT sets have different address families")
          | _, _ => nftset_validate info f value
          end
    end.

Definition ipset_validate (info : set_info) (f : form_values) (value : string) : verdict :=
  if negb (str_truthy value) then Valid
  else
    match non_empty (f "dest_ip") with
    | Some _ => Invalid (tr "Destination NFT set and destination address both match destination - use one or the other")
    | None =>
        let ty := set_type info (Some value) in
        let src_fam := ip_family (f "src_ip") in
        if opt_eqb src_fam (Some "ipv4") && is_type ty "ipv6_addr" then
          Invalid (tr "Destination NFT set is IPv6 but source address is IPv4")
        else if opt_eqb src_fam (Some "ipv6") && is_type ty "ipv4_addr" then
          Invalid (tr "Destination NFT set is IPv4 but source address is IPv6")
        else nftset_validate info f value
    end.

(** [uci.sections('mwan3', 'ipset').find(s => s.name === name)] *)
Definition find_set (st : St) (name : string) : option section :=
  List.find (λ s, opt_is (sec_opt "name" s) name) (uci_sections st "mwan3" "ipset").

Definition isConfigDisabled (st : St) (name : string) : bool :=
  match find_set st name with
  | Some s => opt_is (sec_opt "enabled" s) "0"
  | None => false
  end.

Definition family_label (t : option string) : string :=
  if is_type t "ipv4_addr" then " (IPv4)" else if is_type t "ipv6_addr" then " (IPv6)" else "".

Definition set_choices (st : St) (info : set_info) : list (string * string) :=
  ("", tr "-- Please choose --")
  :: map (λ n, (n, n +:+ family_label (set_type info (Some n))))
       (List.filter (λ n, negb (isConfigDisabled st n)) (obj_keys info)).

(** ** The enable box *)

Definition isIpsetDisabled (st : St) (name : option string) : bool :=
  match name with Some n => isConfigDisabled st n | None => false end.

Definition not_zero (v : option uval) : bool := negb (opt_is v "0").

(** Whether the box of a rule is rendered read-only. *)
Definition rule_enable_readonly (st : St) (sid : string) : bool :=
  (isIpsetDisabled st (get_text st sid "ipset") || isIpsetDisabled st (get_text st sid "ipset_src"))
  && negb (not_zero (uci_get st "mwan3" sid "enabled")).

(** ** The form *)

Definition rule_match_options : list form_option :=
  [option_ ListValue "family" (tr "Internet Protocol") "" ▷ dflt ""
     ▷ values [("", tr "IPv4 and IPv6"); ("ipv4", tr "IPv4 only"); ("ipv6", tr "IPv6 only")] ▷ modalonly;
   option_ Value "proto" (tr "Protocol") (tr "View the content of /etc/protocols for protocol description")
     ▷ dflt "all" ▷ rmempty false ▷ keys ["all"; "tcp"; "udp"; "icmp"; "esp"];
   option_ Value "src_ip" (tr "Source")
     (tr ("Supports CIDR notation (eg " +:+ dq +:+ "192.168.100.0/24" +:+ dq
          +:+ ") and comma-separated addresses (eg " +:+ dq +:+ "8.8.8.8,8.8.4.4" +:+ dq +:+ ") without quotes"));
   option_ Value "src_port" (tr "Source port")
     (tr ("May be entered as a single or multiple port(s) (eg " +:+ dq +:+ "22" +:+ dq +:+ " or "
          +:+ dq +:+ "80,443" +:+ dq +:+ ") or as a portrange (eg " +:+ dq +:+ "1024-2048" +:+ dq
          +:+ ") without quotes"))
     ▷ depends "proto" "tcp" ▷ depends "proto" "udp" ▷ modalonly;
   option_ Value "dest_ip" (tr "Destination")
     (tr ("Supports CIDR notation (eg " +:+ dq +:+ "192.168.100.0/24" +:+ dq
          +:+ ") and comma-separated addresses (eg " +:+ dq +:+ "8.8.8.8,8.8.4.4" +:+ dq +:+ ") without quotes"));
   option_ Value "fwmark" (tr "Fwmark")
     (tr "Match packet mark; enter value/mask in hex. Mask must not overlap mwan3 internal mark bits.")
     ▷ modalonly ▷ placeholder "0x80000/0xff0000";
   option_ Value "dest_port" (tr "Destination port")
     (tr ("May be entered as a single or multiple port(s) (eg " +:+ dq +:+ "22" +:+ dq +:+ " or "
          +:+ dq +:+ "80,443" +:+ dq +:+ ") or as a portrange (eg " +:+ dq +:+ "1024-2048" +:+ dq
          +:+ ") without quotes"))
     ▷ depends "proto" "tcp" ▷ depends "proto" "udp" ▷ modalonly;
   option_ ListValue "sticky" (tr "Sticky")
     (tr "Traffic from the same source IP address that previously matched this rule within the sticky timeout period will use the same WAN interface")
     ▷ dflt "0" ▷ values [("1", tr "Yes"); ("0", tr "No")] ▷ modalonly;
   option_ Value "timeout" (tr "Sticky timeout")
     (tr "Seconds. Acceptable values: 1-1000000. Defaults to 600 if not set")
     ▷ datatype "range(1, 1000000)" ▷ modalonly ▷ depends "sticky" "1"].

Definition rule_set_options (st : St) (info : set_info) : list form_option :=
  [option_ Value "ipset_src" (tr "Source NFT set") (tr "Match source addresses against this nft set")
     ▷ values (set_choices st info) ▷ modalonly;
   option_ Value "ipset" (tr "Destination NFT set")
     (tr "Match destination addresses against this nft set (declare sets in /etc/config/mwan3; dnsmasq syntax: nftset=/youtube.com/4#inet#mwan3#youtube)")
     ▷ values (set_choices st info) ▷ modalonly;
   option_ Flag "logging" (tr "Logging")
     (tr "Enables firewall rule logging (global mwan3 logging must also be enabled)") ▷ modalonly;
   option_ ListValue "use_policy" (tr "Policy") ""
     ▷ keys (map sec_name (uci_sections st "mwan3" "policy"))
     ▷ values [("unreachable", tr "unreachable (reject)"); ("blackhole", tr "blackhole (drop)");
               ("default", tr "default (use main routing table)")];
   option_ Flag "enabled" (tr "Enable") "" ▷ dflt "1" ▷ editable].

Definition rule_form (st : St) (info : set_info) : form_section :=
  mkFormSection GridSection "rule" true false true true (rule_match_options ++ rule_set_options st info).
End RuleForm.

(** ** Facts *)

Section RuleFacts.
Context {St : Type} {U : Uci St} {UL : UciLaws U} {I : I18n} {V : Validation}.

(** The family a checked address must have. *)
Definition family_allows (family : option string) (a : string) : Prop :=
  (family = Some "ipv4" → parseIPv6 (hd "" (str_split "/" a)) = false) ∧
  (family = Some "ipv6" → parseIPv6 (hd "" (str_split "/" a)) = true).

(** A source or destination list is accepted exactly when every
    comma-separated item, once trimmed, is a non-empty address or prefix of
    the family the rule is restricted to. *)
Theorem addr_list_validate_iff msg4 msg6 (f : form_values) value :
  str_truthy value = true →
  addr_list_validate msg4 msg6 f value = Valid ↔
  ∀ a, a ∈ str_split "," value →
    str_truthy (str_trim a) = true ∧ ipAddrOrPrefix (str_trim a) = true ∧
    family_allows (f "family") (str_trim a).
Proof.
  intros Hv. unfold addr_list_validate. rewrite Hv. cbn [negb].
  generalize (str_split "," value). intros l. generalize (f "family"). intros fam.
  induction l as [|a l IH]; cbn [map addrs_validate].
  { split; [intros _ a []%not_elem_of_nil|done]. }
  destruct (str_truthy (str_trim a)) eqn:E1; cbn [negb].
  2: { split; [done|]. intros H. destruct (H a ltac:(left)) as [? _]. congruence. }
  destruct (ipAddrOrPrefix (str_trim a)) eqn:E2; cbn [negb].
  2: { split; [done|]. intros H. destruct (H a ltac:(left)) as (_ & ? & _). congruence. }
  set (v6 := parseIPv6 (hd "" (str_split "/" (str_trim a)))).
  assert (family_allows fam (str_trim a) ↔
    opt_eqb fam (Some "ipv4") && v6 = false ∧ opt_eqb fam (Some "ipv6") && negb v6 = false) as Hfam.
  { unfold family_allows, opt_eqb. fold v6.
    rewrite !andb_false_iff, !bool_decide_eq_false, negb_false_iff.
    destruct (decide (fam = Some "ipv4")), (decide (fam = Some "ipv6")), v6; naive_solver. }
  destruct (opt_eqb fam (Some "ipv4") && v6) eqn:E3.
  { split; [done|]. intros H. destruct (H a ltac:(left)) as (_ & _ & Hf). apply Hfam in Hf as [? _]. done. }
  destruct (opt_eqb fam (Some "ipv6") && negb v6) eqn:E4.
  { split; [done|]. intros H. destruct (H a ltac:(left)) as (_ & _ & Hf). apply Hfam in Hf as [_ ?]. done. }
  rewrite IH. split.
  - intros H b [->|Hb]%elem_of_cons; [|by apply H]. split_and!; [done|done|by apply Hfam].
  - intros H b Hb. apply H. by right.
Qed.

Lemma hexre_facts s : hexre s = true → s ≠ "" ∧ char_free "/" s = true.
Proof.
  destruct s as [|c0 [|c1 r]]; try done. cbn [hexre]. intros H. bool_to_prop.
  split; [done|]. rewrite !char_free_cons.
  repeat match goal with H : Ascii.eqb _ _ = true |- _ => apply Ascii.eqb_eq in H; subst end.
  cbn [Ascii.eqb Bool.eqb negb andb].
  match goal with H : str_forall hex_char r = true |- _ => revert H end. clear.
  induction r as [|d r IH]; [done|]. cbn [str_forall]. intros [Hd Hr]%andb_true_iff.
  rewrite char_free_cons, IH by done. rewrite andb_true_r. apply negb_true_iff, Ascii.eqb_neq.
  by intros ->.
Qed.

Lemma mark_split mark mask :
  hexre mark = true → hexre mask = true → str_split "/" (mark +:+ "/" +:+ mask) = [mark; mask].
Proof.
  intros [_ Hm]%hexre_facts [_ Hk]%hexre_facts.
  change ("/" +:+ mask) with (String "/" mask). by rewrite str_split_cons, str_split_free.
Qed.

Lemma get_after_set st sid o v s :
  v ≠ UStr "" → find_section sid (uci_view st "mwan3") = Some s →
  ∃ s', find_section sid (uci_view (uci_set st "mwan3" sid o v) "mwan3") = Some s' ∧
    ∀ o', sec_opt o' s' = if String.eqb o' o then Some v else sec_opt o' s.
Proof.
  intros Hv Hs. rewrite set_view by done. rewrite find_on_section by done.
  rewrite String.eqb_refl, Hs. eexists. split; [reflexivity|].
  intros o'. unfold sec_opt, sec_put. cbn [sec_opts]. apply opt_lookup_put.
Qed.

(** C18: the mark field round-trips: an accepted value written to an existing
    rule is the value the field shows when the rule is opened again. *)
Theorem fwmark_roundtrip to_hex st sid s value :
  find_section sid (uci_view st "mwan3") = Some s →
  str_truthy value = true → fwmark_validate_field to_hex st value = Valid →
  fwmark_cfgvalue (fwmark_write st sid value) sid = Some value.
Proof.
  intros Hs Hv Hok. unfold fwmark_validate_field in Hok. rewrite Hv in Hok. cbn [negb] in Hok.
  destruct (str_split "/" value) as [|mark [|mask [|? ?]]] eqn:Esplit; try done.
  destruct (hexre mark) eqn:Hm; cbn [negb orb] in Hok; [|done].
  destruct (hexre mask) eqn:Hk; cbn [negb orb] in Hok; [|done].
  assert (value = mark +:+ "/" +:+ mask) as Hval.
  { rewrite <- (str_join_split "/" value). change (String "/" "") with "/". rewrite Esplit. reflexivity. }
  pose proof (hexre_facts mark Hm) as [Hmne _]. pose proof (hexre_facts mask Hk) as [Hkne _].
  unfold fwmark_write. rewrite Hv. cbn [negb]. rewrite Esplit. cbn [lookup list_lookup set_opt_value].
  destruct (get_after_set st sid "fwmark" (UStr mark) s) as (s1 & Hs1 & Ho1); [congruence|done|].
  destruct (get_after_set (uci_set st "mwan3" sid "fwmark" (UStr mark)) sid "fwmask" (UStr mask) s1)
    as (s2 & Hs2 & Ho2); [congruence|done|].
  unfold fwmark_cfgvalue, get_text. cbn [lookup list_lookup]. rewrite !get_view, Hs2, !Ho2. cbn [String.eqb Ascii.eqb Bool.eqb].
  rewrite Ho1. cbn [String.eqb Ascii.eqb Bool.eqb opt_text].
  unfold str_truthy. rewrite (proj2 (String.eqb_neq mark "")), (proj2 (String.eqb_neq mask "")) by done.
  cbn [negb]. by rewrite Hval.
Qed.

(** Two masks share none of the 32 bits of a packet mark. *)
Definition disjoint_masks (a b : num) : Prop :=
  ∀ i, 0 <= i < 32 → Z.testbit (to_u32 a) i && Z.testbit (to_u32 b) i = false.

Lemma u32_i32_bit n i : 0 <= i < 32 → Z.testbit (to_u32 n) i = Z.testbit (to_i32 n) i.
Proof.
  intros Hi. destruct n as [| |z]; cbn [to_u32 to_i32]; [done|done|].
  rewrite wrap_u32_testbit, wrap_i32_testbit by lia. rewrite (proj2 (Z.ltb_lt i 32)) by lia.
  by rewrite Z.min_l by lia.
Qed.

(** From bit 31 on, a 32-bit integer repeats its sign. *)
Lemma i32_high_bit n i : 31 <= i → Z.testbit (to_i32 n) i = Z.testbit (to_i32 n) 31.
Proof.
  intros Hi. destruct n as [| |z]; cbn [to_i32]; [by rewrite !Z.bits_0..|].
  rewrite !wrap_i32_testbit by lia. by rewrite Z.min_r, Z.min_l by lia.
Qed.

Lemma and_zero_iff a b : num_eqb (num_and a b) (Fin 0) = true ↔ disjoint_masks a b.
Proof.
  unfold num_and, disjoint_masks. split.
  - intros E%num_eqb_spec_Fin i Hi. rewrite !u32_i32_bit by done.
    apply (f_equal (λ z, Z.testbit z i)) in E. by rewrite Z.land_spec, Z.bits_0 in E.
  - intros H. apply num_eqb_spec_Fin, Z.bits_inj'. intros i Hi. rewrite Z.land_spec, Z.bits_0.
    destruct (decide (i < 32)) as [Hlt|Hge].
    + rewrite <- !u32_i32_bit by lia. by apply H.
    + rewrite (i32_high_bit a i), (i32_high_bit b i), <- !u32_i32_bit by lia. apply H. lia.
Qed.

(** C38: which texts the mark field accepts: nothing, or two numbers in
    hexadecimal notation, a value and a mask, such that the mask shares no bit
    with the mask mwan3 keeps for itself, within the 32 bits of a packet
    mark.  Of the value only the notation is checked: bits it has outside its
    mask, mwan3's own bits among them, are accepted (see
    [value_bits_unchecked]). *)
Theorem fwmark_accepted_iff to_hex st value :
  fwmark_validate_field to_hex st value = Valid ↔
  value = "" ∨
  ∃ mark mask, value = mark +:+ "/" +:+ mask ∧ hexre mark = true ∧ hexre mask = true ∧
    disjoint_masks (parseInt mask 16) (mmx_mask st).
Proof.
  unfold fwmark_validate_field, str_truthy. destruct (String.eqb_spec value "") as [->|Hv]; cbn [negb]; [by split; [left|]|].
  split.
  - intros Hok. right. destruct (str_split "/" value) as [|mark [|mask [|? ?]]] eqn:Esplit; try done.
    destruct (hexre mark) eqn:Hm; cbn [negb orb] in Hok; [|done].
    destruct (hexre mask) eqn:Hk; cbn [negb orb] in Hok; [|done].
    exists mark, mask. split_and!; try done.
    + rewrite <- (str_join_split "/" value). change (String "/" "") with "/". rewrite Esplit. reflexivity.
    + apply and_zero_iff. by destruct (num_eqb _ _).
  - intros [?|(mark & mask & -> & Hm & Hk & Hd)]; [done|].
    rewrite mark_split, Hm, Hk by done. cbn [negb orb]. apply and_zero_iff in Hd. by rewrite Hd.
Qed.
End RuleFacts.

Definition mark_store : mem_uci := λ _, [mkSection "r1" "rule" []].

Lemma addr_list_validate_iff_witness :
  addr_list_validate (I := plain_i18n) (V := plain_validation) "m4" "m6" (λ _, Some "ipv4") "10.0.0.0/8, 8.8.8.8" = Valid
  ∧ ∀ a, a ∈ str_split "," "10.0.0.0/8, 8.8.8.8" →
    str_truthy (str_trim a) = true ∧ ipAddrOrPrefix (V := plain_validation) (str_trim a) = true ∧
    family_allows (V := plain_validation) (Some "ipv4") (str_trim a).
Proof.
  split; [vm_compute; reflexivity|].
  apply (addr_list_validate_iff (I := plain_i18n) (V := plain_validation) "m4" "m6" (λ _, Some "ipv4")
           "10.0.0.0/8, 8.8.8.8"); vm_compute; reflexivity.
Defined.

Lemma fwmark_roundtrip_witness :
  fwmark_cfgvalue (fwmark_write mark_store "r1" "0x80000/0xff0000") "r1" = Some "0x80000/0xff0000".
Proof.
  apply (fwmark_roundtrip (I := plain_i18n) (λ _, "") mark_store "r1" (mkSection "r1" "rule" []));
    vm_compute; reflexivity.
Defined.

Lemma fwmark_accepted_iff_witness :
  fwmark_validate_field (I := plain_i18n) (λ _, "") mark_store "0x80000/0xff0000" = Valid ∧
  fwmark_validate_field (I := plain_i18n) (λ _, "") mark_store "0x80000/0xffff" ≠ Valid.
Proof.
  split.
  - apply (fwmark_accepted_iff (I := plain_i18n)). right. exists "0x80000", "0xff0000".
    split_and!; [reflexivity..|]. apply and_zero_iff. vm_compute. reflexivity.
  - vm_compute. discriminate.
Defined.

(** The value has only bits of mwan3's own mask, none of them in its mask. *)
Lemma value_bits_unchecked :
  fwmark_validate_field (I := plain_i18n) (λ _, "") mark_store "0x3f00/0xff0000" = Valid ∧
  Z.land (to_u32 (parseInt "0x3f00" 16)) (to_u32 (mmx_mask mark_store)) = to_u32 (parseInt "0x3f00" 16).
Proof. by vm_compute. Qed.
