(* ===== verification/IpsetForm.v ===== *)
(** [view/mwan3/network/ipset.js] and [notify.js]: the IP set form, the
    interlock between enabling rules and disabling the sets they use, and the
    user script editor. *)
From stdpp Require Import base list strings.
From Stdlib Require Import ZArith Lia Ascii Bool.
From S2P Require Import Prelude JsNum JsString JsArray JsObject Luci Forms Components Format Validators.
From S2P Require Import Configuration Globals RuleForm.

(** [/^[a-zA-Z_][a-zA-Z0-9_.-]*$/] *)
Definition is_alpha_ (c : ascii) : bool :=
  let n := nat_of_ascii c in
  (Nat.leb 65 n && Nat.leb n 90) || (Nat.leb 97 n && Nat.leb n 122) || Ascii.eqb c "_".

Definition set_name_char (c : ascii) : bool :=
  is_alpha_ c || is_digit c || Ascii.eqb c "." || Ascii.eqb c "-".

Definition set_name_regex (s : string) : bool :=
  match s with
  | EmptyString => false
  | String c r => is_alpha_ c && str_forall set_name_char r
  end.

Section IpsetForm.
Context {St : Type} {U : Uci St} {I : I18n} `{V : Validation}.

Definition ipset_sections (st : St) : list section := uci_sections st "mwan3" "ipset".
Definition rule_sections (st : St) : list section := uci_sections st "mwan3" "rule".

(** [r.ipset === name || r.ipset_src === name] *)
Definition rule_uses (name : string) (r : section) : bool :=
  opt_is (sec_opt "ipset" r) name || opt_is (sec_opt "ipset_src" r) name.

(** The names of the rules that refer to a set. *)
Definition set_refs (st : St) (name : string) : list string :=
  map sec_name (List.filter (rule_uses name) (rule_sections st)).

(** [s.handleRemove]: the removal is refused with the names of the rules that
    refer to the set, or passed on to the framework, which removes it. *)
Definition handleRemove (st : St) (sid : string) : St + string :=
  match get_text st sid "name" with
  | Some name =>
      match set_refs st name with
      | [] => inl (uci_remove st "mwan3" sid)
      | refs =>
          inr (format (tr ("Cannot delete IP set " +:+ dq +:+ "%s" +:+ dq
                 +:+ ": referenced by rule(s): %s. Remove those rule references first."))
                 [FStr name; FStr (str_join ", " refs)])
      end
  | None => inl (uci_remove st "mwan3" sid)
  end.

Definition set_name_validate (st : St) (sid value : string) : verdict :=
  if negb (str_truthy value) then Valid
  else if negb (set_name_regex value) then
    Invalid (tr "Invalid name: use letters, digits, _ . or - only, starting with a letter or _")
  else if String.prefix "mwan3_" value then
    Invalid (tr ("Names beginning with " +:+ dq +:+ "mwan3_" +:+ dq +:+ " are reserved for internal use"))
  else if existsb (λ s, negb (String.eqb (sec_name s) sid) && opt_is (sec_opt "name" s) value)
            (ipset_sections st) then
    Invalid (tr "A set with this name already exists")
  else Valid.

Definition entry_validate (f : form_values) (value : string) : verdict :=
  if negb (str_truthy value) then Valid
  else if negb (ipAddrOrPrefix value) then Invalid (tr "Invalid IP address or prefix")
  else
    let is_v6 := parseIPv6 (hd "" (str_split "/" value)) in
    if opt_eqb (f "family") (Some "ipv4") && is_v6 then
      Invalid (tr "Entry must be an IPv4 address when family is set to IPv4")
    else if opt_eqb (f "family") (Some "ipv6") && negb is_v6 then
      Invalid (tr "Entry must be an IPv6 address when family is set to IPv6")
    else Valid.

(** Whether the box of a set is rendered read-only: an enabled rule refers to
    it and it is enabled. *)
Definition set_referenced (st : St) (name : option string) : bool :=
  match name with
  | Some n =>
      existsb (λ r, negb (opt_is (sec_opt "enabled" r) "0") && rule_uses n r) (rule_sections st)
  | None => false
  end.

Definition set_enable_readonly (st : St) (sid : string) : bool :=
  set_referenced st (get_text st sid "name") && not_zero (uci_get st "mwan3" sid "enabled").

Definition ipset_form : form_section :=
  mkFormSection GridSection "ipset" true true true true
    [option_ Value "name" (tr "Name") "" ▷ rmempty false;
     option_ ListValue "family" (tr "Family") "" ▷ values [("ipv4", tr "IPv4"); ("ipv6", tr "IPv6")] ▷ dflt "ipv4";
     option_ DynamicList "entry" (tr "IPs / Networks")
       (tr ("Static entries: IP addresses or CIDR subnets (eg " +:+ dq +:+ "192.168.1.1" +:+ dq
            +:+ " or " +:+ dq +:+ "10.0.0.0/8" +:+ dq +:+ ")")) ▷ modalonly;
     option_ DynamicList "domain" (tr "Domains")
       (tr ("Domain names resolved by dnsmasq and added to the set at runtime (eg " +:+ dq
            +:+ "youtube.com" +:+ dq +:+ ")")) ▷ modalonly;
     option_ FileUpload "loadfile" (tr "Include File")
       (tr "File of IP addresses or CIDRs, one per line; lines beginning with # are ignored")
       ▷ datatype "file" ▷ rmempty true ▷ modalonly;
     option_ Value "maxelem" (tr "Max Entries")
       (tr "Maximum number of elements in the set. Leave empty for no limit")
       ▷ datatype "uinteger" ▷ placeholder (tr "unlimited") ▷ modalonly ▷ rmempty true;
     option_ Value "timeout" (tr "Timeout")
       (tr "Entry lifetime in seconds. 0 means entries do not expire")
       ▷ datatype "uinteger" ▷ placeholder "0" ▷ modalonly ▷ rmempty true;
     option_ Flag "counters" (tr "Counters") (tr "Track per-element packet and byte counts")
       ▷ modalonly ▷ rmempty true;
     option_ Flag "enabled" (tr "Enable") "" ▷ dflt "1" ▷ editable].

(** ** Toggling the enable boxes

    A user toggles a box of the set page or of the rule page when it is not
    read-only; a cleared box stores '0', a ticked one anything else. *)
Inductive toggle : Type :=
  | ToggleSet (sid : string)
  | ToggleRule (sid : string).

Definition toggle_sid (t : toggle) : string := match t with ToggleSet s | ToggleRule s => s end.

Definition toggled (st : St) (sid : string) : St :=
  uci_set st "mwan3" sid "enabled"
    (UStr (if not_zero (uci_get st "mwan3" sid "enabled") then "0" else "1")).

Definition toggle_allowed (st : St) (t : toggle) : bool :=
  match t with
  | ToggleSet sid =>
      existsb (λ s, String.eqb (sec_name s) sid) (ipset_sections st) && negb (set_enable_readonly st sid)
  | ToggleRule sid =>
      existsb (λ s, String.eqb (sec_name s) sid) (rule_sections st) && negb (rule_enable_readonly st sid)
  end.

Inductive toggles : St → St → Prop :=
  | toggles_refl st : toggles st st
  | toggles_step st st' t :
      toggles st st' → toggle_allowed st' t = true → toggles st (toggled st' (toggle_sid t)).
End IpsetForm.

(** ** The user script *)

(** What [handleSave] writes to /etc/mwan3.user. *)
Definition saved_script (editor : option string) : string :=
  crlf_to_lf (str_trim (default "" editor)) +:+ lf.

(** The file and the editor after a save that succeeds or fails. *)
Definition handleSave (editor : option string) (file : string) (ok : bool) : string * string :=
  let value := saved_script editor in
  if ok then (value, value) else (file, default "" editor).

(** ** Facts *)

Section Interlock.
Context {St : Type} {U : Uci St} {UL : UciLaws U} {I : I18n} {V : Validation}.

Definition view (st : St) : list section := uci_view st "mwan3".

(** No enabled rule refers to a set that is configured as disabled. *)
Definition sets_live (st : St) : Prop :=
  ∀ r n, r ∈ rule_sections st → not_zero (sec_opt "enabled" r) = true → n ≠ "" → rule_uses n r = true →
    isConfigDisabled st n = false.

Lemma toggled_view st sid :
  ∃ v, v ≠ "" ∧ view (toggled st sid) = on_section sid (sec_put "enabled" (UStr v)) (view st)
     ∧ (String.eqb v "0" = not_zero (uci_get st "mwan3" sid "enabled")).
Proof.
  unfold toggled, view. destruct (not_zero _) eqn:E.
  - exists "0". rewrite set_view by done. done.
  - exists "1". rewrite set_view by done. done.
Qed.

Lemma sections_on_section ty sid o v l :
  sections_of_type ty (on_section sid (sec_put o v) l) = on_section sid (sec_put o v) (sections_of_type ty l).
Proof.
  unfold sections_of_type, on_section. induction l as [|s l IH]; [done|]. cbn [map List.filter].
  destruct (String.eqb (sec_name s) sid) eqn:E; cbn [sec_type sec_put];
    (destruct (String.eqb (sec_type s) ty); cbn [map]; rewrite ?E, IH; done).
Qed.

Lemma sec_put_other o o' v s : String.eqb o' o = false → sec_opt o' (sec_put o v s) = sec_opt o' s.
Proof. intros H. unfold sec_opt, sec_put. cbn [sec_opts]. by rewrite opt_lookup_put, H. Qed.

Lemma sec_put_same o v s : sec_opt o (sec_put o v s) = Some v.
Proof. unfold sec_opt, sec_put. cbn [sec_opts]. by rewrite opt_lookup_put, String.eqb_refl. Qed.

(** Looking a set up by its name is not affected by an enable box. *)
Lemma find_set_toggled st sid v n :
  view (toggled st sid) = on_section sid (sec_put "enabled" (UStr v)) (view st) →
  find_set (toggled st sid) n =
  (λ s, if String.eqb (sec_name s) sid then sec_put "enabled" (UStr v) s else s) <$> find_set st n.
Proof.
  intros Hv. unfold find_set. rewrite !sections_view. fold (view (toggled st sid)) (view st).
  rewrite Hv, sections_on_section. unfold on_section.
  induction (sections_of_type "ipset" (view st)) as [|s l IH]; [done|]. cbn [map List.find].
  assert (opt_is (sec_opt "name" (if String.eqb (sec_name s) sid then sec_put "enabled" (UStr v) s else s)) n
          = opt_is (sec_opt "name" s) n) as ->.
  { case_if; [by rewrite sec_put_other|done]. }
  destruct (opt_is (sec_opt "name" s) n); [done|exact IH].
Qed.

Lemma get_found st sid s o :
  NoDup (names (view st)) → s ∈ view st → sec_name s = sid → uci_get st "mwan3" sid o = sec_opt o s.
Proof. intros Hnd Hs <-. rewrite get_view. fold (view st). by rewrite find_unique. Qed.

Lemma opt_is_text v n : n ≠ "" → opt_is v n = true → opt_text v = Some n.
Proof.
  intros Hn. destruct v as [[s|l]|]; cbn; try done. intros ->%String.eqb_eq.
  unfold str_truthy. by rewrite (proj2 (String.eqb_neq n "")) by done.
Qed.

Lemma find_set_elem st n s :
  find_set st n = Some s → s ∈ view st ∧ sec_type s = "ipset" ∧ opt_is (sec_opt "name" s) n = true.
Proof.
  unfold find_set. rewrite sections_view. intros [Hin Hn]%find_some.
  apply list_elem_of_In, elem_of_sections_of_type in Hin as [? ?]. done.
Qed.

Lemma sec_if_name sid v s :
  sec_name (if String.eqb (sec_name s) sid then sec_put "enabled" (UStr v) s else s) = sec_name s.
Proof. by case_if. Qed.

Lemma toggled_names st sid : names (view (toggled st sid)) = names (view st).
Proof.
  destruct (toggled_view st sid) as (v & _ & -> & _). unfold names. by rewrite on_section_names.
Qed.

(** A single allowed toggle. *)
Lemma toggle_sets_live st t :
  NoDup (names (view st)) → sets_live st → toggle_allowed st t = true →
  sets_live (toggled st (toggle_sid t)).
Proof.
  intros Hnd Hlive Hal r n Hr He Hn Hu. set (sid := toggle_sid t) in *.
  destruct (toggled_view st sid) as (v & Hv & Hview & Hv0).
  unfold rule_sections in Hr. rewrite sections_view in Hr. fold (view (toggled st sid)) in Hr.
  rewrite Hview, sections_on_section in Hr. unfold on_section in Hr.
  apply list_elem_of_fmap in Hr as (r0 & -> & Hr0).
  assert (rule_uses n r0 = true) as Hu0.
  { revert Hu. unfold rule_uses. case_if; [by rewrite !sec_put_other|done]. }
  assert (r0 ∈ rule_sections st) as Hr0' by (unfold rule_sections; by rewrite sections_view).
  apply elem_of_sections_of_type in Hr0 as [Hr0v Hr0t].
  assert (isConfigDisabled st n = false) as Hdis0.
  { destruct (not_zero (sec_opt "enabled" r0)) eqn:E0; [by apply (Hlive r0)|].
    (* the rule itself has just been enabled *)
    destruct (String.eqb (sec_name r0) sid) eqn:En; [|congruence]. apply String.eqb_eq in En.
    destruct t as [s|s]; cbn [toggle_sid] in sid; subst sid; cbn [toggle_allowed] in Hal;
      apply andb_true_iff in Hal as [Hex Hro].
    - apply existsb_elem_of in Hex as (s0 & Hs0 & Hn0%String.eqb_eq). unfold ipset_sections in Hs0.
      rewrite sections_view in Hs0. apply elem_of_sections_of_type in Hs0 as [Hs0 Ht0].
      assert (s0 = r0) as -> by (apply (names_unique (view st)); [done..|congruence]). by rewrite Ht0 in Hr0t.
    - apply negb_true_iff in Hro. unfold rule_enable_readonly in Hro.
      rewrite (get_found st s r0) in Hro by done. rewrite E0 in Hro. cbn [negb] in Hro.
      rewrite andb_true_r in Hro. apply orb_false_iff in Hro as [H1 H2].
      unfold rule_uses in Hu0. apply orb_true_iff in Hu0 as [Hu1|Hu1]; unfold get_text in *;
        rewrite !(get_found st s r0) in H1, H2 by done;
        [rewrite (opt_is_text _ n Hn Hu1) in H1|rewrite (opt_is_text _ n Hn Hu1) in H2]; done. }
  unfold isConfigDisabled in *. rewrite (find_set_toggled st sid v n Hview).
  destruct (find_set st n) as [s|] eqn:Es; [|done]. cbn [fmap option_fmap option_map].
  destruct (String.eqb (sec_name s) sid) eqn:Esid; [|done]. apply String.eqb_eq in Esid.
  rewrite sec_put_same. cbn [opt_is].
  (* the set itself is the toggled section *)
  apply find_set_elem in Es as (Hsv & Hst & Hsn). rewrite Hv0, (get_found st sid s) by done.
  destruct (not_zero (sec_opt "enabled" s)) eqn:E1; [|done]. exfalso.
  destruct t as [s'|s']; cbn [toggle_sid] in sid; subst sid; cbn [toggle_allowed] in Hal;
    apply andb_true_iff in Hal as [Hex Hro].
  - apply negb_true_iff in Hro. unfold set_enable_readonly, get_text in Hro.
    rewrite !(get_found st s' s), (opt_is_text _ n Hn Hsn), E1 in Hro by done.
    rewrite andb_true_r in Hro. unfold set_referenced in Hro. rewrite existsb_false in Hro.
    specialize (Hro r0 Hr0'). rewrite Hu0, andb_true_r in Hro.
    assert (sec_name r0 ≠ s') as Hne.
    { intros Heq. assert (r0 = s) as -> by (apply (names_unique (view st)); [done..|congruence]).
      by rewrite Hst in Hr0t. }
    rewrite (proj2 (String.eqb_neq _ _) Hne) in He. unfold not_zero in He. by rewrite Hro in He.
  - apply existsb_elem_of in Hex as (r1 & Hr1 & Hn1%String.eqb_eq). unfold rule_sections in Hr1.
    rewrite sections_view in Hr1. apply elem_of_sections_of_type in Hr1 as [Hr1 Ht1].
    assert (r1 = s) as -> by (apply (names_unique (view st)); [done..|congruence]). by rewrite Ht1 in Hst.
Qed.

(** C8: the enable boxes interlock: no sequence of toggles that the two pages
    allow ever leaves an enabled rule referring to a disabled IP set. *)
Theorem toggles_keep_sets_live st st' :
  NoDup (names (view st)) → sets_live st → toggles st st' → sets_live st'.
Proof.
  intros Hnd Hlive Ht.
  assert (NoDup (names (view st')) ∧ sets_live st') as [_ H]; [|done].
  induction Ht as [st|st st' t Ht IH Hal]; [done|]. destruct (IH Hnd Hlive) as [H1 H2].
  split; [by rewrite toggled_names|by apply toggle_sets_live].
Qed.

(** Removing a set is refused exactly when a rule, enabled or not, refers
    to its name; otherwise the set goes and no rule is left referring to it. *)
Theorem handleRemove_refs st sid s name :
  NoDup (names (view st)) → s ∈ view st → sec_name s = sid → sec_type s = "ipset" →
  opt_text (sec_opt "name" s) = Some name →
  match handleRemove st sid with
  | inl st' =>
      (∀ r, r ∈ rule_sections st' → rule_uses name r = false) ∧
      view st' = List.filter (λ x, negb (String.eqb (sec_name x) sid)) (view st)
  | inr _ => ∃ r, r ∈ rule_sections st ∧ rule_uses name r = true
  end.
Proof.
  intros Hnd Hs Hn Ht Hname. unfold handleRemove, get_text.
  rewrite (get_found st sid s), Hname by done. unfold set_refs.
  destruct (List.filter (rule_uses name) (rule_sections st)) as [|r l] eqn:E; cbn [map].
  - split; [|apply remove_view]. intros r Hr. unfold rule_sections in Hr.
    rewrite sections_view, remove_view in Hr. apply elem_of_sections_of_type in Hr as [Hr Hrt].
    apply list_elem_of_In, filter_In in Hr as [Hr _].
    apply not_true_iff_false. intros Hu.
    assert (r ∈ List.filter (rule_uses name) (rule_sections st)) as Hin.
    { apply list_elem_of_In, filter_In. split; [|done]. apply list_elem_of_In.
      unfold rule_sections. rewrite sections_view. apply elem_of_sections_of_type.
      split; [by apply list_elem_of_In|done]. }
    rewrite E in Hin. by apply not_elem_of_nil in Hin.
  - exists r. assert (r ∈ List.filter (rule_uses name) (rule_sections st)) as Hin by (rewrite E; left).
    apply list_elem_of_In, filter_In in Hin as [Hin Hu]. split; [by apply list_elem_of_In|done].
Qed.

(** A set name that is accepted begins with a letter or an underscore,
    is not reserved, and no other set bears it. *)
Theorem set_name_validate_iff st sid value :
  value ≠ "" →
  set_name_validate st sid value = Valid ↔
  set_name_regex value = true ∧ String.prefix "mwan3_" value = false ∧
  ∀ s, s ∈ view st → sec_type s = "ipset" → sec_name s ≠ sid → opt_is (sec_opt "name" s) value = false.
Proof.
  intros Hv. unfold set_name_validate. unfold str_truthy.
  rewrite (proj2 (String.eqb_neq value "")) by done. cbn [negb].
  destruct (set_name_regex value); cbn [negb]; [|naive_solver].
  destruct (String.prefix "mwan3_" value); [naive_solver|].
  destruct (existsb _ _) eqn:E.
  - split; [done|]. intros (_ & _ & H). apply existsb_elem_of in E as (s & Hs & Hx).
    apply andb_true_iff in Hx as [Hx1 Hx2]. apply negb_true_iff, String.eqb_neq in Hx1.
    unfold ipset_sections in Hs. rewrite sections_view in Hs.
    apply elem_of_sections_of_type in Hs as [Hs Ht]. rewrite H in Hx2; done.
  - split; [|done]. intros _. split_and!; [done|done|]. intros s Hs Ht Hne.
    rewrite existsb_false in E. specialize (E s). unfold ipset_sections in E. rewrite sections_view in E.
    specialize (E ltac:(by apply elem_of_sections_of_type)).
    rewrite (proj2 (String.eqb_neq _ _) Hne) in E. exact E.
Qed.
End Interlock.

Definition lock_cfg : list section :=
  [mkSection "s1" "ipset" [("name", UStr "youtube")];
   mkSection "r1" "rule" [("ipset", UStr "youtube"); ("enabled", UStr "0")]].

Definition lock_store : mem_uci := λ _, lock_cfg.

Lemma lock_unique : NoDup (names (view lock_store)).
Proof. apply (bool_decide_eq_true_1 _). vm_compute. reflexivity. Qed.

Lemma lock_live : sets_live lock_store.
Proof.
  intros r n Hr He _ _. apply list_elem_of_In in Hr. simpl in Hr. destruct_or! Hr; subst; done.
Qed.

Lemma toggles_keep_sets_live_witness :
  sets_live (toggled lock_store "r1").
Proof.
  apply (toggles_keep_sets_live lock_store); [apply lock_unique|apply lock_live|].
  apply (toggles_step lock_store lock_store (ToggleRule "r1")); [apply toggles_refl|vm_compute; reflexivity].
Defined.

Lemma handleRemove_refs_witness :
  ∃ r, r ∈ rule_sections lock_store ∧ rule_uses "youtube" r = true.
Proof.
  exact (handleRemove_refs (I := plain_i18n) lock_store "s1" (mkSection "s1" "ipset" [("name", UStr "youtube")])
    "youtube" lock_unique (list_elem_of_here _ _) eq_refl eq_refl eq_refl).
Defined.

Lemma set_name_validate_iff_witness :
  set_name_validate (I := plain_i18n) lock_store "s2" "youtube" = Valid ↔
  set_name_regex "youtube" = true ∧ String.prefix "mwan3_" "youtube" = false ∧
  ∀ s, s ∈ view lock_store → sec_type s = "ipset" → sec_name s ≠ "s2" →
    opt_is (sec_opt "name" s) "youtube" = false.
Proof. apply (set_name_validate_iff (I := plain_i18n)). discriminate. Defined.
