(* ===== verification/SimulatorFacts.v ===== *)
(** The simulator: which rules a verdict lists, the bypass of connected
    networks, and blank fields. *)
From stdpp Require Import base list strings.
From Stdlib Require Import ZArith Lia Ascii Bool Sorting.Sorted.
From S2P Require Import Prelude JsNum JsString JsArray JsObject Luci IpMath Components Simulator ConfigurationFacts.

Section Matched.
Context {V : Validation}.

(** An enabled rule at index [k] that matches. *)
Definition hits (rules : list section) (s : sim) (cache : nftset_cache) (k : nat) : Prop :=
  ∃ r, rules !! k = Some r ∧ rule_disabled r = false ∧ ruleMatches r s cache = Ok true.

Lemma matched_from_spec i rules s cache l :
  matched_from i rules s cache = Ok l →
  (∀ k, k ∈ l ↔ (i <= k)%nat ∧ hits rules s cache (k - i)) ∧ StronglySorted lt l.
Proof.
  revert i l. induction rules as [|r rules IH]; intros i l; cbn [matched_from].
  { intros [= <-]. split; [|constructor]. intros k. split; [intros []%not_elem_of_nil|].
    by intros (_ & r & Hr & _). }
  assert (∀ k, (i < k)%nat → hits (r :: rules) s cache (k - i) ↔ hits rules s cache (k - S i)) as Hshift.
  { intros k Hk. unfold hits. replace (k - i)%nat with (S (k - S i)) by lia. done. }
  assert (hits (r :: rules) s cache 0 ↔ rule_disabled r = false ∧ ruleMatches r s cache = Ok true) as H0.
  { unfold hits. cbn. naive_solver. }
  destruct (rule_disabled r) eqn:Ed.
  - intros (H1 & H2)%IH. split; [|done]. intros k. rewrite H1. split.
    + intros [Hk Hh]. split; [lia|]. by apply Hshift.
    + intros [Hk Hh]. destruct (decide (k = i)) as [->|]; [|split; [lia|apply Hshift; [lia|done]]].
      rewrite Nat.sub_diag in Hh. apply H0 in Hh as [? _]. done.
  - intros (b & Hb & (rest & Hrest & [= <-])%rbind_Ok_inv)%rbind_Ok_inv.
    apply IH in Hrest as [H1 H2]. destruct b.
    + split.
      * intros k. rewrite elem_of_cons, H1. split.
        -- intros [->|[Hk Hh]]; [rewrite Nat.sub_diag; split; [done|by apply H0]|].
           split; [lia|by apply Hshift].
        -- intros [Hk Hh]. destruct (decide (k = i)); [by left|right].
           split; [lia|apply Hshift; [lia|done]].
      * constructor; [done|]. apply Forall_forall. intros k [Hk _]%H1. lia.
    + split; [|done]. intros k. rewrite H1. split.
      * intros [Hk Hh]. split; [lia|by apply Hshift].
      * intros [Hk Hh]. destruct (decide (k = i)) as [->|]; [|split; [lia|apply Hshift; [lia|done]]].
        rewrite Nat.sub_diag in Hh. apply H0 in Hh as [_ ?]. congruence.
Qed.

(** ** The set cache *)

Lemma add_set_NoDup acc o : NoDup acc → NoDup (add_set acc o).
Proof.
  intros H. unfold add_set. destruct o as [n|]; [|done]. destruct (existsb _ acc) eqn:E; [done|].
  apply NoDup_app. split_and!; [done| |apply NoDup_singleton].
  intros x Hx ->%list_elem_of_singleton. rewrite existsb_false in E.
  specialize (E n Hx). by rewrite String.eqb_refl in E.
Qed.

Lemma rule_sets_NoDup rules : NoDup (rule_sets rules).
Proof.
  unfold rule_sets. assert (∀ acc, NoDup acc → NoDup (fold_left (λ acc r,
    if rule_disabled r then acc
    else add_set (add_set acc (sec_text "ipset" r)) (sec_text "ipset_src" r)) rules acc)) as H.
  { induction rules as [|r rules IH]; intros acc Hacc; [done|]. cbn [fold_left]. apply IH.
    case_if; [done|]. by apply add_set_NoDup, add_set_NoDup. }
  apply H. constructor.
Qed.

(** The members of each set the router has. *)
Definition cache_of (members : string → list string) (sets : list string) : nftset_cache :=
  map (λ n, (n, members n)) sets.

Lemma obj_put_fresh {A} k (v : A) o : k ∉ obj_names o → obj_put k v o = o ++ [(k, v)].
Proof.
  induction o as [|[j w] o IH]; [done|]. unfold obj_names. cbn [map fst obj_put app].
  intros [Hne Hn]%not_elem_of_cons. rewrite (proj2 (String.eqb_neq k j)) by done. by rewrite IH.
Qed.

Lemma cache_built members sets :
  NoDup sets → "__proto__" ∉ sets →
  fold_left (λ o (pr : string * list string), obj_set (fst pr) (snd pr) o)
    (zip sets (map members sets)) [] = cache_of members sets.
Proof.
  intros Hnd Hp.
  assert (∀ o, (∀ n, n ∈ sets → n ∉ obj_names o) →
    fold_left (λ o (pr : string * list string), obj_set (fst pr) (snd pr) o)
      (zip sets (map members sets)) o = o ++ cache_of members sets) as H.
  { induction sets as [|n sets IH]; intros o Ho; [by rewrite app_nil_r|].
    apply NoDup_cons in Hnd as [Hn Hnd]. apply not_elem_of_cons in Hp as [Hp1 Hp].
    cbn [map zip_with fold_left fst snd]. rewrite IH; [|done|done|].
    - unfold obj_set. rewrite (proj2 (String.eqb_neq n "__proto__")) by congruence.
      rewrite obj_put_fresh by (apply Ho; left). by rewrite <- app_assoc.
    - intros m Hm. unfold obj_set. rewrite (proj2 (String.eqb_neq n "__proto__")) by congruence.
      rewrite obj_put_fresh by (apply Ho; left). unfold obj_names. rewrite map_app. cbn [map fst].
      rewrite elem_of_app, list_elem_of_singleton. intros [Hin| ->]; [|done].
      by apply (Ho m); [right|]. }
  apply (H []). intros n _. apply not_elem_of_nil.
Qed.
End Matched.

(** ** Runs against a router that answers every request *)

Section Runs.
Context {I : I18n} {V : Validation}.

Record router : Type := mkRouter {
  ro_resolve : string → string → resolved;
  ro_policies : list section;
  ro_rules : list section;
  ro_live : live_policies;
  ro_members : string → list string;
}.

Definition answers (R : router) (q : request) : res answer :=
  match q with
  | ResolveHost h f => Ok (AResolved (ro_resolve R h f))
  | ReloadUci => Ok (AUci (ro_policies R) (ro_rules R))
  | PoliciesStatus => Ok (APolicies (ro_live R))
  | NftsetMembers n => Ok (AMembers (ro_members R n))
  end.

Definition connected (R : router) (dst : string) : list string :=
  ro_members R (if isIPv6 dst then "mwan3_connected_v6" else "mwan3_connected_v4").

Lemma members_answers R sets :
  map_res (answers R) (map NftsetMembers sets) = Ok (map (λ n, AMembers (ro_members R n)) sets).
Proof. induction sets as [|n sets IH]; [done|]. cbn [map map_res answers rbind]. by rewrite IH. Qed.

Definition rule_cache (R : router) : nftset_cache :=
  cache_of (ro_members R) (rule_sets (ro_rules R)).

(** What the run shows once the packet is known. *)
Definition decide_packet (R : router) (s : sim) : outcome :=
  match (if str_truthy (sm_dst_ip s) then first_cidr (sm_dst_ip s) (connected R (sm_dst_ip s)) else Ok None) with
  | Throw e => Failed e
  | Ok (Some c) => Bypassed (sm_dst_ip s) c
  | Ok None =>
      match allMatched (ro_rules R) s (rule_cache R) with
      | Ok matched => Verdict (ro_rules R) matched (ro_live R) (ro_policies R)
      | Throw e => Failed e
      end
  end.

Lemma refreshed_run R s h1 h2 :
  "__proto__" ∉ rule_sets (ro_rules R) →
  run_with (answers R) (Ask refresh_requests (refreshed s h1 h2)) = decide_packet R s.
Proof.
  intros Hp. cbn [run_with refresh_requests map_res answers rbind refreshed members_of].
  unfold decide_packet, connected.
  assert ((if isIPv6 (sm_dst_ip s) then ro_members R "mwan3_connected_v6" else ro_members R "mwan3_connected_v4")
          = ro_members R (if isIPv6 (sm_dst_ip s) then "mwan3_connected_v6" else "mwan3_connected_v4")) as ->
    by (by destruct (isIPv6 _)).
  destruct (if str_truthy _ then _ else _) as [[c|]|e]; [done| |done].
  cbn [run_with]. rewrite members_answers. unfold evaluate. rewrite map_map. cbn [members_of].
  change (λ x, members_of (AMembers (ro_members R x))) with (ro_members R).
  rewrite cache_built by (done || apply rule_sets_NoDup). fold (rule_cache R).
  destruct (allMatched _ _ _); done.
Qed.

(** The packet a side's input denotes: a literal as typed, a host name as the
    first address the router resolves it to. *)
Definition side_addr (R : router) (raw family : string) : option string :=
  if looksLikeFqdn raw then pickFamilyAddrs (ro_resolve R raw family) family !! 0%nat else Some raw.

Lemma use_resolved_side R raw family :
  (λ p, fst p) <$> use_resolved raw family
    (if looksLikeFqdn raw then Some (AResolved (ro_resolve R raw family)) else None)
  = side_addr R raw family.
Proof.
  unfold side_addr, use_resolved. destruct (looksLikeFqdn raw); [|done].
  by destruct (pickFamilyAddrs _ _).
Qed.

(** The whole run, as a function of the input and the router. *)
Definition simulate (R : router) (i : sim_input) : outcome :=
  let src := trimmed (inp_src i) in
  let dst := trimmed (inp_dst i) in
  let family := default "" (inp_family i) in
  if bad_address src then InvalidSource (tr "Invalid source IP address" +:+ ": " +:+ src)
  else if bad_address dst then InvalidDestination (tr "Invalid destination IP address" +:+ ": " +:+ dst)
  else
    match side_addr R src family, side_addr R dst family with
    | None, _ => unresolved "Could not resolve source hostname" src
    | _, None => unresolved "Could not resolve destination hostname" dst
    | Some a, Some b => decide_packet R (mk_sim i a b)
    end.

Lemma resolved_then_run R i :
  "__proto__" ∉ rule_sets (ro_rules R) →
  let family := default "" (inp_family i) in
  let ans := λ raw, if looksLikeFqdn raw then Some (AResolved (ro_resolve R raw family)) else None in
  run_with (answers R) (resolved_then i (ans (trimmed (inp_src i))) (ans (trimmed (inp_dst i)))) =
  match side_addr R (trimmed (inp_src i)) family, side_addr R (trimmed (inp_dst i)) family with
  | None, _ => unresolved "Could not resolve source hostname" (trimmed (inp_src i))
  | _, None => unresolved "Could not resolve destination hostname" (trimmed (inp_dst i))
  | Some a, Some b => decide_packet R (mk_sim i a b)
  end.
Proof.
  intros Hp family ans. rewrite <- !use_resolved_side. unfold resolved_then, ans. cbv zeta. fold family.
  destruct (use_resolved (trimmed (inp_src i)) family _) as [[a h1]|]; [|done].
  destruct (use_resolved (trimmed (inp_dst i)) family _) as [[b h2]|]; [|done].
  cbn [fmap option_fmap option_map fst]. by apply refreshed_run.
Qed.

(** The run of the simulation. *)
Lemma handleSimulate_run R i :
  "__proto__" ∉ rule_sets (ro_rules R) →
  run_with (answers R) (handleSimulate i) = simulate R i.
Proof.
  intros Hp. pose proof (resolved_then_run R i Hp) as H. cbv zeta in H.
  unfold handleSimulate, simulate. cbv zeta.
  destruct (bad_address (trimmed (inp_src i))); [done|].
  destruct (bad_address (trimmed (inp_dst i))); [done|]. rewrite <- H. clear H.
  destruct (looksLikeFqdn (trimmed (inp_src i))) eqn:E1,
    (looksLikeFqdn (trimmed (inp_dst i))) eqn:E2; reflexivity.
Qed.

(** C3: the asynchronous simulation (resolving names, reloading, fetching the
    referenced sets) computes, whatever the router answers, the specified
    result: input errors first, then unresolvable names, then the connected
    networks, which bypass every rule, and only then the rules. *)
Theorem handleSimulate_refines R i :
  "__proto__" ∉ rule_sets (ro_rules R) →
  run_with (answers R) (handleSimulate i) = simulate R i.
Proof. apply handleSimulate_run. Qed.

(** The rules of a verdict. *)
Lemma verdict_hits R i rules matched p policies :
  "__proto__" ∉ rule_sets (ro_rules R) →
  run_with (answers R) (handleSimulate i) = Verdict rules matched p policies →
  ∃ src dst, let s := mk_sim i src dst in
    side_addr R (trimmed (inp_src i)) (default "" (inp_family i)) = Some src ∧
    side_addr R (trimmed (inp_dst i)) (default "" (inp_family i)) = Some dst ∧
    (dst ≠ "" → first_cidr dst (connected R dst) = Ok None) ∧
    StronglySorted lt matched ∧ (∀ k, k ∈ matched ↔ hits (ro_rules R) s (rule_cache R) k) ∧
    (∀ k, hd_error matched = Some k → ∀ j, (j < k)%nat → ¬ hits (ro_rules R) s (rule_cache R) j).
Proof.
  intros Hp. rewrite handleSimulate_run by done. unfold simulate. cbv zeta.
  case_if; [done|]. case_if; [done|].
  destruct (side_addr R (trimmed (inp_src i)) _) as [src|] eqn:Esrc; [|done].
  destruct (side_addr R (trimmed (inp_dst i)) _) as [dst|] eqn:Edst; [|done].
  unfold decide_packet. cbn [sm_dst_ip mk_sim]. intros H. exists src, dst. cbv zeta.
  destruct (if str_truthy dst then first_cidr dst (connected R dst) else Ok None) as [[c|]|e] eqn:Ec; [done| |done].
  destruct (allMatched _ _ _) as [l|e] eqn:Em; [|done]. injection H as <- <- <- <-.
  apply matched_from_spec in Em as [Hin Hs].
  assert (∀ k, k ∈ l ↔ hits (ro_rules R) (mk_sim i src dst) (rule_cache R) k) as Hin'.
  { intros k. rewrite Hin, Nat.sub_0_r. split; [by intros [_ ?]|]. intros ?. split; [lia|done]. }
  split_and!; [done|done| |done|done|].
  - intros Hne. unfold str_truthy in Ec. by rewrite (proj2 (String.eqb_neq dst "")) in Ec.
  - intros k Hk j Hj Hh. apply Hin' in Hh. destruct l as [|k' l]; [done|]. injection Hk as ->.
    apply elem_of_cons in Hh as [->|Hh]; [lia|]. apply StronglySorted_inv in Hs as [_ Hs].
    rewrite Forall_forall in Hs. specialize (Hs j Hh). lia.
Qed.

(** C12: a verdict's first rule is the first enabled rule that matches the
    packet, the others are exactly the later enabled rules that match, in
    order, and the destination is in no connected network. *)
Theorem verdict_first_match R i rules matched p policies :
  "__proto__" ∉ rule_sets (ro_rules R) →
  run_with (answers R) (handleSimulate i) = Verdict rules matched p policies →
  ∃ src dst, let s := mk_sim i src dst in
    side_addr R (trimmed (inp_src i)) (default "" (inp_family i)) = Some src ∧
    side_addr R (trimmed (inp_dst i)) (default "" (inp_family i)) = Some dst ∧
    (dst ≠ "" → first_cidr dst (connected R dst) = Ok None) ∧
    StronglySorted lt matched ∧ (∀ k, k ∈ matched ↔ hits (ro_rules R) s (rule_cache R) k) ∧
    (∀ k, hd_error matched = Some k → ∀ j, (j < k)%nat → ¬ hits (ro_rules R) s (rule_cache R) j).
Proof. apply verdict_hits. Qed.

(** Blank fields never match a constraint: a rule that constrains a field
    the user left blank does not match, whatever its other constraints. *)
Theorem blank_never_matches rule s cache :
  (opt_text (sec_opt "src_ip" rule) ≠ None ∧ sm_src_ip s = ""
   ∨ opt_text (sec_opt "dest_ip" rule) ≠ None ∧ sm_dst_ip s = ""
   ∨ opt_text (sec_opt "src_port" rule) ≠ None ∧ sm_src_port s = ""
   ∨ opt_text (sec_opt "dest_port" rule) ≠ None ∧ sm_dst_port s = ""
   ∨ opt_text (sec_opt "ipset_src" rule) ≠ None ∧ sm_src_ip s = ""
   ∨ opt_text (sec_opt "ipset" rule) ≠ None ∧ sm_dst_ip s = "") →
  ruleMatches rule s cache ≠ Ok true.
Proof.
  intros Hc Hm. unfold ruleMatches in Hm. apply all_checks_true in Hm. unfold rule_checks in Hm.
  rewrite !Forall_cons in Hm. destruct Hm as (_ & _ & C3 & C4 & C5 & C6 & C7 & C8 & _).
  assert (∀ v, opt_text v ≠ None → addr_check v "" ≠ Ok true) as Ha.
  { intros [[t|l]|]; cbn; [|done|done]. by destruct (str_truthy t). }
  assert (∀ v, opt_text v ≠ None → port_check v "" ≠ Ok true) as Hp.
  { intros [[t|l]|]; cbn; [|done|done]. by destruct (str_truthy t). }
  assert (∀ v, opt_text v ≠ None → set_check v "" cache ≠ Ok true) as Hs.
  { intros v. unfold set_check. by destruct (opt_text v). }
  destruct_or! Hc; destruct Hc as [Hv Hb]; rewrite Hb in *;
    [exact (Ha _ Hv C3)|exact (Ha _ Hv C4)|exact (Hp _ Hv C5)|exact (Hp _ Hv C6)
    |exact (Hs _ Hv C7)|exact (Hs _ Hv C8)].
Qed.
End Runs.

Definition demo_router : router :=
  mkRouter (λ _ _, mkResolved [] []) [] [mkSection "r1" "rule" [("dest_ip", UStr "8.8.8.8")];
                                         mkSection "r2" "rule" [("use_policy", UStr "default")]]
    (mkLivePolicies [] []) (λ n, if String.eqb n "mwan3_connected_v4" then ["192.168.1.0/24"] else []).

Definition demo_input : sim_input := mkInput None (Some " 8.8.8.8 ") (Some "all") None None None None.

Lemma handleSimulate_refines_witness :
  run_with (answers demo_router) (handleSimulate (I := plain_i18n) demo_input)
  = Verdict (ro_rules demo_router) [0%nat; 1%nat] (mkLivePolicies [] []) [].
Proof.
  rewrite (handleSimulate_refines (I := plain_i18n) demo_router demo_input).
  - vm_compute. reflexivity.
  - apply not_elem_of_nil.
Defined.

Lemma verdict_first_match_witness :
  ∃ src dst, let s := mk_sim demo_input src dst in
    side_addr demo_router "" "" = Some src ∧
    side_addr demo_router "8.8.8.8" "" = Some dst ∧
    (dst ≠ "" → first_cidr dst (connected demo_router dst) = Ok None) ∧
    StronglySorted lt [0%nat; 1%nat] ∧
    (∀ k, k ∈ [0%nat; 1%nat] ↔ hits (ro_rules demo_router) s (rule_cache demo_router) k) ∧
    (∀ k, hd_error [0%nat; 1%nat] = Some k →
      ∀ j, (j < k)%nat → ¬ hits (ro_rules demo_router) s (rule_cache demo_router) j).
Proof.
  apply (verdict_first_match (I := plain_i18n) demo_router demo_input (ro_rules demo_router)
           [0%nat; 1%nat] (mkLivePolicies [] []) []).
  - apply not_elem_of_nil.
  - vm_compute. reflexivity.
Defined.

Lemma blank_never_matches_witness :
  ruleMatches (V := plain_validation) (mkSection "r1" "rule" [("dest_port", UStr "443")])
    (mkSim "10.0.0.1" "8.8.8.8" "tcp" "" "" "" "") [] ≠ Ok true.
Proof. apply blank_never_matches. right. right. right. left. split; [discriminate|reflexivity]. Defined.
