(* ===== verification/RuleAnalysis.v ===== *)
(** The static analysis ([network/configuration.js]) and the traffic path
    simulator ([network/simulator.js]) agree: a rule reported as unreachable
    decides no simulated packet, and on a configuration without errors the
    policy of the deciding rule is always found. *)
From stdpp Require Import base list strings.
From Stdlib Require Import ZArith Lia Ascii Bool Sorted.
From S2P Require Import Prelude JsNum JsString JsArray JsObject Luci Forms Components IpMath Simulator Configuration.
From S2P Require Import ConfigurationFacts SimulatorFacts.

(** ** What a report of a shadowed rule says *)

Lemma shadowed_by_inv a later l i :
  shadowed_by a later = Ok l → i ∈ l →
  ∃ j b, later !! j = Some b ∧ ruleAContainsB a b = Ok true ∧ i = RuleShadowed (sec_name b) (sec_name a).
Proof.
  revert l. induction later as [|b rest IH]; intros l; cbn [shadowed_by].
  { by intros [= <-] ?%not_elem_of_nil. }
  intros (c & Hc & (l' & Hl & [= <-])%rbind_Ok_inv)%rbind_Ok_inv Hi.
  assert (i ∈ l' → ∃ j b0, (b :: rest) !! j = Some b0 ∧ ruleAContainsB a b0 = Ok true ∧ i = RuleShadowed (sec_name b0) (sec_name a)) as Hrest.
  { intros (j & b0 & H)%(IH l' Hl). by exists (S j), b0. }
  destruct c; [|by apply Hrest]. apply elem_of_cons in Hi as [->|Hi]; [|by apply Hrest]. by exists 0%nat, b.
Qed.

Lemma shadow_issues_inv rules l i :
  shadow_issues rules = Ok l → i ∈ l →
  ∃ j k a b, (j < k)%nat ∧ rules !! j = Some a ∧ rules !! k = Some b ∧
    ruleAContainsB a b = Ok true ∧ i = RuleShadowed (sec_name b) (sec_name a).
Proof.
  revert l. induction rules as [|a rest IH]; intros l; cbn [shadow_issues].
  { by intros [= <-] ?%not_elem_of_nil. }
  intros (l1 & H1 & (l2 & H2 & [= <-])%rbind_Ok_inv)%rbind_Ok_inv [Hi|Hi]%elem_of_app.
  - destruct (shadowed_by_inv _ _ _ _ H1 Hi) as (k & b & Hk & Hc & ->). exists 0%nat, (S k), a, b.
    split_and!; [lia|done..].
  - destruct (IH _ H2 Hi) as (j & k & a' & b & Hjk & H). exists (S j), (S k), a', b.
    split; [lia|exact H].
Qed.

Definition other_issue (i : issue) : Prop := match i with RuleShadowed _ _ => False | _ => True end.

Lemma flat_map_forall {A B} (P : B → Prop) (f : A → list B) l : (∀ x, Forall P (f x)) → Forall P (flat_map f l).
Proof. intros H. induction l as [|x l IH]; cbn; [constructor|]. by apply Forall_app. Qed.

Lemma each_forall {A} (P : issue → Prop) (o : jsobj A) f : (∀ k v, Forall P (f k v)) → Forall P (each o f).
Proof. intros H. apply flat_map_forall. intros k. by destruct (obj_own k o). Qed.

(** Only the comparison of the rules reports a shadowed one. *)
Lemma others_other d :
  Forall other_issue (member_ref_issues d) ∧ Forall other_issue (member_use_issues d) ∧
  Forall other_issue (policy_issues d) ∧ Forall other_issue (policy_use_issues d) ∧
  Forall other_issue (rule_ref_issues d) ∧ Forall other_issue (iface_use_issues d).
Proof.
  split_and!; try (apply each_forall; intros k v); try (apply flat_map_forall; intros r);
    try (repeat case_match; repeat constructor).
  unfold policy_issues_of. rewrite !Forall_app. split_and!.
  - destruct (pd_use_member v); repeat constructor.
  - apply flat_map_forall. intros m. case_match; repeat constructor.
  - cbv zeta. repeat case_match; repeat constructor.
Qed.

Lemma shadow_reported d issues nb na :
  collectIssues d = Ok issues → RuleShadowed nb na ∈ issues →
  ∃ j k a b, (j < k)%nat ∧ ud_rules d !! j = Some a ∧ ud_rules d !! k = Some b ∧
    ruleAContainsB a b = Ok true ∧ nb = sec_name b ∧ na = sec_name a.
Proof.
  unfold collectIssues. intros (sh & Hsh & [= <-])%rbind_Ok_inv Hi.
  destruct (others_other d) as (H1 & H2 & H3 & H4 & H5 & H6). rewrite Forall_forall in H1, H2, H3, H4, H5, H6.
  rewrite !elem_of_app in Hi. destruct Hi as [H|[H|[H|[H|[H|[Hi|H]]]]]];
    [by apply H1 in H|by apply H2 in H|by apply H3 in H|by apply H4 in H|by apply H5 in H| |by apply H6 in H].
  destruct (shadow_issues_inv _ _ _ Hsh Hi) as (j & k & a & b & Hjk & Hj & Hk & Hc & [= -> ->]). by exists j, k, a, b.
Qed.

(** Positions among the enabled rules and among all. *)
Lemma filter_positions {A} (f : A → bool) l j k x y :
  (j < k)%nat → List.filter f l !! j = Some x → List.filter f l !! k = Some y →
  ∃ j' k', (j' < k')%nat ∧ l !! j' = Some x ∧ l !! k' = Some y ∧ f x = true ∧ f y = true.
Proof.
  revert j k. induction l as [|z l IH]; intros j k Hjk; cbn; [done|].
  destruct (f z) eqn:Ez.
  - destruct k as [|k]; [lia|]. destruct j as [|j]; cbn; intros Hx Hy.
    + injection Hx as ->. apply list_elem_of_lookup_2, list_elem_of_In, filter_In in Hy as [Hy Hf].
      apply list_elem_of_In, list_elem_of_lookup_1 in Hy as [k' Hk]. exists 0%nat, (S k').
      split_and!; [lia|done..].
    + destruct (IH j k) as (j' & k' & H); [lia|done|done|]. exists (S j'), (S k'). split; [lia|apply H].
  - intros Hx Hy. destruct (IH j k) as (j' & k' & Hj & H); [done..|]. exists (S j'), (S k'). split; [lia|exact H].
Qed.

(** ** The theorems *)

Section Agreement.
Context {St : Type} {U : Uci St} {UL : UciLaws U} {I : I18n}.

(** The router runs on the configuration that the analysis reads. *)
Record same_config (R : router) (st : St) : Prop := mkSameConfig {
  sc_rules : ro_rules R = uci_sections st "mwan3" "rule";
  sc_policies : ro_policies R = uci_sections st "mwan3" "policy";
}.

(** C5: a rule that the static analysis reports as unreachable decides no
    packet: for any input whose addresses the analysis could compare, the
    simulator's first matching rule is never the reported one. *)
Theorem unreachable_never_decides R st issues nb na i rules matched p policies k r :
  same_config R st → NoDup (map sec_name (ro_rules R)) → "__proto__" ∉ rule_sets (ro_rules R) →
  collectIssues (load_data st) = Ok issues → RuleShadowed nb na ∈ issues →
  (∀ src dst a b, side_addr R (trimmed (inp_src i)) (default "" (inp_family i)) = Some src →
    side_addr R (trimmed (inp_dst i)) (default "" (inp_family i)) = Some dst →
    a ∈ ro_rules R → b ∈ ro_rules R →
    addrs_ok src (sec_opt "src_ip" a) (sec_opt "src_ip" b) ∧ addrs_ok dst (sec_opt "dest_ip" a) (sec_opt "dest_ip" b)) →
  run_with (answers R) (handleSimulate i) = Verdict rules matched p policies →
  hd_error matched = Some k → ro_rules R !! k = Some r → sec_name r ≠ nb.
Proof.
  intros [Hr _] Hnd Hpr Hc Hi Haddr Hv Hk Hkr Heq.
  destruct (shadow_reported _ _ _ _ Hc Hi) as (j0 & k0 & a & b & Hjk & Hj & Hb & Hcont & Hn & _).
  unfold load_data, enabled_rules in Hj, Hb. cbn [ud_rules] in Hj, Hb. rewrite <- Hr in Hj, Hb.
  destruct (filter_positions _ _ _ _ _ _ Hjk Hj Hb) as (j' & k' & Hjk' & Ha' & Hb' & Hfa & Hfb).
  apply negb_true_iff in Hfa.
  assert (k = k') as <-.
  { apply (NoDup_lookup (map sec_name (ro_rules R)) k k' (sec_name r)); [done|by rewrite list_lookup_fmap, Hkr|].
    rewrite list_lookup_fmap, Hb'. cbn. congruence. }
  destruct (verdict_hits R i rules matched p policies Hpr Hv) as (src & dst & Hsrc & Hdst & _ & _ & Hin & Hfirst).
  assert (k ∈ matched) as Hkm by (destruct matched; [done|]; injection Hk as ->; by left).
  apply Hin in Hkm as (b' & Hb'' & _ & Hm). assert (b' = b) as -> by congruence.
  apply (Hfirst k Hk j' Hjk'). exists a. split_and!; [done|done|].
  destruct (Haddr src dst a b Hsrc Hdst) as [H1 H2]; [by eapply list_elem_of_lookup_2..|].
  by eapply (contains_sound a b).
Qed.

Lemma verdict_parts R i rules matched p policies :
  "__proto__" ∉ rule_sets (ro_rules R) →
  run_with (answers R) (handleSimulate i) = Verdict rules matched p policies →
  rules = ro_rules R ∧ policies = ro_policies R.
Proof.
  intros Hp. rewrite handleSimulate_run by done. unfold simulate. cbv zeta.
  case_if; [done|]. case_if; [done|]. destruct (side_addr R (trimmed (inp_src i)) _); [|done].
  destruct (side_addr R (trimmed (inp_dst i)) _); [|done]. unfold decide_packet.
  destruct (if str_truthy _ then _ else _) as [[c|]|e]; [done| |done].
  destruct (allMatched _ _ _); [|done]. by intros [= <- <- <- <-].
Qed.

Definition not_found : node := E "div" [("class", text_cls danger)] (Html (tr "Policy not found in configuration")).

(** C6: on a configuration without errors the result of a simulation says that
    the policy was not found only where the rule that decides names no policy,
    or names a property every object inherits; any other policy it names is
    built in or has its section.  The router runs on the configuration that was
    analysed, whose sections have distinct names per type, none of them
    [__proto__], which is no set of a rule either.  The analysis reports neither
    of the two exceptions (see [no_policy_unreported] and
    [ConfigurationFacts.proto_policy_unreported]). *)
Theorem consistent_policy_found R st issues i rules matched p policies k r live :
  same_config R st → names_ok st → "__proto__" ∉ rule_sets (ro_rules R) →
  collectIssues (load_data st) = Ok issues → (∀ x, x ∈ issues → is_error x = false) →
  run_with (answers R) (handleSimulate i) = Verdict rules matched p policies →
  hd_error matched = Some k → rules !! k = Some r →
  renderPolicyDetail (policy_name r) live policies = not_found →
  rule_policy r = None ∨ ∃ name, rule_policy r = Some name ∧ in_proto name = true.
Proof.
  intros [Hr Hpol] Hok Hpr Hc Herr Hv Hk Hkr.
  destruct (verdict_parts R i rules matched p policies Hpr Hv) as [-> ->].
  destruct (verdict_hits R i _ matched p _ Hpr Hv) as (src & dst & _ & _ & _ & _ & Hin & _).
  assert (k ∈ matched) as Hkm by (destruct matched; [done|]; injection Hk as ->; by left).
  apply Hin in Hkm as (r' & Hr' & Hen & _). assert (r' = r) as -> by congruence.
  destruct (proj1 (no_errors_consistent st issues Hok Hc) Herr) as (_ & _ & Hrules).
  destruct (rule_policy r) as [name|] eqn:Hn; [|by left].
  assert (policy_name r = name) as -> by (unfold policy_name, rule_policy in *; by rewrite Hn).
  specialize (Hrules r name). unfold of_type in Hrules. rewrite <- sections_view, <- Hr in Hrules.
  specialize (Hrules ltac:(by eapply list_elem_of_lookup_2) Hen Hn).
  unfold renderPolicyDetail, not_found. destruct (builtin_policy name) as [t|] eqn:Eb; [by intros [=]|].
  destruct (liveMembers live name); [|by intros [=]].
  destruct Hrules as [Hb|[Hp|(s & Hsn & Hs)%list_elem_of_fmap]].
  - exfalso. apply list_elem_of_In in Hb. cbn in Hb. destruct_or! Hb; subst; done.
  - intros _. right. by exists name.
  - unfold of_type in Hs. rewrite <- sections_view, <- Hpol in Hs. destruct (find_policy name (ro_policies R)) eqn:Ef; [by intros [=]|].
    exfalso. unfold find_policy in Ef. pose proof (find_none _ _ Ef s ltac:(by apply list_elem_of_In)) as Hx.
    cbn in Hx. by rewrite <- Hsn, String.eqb_refl in Hx.
Qed.
End Agreement.

(** ** An example: the second rule is hidden by the first *)

Definition hidden_cfg : list section :=
  [mkSection "wan" "interface" [];
   mkSection "m1" "member" [("interface", UStr "wan")];
   mkSection "p1" "policy" [("use_member", UList ["m1"])];
   mkSection "r1" "rule" [("use_policy", UStr "p1")];
   mkSection "r2" "rule" [("dest_ip", UStr "8.8.8.8"); ("use_policy", UStr "default")]].

Definition hidden_store : mem_uci := λ _, hidden_cfg.

Definition hidden_router : router :=
  mkRouter (λ _ _, mkResolved [] []) (sections_of_type "policy" hidden_cfg) (sections_of_type "rule" hidden_cfg)
    (mkLivePolicies [] []) (λ n, if String.eqb n "mwan3_connected_v4" then ["192.168.1.0/24"] else []).

Lemma hidden_same : same_config hidden_router hidden_store.
Proof. constructor; reflexivity. Qed.

Lemma hidden_verdict :
  run_with (answers hidden_router) (handleSimulate demo_input) =
  Verdict (ro_rules hidden_router) [0%nat; 1%nat] (mkLivePolicies [] []) (ro_policies hidden_router).
Proof. vm_compute. reflexivity. Qed.

Lemma hidden_issues :
  collectIssues (load_data hidden_store) = Ok [RuleShadowed "r2" "r1"].
Proof. vm_compute. reflexivity. Qed.

Lemma unreachable_never_decides_witness : sec_name (mkSection "r1" "rule" [("use_policy", UStr "p1")]) ≠ "r2".
Proof.
  apply (unreachable_never_decides hidden_router hidden_store [RuleShadowed "r2" "r1"] "r2" "r1" demo_input
           (ro_rules hidden_router) [0%nat; 1%nat] (mkLivePolicies [] []) (ro_policies hidden_router) 0%nat).
  - exact hidden_same.
  - apply (bool_decide_eq_true_1 _). vm_compute. reflexivity.
  - apply not_elem_of_nil.
  - exact hidden_issues.
  - by left.
  - intros src dst a b _ _ Ha Hb.
    assert (∀ x, x ∈ ro_rules hidden_router → sec_opt "src_ip" x = None ∧
              (sec_opt "dest_ip" x = None ∨ sec_opt "dest_ip" x = Some (UStr "8.8.8.8"))) as Hx.
    { intros x Hx. apply list_elem_of_In in Hx. simpl in Hx. destruct_or! Hx; subst; cbn; auto. }
    destruct (Hx a Ha) as [Hsa Hda], (Hx b Hb) as [Hsb Hdb]. split; intros ta tb Hta Htb Hne; [congruence|].
    destruct Hda, Hdb; congruence.
  - exact hidden_verdict.
  - reflexivity.
  - reflexivity.
Defined.

(** A rule without a policy: the analysis reports nothing, and the simulator
    does not find the policy. *)
Definition bare_cfg : list section := [mkSection "r1" "rule" [("dest_ip", UStr "8.8.8.8")]].
Definition bare_store : mem_uci := λ _, bare_cfg.
Definition bare_router : router :=
  mkRouter (λ _ _, mkResolved [] []) [] bare_cfg (mkLivePolicies [] []) (λ n, []).

Lemma bare_names_ok : names_ok (U := mem_uci_store) bare_store.
Proof.
  constructor.
  - intros ty. apply filter_names_NoDup. apply (bool_decide_eq_true_1 _). vm_compute. reflexivity.
  - intros ty H%sections_of_type_names. revert H. apply (bool_decide_eq_true_1 _). vm_compute. reflexivity.
Qed.

Lemma bare_verdict :
  run_with (answers bare_router) (handleSimulate demo_input) = Verdict bare_cfg [0%nat] (mkLivePolicies [] []) [].
Proof. vm_compute. reflexivity. Qed.

Lemma no_policy_unreported :
  collectIssues (load_data bare_store) = Ok [] ∧
  renderPolicyDetail (policy_name (mkSection "r1" "rule" [("dest_ip", UStr "8.8.8.8")])) (mkLivePolicies [] []) [] = not_found.
Proof. split; vm_compute; reflexivity. Qed.

Lemma consistent_policy_found_witness :
  let r := mkSection "r1" "rule" [("dest_ip", UStr "8.8.8.8")] in
  rule_policy r = None ∨ ∃ name, rule_policy r = Some name ∧ in_proto name = true.
Proof.
  apply (consistent_policy_found bare_router bare_store [] demo_input bare_cfg [0%nat] (mkLivePolicies [] []) [] 0%nat
           (mkSection "r1" "rule" [("dest_ip", UStr "8.8.8.8")]) (mkLivePolicies [] [])).
  - constructor; reflexivity.
  - exact bare_names_ok.
  - apply not_elem_of_nil.
  - apply no_policy_unreported.
  - intros x Hx. by apply not_elem_of_nil in Hx.
  - exact bare_verdict.
  - reflexivity.
  - reflexivity.
  - apply no_policy_unreported.
Defined.
