(* ===== verification/SimulatorUi.v ===== *)
(** [view/mwan3/network/simulator.js]: the result area of the page when runs of
    the simulation overlap.

    The button is disabled while its run is under way, but Enter in a field
    calls [handleSimulate] again at once, so several runs may be pending.  A
    page holds what the result area shows and the pending runs; it moves when
    a simulation is started and when the requests a run waits for are
    answered, in any order. *)
From stdpp Require Import base list strings relations.
From Stdlib Require Import ZArith Lia Ascii Bool.
From S2P Require Import Prelude JsNum JsString JsArray JsObject Luci IpMath Format Components Simulator.
From S2P Require Import SimulatorFacts.

Inductive area : Type :=
  | AreaEmpty
  | AreaLoading
  | AreaShows (o : outcome).

Record page : Type := mkPage {
  pg_area : area;
  pg_runs : list run;
}.

Definition fresh_page : page := mkPage AreaEmpty [].

Section Page.
Context {I : I18n} {V : Validation}.

(** [handleSimulate()]: a wrong address is reported at once, otherwise the
    area shows that the page is loading and the run is pending. *)
Definition press (i : sim_input) (p : page) : page :=
  match handleSimulate i with
  | Done o _ _ => mkPage (AreaShows o) (pg_runs p)
  | r => mkPage AreaLoading (pg_runs p ++ [r])
  end.

(** The requests run [k] waits for are answered, or one of them fails. *)
Definition reply (k : nat) (a : res (list answer)) (p : page) : page :=
  match pg_runs p !! k with
  | Some (Ask _ cont) =>
      match a with
      | Throw e => mkPage (AreaShows (Failed e)) (delete k (pg_runs p))
      | Ok l =>
          match cont l with
          | Done o _ _ => mkPage (AreaShows o) (delete k (pg_runs p))
          | r => mkPage (pg_area p) (<[k := r]> (pg_runs p))
          end
      end
  | _ => p
  end.

(** A reply to the requests of a batch: an answer to each, of its kind, or the
    failure of one. *)
Definition answers_to (q : request) (a : answer) : bool :=
  match q, a with
  | ResolveHost _ _, AResolved _ | ReloadUci, AUci _ _ | PoliciesStatus, APolicies _ | NftsetMembers _, AMembers _ => true
  | _, _ => false
  end.

Definition fits (reqs : list request) (a : res (list answer)) : Prop :=
  match a with Ok l => Forall2 (λ q x, answers_to q x = true) reqs l | Throw _ => True end.

(** A pending run is answered, in whatever way. *)
Inductive answered (p : page) : page → Prop :=
  | answer_run k reqs cont a : pg_runs p !! k = Some (Ask reqs cont) → fits reqs a → answered p (reply k a p).

(** A simulation that was started, with the replies to its batches so far. *)
Record started : Type := mkStarted {
  sm_input : sim_input;
  sm_replies : list (res (list answer));
}.

(** Whether a reply ends the run that waits for it. *)
Definition ends (cont : list answer → run) (a : res (list answer)) : bool :=
  match a with
  | Ok l => match cont l with Done _ _ _ => true | Ask _ _ => false end
  | Throw _ => true
  end.

(** A user's session: presses and replies in any order, each reply being what
    the router says at that moment.  The simulations that ended, the latest
    first, and those under way, in the order of the page's runs. *)
Inductive session : list started → list started → page → Prop :=
  | session_nil : session [] [] fresh_page
  | session_told ended open p i o h1 h2 :
      session ended open p → handleSimulate i = Done o h1 h2 → session (mkStarted i [] :: ended) open (press i p)
  | session_press ended open p i reqs cont :
      session ended open p → handleSimulate i = Ask reqs cont → session ended (open ++ [mkStarted i []]) (press i p)
  | session_reply ended open p k reqs cont st a :
      session ended open p → pg_runs p !! k = Some (Ask reqs cont) → open !! k = Some st → fits reqs a → ends cont a = false →
      session ended (<[k := mkStarted (sm_input st) (sm_replies st ++ [a])]> open) (reply k a p)
  | session_end ended open p k reqs cont st a :
      session ended open p → pg_runs p !! k = Some (Ask reqs cont) → open !! k = Some st → fits reqs a → ends cont a = true →
      session (mkStarted (sm_input st) (sm_replies st ++ [a]) :: ended) (delete k open) (reply k a p).

(** ** Every pending run ends *)

(** A run makes at most [n] batches of requests, whatever the answers. *)
Fixpoint at_most (n : nat) (r : run) : Prop :=
  match r with
  | Done _ _ _ => True
  | Ask _ cont => match n with O => False | S n => ∀ l, at_most n (cont l) end
  end.

Lemma at_most_S n r : at_most n r → at_most (S n) r.
Proof.
  revert r. induction n as [|n IH]; intros [o h1 h2|reqs cont] H; try done.
  intros l. apply IH, H.
Qed.

(** The names, the configuration with the state of the policies, the sets. *)
Lemma refreshed_batches s h1 h2 l : at_most 1 (refreshed s h1 h2 l).
Proof.
  unfold refreshed. destruct l as [|[] [|[] [|c4 [|c6 []]]]]; try done.
  destruct (if str_truthy (sm_dst_ip s) then _ else _) as [[c|]|e]; try done.
  intros l. unfold evaluate. by destruct (allMatched _ _ _).
Qed.

Lemma resolved_batches i src dst : at_most 2 (resolved_then i src dst).
Proof.
  unfold resolved_then. destruct (use_resolved _ _ src) as [[ip1 h1]|]; [|done].
  destruct (use_resolved _ _ dst) as [[ip2 h2]|]; [|done]. intros l. apply refreshed_batches.
Qed.

Lemma simulate_batches i : at_most 3 (handleSimulate i).
Proof.
  unfold handleSimulate. destruct (bad_address _); [done|]. destruct (bad_address _); [done|].
  destruct (looksLikeFqdn _), (looksLikeFqdn _); try (intros l; apply resolved_batches).
  apply at_most_S, resolved_batches.
Qed.

Lemma sum_delete (l : list nat) k x : l !! k = Some x → sum_list l = (x + sum_list (delete k l))%nat.
Proof.
  revert k. induction l as [|y l IH]; intros [|k] H; try done; cbn in *.
  - by injection H as ->.
  - specialize (IH k H). unfold delete in *. lia.
Qed.

Lemma sum_insert (l : list nat) k x y : l !! k = Some x → (sum_list (<[k := y]> l) + x = y + sum_list l)%nat.
Proof.
  revert k. induction l as [|z l IH]; intros [|k] H; try done; cbn in *.
  - injection H as ->. lia.
  - specialize (IH k H). unfold insert in *. lia.
Qed.

(** The replies a page still takes. *)
Lemma answered_bound n p p' ns :
  nsteps answered n p p' → Forall2 at_most ns (pg_runs p) → (n <= sum_list ns)%nat.
Proof.
  intros H. revert ns. induction H as [p|n p q p' H1 _ IH]; intros ns Hns; [lia|].
  destruct H1 as [k reqs cont a Hk _]. destruct (Forall2_lookup_r _ _ _ _ _ Hns Hk) as (m & Hm & Hb).
  destruct m as [|m]; [done|]. unfold reply in IH. rewrite Hk in IH.
  pose proof (sum_insert ns k (S m) m Hm) as Hins.
  pose proof (sum_delete ns k _ Hm) as Hdel.
  assert (Forall2 at_most (delete k ns) (delete k (pg_runs p))) as Hd by (by apply Forall2_delete).
  destruct a as [l|e]; [destruct (cont l) as [o h1 h2|reqs' cont'] eqn:El|].
  - specialize (IH _ Hd). lia.
  - assert (n <= sum_list (<[k := m]> ns))%nat; [|lia]. apply IH. cbn. apply Forall2_insert; [done|].
    rewrite <- El. apply Hb.
  - specialize (IH _ Hd). lia.
Qed.

(** ** What the area ends up showing *)

(** What is left of a run after the replies to its first batches. *)
Fixpoint after (replies : list (res (list answer))) (r : run) : option run :=
  match replies with
  | [] => Some r
  | Ok l :: replies => match r with Ask _ cont => after replies (cont l) | Done _ _ _ => None end
  | Throw _ :: _ => None
  end.

(** The outcome of a run that got these replies. *)
Fixpoint follow (replies : list (res (list answer))) (r : run) : option outcome :=
  match replies, r with
  | [], Done o _ _ => Some o
  | [Throw e], Ask _ _ => Some (Failed e)
  | Ok l :: replies, Ask _ cont => follow replies (cont l)
  | _, _ => None
  end.

Lemma after_reply replies r reqs cont l :
  after replies r = Some (Ask reqs cont) → after (replies ++ [Ok l]) r = Some (cont l).
Proof.
  revert r. induction replies as [|[l'|e] replies IH]; intros r H; cbn in *; [by injection H as ->| |done].
  destruct r; [done|]. by apply IH.
Qed.

Lemma follow_done replies r o h1 h2 : after replies r = Some (Done o h1 h2) → follow replies r = Some o.
Proof.
  revert r. induction replies as [|[l'|e] replies IH]; intros r H; cbn in *; [by injection H as ->| |done].
  destruct r; [done|]. by apply IH.
Qed.

Lemma follow_failed replies r reqs cont e :
  after replies r = Some (Ask reqs cont) → follow (replies ++ [Throw e]) r = Some (Failed e).
Proof.
  revert r. induction replies as [|[l'|e'] replies IH]; intros r H; cbn in *; [by injection H as ->| |done].
  destruct r; [done|]. by apply IH.
Qed.

Lemma after_at_most n replies r r' : at_most n r → after replies r = Some r' → at_most n r'.
Proof.
  revert n r. induction replies as [|[l|e] replies IH]; intros n r Hn H; cbn in H; [by injection H as ->| |done].
  destruct r as [|reqs cont]; [done|]. destruct n as [|n]; [done|]. apply at_most_S. by apply (IH n (cont l)).
Qed.

(** The outcome of a simulation that ended. *)
Definition outcome_of (st : started) : option outcome := follow (sm_replies st) (handleSimulate (sm_input st)).

(** A pending run is what is left of its simulation, and it waits. *)
Definition pending_ok (st : started) (r : run) : Prop :=
  after (sm_replies st) (handleSimulate (sm_input st)) = Some r ∧ ∃ reqs cont, r = Ask reqs cont.

Definition area_ok (ended : list started) (p : page) : Prop :=
  match pg_area p with
  | AreaEmpty => ended = [] ∧ pg_runs p = []
  | AreaLoading => pg_runs p ≠ []
  | AreaShows o => ∃ st rest, ended = st :: rest ∧ outcome_of st = Some o
  end.

Definition session_inv (ended open : list started) (p : page) : Prop :=
  Forall2 pending_ok open (pg_runs p) ∧ area_ok ended p.

Lemma reply_inv ended open p k reqs cont st a :
  session_inv ended open p → pg_runs p !! k = Some (Ask reqs cont) → open !! k = Some st →
  let st' := mkStarted (sm_input st) (sm_replies st ++ [a]) in
  if ends cont a then session_inv (st' :: ended) (delete k open) (reply k a p)
  else session_inv ended (<[k := st']> open) (reply k a p).
Proof.
  intros [Hp Ha] Hk Hst st'. destruct (Forall2_lookup_lr _ _ _ _ _ _ Hp Hst Hk) as [Haft _].
  unfold reply, ends. rewrite Hk. destruct a as [l|e].
  - pose proof (after_reply _ _ _ _ l Haft) as Hl. destruct (cont l) as [o h1 h2|reqs' cont'] eqn:El.
    + split; [by apply Forall2_delete|]. exists st', ended. split; [done|]. by apply (follow_done _ _ o h1 h2).
    + split; cbn; [apply Forall2_insert; [done|]; by split; [|eauto]|].
      revert Ha. unfold area_ok. cbn. destruct (pg_area p).
      * intros [_ Hn]. by rewrite Hn in Hk.
      * intros _ Hn. apply (f_equal length) in Hn. rewrite length_insert in Hn. by destruct (pg_runs p).
      * done.
  - split; [by apply Forall2_delete|]. exists st', ended. split; [done|]. by eapply follow_failed.
Qed.

Lemma session_ok ended open p : session ended open p → session_inv ended open p.
Proof.
  induction 1 as [|ended open p i o h1 h2 _ [Hp Ha] E|ended open p i reqs cont _ [Hp Ha] E
                  |ended open p k reqs cont st a _ IH Hk Hst _ He|ended open p k reqs cont st a _ IH Hk Hst _ He].
  - by split; [constructor|].
  - unfold press. rewrite E. split; [done|]. cbn. exists (mkStarted i []), ended. split; [done|].
    unfold outcome_of. cbn. by rewrite E.
  - unfold press. rewrite E. split; cbn.
    + apply Forall2_app; [done|]. constructor; [|constructor]. split; [cbn; by rewrite E|eauto].
    + intros [_ H]%app_eq_nil. done.
  - pose proof (reply_inv _ _ _ _ _ _ _ a IH Hk Hst) as H. cbn in H. by rewrite He in H.
  - pose proof (reply_inv _ _ _ _ _ _ _ a IH Hk Hst) as H. cbn in H. by rewrite He in H.
Qed.

(** Some answer to each request. *)
Definition some_answer (q : request) : answer :=
  match q with
  | ResolveHost _ _ => AResolved (mkResolved [] [])
  | ReloadUci => AUci [] []
  | PoliciesStatus => APolicies (mkLivePolicies [] [])
  | NftsetMembers _ => AMembers []
  end.

Lemma some_answers_fit reqs : fits reqs (Ok (map some_answer reqs)).
Proof. induction reqs as [|[] reqs IH]; cbn; constructor; done. Qed.

(** C32: the page never hangs, in a session of presses and replies in any order
    in which the router answers every request as it likes each time, so that a request
    that failed once may succeed later: a run makes at most three batches of
    requests, so that no more than three replies per pending run can follow; a
    pending run waits for a batch that can be answered; and when no run
    is pending the area shows the outcome of the simulation that ended last,
    which is what [handleSimulate] makes of its input and of the replies it
    got in this session. *)
Theorem session_settles ended open p :
  session ended open p →
  (∀ n p', nsteps answered n p p' → (n <= 3 * length open)%nat) ∧
  (pg_runs p ≠ [] → ∃ p', answered p p') ∧
  (pg_runs p = [] →
     match ended with
     | [] => pg_area p = AreaEmpty
     | st :: _ => ∃ o, outcome_of st = Some o ∧ pg_area p = AreaShows o
     end).
Proof.
  intros [Hp Ha]%session_ok. split_and!.
  - intros n p' Hn. apply (answered_bound n p p' (replicate (length open) 3%nat)) in Hn.
    + clear - Hn. revert n Hn. induction open as [|st open IH]; intros n Hn; cbn in *; [lia|].
      specialize (IH (n - 3)%nat). lia.
    + clear Ha. induction Hp as [|st r open runs [H1 _] _ IH]; constructor; [|done].
      eapply after_at_most; [apply simulate_batches|exact H1].
  - intros Hne. destruct (pg_runs p) as [|r runs] eqn:E; [done|].
    inversion Hp as [|st r' open' runs' [_ (reqs & cont & ->)] _]; subst.
    eexists. eapply (answer_run p 0); [by rewrite E|apply some_answers_fit].
  - intros Hq. revert Ha. unfold area_ok. destruct (pg_area p) as [| |o] eqn:Ea; [|done|].
    + by intros [-> _].
    + intros (st & rest & -> & Ho). by exists o.
Qed.
End Page.

Definition named_router : router :=
  mkRouter (λ _ _, mkResolved ["10.0.0.1"] []) [] (ro_rules demo_router) (mkLivePolicies [] []) (λ _, []).

Definition named_input : sim_input := mkInput None (Some "nas.lan") (Some "all") None None None None.

(** ** Sessions by computation *)

Section Script.
Context {I : I18n} {V : Validation}.

Record session_state : Type := mkSession {
  ss_ended : list started;
  ss_open : list started;
  ss_page : page;
}.

Definition in_session (s : session_state) : Prop := session (ss_ended s) (ss_open s) (ss_page s).

Definition new_session : session_state := mkSession [] [] fresh_page.

Definition do_press (i : sim_input) (s : session_state) : session_state :=
  match handleSimulate i with
  | Done _ _ _ => mkSession (mkStarted i [] :: ss_ended s) (ss_open s) (press i (ss_page s))
  | Ask _ _ => mkSession (ss_ended s) (ss_open s ++ [mkStarted i []]) (press i (ss_page s))
  end.

(** The reply of a router to pending run [k], if there is one. *)
Definition do_reply (R : list request → res (list answer)) (k : nat) (s : session_state) : session_state :=
  match pg_runs (ss_page s) !! k, ss_open s !! k with
  | Some (Ask reqs cont), Some st =>
      let a := R reqs in
      let st' := mkStarted (sm_input st) (sm_replies st ++ [a]) in
      if ends cont a then mkSession (st' :: ss_ended s) (delete k (ss_open s)) (reply k a (ss_page s))
      else mkSession (ss_ended s) (<[k := st']> (ss_open s)) (reply k a (ss_page s))
  | _, _ => s
  end.

Lemma do_press_ok i s : in_session s → in_session (do_press i s).
Proof.
  intros H. unfold do_press. destruct (handleSimulate i) eqn:E; [by eapply session_told|by eapply session_press].
Qed.

Lemma do_reply_ok R k s : (∀ reqs, fits reqs (R reqs)) → in_session s → in_session (do_reply R k s).
Proof.
  intros HR H. unfold do_reply. destruct (pg_runs (ss_page s) !! k) as [[|reqs cont]|] eqn:Hk; [done| |done].
  destruct (ss_open s !! k) as [st|] eqn:Hst; [|done].
  destruct (ends cont (R reqs)) eqn:He; [by eapply session_end|by eapply session_reply].
Qed.

(** A router that fails, and one that answers. *)
Definition times_out (reqs : list request) : res (list answer) := Throw "timeout".
Definition router_replies (R : router) (reqs : list request) : res (list answer) := map_res (answers R) reqs.

Lemma router_fits R reqs : fits reqs (router_replies R reqs).
Proof.
  unfold router_replies. induction reqs as [|q reqs IH]; cbn; [constructor|].
  destruct q; cbn; destruct (map_res (answers R) reqs); cbn in *; try done; by constructor.
Qed.
End Script.

(** A simulation whose name could not be resolved, as the request timed out,
    and the same one again with a router that answers. *)
Definition retried : session_state :=
  Nat.iter 3 (do_reply (router_replies named_router) 0)
    (do_press (I := plain_i18n) (V := plain_validation) named_input
       (do_reply times_out 0 (do_press (I := plain_i18n) (V := plain_validation) named_input new_session))).

Lemma retried_session : in_session (I := plain_i18n) (V := plain_validation) retried.
Proof.
  unfold retried. cbn [Nat.iter nat_rect]. do 3 (apply do_reply_ok; [apply router_fits|]).
  apply do_press_ok, do_reply_ok; [done|]. apply do_press_ok. constructor.
Qed.

Lemma session_settles_witness :
  map sm_input (ss_ended retried) = [named_input; named_input] ∧ pg_runs (ss_page retried) = [] ∧
  (∃ st o, head (ss_ended retried) = Some st ∧
     outcome_of (I := plain_i18n) (V := plain_validation) st = Some o ∧ pg_area (ss_page retried) = AreaShows o) ∧
  pg_area (ss_page retried) ≠ AreaShows (Failed "timeout").
Proof.
  split; [vm_compute; reflexivity|]. split; [vm_compute; reflexivity|]. split; [|vm_compute; discriminate].
  pose proof (proj2 (proj2 (session_settles (I := plain_i18n) (V := plain_validation) _ _ _ retried_session)) eq_refl) as H.
  destruct (ss_ended retried) as [|st rest] eqn:E; [vm_compute in E; discriminate E|].
  destruct H as (o & Ho & Ha). exists st, o. split; [reflexivity|]. split; [exact Ho|exact Ha].
Defined.

(** When Enter starts a second simulation before the first has ended, the
    page can settle on the result of the first, although the fields hold the
    second one's input, and the results differ. *)
Definition overlapped : session_state :=
  Nat.iter 3 (do_reply (router_replies named_router) 0)
    (Nat.iter 2 (do_reply (router_replies named_router) 1)
       (do_press (I := plain_i18n) (V := plain_validation) demo_input
          (do_press (I := plain_i18n) (V := plain_validation) named_input new_session))).

Theorem overlap_shows_older :
  in_session (I := plain_i18n) (V := plain_validation) overlapped ∧ pg_runs (ss_page overlapped) = [] ∧
  map sm_input (ss_ended overlapped) = [named_input; demo_input] ∧
  pg_area (ss_page overlapped)
    = AreaShows (run_with (answers named_router) (handleSimulate (I := plain_i18n) (V := plain_validation) named_input)) ∧
  run_with (answers named_router) (handleSimulate (I := plain_i18n) (V := plain_validation) named_input)
    ≠ run_with (answers named_router) (handleSimulate (I := plain_i18n) (V := plain_validation) demo_input).
Proof.
  split_and!; [|vm_compute; reflexivity|vm_compute; reflexivity|vm_compute; reflexivity|vm_compute; discriminate].
  unfold overlapped. cbn [Nat.iter nat_rect]. do 5 (apply do_reply_ok; [apply router_fits|]).
  do 2 apply do_press_ok. constructor.
Qed.
