(* ===== verification/Status.v ===== *)
(** The status views: [view/status/include/90_mwan3.js] and
    [view/mwan3/status/overview.js], [detail.js] and [diagnostics.js]. *)
From stdpp Require Import base list strings.
From Stdlib Require Import ZArith Lia Ascii Bool Sorting.Sorted.
From S2P Require Import Prelude JsNum JsString JsArray JsObject Luci Forms Components Format Simulator.

Section Status.
Context {I : I18n}.

(** ** Interface cards *)

(** The lines of an interface's card; [gap] is what follows the labels and
    [show] renders a duration. *)
Definition iface_card (gap extra : string) (show : num → string) (iface : string) (d : iface_status) : node :=
  let si := statusInfo d in
  card (Some (si_severity si))
    (Kids
       ([E "div" [] (Kids [E "strong" [] (Html (tr "Interface" +:+ ":" +:+ gap)); Txt iface]);
         E "div" [] (Kids [E "strong" [] (Html (tr "Status" +:+ ":" +:+ gap));
                           statusText (si_label si) (si_severity si) false])]
        ++ match si_duration si with
           | Some secs =>
               [E "div" [] (Kids [E "strong" [] (Html (default "null" (si_durationLabel si) +:+ ":" +:+ gap));
                                  Txt (show secs)])]
           | None => []
           end))
    (Some extra).

Definition duration_text (secs : num) : string :=
  match secs with Fin z => formatDuration z | _ => "NaNm" end.

(** [renderInterfaces] of the overview. *)
Definition renderInterfaces (interfaces : option (jsobj iface_status)) : list node :=
  match interfaces with
  | None => [emptyHint (tr "No interfaces found")]
  | Some o =>
      flat_map (λ i, match obj_own i o with
                     | Some d => [iface_card " " "mwan3-card--sm" duration_text i d]
                     | None => [] end) (obj_keys o)
  end.

(** [render] of the status page include: nothing without interfaces. *)
Definition render_include (interfaces : option (jsobj iface_status)) : option node :=
  match interfaces with
  | None => None
  | Some o =>
      Some (E "div" [("class", "mwan3-flexwrap")]
        (Kids (flat_map (λ i, match obj_own i o with
                   | Some d => [iface_card nbsp "mwan3-card--sm mwan3-card--grow"
                                  (λ s, format "%t" [FNum s]) i d]
                   | None => [] end) (obj_keys o))))
  end.

(** ** Policies *)

Definition policy_member_row (m : live_member) : node :=
  E "div" [("class", "mwan3-nowrap " +:+ text_cls (member_severity m))]
    (One (text (Some (lm_interface m +:+ " (" +:+ num_to_string (lm_percent m) +:+ "%)")))).

Definition policy_card (pname : string) (members : list live_member) : node :=
  card None
    (Kids (E "div" [("class", "mwan3-policy-title")] (One (text (Some (tr "Policy" +:+ ": " +:+ pname))))
           :: map policy_member_row members))
    (Some "mwan3-card--sm mwan3-card--policy").

(** The policies of a family that have not been shown yet, and the names
    shown after them. *)
Fixpoint new_policies (fam : jsobj (list live_member)) (pnames : list string) (shown : jsobj bool)
    : list (string * list live_member) * jsobj bool :=
  match pnames with
  | [] => ([], shown)
  | p :: rest =>
      if obj_has p shown then new_policies fam rest shown
      else
        let '(l, shown') := new_policies fam rest (obj_set p true shown) in
        ((p, default [] (obj_own p fam)) :: l, shown')
  end.

Definition shown_policies (p : live_policies) : list (string * list live_member) :=
  let '(l4, shown) := new_policies (lp_ipv4 p) (obj_keys (lp_ipv4 p)) [] in
  let '(l6, _) := new_policies (lp_ipv6 p) (obj_keys (lp_ipv6 p)) shown in
  l4 ++ l6.

Definition renderPolicies (policies : option live_policies) : list node :=
  match policies with
  | None => [emptyHint (tr "No policy data available")]
  | Some p =>
      match shown_policies p with
      | [] => [emptyHint (tr "No policies configured")]
      | l => map (λ pm, policy_card (fst pm) (snd pm)) l
      end
  end.

(** ** Rules *)

Definition or_text (a b : option string) : option string :=
  match non_empty a with Some _ => a | None => b end.

Definition rule_match_text (r : section) : string :=
  let src := fmtAddr (or_text (fmtAddrList (sec_text "src_ip" r)) (sec_text "ipset_src" r)) (sec_text "src_port" r) in
  let dst := fmtAddr (or_text (fmtAddrList (sec_text "dest_ip" r)) (sec_text "ipset" r)) (sec_text "dest_port" r) in
  let parts :=
    (match sec_text "proto" r with
     | Some p => if String.eqb p "all" then [] else ["proto: " +:+ p]
     | None => [] end)
    ++ part src (λ s, "src: " +:+ s) ++ part dst (λ s, "dst: " +:+ s)
    ++ (match sec_text "fwmark" r, sec_text "fwmask" r with
        | Some m, Some k => ["mark: " +:+ m +:+ "/" +:+ k]
        | _, _ => [] end)
    ++ (if opt_is (sec_opt "sticky" r) "1" then [tr "sticky"] else []) in
  let joined := str_join ", " parts in
  if str_truthy joined then joined else tr "(all traffic)".

Definition rule_row (r : section) : list cell :=
  [CNode (text (Some (sec_name r))); CNode (text (Some (rule_match_text r)));
   CNode (text (Some (policy_name r)))].

Definition renderRuleRows (rules : list section) : list (list cell) :=
  map rule_row (List.filter (λ r, negb (rule_disabled r)) rules).

Definition rules_table (rules : list section) : ui_table :=
  mkTable [tr "Rule"; tr "Match"; tr "Policy"]
    [("id", "mwan3-overview-rules"); ("sortable", "false"); ("classes", "mwan3-rules-table");
     ("captionClasses", "mwan3-col-rule,mwan3-col-match,mwan3-col-policy")]
    (renderRuleRows rules) (CNode (emptyHint (tr "No rules configured"))).

(** ** Tracking details *)

Record track : Type := mkTrack {
  tk_ip : string;
  tk_status : option string;
  tk_latency : option num;
  tk_packetloss : option num;
}.

Record detail_status : Type := mkDetail {
  ds_base : iface_status;
  ds_tracking : option string;
  ds_score : option num;
  ds_check_quality : bool;
  ds_track_ip : option (list track);
}.

Definition trackingInfo (d : detail_status) : string * severity :=
  let trk := λ s, bool_decide (ds_tracking d = Some s) in
  if trk "active" then (tr "Active", success)
  else if trk "paused" then (tr "Paused", muted)
  else if trk "down" then (tr "Down", danger)
  else if trk "disabled" then (tr "Disabled", muted)
  else (match non_empty (ds_tracking d) with Some t => t | None => tr "Unknown" end, muted).

Definition track_is (t : track) (s : string) : bool := bool_decide (tk_status t = Some s).

(** [statusOrder], with 3 for any other status. *)
Definition track_order (t : track) : Z :=
  if track_is t "up" then 0 else if track_is t "down" then 1 else if track_is t "skipped" then 2 else 3.

Definition track_before (a b : track) : bool := track_order a <? track_order b.

Definition sorted_tracks (l : list track) : list track := sort_by track_before l.

Definition iface_disabled (d : iface_status) : bool :=
  negb (status_is d "online") && negb (status_is d "offline") && negb (status_is d "notracking").

(** The number a cell sorts by, and what it shows. *)
Definition status_cell (disabled : bool) (t : track) : num * node :=
  if disabled then (Fin 3, statusText (tr "Disabled") muted true)
  else if track_is t "up" then (Fin 0, statusText (tr "Up") success true)
  else if track_is t "down" then (Fin 1, statusText (tr "Down") danger true)
  else if track_is t "skipped" then (Fin 2, statusText (tr "Ignored") muted true)
  else (Fin 3, statusText (match non_empty (tk_status t) with Some s => s | None => tr "Unknown" end) muted true).

Definition value_text (v : option num) : string :=
  match v with Some n => num_to_string n | None => "undefined" end.

(** [Math.round(Number(v) || 0)] of a whole number. *)
Definition sort_value (v : option num) : num :=
  match v with Some n => num_or0 n | None => Fin 0 end.

Definition dash_cell (t : string) : num * node := (Fin (-1), E "em" [("class", "mwan3-muted")] (Html t)).

Definition quality_cells (disabled check_quality : bool) (t : track) : (num * node) * (num * node) :=
  let loss := (sort_value (tk_packetloss t), E "span" [] (Html (value_text (tk_packetloss t) +:+ "%"))) in
  if disabled then (dash_cell "-", dash_cell "-")
  else if negb check_quality then (dash_cell (tr "Not enabled"), dash_cell (tr "Not enabled"))
  else if track_is t "down" then
    ((Fin (10 ^ 15), E "span" [("class", "mwan3-infinity")] (Html "∞")), loss)
  else if track_is t "skipped" then (dash_cell "-", dash_cell "-")
  else ((sort_value (tk_latency t), E "span" [] (Html (value_text (tk_latency t) +:+ " ms"))), loss).

Definition pair_cell (p : num * node) : cell := CPair (num_to_string (fst p)) (snd p).

Definition track_row (d : detail_status) (t : track) : list cell :=
  let disabled := iface_disabled (ds_base d) in
  let q := quality_cells disabled (ds_check_quality d) t in
  [CNode (text (Some (tk_ip t))); pair_cell (status_cell disabled t); pair_cell (fst q); pair_cell (snd q)].

Definition buildTrackRows (d : detail_status) (trackIps : list track) : list (list cell) :=
  map (track_row d) (sorted_tracks trackIps).

Definition detail_header (iface : string) (d : detail_status) : node :=
  let si := statusInfo (ds_base d) in
  let ti := trackingInfo d in
  card (Some (si_severity si))
    (Kids [E "strong" [("class", "mwan3-detail-label")] (One (text (Some iface)));
           statusText (si_label si) (si_severity si) true;
           E "strong" [("class", "mwan3-detail-label")] (Html (tr "Tracking" +:+ ":"));
           statusText (fst ti) (snd ti) true;
           E "strong" [("class", "mwan3-detail-label")] (Html (tr "Score" +:+ ":"));
           E "strong" [("class", "mwan3-detail-label")] (Html (num_to_string (sort_value (ds_score d))))])
    (Some "mwan3-detail-header").

(** The body of a panel: a table, or a hint when no address is tracked. *)
Definition detail_body (iface : string) (d : detail_status) : ui_table + node :=
  match ds_track_ip d with
  | None | Some [] => inr (emptyHint (tr "No tracking IPs configured"))
  | Some l =>
      inl (mkTable [tr "Target IP"; tr "Status"; tr "Latency"; tr "Packet Loss"]
             [("id", "mwan3-detail-" +:+ iface); ("sortable", "true"); ("classes", "mwan3-detail-table");
              ("captionClasses", "mwan3-col-target,mwan3-col-num,mwan3-col-num,mwan3-col-num")]
             (buildTrackRows d l) (CNode (emptyHint (tr "No tracking IPs configured"))))
  end.

Definition renderInterfacePanel (iface : string) (d : detail_status) : node * (ui_table + node) :=
  (detail_header iface d, detail_body iface d).

Definition renderStatus (interfaces : option (jsobj detail_status))
    : list (node * (ui_table + node)) + node :=
  match interfaces with
  | None => inr (emptyHint (tr "No interfaces found"))
  | Some o =>
      inl (flat_map (λ i, match obj_own i o with
                          | Some d => [renderInterfacePanel i d] | None => [] end) (obj_keys o))
  end.

(** ** Diagnostics *)

Inductive task : Type :=
  | TGateway
  | TTracking
  | TRules
  | TRoutes
  | TIfup
  | TIfdown.

Definition task_choices : list (string * string) :=
  [("gateway", tr "Ping default gateway"); ("tracking", tr "Ping tracking IP");
   ("rules", tr "Check IP rules"); ("routes", tr "Check routing table");
   ("ifup", tr "Hotplug ifup"); ("ifdown", tr "Hotplug ifdown")].

Definition task_of (s : string) : option task :=
  if String.eqb s "gateway" then Some TGateway
  else if String.eqb s "tracking" then Some TTracking
  else if String.eqb s "rules" then Some TRules
  else if String.eqb s "routes" then Some TRoutes
  else if String.eqb s "ifup" then Some TIfup
  else if String.eqb s "ifdown" then Some TIfdown
  else None.

(** The command and arguments [handleAction] runs. *)
Definition task_command (t : task) (iface : string) : string * list string :=
  match t with
  | TGateway => ("/usr/libexec/luci-mwan3", ["diag"; "gateway"; iface])
  | TTracking => ("/usr/libexec/luci-mwan3", ["diag"; "tracking"; iface])
  | TRules => ("/usr/libexec/luci-mwan3", ["diag"; "rules"; iface])
  | TRoutes => ("/usr/libexec/luci-mwan3", ["diag"; "routes"; iface])
  | TIfup => ("/usr/sbin/mwan3", ["ifup"; iface])
  | TIfdown => ("/usr/sbin/mwan3", ["ifdown"; iface])
  end.

Definition handleAction (taskSel iface : string) : option (string * list string) :=
  (λ t, task_command t iface) <$> task_of taskSel.

Definition iface_choices {St} {U : Uci St} (st : St) : jsobj string :=
  fold_left (λ o s, obj_set (sec_name s) (sec_name s) o) (uci_sections st "mwan3" "interface")
    [("", tr "-- Interface Selection --")].

(** The output pane after a command: its text, and whether it is shown. *)
Definition command_output (res : string + (option string * option string)) (shown : bool)
    : option (list string) * bool :=
  match res with
  | inl _ => (None, shown)
  | inr (out, err) => (Some [default "" out; default "" err], true)
  end.
End Status.

(** ** Facts *)

Section StatusFacts.
Context {I : I18n}.

Lemma track_before_asym x y : track_before x y = true → track_before y x = false.
Proof. unfold track_before. intros H%Z.ltb_lt. apply Z.ltb_ge. lia. Qed.

Lemma track_not_after_trans x y z :
  not_after track_before x y → not_after track_before y z → not_after track_before x z.
Proof. unfold not_after, track_before. intros H1%Z.ltb_ge H2%Z.ltb_ge. apply Z.ltb_ge. lia. Qed.

(** The tracking table lists every tracked address once, those that are
    up first, then those down, then those skipped, then the rest, and keeps
    the daemon's order among addresses of the same status. *)
Theorem track_rows_order d l :
  buildTrackRows d l = map (track_row d) (sorted_tracks l) ∧
  sorted_tracks l ≡ₚ l ∧
  StronglySorted (λ a b, track_order a <= track_order b) (sorted_tracks l) ∧
  ∀ o, List.filter (λ t, track_order t =? o) (sorted_tracks l) = List.filter (λ t, track_order t =? o) l.
Proof.
  split; [done|]. split; [apply sort_by_perm|]. split.
  - pose proof (sort_by_sorted track_before track_before_asym track_not_after_trans l) as H.
    fold (sorted_tracks l) in H. revert H. generalize (sorted_tracks l). induction 1 as [|x m Hm IH Hx]; constructor; [done|]. eapply Forall_impl; [exact Hx|].
    unfold not_after, track_before. intros b Hb%Z.ltb_ge. exact Hb.
  - intros o. destruct (List.filter (λ t, track_order t =? o) l) as [|c l'] eqn:E.
    + destruct (List.filter (λ t, track_order t =? o) (sorted_tracks l)) as [|c l'] eqn:E2; [done|].
      assert (c ∈ List.filter (λ t, track_order t =? o) (sorted_tracks l)) as Hc by (rewrite E2; left).
      apply list_elem_of_In, filter_In in Hc as [Hc1 Hc2].
      assert (c ∈ List.filter (λ t, track_order t =? o) l) as Hc.
      { apply list_elem_of_In, filter_In. split; [|done]. apply list_elem_of_In.
        rewrite <- (sort_by_perm track_before l). by apply list_elem_of_In. }
      rewrite E in Hc. by apply not_elem_of_nil in Hc.
    + assert (c ∈ List.filter (λ t, track_order t =? o) l) as Hc by (rewrite E; left).
      apply list_elem_of_In, filter_In in Hc as [_ Hc]. apply Z.eqb_eq in Hc. rewrite <- E. clear E.
      assert (∀ m, List.filter (λ t, track_order t =? o) m = List.filter (same_class track_before c) m) as Hcl.
      { intros m. apply filter_ext. intros t. unfold same_class, track_before. rewrite Hc.
        destruct (Z.eqb_spec (track_order t) o), (Z.ltb_spec o (track_order t)), (Z.ltb_spec (track_order t) o);
          cbn; lia || done. }
      rewrite !Hcl. apply sort_by_stable. intros x y. unfold same_class, track_before. rewrite Hc.
      intros Hx Hy%Z.ltb_lt. bool_to_prop. apply andb_false_iff.
      destruct (Z.ltb_spec o (track_order y)), (Z.ltb_spec (track_order y) o); cbn; auto; lia.
Qed.

(** Every task of the selector has a command on the chosen interface. *)
Lemma task_choices_run iface :
  forallb (λ kv, match handleAction (fst kv) iface with Some _ => true | None => false end)
    task_choices = true.
Proof. reflexivity. Qed.
End StatusFacts.
