(* ===== verification/Routing.v ===== *)
(** [view/mwan3/status/routing.js]: the routing health view. *)
From stdpp Require Import base list strings.
From Stdlib Require Import ZArith Lia Ascii Bool.
From S2P Require Import Prelude JsNum JsString JsArray JsObject Luci Forms Components Format Simulator.
From S2P Require Import Globals Status.

(** An ip rule of the [routing_health] response. *)
Record ip_rule : Type := mkIpRule {
  ir_priority : num;
  ir_present : bool;
}.

Record route : Type := mkRoute {
  rt_dst : string;
  rt_gateway : option string;
  rt_dev : option string;
}.

Record route_table : Type := mkRouteTable {
  tb_id : num;
  tb_has_default : bool;
  tb_default_routes : list route;
}.

Record iface_health : Type := mkHealth {
  ih_status : option string;
  ih_index : num;
  ih_iif_rule : ip_rule;
  ih_fwmark_rule : ip_rule;
  ih_unreach_rule : option ip_rule;
  ih_src_rule : option ip_rule;
  ih_table : route_table;
}.

Record routing_data : Type := mkRoutingData {
  rd_active : bool;
  rd_interfaces : jsobj iface_health;
  rd_stale_rules : list num;
  (** The bases the response reports, absent ones [None]. *)
  rd_bases : option (option Z * option Z * option Z * option Z);
}.

Definition health_is (d : iface_health) (s : string) : bool := bool_decide (ih_status d = Some s).

(** [(d.unreach_rule || {}).present] *)
Definition unreach_present (d : iface_health) : bool :=
  match ih_unreach_rule d with Some r => ir_present r | None => false end.

Definition ifaceHealth (d : iface_health) : severity :=
  let online := health_is d "online" in
  let down := health_is d "offline" || health_is d "disconnecting" in
  if online then
    let ok := ir_present (ih_iif_rule d) && ir_present (ih_fwmark_rule d) && unreach_present d
              && (match ih_src_rule d with Some r => ir_present r | None => true end)
              && tb_has_default (ih_table d) in
    let partial := (ir_present (ih_iif_rule d) || ir_present (ih_fwmark_rule d) || unreach_present d
                    || (match ih_src_rule d with Some r => ir_present r | None => false end)) && negb ok in
    if ok then success else if partial then warning else danger
  else if down then warning
  else muted.

Section Routing.
Context {I : I18n}.

(** The label and the badge of one row of an interface card. *)
Definition ruleRow (label : string) (priority : option num) (present : bool) (expectPresent : option bool)
    : kids * kids :=
  (Kids [E "strong" [] (Html (label +:+ nbsp));
         E "span" [("class", "mwan3-kv-note")] (Html (tr "priority" +:+ nbsp +:+ value_text priority))],
   One (presenceBadge present expectPresent)).

Definition rule_row_of (label : string) (r : ip_rule) (expect : option bool) : kids * kids :=
  ruleRow label (Some (ir_priority r)) (ir_present r) expect.

Definition route_line (r : route) : node :=
  E "div" [("class", "mwan3-route")]
    (Html (rt_dst r
           +:+ (match non_empty (rt_gateway r) with Some g => " via " +:+ g | None => "" end)
           +:+ (match non_empty (rt_dev r) with Some d => " dev " +:+ d | None => "" end))).

Definition route_lines (d : iface_health) : list node :=
  if tb_has_default (ih_table d) then map route_line (tb_default_routes (ih_table d))
  else [E "div" [("class", "mwan3-route-none")]
          (One (if health_is d "online" then statusText (tr "No default route") danger true
                else emptyHint (tr "(none - interface offline)")))].

Definition health_rows (d : iface_health) : list (kids * kids) :=
  let expect := if health_is d "online" then Some true else None in
  [rule_row_of (tr "IP rule (iif)") (ih_iif_rule d) expect;
   rule_row_of (tr "IP rule (fwmark)") (ih_fwmark_rule d) expect;
   ruleRow (tr "IP rule (unreachable)") (ir_priority <$> ih_unreach_rule d) (unreach_present d) expect]
  ++ (match ih_src_rule d with
      | Some r => [rule_row_of (tr "IP rule (source)") r expect] | None => [] end)
  ++ [(Kids [E "strong" [] (Html (tr "Routing table" +:+ nbsp));
             E "span" [("class", "mwan3-kv-note")]
               (Html (tr "table" +:+ nbsp +:+ num_to_string (tb_id (ih_table d)) +:+ " — " +:+ tr "default route"))],
       One (presenceBadge (tb_has_default (ih_table d)) expect))].

Definition status_label (d : iface_health) : string :=
  if health_is d "online" then tr "Online"
  else if health_is d "offline" then tr "Offline"
  else match non_empty (ih_status d) with Some s => s | None => tr "Unknown" end.

Definition status_severity (d : iface_health) : severity :=
  if health_is d "online" then success else if health_is d "offline" then danger else muted.

Definition renderIfaceCard (ifname : string) (d : iface_health) : node :=
  let header :=
    E "div" [("class", "mwan3-iface-header")]
      (Kids [E "strong" [("class", "mwan3-detail-label")] (Html ifname);
             E "span" [("class", "mwan3-muted")] (Html (tr "index" +:+ nbsp +:+ num_to_string (ih_index d)));
             statusText (status_label d) (status_severity d) true]) in
  card (Some (ifaceHealth d)) (Kids ([header; kvBlock (health_rows d)] ++ route_lines d))
    (Some "mwan3-iface-card").

(** ** Summary *)

Definition healths (data : routing_data) : list severity :=
  flat_map (λ n, match obj_own n (rd_interfaces data) with
                 | Some d => [ifaceHealth d] | None => [] end) (obj_keys (rd_interfaces data)).

Definition count_sev (s : severity) (l : list severity) : nat :=
  length (List.filter (λ x, bool_decide (x = s)) l).

(** The severity of the summary card of a running mwan3. *)
Definition overall (data : routing_data) : severity :=
  let hs := healths data in
  if negb (Nat.eqb (count_sev danger hs) 0) then danger
  else if negb (Nat.eqb (count_sev warning hs) 0) || negb (Nat.eqb (length (rd_stale_rules data)) 0) then warning
  else success.

Definition count_text (n : nat) (one many : string) : string :=
  dec (Z.of_nat n) +:+ " " +:+ (if Nat.eqb n 1 then tr one else tr many).

Definition renderSummaryCard (data : routing_data) : node :=
  if negb (rd_active data) then
    card (Some muted) (Html (tr "mwan3 does not appear to be running. No routing state to check."))
      (Some "mwan3-summary-gap mwan3-muted")
  else
    let hs := healths data in
    let stale := length (rd_stale_rules data) in
    summaryBar (overall data)
      (str_join " · "
        ([count_text (count_sev success hs) "interface healthy" "interfaces healthy";
          count_text (count_sev warning hs) "degraded" "degraded";
          count_text (count_sev danger hs) "failing" "failing"]
         ++ (match stale with O => [] | S _ => [count_text stale "stale rule" "stale rules"] end))).

(** ** Stale rules *)

Definition stale_row (priority : num) : list cell :=
  [CText (num_to_string priority);
   CNode (E "span" [("class", "mwan3-warn")]
            (Html (tr "IP rule present but no mwan3 UCI interface with this index")))].

Definition renderStaleRules (stale : list num) : option (node * ui_table) :=
  match stale with
  | [] => None
  | _ =>
      Some
        (E "div" [("class", "mwan3-stale")]
           (Kids [E "h3" [("class", "mwan3-stale-title")] (Html (tr "Stale IP rules"));
                  E "p" [("class", "mwan3-stale-note")]
                    (Html (tr "These ip rules are in mwan3’s priority range but do not correspond to any currently configured interface. They may remain from a previous configuration."))]),
         mkTable [tr "Priority"; tr "Note"]
           [("id", "mwan3-stale-rules"); ("sortable", "true"); ("classes", "mwan3-stale-table")]
           (map stale_row stale) (CNode (emptyHint (tr "No stale rules"))))
  end.

(** ** Field guide *)

Definition guideField (title body : string) : node :=
  E "div" [("class", "mwan3-guide-field")]
    (Kids [E "div" [("class", "mwan3-guide-field-title")] (Html title);
           E "div" [("class", "mwan3-guide-body")] (Html body)]).

(** [(bases && bases.x) || default]: zero counts as absent. *)
Definition base_or (v : option Z) (d : Z) : Z :=
  match v with Some z => if z =? 0 then d else z | None => d end.

Definition guide_bases (bases : option (option Z * option Z * option Z * option Z)) : rule_bases :=
  let '(iif, fwmark, unreach, src) := default (None, None, None, None) bases in
  mkBases (base_or iif (rb_iif RULE_BASE_DEFAULTS)) (base_or fwmark (rb_fwmark RULE_BASE_DEFAULTS))
    (base_or unreach (rb_unreachable RULE_BASE_DEFAULTS)) (base_or src (rb_src RULE_BASE_DEFAULTS)).

Definition guide_title (label : string) (base : Z) : string :=
  tr label +:+ " — " +:+ tr "priority" +:+ " " +:+ dec base +:+ "+N".

Definition renderFieldGuide (bases : option (option Z * option Z * option Z * option Z)) : node :=
  let b := guide_bases bases in
  E "div" [("class", "mwan3-guide")]
    (Kids
       [E "div" [("class", "mwan3-guide-title")] (Html (tr "Field reference"));
        guideField (tr "Index (N)")
          (tr "The 1-based position of the interface in UCI section order. This single number drives everything else: it is the routing table number, determines all three ip rule priorities, and is encoded in the fwmark value. If you reorder interfaces in UCI their indices change and mwan3 must rebuild all rules and tables.");
        guideField (guide_title "IP rule (iif)" (rb_iif b))
          (tr "iif stands for input interface. This rule says: any packet that arrived on this WAN device, look it up in routing table N. Its purpose is return-path routing - when a reply comes back from the internet on this WAN, it must go back to the LAN client via the same WAN, not whatever the main routing table would choose. Without this rule, asymmetric routing breaks TCP sessions. mwan3 removes it only on a hard ifdown; a soft tracker failure leaves it in place, so seeing it present for an interface shown offline is the normal, expected state.");
        guideField (guide_title "IP rule (fwmark)" (rb_fwmark b))
          (tr "This rule says: any packet carrying fwmark value N, stamped by mwan3's prerouting chain, look it up in routing table N. This is the forward-path rule. mwan3's nftables prerouting chain marks outbound packets according to your policy rules, and this ip rule translates that mark into a routing table lookup, sending the packet out through the correct WAN. Without this rule, policy routing decisions made in nftables have no effect on actual packet routing.");
        guideField (guide_title "IP rule (unreachable)" (rb_unreachable b))
          (tr "This rule matches the same fwmark as the fwmark lookup rule but returns ICMP unreachable instead of performing a table lookup. Because it runs at a lower priority than the fwmark lookup rule, it only fires when the lookup rule has been removed (interface down) or when the routing table has no matching route. It prevents packets marked for a down interface from falling through to the main routing table and being silently misrouted out a different WAN. Unlike the iif and fwmark rules, it is installed for every configured interface at service start and removed only at service stop, so it stays present whether the interface is currently online, offline, or disabled.");
        guideField (guide_title "IP rule (source)" (rb_src b))
          (tr "src stands for source address. This rule says: any packet whose source is one of this WAN's own global IPv4 addresses, look it up in routing table N. It provides return routing for traffic the router itself sources from a WAN's own address: a lookup starting from that address resolves back to its own WAN, so router-originated replies keep the correct source and leave by the WAN the flow arrived on instead of whatever the main table would choose. WireGuard is the practical case, where a tunnel bound to a WAN address must answer its peers on that same WAN. mwan3 installs these rules on ifup and connected events and removes them on a hard ifdown; a soft tracker failure leaves them in place, exactly as for the iif and fwmark rules, so seeing them present on an interface shown offline is expected. Unlike the unreachable backstop they do not persist for the whole service lifetime; they are swept when the service stops. A device holding several global IPv4 addresses gets one rule per address, all at the same priority. Source rules exist only for IPv4-family interfaces, so this row does not appear on others.");
        E "div" [("class", "mwan3-guide-body")]
          (Html (tr "All three rules must be present when an interface is online, and on IPv4-family interfaces a fourth, the source rule, is expected too. The iif rule handles traffic coming back in from the WAN (return path). The fwmark rule handles traffic going out to the WAN (forward path). The unreachable rule is a safety net that catches packets marked for this interface when the fwmark lookup cannot route them. The source rule handles traffic the router originates from the WAN's own address, keeping its replies on the right WAN. A missing iif rule means return traffic may route incorrectly or be dropped. A missing fwmark rule means policy routing is completely non-functional for that interface. A missing unreachable rule means packets for a down interface may be silently misrouted. A missing source rule means router-originated traffic sourced from the WAN's own address may egress the wrong WAN. An interface shown offline after a soft tracker failure keeps all of these rules; mwan3 steers traffic away from it in the firewall policy. A hard ifdown then removes the iif, fwmark and source rules and flushes its routing table, but the unreachable rule is a service-lifetime backstop and stays until mwan3 is stopped."))]).

(** ** The view *)

(** Everything the region shows, in order. *)
Inductive health_el : Type :=
  | HNode (n : node)
  | HStale (n : node) (t : ui_table).

Definition iface_cards (data : routing_data) : list health_el :=
  flat_map (λ n, match obj_own n (rd_interfaces data) with
                 | Some d => [HNode (renderIfaceCard n d)] | None => [] end)
    (obj_keys (rd_interfaces data)).

Definition renderHealth (data : option routing_data) : list health_el :=
  match data with
  | None => [HNode (emptyHint (tr "No data available"))]
  | Some d =>
      HNode (renderSummaryCard d)
      :: (match iface_cards d with
          | [] => [HNode (emptyHint (tr "No mwan3 interfaces configured"))]
          | cards => cards
          end)
      ++ [HNode (renderFieldGuide (rd_bases d))]
      ++ match renderStaleRules (rd_stale_rules d) with
         | Some (n, t) => [HStale n t]
         | None => []
         end
  end.
End Routing.

(** ** Facts *)

Definition rules_present (d : iface_health) : list bool :=
  [ir_present (ih_iif_rule d); ir_present (ih_fwmark_rule d); unreach_present d]
  ++ match ih_src_rule d with Some r => [ir_present r] | None => [] end.

(** An interface is healthy exactly when it is online with every expected
    ip rule and a default route; it is failing exactly when it is online with
    no ip rule at all; one that is offline or on its way there is degraded
    whatever its rules are, as a soft failure keeps them. *)
Theorem ifaceHealth_classes d :
  (ifaceHealth d = success ↔
     ih_status d = Some "online" ∧ forallb id (rules_present d) = true ∧ tb_has_default (ih_table d) = true) ∧
  (ifaceHealth d = danger ↔ ih_status d = Some "online" ∧ existsb id (rules_present d) = false) ∧
  (ih_status d = Some "offline" ∨ ih_status d = Some "disconnecting" → ifaceHealth d = warning).
Proof.
  unfold ifaceHealth, health_is, rules_present.
  destruct d as [st ix [p1 b1] [p2 b2] u s [ti td tr]]. cbn.
  destruct (decide (st = Some "online")) as [->|H1].
  - rewrite bool_decide_true by done. unfold unreach_present. cbn.
    destruct u as [[pu []]|], s as [[ps []]|], b1, b2, td; cbn; naive_solver.
  - rewrite bool_decide_false by done.
    destruct (decide (st = Some "offline")) as [->|H2]; [cbn; naive_solver|].
    rewrite (bool_decide_false (st = Some "offline")) by done.
    destruct (decide (st = Some "disconnecting")) as [->|H3]; [cbn; naive_solver|].
    rewrite bool_decide_false by done. cbn. naive_solver.
Qed.

Lemma ifaceHealth_classes_witness :
  ifaceHealth (mkHealth (Some "offline") (Fin 1) (mkIpRule (Fin 1001) false) (mkIpRule (Fin 2001) false)
                 None None (mkRouteTable (Fin 1) false [])) = warning.
Proof.
  apply (ifaceHealth_classes (mkHealth (Some "offline") (Fin 1) (mkIpRule (Fin 1001) false)
           (mkIpRule (Fin 2001) false) None None (mkRouteTable (Fin 1) false []))).
  left. reflexivity.
Defined.

Lemma count_sev_zero s l : count_sev s l = 0%nat ↔ s ∉ l.
Proof.
  unfold count_sev. rewrite length_zero_iff_nil. split.
  - intros H Hin. assert (s ∈ List.filter (λ x, bool_decide (x = s)) l) as Hf.
    { apply list_elem_of_In, filter_In. split; [by apply list_elem_of_In|by apply bool_decide_true]. }
    rewrite H in Hf. by apply not_elem_of_nil in Hf.
  - intros H. destruct (List.filter _ l) as [|x l'] eqn:E; [done|]. destruct H.
    assert (x ∈ List.filter (λ x, bool_decide (x = s)) l) as Hx by (rewrite E; left).
    apply list_elem_of_In, filter_In in Hx as [Hx Hs%bool_decide_eq_true]. subst.
    by apply list_elem_of_In.
Qed.

(** The summary is green exactly when no interface is failing or degraded
    and no stale rule is left, and red exactly when some interface fails. *)
Theorem overall_spec data :
  (overall data = success ↔
     danger ∉ healths data ∧ warning ∉ healths data ∧ rd_stale_rules data = []) ∧
  (overall data = danger ↔ danger ∈ healths data).
Proof.
  unfold overall. rewrite <- length_zero_iff_nil.
  pose proof (count_sev_zero danger (healths data)) as Hd.
  pose proof (count_sev_zero warning (healths data)) as Hw.
  destruct (Nat.eqb_spec (count_sev danger (healths data)) 0) as [E1|E1]; cbn [negb].
  - apply Hd in E1.
    destruct (Nat.eqb_spec (count_sev warning (healths data)) 0) as [E2|E2]; cbn [negb orb].
    + apply Hw in E2. destruct (Nat.eqb_spec (length (rd_stale_rules data)) 0) as [E3|E3]; cbn [negb];
        naive_solver.
    + naive_solver.
  - assert (danger ∈ healths data) as Hin.
    { destruct (decide (danger ∈ healths data)); [done|]. destruct E1. by apply Hd. }
    naive_solver.
Qed.
