(* ===== verification/IpsetPanel.v ===== *)
(** [view/mwan3/status/ipsets.js]: the panel of a set as a state machine. *)
From stdpp Require Import base list strings.
From Stdlib Require Import ZArith Lia Ascii Bool.
From S2P Require Import Prelude JsNum JsString JsArray JsObject Luci Forms Components Format Simulator.
From S2P Require Import Status.

(** An element of a [nftset_elements] response. *)
Record element : Type := mkElement {
  el_value : string;
  el_packets : option num;
  el_bytes : option num;
}.

Record elements_result : Type := mkResult {
  er_error : option string;
  er_truncated : bool;
  er_elements : list element;
}.

(** What [nftset_info] says of a set. *)
Record set_meta : Type := mkMeta {
  sm_type : option string;
  sm_counters : bool;
  sm_count : option num;
}.

Section Panel.
Context {I : I18n}.

Definition bytes_of (v : option num) : option Z :=
  match v with Some (Fin z) => Some z | _ => None end.

(** One row of the member table: the address, then the counters if any. *)
Definition member_row (e : element) : list cell :=
  CNode (E "span" [("class", "mwan3-mono"); ("data-value", el_value e)] (One (text (Some (el_value e)))))
  :: match el_packets e with
     | Some p =>
         [pair_cell (sort_value (Some p), mono (num_to_string p));
          pair_cell (sort_value (el_bytes e), mono (fmtBytes (bytes_of (el_bytes e))))]
     | None => [CText ""; CText ""]
     end.

Definition buildMemberRows (elems : list element) : list (list cell) := map member_row elems.

(** ** The description line *)

(** [loadfile.split('/').pop()] *)
Definition base_name (path : string) : string := List.last (str_split "/" path) "".

Definition domainList (uciMeta : section) : list string := opt_list (sec_opt "domain" uciMeta).

Definition metaParts (uciMeta : section) : list string :=
  let entries := length (opt_list (sec_opt "entry" uciMeta)) in
  let domains := length (domainList uciMeta) in
  (if Nat.eqb entries 0 then []
   else [dec (Z.of_nat entries) +:+ " static " +:+ (if Nat.eqb entries 1 then "entry" else "entries")])
  ++ (if Nat.eqb domains 0 then []
      else [dec (Z.of_nat domains) +:+ " " +:+ (if Nat.eqb domains 1 then "domain" else "domains")])
  ++ part (sec_text "loadfile" uciMeta) (λ f, "loadfile: " +:+ base_name f)
  ++ part (sec_text "maxelem" uciMeta) (λ m, "max: " +:+ m)
  ++ part (sec_text "timeout" uciMeta) (λ t, "timeout: " +:+ t +:+ "s").

(** ** The panel's state *)

Inductive table_view : Type :=
  | TableEmpty
  | TableRows (elems : list element)
  | TableFailed (msg : string).

(** What follows the table: nothing, the truncation note, or the load-more
    buttons after what was there. *)
Inductive more_view : Type :=
  | MoreNone
  | MoreNote (shown : nat)
  | MoreButtons (note : option nat).

Inductive body_view : Type :=
  | BodyEmpty
  | BodyLoading
  | BodyTable.

Record panel : Type := mkPanel {
  pn_loaded : bool;
  pn_expanded : bool;
  pn_hidden : bool;
  pn_label : string;
  pn_count : string;
  pn_table : table_view;
  pn_more : more_view;
  pn_body : body_view;
}.

Definition count_in_parens (n : nat) (truncated : bool) : string :=
  "(" +:+ dec (Z.of_nat n) +:+ (if truncated then "+)" else ")").

Definition initial_panel (meta : set_meta) : panel :=
  mkPanel false false true (tr "Expand")
    (match sm_count meta with Some n => "(" +:+ num_to_string n +:+ ")" | None => "" end)
    TableEmpty MoreNone BodyEmpty.

(** [showMembers(result)]; [null] is [None]. *)
Definition showMembers (result : option elements_result) (p : panel) : panel :=
  let failed := λ suffix,
    mkPanel (pn_loaded p) (pn_expanded p) (pn_hidden p) (pn_label p) (pn_count p)
      (TableFailed (tr "Failed to load members" +:+ suffix)) MoreNone (pn_body p) in
  match result with
  | None => failed ""
  | Some r =>
      match non_empty (er_error r) with
      | Some e => failed (": " +:+ e)
      | None =>
          let n := length (er_elements r) in
          mkPanel (pn_loaded p) (pn_expanded p) (pn_hidden p) (pn_label p)
            (count_in_parens n (er_truncated r)) (TableRows (er_elements r))
            (if er_truncated r then MoreNote n else MoreNone) (pn_body p)
      end
  end.

Definition with_body (b : body_view) (p : panel) : panel :=
  mkPanel (pn_loaded p) (pn_expanded p) (pn_hidden p) (pn_label p) (pn_count p) (pn_table p) (pn_more p) b.

Definition with_count (c : string) (p : panel) : panel :=
  mkPanel (pn_loaded p) (pn_expanded p) (pn_hidden p) (pn_label p) c (pn_table p) (pn_more p) (pn_body p).

Definition with_buttons (p : panel) : panel :=
  mkPanel (pn_loaded p) (pn_expanded p) (pn_hidden p) (pn_label p) (pn_count p) (pn_table p)
    (match pn_more p with
     | MoreNote n => MoreButtons (Some n) | MoreNone => MoreButtons None | MoreButtons o => MoreButtons o end)
    (pn_body p).

Definition set_expanded (e : bool) (p : panel) : panel :=
  mkPanel true e (negb e) (if e then tr "Collapse" else tr "Expand") (pn_count p) (pn_table p)
    (pn_more p) (pn_body p).

(** The calls a step sends. *)
Inductive panel_call : Type :=
  | CallElements (max : Z)
  | CallFlush
  | CallReload
  | CallResolve.

(** Clicks, and the arrival of the answers: [inl] is a rejected call. *)
Inductive panel_event : Type :=
  | ClickToggle
  | ClickMore (max : Z)
  | ClickFlush
  | ClickReload
  | ClickResolve
  | ActionAnswer
  | LoadAnswer (r : string + option elements_result)
  | RefreshAnswer (r : string + option elements_result).

Definition truncated (r : option elements_result) : bool :=
  match r with Some x => er_truncated x | None => false end.

Definition elems_of (r : option elements_result) : list element :=
  match r with Some x => er_elements x | None => [] end.

Definition panel_step (p : panel) (e : panel_event) : panel * list panel_call :=
  match e with
  | ClickToggle =>
      if pn_loaded p then (set_expanded (negb (pn_expanded p)) p, [])
      else (with_body BodyLoading (set_expanded true p), [CallElements 200])
  | ClickMore max => (with_body BodyLoading p, [CallElements (if max =? 0 then 200 else max)])
  | ClickFlush => (p, [CallFlush])
  | ClickReload => (p, [CallReload])
  | ClickResolve => (p, [CallResolve])
  | ActionAnswer => (p, [CallElements 200])
  | LoadAnswer (inr r) =>
      let p' := showMembers r p in
      (with_body BodyTable (if truncated r then with_buttons p' else p'), [])
  | LoadAnswer (inl _) => (with_body BodyTable (showMembers None p), [])
  | RefreshAnswer (inr r) =>
      let p' := with_count (count_in_parens (length (elems_of r)) (truncated r)) p in
      (if pn_expanded p then showMembers r p' else p', [])
  | RefreshAnswer (inl _) => (p, [])
  end.

Definition panel_run (p : panel) (es : list panel_event) : panel :=
  fold_left (λ p e, fst (panel_step p e)) es p.

(** ** The page *)

Definition sort_names (l : list string) : list string := sort_by String.ltb l.

(** The configured section of each named set. *)
Definition uciSets {St} {U : Uci St} (st : St) : jsobj section :=
  fold_left (λ o s, match sec_text "name" s with Some n => obj_set n s o | None => o end)
    (uci_sections st "mwan3" "ipset") [].

(** The panels of the page: each set with its configuration, if any. *)
Definition ipset_panels {St} {U : Uci St} (st : St) (info : jsobj set_meta)
    : list (string * set_meta * section) :=
  flat_map (λ n, match obj_own n info with
                 | Some m => [(n, m, match obj_get n (uciSets st) with
                                     | Own s => s | _ => mkSection "" "" [] end)]
                 | None => [] end)
    (sort_names (obj_keys info)).

Definition panel_header (name : string) (meta : set_meta) (p : panel) : list node :=
  [E "strong" [("class", "mwan3-ipset-name")] (One (text (Some name))); familyBadge (sm_type meta)]
  ++ (if sm_counters meta then [badge (tr "counters")] else [])
  ++ [E "span" [("class", "mwan3-ipset-count")] (Html (pn_count p))].

Definition domain_nodes (uciMeta : section) : list node :=
  match domainList uciMeta with
  | [] => []
  | l =>
      [E "div" [("class", "mwan3-ipset-grouptitle")] (Html (tr "Domains"));
       E "div" [("class", "mwan3-ipset-domains")]
         (Kids (map (λ d, E "div" [] (One (text (Some d)))) l));
       E "div" [("class", "mwan3-ipset-grouptitle")] (Html (tr "Members"))]
  end.
End Panel.

(** ** Facts *)

Section PanelFacts.
Context {I : I18n}.

(** The visible parts of the panel agree with each other. *)
Definition panel_ok (p : panel) : Prop :=
  pn_hidden p = negb (pn_expanded p) ∧
  pn_label p = (if pn_expanded p then tr "Collapse" else tr "Expand") ∧
  (pn_expanded p = true → pn_loaded p = true) ∧
  (pn_loaded p = true → pn_body p ≠ BodyEmpty).

Lemma showMembers_frame r p :
  pn_loaded (showMembers r p) = pn_loaded p ∧ pn_expanded (showMembers r p) = pn_expanded p ∧
  pn_hidden (showMembers r p) = pn_hidden p ∧ pn_label (showMembers r p) = pn_label p ∧
  pn_body (showMembers r p) = pn_body p.
Proof. unfold showMembers. destruct r as [r|]; [destruct (non_empty (er_error r))|]; done. Qed.

Lemma panel_step_ok p e : panel_ok p → panel_ok (fst (panel_step p e)).
Proof.
  intros (H1 & H2 & H3 & H4). destruct e as [|max| | | | |[err|r]|[err|r]]; cbn [panel_step].
  - destruct (pn_loaded p) eqn:El; cbn; unfold panel_ok; cbn.
    + split_and!; [by rewrite negb_involutive|done|done|by intros _; apply H4].
    + split_and!; done.
  - unfold panel_ok. cbn. done.
  - done.
  - done.
  - done.
  - done.
  - destruct (showMembers_frame None p) as (F1 & F2 & F3 & F4 & F5). unfold panel_ok. cbn. done.
  - destruct (showMembers_frame r p) as (F1 & F2 & F3 & F4 & F5). unfold panel_ok. cbn.
    destruct (truncated r); cbn [with_buttons pn_loaded pn_expanded pn_hidden pn_label];
      rewrite F1, F2, F3, F4; done.
  - done.
  - set (p' := with_count _ p). assert (panel_ok p') as Hp' by done. cbn [fst].
    destruct (pn_expanded p); [|done].
    destruct (showMembers_frame r p') as (F1 & F2 & F3 & F4 & F5). unfold panel_ok.
    rewrite F1, F2, F3, F4, F5. exact Hp'.
Qed.

(** C21: whatever the clicks and the order in which answers arrive, a set's
    panel stays coherent: the member area is hidden exactly while the panel is
    collapsed, the button says what it will do, and an open panel shows a
    loading note or a table. *)
Theorem panel_run_ok meta es : panel_ok (panel_run (initial_panel meta) es).
Proof.
  assert (∀ p, panel_ok p → panel_ok (panel_run p es)) as H.
  { unfold panel_run. induction es as [|e es IH]; intros p Hp; [done|]. cbn [fold_left].
    apply IH, panel_step_ok, Hp. }
  apply H. unfold panel_ok. cbn. done.
Qed.

(** An action on a collapsed panel refreshes the count only: once the set
    has been flushed while its panel was collapsed, opening the panel again
    shows the elements loaded before the flush under a count of zero. *)
Theorem collapsed_refresh_stale meta elems :
  let p := panel_run (initial_panel meta)
    [ClickToggle; LoadAnswer (inr (Some (mkResult None false elems))); ClickToggle;
     ClickFlush; ActionAnswer; RefreshAnswer (inr (Some (mkResult None false []))); ClickToggle] in
  pn_expanded p = true ∧ pn_body p = BodyTable ∧ pn_count p = "(0)" ∧ pn_table p = TableRows elems.
Proof. cbn. done. Qed.
End PanelFacts.
