(* ===== verification/Troubleshooting.v ===== *)
(** [view/mwan3/status/troubleshooting.js]: splitting the diagnostic dump into
    sections and shortening the nftables section; and [internal] of the shell
    script [mwan3/files/usr/sbin/mwan3], which prints the dump. *)
From stdpp Require Import base list strings.
From Stdlib Require Import ZArith Lia Ascii Bool.
From S2P Require Import Prelude JsNum JsString JsArray Luci Components.

(** [/^-{10,}/] *)
Definition dashes (line : string) : bool := String.prefix "----------" line.

(** Whether a section starts at the head of the remaining lines. *)
Definition header_at (lines : list string) : bool :=
  match lines with _ :: d :: _ => dashes d | _ => false end.

(** The lines up to the next header, and the rest. *)
Fixpoint take_content (lines : list string) : list string * list string :=
  match lines with
  | [] => ([], [])
  | l :: rest =>
      if header_at lines then ([], lines)
      else let '(c, r) := take_content rest in (l :: c, r)
  end.

(** Dropping blank lines at the end. *)
Fixpoint drop_blank (rev_lines : list string) : list string :=
  match rev_lines with
  | l :: rest => if str_truthy (str_trim l) then rev_lines else drop_blank rest
  | [] => []
  end.

Definition trim_tail (lines : list string) : list string := rev (drop_blank (rev lines)).

Record dump_section : Type := mkDump {
  du_title : string;
  du_lines : list string;
}.

(** The loop over the lines; every round consumes at least one. *)
Fixpoint parse_lines (fuel : nat) (lines : list string) : list dump_section :=
  match fuel with
  | O => []
  | S f =>
      match lines with
      | [] => []
      | l :: rest =>
          if header_at lines then
            let '(content, rest') := take_content (tl rest) in
            mkDump (str_trim l) (trim_tail content) :: parse_lines f rest'
          else parse_lines f rest
      end
  end.

Definition parseSections (text : string) : list dump_section :=
  let lines := str_split lf text in parse_lines (S (length lines)) lines.

Definition du_content (s : dump_section) : string := str_join lf (du_lines s).

(** ** The nftables section *)

(** [text.indexOf(pat) >= 0] *)
Definition contains (text pat : string) : bool := 0 <=? str_index_of text pat.

(** [/chain mwan3_or_(meta|ct)_/] *)
Definition vmap_chain (line : string) : bool :=
  contains line "chain mwan3_or_meta_" || contains line "chain mwan3_or_ct_".

(** The kept lines and the number of omitted chains. *)
Fixpoint omit_chains (lines : list string) (skip : bool) : list string * nat :=
  match lines with
  | [] => ([], 0%nat)
  | l :: rest =>
      let starts := vmap_chain l in
      let skip1 := starts || skip in
      let skip2 := skip1 && negb (String.eqb (str_trim l) "}") in
      let '(out, n) := omit_chains rest skip2 in
      (if skip1 then out else l :: out, (n + if starts then 1 else 0)%nat)
  end.

Definition tab : string := String "009" "".

Definition omitted_note (count : nat) : string :=
  tab +:+ "# [" +:+ dec (Z.of_nat count) +:+ " vmap-dispatch chains omitted]".

(** The note goes after the first line that is a lone brace. *)
Fixpoint insert_note (note : string) (out : list string) : list string :=
  match out with
  | [] => []
  | l :: rest => if String.eqb (str_trim l) "{" then l :: note :: rest else l :: insert_note note rest
  end.

Definition filterVmapChains (content : string) : string :=
  let '(out, count) := omit_chains (str_split lf content) false in
  str_join lf (match count with O => out | S _ => insert_note (omitted_note count) out end).

(** ** The view *)

Definition is_nft (title : string) : bool := contains title "nft".

(** The IPv6 dump repeats the version and the nftables section. *)
Definition v6_kept (s : dump_section) : bool :=
  negb (String.eqb (du_title s) "Software-Version") && negb (is_nft (du_title s)).

Definition dump_sections (v4 v6 : string) : list dump_section :=
  parseSections v4 ++ List.filter v6_kept (parseSections v6).

Definition dump_panel (s : dump_section) : node :=
  let content := if is_nft (du_title s) then filterVmapChains (du_content s) else du_content s in
  E "details" [("class", "mwan3-ts")]
    (Kids [E "summary" [("class", "mwan3-ts-summary")] (One (text (Some (du_title s))));
           E "pre" [("class", "mwan3-ts-pre")] (One (text (Some content)))]).

Definition dump_panels (v4 v6 : string) : list node := map dump_panel (dump_sections v4 v6).

(** ** The dump, as [mwan3 internal] prints it *)

(** What the commands report, without line ends at the end, as the shell
    substitutes it: the package's version, the addresses, the routes and rules,
    the routing tables and the nftables chains. *)
Record reports : Type := mkReports {
  rp_version : string;
  rp_addresses : string;
  rp_routes : string;
  rp_rules : string;
  rp_table : Z → string;
  rp_nft : string;
}.

Definition dash : string := "-------------------------------------------------".

(** [$ip] *)
Definition ip_command (family : string) : string := if String.eqb family "ipv6" then "ip -6" else "ip -4".

Definition output_of (command : string) : string := "Output of " +:+ dq +:+ command +:+ dq.

Definition no_data (output : string) : string := if str_truthy output then output else "No data found".

Definition version_line (r : reports) : string :=
  "mwan3 - " +:+ (if str_truthy (rp_version r) then rp_version r else "unknown").

(** The loop over the tables 1 to 250. *)
Definition table_echoes (r : reports) : list string :=
  flat_map (λ i, let output := rp_table r i in
    if str_truthy output then ["Routing table " +:+ dec i +:+ ":"; output; ""] else []) (map Z.of_nat (seq 1 250)).

Definition tables_body (r : reports) : list string :=
  match table_echoes r with [] => ["No data found"; ""] | l => l end.

(** The titles with what is echoed below each, blank separators included. *)
Definition internal (family : string) (r : reports) : list (string * list string) :=
  let ip := ip_command family in
  [("Software-Version", [version_line r; ""]);
   (output_of (ip +:+ " a show"), [no_data (rp_addresses r); ""]);
   (output_of (ip +:+ " route show"), [no_data (rp_routes r); ""]);
   (output_of (ip +:+ " rule show"), [no_data (rp_rules r); ""]);
   (output_of (ip +:+ " route list table 1-250"), tables_body r);
   (output_of "nft list table inet mwan3" +:+ " (mwan3 chains)", [no_data (rp_nft r)])].

(** [echo] ends what it prints with a line end. *)
Definition echoed (l : list string) : string := fold_right (λ t s, t +:+ lf +:+ s) "" l.

Definition dump_text (family : string) (r : reports) : string :=
  echoed (flat_map (λ s, fst s :: dash :: snd s) (internal family r)).

(** ** Facts *)

Definition plain_line (l : string) : Prop := dashes l = false.

(** A title with the lines below it. *)
Definition printed (s : string * list string) : list string := fst s :: dash :: snd s.

Definition section_ok (s : string * list string) : Prop := plain_line (fst s) ∧ Forall plain_line (snd s).

Lemma take_content_app c rest :
  Forall plain_line c →
  (rest = [] ∨ header_at rest = true ∧ ∃ t r, rest = t :: r ∧ plain_line t) →
  take_content (c ++ rest) = (c, rest).
Proof.
  intros Hc Hrest. induction Hc as [|l c Hl Hc IH]; cbn [app take_content].
  - destruct Hrest as [->|(Hh & t & r & -> & _)]; [done|]. cbn [take_content]. by rewrite Hh.
  - assert (header_at (l :: c ++ rest) = false) as ->.
    { cbn [header_at]. destruct Hc as [|l' c Hl' Hc]; [|exact Hl'].
      destruct Hrest as [->|(_ & t & r & -> & Ht)]; [done|exact Ht]. }
    by rewrite IH.
Qed.

Lemma printed_head l :
  Forall section_ok l →
  flat_map printed l = [] ∨ header_at (flat_map printed l) = true ∧ ∃ t r, flat_map printed l = t :: r ∧ plain_line t.
Proof.
  destruct 1 as [|s l Hs Hl]; [by left|]. right. split; [done|].
  eexists _, _. split; [reflexivity|]. apply Hs.
Qed.

Lemma parse_printed l fuel :
  Forall section_ok l → (length (flat_map printed l) < fuel)%nat →
  parse_lines fuel (flat_map printed l) = map (λ s, mkDump (str_trim (fst s)) (trim_tail (snd s))) l.
Proof.
  revert fuel. induction l as [|[t c] l IH]; intros fuel Hl Hf; [by destruct fuel|].
  inversion Hl as [|? ? [Ht Hc] Hl']; subst. destruct fuel as [|fuel]; [lia|].
  cbn [flat_map printed fst snd app map parse_lines header_at]. change (dashes dash) with true. cbn match. cbn [tl].
  rewrite take_content_app; [|done|by apply printed_head]. f_equal. apply IH; [done|].
  cbn [flat_map printed fst snd app length] in Hf. rewrite length_app in Hf. lia.
Qed.

(** Blank lines at the end do not count. *)
Lemma trim_tail_blank c l : str_truthy (str_trim l) = false → trim_tail (c ++ [l]) = trim_tail c.
Proof. intros H. unfold trim_tail. rewrite rev_app_distr. cbn. by rewrite H. Qed.

(** The lines of what is echoed. *)
Lemma split_line_end t s : str_split lf (t +:+ lf +:+ s) = str_split lf t ++ str_split lf s.
Proof.
  change lf with (String "010" ""). unfold str_split. induction t as [|d t IH].
  - cbn [str_app_nil_l]. change ("" +:+ String "010" "" +:+ s) with (String "010" s). rewrite split_go_char.
    by destruct (split_go _ 0 s).
  - rewrite str_app_cons, !split_go_char.
    destruct (split_go _ 0 (t +:+ _)) as [p ps], (split_go _ 0 t) as [q qs], (split_go _ 0 s) as [u us].
    injection IH as -> ->. by destruct (Ascii.eqb "010" d).
Qed.

Lemma echoed_lines l : str_split lf (echoed l) = flat_map (str_split lf) l ++ [""].
Proof.
  induction l as [|t l IH]; [done|]. cbn [echoed fold_right flat_map]. fold (echoed l).
  by rewrite split_line_end, IH, app_assoc.
Qed.

(** The texts of a dump that come from a command. *)
Definition dump_outputs (r : reports) : list string :=
  [version_line r; no_data (rp_addresses r); no_data (rp_routes r); no_data (rp_rules r)]
  ++ tables_body r ++ [no_data (rp_nft r)].

(** No line of an output looks like the line below a title. *)
Definition no_rulers (r : reports) : Prop := Forall plain_line (flat_map (str_split lf) (dump_outputs r)).

(** The lines shown of an output: those without the blank ones at its end. *)
Definition report_lines (output : string) : list string := trim_tail (str_split lf output).

Definition sections_read (family : string) (r : reports) : list dump_section :=
  let ip := ip_command family in
  [mkDump "Software-Version" (report_lines (version_line r));
   mkDump (output_of (ip +:+ " a show")) (report_lines (no_data (rp_addresses r)));
   mkDump (output_of (ip +:+ " route show")) (report_lines (no_data (rp_routes r)));
   mkDump (output_of (ip +:+ " rule show")) (report_lines (no_data (rp_rules r)));
   mkDump (output_of (ip +:+ " route list table 1-250")) (trim_tail (flat_map (str_split lf) (tables_body r)));
   mkDump (output_of "nft list table inet mwan3" +:+ " (mwan3 chains)") (report_lines (no_data (rp_nft r)))].

(** The dump's lines by sections: each is followed by a blank line, the last
    one by what follows the last line end. *)
Definition line_sections (family : string) (r : reports) : list (string * list string) :=
  map (λ s, (fst s, flat_map (str_split lf) (snd s)))
    (take 5 (internal family r)) ++
  map (λ s, (fst s, flat_map (str_split lf) (snd s) ++ [""])) (drop 5 (internal family r)).

Lemma dump_lines family r : str_split lf (dump_text family r) = flat_map printed (line_sections family r).
Proof.
  unfold dump_text. rewrite echoed_lines. unfold line_sections, internal, ip_command.
  set (v := version_line r). set (a := no_data (rp_addresses r)). set (o := no_data (rp_routes r)).
  set (u := no_data (rp_rules r)). set (t := tables_body r). set (n := no_data (rp_nft r)).
  destruct (String.eqb family "ipv6");
    cbn [take drop map app flat_map printed fst snd];
    rewrite ?flat_map_app; cbn [flat_map];
    repeat match goal with
           | |- context [str_split lf (?f +:+ ?x)] => change (str_split lf (f +:+ x)) with [f +:+ x]
           | |- context [str_split lf (output_of ?x)] => change (str_split lf (output_of x)) with [output_of x]
           end.
  all: change (str_split lf dash) with [dash]; change (str_split lf "Software-Version") with ["Software-Version"].
  all: change (str_split lf "") with [""]; rewrite ?app_nil_r; repeat progress (cbn [app]; rewrite <- ?app_assoc); reflexivity.
Qed.

Lemma line_sections_ok family r : no_rulers r → Forall section_ok (line_sections family r).
Proof.
  unfold no_rulers, dump_outputs, line_sections, internal, ip_command. rewrite !flat_map_app.
  cbn [flat_map]. rewrite !app_nil_r, !Forall_app. intros ((Hv & Ha & Ho & Hu) & Ht & Hn).
  destruct (String.eqb family "ipv6"); cbn [take drop map app fst snd flat_map]; split;
    repeat (apply Forall_cons_2; [split; [reflexivity|cbn [snd]; rewrite ?Forall_app; split_and?]|]);
    first [done|by repeat constructor].
Qed.

(** C39: the page reads back what [mwan3 internal] prints.  For any reports of
    the router of which no line begins with ten dashes, the parser splits the
    text the script echoes into the script's six sections, with their titles,
    and shows below each title the lines of its output ([No data found] for an
    empty one, the non-empty routing tables with their headings), without
    blank lines at the end and without the separators. *)
Theorem parse_print family r :
  no_rulers r → parseSections (dump_text family r) = sections_read family r.
Proof.
  intros Hr. unfold parseSections. rewrite dump_lines, parse_printed; [|by apply line_sections_ok|lia].
  unfold sections_read, report_lines, line_sections, internal, ip_command.
  destruct (String.eqb family "ipv6"); cbn [take drop map app fst snd flat_map];
    rewrite !app_nil_r; change (str_split lf "") with [""];
    rewrite !trim_tail_blank by reflexivity;
    repeat match goal with |- context [str_trim ?t] => change (str_trim t) with t end; reflexivity.
Qed.

(** A router with one default route. *)
Definition sample_reports : reports :=
  mkReports "3.0" "1: lo" "" "0: from all lookup local" (λ i, if i =? 254 then "" else if i =? 1 then "default dev wan" else "")
    "table inet mwan3 {".

Lemma parse_print_witness :
  parseSections (dump_text "ipv4" sample_reports) = sections_read "ipv4" sample_reports ∧
  map du_lines (sections_read "ipv4" sample_reports)
  = [["mwan3 - 3.0"]; ["1: lo"]; ["No data found"]; ["0: from all lookup local"];
     ["Routing table 1:"; "default dev wan"]; ["table inet mwan3 {"]].
Proof.
  split; [|vm_compute; reflexivity]. apply parse_print. vm_compute. repeat constructor.
Defined.

(** A report with a line of dashes is taken apart. *)
Lemma ruler_splits_report :
  length (parseSections (dump_text "ipv4" (mkReports "3.0" ("x" +:+ lf +:+ "----------") "" "" (λ _, "") ""))) = 7%nat.
Proof. by vm_compute. Qed.

Lemma omit_chains_id lines :
  Forall (λ l, vmap_chain l = false) lines → omit_chains lines false = (lines, 0%nat).
Proof. induction 1 as [|l lines Hl H IH]; [done|]. cbn [omit_chains]. rewrite Hl. cbn [orb andb]. by rewrite IH. Qed.

(** An nftables listing without dispatch chains is shown unchanged. *)
Theorem filterVmapChains_id content :
  Forall (λ l, vmap_chain l = false) (str_split lf content) → filterVmapChains content = content.
Proof.
  intros H. unfold filterVmapChains. rewrite omit_chains_id by done. apply str_join_split.
Qed.

Lemma filterVmapChains_id_witness : filterVmapChains "table inet mwan3" = "table inet mwan3".
Proof. apply filterVmapChains_id. vm_compute. repeat constructor. Defined.

(** The lines kept outside the dispatch chains come from the listing, in
    order, and none opens a dispatch chain. *)
Lemma omit_chains_spec lines skip out n :
  omit_chains lines skip = (out, n) →
  sublist out lines ∧ Forall (λ l, vmap_chain l = false) out.
Proof.
  revert skip out n. induction lines as [|l lines IH]; intros skip out n; cbn [omit_chains].
  { intros [= <- <-]. split; [done|constructor]. }
  destruct (omit_chains lines _) as [out' n'] eqn:E. apply IH in E as [H1 H2].
  intros [= <- <-]. destruct (vmap_chain l) eqn:El; cbn [orb].
  - split; [by constructor|done].
  - destruct skip; [split; [by constructor|done]|]. split; by constructor.
Qed.
