(* ===== verification/LivePages.v ===== *)
(** The status pages of mwan3 as they live: what each shows first, and what
    the answers of its poll leave ([view/mwan3/status/overview.js],
    [detail.js], [routing.js], [ipsets.js], [diagnostics.js],
    [troubleshooting.js]). *)
From stdpp Require Import base list strings.
From Stdlib Require Import ZArith Lia Ascii Bool.
From S2P Require Import Prelude JsNum JsString JsArray JsObject Luci Forms Components Format Simulator.
From S2P Require Import Globals Status Routing IpsetPanel Troubleshooting.

(** ** Polled regions *)

(** The region's content after an answer: [None] where the callback of the poll
    throws and the region is left alone. *)
Section Regions.
Context {R V : Type} (render : R → option V).

Definition region_answer (shown : V) (answer : R) : V := default shown (render answer).

Definition after_answers (first : V) (answers : list R) : V := fold_left region_answer answers first.

(** A region shows the last answer that could be shown, or what it showed
    first. *)
Lemma after_answers_last first answers :
  after_answers first answers = default first (last (omap render answers)).
Proof.
  unfold after_answers. revert first. induction answers as [|a l IH] using rev_ind; intros first; [done|].
  rewrite fold_left_app, omap_app. cbn. rewrite IH. unfold region_answer.
  destruct (render a); cbn; [by rewrite last_snoc|by rewrite app_nil_r].
Qed.
End Regions.

Section Pages.
Context {I : I18n}.

(** A page is a title and sections, each a heading and what it holds. *)
Definition page_title (title : string) : node := E "h2" [] (Html title).

Definition section_of (title : string) (content : kids) : node :=
  E "div" [("class", "cbi-section mwan3-section-gap")] (Kids [E "h3" [] (Html title); E "div" [("class", "mwan3-grid")] content]).

(** ** Overview *)

Record live_status : Type := mkLiveStatus {
  lv_interfaces : option (jsobj iface_status);
  lv_policies : option live_policies;
}.

(** The regions of the interfaces and of the policies. *)
Definition overview_regions (s : live_status) : list node * list node :=
  (renderInterfaces (lv_interfaces s), renderPolicies (lv_policies s)).

(** [data[0] || {}] at first; the poll does not allow for an empty answer. *)
Definition overview_first (result : option live_status) : list node * list node :=
  overview_regions (default (mkLiveStatus None None) result).

Definition overview_poll (result : option live_status) : option (list node * list node) :=
  overview_regions <$> result.

Definition overview (first : option live_status) (answers : list (option live_status)) : list node * list node :=
  after_answers overview_poll (overview_first first) answers.

(** The page around its regions, and the table of the rules, which is made once
    from the configuration. *)
Definition overview_page (regions : list node * list node) (rules : list section) : list node * ui_table :=
  ([page_title (tr "MultiWAN Manager - Overview");
    section_of (tr "Interfaces") (Kids (fst regions));
    section_of (tr "Policies") (Kids (snd regions))],
   rules_table rules).

(** ** Detail *)

(** An answer is [null] or has an [interfaces] field or not; [(res || {})] takes
    either. *)
Definition detail_poll (res : option (option (jsobj detail_status)))
    : option (list (node * (ui_table + node)) + node) :=
  Some (renderStatus (default None res)).

Definition detail (first : option (option (jsobj detail_status))) (answers : list (option (option (jsobj detail_status))))
    : list (node * (ui_table + node)) + node :=
  after_answers detail_poll (renderStatus (default None first)) answers.

(** ** Routing health *)

Definition routing_poll (d : option routing_data) : option (list health_el) := Some (renderHealth d).

Definition routing (first : option routing_data) (answers : list (option routing_data)) : list health_el :=
  after_answers routing_poll (renderHealth first) answers.

Definition routing_page (region : list health_el) : list node * list health_el :=
  ([page_title (tr "MultiWAN Manager - Routing Health");
    E "p" [("class", "mwan3-muted")]
      (Html (tr "Live comparison of ip rules and routing tables against the mwan3 UCI configuration. Refreshes automatically."))],
   region).

(** ** IP sets *)

Definition ipsets_intro : list node :=
  [page_title (tr "MultiWAN Manager - IP Sets");
   E "div" [("class", "cbi-map-descr")]
     (Kids [Txt (tr "Flush: flush the nft set of all elements."); E "br" [] (Kids []);
            Txt (tr "Reload: reload the set with static entries defined in the config and from the loadfile.");
            E "br" [] (Kids []);
            Txt (tr "Resolve: flush dnsmasq's cache and explicitly resolve every defined domain using dnsmasq to populate the set.")])].

(** [actionBtn], and the buttons of a panel; only a set with domains can be
    resolved. *)
Definition actionBtn (label : string) : node :=
  E "button" [("class", "btn btn-default"); ("type", "button")] (Html label).

Definition panel_actions (uciMeta : section) (p : panel) : node :=
  E "span" [("class", "mwan3-ipset-actions")]
    (Kids ((match domainList uciMeta with [] => [] | _ => [actionBtn (tr "Resolve")] end)
           ++ [actionBtn (tr "Reload"); actionBtn (tr "Flush"); actionBtn (pn_label p)])).

(** The panel of a set before any click: its header, its description line and
    its hidden members. *)
Definition ipset_panel (name : string) (meta : set_meta) (uciMeta : section) : node :=
  E "div" [("class", "mwan3-ipset-panel")]
    (Kids (E "div" [("class", "mwan3-ipset-header")] (Kids (panel_header name meta (initial_panel meta) ++ [panel_actions uciMeta (initial_panel meta)]))
           :: (match metaParts uciMeta with
               | [] => []
               | l => [E "div" [("class", "mwan3-ipset-meta")] (One (text (Some (str_join " | " l))))]
               end)
           ++ [E "div" [("class", "mwan3-ipset-members mwan3-hidden")] (Kids (domain_nodes uciMeta ++ [E "div" [] (Kids [])]))])).

Definition ipsets_page {St} {U : Uci St} (st : St) (info : option (jsobj set_meta)) : list node :=
  ipsets_intro ++
  match ipset_panels st (default [] info) with
  | [] => [E "p" [] (Html (tr "No user-defined IP sets configured."))]
  | l => map (λ '(n, m, s), ipset_panel n m s) l
  end.

(** ** Diagnostics and troubleshooting *)

Definition choice_row (label : string) (select : node) : node :=
  E "div" [("class", "cbi-value")]
    (Kids [E "label" [("class", "cbi-value-title")] (Kids [Txt label]);
           E "div" [("class", "cbi-value-field")] (Kids [select])]).

Definition diagnostics_page (iface_select task_select : node) : list node :=
  [E "h2" [] (Kids [Txt (tr "MultiWAN Manager - Diagnostics")]);
   E "div" [("class", "cbi-section")]
     (Kids [E "div" [("class", "cbi-section-node")]
       (Kids [choice_row (tr "Interface") iface_select; choice_row (tr "Task") task_select])]);
   E "pre" [("class", "command-output"); ("style", "display:none")] (Kids []);
   E "div" [("class", "right")]
     (Kids [E "button" [("class", "cbi-button cbi-button-apply"); ("id", "execute")] (Kids [Txt (tr "Execute")])])].

(** The two dumps; one that could not be read is empty. *)
Definition troubleshooting_page (v4 v6 : option string) : node :=
  E "div" [("class", "cbi-map")]
    (Kids [E "h2" [("class", "mwan3-title")] (Html (tr "MultiWAN Manager - Troubleshooting"));
           E "div" [("class", "cbi-section")] (Kids (dump_panels (default "" v4) (default "" v6)))]).
End Pages.

(** ** Facts *)

Section PageFacts.
Context {I : I18n}.

(** Both regions of the overview show the same answer: the last one that was
    not empty. *)
Theorem overview_last first answers :
  overview first answers =
  overview_regions (default (default (mkLiveStatus None None) first) (last (omap id answers))).
Proof.
  unfold overview. rewrite after_answers_last.
  assert (omap overview_poll answers = map overview_regions (omap id answers)) as ->.
  { induction answers as [|[a|] l IH]; cbn; [done|by rewrite IH|done]. }
  rewrite (fmap_last overview_regions). by destruct (last _).
Qed.

(** The other two pages show the last answer whatever it was. *)
Theorem live_last d0 ds h0 hs :
  detail d0 ds = renderStatus (default None (default d0 (last ds))) ∧
  routing h0 hs = renderHealth (default h0 (last hs)).
Proof.
  unfold detail, routing. rewrite !after_answers_last.
  assert (omap detail_poll ds = map (λ r, renderStatus (default None r)) ds) as ->
    by (induction ds as [|d l IH]; cbn; [done|by rewrite IH]).
  assert (omap routing_poll hs = map renderHealth hs) as ->
    by (induction hs as [|d l IH]; cbn; [done|by rewrite IH]).
  rewrite (fmap_last (λ r, renderStatus (default None r))), (fmap_last renderHealth).
  by destruct (last ds), (last hs).
Qed.

(** Every set the router reports has a panel, in the order of the names. *)
Theorem ipset_panels_complete {St} {U : Uci St} (st : St) info :
  map (λ '(n, m, s), n) (ipset_panels st info) = sort_names (obj_keys info).
Proof.
  unfold ipset_panels.
  assert (∀ n, n ∈ sort_names (obj_keys info) → is_Some (obj_own n info)) as H.
  { intros n. unfold sort_names. rewrite (sort_by_perm String.ltb). apply obj_keys_elem. }
  induction (sort_names (obj_keys info)) as [|n l IH]; [done|]. cbn.
  destruct (H n) as [m ->]; [by left|]. cbn. rewrite IH; [done|]. intros n' Hn. apply H. by right.
Qed.
End PageFacts.
