(* ===== verification/IndentGuides.v ===== *)
(** [tools/codemirror/entry.js] of the OpenClash front end: the indentation
    guides the editor draws beside its visible lines.

    Lines are numbered from 1, as in the editor; the part of the document the
    scan looks at ([bl] to [el]) is the viewport widened by [buffer] lines.
    Indent widths and levels are [nat]: they count characters of one line. *)
From stdpp Require Import base list strings.
From Stdlib Require Import ZArith Lia Ascii Bool.
From S2P Require Import Prelude JsString.

(** ** Levels *)

(** [_ocImIndent(text, ts)] *)
Fixpoint im_indent (ts : nat) (text : string) (n : nat) : nat :=
  match text with
  | EmptyString => n
  | String c rest =>
      if Ascii.eqb c " " then im_indent ts rest (n + 1)
      else if Ascii.eqb c "009" then im_indent ts rest (n + ts)
      else n
  end.

Definition _ocImIndent (text : string) (ts : nat) : nat := im_indent ts text 0%nat.

(** The level of a line; [None] for a blank one. *)
Definition raw_level (iw ts : nat) (t : string) : option nat :=
  if str_truthy (str_trim t) then Some (_ocImIndent t ts / iw)%nat else None.

(** The level of the first line that is not blank. *)
Fixpoint next_level (raw : list (option nat)) : option nat :=
  match raw with
  | [] => None
  | Some v :: _ => Some v
  | None :: rest => next_level rest
  end.

(** A blank line gets the lesser of the levels of the nearest lines above and
    below that are not blank, 0 where there is none. *)
Fixpoint fill (prev : option nat) (raw : list (option nat)) : list nat :=
  match raw with
  | [] => []
  | Some v :: rest => v :: fill (Some v) rest
  | None :: rest => Nat.min (default 0%nat prev) (default 0%nat (next_level rest)) :: fill prev rest
  end.

Definition max_level (lvls : list nat) : nat := fold_left Nat.max lvls 0%nat.

(** ** The scan over the scopes *)

(** [for (k = lv; k < maxLvl; k++) scopeOpen[k] = 0] *)
Definition close_from (lv : nat) (scopeOpen : list bool) : list bool :=
  take lv scopeOpen ++ replicate (length scopeOpen - lv) false.

(** The guides of a line: the open scopes from [sa] up to its level. *)
Definition line_guides (sa lv : nat) (scopeOpen : list bool) : list bool :=
  imap (λ k open, (sa <=? k)%nat && (k <? lv)%nat && open) scopeOpen.

(** A line opens the scope of its level when what follows is deeper. *)
Definition open_scope (lv : nat) (rest : list (option nat)) (scopeOpen : list bool) : list bool :=
  match next_level rest with
  | Some nx => if (lv <? nx)%nat && (lv <? length scopeOpen)%nat then <[lv := true]> scopeOpen else scopeOpen
  | None => scopeOpen
  end.

Fixpoint scan (sa : nat) (scopeOpen : list bool) (raw : list (option nat)) (lvls : list nat)
    : list (list bool) :=
  match raw, lvls with
  | None :: raw', lv :: lvls' => line_guides sa lv scopeOpen :: scan sa scopeOpen raw' lvls'
  | Some _ :: raw', lv :: lvls' =>
      let closed := close_from lv scopeOpen in
      line_guides sa lv closed :: scan sa (open_scope lv raw' closed) raw' lvls'
  | _, _ => []
  end.

(** ** [_build] *)

Record marker_opts : Type := mkMarkerOpts {
  mo_hideFirst : bool;
  mo_highlightActive : bool;
  mo_thickness : string;
  mo_buffer : nat;
  mo_iw : nat;
  mo_ts : nat;
}.

Definition start_level (o : marker_opts) : nat := if mo_hideFirst o then 1 else 0.

(** Lines [a] to [b] of a document. *)
Definition lines_between (doc : list string) (a b : nat) : list string :=
  take (S b - a) (drop (a - 1) doc).

Definition first_line (o : marker_opts) (fl : nat) : nat := Nat.max 1 (fl - mo_buffer o).
Definition last_line (o : marker_opts) (doc : list string) (ll : nat) : nat :=
  Nat.min (length doc) (ll + mo_buffer o).

Definition window_levels (o : marker_opts) (doc : list string) (fl ll : nat) : list (option nat) :=
  map (raw_level (mo_iw o) (mo_ts o))
    (lines_between doc (first_line o fl) (last_line o doc ll)).

(** The visible part of a list over the window. *)
Definition visible {A} (o : marker_opts) (fl ll : nat) (l : list A) : list A :=
  take (S ll - fl) (drop (fl - first_line o fl) l).

(** The guides of the visible lines; empty when no line is deep enough. *)
Definition showGuides (o : marker_opts) (doc : list string) (fl ll : nat) : list (list bool) :=
  let raw := window_levels o doc fl ll in
  let lvls := fill None raw in
  let maxLvl := max_level (visible o fl ll lvls) in
  if (maxLvl <=? start_level o)%nat then []
  else visible o fl ll (scan (start_level o) (replicate maxLvl false) raw lvls).

(** The deepest guide below [cl], or none. *)
Fixpoint deepest (sa k : nat) (guides : list bool) : option nat :=
  match k with
  | O => None
  | S k' =>
      if (k' <? sa)%nat then None
      else match guides !! k' with
           | Some true => Some k'
           | _ => deepest sa k' guides
           end
  end.

(** The level highlighted for a cursor on line [cn]. *)
Definition activeLvl (o : marker_opts) (doc : list string) (fl ll cn : nat) : option nat :=
  if mo_highlightActive o && (fl <=? cn)%nat && (cn <=? ll)%nat then
    let lvls := visible o fl ll (fill None (window_levels o doc fl ll)) in
    match lvls !! (cn - fl)%nat, showGuides o doc fl ll !! (cn - fl)%nat with
    | Some cl, Some guides => if (start_level o <? cl)%nat then deepest (start_level o) cl guides else None
    | _, _ => None
    end
  else None.

(** One gradient per guide; [pos] gives the pixel of a level, [lh] the line
    height when it has been measured. *)
Definition guide_part (o : marker_opts) (pos : nat → Z) (active : option nat) (k : nat) : string :=
  let cv := if bool_decide (active = Some k) then "var(--oc-im-ca)" else "var(--oc-im-c)" in
  "linear-gradient(" +:+ cv +:+ "," +:+ cv +:+ ") " +:+ dec (pos k) +:+ "px 0/"
  +:+ mo_thickness o +:+ "px 100% no-repeat".

Definition guide_levels (guides : list bool) : list nat :=
  concat (imap (λ k (g : bool), if g then [k] else []) guides).

Definition guide_style (o : marker_opts) (pos : nat → Z) (lh : Z) (active : option nat)
    (guides : list bool) : option string :=
  match guide_levels guides with
  | [] => None
  | ks =>
      Some ("--oc-im:" +:+ str_join "," (map (guide_part o pos active) ks)
            +:+ (if 0 <? lh then ";--oc-lh:" +:+ dec lh +:+ "px" else ""))
  end.

(** The decorations: line numbers with the style they get. *)
Definition _build (o : marker_opts) (pos : nat → Z) (lh : Z) (doc : list string) (fl ll cn : nat)
    : list (nat * string) :=
  let active := activeLvl o doc fl ll cn in
  concat (imap (λ i guides,
    match guide_style o pos lh active guides with
    | Some st => [((fl + i)%nat, st)]
    | None => []
    end) (showGuides o doc fl ll)).

(** ** What a guide means

    The level of the last line above that is not blank and not deeper than
    [k]: the line whose block a guide at level [k] would belong to. *)
Definition governing (k : nat) (before : list (option nat)) : option nat :=
  fold_left (λ acc r, match r with
                      | Some v => if (v <=? k)%nat then Some v else acc
                      | None => acc
                      end) before None.

Definition last_level (before : list (option nat)) : option nat :=
  fold_left (λ acc r, match r with Some v => Some v | None => acc end) before None.

Lemma governing_snoc k before r :
  governing k (before ++ [r]) =
  match r with Some v => if (v <=? k)%nat then Some v else governing k before | None => governing k before end.
Proof. unfold governing. by rewrite fold_left_app. Qed.

Lemma last_level_snoc before r :
  last_level (before ++ [r]) = match r with Some v => Some v | None => last_level before end.
Proof. unfold last_level. by rewrite fold_left_app. Qed.

(** The scan's invariant: a scope is open exactly when its governing line is
    of its level and is followed by a deeper one. *)
Definition scope_ok (before rest : list (option nat)) (scopeOpen : list bool) : Prop :=
  ∀ k, (k < length scopeOpen)%nat →
    (scopeOpen !! k = Some true ↔
     governing k before = Some k ∧
     (last_level before = Some k → ∃ nx, next_level rest = Some nx ∧ (k < nx)%nat)).

Lemma close_from_length lv l : length (close_from lv l) = length l.
Proof. unfold close_from. rewrite length_app, length_take, length_replicate. lia. Qed.

Lemma close_from_lookup lv l k :
  (k < length l)%nat → close_from lv l !! k = if (k <? lv)%nat then l !! k else Some false.
Proof.
  intros Hk. unfold close_from. destruct (Nat.ltb_spec k lv).
  - rewrite lookup_app_l by (rewrite length_take; lia). by rewrite lookup_take_lt.
  - rewrite lookup_app_r by (rewrite length_take; lia). rewrite length_take.
    apply lookup_replicate. split; [done|]. lia.
Qed.

Lemma open_scope_length lv rest l : length (open_scope lv rest l) = length l.
Proof.
  unfold open_scope. destruct (next_level rest) as [nx|]; [|done].
  destruct (_ && _); [apply length_insert|done].
Qed.

Lemma scope_blank before rest l : scope_ok before (None :: rest) l → scope_ok (before ++ [None]) rest l.
Proof. intros H k Hk. rewrite governing_snoc, last_level_snoc. apply (H k Hk). Qed.

Lemma scope_line before v rest l :
  scope_ok before (Some v :: rest) l →
  scope_ok (before ++ [Some v]) rest (open_scope v rest (close_from v l)).
Proof.
  intros H k Hk. rewrite open_scope_length, close_from_length in Hk.
  rewrite governing_snoc, last_level_snoc.
  assert (open_scope v rest (close_from v l) !! k =
          if (k =? v)%nat then Some (match next_level rest with Some nx => (v <? nx)%nat | None => false end)
          else close_from v l !! k) as ->.
  { unfold open_scope. rewrite close_from_length. destruct (Nat.eqb_spec k v) as [->|Hne].
    - assert (close_from v l !! v = Some false) as Hc.
      { rewrite close_from_lookup by lia. by rewrite Nat.ltb_irrefl. }
      destruct (next_level rest) as [nx|]; [|done].
      rewrite (proj2 (Nat.ltb_lt v (length l))) by lia. rewrite andb_true_r.
      destruct (v <? nx)%nat; [|done]. apply list_lookup_insert_eq. by rewrite close_from_length.
    - destruct (next_level rest) as [nx|]; [|done]. destruct (_ && _); [|done].
      by rewrite list_lookup_insert_ne by congruence. }
  destruct (Nat.eqb_spec k v) as [->|Hne].
  - rewrite Nat.leb_refl. destruct (next_level rest) as [nx|].
    + split; [intros [= Hlt%Nat.ltb_lt]; split; [done|eauto]|].
      intros [_ Hn]. destruct Hn as (nx' & [= <-] & Hlt); [done|]. f_equal. by apply Nat.ltb_lt.
    + split; [done|]. intros [_ Hn]. by destruct Hn as (? & ? & _).
  - rewrite close_from_lookup by done. destruct (Nat.ltb_spec k v) as [Hlt|Hge].
    + rewrite (proj2 (Nat.leb_gt v k)) by done. rewrite (H k Hk). cbn [next_level].
      split; intros [Hg Hl]; (split; [done|]); [congruence|]. intros _. by exists v.
    + rewrite (proj2 (Nat.leb_le v k)) by done. split; [done|]. intros [[= Heq] _]. by subst.
Qed.

(** Whether a guide belongs at level [k] of a line of level [lv]. *)
Definition guide_at (sa lv : nat) (before : list (option nat)) (k : nat) : Prop :=
  (sa <= k < lv)%nat ∧ governing k before = Some k.

Lemma line_guides_lookup sa lv l k :
  line_guides sa lv l !! k = (λ open, (sa <=? k)%nat && (k <? lv)%nat && open) <$> l !! k.
Proof. unfold line_guides. by rewrite list_lookup_imap. Qed.

Lemma line_guides_spec sa lv l k before :
  (k < length l)%nat →
  ((k < lv)%nat → (l !! k = Some true ↔ governing k before = Some k)) →
  line_guides sa lv l !! k = Some true ↔ guide_at sa lv before k.
Proof.
  intros Hk Ho. rewrite line_guides_lookup. unfold guide_at.
  destruct (l !! k) as [b|] eqn:El; [|by apply lookup_ge_None in El; lia]. cbn [fmap option_fmap option_map].
  destruct (Nat.leb_spec sa k), (Nat.ltb_spec k lv); cbn [andb];
    try (split; [done|intros [? _]; lia]).
  rewrite <- Ho by done. split; [intros [= ->]; split; [lia|done]|by intros [_ [= ->]]].
Qed.

Lemma scan_spec sa before raw l i g k :
  scope_ok before raw l → (k < length l)%nat →
  scan sa l raw (fill (last_level before) raw) !! i = Some g →
  ∃ lv, fill (last_level before) raw !! i = Some lv ∧
        (g !! k = Some true ↔ guide_at sa lv (before ++ take i raw) k).
Proof.
  revert before l i. induction raw as [|[v|] raw IH]; intros before l i Hok Hk Hs; [done| |].
  - cbn [fill scan] in Hs |- *. destruct i as [|i].
    + injection Hs as <-. exists v. split; [done|]. rewrite app_nil_r.
      apply line_guides_spec; [by rewrite close_from_length|]. intros Hlt.
      rewrite close_from_lookup, (proj2 (Nat.ltb_lt k v) Hlt), (Hok k Hk) by done.
      split; [by intros [? _]|]. intros Hg. split; [done|]. intros _. by exists v.
    + cbn [lookup list_lookup] in Hs |- *.
      pose proof (IH (before ++ [Some v]) (open_scope v raw (close_from v l)) i) as IHv.
      rewrite last_level_snoc in IHv. destruct IHv as (lv & Hlv & Hg); try done.
      * by apply scope_line.
      * by rewrite open_scope_length, close_from_length.
      * exists lv. split; [done|]. rewrite Hg, <- app_assoc. reflexivity.
  - cbn [fill scan] in Hs |- *. destruct i as [|i].
    + injection Hs as <-. eexists. split; [done|]. rewrite app_nil_r.
      apply line_guides_spec; [done|]. intros Hlt. rewrite (Hok k Hk). cbn [next_level].
      split; [by intros [? _]|]. intros Hg. split; [done|]. intros Hl. rewrite Hl in Hlt. cbn in Hlt. lia.
    + cbn [lookup list_lookup] in Hs |- *.
      pose proof (IH (before ++ [None]) l i) as IHn. rewrite last_level_snoc in IHn.
      destruct IHn as (lv & Hlv & Hg); try done; [by apply scope_blank|].
      exists lv. split; [done|]. rewrite Hg, <- app_assoc. reflexivity.
Qed.

(** ** In terms of the lines of the document *)

(** The level of line [n] of the document; [None] for a blank line. *)
Definition line_level (o : marker_opts) (doc : list string) (n : nat) : option nat :=
  mbind (raw_level (mo_iw o) (mo_ts o)) (doc !! (n - 1)%nat).

(** Line [h] heads the block that a guide at level [k] of line [n] belongs to:
    it is of level [k], and the lines between are blank or deeper. *)
Definition heads (o : marker_opts) (doc : list string) (n k h : nat) : Prop :=
  (h < n)%nat ∧ line_level o doc h = Some k ∧
  ∀ j v, (h < j < n)%nat → line_level o doc j = Some v → (k < v)%nat.

Lemma governing_head k before :
  governing k before = Some k ↔
  ∃ i, before !! i = Some (Some k) ∧ ∀ j v, (i < j)%nat → before !! j = Some (Some v) → (k < v)%nat.
Proof.
  induction before as [|r before IH] using rev_ind; [split; [done|by intros (i & [=] & _)]|].
  rewrite governing_snoc.
  assert ((∃ i, before !! i = Some (Some k) ∧ ∀ j v, (i < j)%nat → before !! j = Some (Some v) → (k < v)%nat) ∧
          (∀ v, r = Some v → (k < v)%nat) ∨ r = Some k ↔
          ∃ i, (before ++ [r]) !! i = Some (Some k) ∧
            ∀ j v, (i < j)%nat → (before ++ [r]) !! j = Some (Some v) → (k < v)%nat) as <-.
  { split.
    - intros [[(i & Hi & Hj) Hr]| ->].
      + exists i. split; [by apply lookup_app_l_Some|]. intros j v Hij [H|[H1 H2]]%lookup_app_Some; [by eapply Hj|].
        apply list_lookup_singleton_Some in H2 as [_ ->]. by apply Hr.
      + exists (length before). split; [by rewrite lookup_app_r, Nat.sub_diag|].
        intros j v Hj [H%lookup_lt_Some|[_ H%lookup_lt_Some]]%lookup_app_Some; [lia|]. cbn in H. lia.
    - intros (i & Hi & Hj). apply lookup_app_Some in Hi as [Hi|[Hlen Hi]].
      + left. split; [exists i; split; [done|]; intros j v Hij H; apply (Hj j); [done|by apply lookup_app_l_Some]|].
        intros v ->. apply (Hj (length before)); [by apply lookup_lt_Some in Hi|]. by rewrite lookup_app_r, Nat.sub_diag.
      + right. by apply list_lookup_singleton_Some in Hi as [_ ->]. }
  rewrite <- IH. destruct r as [v|]; [|naive_solver]. destruct (Nat.leb_spec v k) as [Hle|Hgt].
  - split; [intros [= ->]; by right|]. intros [[_ H]|H]; [specialize (H v eq_refl); lia|done].
  - split; [intros H; left; split; [done|by intros ? [= <-]]|]. intros [[H _]|[= ->]]; [done|lia].
Qed.

(** The level the scan gives a line: its own, or for a blank line the lesser of
    its neighbours'. *)
Lemma fill_level before raw i r :
  raw !! i = Some r →
  fill (last_level before) raw !! i = Some
    match r with
    | Some v => v
    | None => Nat.min (default 0%nat (last_level (before ++ take i raw))) (default 0%nat (next_level (drop (S i) raw)))
    end.
Proof.
  revert before i. induction raw as [|x raw IH]; intros before i Hi; [done|].
  assert (last_level (before ++ [x]) = match x with Some v => Some v | None => last_level before end) as Hx
    by apply last_level_snoc.
  destruct i as [|i]; cbn [lookup list_lookup take drop] in *.
  - injection Hi as ->. destruct r; cbn [fill]; [done|]. by rewrite app_nil_r, drop_0.
  - specialize (IH (before ++ [x]) i Hi). rewrite Hx, <- app_assoc in IH. destruct x; exact IH.
Qed.

(** ** The visible lines *)

Lemma fill_length prev raw : length (fill prev raw) = length raw.
Proof. revert prev. induction raw as [|[v|] raw IH]; intros prev; cbn; [done|by rewrite IH|by rewrite IH]. Qed.

Lemma scan_length sa l raw lvls : length lvls = length raw → length (scan sa l raw lvls) = length raw.
Proof.
  revert l lvls. induction raw as [|[v|] raw IH]; intros l [|x lvls] H; try done; cbn in *; rewrite IH; lia.
Qed.

Lemma scan_width sa l raw lvls g : g ∈ scan sa l raw lvls → length g = length l.
Proof.
  revert l lvls. induction raw as [|[v|] raw IH]; intros l [|x lvls] H; cbn in H;
    try (by apply elem_of_nil in H); apply elem_of_cons in H as [->|H].
  - unfold line_guides. by rewrite length_imap, close_from_length.
  - apply IH in H. by rewrite H, open_scope_length, close_from_length.
  - unfold line_guides. by rewrite length_imap.
  - by apply IH in H.
Qed.

Lemma max_level_acc lvls a : (a <= fold_left Nat.max lvls a)%nat ∧ ∀ v, v ∈ lvls → (v <= fold_left Nat.max lvls a)%nat.
Proof.
  revert a. induction lvls as [|x lvls IH]; intros a; cbn.
  - split; [done|]. intros v H. by apply elem_of_nil in H.
  - destruct (IH (Nat.max a x)) as [H1 H2]. split; [lia|].
    intros v [->|H]%elem_of_cons; [lia|]. by apply H2.
Qed.

Lemma max_level_bound lvls v : v ∈ lvls → (v <= max_level lvls)%nat.
Proof. apply max_level_acc. Qed.

Lemma deepest_spec sa c g k :
  deepest sa c g = Some k ↔
  (sa <= k < c)%nat ∧ g !! k = Some true ∧ ∀ j, (k < j < c)%nat → g !! j ≠ Some true.
Proof.
  induction c as [|c IH]; cbn [deepest]; [split; [done|intros [? _]; lia]|].
  destruct (Nat.ltb_spec c sa) as [Hlt|Hge]; [split; [done|intros [? _]; lia]|].
  destruct (g !! c) as [[|]|] eqn:Eg.
  - split; [intros [= <-]; repeat split; [lia|lia|done|lia]|].
    intros (Hk & Hg & Hj). destruct (Nat.eq_dec k c) as [->|Hne]; [done|].
    exfalso. apply (Hj c); [lia|done].
  - rewrite IH. split; intros (Hk & Hg & Hj).
    + repeat split; [lia|lia|done|]. intros j Hjk. destruct (Nat.eq_dec j c) as [->|?]; [congruence|apply Hj; lia].
    + destruct (Nat.eq_dec k c) as [->|?]; [congruence|]. repeat split; [lia|lia|done|].
      intros j Hjk. apply Hj. lia.
  - rewrite IH. split; intros (Hk & Hg & Hj).
    + repeat split; [lia|lia|done|]. intros j Hjk. destruct (Nat.eq_dec j c) as [->|?]; [congruence|apply Hj; lia].
    + destruct (Nat.eq_dec k c) as [->|?]; [congruence|]. repeat split; [lia|lia|done|].
      intros j Hjk. apply Hj. lia.
Qed.

Section Visible.
Variables (o : marker_opts) (doc : list string) (fl ll : nat).
Hypothesis Hview : (1 <= fl)%nat ∧ (ll <= length doc)%nat.

Let raw := window_levels o doc fl ll.
Let lvls := fill None raw.

Lemma window_length n : (fl <= n <= ll)%nat → (n - first_line o fl < length raw)%nat.
Proof using Hview.
  intros Hn. unfold raw, window_levels, lines_between. rewrite length_map, length_take, length_drop.
  unfold first_line, last_line. lia.
Qed.

Lemma visible_lookup {A} (l : list A) n :
  (fl <= n <= ll)%nat → visible o fl ll l !! (n - fl)%nat = l !! (n - first_line o fl)%nat.
Proof using Hview.
  intros Hn. unfold visible. rewrite lookup_take_lt by lia. rewrite lookup_drop. f_equal.
  unfold first_line. lia.
Qed.

(** Level [k] has a guide on line [n]. *)
Definition drawn (n k : nat) : Prop :=
  ∃ g, showGuides o doc fl ll !! (n - fl)%nat = Some g ∧ g !! k = Some true.

(** In terms of the window: the governing level is looked for in the lines of
    the window above. *)
Lemma window_guides n :
  (fl <= n <= ll)%nat →
  ∃ lv, lvls !! (n - first_line o fl)%nat = Some lv ∧
    ∀ k, drawn n k ↔ guide_at (start_level o) lv (take (n - first_line o fl) raw) k.
Proof using Hview.
  intros Hn. pose proof (window_length n Hn) as Hw.
  destruct (lookup_lt_is_Some_2 lvls (n - first_line o fl)) as [lv Hlv]; [unfold lvls; by rewrite fill_length|].
  exists lv. split; [done|]. intros k.
  assert (lv <= max_level (visible o fl ll lvls))%nat as Hmax.
  { apply max_level_bound. apply list_elem_of_lookup. exists (n - fl)%nat. by rewrite visible_lookup. }
  unfold drawn, showGuides. fold raw lvls.
  destruct (Nat.leb_spec (max_level (visible o fl ll lvls)) (start_level o)) as [Hle|Hgt].
  { split; [by intros (g & Hg & _)|]. intros [Hk _]. lia. }
  rewrite visible_lookup by done.
  set (m := max_level (visible o fl ll lvls)) in *.
  destruct (lookup_lt_is_Some_2 (scan (start_level o) (replicate m false) raw lvls) (n - first_line o fl))
    as [g Hg]; [rewrite scan_length; [done|apply fill_length]|].
  rewrite Hg. destruct (Nat.lt_ge_cases k m) as [Hk|Hk].
  - destruct (scan_spec (start_level o) [] raw (replicate m false) (n - first_line o fl) g k) as (lv' & Hlv' & Hiff).
    + intros j Hj. rewrite length_replicate in Hj. rewrite lookup_replicate_2 by done.
      split; [done|]. intros [Hf _]. done.
    + by rewrite length_replicate.
    + exact Hg.
    + cbn in Hlv'. fold lvls in Hlv'. rewrite Hlv in Hlv'. injection Hlv' as <-.
      rewrite <- Hiff. split; [by intros (g' & [= <-] & ?)|eauto].
  - split; [|intros [? _]; lia]. intros (g' & [= <-] & Hgk).
    apply lookup_lt_Some in Hgk. rewrite (scan_width (start_level o) (replicate m false) raw lvls g) in Hgk
      by (by apply list_elem_of_lookup_2 in Hg). rewrite length_replicate in Hgk. lia.
Qed.

Lemma raw_lookup i : (i < length raw)%nat → raw !! i = Some (line_level o doc (first_line o fl + i)).
Proof using Hview.
  unfold raw, window_levels, lines_between. rewrite length_map, length_take. intros Hi.
  rewrite list_lookup_fmap, lookup_take_lt, lookup_drop by lia. unfold line_level.
  replace (first_line o fl + i - 1)%nat with (first_line o fl - 1 + i)%nat by (unfold first_line; lia).
  rewrite length_drop in Hi. destruct (lookup_lt_is_Some_2 doc (first_line o fl - 1 + i)) as [t ->]; [lia|done].
Qed.

(** C15: the scan over open scopes draws exactly the guides its picture calls
    for, as far as its window reaches: level [k] has a guide on a visible line
    iff it lies between the first level shown and the line's level, and there
    is a line that heads the block, in the window above: a line of level [k]
    with only blank and deeper lines between.  The window begins [buffer] lines
    above the first visible line, so that a block headed further up has no
    guide (see [head_above_window]).  A line that is not blank has its own
    level, a blank one the lesser of the levels of the nearest lines of the
    window above and below that are not blank, 0 where there is none. *)
Theorem guides_spec n :
  (fl <= n <= ll)%nat →
  ∃ lv,
    lv = match line_level o doc n with
         | Some v => v
         | None => Nat.min (default 0%nat (last_level (take (n - first_line o fl) raw)))
                     (default 0%nat (next_level (drop (S (n - first_line o fl)) raw)))
         end ∧
    ∀ k, drawn n k ↔
      (start_level o <= k < lv)%nat ∧ ∃ h, (Nat.max 1 (fl - mo_buffer o) <= h)%nat ∧ heads o doc n k h.
Proof using Hview.
  intros Hn. pose proof (window_length n Hn) as Hw. destruct (window_guides n Hn) as (lv & Hlv & Hd).
  assert (first_line o fl <= n)%nat as Hfn by (unfold first_line; lia).
  pose proof (raw_lookup _ Hw) as Hr. replace (first_line o fl + (n - first_line o fl))%nat with n in Hr by lia.
  pose proof (fill_level [] raw _ _ Hr) as Hf. cbn [app last_level fold_left] in Hf.
  unfold lvls in Hlv. rewrite Hf in Hlv. injection Hlv as Hlv. exists lv. split; [done|].
  intros k. rewrite Hd. unfold guide_at. apply and_iff_compat_l. rewrite governing_head.
  fold (first_line o fl). set (i := (n - first_line o fl)%nat) in *.
  assert (∀ j, (j < i)%nat → take i raw !! j = Some (line_level o doc (first_line o fl + j))) as Ht
    by (intros j Hj; rewrite lookup_take_lt by done; apply raw_lookup; lia).
  split.
  - intros (j & Hj & Hall). assert (j < i)%nat as Hji.
    { apply lookup_lt_Some in Hj. rewrite length_take in Hj. lia. }
    exists (first_line o fl + j)%nat. split; [lia|]. split_and!; [lia|by rewrite Ht in Hj by done; injection Hj|].
    intros j' v Hj' Hv. apply (Hall (j' - first_line o fl)%nat); [lia|]. rewrite Ht by lia.
    by replace (first_line o fl + (j' - first_line o fl))%nat with j' by lia; rewrite Hv.
  - intros (h & Hh & Hlt & Hk & Hall). exists (h - first_line o fl)%nat. split.
    + rewrite Ht by lia. by replace (first_line o fl + (h - first_line o fl))%nat with h by lia; rewrite Hk.
    + intros j v Hj Hv. assert (j < i)%nat as Hji.
      { apply lookup_lt_Some in Hv. rewrite length_take in Hv. lia. }
      rewrite Ht in Hv by done. injection Hv as Hv. apply (Hall (first_line o fl + j)%nat); [lia|done].
Qed.

(** The highlighted guide is the innermost guide of the cursor's line. *)
Theorem active_is_innermost cn k :
  mo_highlightActive o = true → (fl <= cn <= ll)%nat →
  activeLvl o doc fl ll cn = Some k ↔ drawn cn k ∧ ∀ j, (k < j)%nat → ¬ drawn cn j.
Proof using Hview.
  intros Hh Hn. destruct (window_guides cn Hn) as (lv & Hlv & Hd).
  unfold activeLvl. rewrite Hh, (proj2 (Nat.leb_le fl cn)), (proj2 (Nat.leb_le cn ll)) by lia. cbn [andb].
  fold raw lvls. rewrite (visible_lookup lvls) by done. rewrite Hlv.
  destruct (showGuides o doc fl ll !! (cn - fl)%nat) as [g|] eqn:Eg.
  2: { split; [done|]. intros [(g & Hg & _) _]. congruence. }
  assert (∀ j, drawn cn j ↔ g !! j = Some true) as Hdr.
  { intros j. unfold drawn. rewrite Eg. split; [by intros (g' & [= <-] & ?)|eauto]. }
  destruct (Nat.ltb_spec (start_level o) lv) as [Hlt|Hge].
  - rewrite deepest_spec. split.
    + intros (Hk & Hg & Hj). split; [by apply Hdr|]. intros j Hjk Hdj.
      destruct (proj1 (Hd j) Hdj) as [Hjr _]. apply (Hj j); [lia|by apply Hdr].
    + intros [Hk Hj]. destruct (proj1 (Hd k) Hk) as [Hkr _].
      repeat split; [lia|lia|by apply Hdr|]. intros j Hjk Hgj. apply (Hj j); [lia|by apply Hdr].
  - split; [done|]. intros [Hk _]. destruct (proj1 (Hd k) Hk) as [Hkr _]. lia.
Qed.
End Visible.

(** ** A sample *)

Definition sample_doc : list string :=
  ["dns:"; "  enable: true"; "  servers:"; "    - a"; ""; "    - b"; "rules:"].

Definition sample_opts : marker_opts := mkMarkerOpts false true "1" 1000 2 4.

(** Line 4, [    - a], has guides at the levels 0 and 1; line 3 heads the latter. *)
Lemma guides_spec_witness : drawn sample_opts sample_doc 1 7 4 1.
Proof.
  destruct (guides_spec sample_opts sample_doc 1 7 (conj (le_n 1) (le_n 7)) 4 ltac:(repeat constructor)) as (lv & -> & Hd).
  apply Hd. split; [vm_compute; repeat constructor|]. exists 3%nat. split; [vm_compute; repeat constructor|].
  split_and!; [repeat constructor|reflexivity|]. intros j v [H1 H2]. lia.
Defined.

(** A window of one line: the line that heads the block of line 4 is out of
    it, and the line has no guide at level 0. *)
Lemma head_above_window :
  let o := mkMarkerOpts false true "1" 1 2 4 in
  let doc := ["rules:"; "  a"; "  b"; "  c"] in
  heads o doc 4 0 1 ∧ ¬ drawn o doc 4 4 4 0.
Proof.
  split.
  - split_and!; [repeat constructor|reflexivity|]. intros j v Hj.
    assert (j = 2%nat ∨ j = 3%nat) as [-> | ->] by lia; intros [= <-]; repeat constructor.
  - intros (g & Hg & Hk). vm_compute in Hg. injection Hg as <-. done.
Qed.

Lemma active_is_innermost_witness :
  activeLvl sample_opts sample_doc 1 7 5 = Some 1%nat ↔
  drawn sample_opts sample_doc 1 7 5 1 ∧ ∀ j, (1 < j)%nat → ¬ drawn sample_opts sample_doc 1 7 5 j.
Proof.
  apply (active_is_innermost sample_opts sample_doc 1 7 (conj (le_n 1) (le_n 7)) 5 1); [done|].
  split; repeat constructor.
Defined.
