(* ===== verification/GuideUpdates.v ===== *)
(** [indentMarkerExtension] of tools/codemirror/entry.js in the OpenClash front
    end: when the editor's plugin draws its guides anew.

    Drawing waits on three queues: an animation frame after scrolling, the
    editor's measuring phase, and a microtask that makes the editor take the
    decorations drawn with the measured sizes.  The plugin is a machine over
    the editor's updates and the turns of these queues. *)
From stdpp Require Import base list strings.
From Stdlib Require Import ZArith Lia Ascii Bool Floats.SpecFloat.
From S2P Require Import Prelude JsNum JsString IndentGuides.

(** What the plugin reads of the editor's state: the document with the first
    and the last line of the viewport, and the line of the cursor. *)
Record scene : Type := mkScene { sc_doc : list string; sc_first : nat; sc_last : nat }.
Record view : Type := mkView { vw_scene : scene; vw_cursor : nat }.

(** The plugin: [pl_step] is [_stepPx] ([None] for null), [pl_height]
    [_lineHeight] ([None] for undefined), [pl_measured] [_measurePending];
    [pl_frame] tells whether [_rafId] is set, [pl_measures] and [pl_ticks]
    count the requests for the measuring phase and the microtasks that wait. *)
Record plugin : Type := mkPlugin {
  pl_view : view;
  pl_step : option spec_float;
  pl_height : option num;
  pl_measured : bool;
  pl_frame : bool;
  pl_measures : nat;
  pl_ticks : nat;
  pl_decorations : list (nat * string);
}.

(** An update of the editor with its flags, or the turn of a queue. *)
Inductive happening : Type :=
  | Update (v : view) (docChanged viewportChanged selectionSet : bool)
  | Frame
  | Measure
  | Tick.

(** The two forms of what [read] returns. *)
Inductive sizes : Type :=
  | Step (stepPx : spec_float)
  | StepAndHeight (stepPx : spec_float) (lineHeight : num).

Section Plugin.
(** The extension's arguments; [defer] stands for [deferMode === 'raf'].  The
    layout is the browser's: where [coordsAtPos] sees a line's character (left
    and top), and the width of a character. *)
Context (o : marker_opts) (defer : bool).
Context (coords : scene → nat → nat → option (spec_float * spec_float)).
Context (charWidth : scene → spec_float).

Definition sf_sub (x y : spec_float) : spec_float := SFsub 53 1024 x y.
Definition sf_Z (z : Z) : spec_float := sf_of_num (Fin z).
Definition positive (x : spec_float) : bool := SFltb (sf_Z 0) x.

(** ** Measuring *)

Definition line_text (s : scene) (n : nat) : string := nth (n - 1) (sc_doc s) "".

Definition deep (s : scene) (n : nat) : bool := (mo_iw o <=? _ocImIndent (line_text s n) (mo_ts o))%nat.

Definition viewport_lines (s : scene) : list nat := seq (sc_first s) (S (sc_last s) - sc_first s).

Definition hasIndent (s : scene) : bool := existsb (deep s) (viewport_lines s).

(** [Math.round((c1.left - c0.left) * 100) / 100] *)
Definition step_at (s : scene) (n : nat) : option spec_float :=
  match coords s n 0, coords s n (mo_iw o) with
  | Some (l0, _), Some (l1, _) =>
      Some (sf_div (sf_of_num (math_round (sf_mul (sf_sub l1 l0) (sf_Z 100)))) (sf_Z 100))
  | _, _ => None
  end.

Fixpoint first_step (s : scene) (ns : list nat) : spec_float :=
  match ns with
  | [] => sf_Z 0
  | n :: ns =>
      if negb (str_truthy (str_trim (line_text s n))) then first_step s ns
      else if deep s n then match step_at s n with Some x => x | None => first_step s ns end
      else first_step s ns
  end.

Definition measured_height (s : scene) : num :=
  if (sc_first s <? length (sc_doc s))%nat then
    match coords s (sc_first s) 0, coords s (S (sc_first s)) 0 with
    | Some (_, t0), Some (_, t1) => math_round (sf_sub t1 t0)
    | _, _ => Fin 0
    end
  else Fin 0.

Definition or_minus_one (x : spec_float) : spec_float := if positive x then x else sf_Z (-1).

(** [read] *)
Definition read (s : scene) : sizes :=
  let stepPx := if hasIndent s then first_step s (viewport_lines s) else sf_Z 0 in
  let lineHeight := measured_height s in
  if num_ltb (Fin 0) lineHeight then StepAndHeight (or_minus_one stepPx) lineHeight
  else Step (or_minus_one stepPx).

(** The part of [write] that stores the sizes. *)
Definition stored (r : sizes) : spec_float * num :=
  match r with
  | Step x => (or_minus_one x, Fin 0)
  | StepAndHeight x h => (or_minus_one x, num_or0 h)
  end.

(** ** Drawing *)

(** The step [_build] uses: the measured one where it is positive. *)
Definition drawing_step (s : scene) (step : option spec_float) : spec_float :=
  match step with
  | Some x => if SFleb x (sf_Z 0) then sf_mul (sf_Z (Z.of_nat (mo_iw o))) (charWidth s) else x
  | None => sf_mul (sf_Z (Z.of_nat (mo_iw o))) (charWidth s)
  end.

Definition int_of (x : num) : Z := match x with Fin z => z | _ => 0 end.

(** [_build(view)] with the sizes the plugin holds. *)
Definition build (v : view) (step : option spec_float) (height : option num) : list (nat * string) :=
  let s := vw_scene v in
  _build o (λ k, int_of (math_round (sf_mul (sf_Z (Z.of_nat k)) (drawing_step s step))))
    (int_of (default (Fin 0) height)) (sc_doc s) (sc_first s) (sc_last s) (vw_cursor v).

(** [_stepPx = null; _measurePending = false; decorations = _build(view);
    _scheduleMeasure(view)].  [requestMeasure] has no result, so that
    [_measureId] stays undefined and no request is taken back. *)
Definition rebuild (v : view) (p : plugin) : plugin :=
  mkPlugin v None (pl_height p) false (pl_frame p) (S (pl_measures p)) (pl_ticks p)
    (build v None (pl_height p)).

Definition set_frame (b : bool) (p : plugin) : plugin :=
  mkPlugin (pl_view p) (pl_step p) (pl_height p) (pl_measured p) b (pl_measures p) (pl_ticks p)
    (pl_decorations p).

Definition set_view (v : view) (p : plugin) : plugin :=
  mkPlugin v (pl_step p) (pl_height p) (pl_measured p) (pl_frame p) (pl_measures p) (pl_ticks p)
    (pl_decorations p).

(** The decorations drawn with the sizes just measured. *)
Definition redraw (p : plugin) : plugin :=
  mkPlugin (pl_view p) (pl_step p) (pl_height p) false (pl_frame p) (pl_measures p) (pl_ticks p)
    (build (pl_view p) (pl_step p) (pl_height p)).

(** The constructor. *)
Definition create (v : view) : plugin :=
  mkPlugin v None None false false 1 0 (build v None None).

Definition update (v : view) (docChanged viewportChanged selectionSet : bool) (p : plugin) : plugin :=
  let p := set_view v p in
  if docChanged || viewportChanged || (mo_highlightActive o && selectionSet) then
    if defer && viewportChanged && negb docChanged then set_frame true p
    else rebuild v (set_frame false p)
  else if pl_measured p then redraw p
  else p.

(** The frame requested by [update]. *)
Definition on_frame (p : plugin) : plugin :=
  if pl_frame p then rebuild (pl_view p) (set_frame false p) else p.

(** The measuring phase: every request is read, then written; each write
    queues a microtask. *)
Definition measure (p : plugin) : plugin :=
  match pl_measures p with
  | O => p
  | _ =>
      let '(step, height) := stored (read (vw_scene (pl_view p))) in
      mkPlugin (pl_view p) (Some step) (Some height) true (pl_frame p) 0 (pl_ticks p + pl_measures p)
        (pl_decorations p)
  end.

(** The microtask: an empty transaction, unless the sizes have been used. *)
Definition tick (p : plugin) : plugin :=
  match pl_ticks p with
  | O => p
  | S n =>
      let p := mkPlugin (pl_view p) (pl_step p) (pl_height p) (pl_measured p) (pl_frame p) (pl_measures p) n
                 (pl_decorations p) in
      if pl_measured p then update (pl_view p) false false false p else p
  end.

Definition happen (e : happening) (p : plugin) : plugin :=
  match e with
  | Update v d w s => update v d w s p
  | Frame => on_frame p
  | Measure => measure p
  | Tick => tick p
  end.

Definition happens (es : list happening) (p : plugin) : plugin := fold_left (λ p e, happen e p) es p.

(** ** What the plugin settles to *)

(** What the editor promises: an update without the flag for a part of its
    state leaves that part as it was. *)
Definition honest (e : happening) (p : plugin) : Prop :=
  match e with
  | Update v d w s =>
      (d || w = false → vw_scene v = vw_scene (pl_view p)) ∧
      (d || s = false → vw_cursor v = vw_cursor (pl_view p))
  | _ => True
  end.

Fixpoint honest_run (es : list happening) (p : plugin) : Prop :=
  match es with
  | [] => True
  | e :: es => honest e p ∧ honest_run es (happen e p)
  end.

(** The decorations of a view drawn with the sizes measured on it. *)
Definition settled (v : view) : list (nat * string) :=
  let '(step, height) := stored (read (vw_scene v)) in build v (Some step) (Some height).

(** The queue that has something to do. *)
Definition awaited (e : happening) (p : plugin) : bool :=
  match e with
  | Update _ _ _ _ => false
  | Frame => pl_frame p
  | Measure => negb (Nat.eqb (pl_measures p) 0)
  | Tick => negb (Nat.eqb (pl_ticks p) 0)
  end.

(** A run of awaited turns without an update between them. *)
Fixpoint awaited_run (es : list happening) (p : plugin) : bool :=
  match es with
  | [] => true
  | e :: es => awaited e p && awaited_run es (happen e p)
  end.

(** A frame requests a measure, a measure requests a microtask. *)
Definition work (p : plugin) : nat := (if pl_frame p then 3 else 0) + 2 * pl_measures p + pl_ticks p.

Definition plugin_ok (p : plugin) : Prop :=
  (pl_measured p = true → pl_ticks p ≠ 0%nat) ∧
  (pl_frame p = false →
   (pl_step p = None → pl_measures p ≠ 0%nat) ∧
   (∀ x, pl_step p = Some x →
      (x, default (Fin 0) (pl_height p)) = stored (read (vw_scene (pl_view p))) ∧ pl_height p ≠ None) ∧
   (pl_measured p = false → pl_decorations p = build (pl_view p) (pl_step p) (pl_height p))).

Lemma create_ok v : plugin_ok (create v).
Proof. by repeat split. Qed.

Lemma rebuild_ok v p : plugin_ok (rebuild v p).
Proof. by repeat split. Qed.

(** Without the highlighting of the cursor's block the cursor does not matter. *)
Lemma build_cursor v v' step height :
  vw_scene v = vw_scene v' → mo_highlightActive o = false ∨ vw_cursor v = vw_cursor v' →
  build v step height = build v' step height.
Proof.
  intros Hs Hc. unfold build. rewrite Hs. destruct Hc as [Hh| ->]; [|done].
  unfold _build, activeLvl. by rewrite Hh.
Qed.

Lemma update_ok v d w s p : honest (Update v d w s) p → plugin_ok p → plugin_ok (update v d w s p).
Proof.
  intros [Hsc Hcu] [Ht Hp]. unfold update. destruct d; cbn [orb] in *; [rewrite andb_false_r; apply rebuild_ok|].
  destruct w; cbn [orb] in *; [destruct defer; [by split|apply rebuild_ok]|]. specialize (Hsc eq_refl).
  destruct (mo_highlightActive o && s) eqn:E; [rewrite andb_false_r; apply rebuild_ok|].
  assert (mo_highlightActive o = false ∨ vw_cursor v = vw_cursor (pl_view p)) as Hv.
  { apply andb_false_iff in E as [?|?]; auto. }
  cbn [pl_measured set_view]. destruct (pl_measured p) eqn:Em; cbn.
  - split; [done|]. cbn. rewrite Hsc. intros Hf. by destruct (Hp Hf) as (H1 & H2 & _).
  - split; cbn; [by rewrite Em|]. rewrite Hsc. intros Hf. destruct (Hp Hf) as (H1 & H2 & H3).
    split; [done|]. split; [done|]. intros _. rewrite (H3 eq_refl).
    by apply build_cursor; [symmetry|destruct Hv; [left|right]].
Qed.

Lemma measure_ok p : plugin_ok p → plugin_ok (measure p).
Proof.
  intros Hp. unfold measure. destruct (pl_measures p) eqn:Em; [done|].
  destruct (stored _) as [x h] eqn:E. split; cbn; [intros _; lia|]. intros _. split; [done|]. split; [|done].
  intros y [= <-]. by rewrite E.
Qed.

Lemma tick_ok p : plugin_ok p → plugin_ok (tick p).
Proof.
  intros [Ht Hp]. unfold tick. destruct (pl_ticks p) eqn:Et; [by split; rewrite ?Et|]. cbn [pl_measured].
  destruct (pl_measured p) eqn:Em.
  - unfold update. rewrite andb_false_r. cbn. split; cbn; [done|]. intros Hf. by destruct (Hp Hf) as (? & ? & _).
  - split; cbn; [done|]. exact Hp.
Qed.

Lemma happen_ok e p : honest e p → plugin_ok p → plugin_ok (happen e p).
Proof.
  intros He Hp. destruct e; cbn [happen].
  - by apply update_ok.
  - unfold on_frame. destruct (pl_frame p); [apply rebuild_ok|done].
  - by apply measure_ok.
  - by apply tick_ok.
Qed.

Lemma happens_ok es p : honest_run es p → plugin_ok p → plugin_ok (happens es p).
Proof.
  revert p. induction es as [|e es IH]; intros p Hes Hp; [done|]. destruct Hes as [He Hes].
  apply IH; [done|]. by apply happen_ok.
Qed.

Lemma awaited_step e p :
  awaited e p = true → (work (happen e p) < work p)%nat ∧ pl_view (happen e p) = pl_view p.
Proof.
  destruct e; cbn [awaited happen]; [done|..]; intros H; unfold work.
  - unfold on_frame. rewrite H. cbn. split; [lia|done].
  - unfold measure. destruct (pl_measures p) eqn:E; [done|]. destruct (stored _). cbn. split; [lia|done].
  - unfold tick. destruct (pl_ticks p) eqn:E; [done|]. cbn [pl_measured].
    destruct (pl_measured p) eqn:Em; [|by cbn; split; [lia|]].
    unfold update. rewrite andb_false_r. cbn. split; [lia|done].
Qed.

Lemma work_left p : work p ≠ 0%nat → ∃ e, awaited e p = true.
Proof.
  unfold work. intros H. destruct (pl_frame p) eqn:Ef; [by exists Frame|].
  destruct (pl_measures p) eqn:Em; [|by exists Measure; cbn; rewrite Em].
  destruct (pl_ticks p) eqn:Et; [done|]. exists Tick. cbn. by rewrite Et.
Qed.

Lemma awaited_run_bound es p : awaited_run es p = true → (length es + work (happens es p) <= work p)%nat.
Proof.
  revert p. induction es as [|e es IH]; intros p H; [done|]. cbn in H. apply andb_true_iff in H as [He Hes].
  apply awaited_step in He as [Hw _]. apply IH in Hes. cbn. unfold happens in Hes. lia.
Qed.

Lemma idle_settled p : plugin_ok p → work p = 0%nat → pl_decorations p = settled (pl_view p).
Proof.
  unfold work. intros [Ht Hp] Hw. destruct (pl_frame p); [done|]. destruct (Hp eq_refl) as (H1 & H2 & H3).
  destruct (pl_step p) as [x|] eqn:Es; [|by destruct H1; [|lia]]. destruct (H2 x eq_refl) as [Hx Hh].
  rewrite H3 by (destruct (pl_measured p); [by destruct Ht; [|lia]|done]).
  unfold settled. rewrite <- Hx. by destruct (pl_height p).
Qed.

(** C16: the editor's guides settle.  After any updates and turns of the queues
    (scrolling deferred to frames or not, requests piling up), as long as
    something waits there is a turn to take; no more turns than [work] can
    follow each other without an update; and when nothing waits, the
    decorations are those of the text now in view, drawn with the sizes
    measured on it. *)
Theorem guides_settle v es :
  honest_run es (create v) →
  let p := happens es (create v) in
  (work p ≠ 0%nat → ∃ e, awaited e p = true) ∧
  (∀ more, awaited_run more p = true → (length more <= work p)%nat ∧
     (work (happens more p) = 0%nat → pl_decorations (happens more p) = settled (pl_view p))).
Proof.
  intros Hes p. split; [apply work_left|]. intros more Hm.
  pose proof (awaited_run_bound more p Hm) as Hb. split; [lia|]. intros Hw.
  assert (plugin_ok p) as Hp by (by apply happens_ok; [|apply create_ok]). clearbody p. clear Hes Hb.
  revert p Hm Hw Hp. induction more as [|e more IH]; intros p Hm Hw Hp; [by apply idle_settled|].
  cbn in Hm. apply andb_true_iff in Hm as [He Hm]. destruct (awaited_step e p He) as [_ Hv].
  rewrite <- Hv. apply IH; [done..|]. apply happen_ok; [by destruct e|done].
Qed.
End Plugin.

(** ** A sample *)

Definition sample_coords (s : scene) (n col : nat) : option (spec_float * spec_float) :=
  Some (sf_Z (6 + 8 * Z.of_nat col), sf_Z (20 * Z.of_nat n)).

Definition sample_view (fl ll : nat) : view := mkView (mkScene sample_doc fl ll) 1.

(** Scrolling, before and after the frame. *)
Definition sample_scroll : list happening :=
  [Measure; Tick; Update (sample_view 3 7) false true false; Measure; Update (sample_view 4 7) false true false].

Lemma guides_settle_witness :
  let p := happens sample_opts true sample_coords (λ _, sf_Z 8) sample_scroll
             (create sample_opts (λ _, sf_Z 8) (sample_view 1 5)) in
  work p = 3%nat ∧
  pl_decorations (happens sample_opts true sample_coords (λ _, sf_Z 8) [Frame; Measure; Tick] p)
  = settled sample_opts sample_coords (λ _, sf_Z 8) (sample_view 4 7) ∧
  settled sample_opts sample_coords (λ _, sf_Z 8) (sample_view 4 7)
  ≠ settled sample_opts sample_coords (λ _, sf_Z 8) (sample_view 1 5).
Proof.
  intros p. split; [reflexivity|]. split; [|vm_compute; congruence].
  apply (proj2 (guides_settle sample_opts true sample_coords (λ _, sf_Z 8) (sample_view 1 5) sample_scroll
    ltac:(vm_compute; repeat split; congruence)) [Frame; Measure; Tick]); reflexivity.
Defined.
