(* ===== verification/OcText.v ===== *)
(** [tools/codemirror/entry.js] of the OpenClash front end: keyword
    completion, the diagnostics of the YAML linter, and the escaping of code
    blocks in rendered Markdown. *)
From stdpp Require Import base list strings sets.
From Stdlib Require Import ZArith Lia Ascii Bool.
From S2P Require Import Prelude JsNum JsString ClashData.

(** ** Completion

    [context.matchBefore] belongs to the editor: it gives the word before the
    cursor with its start and end, or nothing. *)
Record word_before : Type := mkWord {
  wd_from : Z;
  wd_to : Z;
  wd_text : string;
}.

Inductive choice : Type :=
  | Keyword (k : completion)
  | Snippet (s : snippet).

Definition choice_label (c : choice) : string :=
  match c with Keyword k => cp_label k | Snippet s => sn_label s end.

(** [label.toLowerCase().startsWith(text.toLowerCase())] *)
Definition starts_word (text label : string) : bool :=
  String.prefix (str_lower text) (str_lower label).

Definition mihomoCompletion (word : option word_before) (explicit : bool) : option (Z * list choice) :=
  match word with
  | None => None
  | Some w =>
      if (wd_from w =? wd_to w) && negb explicit then None
      else
        let filtered := List.filter (λ k, starts_word (wd_text w) (cp_label k)) mihomoKeywords in
        let snippets := List.filter (λ s, starts_word (wd_text w) (sn_label s)) mihomoSnippets in
        match map Keyword filtered ++ map Snippet snippets with
        | [] => None
        | options => Some (wd_from w, options)
        end
  end.

(** ** The YAML linter

    [loadAll] is a parameter: it accepts a text or fails with an error, whose
    mark gives a line and a column counted from 0, either of which may be
    missing. *)
Record yaml_error : Type := mkYamlError {
  ye_mark : option (option Z * option Z);
  ye_reason : option string;
  ye_message : string;
}.

Record diagnostic : Type := mkDiagnostic {
  dg_from : Z;
  dg_to : Z;
  dg_message : string;
}.

(** [e.reason || e.message] *)
Definition error_text (e : yaml_error) : string :=
  match ye_reason e with
  | Some r => if str_truthy r then r else ye_message e
  | None => ye_message e
  end.

(** The offsets of line [n], counted from 0, in a document of lines separated
    by single line feeds. *)
Fixpoint line_span (from : Z) (doc : list string) (n : nat) : option (Z * Z) :=
  match doc with
  | [] => None
  | l :: rest =>
      match n with
      | O => Some (from, from + str_len l)
      | S n' => line_span (from + str_len l + 1) rest n'
      end
  end.

(** [doc.line(lineNo)] throws outside the document. *)
Definition doc_line (doc : list string) (lineNo : Z) : res (Z * Z) :=
  if lineNo <? 1 then Throw "RangeError"
  else match line_span 0 doc (Z.to_nat (lineNo - 1)) with
       | Some sp => Ok sp
       | None => Throw "RangeError"
       end.

Definition diagnose (doc : list string) (e : yaml_error) : res (list diagnostic) :=
  match ye_mark e with
  | Some (Some line, column) =>
      let lineNo := line + 1 in
      if lineNo <=? Z.of_nat (length doc) then
        let* sp := doc_line doc lineNo in
        let '(from, to) := sp in
        let pos := Z.min (from + default 0 column) to in
        Ok [mkDiagnostic pos (Z.min (pos + 1) to) (error_text e)]
      else Ok []
  | _ => Ok [mkDiagnostic 0 0 (error_text e)]
  end.

Definition yamlLinter (loadAll : list string → option yaml_error) (doc : list string)
    : res (list diagnostic) :=
  match loadAll doc with
  | None => Ok []
  | Some e => diagnose doc e
  end.

(** ** Escaping *)

Definition escapeHtml (s : string) : string :=
  replace_char "034" "&quot;" (replace_char ">" "&gt;" (replace_char "<" "&lt;" (replace_char "&" "&amp;" s))).

(** ** Facts: completion *)

(** Completion offers exactly the keywords and snippets whose label begins
    with the word before the cursor, letter case aside, keywords first, and
    replaces the word from its start; it offers nothing only when no label
    fits. *)
Theorem mihomoCompletion_spec w explicit :
  wd_from w ≠ wd_to w →
  match mihomoCompletion (Some w) explicit with
  | Some (from, options) =>
      from = wd_from w ∧
      (∀ k, Keyword k ∈ options ↔ k ∈ mihomoKeywords ∧ starts_word (wd_text w) (cp_label k) = true) ∧
      (∀ s, Snippet s ∈ options ↔ s ∈ mihomoSnippets ∧ starts_word (wd_text w) (sn_label s) = true) ∧
      ∃ ks ss, options = map Keyword ks ++ map Snippet ss
  | None =>
      (∀ k, k ∈ mihomoKeywords → starts_word (wd_text w) (cp_label k) = false) ∧
      (∀ s, s ∈ mihomoSnippets → starts_word (wd_text w) (sn_label s) = false)
  end.
Proof.
  intros Hne. unfold mihomoCompletion. rewrite (proj2 (Z.eqb_neq _ _) Hne). cbn [andb].
  generalize mihomoKeywords as kws, mihomoSnippets as sns. intros kws sns.
  set (ks := List.filter _ kws). set (ss := List.filter _ sns).
  assert (∀ k, k ∈ ks ↔ k ∈ kws ∧ starts_word (wd_text w) (cp_label k) = true) as Hk.
  { intros k. unfold ks. rewrite !list_elem_of_In. apply filter_In. }
  assert (∀ s, s ∈ ss ↔ s ∈ sns ∧ starts_word (wd_text w) (sn_label s) = true) as Hs.
  { intros s. unfold ss. rewrite !list_elem_of_In. apply filter_In. }
  clearbody ks ss.
  assert (∀ k, Keyword k ∈ map Keyword ks ++ map Snippet ss ↔ k ∈ ks) as Hk'.
  { intros k. rewrite list_elem_of_In, in_app_iff, !in_map_iff. setoid_rewrite <- list_elem_of_In.
    split; [intros [(? & [= ->] & ?)|(? & ? & _)]; done|eauto]. }
  assert (∀ s, Snippet s ∈ map Keyword ks ++ map Snippet ss ↔ s ∈ ss) as Hs'.
  { intros s. rewrite list_elem_of_In, in_app_iff, !in_map_iff. setoid_rewrite <- list_elem_of_In.
    split; [intros [(? & ? & _)|(? & [= ->] & ?)]; done|eauto]. }
  destruct (map Keyword ks ++ map Snippet ss) as [|c cs] eqn:E.
  - split; [intros k Hin; specialize (Hk k); specialize (Hk' k)
           |intros s Hin; specialize (Hs s); specialize (Hs' s)];
      (destruct (starts_word _ _); [|done]); exfalso; set_solver.
  - split_and!; [done|intros k; by rewrite Hk', Hk|intros s; by rewrite Hs', Hs|by exists ks, ss].
Qed.

Lemma mihomoCompletion_spec_witness :
  match mihomoCompletion (Some (mkWord 4 7 "MIX")) false with
  | Some (from, options) =>
      from = 4 ∧
      (∀ k, Keyword k ∈ options ↔ k ∈ mihomoKeywords ∧ starts_word "MIX" (cp_label k) = true) ∧
      (∀ s, Snippet s ∈ options ↔ s ∈ mihomoSnippets ∧ starts_word "MIX" (sn_label s) = true) ∧
      ∃ ks ss, options = map Keyword ks ++ map Snippet ss
  | None =>
      (∀ k, k ∈ mihomoKeywords → starts_word "MIX" (cp_label k) = false) ∧
      (∀ s, s ∈ mihomoSnippets → starts_word "MIX" (sn_label s) = false)
  end.
Proof. apply (mihomoCompletion_spec (mkWord 4 7 "MIX") false). discriminate. Defined.

(** ** Facts: the linter *)

Fixpoint doc_length (doc : list string) : Z :=
  match doc with
  | [] => 0
  | [l] => str_len l
  | l :: rest => str_len l + 1 + doc_length rest
  end.

Lemma str_len_ge0 s : 0 <= str_len s.
Proof. unfold str_len. lia. Qed.

Lemma doc_length_cons2 l l' doc : doc_length (l :: l' :: doc) = str_len l + 1 + doc_length (l' :: doc).
Proof. done. Qed.

Lemma doc_length_ge0 doc : 0 <= doc_length doc.
Proof.
  induction doc as [|l [|l' doc] IH]; [done|apply str_len_ge0|].
  rewrite doc_length_cons2. pose proof (str_len_ge0 l). lia.
Qed.

Lemma line_span_bounds doc from n a b :
  line_span from doc n = Some (a, b) → from <= a <= b ∧ b <= from + doc_length doc.
Proof.
  revert from n. induction doc as [|l doc IH]; intros from n H; [done|].
  pose proof (str_len_ge0 l). cbn [line_span] in H. destruct doc as [|l' doc].
  - destruct n as [|[|n]]; [|done|done]. injection H as <- <-.
    change (doc_length [l]) with (str_len l). lia.
  - rewrite doc_length_cons2. pose proof (doc_length_ge0 (l' :: doc)). destruct n as [|n].
    + injection H as <- <-. lia.
    + apply IH in H. lia.
Qed.

Lemma line_span_some doc from n : (n < length doc)%nat → is_Some (line_span from doc n).
Proof.
  revert from n. induction doc as [|l doc IH]; intros from n H; cbn in *; [lia|].
  destruct n as [|n]; [by eexists|]. apply IH. lia.
Qed.

(** Wherever the parser puts an error, the linter does not fail, and what
    it marks is one character at most, on the line of the error and inside
    the document; an error the parser reports past the last line is not
    marked at all. *)
Theorem diagnose_in_line doc e line column :
  ye_mark e = Some (Some line, column) → 0 <= line → 0 <= default 0 column →
  ∃ ds, diagnose doc e = Ok ds ∧ (ds = [] ↔ Z.of_nat (length doc) <= line) ∧
    ∀ d, d ∈ ds → ∃ from to,
      line_span 0 doc (Z.to_nat line) = Some (from, to) ∧
      from <= dg_from d <= dg_to d ∧ dg_to d <= dg_from d + 1 ∧ dg_to d <= to <= doc_length doc ∧
      dg_message d = error_text e.
Proof.
  intros Hm Hl Hc. unfold diagnose. rewrite Hm.
  destruct (Z.leb_spec (line + 1) (Z.of_nat (length doc))) as [Hle|Hgt].
  - unfold doc_line. rewrite (proj2 (Z.ltb_ge (line + 1) 1)) by lia.
    replace (line + 1 - 1) with line by lia.
    destruct (line_span_some doc 0 (Z.to_nat line)) as [[from to] Hsp]; [lia|].
    pose proof (line_span_bounds _ _ _ _ _ Hsp) as Hb.
    rewrite Hsp. cbn [rbind]. eexists. split; [done|]. split; [split; [done|lia]|].
    intros d Hd. apply list_elem_of_singleton in Hd as ->. exists from, to.
    cbn [dg_from dg_to dg_message]. split_and!; done || lia.
  - exists []. split; [done|]. split; [split; [lia|done]|]. intros d Hd. by apply elem_of_nil in Hd.
Qed.

Lemma diagnose_in_line_witness :
  ∃ ds, diagnose ["a: b"; "c: [1"] (mkYamlError (Some (Some 1, Some 9)) None "bad") = Ok ds ∧
    (ds = [] ↔ Z.of_nat 2 <= 1) ∧
    ∀ d, d ∈ ds → ∃ from to,
      line_span 0 ["a: b"; "c: [1"] 1 = Some (from, to) ∧
      from <= dg_from d <= dg_to d ∧ dg_to d <= dg_from d + 1 ∧ dg_to d <= to <= 10 ∧
      dg_message d = "bad".
Proof.
  apply (diagnose_in_line ["a: b"; "c: [1"] (mkYamlError (Some (Some 1, Some 9)) None "bad") 1 (Some 9));
    [reflexivity|lia|cbn; lia].
Defined.

(** ** Facts: escaping *)

Definition entities : list (string * ascii) :=
  [("&amp;", "&"%char); ("&lt;", "<"%char); ("&gt;", ">"%char); ("&quot;", "034"%char)].

(** How a browser reads the text back: each entity is its character. *)
Fixpoint unescape (skip : nat) (s : string) : string :=
  match s with
  | EmptyString => EmptyString
  | String c r =>
      match skip with
      | S k => unescape k r
      | O =>
          match List.find (λ e, String.prefix (fst e) s) entities with
          | Some (e, d) => String d (unescape (String.length e - 1) r)
          | None => String c (unescape 0 r)
          end
      end
  end.

Definition markup (c : ascii) : bool := Ascii.eqb c "<" || Ascii.eqb c ">" || Ascii.eqb c "034".

Definition escape_char (c : ascii) : string :=
  if Ascii.eqb c "&" then "&amp;" else if Ascii.eqb c "<" then "&lt;"
  else if Ascii.eqb c ">" then "&gt;" else if Ascii.eqb c "034" then "&quot;" else String c "".

Lemma escapeHtml_app s t : escapeHtml (s +:+ t) = escapeHtml s +:+ escapeHtml t.
Proof. unfold escapeHtml. by rewrite !replace_char_app. Qed.

Lemma escapeHtml_char c : escapeHtml (String c "") = escape_char c.
Proof. destruct c as [[] [] [] [] [] [] [] []]; vm_compute; reflexivity. Qed.

Lemma escapeHtml_cons c s : escapeHtml (String c s) = escape_char c +:+ escapeHtml s.
Proof. rewrite <- escapeHtml_char, <- escapeHtml_app. done. Qed.

Lemma escape_char_clean c : str_forall (λ d, negb (markup d)) (escape_char c) = true.
Proof. destruct c as [[] [] [] [] [] [] [] []]; vm_compute; reflexivity. Qed.

Lemma unescape_char c t : unescape 0 (escape_char c +:+ t) = String c (unescape 0 t).
Proof.
  unfold escape_char.
  destruct (Ascii.eqb_spec c "&") as [->|H]; [by destruct t|].
  destruct (Ascii.eqb_spec c "<") as [->|H1]; [by destruct t|].
  destruct (Ascii.eqb_spec c ">") as [->|H2]; [by destruct t|].
  destruct (Ascii.eqb_spec c "034") as [->|H3]; [by destruct t|].
  rewrite str_app_cons, str_app_nil_l.
  assert (∀ p u, String.prefix (String "&" p) (String c u) = false) as Hp.
  { intros p u. cbn [String.prefix]. destruct (ascii_dec "&" c); [congruence|done]. }
  cbn [unescape entities find fst]. by rewrite !Hp.
Qed.

(** Escaping is safe and loses nothing: the escaped text contains no
    character that opens markup or ends an attribute, and a browser reads it
    back as the original text, entities written in the original included. *)
Theorem escapeHtml_roundtrip s :
  str_forall (λ c, negb (markup c)) (escapeHtml s) = true ∧ unescape 0 (escapeHtml s) = s.
Proof.
  induction s as [|c s [IH1 IH2]]; [done|]. rewrite escapeHtml_cons. split.
  - rewrite str_forall_app, escape_char_clean. done.
  - by rewrite unescape_char, IH2.
Qed.

(** ** Facts: the snippets *)

(** The fields of a template in order; the final cursor position is empty. *)
Definition fields (t : string) : list string :=
  map (λ p, hd "" (str_split "}" p)) (tl (str_split "#{" t)).

Definition first_uses (l : list string) : list string :=
  fold_left (λ acc x, if existsb (String.eqb x) acc then acc else acc ++ [x]) l [].

(** The numbered fields are 1, 2, ... in the order of their first use, and the
    cursor position comes once, last. *)
Definition snippet_ok (s : snippet) : bool :=
  let fs := fields (sn_template s) in
  let ns := first_uses (List.filter str_truthy fs) in
  bool_decide (ns = map (λ i, dec (Z.of_nat i)) (seq 1 (length ns)))
  && String.eqb (List.last fs "x") "" && Nat.eqb (length (List.filter (λ f, negb (str_truthy f)) fs)) 1.

(** Every snippet visits its fields in reading order, and no two snippets or
    keywords share a label. *)
Lemma mihomoSnippets_ok :
  forallb snippet_ok mihomoSnippets = true ∧
  NoDup (map sn_label mihomoSnippets) ∧ NoDup (map cp_label mihomoKeywords).
Proof.
  split_and!; [vm_compute; reflexivity| |]; refine (bool_decide_eq_true_1 _ _); vm_compute; reflexivity.
Qed.
