(* ===== verification/OcStyles.v ===== *)
(** The style sheets that tools/codemirror/entry.js of the OpenClash front end
    writes: the scrollbar rules mirrored from the editor's theme
    ([mirrorThemeScrollbar]), the style of highlighted code, and the rendering
    of code blocks.  Style elements are represented by their texts. *)
From stdpp Require Import base list strings.
From Stdlib Require Import ZArith Lia Ascii Bool.
From S2P Require Import Prelude JsString JsRegExp JsMatch OcText.

(** ** Mirrored scrollbar rules *)

Definition marker : string := "/*oc-merge-mirror*/".

Definition scrollbar_selector : string := ".cm-scroller::-webkit-scrollbar".

Definition not_in (l : list ascii) (c : ascii) : bool := negb (existsb (Ascii.eqb c) l).

Definition is_color_char (c : ascii) : bool := is_digit c || Ascii.eqb c ".".

(** The numbers of the text colour, when there are three. *)
Definition color_parts (txt : option string) : option (string * string * string) :=
  match txt with
  | Some t =>
      if str_truthy t then
        match fst (all_matches [Run is_color_char 1] t) with
        | (_, [r]) :: (_, [g]) :: (_, [b]) :: _ => Some (r, g, b)
        | _ => None
        end
      else None
  | None => None
  end.

Definition rgba (c : string * string * string) (alpha : string) : string :=
  let '(r, g, b) := c in "rgba(" +:+ r +:+ "," +:+ g +:+ "," +:+ b +:+ "," +:+ alpha +:+ ")".

(** [thumbColor] and [thumbHover], by their opacity. *)
Definition thumb_color (color : option (string * string * string)) (isDark : bool) (alpha : string) : string :=
  match color with
  | Some c => rgba c alpha
  | None => (if isDark then "rgba(255,255,255," else "rgba(0,0,0,") +:+ alpha +:+ ")"
  end.

(** [reWebkit]; its second group is the fourth item with the text before it,
    the third one is the body. *)
Definition webkit_re : list item :=
  [Run (not_in ["{"%char; "}"%char]) 0; Texts true [".cm-scroller"]; Texts true ["::-webkit-scrollbar"];
   Run (not_in ["{"%char]) 0; Texts false ["{"]; Run (not_in ["}"%char]) 0; Texts false ["}"]].

Definition important (body : string) : string := replace_char ";" " !important;" body.

Definition webkit_parts (ps : list string) : list string :=
  match ps with
  | [_; _; pseudo; more; _; body; _] =>
      let sel := pseudo +:+ more in
      [".cm-mergeView" +:+ sel +:+ "{" +:+ body +:+ "}";
       "#debug-rendered" +:+ sel +:+ "{" +:+ important body +:+ "}";
       "#debug-rendered pre" +:+ sel +:+ "{" +:+ important body +:+ "}"]
  | _ => []
  end.

(** [reFF]; its second group is the body. *)
Definition firefox_re : list item :=
  [Run (not_in ["{"%char; "}"%char]) 0; Texts true [".cm-scroller{"]; Run (not_in ["}"%char]) 0;
   Texts true ["scrollbar-width"; "scrollbar-color"]; Run (not_in ["}"%char]) 0; Texts false ["}"]].

Definition declaration_re (name : string) : list item :=
  [Texts false [name]; Run is_ws 0; Texts false [":"]; Run is_ws 0; Run (not_in [";"%char]) 1; Maybe ";"].

(** [body.match(...)], the whole match. *)
Definition declaration (name body : string) : option string :=
  match exec (declaration_re name) body with Some (_, ps, _) => Some (text_of ps) | None => None end.

Definition firefox_parts (ps : list string) : list string :=
  match ps with
  | [_; _; a; name; b; _] =>
      let body := a +:+ name +:+ b in
      let sw := declaration "scrollbar-width" body in
      let sc := declaration "scrollbar-color" body in
      match sw, sc with
      | None, None => []
      | _, _ =>
          let ffRule := default "" sw +:+ default "" sc in
          [".cm-mergeView{" +:+ ffRule +:+ "}"; "#debug-rendered{" +:+ ffRule +:+ "}";
           "#debug-rendered pre{" +:+ ffRule +:+ "}"]
      end
  | _ => []
  end.

Definition revert_part (color : option (string * string * string)) (txt : option string) : string :=
  let with_alpha alpha other := match color with Some c => rgba c alpha | None => other end in
  ".cm-merge-revert{background:" +:+ with_alpha "0.06" "rgba(175,184,193,0.06)" +:+ "}"
  +:+ ".cm-merge-revert button{color:" +:+ with_alpha "0.5" "#656d76" +:+ "}"
  +:+ ".cm-merge-revert button:hover{color:"
  +:+ (match txt with Some t => if str_truthy t then t else "#1f2328" | None => "#1f2328" end)
  +:+ ";background:" +:+ with_alpha "0.12" "rgba(175,184,193,0.2)" +:+ "}".

(** The rule for the thumb, in its state [hover]. *)
Definition thumb_part (hover color : string) : string :=
  let sel s := s +:+ "::-webkit-scrollbar-thumb" +:+ hover in
  let value := color +:+ " !important" in
  sel ".cm-editor .cm-scroller" +:+ "," +:+ sel ".cm-mergeView" +:+ "," +:+ sel "#debug-rendered" +:+ ","
  +:+ sel "#debug-rendered pre" +:+ "{background:" +:+ value +:+ ";background-color:" +:+ value +:+ "}".

(** [parts], from the theme's text. *)
Definition mirror_parts (txt : option string) (isDark : bool) (themeText : string) : list string :=
  let color := color_parts txt in
  concat (map (λ m, webkit_parts (snd m)) (fst (all_matches webkit_re themeText)))
  ++ concat (map (λ m, firefox_parts (snd m)) (fst (all_matches firefox_re themeText)))
  ++ [revert_part color txt; thumb_part "" (thumb_color color isDark "0.60");
      thumb_part ":hover" (thumb_color color isDark "0.70")].

(** What becomes of the theme's style element. *)
Definition mirrored (txt : option string) (isDark : bool) (themeText : string) : string :=
  let idx := str_index_of themeText marker in
  (if idx =? -1 then themeText else str_upto idx themeText)
  +:+ marker +:+ str_join "" (mirror_parts txt isDark themeText).

(** [mirrorThemeScrollbar]: the first style element with the editor's
    scrollbar rules. *)
Fixpoint mirrorThemeScrollbar (txt : option string) (isDark : bool) (styles : list string) : list string :=
  match styles with
  | [] => []
  | s :: styles =>
      if str_index_of s scrollbar_selector =? -1 then s :: mirrorThemeScrollbar txt isDark styles
      else mirrored txt isDark s :: styles
  end.

(** Calls one after another, with the colour and the scheme at each. *)
Definition mirror_calls (calls : list (option string * bool)) (styles : list string) : list string :=
  fold_left (λ styles c, mirrorThemeScrollbar (fst c) (snd c) styles) calls styles.

(** ** The style of highlighted code *)

(** The flag [_hljsCSSInjected] with the style element [hljs-theme], by the
    scheme its text is for. *)
Record code_style : Type := mkCodeStyle { cs_injected : bool; cs_style : option bool }.

Definition injectHljsCSS (isDark : bool) (s : code_style) : code_style :=
  if cs_injected s then s else mkCodeStyle true (Some isDark).

(** [switchHljsTheme(isDark)] on a page whose scheme is [pageDark]. *)
Definition switchHljsTheme (isDark pageDark : bool) (s : code_style) : code_style :=
  let s := if cs_injected s then s else injectHljsCSS pageDark s in
  mkCodeStyle (cs_injected s) (match cs_style s with Some _ => Some isDark | None => None end).

(** The renderer of code blocks; [getLanguage] and [highlight] are highlight.js,
    and the flag tells that the style is asked for. *)
Definition render_code (getLanguage : string → bool) (highlight : string → string → string)
    (lang text : string) : string * bool :=
  if str_truthy lang && getLanguage lang then
    ("<pre><code class=" +:+ dq +:+ "hljs language-" +:+ lang +:+ dq +:+ "><span class=" +:+ dq +:+ "code-content" +:+ dq
     +:+ ">" +:+ highlight text lang +:+ "</span></code></pre>", true)
  else
    ("<pre><code><span class=" +:+ dq +:+ "code-content" +:+ dq +:+ ">" +:+ escapeHtml text +:+ "</span></code></pre>",
     false).

(** ** Facts *)

Lemma index_none s t i : none_in t s "" → String.prefix t "" = false → index_of_go t s i = -1.
Proof.
  intros Hs Ht. revert i. induction s as [|c s IH]; intros i; cbn [index_of_go]; [by rewrite Ht|].
  destruct Hs as [Hc Hs]. rewrite str_app_nil_r in Hc. by rewrite Hc, IH.
Qed.

Lemma index_first b t s : none_in t b (t +:+ s) → str_index_of (b +:+ t +:+ s) t = str_len b.
Proof.
  intros H. assert (∀ i, index_of_go t (b +:+ t +:+ s) i = i + str_len b) as Hi; [|apply Hi].
  unfold str_len. induction b as [|c b IH]; intros i.
  - rewrite str_app_nil_l, Z.add_0_r. destruct (t +:+ s) eqn:E; cbn [index_of_go]; by rewrite <- E, prefix_app.
  - destruct H as [Hc Hb]. rewrite str_app_cons in Hc |- *. cbn [index_of_go String.length].
    rewrite Hc, IH by done. lia.
Qed.

Lemma index_found s t : str_index_of s t ≠ -1 → ∃ a b, s = a +:+ t +:+ b.
Proof.
  unfold str_index_of. generalize 0. induction s as [|c s IH]; intros i; cbn [index_of_go].
  - destruct (String.prefix t "") eqn:E; [|done]. apply prefix_iff in E as [r E]. by exists "", r.
  - destruct (String.prefix t (String c s)) eqn:E; [apply prefix_iff in E as [r E]; by exists "", r|].
    intros (a & b & ->)%IH. by exists (String c a), b.
Qed.

Lemma index_kept s t z : str_index_of s t ≠ -1 → str_index_of (s +:+ z) t ≠ -1.
Proof.
  intros (a & b & ->)%index_found. rewrite !str_app_assoc. pose proof (index_of_contains a t (b +:+ z)). lia.
Qed.

Lemma none_in_less t b s : none_in t b s → none_in t b "".
Proof.
  induction b as [|c b IH]; [done|]. intros [Hc Hb]. split; [|by apply IH]. rewrite str_app_nil_r.
  destruct (String.prefix t (String c b)) eqn:E; [|done]. apply prefix_iff in E as [r E].
  rewrite E, str_app_assoc in Hc. by rewrite prefix_app in Hc.
Qed.

Lemma join_app l m : str_join "" (l ++ m) = str_join "" l +:+ str_join "" m.
Proof.
  induction l as [|x [|y l] IH].
  - by rewrite str_app_nil_l.
  - destruct m; [by rewrite str_app_nil_r|done].
  - cbn [app] in IH |- *. change (x +:+ "" +:+ str_join "" ((y :: l) ++ m) = (x +:+ "" +:+ str_join "" (y :: l)) +:+ str_join "" m).
    cbn [app]. by rewrite IH, !str_app_assoc.
Qed.

(** The last rules of a mirrored style: the thumb in the colours of a call. *)
Definition thumb_rules (c : option string * bool) : string :=
  thumb_part "" (thumb_color (color_parts (fst c)) (snd c) "0.60")
  +:+ thumb_part ":hover" (thumb_color (color_parts (fst c)) (snd c) "0.70").

(** A theme's own text followed by nothing or by mirrored rules. *)
Lemma mirrored_own txt d own tail :
  none_in marker own marker → tail = "" ∨ (∃ x, tail = marker +:+ x) →
  ∃ rules, mirrored txt d (own +:+ tail) = own +:+ marker +:+ rules +:+ thumb_rules (txt, d).
Proof.
  intros Hown Ht. unfold mirrored.
  assert ((if str_index_of (own +:+ tail) marker =? -1 then own +:+ tail
           else str_upto (str_index_of (own +:+ tail) marker) (own +:+ tail)) = own) as ->.
  { destruct Ht as [->|[x ->]].
    - rewrite str_app_nil_r. unfold str_index_of. by rewrite index_none by (done || by eapply none_in_less).
    - rewrite index_first by (by apply none_in_ext). unfold str_len at 1.
      destruct (Z.eqb_spec (Z.of_nat (String.length own)) (-1)); [lia|]. apply str_upto_app. }
  unfold mirror_parts. rewrite app_assoc, join_app.
  set (l := str_join "" (_ ++ _)). eexists (l +:+ revert_part (color_parts txt) txt).
  by rewrite !str_app_assoc.
Qed.

Lemma mirror_first txt d before s after :
  Forall (λ t, str_index_of t scrollbar_selector = -1) before → str_index_of s scrollbar_selector ≠ -1 →
  mirrorThemeScrollbar txt d (before ++ s :: after) = before ++ mirrored txt d s :: after.
Proof.
  intros Hb Hs. induction Hb as [|t before Ht Hb IH]; cbn [app mirrorThemeScrollbar].
  - by rewrite (proj2 (Z.eqb_neq _ _) Hs).
  - by rewrite Ht, IH.
Qed.

(** Mirroring the theme's scrollbar rules, however often and in whatever
    colours: only the first style with such rules changes; its own text is
    kept in front, the rules of earlier calls are dropped, and the rules that
    come last, and so prevail, colour the thumb as the last call asks. *)
Theorem mirror_keeps_own before own after calls c :
  Forall (λ t, str_index_of t scrollbar_selector = -1) before →
  str_index_of own scrollbar_selector ≠ -1 → none_in marker own marker →
  ∃ rules, mirror_calls (calls ++ [c]) (before ++ own :: after)
           = before ++ (own +:+ marker +:+ rules +:+ thumb_rules c) :: after.
Proof.
  intros Hb Hs Hown.
  assert (∃ tail, mirror_calls calls (before ++ own :: after) = before ++ (own +:+ tail) :: after ∧
          (tail = "" ∨ ∃ x, tail = marker +:+ x)) as (tail & E & Ht).
  { induction calls as [|[txt d] calls IH] using rev_ind; [exists ""; rewrite str_app_nil_r; auto|].
    destruct IH as (tail & E & Ht). unfold mirror_calls in *. rewrite fold_left_app, E. cbn.
    rewrite mirror_first by (done || by apply index_kept).
    destruct (mirrored_own txt d own tail Hown Ht) as [rules ->]. eauto. }
  destruct c as [txt d]. unfold mirror_calls in *. rewrite fold_left_app, E. cbn.
  rewrite mirror_first by (done || by apply index_kept).
  destruct (mirrored_own txt d own tail Hown Ht) as [rules ->]. by exists rules.
Qed.

Definition sample_theme : string :=
  ".cm-editor{color:#24292f}.cm-scroller::-webkit-scrollbar{width:8px;height:8px}.cm-scroller{scrollbar-width:thin;}".

Lemma mirror_keeps_own_witness :
  ∃ rules, mirror_calls [(None, true); (Some "rgb(36, 41, 47)", false)] ["p{margin:0}"; sample_theme; ""]
           = ["p{margin:0}"; sample_theme +:+ marker +:+ rules +:+ thumb_rules (Some "rgb(36, 41, 47)", false); ""].
Proof.
  apply (mirror_keeps_own ["p{margin:0}"] sample_theme [""] [(None, true)] (Some "rgb(36, 41, 47)", false)).
  - by repeat constructor.
  - by vm_compute.
  - by vm_compute.
Defined.

(** From the second call on the rules mirrored include the mirrored ones: the
    mark [!important] is doubled, and the text grows once. *)
Lemma mirrors_itself :
  let once := mirrored None true sample_theme in
  let twice := mirrored None true once in
  (String.length once < String.length twice)%nat ∧ mirrored None true twice = twice ∧
  str_index_of once "!important !important" = -1 ∧ str_index_of twice "!important !important" ≠ -1.
Proof. vm_compute. repeat split; (lia || congruence). Qed.

(** Whatever was injected, the code style follows the scheme asked for last. *)
Lemma switch_follows d page s :
  (cs_injected s = true → cs_style s ≠ None) →
  cs_style (switchHljsTheme d page s) = Some d ∧ cs_injected (switchHljsTheme d page s) = true.
Proof.
  intros H. unfold switchHljsTheme, injectHljsCSS. destruct (cs_injected s) eqn:E; cbn; [|done].
  rewrite E. destruct (cs_style s); [done|]. by destruct H.
Qed.
