(* ===== verification/OcEditor.v ===== *)
(** [luci-static/resources/openclash/js/common.js] and
    [tools/codemirror/entry.js] of the OpenClash front end: zoom levels, the
    editor hotkeys with the fullscreen mode and the style patches it needs,
    the loading overlay and the busy state of a button. *)
From stdpp Require Import base list strings.
From Stdlib Require Import ZArith Lia Ascii Bool.
From S2P Require Import Prelude JsNum JsString JsArray JsObject Luci.

(** ** Zoom *)

Definition _ocZoomLevels : list Z := [75; 90; 100; 110; 125; 150; 200].

(** [levels.indexOf(x)], -1 when absent. *)
Fixpoint index_from (i x : Z) (l : list Z) : Z :=
  match l with
  | [] => -1
  | y :: rest => if y =? x then i else index_from (i + 1) x rest
  end.

Definition level_index (x : Z) : Z := index_from 0 x _ocZoomLevels.

(** The argument is optional; [current] is [window._ocCurrentZoom]. *)
Definition ocZoomIn (currentZoom : option Z) (current : Z) : Z :=
  let cur := default current currentZoom in
  let idx := level_index cur in
  if idx <? Z.of_nat (length _ocZoomLevels) - 1
  then nth (Z.to_nat (idx + 1)) _ocZoomLevels cur else cur.

Definition ocZoomOut (currentZoom : option Z) (current : Z) : Z :=
  let cur := default current currentZoom in
  let idx := level_index cur in
  if 0 <? idx then nth (Z.to_nat (idx - 1)) _ocZoomLevels cur else cur.

Definition ocResetZoom : Z := 100.

(** ** Editors

    What the hotkeys touch of an editor's element: the zoom classes it bears,
    the class [cm-fullscreen] and the id [oc-fullscreen-active]. *)
Record editor : Type := mkEditor {
  ed_zooms : list Z;
  ed_full : bool;
  ed_active_id : bool;
}.

Definition plain_editor : editor := mkEditor [] false false.

(** [toggleFullscreen(dom)]: the element and the value returned. *)
Definition toggleFullscreen (e : editor) : editor * bool :=
  if ed_full e then (mkEditor (ed_zooms e) false false, false)
  else (mkEditor (ed_zooms e) true true, true).

(** An editor instance, by the positions of its elements: an [EditorView] or a
    [MergeView] with its two sides. *)
Inductive instance : Type :=
  | View (i : nat)
  | Merge (a b : nat).

(** [ocGetActiveEditorInstance()]: the merge view's, the configuration
    editor's, the focused editor. *)
Definition ocGetActiveEditorInstance (merge config active : option instance) : option instance :=
  match merge with
  | Some i => Some i
  | None => match config with Some i => Some i | None => active end
  end.

Definition zoom_class (z : Z) (e : editor) : editor :=
  let cleared := List.filter (λ c, negb (existsb (Z.eqb c) _ocZoomLevels)) (ed_zooms e) in
  mkEditor (if (z =? 100) || existsb (Z.eqb z) cleared then cleared else cleared ++ [z])
    (ed_full e) (ed_active_id e).

(** [ocApplyZoom(instance, z)]: the elements are those of the instance, else
    the editor that has the focus; without any nothing happens. *)
Definition zoom_doms (inst : option instance) (focused : option nat) : list nat :=
  match inst with
  | Some (View i) => [i]
  | Some (Merge a b) => [a; b]
  | None => match focused with Some i => [i] | None => [] end
  end.

Definition ocApplyZoom (inst : option instance) (focused : option nat) (z : Z)
    (editors : list editor) (current : Z) : list editor * Z :=
  match zoom_doms inst focused with
  | [] => (editors, current)
  | doms => (fold_left (λ es i, list_update (zoom_class z) i es) doms editors, z)
  end.

(** ** Style patches of the fullscreen mode

    Inline styles of the elements of the page, by element; an unset property
    is the empty text. *)
Record styles : Type := mkStyles {
  sy_backdrop : nat → string;
  sy_zindex : nat → string;
}.

Definition set_style (i : nat) (v : string) (f : nat → string) : nat → string :=
  λ j, if Nat.eqb j i then v else f j.

(** An ancestor of the editor with the computed style the walk reads. *)
Record ancestor : Type := mkAncestor {
  an_el : nat;
  an_backdrop : string;
  an_position : string;
  an_zindex : string;
}.

Record patch : Type := mkPatch {
  pa_backdrop : option (nat * string);
  pa_zindex : option (nat * string);
}.

Definition positioned (a : ancestor) : bool :=
  existsb (String.eqb (an_position a)) ["relative"; "absolute"; "fixed"; "sticky"]
  && negb (String.eqb (an_zindex a) "auto").

(** One step of the walk: the first backdrop filter is switched off, the last
    stacking context is remembered. *)
Definition patch_ancestor (ps : patch * styles) (a : ancestor) : patch * styles :=
  let '(p, s) := ps in
  let '(p1, s1) :=
    match pa_backdrop p with
    | None =>
        if str_truthy (an_backdrop a) && negb (String.eqb (an_backdrop a) "none") then
          (mkPatch (Some (an_el a, sy_backdrop s (an_el a))) (pa_zindex p),
           mkStyles (set_style (an_el a) "none" (sy_backdrop s)) (sy_zindex s))
        else (p, s)
    | Some _ => (p, s)
    end in
  if positioned a then (mkPatch (pa_backdrop p1) (Some (an_el a, sy_zindex s1 (an_el a))), s1)
  else (p1, s1).

(** Setting the old value back; the empty one removes the property. *)
Definition _ocExitFullscreen (ps : option patch * styles) : option patch * styles :=
  let '(p, s) := ps in
  match p with
  | None => (None, s)
  | Some p =>
      let z := match pa_zindex p with Some (i, old) => set_style i old (sy_zindex s) | None => sy_zindex s end in
      let b := match pa_backdrop p with Some (i, old) => set_style i old (sy_backdrop s) | None => sy_backdrop s end in
      (None, mkStyles b z)
  end.

Definition _ocEnterFullscreen (chain : list ancestor) (ps : option patch * styles) : option patch * styles :=
  let '(_, s) := _ocExitFullscreen ps in
  let '(p, s1) := fold_left patch_ancestor chain (mkPatch None None, s) in
  let z := match pa_zindex p with
           | Some (i, _) => set_style i "999999" (sy_zindex s1) | None => sy_zindex s1 end in
  (Some p, mkStyles (sy_backdrop s1) z).

(** ** The hotkeys *)

(** The state the handlers share: the editors in document order, the globals
    [_ocCurrentZoom], [_ocFullscreenActive], [_ocMergeShowDifferences],
    [_ocFullscreenPatch], the inline styles, [ConfigEditor.isFullscreen] when
    there is a [ConfigEditor], and the class [oc-diff-hidden] of the merge
    view. *)
Record desk : Type := mkDesk {
  dk_editors : list editor;
  dk_zoom : Z;
  dk_full : bool;
  dk_diff : bool;
  dk_patch : option patch * styles;
  dk_config_full : option bool;
  dk_diff_hidden : bool;
}.

(** A key or wheel event with what its handler looks up: the active editor
    instance, the focused editor, the target of the fullscreen toggle with its
    ancestors, whether there is a merge view to reconfigure. *)
Inductive hotkey : Type :=
  | KeyZoomIn (inst : option instance)
  | KeyZoomOut (inst : option instance)
  | KeyZoomReset (inst : option instance)
  | KeyF11 (target : option (nat * list ancestor))
  | KeyF10 (merge : bool)
  | KeyEscape
  | Wheel (up in_overlay : bool) (inst : option instance).

Definition zoom_to (inst : option instance) (z : Z) (d : desk) : desk :=
  match inst with
  | None => d
  | Some _ =>
      let '(es, zoom) := ocApplyZoom inst None z (dk_editors d) (dk_zoom d) in
      mkDesk es zoom (dk_full d) (dk_diff d) (dk_patch d) (dk_config_full d) (dk_diff_hidden d)
  end.

(** [getElementById('oc-fullscreen-active')]: the first element with the id. *)
Fixpoint find_active (i : nat) (es : list editor) : option nat :=
  match es with
  | [] => None
  | e :: rest => if ed_active_id e then Some i else find_active (S i) rest
  end.

Definition leave_fullscreen (d : desk) : desk :=
  let es := match find_active 0 (dk_editors d) with
            | Some i => list_update (λ e, fst (toggleFullscreen e)) i (dk_editors d)
            | None => dk_editors d
            end in
  mkDesk es (dk_zoom d) false (dk_diff d) (_ocExitFullscreen (dk_patch d))
    ((λ _, false) <$> dk_config_full d) (dk_diff_hidden d).

Definition enter_fullscreen (i : nat) (chain : list ancestor) (d : desk) : desk :=
  match dk_editors d !! i with
  | None => d
  | Some e =>
      let '(e', on) := toggleFullscreen e in
      mkDesk (<[i := e']> (dk_editors d)) (dk_zoom d) on (dk_diff d)
        (_ocEnterFullscreen chain (dk_patch d)) ((λ _, on) <$> dk_config_full d) (dk_diff_hidden d)
  end.

Definition on_hotkey (d : desk) (k : hotkey) : desk :=
  match k with
  | KeyZoomIn inst => zoom_to inst (ocZoomIn None (dk_zoom d)) d
  | KeyZoomOut inst => zoom_to inst (ocZoomOut None (dk_zoom d)) d
  | KeyZoomReset inst => zoom_to inst ocResetZoom d
  | KeyF11 target =>
      if dk_full d then leave_fullscreen d
      else match target with
           | Some (i, chain) => enter_fullscreen i chain d
           | None => d
           end
  | KeyF10 merge =>
      if merge then
        mkDesk (dk_editors d) (dk_zoom d) (dk_full d) (negb (dk_diff d)) (dk_patch d)
          (dk_config_full d) (dk_diff d)
      else d
  | KeyEscape => if dk_full d then leave_fullscreen d else d
  | Wheel up in_overlay inst =>
      if in_overlay then d
      else zoom_to inst (if up then ocZoomIn None (dk_zoom d) else ocZoomOut None (dk_zoom d)) d
  end.

Definition fresh_desk (n : nat) (s : styles) (config : option bool) : desk :=
  mkDesk (replicate n plain_editor) 100 false true (None, s) config false.

Definition hotkeys (d : desk) (ks : list hotkey) : desk := fold_left on_hotkey ks d.

(** ** Loading overlay *)

(** A container: its inline position and minimum height, the overlays in it,
    and the handle [_ocLoadingMap] keeps for it. *)
Record overlay_handle : Type := mkHandle {
  oh_el : nat;
  oh_position : string;
  oh_minHeight : string;
}.

Record container : Type := mkContainer {
  ct_position : string;
  ct_minHeight : string;
  ct_overlays : list nat;
  ct_handle : option overlay_handle;
}.

(** [el] is the new overlay element. *)
Definition ocShowLoading (el : nat) (minHeight : option string) (c : container) : container :=
  mkContainer "relative"
    (match minHeight with Some h => if str_truthy h then h else ct_minHeight c | None => ct_minHeight c end)
    (ct_overlays c ++ [el]) (Some (mkHandle el (ct_position c) (ct_minHeight c))).

Definition ocHideLoading (c : container) : container :=
  match ct_handle c with
  | None => c
  | Some h =>
      mkContainer (oh_position h) (oh_minHeight h)
        (List.filter (λ e, negb (Nat.eqb e (oh_el h))) (ct_overlays c)) None
  end.

(** ** Busy buttons *)

(** A button's [svg] child (its markup and [width] attribute) or the spinner
    in its place (its size), the markup saved in [dataset], [disabled]. *)
Inductive face : Type :=
  | FaceNone
  | FaceSvg (html : string) (width : option string)
  | FaceSpinner (size : num).

Record button : Type := mkButton {
  bn_face : face;
  bn_saved : option (string * option string);
  bn_disabled : bool;
}.

Definition spinner_size (width : option string) : num :=
  let w := parseInt_opt width 10 in
  if negb (is_NaN w) && num_ltb (Fin 0) w then w else Fin 14.

Definition ocSetBtnLoading (loading : bool) (b : button) : button :=
  if loading then
    match bn_face b, bn_saved b with
    | FaceSvg html w, None => mkButton (FaceSpinner (spinner_size w)) (Some (html, w)) true
    | _, _ => mkButton (bn_face b) (bn_saved b) true
    end
  else
    match bn_saved b with
    | Some (html, w) =>
        mkButton (match bn_face b with FaceSpinner _ => FaceSvg html w | f => f end) None false
    | None => mkButton (bn_face b) None false
    end.

(** ** Facts: the fullscreen patches *)

Definition same_styles (s t : styles) : Prop :=
  (∀ i, sy_backdrop s i = sy_backdrop t i) ∧ (∀ i, sy_zindex s i = sy_zindex t i).

#[export] Instance same_styles_equiv : Equivalence same_styles.
Proof.
  split.
  - by intros s.
  - intros s t [H1 H2]. by split.
  - intros s t u [H1 H2] [H3 H4]. split; intros i; [by rewrite H1|by rewrite H2].
Qed.

Lemma set_style_old i v f j : set_style i (f i) (set_style i v f) j = f j.
Proof. unfold set_style. destruct (Nat.eqb_spec j i) as [->|]; done. Qed.

(** What the walk has done so far can be undone. *)
Definition undoable (s : styles) (ps : patch * styles) : Prop :=
  (∀ j, match pa_backdrop (fst ps) with
        | Some (i, old) => set_style i old (sy_backdrop (snd ps)) j
        | None => sy_backdrop (snd ps) j
        end = sy_backdrop s j) ∧
  (∀ j, sy_zindex (snd ps) j = sy_zindex s j) ∧
  (∀ i old, pa_zindex (fst ps) = Some (i, old) → old = sy_zindex s i).

Lemma patch_ancestor_undoable s ps a : undoable s ps → undoable s (patch_ancestor ps a).
Proof.
  destruct ps as [p s1]. intros (Hb & Hz & Ho). unfold patch_ancestor.
  set (q := match pa_backdrop p with None => _ | Some _ => _ end).
  assert (undoable s q) as (Hb' & Hz' & Ho').
  { unfold q. cbn [fst snd] in Hb. destruct (pa_backdrop p) as [[i old]|] eqn:E.
    - split; [cbn; by rewrite E|done].
    - destruct (_ && _); [|split; [cbn; by rewrite E|done]].
      split; [|done]. intros j. cbn. rewrite <- Hb. apply set_style_old. }
  destruct q as [p1 s2]. destruct (positioned a); [|done].
  split; [done|]. split; [done|]. cbn in *. intros i old [= <- <-]. by rewrite <- Hz'.
Qed.

Lemma walk_undoable s chain ps : undoable s ps → undoable s (fold_left patch_ancestor chain ps).
Proof.
  revert ps. induction chain as [|a chain IH]; intros ps H; [done|]. apply IH. by apply patch_ancestor_undoable.
Qed.

Lemma set_style_twice i v w f j : set_style i v (set_style i w f) j = set_style i v f j.
Proof. unfold set_style. by destruct (Nat.eqb j i). Qed.

Lemma set_style_same i v f j : v = f i → set_style i v f j = f j.
Proof. intros ->. unfold set_style. destruct (Nat.eqb_spec j i) as [->|]; done. Qed.

(** Leaving the fullscreen mode undoes entering it. *)
Lemma exit_enter chain ps :
  same_styles (snd (_ocExitFullscreen (_ocEnterFullscreen chain ps))) (snd (_ocExitFullscreen ps)).
Proof.
  unfold _ocEnterFullscreen. destruct (_ocExitFullscreen ps) as [p0 s].
  pose proof (walk_undoable s chain (mkPatch None None, s)) as H.
  destruct (fold_left patch_ancestor chain (mkPatch None None, s)) as [p s1].
  destruct H as (Hb & Hz & Ho); [by split_and!|]. cbn in *. split; intros j; cbn.
  - destruct (pa_backdrop p) as [[i old]|]; apply Hb.
  - destruct (pa_zindex p) as [[i old]|] eqn:E; [|apply Hz].
    rewrite set_style_twice, set_style_same; [apply Hz|]. by rewrite Hz, (Ho i old).
Qed.

Lemma exit_idem ps : _ocExitFullscreen (_ocExitFullscreen ps) = _ocExitFullscreen ps.
Proof. destruct ps as [[p|] s]; done. Qed.

(** ** Facts: the hotkeys *)

Definition editor_ok (e : editor) : Prop :=
  ed_active_id e = ed_full e ∧
  (ed_zooms e = [] ∨ ∃ z, ed_zooms e = [z] ∧ z ∈ _ocZoomLevels ∧ z ≠ 100).

(** The state between two events: the zoom level is one of the levels, an
    editor bears at most one zoom class, at most one editor is fullscreen, the
    flags say whether one is, and leaving the mode gives the styles [s]. *)
Record desk_ok (s : styles) (d : desk) : Prop := mkDeskOk {
  do_zoom : dk_zoom d ∈ _ocZoomLevels;
  do_editors : Forall editor_ok (dk_editors d);
  do_one : ∀ i j, map ed_full (dk_editors d) !! i = Some true →
             map ed_full (dk_editors d) !! j = Some true → i = j;
  do_full : dk_full d = existsb id (map ed_full (dk_editors d));
  do_config : ∀ b, dk_config_full d = Some b → b = dk_full d;
  do_styles : same_styles (snd (_ocExitFullscreen (dk_patch d))) s;
  do_patch : dk_full d = false → fst (dk_patch d) = None;
  do_diff : dk_diff_hidden d = negb (dk_diff d);
}.

Lemma zoom_steps c : c ∈ _ocZoomLevels → ocZoomIn None c ∈ _ocZoomLevels ∧ ocZoomOut None c ∈ _ocZoomLevels.
Proof.
  intros H. rewrite !list_elem_of_In in *. cbn in H.
  destruct H as [<-|[<-|[<-|[<-|[<-|[<-|[<-|[]]]]]]]]; vm_compute; tauto.
Qed.

Lemma zoom_class_ok z e :
  z ∈ _ocZoomLevels → editor_ok e → editor_ok (zoom_class z e) ∧ ed_full (zoom_class z e) = ed_full e.
Proof.
  intros Hz [Hid Hc]. split; [|done]. split; [done|]. cbn [zoom_class ed_zooms].
  assert (List.filter (λ c, negb (existsb (Z.eqb c) _ocZoomLevels)) (ed_zooms e) = []) as ->.
  { destruct Hc as [->|(c & -> & Hl & _)]; [done|]. cbn [List.filter].
    replace (existsb (Z.eqb c) _ocZoomLevels) with true; [done|]. symmetry. apply existsb_exists.
    exists c. rewrite <- list_elem_of_In. split; [done|apply Z.eqb_refl]. }
  cbn [existsb]. rewrite orb_false_r. destruct (Z.eqb_spec z 100); [by left|]. right. by exists z.
Qed.

Lemma update_zoom z i es :
  z ∈ _ocZoomLevels → Forall editor_ok es →
  Forall editor_ok (list_update (zoom_class z) i es) ∧
  map ed_full (list_update (zoom_class z) i es) = map ed_full es.
Proof.
  intros Hz. revert i. induction es as [|e es IH]; intros i H; [by destruct i|].
  apply Forall_cons in H as [He Hes]. pose proof (zoom_class_ok z e Hz He) as [Hok Hf]. destruct i as [|i].
  - split; [by constructor|]. done.
  - destruct (IH i Hes) as [H1 H2]. split; [by constructor|]. cbn. by f_equal.
Qed.

Lemma updates_zoom z doms es :
  z ∈ _ocZoomLevels → Forall editor_ok es →
  let es' := fold_left (λ es i, list_update (zoom_class z) i es) doms es in
  Forall editor_ok es' ∧ map ed_full es' = map ed_full es.
Proof.
  intros Hz. revert es. induction doms as [|i doms IH]; intros es H; [done|]. cbn.
  destruct (update_zoom z i es Hz H) as [H1 H2]. destruct (IH _ H1) as [H3 H4]. split; [done|].
  by rewrite H4.
Qed.

Lemma zoom_to_ok s inst z d : z ∈ _ocZoomLevels → desk_ok s d → desk_ok s (zoom_to inst z d).
Proof.
  intros Hz Hd. destruct inst as [inst|]; [|done]. unfold zoom_to, ocApplyZoom.
  destruct (zoom_doms (Some inst) None) as [|i doms] eqn:E; [by destruct Hd|].
  destruct (updates_zoom z (i :: doms) (dk_editors d) Hz (do_editors s d Hd)) as [H1 H2].
  destruct Hd. constructor; cbn [dk_editors dk_zoom dk_full dk_diff dk_patch dk_config_full dk_diff_hidden];
    rewrite ?H2; done.
Qed.

Lemma find_active_spec k es :
  Forall editor_ok es →
  match find_active k es with
  | Some i => ∃ j e, i = (k + j)%nat ∧ es !! j = Some e ∧ ed_full e = true
  | None => existsb id (map ed_full es) = false
  end.
Proof.
  revert k. induction es as [|e es IH]; intros k H; [done|].
  apply Forall_cons in H as [[He _] Hes]. cbn [find_active]. rewrite He.
  destruct (ed_full e) eqn:Ef; [exists 0%nat, e; by rewrite Nat.add_0_r|].
  specialize (IH (S k) Hes). destruct (find_active (S k) es) as [i|].
  - destruct IH as (j & f & -> & Hj & Hf). exists (S j), f. split; [lia|done].
  - cbn. by rewrite Ef.
Qed.

Lemma no_full es : existsb id (map ed_full es) = false ↔ ∀ i, map ed_full es !! i ≠ Some true.
Proof.
  split.
  - intros H i Hi. apply not_true_iff_false in H. apply H. apply existsb_exists. exists true.
    split; [|done]. rewrite <- list_elem_of_In. by apply list_elem_of_lookup_2 in Hi.
  - intros H. apply not_true_iff_false. intros (x & Hx & Ht)%existsb_exists. unfold id in Ht. subst x.
    rewrite <- list_elem_of_In in Hx. apply list_elem_of_lookup in Hx as [i Hi]. by apply (H i).
Qed.

Lemma toggle_ok e : editor_ok e → editor_ok (fst (toggleFullscreen e)).
Proof. intros [Hid Hc]. unfold toggleFullscreen. by destruct (ed_full e). Qed.

Lemma leave_ok s d : desk_ok s d → dk_full d = true → desk_ok s (leave_fullscreen d).
Proof.
  intros Hd Hf. destruct Hd as [H1 H2 H3 H4 H5 H6 H7 H8]. unfold leave_fullscreen.
  pose proof (find_active_spec 0 (dk_editors d) H2) as Ha.
  destruct (find_active 0 (dk_editors d)) as [i|]; [|congruence].
  destruct Ha as (j & e & -> & Hj & He). cbn [Nat.add].
  constructor; cbn [dk_editors dk_zoom dk_full dk_diff dk_patch dk_config_full dk_diff_hidden]; try done.
  - apply Forall_alter; [done|]. intros x Hx Hok. by apply toggle_ok.
  - intros a b Ha Hb. assert (∀ c, map ed_full (alter (λ e0, fst (toggleFullscreen e0)) j (dk_editors d)) !! c ≠ Some true)
      as Hn; [|by apply Hn in Ha].
    intros c Hc. rewrite list_lookup_fmap in Hc. destruct (decide (c = j)) as [->|Hne].
    + rewrite list_lookup_alter_eq, Hj in Hc. cbn in Hc. unfold toggleFullscreen in Hc. by rewrite He in Hc.
    + rewrite list_lookup_alter_ne in Hc by done.
      apply Hne, (H3 c j); rewrite list_lookup_fmap; [done|]. rewrite Hj. cbn. by rewrite He.
  - symmetry. apply no_full. intros c Hc. rewrite list_lookup_fmap in Hc. destruct (decide (c = j)) as [->|Hne].
    + unfold list_update in Hc. rewrite list_lookup_alter_eq, Hj in Hc. cbn in Hc.
      unfold toggleFullscreen in Hc. by rewrite He in Hc.
    + unfold list_update in Hc. rewrite list_lookup_alter_ne in Hc by done.
      apply Hne, (H3 c j); rewrite list_lookup_fmap; [done|]. rewrite Hj. cbn. by rewrite He.
  - intros b. destruct (dk_config_full d); [by intros [= <-]|done].
  - by rewrite exit_idem.
  - intros _. by destruct (dk_patch d) as [[p|] st].
Qed.

Lemma enter_ok s i chain d : desk_ok s d → dk_full d = false → desk_ok s (enter_fullscreen i chain d).
Proof.
  intros Hd Hf. unfold enter_fullscreen. destruct (dk_editors d !! i) as [e|] eqn:Ei; [|done].
  destruct Hd as [H1 H2 H3 H4 H5 H6 H7 H8]. rewrite Hf in H4. symmetry in H4.
  pose proof (proj1 (no_full _) H4) as Hn.
  assert (ed_full e = false) as He.
  { apply not_true_iff_false. intros He. apply (Hn i). rewrite list_lookup_fmap, Ei. cbn. by rewrite He. }
  pose proof (toggle_ok e (Forall_lookup_1 _ _ _ _ H2 Ei)) as Hok.
  unfold toggleFullscreen in *. rewrite He in *. cbn [fst] in Hok.
  assert (map ed_full (<[i:=mkEditor (ed_zooms e) true true]> (dk_editors d)) =
          <[i:=true]> (map ed_full (dk_editors d))) as Hm by (by rewrite list_fmap_insert).
  assert (i < length (map ed_full (dk_editors d)))%nat as Hlt
    by (rewrite length_map; by apply lookup_lt_Some in Ei).
  constructor; cbn [dk_editors dk_zoom dk_full dk_diff dk_patch dk_config_full dk_diff_hidden]; try done.
  - by apply Forall_insert.
  - assert (∀ c, <[i:=true]> (map ed_full (dk_editors d)) !! c = Some true → c = i) as Hu.
    { intros c Hc. destruct (decide (c = i)) as [|Hne]; [done|].
      rewrite list_lookup_insert_ne in Hc by done. by apply Hn in Hc. }
    rewrite Hm. intros a b Ha%Hu Hb%Hu. by subst.
  - rewrite Hm. symmetry. apply existsb_exists. exists true. split; [|done].
    rewrite <- list_elem_of_In. apply list_elem_of_lookup. exists i. by apply list_lookup_insert_eq.
  - intros b. destruct (dk_config_full d); [by intros [= <-]|done].
  - etransitivity; [apply exit_enter|done].
Qed.

Lemma on_hotkey_ok s d k : desk_ok s d → desk_ok s (on_hotkey d k).
Proof.
  intros Hd. pose proof (zoom_steps _ (do_zoom s d Hd)) as [Hin Hout].
  destruct k as [inst|inst|inst|[[i chain]|]|merge| |up ov inst]; cbn [on_hotkey].
  1-3: apply zoom_to_ok; try done; vm_compute; repeat constructor.
  - destruct (dk_full d) eqn:E; [by apply leave_ok|by apply enter_ok].
  - destruct (dk_full d) eqn:E; [by apply leave_ok|done].
  - destruct merge; [|done]. destruct Hd. constructor; try done. cbn. by destruct (dk_diff d).
  - destruct (dk_full d) eqn:E; [by apply leave_ok|done].
  - destruct ov; [done|]. by destruct up; apply zoom_to_ok.
Qed.

Lemma fresh_desk_ok n s config : config ≠ Some true → desk_ok s (fresh_desk n s config).
Proof.
  intros Hc.
  assert (∀ i, map ed_full (replicate n plain_editor) !! i ≠ Some true) as Hn.
  { intros i Hi. rewrite list_lookup_fmap in Hi.
    destruct (replicate n plain_editor !! i) eqn:E; [|done]. by apply lookup_replicate in E as [-> _]. }
  constructor; cbn [fresh_desk dk_editors dk_zoom dk_full dk_diff dk_patch dk_config_full dk_diff_hidden]; try done.
  - vm_compute. repeat constructor.
  - apply Forall_replicate. split; [done|by left].
  - intros i j Hi. by apply Hn in Hi.
  - symmetry. by apply no_full.
  - intros [|] ->; done.
Qed.

(** C17: whatever keys are pressed and wheel turns made, in any order, from the
    page as it loads: the zoom level is one of the seven levels, an editor
    bears no zoom class or the one class of a level other than 100, at most
    one editor is fullscreen and the flags of the page and of the
    configuration editor say whether one is, the difference markers follow
    their flag, and leaving the fullscreen mode restores the inline styles the
    ancestors of the editors had at the start. *)
Theorem hotkeys_coherent n s config ks :
  config ≠ Some true → desk_ok s (hotkeys (fresh_desk n s config) ks).
Proof.
  intros Hc. unfold hotkeys. generalize (fresh_desk_ok n s config Hc).
  generalize (fresh_desk n s config). induction ks as [|k ks IH]; intros d Hd; [done|].
  apply IH. by apply on_hotkey_ok.
Qed.

Lemma hotkeys_coherent_witness :
  let s := mkStyles (λ _, "") (λ _, "") in
  let a := mkAncestor 0 "blur(2px)" "relative" "3" in
  let ks := [KeyZoomIn (Some (View 1)); KeyF11 (Some (1%nat, [a]))] in
  (Some false : option bool) ≠ Some true ∧
  dk_full (hotkeys (fresh_desk 2 s (Some false)) ks) = true ∧
  dk_zoom (hotkeys (fresh_desk 2 s (Some false)) ks) = 110 ∧
  sy_backdrop (snd (dk_patch (hotkeys (fresh_desk 2 s (Some false)) ks))) 0%nat = "none" ∧
  desk_ok s (hotkeys (fresh_desk 2 s (Some false)) ks).
Proof.
  cbv zeta. split; [discriminate|]. split; [vm_compute; reflexivity|]. split; [vm_compute; reflexivity|].
  split; [vm_compute; reflexivity|]. apply hotkeys_coherent. discriminate.
Defined.

(** ** Facts: overlay and buttons *)

Lemma filter_fresh el l :
  el ∉ l → List.filter (λ e, negb (Nat.eqb e el)) (l ++ [el]) = l.
Proof.
  intros H. induction l as [|x l IH]; cbn; [by rewrite Nat.eqb_refl|].
  apply not_elem_of_cons in H as [Hx Hl]. destruct (Nat.eqb_spec x el); [congruence|]. cbn. by rewrite IH.
Qed.

(** A container with an overlay of its own is as before once it is hidden. *)
Lemma hide_show el h c :
  ct_handle c = None → el ∉ ct_overlays c → ocHideLoading (ocShowLoading el h c) = c.
Proof.
  intros Hh He. destruct c as [p m o han]. cbn in *. subst han. unfold ocHideLoading. cbn.
  by rewrite filter_fresh.
Qed.

(** The handle of a second overlay replaces the one of the first: hiding then
    removes the second alone and leaves the container positioned. *)
Lemma show_twice_leaks e1 e2 h1 h2 c :
  e1 ≠ e2 → e2 ∉ ct_overlays c →
  let c' := ocHideLoading (ocShowLoading e2 h2 (ocShowLoading e1 h1 c)) in
  ct_overlays c' = ct_overlays c ++ [e1] ∧ ct_position c' = "relative" ∧ ocHideLoading c' = c'.
Proof.
  intros Hne H2. cbn. split_and!; try done. apply filter_fresh.
  rewrite not_elem_of_app, list_elem_of_singleton. by split.
Qed.

(** The states a button whose icon is [f] goes through. *)
Definition button_ok (f : face) (b : button) : Prop :=
  match bn_saved b with
  | None => bn_face b = f
  | Some (html, w) => f = FaceSvg html w ∧ bn_face b = FaceSpinner (spinner_size w) ∧ bn_disabled b = true
  end.

Lemma set_btn_ok f l b : button_ok f b → button_ok f (ocSetBtnLoading l b).
Proof.
  destruct b as [bf sv dis]. unfold button_ok, ocSetBtnLoading. cbn.
  destruct l, sv as [[html w]|], bf; cbn; intros H;
    try (destruct H as (Hf & Hs & Hd); try discriminate Hs); subst; try done.
Qed.

(** After any sequence of busy and idle marks on a button with an icon (or
    none), the button is disabled exactly when the last mark was busy, and an
    idle mark shows the icon it had at first, with no markup left saved. *)
Theorem button_restored f marks last :
  (∀ size, f ≠ FaceSpinner size) →
  let b := fold_left (λ b l, ocSetBtnLoading l b) (marks ++ [last]) (mkButton f None false) in
  bn_disabled b = last ∧ (last = false → b = mkButton f None false) ∧
  (last = true → ∀ html w, f = FaceSvg html w →
     bn_face b = FaceSpinner (spinner_size w) ∧ bn_saved b = Some (html, w)).
Proof.
  intros Hf. rewrite fold_left_app. cbv zeta. cbn [fold_left].
  assert (button_ok f (fold_left (λ b l, ocSetBtnLoading l b) marks (mkButton f None false))) as H.
  { assert (button_ok f (mkButton f None false)) as H by done. revert H.
    generalize (mkButton f None false). induction marks as [|m marks IH]; intros b H; [done|].
    apply IH. by apply set_btn_ok. }
  destruct (fold_left _ _ _) as [bf sv dis]. unfold button_ok in H. cbn in H.
  destruct sv as [[html w]|]; [destruct H as (-> & -> & ->)|subst bf]; destruct last; cbn.
  - split_and!; try done. by intros _ h v [= <- <-].
  - done.
  - destruct f as [|h v|size]; cbn; split_and!; try done; intros _ h' v' [= <- <-]; done.
  - done.
Qed.

Lemma button_restored_witness :
  (∀ size, FaceSvg "<svg/>" (Some "16") ≠ FaceSpinner size) ∧
  bn_face (fold_left (λ b l, ocSetBtnLoading l b) ([true] ++ [true])
             (mkButton (FaceSvg "<svg/>" (Some "16")) None false)) = FaceSpinner (Fin 16).
Proof.
  split; [intros size; discriminate|].
  destruct (button_restored (FaceSvg "<svg/>" (Some "16")) [true] true) as (_ & _ & H);
    [intros size; discriminate|].
  exact (proj1 (H eq_refl "<svg/>" (Some "16") eq_refl)).
Defined.
