(* ===== verification/OcBackend.v ===== *)
(** [luci-static/resources/openclash/js/subconverter-version.js] of the
    OpenClash front end: the version of the subscription converter the user
    chose.  The addresses to ask, the reading of what a server answers, the
    chain of requests, and the page as a machine over the user's edits, the
    timer and the replies. *)
From stdpp Require Import base list strings gmap.
From Stdlib Require Import ZArith Lia Ascii Bool.
From S2P Require Import Prelude JsString JsRegExp OcText.

(** ** The version text *)

(** [s.replace(/\s+/g, ' ')] *)
Fixpoint collapse_ws (in_run : bool) (s : string) : string :=
  match s with
  | EmptyString => EmptyString
  | String c r =>
      if is_ws c then
        if in_run then collapse_ws true r else String " " (collapse_ws true r)
      else String c (collapse_ws false r)
  end.

Definition in_range (lo hi : nat) (c : ascii) : bool :=
  Nat.leb lo (nat_of_ascii c) && Nat.leb (nat_of_ascii c) hi.

Definition is_letter (c : ascii) : bool := in_range 97 122 (ascii_lower c).

(** [/<\s*\/?\s*[a-z!][^>]*>/i] *)
Definition tag_re : re :=
  RCat (RText "<") (RCat (RStar (RChar is_ws)) (RCat (ROpt (RText "/")) (RCat (RStar (RChar is_ws))
    (RCat (RChar (λ c, is_letter c || Ascii.eqb c "!"))
      (RCat (RStar (RChar (λ c, negb (Ascii.eqb c ">")))) (RText ">")))))).

(** [/(subconverter|backend|\bversion\b|v?\d+(?:\.\d+){1,})/i] *)
Definition version_re : re :=
  RAlt (RText_i "subconverter") (RAlt (RText_i "backend")
    (RAlt (RCat RBound (RCat (RText_i "version") RBound))
      (RCat (ROpt (RText_i "v")) (RCat (RPlus (RChar is_digit))
        (RPlus (RCat (RText ".") (RPlus (RChar is_digit)))))))).

Definition sanitizeVersionText (text : string) : string :=
  let joined := str_join " " (List.filter str_truthy (map str_trim (str_split lf (replace_char "013" lf text)))) in
  let text := str_trim (collapse_ws false joined) in
  if negb (str_truthy text) then ""
  else if re_test tag_re text then ""
  else if 220 <? str_len text then ""
  else if negb (re_test version_re text) then ""
  else text.

(** ** The addresses *)

(** The browser's [URL]: the parts of an address the code reads, [None] for a
    text that is no address ([new URL] throws). *)
Record url_parts : Type := mkUrl {
  u_protocol : string;
  u_origin : string;
  u_pathname : string;
}.

Class UrlApi : Type := { url_parse : string → option url_parts }.

(** An instance for addresses [scheme://host/path]. *)
Definition plain_url : UrlApi := {|
  url_parse value :=
    match str_split "://" value with
    | [scheme; rest] =>
        let i := str_index_of rest "/" in
        let host := if i =? -1 then rest else str_upto i rest in
        if str_truthy host then
          Some (mkUrl (scheme +:+ ":") (scheme +:+ "://" +:+ host)
                  (if i =? -1 then "/" else str_from i rest))
        else None
    | _ => None
    end
|}.

(** [/^[a-z][a-z0-9+\-.]*:\/\//i] *)
Definition scheme_re : re :=
  RCat (RChar is_letter)
    (RCat (RStar (RChar (λ c, is_letter c || is_digit c || existsb (Ascii.eqb c) ["+"; "-"; "."]%char)))
      (RText "://")).

(** [s.replace(/\/+$/, '')] *)
Fixpoint strip_slashes (s : string) : string :=
  match s with
  | EmptyString => EmptyString
  | String c r =>
      match strip_slashes r with
      | EmptyString => if Ascii.eqb c "/" then EmptyString else String c EmptyString
      | t => String c t
      end
  end.

(** [s.replace(/\/sub$/i, '')] *)
Fixpoint strip_sub (s : string) : string :=
  if String.eqb (str_lower s) "/sub" then ""
  else match s with
       | EmptyString => EmptyString
       | String c r => String c (strip_sub r)
       end.

Definition addUniqueURL (urls : list string) (value : string) : list string :=
  if existsb (String.eqb value) urls then urls else urls ++ [value].

Definition buildVersionURLs (url : url_parts) : list string :=
  let path := strip_slashes (u_pathname url) in
  let versionURLs :=
    if str_truthy path && negb (String.eqb path "/") then
      let pathBase := strip_sub path in
      if str_truthy pathBase then addUniqueURL [] (u_origin url +:+ pathBase +:+ "/version") else []
    else [] in
  addUniqueURL versionURLs (u_origin url +:+ "/version").

Inductive normalized : Type :=
  | NormEmpty
  | NormInvalid
  | NormURLs (versionURLs : list string).

Definition normalizeBackendURL `{UrlApi} (value : string) : normalized :=
  let value := str_trim value in
  if negb (str_truthy value) then NormEmpty
  else
    let value := if match_here None value scheme_re then value else "https://" +:+ value in
    match url_parse value with
    | None => NormInvalid
    | Some url =>
        if negb (String.eqb (u_protocol url) "http:") && negb (String.eqb (u_protocol url) "https:")
        then NormInvalid else NormURLs (buildVersionURLs url)
    end.

(** ** The requests *)

(** What [fetch] gives: a rejection (network, time limit, abort, failed read)
    or a response with its text and, for the proxy, its JSON object; [None]
    is a body without one. *)
Record proxy_data : Type := mkProxyData {
  px_status : string;
  px_version : string;
}.

Inductive reply : Type :=
  | NetFail
  | HttpReply (status : Z) (text : string) (json : option proxy_data).

Inductive backend_request : Type :=
  | Direct (versionURL : string)
  | Proxied (url : string).

Inductive vresult : Type :=
  | Success (text : string)
  | Unrecognized
  | Aborted.

(** A chain of requests: the next request and what its reply leads to, given
    whether the abort signal is set by then; or the settled promise. *)
Inductive exchange : Type :=
  | Done (r : res vresult)
  | Fetch (req : backend_request) (k : reply → bool → exchange).

Definition response_ok (status : Z) : bool := (200 <=? status) && (status <=? 299).

Definition direct_version (r : reply) : res vresult :=
  match r with
  | NetFail => Throw "TypeError"
  | HttpReply status text _ =>
      if response_ok status then
        let version := sanitizeVersionText text in
        Ok (if str_truthy version then Success version else Unrecognized)
      else Throw "Error"
  end.

Definition proxied_version (r : reply) : res vresult :=
  match r with
  | NetFail => Throw "TypeError"
  | HttpReply status _ json =>
      if response_ok status then
        match json with
        | None => Throw "Error"
        | Some data =>
            let version := sanitizeVersionText (px_version data) in
            if String.eqb (px_status data) "success" && str_truthy version then Ok (Success version)
            else if String.eqb (px_status data) "unrecognized" then Ok Unrecognized
            else Throw "Error"
        end
      else Throw "Error"
  end.

(** The [catch] of both: an abort is a result, another error is rethrown. *)
Definition or_aborted (aborted : bool) (o : res vresult) : res vresult :=
  match o with
  | Throw e => if aborted then Ok Aborted else Throw e
  | Ok v => Ok v
  end.

Definition fetchDirectVersion (versionURL : string) (k : res vresult → bool → exchange) : exchange :=
  Fetch (Direct versionURL) (λ r aborted, k (or_aborted aborted (direct_version r)) aborted).

Definition hex_digit (n : nat) : ascii := ascii_of_nat (if Nat.ltb n 10 then 48 + n else 55 + n).

Definition percent (n : nat) : string :=
  String "%" (String (hex_digit (n / 16)) (String (hex_digit (n mod 16)) "")).

(** [encodeURIComponent]: the octets of the UTF-8 form, the unreserved
    characters as they are. *)
Definition unreserved (c : ascii) : bool :=
  is_letter c || is_digit c
  || existsb (Ascii.eqb c) ["-"; "_"; "."; "!"; "~"; "*"; "'"; "("; ")"]%char.

Fixpoint encodeURIComponent (s : string) : string :=
  match s with
  | EmptyString => EmptyString
  | String c r =>
      let n := nat_of_ascii c in
      (if Nat.ltb n 128 then if unreserved c then String c "" else percent n
       else percent (192 + n / 64) +:+ percent (128 + n mod 64))
      +:+ encodeURIComponent r
  end.

Definition proxy_request (proxyURL versionURL : string) : string :=
  let separator := if str_index_of proxyURL "?" =? -1 then "?" else "&" in
  proxyURL +:+ separator +:+ "url=" +:+ encodeURIComponent versionURL.

Definition fetchProxiedVersion (versionURL proxyURL : string) (aborted : bool)
    (k : res vresult → bool → exchange) : exchange :=
  if negb (str_truthy proxyURL) then k (Throw "Error") aborted
  else Fetch (Proxied (proxy_request proxyURL versionURL))
         (λ r aborted, k (or_aborted aborted (proxied_version r)) aborted).

Definition fetchVersion (versionURL proxyURL : string) (k : res vresult → bool → exchange) : exchange :=
  fetchDirectVersion versionURL (λ o aborted,
    match o with
    | Ok v => k (Ok v) aborted
    | Throw e =>
        if aborted then k (Ok Aborted) aborted
        else if negb (str_truthy proxyURL) then k (Throw e) aborted
        else fetchProxiedVersion versionURL proxyURL aborted k
    end).

(** [next()] with the candidate it asks and those after it.  A rejection of
    the call made in [then] reaches the [catch] of the same round; since a
    result was seen by then, that call never rejects. *)
Fixpoint next (proxyURL url : string) (rest : list string) (sawUnrecognized aborted : bool) : exchange :=
  if aborted then Done (Ok Aborted)
  else
    fetchVersion url proxyURL (λ o aborted,
      match o with
      | Ok Unrecognized =>
          match rest with
          | url' :: rest' => next proxyURL url' rest' true aborted
          | [] => Done (Ok Unrecognized)
          end
      | Ok v => Done (Ok v)
      | Throw e =>
          if aborted then Done (Ok Aborted)
          else match rest with
               | url' :: rest' => next proxyURL url' rest' sawUnrecognized aborted
               | [] => Done (if sawUnrecognized then Ok Unrecognized else Throw e)
               end
      end).

Definition fetchVersionCandidates (versionURLs : list string) (proxyURL : string) : exchange :=
  match versionURLs with
  | url :: rest => next proxyURL url rest false false
  | [] => next proxyURL "undefined" [] false false
  end.

(** ** The page *)

(** A form field: a LuCI dropdown, which has a [value] or else a selected
    item with a [data-value] or a hidden input, or an element with a
    [value]. *)
Inductive field : Type :=
  | Dropdown (value selected hidden : option string)
  | Plain (value : option string).

Definition readElementValue (element : option field) : string :=
  match element with
  | None => ""
  | Some (Dropdown (Some v) _ _) => v
  | Some (Dropdown None (Some dv) _) => dv
  | Some (Dropdown None None hidden) => default "" hidden
  | Some (Plain v) => default "" v
  end.

Definition getSelectedBackend (selectEl customInputEl : option field) : string :=
  match selectEl with
  | None => ""
  | Some _ =>
      if String.eqb (readElementValue selectEl) "custom" then readElementValue customInputEl
      else readElementValue selectEl
  end.

(** The status element: its label child (text, shown) and its text child
    where there is one, and its own text. *)
Record status_el : Type := mkStatusEl {
  se_hidden : bool;
  se_state : string;
  se_label : option (string * bool);
  se_text : option string;
  se_own : string;
}.

Record version_labels : Type := mkLabels {
  lb_checking : string;
  lb_versionPrefix : string;
  lb_empty : string;
  lb_invalid : string;
  lb_unrecognized : string;
  lb_failed : string;
}.

Definition defaultLabels : version_labels :=
  mkLabels "Checking backend version..." "Backend Version" "Please enter backend URL"
    "Invalid backend URL" "Backend version information not detected" "Unable to detect backend version".

(** Without a text child the message replaces the element's children. *)
Definition renderStatus (state message : string) (labels : version_labels) (el : status_el) : status_el :=
  let showLabel := String.eqb state "success" in
  let label := (λ _, (if showLabel then lb_versionPrefix labels +:+ ":" else "", showLabel)) <$> se_label el in
  match se_text el with
  | Some _ => mkStatusEl false state label (Some message) (se_own el)
  | None => mkStatusEl false state None None message
  end.

Definition hideStatus (el : status_el) : status_el :=
  mkStatusEl true "idle" (se_label el) (se_text el) (se_own el).

Record cache_entry : Type := mkCacheEntry {
  ce_time : Z;
  ce_state : string;
  ce_message : string;
}.

(** A request chain under way: its number, its cache key, whether its
    controller has been aborted, and what is left of it. *)
Record pending : Type := mkPending {
  pd_id : nat;
  pd_key : string;
  pd_aborted : bool;
  pd_exchange : exchange;
}.

Record inputs : Type := mkInputs {
  in_select : option field;
  in_custom : option field;
  in_enable : option bool;
}.

Record page : Type := mkPage {
  pg_inputs : inputs;
  pg_status : status_el;
  pg_cache : gmap string cache_entry;
  pg_active : option nat;
  pg_requestId : nat;
  pg_pending : list pending;
  pg_timer : bool;
}.

(** [AbortController] is taken to exist, and both elements of [init] to be
    there: without them [init] does nothing. *)
Section Page.
Context `{UrlApi} (labels : version_labels) (proxyURL : string) (cacheMs : Z).

Definition enabled (i : inputs) : bool := default true (in_enable i).

Definition with_status (f : status_el → status_el) (p : page) : page :=
  mkPage (pg_inputs p) (f (pg_status p)) (pg_cache p) (pg_active p) (pg_requestId p)
    (pg_pending p) (pg_timer p).

(** [activeController.abort()] *)
Definition abort_active (p : page) : list pending :=
  match pg_active p with
  | None => pg_pending p
  | Some i =>
      map (λ q, if Nat.eqb (pd_id q) i then mkPending (pd_id q) (pd_key q) true (pd_exchange q) else q)
        (pg_pending p)
  end.

Definition cached_entry (now : Z) (key : string) (p : page) : option cache_entry :=
  match pg_cache p !! key with
  | Some c => if now - ce_time c <? cacheMs then Some c else None
  | None => None
  end.

Definition start_request (key : string) (versionURLs : list string) (p : page) : page :=
  let id := S (pg_requestId p) in
  mkPage (pg_inputs p) (renderStatus "checking" (lb_checking labels) labels (pg_status p)) (pg_cache p)
    (Some id) id
    (abort_active p ++ [mkPending id key false (fetchVersionCandidates versionURLs proxyURL)])
    (pg_timer p).

Definition run_check (now : Z) (p : page) : page :=
  let p := mkPage (pg_inputs p) (pg_status p) (pg_cache p) (pg_active p) (pg_requestId p)
             (pg_pending p) false in
  if negb (enabled (pg_inputs p)) then with_status hideStatus p
  else match normalizeBackendURL (getSelectedBackend (in_select (pg_inputs p)) (in_custom (pg_inputs p))) with
       | NormEmpty => with_status (renderStatus "empty" (lb_empty labels) labels) p
       | NormInvalid => with_status (renderStatus "error" (lb_invalid labels) labels) p
       | NormURLs versionURLs =>
           let key := str_join "|" versionURLs in
           match cached_entry now key p with
           | Some c => with_status (renderStatus (ce_state c) (ce_message c) labels) p
           | None => start_request key versionURLs p
           end
       end.

(** The handlers of the promise of a request, once it has settled. *)
Definition settle (now : Z) (id : nat) (key : string) (r : res vresult) (p : page) : page :=
  let show state message :=
    mkPage (pg_inputs p) (renderStatus state message labels (pg_status p))
      (<[key := mkCacheEntry now state message]> (pg_cache p)) (pg_active p) (pg_requestId p)
      (pg_pending p) (pg_timer p) in
  if negb (Nat.eqb id (pg_requestId p)) then p
  else match r with
       | Ok Aborted => p
       | Ok (Success text) => show "success" text
       | Ok Unrecognized => show "unrecognized" (lb_unrecognized labels)
       | Throw _ => with_status (renderStatus "error" (lb_failed labels) labels) p
       end.

Definition set_pending (l : list pending) (p : page) : page :=
  mkPage (pg_inputs p) (pg_status p) (pg_cache p) (pg_active p) (pg_requestId p) l (pg_timer p).

Definition find_pending (id : nat) (l : list pending) : option pending :=
  List.find (λ q, Nat.eqb (pd_id q) id) l.

Definition others (id : nat) (l : list pending) : list pending :=
  List.filter (λ q, negb (Nat.eqb (pd_id q) id)) l.

Definition replace_pending (q : pending) (l : list pending) : list pending :=
  map (λ q', if Nat.eqb (pd_id q') (pd_id q) then q else q') l.

(** The reply to the outstanding request of a chain, from the network
    [net]. *)
Definition receive (id : nat) (net : backend_request → reply) (now : Z) (p : page) : page :=
  match find_pending id (pg_pending p) with
  | None => p
  | Some q =>
      match pd_exchange q with
      | Done _ => p
      | Fetch req k =>
          match k (net req) (pd_aborted q) with
          | Done r => settle now id (pd_key q) r (set_pending (others id (pg_pending p)) p)
          | e => set_pending (replace_pending (mkPending id (pd_key q) (pd_aborted q) e) (pg_pending p)) p
          end
      end
  end.

(** A change event (the new inputs), an input or click event, the timer, a
    reply, and the handle's [hide]. *)
Inductive event : Type :=
  | EvChange (i : inputs) (now : Z)
  | EvInput (i : inputs)
  | EvTimer (now : Z)
  | EvReply (id : nat) (net : backend_request → reply) (now : Z)
  | EvHide.

Definition with_inputs (i : inputs) (timer : bool) (p : page) : page :=
  mkPage i (pg_status p) (pg_cache p) (pg_active p) (pg_requestId p) (pg_pending p) timer.

Definition on_event (p : page) (e : event) : page :=
  match e with
  | EvChange i now => run_check now (with_inputs i (pg_timer p) p)
  | EvInput i => with_inputs i true p
  | EvTimer now => if pg_timer p then run_check now p else p
  | EvReply id net now => receive id net now p
  | EvHide => with_status hideStatus (set_pending (abort_active p) p)
  end.

Definition on_events (p : page) (es : list event) : page := fold_left on_event es p.

(** [init]: the page's first check; the cache is the module's. *)
Definition init_page (cache : gmap string cache_entry) (i : inputs) (el : status_el) (now : Z) : page :=
  run_check now (mkPage i el cache None 0 [] false).
End Page.
