(* ===== verification/OcBackendFacts.v ===== *)
(** Facts about the version check of the subscription converter ([OcBackend]):
    the normal form of the version text, the result of a chain of requests,
    and what the page shows when replies and edits interleave. *)
From stdpp Require Import base list strings gmap.
From Stdlib Require Import ZArith Lia Ascii Bool.
From S2P Require Import Prelude JsString JsRegExp OcBackend.

(** ** The version text

    The words of a text: its maximal runs without white space. *)

Definition push_word (w : string) (ws : list string) : list string :=
  if str_truthy w then w :: ws else ws.

Fixpoint words_go (s : string) : string * list string :=
  match s with
  | EmptyString => ("", [])
  | String c r =>
      let '(w, ws) := words_go r in
      if is_ws c then ("", push_word w ws) else (String c w, ws)
  end.

Definition words (s : string) : list string := push_word (fst (words_go s)) (snd (words_go s)).

Lemma words_go_eta s : words_go s = (fst (words_go s), snd (words_go s)).
Proof. by destruct (words_go s). Qed.

Lemma words_go_ws c s : is_ws c = true → words_go (String c s) = ("", words s).
Proof. intros H. cbn [words_go]. rewrite (words_go_eta s), H. done. Qed.

Lemma words_go_char c s :
  is_ws c = false → words_go (String c s) = (String c (fst (words_go s)), snd (words_go s)).
Proof. intros H. cbn [words_go]. by rewrite (words_go_eta s), H. Qed.

Lemma words_ws c s : is_ws c = true → words (String c s) = words s.
Proof. intros H. unfold words at 1. by rewrite words_go_ws. Qed.

Lemma words_char c s :
  is_ws c = false → words (String c s) = String c (fst (words_go s)) :: snd (words_go s).
Proof. intros H. unfold words. by rewrite words_go_char. Qed.

Lemma words_go_app a c b :
  is_ws c = true →
  words_go (a +:+ String c b) = (fst (words_go a), snd (words_go a) ++ words b).
Proof.
  intros Hc. induction a as [|d a IH].
  - rewrite str_app_nil_l, words_go_ws by done. done.
  - rewrite str_app_cons. cbn [words_go]. rewrite IH, (words_go_eta a). cbn [fst snd].
    destruct (is_ws d); [|done]. unfold push_word. by destruct (str_truthy _).
Qed.

Lemma words_app a c b : is_ws c = true → words (a +:+ String c b) = words a ++ words b.
Proof.
  intros Hc. unfold words at 1 2. rewrite words_go_app by done. unfold push_word. cbn [fst snd].
  by destruct (str_truthy _).
Qed.

Lemma words_join c l : is_ws c = true → words (str_join (String c "") l) = concat (map words l).
Proof.
  intros Hc. induction l as [|s l IH]; [done|]. destruct l as [|t l].
  - cbn [str_join map concat]. by rewrite app_nil_r.
  - rewrite str_join_cons2, str_app_cons, str_app_nil_l, words_app by done. rewrite IH. done.
Qed.

Lemma words_trim_start s : words (trim_start s) = words s.
Proof.
  induction s as [|c s IH]; [done|]. cbn [trim_start]. destruct (is_ws c) eqn:E; [|done].
  by rewrite words_ws.
Qed.

Lemma words_go_trim_end s : words_go (trim_end s) = words_go s.
Proof.
  induction s as [|c s IH]; [done|]. cbn [trim_end]. destruct (trim_end s) as [|d t] eqn:E.
  - cbn [words_go] in *. rewrite <- IH. by destruct (is_ws c) eqn:Hc; cbn; rewrite ?Hc.
  - cbn [words_go] in *. by rewrite <- IH.
Qed.

Lemma words_trim s : words (str_trim s) = words s.
Proof. unfold str_trim, words at 1. by rewrite words_go_trim_end, <- words_trim_start. Qed.

Lemma words_go_replace c d s :
  is_ws c = true → is_ws d = true → words_go (replace_char c (String d "") s) = words_go s.
Proof.
  intros Hc Hd. induction s as [|x s IH]; [done|]. cbn [replace_char].
  destruct (Ascii.eqb_spec x c) as [->|Hx]; rewrite str_app_cons, str_app_nil_l; cbn [words_go];
    rewrite IH; [|done]. by rewrite Hc, Hd.
Qed.

Lemma words_filter l : concat (map words (List.filter str_truthy l)) = concat (map words l).
Proof.
  induction l as [|s l IH]; [done|]. cbn [List.filter]. destruct (str_truthy s) eqn:E; cbn; rewrite IH; [done|].
  by destruct s.
Qed.

Lemma words_map_trim l : concat (map words (map str_trim l)) = concat (map words l).
Proof. induction l as [|s l IH]; [done|]. cbn. by rewrite IH, words_trim. Qed.

(** Words joined by single blanks, from the second word on. *)
Definition spaced (ws : list string) : string := foldr (λ w t, String " " w +:+ t) "" ws.

Lemma join_spaced w ws : str_join " " (w :: ws) = w +:+ spaced ws.
Proof.
  revert w. induction ws as [|v ws IH]; intros w; [cbn; by rewrite str_app_nil_r|].
  rewrite str_join_cons2, IH. reflexivity.
Qed.

Lemma words_nonempty s : Forall (λ w, str_truthy w = true) (snd (words_go s)) ∧ Forall (λ w, str_truthy w = true) (words s).
Proof.
  assert (Forall (λ w, str_truthy w = true) (snd (words_go s))) as H.
  { induction s as [|c s IH]; [constructor|]. cbn [words_go]. rewrite (words_go_eta s). cbn [fst snd] in *.
    destruct (is_ws c); [|done]. cbn. unfold push_word. destruct (str_truthy _) eqn:E; [|done]. by constructor. }
  split; [done|]. unfold words, push_word. destruct (str_truthy _) eqn:E; [|done]. by constructor.
Qed.

Lemma join_nil s : str_join " " (words s) = "" → words s = [].
Proof.
  pose proof (proj2 (words_nonempty s)) as H. destruct (words s) as [|w ws]; [done|].
  apply Forall_cons in H as [Hw _]. rewrite join_spaced. by destruct w.
Qed.

Lemma trim_end_char c s : is_ws c = false → trim_end (String c s) = String c (trim_end s).
Proof. intros H. cbn [trim_end]. rewrite H. by destruct (trim_end s). Qed.

Lemma trim_end_collapse s :
  trim_end (collapse_ws true s) = str_join " " (words s) ∧
  trim_end (collapse_ws false s) = fst (words_go s) +:+ spaced (snd (words_go s)).
Proof.
  induction s as [|c s [IH1 IH2]]; [done|]. cbn [collapse_ws]. destruct (is_ws c) eqn:E.
  - rewrite words_ws, words_go_ws by done. split; [done|]. cbn [fst snd]. rewrite str_app_nil_l.
    cbn [trim_end]. rewrite IH1. destruct (str_join " " (words s)) as [|d t] eqn:Ej.
    + apply join_nil in Ej. by rewrite Ej.
    + destruct (words s) as [|w ws]; [done|]. cbn [spaced foldr]. rewrite <- Ej, join_spaced. done.
  - rewrite words_char, words_go_char, trim_end_char, IH2 by done. cbn [fst snd]. rewrite join_spaced. done.
Qed.

Lemma trim_start_collapse s :
  trim_start (collapse_ws true s) = collapse_ws true s ∧
  trim_start (collapse_ws false s) = collapse_ws true s.
Proof.
  induction s as [|c s [IH1 IH2]]; [done|]. cbn [collapse_ws]. destruct (is_ws c) eqn:E; [done|].
  cbn [trim_start]. by rewrite E.
Qed.

Lemma normal_text s : str_trim (collapse_ws false s) = str_join " " (words s).
Proof.
  unfold str_trim. rewrite (proj2 (trim_start_collapse s)). apply trim_end_collapse.
Qed.

(** The passes over a version text (carriage returns, lines trimmed, empty
    lines dropped, lines joined, runs of white space collapsed, ends trimmed)
    leave exactly its words, joined by single blanks; the result is that
    text when it is not empty, holds no HTML tag, has at most 220 characters
    and looks like a version, and empty otherwise. *)
Theorem sanitizeVersionText_words text :
  sanitizeVersionText text =
    let t := str_join " " (words text) in
    if str_truthy t && negb (re_test tag_re t) && (str_len t <=? 220) && re_test version_re t then t else "".
Proof.
  unfold sanitizeVersionText. rewrite normal_text.
  rewrite (words_join " "%char), words_filter, words_map_trim by done.
  replace (concat (map words (str_split lf (replace_char "013" lf text)))) with (words text).
  - cbv zeta. generalize (str_join " " (words text)). intros t.
    destruct (str_truthy t); [|done]. destruct (re_test tag_re t); [done|]. cbn [negb andb].
    destruct (Z.ltb_spec 220 (str_len t)), (Z.leb_spec (str_len t) 220); try lia; [done|].
    by destruct (re_test version_re t).
  - rewrite <- (words_join "010"%char) by done. unfold lf.
    rewrite str_join_split. unfold words. by rewrite words_go_replace.
Qed.

Example sanitize_two_lines :
  sanitizeVersionText ("  subconverter" +:+ lf +:+ "v0.9.0   backend" +:+ lf) = "subconverter v0.9.0 backend".
Proof. vm_compute. reflexivity. Qed.

Example sanitize_page : sanitizeVersionText "<html>nginx version 1.2</html>" = "".
Proof. vm_compute. reflexivity. Qed.

(** ** A chain of requests *)

(** The whole exchange over a network that answers every request. *)
Fixpoint run_exchange (net : backend_request → reply) (e : exchange) : res vresult :=
  match e with
  | Done r => r
  | Fetch req k => run_exchange net (k (net req) false)
  end.

(** The number of requests it makes. *)
Fixpoint requests (net : backend_request → reply) (e : exchange) : nat :=
  match e with
  | Done _ => 0
  | Fetch req k => S (requests net (k (net req) false))
  end.

(** The reply to the first request after an abort ends the exchange. *)
Fixpoint stops_on_abort (e : exchange) : Prop :=
  match e with
  | Done _ => True
  | Fetch _ k => ∀ r, (∃ o, k r true = Done o) ∧ stops_on_abort (k r false)
  end.

(** One candidate: what its server says, else what the proxy says. *)
Definition version_of (net : backend_request → reply) (proxyURL versionURL : string) : res vresult :=
  match direct_version (net (Direct versionURL)) with
  | Ok v => Ok v
  | Throw e =>
      if str_truthy proxyURL
      then proxied_version (net (Proxied (proxy_request proxyURL versionURL)))
      else Throw e
  end.

Definition is_success (o : res vresult) : bool := match o with Ok (Success _) => true | _ => false end.
Definition is_unrecognized (o : res vresult) : bool := match o with Ok Unrecognized => true | _ => false end.

(** The first success; without one, "unrecognized" if any candidate gave that,
    and else the failure of the last. *)
Definition best_from (saw : bool) (os : list (res vresult)) : res vresult :=
  match List.find is_success os with
  | Some o => o
  | None => if saw || existsb is_unrecognized os then Ok Unrecognized else List.last os (Throw "")
  end.

Definition best_result : list (res vresult) → res vresult := best_from false.

Lemma direct_not_aborted r : direct_version r ≠ Ok Aborted.
Proof. destruct r as [|st t j]; cbn; [done|]. destruct (response_ok st); [by destruct (str_truthy (sanitizeVersionText t))|done]. Qed.

Lemma proxied_not_aborted r : proxied_version r ≠ Ok Aborted.
Proof.
  destruct r as [|st t [d|]]; cbn; [done| |by destruct (response_ok st)].
  destruct (response_ok st); [|done]. destruct (_ && _); [done|]. by destruct (String.eqb _ _).
Qed.

Lemma version_of_not_aborted net proxyURL url : version_of net proxyURL url ≠ Ok Aborted.
Proof.
  unfold version_of. pose proof (direct_not_aborted (net (Direct url))).
  destruct (direct_version _); [done|]. destruct (str_truthy proxyURL); [apply proxied_not_aborted|done].
Qed.

(** [fetchVersion] runs its continuation on the result of the candidate, one
    or two requests later. *)
Lemma fetchVersion_run net proxyURL url k :
  run_exchange net (fetchVersion url proxyURL k) = run_exchange net (k (version_of net proxyURL url) false) ∧
  (requests net (fetchVersion url proxyURL k) <= 2 + requests net (k (version_of net proxyURL url) false))%nat.
Proof.
  unfold version_of. cbn [fetchVersion fetchDirectVersion run_exchange requests or_aborted].
  destruct (direct_version (net (Direct url))) as [v|e]; cbn [or_aborted]; [split; [done|lia]|].
  unfold fetchProxiedVersion. destruct (str_truthy proxyURL); cbn [negb run_exchange requests]; [|split; [done|lia]].
  by destruct (proxied_version _).
Qed.

Lemma fetchVersion_stops url proxyURL k :
  (∀ v, ∃ o, k (Ok v) true = Done o) → (∀ o, stops_on_abort (k o false)) →
  stops_on_abort (fetchVersion url proxyURL k).
Proof.
  intros Ht Hf. cbn [fetchVersion fetchDirectVersion stops_on_abort]. intros r.
  destruct (direct_version r) as [v|e]; cbn [or_aborted]; [split; [by apply Ht|apply Hf]|].
  split; [by apply Ht|]. unfold fetchProxiedVersion. destruct (str_truthy proxyURL); cbn [negb]; [|apply Hf].
  cbn [stops_on_abort]. intros r'. destruct (proxied_version r'); cbn [or_aborted]; (split; [by apply Ht|apply Hf]).
Qed.

Lemma best_unrecognized saw os : best_from saw (Ok Unrecognized :: os) = best_from true os.
Proof. unfold best_from. cbn. by rewrite orb_true_r. Qed.

Lemma next_run net proxyURL url rest saw :
  run_exchange net (next proxyURL url rest saw false) =
    best_from saw (map (version_of net proxyURL) (url :: rest)) ∧
  (requests net (next proxyURL url rest saw false) <= 2 * S (length rest))%nat.
Proof.
  revert url saw. induction rest as [|url' rest IH]; intros url saw; cbn [next];
    match goal with |- context [fetchVersion url proxyURL ?k] =>
      destruct (fetchVersion_run net proxyURL url k) as [-> Hr] end;
    pose proof (version_of_not_aborted net proxyURL url) as Hna; cbn [map];
    destruct (version_of net proxyURL url) as [[t| |]|e] eqn:E; try (by destruct Hna); cbn [run_exchange requests] in *.
  - split; [done|cbn [length]; lia].
  - split; [by rewrite best_unrecognized|cbn [length]; lia].
  - split; [by destruct saw|cbn [length]; lia].
  - split; [done|cbn [length]; lia].
  - destruct (IH url' true) as [-> Hn]. split; [by rewrite best_unrecognized|cbn [length] in *; lia].
  - destruct (IH url' saw) as [-> Hn]. split; [done|cbn [length] in *; lia].
Qed.

Lemma next_aborted proxyURL url rest saw : next proxyURL url rest saw true = Done (Ok Aborted).
Proof. by destruct rest. Qed.

Lemma next_stops proxyURL url rest saw : stops_on_abort (next proxyURL url rest saw false).
Proof.
  revert url saw. induction rest as [|url' rest IH]; intros url saw; cbn [next]; apply fetchVersion_stops.
  - intros [t| |]; by eexists.
  - by intros [[t| |]|e].
  - intros [t| |]; [by eexists| |by eexists]. exists (Ok Aborted). apply next_aborted.
  - intros [[t| |]|e]; done || apply IH.
Qed.

Lemma candidates_run net urls proxyURL :
  urls ≠ [] →
  run_exchange net (fetchVersionCandidates urls proxyURL) = best_result (map (version_of net proxyURL) urls) ∧
  (requests net (fetchVersionCandidates urls proxyURL) <= 2 * length urls)%nat.
Proof. destruct urls as [|url rest]; [done|]. intros _. apply next_run. Qed.

(** C40: whatever the network answers, asking the candidates one after another
    gives the first version found (at a candidate's server or, where that
    fails, through the proxy), without one "unrecognized" if any candidate
    answered something else, and otherwise the failure of the last; it takes
    at most two requests per candidate, and after an abort the next reply is
    the last one waited for. *)
Theorem fetchVersionCandidates_spec net urls proxyURL :
  urls ≠ [] →
  let e := fetchVersionCandidates urls proxyURL in
  let os := map (version_of net proxyURL) urls in
  (run_exchange net e = match List.find is_success os with
                        | Some o => o
                        | None => if existsb is_unrecognized os then Ok Unrecognized
                                  else List.last os (Throw "")
                        end) ∧
  (requests net e <= 2 * length urls)%nat ∧ stops_on_abort e.
Proof.
  intros Hu. destruct (candidates_run net urls proxyURL Hu) as [Hr Hn]. split_and!; [exact Hr|exact Hn|].
  destruct urls as [|url rest]; [done|]. apply next_stops.
Qed.

(** A network where only the proxy knows the second candidate's version. *)
Definition sample_net (req : backend_request) : reply :=
  match req with
  | Direct "https://a/version" => HttpReply 200 "hello" None
  | Proxied "/proxy?url=https%3A%2F%2Fb%2Fversion" => HttpReply 200 "" (Some (mkProxyData "success" "subconverter v0.9"))
  | _ => NetFail
  end.

Lemma fetchVersionCandidates_spec_witness :
  ["https://a/version"; "https://b/version"] ≠ [] ∧
  run_exchange sample_net (fetchVersionCandidates ["https://a/version"; "https://b/version"] "/proxy") =
    Ok (Success "subconverter v0.9") ∧
  stops_on_abort (fetchVersionCandidates ["https://a/version"; "https://b/version"] "/proxy").
Proof.
  split; [discriminate|].
  destruct (fetchVersionCandidates_spec sample_net ["https://a/version"; "https://b/version"] "/proxy")
    as (Hr & _ & Hs); [discriminate|].
  split; [|exact Hs]. etransitivity; [exact Hr|]. vm_compute. reflexivity.
Defined.

(** ** The page *)

Definition is_fetch (e : exchange) : Prop := match e with Fetch _ _ => True | Done _ => False end.

(** A pending chain of a page whose last request is number [n]: superseded
    chains have been aborted. *)
Definition pending_ok (n : nat) (q : pending) : Prop :=
  (1 <= pd_id q <= n)%nat ∧ (pd_id q ≠ n → pd_aborted q = true) ∧
  is_fetch (pd_exchange q) ∧ stops_on_abort (pd_exchange q).

Record page_ok (p : page) : Prop := mkPageOk {
  po_ids : NoDup (map pd_id (pg_pending p));
  po_pending : Forall (pending_ok (pg_requestId p)) (pg_pending p);
  po_active : pg_active p = if (pg_requestId p =? 0)%nat then None else Some (pg_requestId p);
}.

Lemma find_pending_some id l q : find_pending id l = Some q → q ∈ l ∧ pd_id q = id.
Proof.
  intros H. apply List.find_some in H as [Hi He]. rewrite list_elem_of_In. split; [done|].
  by apply Nat.eqb_eq in He.
Qed.

Lemma find_pending_in l q : NoDup (map pd_id l) → q ∈ l → find_pending (pd_id q) l = Some q.
Proof.
  intros Hn Hq. destruct (find_pending (pd_id q) l) as [q'|] eqn:E.
  - apply find_pending_some in E as [Hq' He]. f_equal.
    apply list_elem_of_lookup in Hq as [i Hi], Hq' as [j Hj].
    assert (i = j) as <-; [|congruence].
    eapply NoDup_lookup; [exact Hn| |]; rewrite list_lookup_fmap; [by rewrite Hi|by rewrite Hj; cbn; rewrite He].
  - pose proof (List.find_none _ _ E q) as H. rewrite <- list_elem_of_In in H. specialize (H Hq).
    cbn in H. by rewrite Nat.eqb_refl in H.
Qed.

Lemma others_ids id l : NoDup (map pd_id l) → NoDup (map pd_id (others id l)).
Proof.
  induction l as [|q l IH]; [done|]. cbn. intros [Hq Hl]%NoDup_cons. destruct (negb _); [|by apply IH].
  cbn. apply NoDup_cons. split; [|by apply IH]. rewrite list_elem_of_In, in_map_iff in *.
  intros (q' & He & Hi). apply Hq. exists q'. split; [done|]. by apply filter_In in Hi as [? _].
Qed.

Lemma others_Forall P id l : Forall P l → Forall P (others id l).
Proof. induction 1; cbn; [constructor|]. destruct (negb _); [by constructor|done]. Qed.

Lemma others_shorter q l : q ∈ l → (length (others (pd_id q) l) < length l)%nat.
Proof.
  unfold others. induction l as [|q' l IH]; [by intros ?%elem_of_nil|].
  intros [->|Hq]%elem_of_cons; cbn [List.filter].
  - rewrite Nat.eqb_refl. cbn. pose proof (List.filter_length_le (λ q0, negb (Nat.eqb (pd_id q0) (pd_id q'))) l). lia.
  - specialize (IH Hq). destruct (negb _); cbn; lia.
Qed.

Lemma others_drop id l : find_pending id (others id l) = None.
Proof.
  induction l as [|q l IH]; [done|]. cbn. destruct (Nat.eqb (pd_id q) id) eqn:E; cbn; [done|]. by rewrite E.
Qed.

Lemma others_keep id j l : id ≠ j → find_pending j (others id l) = find_pending j l.
Proof.
  intros Hne. unfold find_pending, others in *. induction l as [|q l IH]; [done|]. cbn.
  destruct (Nat.eqb_spec (pd_id q) id) as [E|E]; cbn.
  - rewrite IH. destruct (Nat.eqb_spec (pd_id q) j); [congruence|done].
  - by rewrite IH.
Qed.

Lemma replace_ids q l : map pd_id (replace_pending q l) = map pd_id l.
Proof.
  unfold replace_pending. induction l as [|q' l IH]; [done|]. cbn. rewrite IH.
  destruct (Nat.eqb_spec (pd_id q') (pd_id q)); congruence.
Qed.

Lemma replace_Forall (P : pending → Prop) q l : P q → Forall P l → Forall P (replace_pending q l).
Proof. intros Hq. induction 1; cbn; [constructor|]. constructor; [by destruct (Nat.eqb _ _)|done]. Qed.

Lemma replace_find q j l :
  find_pending j (replace_pending q l) =
  if Nat.eqb (pd_id q) j then (λ _, q) <$> find_pending j l else find_pending j l.
Proof.
  unfold find_pending, replace_pending. induction l as [|q' l IH]; cbn; [by destruct (Nat.eqb _ _)|].
  destruct (Nat.eqb_spec (pd_id q') (pd_id q)) as [E|E]; cbn.
  - rewrite E. destruct (Nat.eqb_spec (pd_id q) j) as [Ej|Ej]; [done|]. exact IH.
  - destruct (Nat.eqb_spec (pd_id q') j) as [Ej|Ej]; [|exact IH].
    destruct (Nat.eqb_spec (pd_id q) j); [congruence|done].
Qed.

Section Session.
Context `{UrlApi} (labels : version_labels) (proxyURL : string) (cacheMs : Z).
Local Notation step := (on_event labels proxyURL cacheMs).
Local Notation steps := (on_events labels proxyURL cacheMs).

Lemma abort_active_ids p : map pd_id (abort_active p) = map pd_id (pg_pending p).
Proof.
  unfold abort_active. destruct (pg_active p) as [i|]; [|done]. rewrite map_map. apply map_ext.
  intros q. by destruct (Nat.eqb _ _).
Qed.

Lemma abort_active_ok n p : Forall (pending_ok n) (pg_pending p) → Forall (pending_ok n) (abort_active p).
Proof.
  intros Hp. unfold abort_active. destruct (pg_active p) as [i|]; [|done].
  rewrite List.Forall_map. eapply Forall_impl; [exact Hp|]. intros q (H1 & H2 & H3 & H4). unfold pending_ok.
  by destruct (Nat.eqb _ _).
Qed.

(** After the abort all of the page's chains are aborted. *)
Lemma abort_active_all p : page_ok p → Forall (λ q, pd_aborted q = true) (abort_active p).
Proof.
  intros [Hn Hp Ha]. unfold abort_active. rewrite Ha. destruct (Nat.eqb_spec (pg_requestId p) 0) as [E|E].
  - eapply Forall_impl; [exact Hp|]. intros q (H1 & _). lia.
  - rewrite List.Forall_map. eapply Forall_impl; [exact Hp|]. intros q (_ & H2 & _). cbn.
    by destruct (Nat.eqb_spec (pd_id q) (pg_requestId p)); [|apply H2].
Qed.

Lemma candidates_open urls :
  is_fetch (fetchVersionCandidates urls proxyURL) ∧ stops_on_abort (fetchVersionCandidates urls proxyURL).
Proof. destruct urls as [|url [|url' rest]]; (split; [done|apply next_stops]). Qed.

Lemma start_ok key urls p : page_ok p → page_ok (start_request labels proxyURL key urls p).
Proof.
  intros Hp. pose proof (abort_active_all p Hp) as Hall. destruct Hp as [Hn Hp _].
  constructor; cbn [start_request pg_pending pg_requestId pg_active].
  - rewrite map_app, abort_active_ids. cbn. apply NoDup_app. split; [done|]. split; [|apply NoDup_singleton].
    intros i Hi Hx. apply list_elem_of_singleton in Hx as ->. rewrite list_elem_of_In, in_map_iff in Hi.
    destruct Hi as (q & Hq & Hi). rewrite <- list_elem_of_In in Hi. rewrite Forall_forall in Hp.
    destruct (Hp q Hi) as (Hle & _). lia.
  - apply Forall_app. split.
    + apply abort_active_ok in Hp. rewrite Forall_forall in *. intros q Hq.
      destruct (Hp q Hq) as (H1 & _ & H3). split; [lia|]. split; [by intros _; apply Hall|done].
    + constructor; [|constructor]. destruct (candidates_open urls). split_and!; cbn; done || lia.
  - done.
Qed.

Lemma page_ok_same p p' :
  pg_pending p' = pg_pending p → pg_requestId p' = pg_requestId p → pg_active p' = pg_active p →
  page_ok p → page_ok p'.
Proof. intros H1 H2 H3 [Hn Hp Ha]. constructor; by rewrite ?H1, ?H2, ?H3. Qed.

Lemma run_ok now p : page_ok p → page_ok (run_check labels proxyURL cacheMs now p).
Proof.
  intros Hp. unfold run_check. destruct (enabled _); cbn [negb]; [|by apply (page_ok_same p)].
  destruct (normalizeBackendURL _) as [| |urls]; [by apply (page_ok_same p)..|].
  destruct (cached_entry _ _ _ _); [by apply (page_ok_same p)|]. apply start_ok. by apply (page_ok_same p).
Qed.

Lemma set_pending_ok p l :
  NoDup (map pd_id l) → Forall (pending_ok (pg_requestId p)) l → page_ok p → page_ok (set_pending l p).
Proof. intros Hn Hl [_ _ Ha]. by constructor. Qed.

(** What a reply to the chain [q] leads to. *)
Definition continued (q : pending) (net : backend_request → reply) : exchange :=
  match pd_exchange q with Fetch req k => k (net req) (pd_aborted q) | Done r => Done r end.

Lemma receive_eq q net now p :
  page_ok p → q ∈ pg_pending p →
  receive labels (pd_id q) net now p =
  match continued q net with
  | Done r => settle labels now (pd_id q) (pd_key q) r (set_pending (others (pd_id q) (pg_pending p)) p)
  | Fetch req k =>
      set_pending (replace_pending (mkPending (pd_id q) (pd_key q) (pd_aborted q) (Fetch req k)) (pg_pending p)) p
  end.
Proof.
  intros [Hn Hp _] Hq. unfold receive, continued. rewrite (find_pending_in _ q Hn Hq).
  rewrite Forall_forall in Hp. destruct (Hp q Hq) as (_ & _ & Hf & _). by destruct (pd_exchange q).
Qed.

Lemma continued_aborted q net n :
  pending_ok n q → pd_aborted q = true → ∃ r, continued q net = Done r.
Proof.
  intros (_ & _ & Hf & Hs) Ha. unfold continued. rewrite Ha. destruct (pd_exchange q) as [|req k]; [done|].
  apply (Hs (net req)).
Qed.

Lemma receive_ok id net now p : page_ok p → page_ok (receive labels id net now p).
Proof.
  intros Hp. destruct (find_pending id (pg_pending p)) as [q|] eqn:E; [|by unfold receive; rewrite E].
  apply find_pending_some in E as [Hq <-]. rewrite receive_eq by done.
  pose proof Hp as [Hn Hps Ha]. rewrite Forall_forall in Hps. pose proof (Hps q Hq) as Hok.
  destruct (continued q net) as [r|req k] eqn:Ec.
  - assert (page_ok (set_pending (others (pd_id q) (pg_pending p)) p)) as Hp'.
    { apply set_pending_ok; [by apply others_ids|apply others_Forall; by apply po_pending|done]. }
    unfold settle. destruct (negb _); [done|]. destruct r as [[t| |]|e]; try done;
      by eapply page_ok_same; [| | |exact Hp'].
  - apply set_pending_ok; [by rewrite replace_ids| |done]. apply replace_Forall; [|by apply po_pending].
    destruct (pd_aborted q) eqn:Eab.
    { destruct (continued_aborted q net _ Hok Eab) as [r Hr]. congruence. }
    destruct Hok as (H1 & H2 & Hf & Hs). split_and!; cbn; try done; [lia..| |].
    + intros Hne. by rewrite <- Eab, H2.
    + unfold continued in Ec. rewrite Eab in Ec. destruct (pd_exchange q) as [|req' k']; [done|].
      pose proof (proj2 (Hs (net req'))) as Hs'. rewrite Ec in Hs'. exact Hs'.
Qed.

Lemma step_ok p e : page_ok p → page_ok (step p e).
Proof.
  intros Hp. destruct e as [i now|i|now|id net now|]; cbn [on_event].
  - apply run_ok. by apply (page_ok_same p).
  - by apply (page_ok_same p).
  - destruct (pg_timer p); [by apply run_ok|done].
  - by apply receive_ok.
  - eapply page_ok_same; [| | |apply set_pending_ok with (p := p) (l := abort_active p)]; try done.
    + by rewrite abort_active_ids; apply po_ids.
    + by apply abort_active_ok, po_pending.
Qed.

Lemma steps_ok p es : page_ok p → page_ok (steps p es).
Proof. unfold on_events. revert p. induction es as [|e es IH]; intros p Hp; [done|]. by apply IH, step_ok. Qed.

Lemma init_ok cache i el now : page_ok (init_page labels proxyURL cacheMs cache i el now).
Proof. apply run_ok. constructor; cbn; [constructor|constructor|done]. Qed.
(** A superseded chain ends with its next reply, whatever that is. *)
Lemma receive_superseded q net now p :
  page_ok p → q ∈ pg_pending p → pd_id q ≠ pg_requestId p →
  receive labels (pd_id q) net now p = set_pending (others (pd_id q) (pg_pending p)) p.
Proof.
  intros Hp Hq Hne. rewrite receive_eq by done. pose proof (po_pending p Hp) as Hps.
  rewrite Forall_forall in Hps. pose proof (Hps q Hq) as Hok.
  destruct (continued_aborted q net _ Hok) as [r ->]; [by apply Hok|]. unfold settle.
  cbn [set_pending pg_requestId]. by rewrite (proj2 (Nat.eqb_neq _ _) Hne).
Qed.

(** What the page shows for a result, and what the cache keeps of it. *)
Definition shown (r : res vresult) (el : status_el) : status_el :=
  match r with
  | Ok (Success text) => renderStatus "success" text labels el
  | Ok Unrecognized => renderStatus "unrecognized" (lb_unrecognized labels) labels el
  | Ok Aborted => el
  | Throw _ => renderStatus "error" (lb_failed labels) labels el
  end.

Definition remembered (key : string) (r : res vresult) (p : page) : Prop :=
  match r with
  | Ok (Success text) => ∃ now, pg_cache p !! key = Some (mkCacheEntry now "success" text)
  | Ok Unrecognized =>
      ∃ now, pg_cache p !! key = Some (mkCacheEntry now "unrecognized" (lb_unrecognized labels))
  | _ => True
  end.

(** The newest chain [n] will give [r] over [net] within [left] replies, or
    has done so. *)
Definition awaiting (net : backend_request → reply) (n : nat) (key : string) (r : res vresult)
    (el : status_el) (left : nat) (p : page) : Prop :=
  page_ok p ∧ pg_requestId p = n ∧
  ((∃ q, q ∈ pg_pending p ∧ pd_id q = n ∧ pd_key q = key ∧ pd_aborted q = false ∧
      run_exchange net (pd_exchange q) = r ∧ (requests net (pd_exchange q) <= left)%nat ∧ pg_status p = el) ∨
   (find_pending n (pg_pending p) = None ∧ pg_status p = shown r el ∧ remembered key r p)).

Lemma settle_shown now n key r p :
  pg_requestId p = n →
  pg_status (settle labels now n key r p) = shown r (pg_status p) ∧
  remembered key r (settle labels now n key r p) ∧
  pg_pending (settle labels now n key r p) = pg_pending p ∧
  pg_requestId (settle labels now n key r p) = n.
Proof.
  intros <-. unfold settle. rewrite Nat.eqb_refl. cbn [negb].
  destruct r as [[t| |]|e]; cbn; split_and!; try done; exists now; by rewrite lookup_insert_eq.
Qed.

Lemma awaiting_newest net n key r el left now p :
  awaiting net n key r el left p → awaiting net n key r el (pred left) (receive labels n net now p).
Proof.
  intros (Hp & Hn & [(q & Hq & Hid & Hkey & Hab & Hr & Hl & Hst)|(Hf & Hst & Hc)]); [|].
  - split; [by apply receive_ok|]. subst n. rewrite <- Hid. rewrite receive_eq by done.
    unfold continued. destruct (pd_exchange q) as [r'|req k] eqn:Ee.
    { pose proof (po_pending p Hp) as Hps. rewrite Forall_forall in Hps.
      destruct (Hps q Hq) as (_ & _ & Hf & _). by rewrite Ee in Hf. }
    cbn [run_exchange requests] in Hr, Hl. rewrite Hab, Hkey.
    destruct (k (net req) false) as [r'|req' k'] eqn:Ek.
    + cbn [run_exchange] in Hr. subst r'. rewrite Hid.
      destruct (settle_shown now (pg_requestId p) key r
                  (set_pending (others (pg_requestId p) (pg_pending p)) p)) as (H1 & H2 & H3 & H4); [done|].
      split; [by rewrite H4|]. right. rewrite H1, H3. split; [apply others_drop|]. cbn. by rewrite Hst.
    + split; [by rewrite Hid|]. left. eexists. cbn [set_pending pg_pending pg_status].
      split; [apply find_pending_some with (id := pd_id q); rewrite replace_find; cbn [pd_id];
              rewrite Nat.eqb_refl, find_pending_in by (done || apply po_ids, Hp); done|].
      cbn [pd_id pd_key pd_aborted pd_exchange]. split_and!; try done. lia.
  - assert (receive labels n net now p = p) as -> by (unfold receive; by rewrite Hf).
    split; [done|]. split; [done|]. by right.
Qed.

Lemma awaiting_other net n key r el left id net' now p :
  id ≠ n → awaiting net n key r el left p → awaiting net n key r el left (receive labels id net' now p).
Proof.
  intros Hne (Hp & Hn & Hw). pose proof (receive_ok id net' now p Hp) as Hok. split; [done|].
  destruct (find_pending id (pg_pending p)) as [s|] eqn:Es.
  - apply find_pending_some in Es as [Hs <-]. rewrite receive_superseded by (done || congruence).
    split; [done|]. destruct Hw as [(q & Hq & Hid & Hq')|(Hf & Hw)].
    + left. exists q. split; [|done]. cbn. unfold others. rewrite list_elem_of_In, filter_In.
      rewrite <- list_elem_of_In. split; [done|]. apply negb_true_iff, Nat.eqb_neq. congruence.
    + right. split; [|done]. cbn [set_pending pg_pending]. by rewrite others_keep.
  - unfold receive in *. by rewrite Es in *.
Qed.

(** The replies to chains: the chain, the network that answers, the time. *)
Definition replies_of (rs : list (nat * (backend_request → reply) * Z)) : list event :=
  map (λ '(id, net, now), EvReply id net now) rs.

Definition replies_to (n : nat) (rs : list (nat * (backend_request → reply) * Z)) : nat :=
  length (List.filter (λ r, Nat.eqb (fst (fst r)) n) rs).

Lemma awaiting_replies net n key r el left rs p :
  (∀ net' now, (n, net', now) ∈ rs → net' = net) →
  awaiting net n key r el left p →
  awaiting net n key r el (left - replies_to n rs) (steps p (replies_of rs)).
Proof.
  revert left p. induction rs as [|[[id net'] now] rs IH]; intros left p Hnet Hw.
  - cbn. by rewrite Nat.sub_0_r.
  - assert (∀ net'' now', (n, net'', now') ∈ rs → net'' = net) as Hnet'.
    { intros net'' now' Hi. apply (Hnet net'' now'). by apply list_elem_of_further. }
    cbn [replies_of map on_events fold_left on_event]. unfold replies_to. cbn [List.filter fst].
    destruct (Nat.eqb_spec id n) as [->|Hne].
    + assert (net' = net) as -> by (apply (Hnet net' now), list_elem_of_here). cbn [length].
      replace (left - S (length (List.filter (λ r0, Nat.eqb (fst (fst r0)) n) rs)))%nat
        with (pred left - replies_to n rs)%nat by (unfold replies_to; lia).
      apply IH; [done|]. by apply awaiting_newest.
    + apply IH; [done|]. by apply awaiting_other.
Qed.

Lemma awaiting_end net n key r el p :
  awaiting net n key r el 0 p →
  find_pending n (pg_pending p) = None ∧ pg_status p = shown r el ∧ remembered key r p.
Proof.
  intros (Hp & Hn & [(q & Hq & _ & _ & _ & _ & Hl & _)|Hw]); [|done].
  pose proof (po_pending p Hp) as Hps. rewrite Forall_forall in Hps. destruct (Hps q Hq) as (_ & _ & Hf & _).
  destruct (pd_exchange q); [done|]. cbn in Hl. lia.
Qed.

Lemma start_awaiting net key urls p :
  page_ok p → urls ≠ [] →
  awaiting net (S (pg_requestId p)) key (best_result (map (version_of net proxyURL) urls))
    (renderStatus "checking" (lb_checking labels) labels (pg_status p)) (2 * length urls)
    (start_request labels proxyURL key urls p).
Proof.
  intros Hp Hu. split; [by apply start_ok|]. split; [done|]. left.
  eexists. split; [cbn; apply elem_of_app; right; by apply list_elem_of_singleton|].
  destruct (candidates_run net urls proxyURL Hu) as [Hr Hn]. by split_and!.
Qed.
End Session.

Lemma normalize_nonempty `{UrlApi} v urls : normalizeBackendURL v = NormURLs urls → urls ≠ [].
Proof.
  unfold normalizeBackendURL. destruct (negb _); [done|]. destruct (url_parse _) as [u|]; [|done].
  destruct (_ && _); [done|]. intros [= <-]. unfold buildVersionURLs, addUniqueURL.
  destruct (_ && _); [destruct (str_truthy _)|]; destruct (existsb _ _) eqn:E; try done; by intros ?%app_nil.
Qed.

(** C13: on a page reached by any edits, timers and replies, let a check find
    an address that is not cached.  Then, however replies to earlier chains
    mix with those to the new one, and after at most two replies per
    candidate, the page shows what the candidates gave (the first version
    found, "not detected", or "unable to detect"), nothing of the chain is
    pending, and a version or "not detected" is in the cache. *)
Theorem newest_check_shown `{UrlApi} labels proxyURL cacheMs cache i el t0 es net urls now rs :
  let p0 := on_events labels proxyURL cacheMs (init_page labels proxyURL cacheMs cache i el t0) es in
  let key := str_join "|" urls in
  let n := S (pg_requestId p0) in
  enabled (pg_inputs p0) = true →
  normalizeBackendURL (getSelectedBackend (in_select (pg_inputs p0)) (in_custom (pg_inputs p0))) = NormURLs urls →
  cached_entry cacheMs now key p0 = None →
  (∀ net' t, (n, net', t) ∈ rs → net' = net) →
  (2 * length urls <= replies_to n rs)%nat →
  let r := best_result (map (version_of net proxyURL) urls) in
  let p := on_events labels proxyURL cacheMs (run_check labels proxyURL cacheMs now p0) (replies_of rs) in
  find_pending n (pg_pending p) = None ∧
  pg_status p = shown labels r (renderStatus "checking" (lb_checking labels) labels (pg_status p0)) ∧
  remembered labels key r p.
Proof.
  intros p0 key n Hen Hnorm Hcache Hnet Hcount r p.
  assert (page_ok p0) as Hp0 by apply steps_ok, init_ok.
  assert (awaiting labels net n key r (renderStatus "checking" (lb_checking labels) labels (pg_status p0))
            (2 * length urls) (run_check labels proxyURL cacheMs now p0)) as Hw.
  { unfold run_check. cbn [pg_inputs]. rewrite Hen, Hnorm. cbn [negb].
    replace (cached_entry cacheMs now (str_join "|" urls) _) with (@None cache_entry) by (symmetry; exact Hcache).
    apply start_awaiting with (p := mkPage (pg_inputs p0) (pg_status p0) (pg_cache p0) (pg_active p0)
      (pg_requestId p0) (pg_pending p0) false); [by apply (page_ok_same p0)|by apply (normalize_nonempty _ _ Hnorm)]. }
  pose proof (awaiting_replies labels proxyURL cacheMs net n key r _ _ rs _ Hnet Hw) as He.
  replace (2 * length urls - replies_to n rs)%nat with 0%nat in He by lia.
  by apply awaiting_end in He.
Qed.


(** C14: on every page the events can reach, a chain that is not the newest has
    been aborted; its next reply, whatever it says, ends it and changes neither
    what is shown nor the cache. *)
Theorem superseded_chain_silent `{UrlApi} labels proxyURL cacheMs cache i el t0 es q net now :
  let p := on_events labels proxyURL cacheMs (init_page labels proxyURL cacheMs cache i el t0) es in
  q ∈ pg_pending p → pd_id q ≠ pg_requestId p →
  let p' := receive labels (pd_id q) net now p in
  pd_aborted q = true ∧ pg_status p' = pg_status p ∧ pg_cache p' = pg_cache p ∧
  pg_pending p' = others (pd_id q) (pg_pending p) ∧ (length (pg_pending p') < length (pg_pending p))%nat.
Proof.
  intros p Hq Hne p'. assert (page_ok p) as Hp by apply steps_ok, init_ok.
  pose proof (po_pending p Hp) as Hps. rewrite Forall_forall in Hps. destruct (Hps q Hq) as (_ & Ha & _).
  unfold p'. rewrite (receive_superseded labels q net now p Hp Hq Hne).
  split_and!; try done; [by apply Ha|]. cbn. by apply others_shorter.
Qed.

(** *** A page with two chains *)

Definition sample_el : status_el := mkStatusEl true "idle" None (Some "") "".

Definition sample_inputs (v : string) : inputs := mkInputs (Some (Plain (Some v))) None None.

(** Its server [b] answers, [a] does not. *)
Definition sample_versions (req : backend_request) : reply :=
  match req with
  | Direct "https://b/version" => HttpReply 200 "subconverter v0.9" None
  | _ => NetFail
  end.

Definition sample_page (es : list event) : page :=
  @on_events plain_url defaultLabels "" 60000
    (@init_page plain_url defaultLabels "" 60000 ∅ (sample_inputs "a/sub") sample_el 0) es.

Lemma newest_check_shown_witness :
  let es := [EvInput (sample_inputs "b")] in
  let rs := [(2%nat, sample_versions, 7); (1%nat, sample_net, 8); (2%nat, sample_versions, 9)] in
  se_text (pg_status (@on_events plain_url defaultLabels "" 60000
             (@run_check plain_url defaultLabels "" 60000 5 (sample_page es)) (replies_of rs)))
    = Some "subconverter v0.9".
Proof.
  cbv zeta. unfold sample_page.
  destruct (@newest_check_shown plain_url defaultLabels "" 60000 ∅ (sample_inputs "a/sub") sample_el 0
              [EvInput (sample_inputs "b")] sample_versions ["https://b/version"] 5
              [(2%nat, sample_versions, 7); (1%nat, sample_net, 8); (2%nat, sample_versions, 9)])
    as (_ & Hs & _).
  - vm_compute. reflexivity.
  - vm_compute. reflexivity.
  - vm_compute. reflexivity.
  - intros net' t Hi. rewrite !elem_of_cons in Hi.
    destruct Hi as [[= -> _]|[[= _ _]|[[= -> _]|Hi]]]; try reflexivity; try discriminate. by apply elem_of_nil in Hi.
  - vm_compute. lia.
  - etransitivity; [exact (f_equal se_text Hs)|]. vm_compute. reflexivity.
Defined.

Lemma superseded_chain_silent_witness :
  let es := [EvChange (sample_inputs "b") 5] in
  map pd_id (pg_pending (receive defaultLabels 1 sample_versions 9 (sample_page es))) = [2%nat].
Proof.
  cbv zeta. unfold sample_page.
  pose (q := hd (mkPending 0 "" false (Done (Throw ""))) (pg_pending (sample_page [EvChange (sample_inputs "b") 5]))).
  destruct (@superseded_chain_silent plain_url defaultLabels "" 60000 ∅ (sample_inputs "a/sub") sample_el 0
              [EvChange (sample_inputs "b") 5] q sample_versions 9) as (_ & _ & _ & Hp & _).
  - apply list_elem_of_here.
  - discriminate.
  - etransitivity; [exact (f_equal (map pd_id) Hp)|]. vm_compute. reflexivity.
Defined.

(** Only a check that starts a request supersedes the one before: here the
    user empties the field while a request is pending, and the version of the
    server no longer named is shown over the notice. *)
Lemma stale_over_empty :
  let p := sample_page [EvChange (sample_inputs "b") 5; EvChange (sample_inputs "") 6] in
  se_state (pg_status p) = "empty" ∧
  se_state (pg_status (receive defaultLabels 2 sample_versions 7 p)) = "success" ∧
  se_text (pg_status (receive defaultLabels 2 sample_versions 7 p)) = Some "subconverter v0.9".
Proof. vm_compute. done. Qed.
