(* ===== verification/OcLog.v ===== *)
(** [logLanguage] of tools/codemirror/entry.js in the OpenClash front end: the
    tokens of a log line, and [ocGetLogColor] of common.js.

    Log lines hold Chinese text, so a text is the list of its UTF-16 code
    units here.  CodeMirror's [StringStream] is a parameter: [StreamApi] has
    the methods the tokenizer calls, [StreamLaws] their documented effect on
    what is left of the line. *)
From stdpp Require Import base list strings.
From Stdlib Require Import ZArith Lia Ascii Bool.
From S2P Require Import Prelude JsString.

(** ** Texts *)

Notation text := (list Z).

Fixpoint units (s : string) : text :=
  match s with
  | EmptyString => []
  | String c r => Z.of_nat (nat_of_ascii c) :: units r
  end.

Definition unit_between (lo hi c : Z) : bool := (lo <=? c) && (c <=? hi).
Definition is_digit_unit : Z → bool := unit_between 48 57.
Definition open_bracket : Z := 91.
Definition close_bracket : Z := 93.
Definition lenticular_open : Z := 12304.
Definition lenticular_close : Z := 12305.

(** White space as [eatSpace] sees it: [/[\s\u00a0]/]. *)
Definition is_space_unit (c : Z) : bool :=
  unit_between 9 13 c || (c =? 32) || (c =? 160) || (c =? 5760) || unit_between 8192 8202 c
  || (c =? 8232) || (c =? 8233) || (c =? 8239) || (c =? 8287) || (c =? 12288) || (c =? 65279).

Fixpoint starts_text (p t : text) : bool :=
  match p, t with
  | [], _ => true
  | x :: p', y :: t' => (x =? y) && starts_text p' t'
  | _, [] => false
  end.

(** ** The expressions: the length of a match at the start *)

Fixpoint match_classes (ps : list (Z → bool)) (t : text) : option nat :=
  match ps, t with
  | [], _ => Some 0%nat
  | P :: ps', c :: t' => if P c then S <$> match_classes ps' t' else None
  | _, [] => None
  end.

(** [/\d{4}-\d{2}-\d{2} \d{2}:\d{2}:\d{2}/] *)
Definition timestamp_len : text → option nat :=
  let d := is_digit_unit in
  let ch n := Z.eqb n in
  match_classes [d; d; d; d; ch 45; d; d; ch 45; d; d; ch 32; d; d; ch 58; d; d; ch 58; d; d].

(** [[^x]*x]: up to and with the first [x]. *)
Fixpoint through (x : Z) (t : text) : option nat :=
  match t with
  | [] => None
  | c :: t' => if c =? x then Some 1%nat else S <$> through x t'
  end.

(** [/\u3010[^\u3011]*\u3011/] *)
Definition lenticular_len (t : text) : option nat :=
  match t with
  | c :: t' => if c =? lenticular_open then S <$> through lenticular_close t' else None
  | [] => None
  end.

(** [/\[[A-Z][^\]]*\]/] *)
Definition category_len (t : text) : option nat :=
  match t with
  | b :: c :: t' =>
      if (b =? open_bracket) && unit_between 65 90 c then (λ n, S (S n)) <$> through close_bracket t' else None
  | _ => None
  end.

(** ** Levels *)

(** [window.levelTranslations]: the translated names by level, in enumeration
    order. *)
Notation translations := (list (string * text)).

(** The cache: [_levelTagMap], and the names between the bars of
    [_levelRegex], each escaped to stand for itself; [None] for the expression
    [(?!)], which matches nothing. *)
Record level_cache : Type := mkLevelCache {
  lc_tagMap : list (text * string);
  lc_names : option (list text);
}.

(** [map[text] = key] *)
Fixpoint set_tag (t : text) (key : string) (m : list (text * string)) : list (text * string) :=
  match m with
  | [] => [(t, key)]
  | (u, k) :: m' => if bool_decide (u = t) then (t, key) :: m' else (u, k) :: set_tag t key m'
  end.

Definition _buildLevelCache (levelTranslations : option translations) : level_cache :=
  match levelTranslations with
  | None => mkLevelCache [] None
  | Some trs =>
      mkLevelCache (fold_left (λ m kt, set_tag (snd kt) (fst kt) m) trs []) (Some (map snd trs))
  end.

(** [_levelTagMap[name]] *)
Definition level_of (m : list (text * string)) (name : text) : option string :=
  snd <$> List.find (λ tk, bool_decide (fst tk = name)) m.

Definition bracketed (t : text) : text := open_bracket :: t ++ [close_bracket].

(** [_levelRegex]: the first name that stands here in brackets; the empty
    group when there are no names. *)
Definition level_match (cache : level_cache) (rest : text) : option text :=
  match lc_names cache with
  | None => None
  | Some [] => if starts_text (bracketed []) rest then Some [] else None
  | Some names => List.find (λ t, starts_text (bracketed t) rest) names
  end.

Definition upper_first (key : string) : string :=
  match key with
  | EmptyString => EmptyString
  | String c r =>
      let n := nat_of_ascii c in
      String (if Nat.leb 97 n && Nat.leb n 122 then ascii_of_nat (n - 32) else c) r
  end.

Definition logTag : list string :=
  ["timestamp"; "bracket"; "category"; "logString"; "logLink"; "levelInfo"; "levelWarning";
   "levelError"; "levelDebug"; "levelTip"; "levelFatal"; "levelWatchdog"].

(** The style of a matched level name. *)
Definition level_style (cache : level_cache) (name : text) : string :=
  match level_of (lc_tagMap cache) name with
  | Some key =>
      let styleName := "level" +:+ upper_first key in
      if str_truthy key && existsb (String.eqb styleName) logTag then styleName else "category"
  | None => "category"
  end.

(** ** The stream *)

Class StreamApi (S : Type) : Type := {
  fresh : text → S;
  sol : S → bool;
  ahead : S → text;
  next_unit : S → S;
  skipToEnd : S → S;
  eatSpace : S → bool * S;
  (** [stream.match(re)], for an expression given by the length it matches. *)
  match_len : (text → option nat) → S → option S;
}.

Fixpoint space_run (t : text) : nat :=
  match t with
  | c :: t' => if is_space_unit c then S (space_run t') else 0
  | [] => 0
  end.

(** Each method moves the stream on; past the start of the line when it moves
    at all. *)
Definition moves {S} {A : StreamApi S} (s s' : S) (n : nat) : Prop :=
  ahead s' = drop n (ahead s) ∧ sol s' = sol s && (n =? 0)%nat.

Class StreamLaws (S : Type) {A : StreamApi S} : Prop := {
  fresh_line l : ahead (fresh l) = l ∧ sol (fresh l) = true;
  next_moves s : ahead s ≠ [] → moves s (next_unit s) 1;
  skip_moves s : moves s (skipToEnd s) (length (ahead s));
  eat_moves s : moves s (snd (eatSpace s)) (space_run (ahead s)) ∧
    fst (eatSpace s) = (0 <? space_run (ahead s))%nat;
  match_moves m s : match m (ahead s) with
    | Some n => ∃ s', match_len m s = Some s' ∧ moves s s' n
    | None => match_len m s = None
    end;
}.

(** A stream as the line and the position in it. *)
Definition plain_stream : StreamApi (bool * text) := {|
  fresh l := (true, l);
  sol s := fst s;
  ahead s := snd s;
  next_unit s := (false, drop 1 (snd s));
  skipToEnd s := (fst s && bool_decide (snd s = []), []);
  eatSpace s :=
    let n := space_run (snd s) in ((0 <? n)%nat, (fst s && (n =? 0)%nat, drop n (snd s)));
  match_len m s := (λ n, (fst s && (n =? 0)%nat, drop n (snd s))) <$> m (snd s);
|}.

Lemma plain_stream_laws : @StreamLaws _ plain_stream.
Proof.
  constructor; unfold moves; cbn.
  - done.
  - intros [b [|c t]] H; cbn in *; [done|]. by rewrite andb_false_r.
  - intros [b t]; cbn. rewrite drop_all. split; [done|]. f_equal. destruct t; [done|].
    by rewrite bool_decide_eq_false_2.
  - intros [b t]; cbn. done.
  - intros m [b t]; cbn. destruct (m t); [|done]. by eexists.
Qed.

(** ** The tokenizer *)

Record lex_state : Type := mkLex {
  lx_tabDone : bool;
  lx_cache : option level_cache;
}.

Section Token.
Context {S : Type} {A : StreamApi S} (levelTranslations : option translations).

(** [token(stream, state)]: the style, [None] for [null]. *)
Definition token (stream : S) (st : lex_state) : option string * S * lex_state :=
  let st := if sol stream then mkLex false (lx_cache st) else st in
  match (if sol stream then match_len timestamp_len stream else None) with
  | Some stream => (Some "timestamp", stream, st)
  | None =>
      let '(ate, stream) := eatSpace stream in
      if ate then (None, stream, st)
      else
        match ahead stream with
        | [] => (None, skipToEnd stream, st)
        | ch :: _ =>
            match (if ch =? lenticular_open then match_len lenticular_len stream else None) with
            | Some stream => (Some "bracket", stream, st)
            | None =>
                if lx_tabDone st then (Some "logString", next_unit stream, st)
                else if ch =? open_bracket then
                  let cache := default (_buildLevelCache levelTranslations) (lx_cache st) in
                  let st := mkLex false (Some cache) in
                  let level := level_match cache (ahead stream) in
                  match match_len (λ t, (λ name, (length name + 2)%nat) <$> level_match cache t) stream, level with
                  | Some stream, Some name => (Some (level_style cache name), stream, st)
                  | _, _ =>
                      match match_len category_len stream with
                      | Some stream => (Some "category", stream, st)
                      | None => (Some "logString", next_unit stream, st)
                      end
                  end
                else (Some "logString", next_unit stream, mkLex true (lx_cache st))
            end
        end
  end.

(** The tokens of a line: the editor asks for one after another until the
    line is used up. *)
Fixpoint tokens_from (fuel : nat) (stream : S) (st : lex_state)
    : option (list (option string * text) * lex_state) :=
  match ahead stream with
  | [] => Some ([], st)
  | before =>
      match fuel with
      | O => None
      | Datatypes.S fuel =>
          let '(style, stream', st') := token stream st in
          match tokens_from fuel stream' st' with
          | Some (toks, st'') =>
              Some ((style, take (length before - length (ahead stream')) before) :: toks, st'')
          | None => None
          end
      end
  end.

Definition line_tokens (line : text) (st : lex_state) : option (list (option string * text) * lex_state) :=
  tokens_from (length line) (fresh line) st.
End Token.

(** [ocGetLogColor]: the color of the first level whose name occurs in
    brackets. *)
Fixpoint occurs (p t : text) : bool :=
  starts_text p t || match t with [] => false | _ :: t' => occurs p t' end.

Definition ocGetLogColor (levelTranslations : translations) (log : text) : string :=
  match List.find (λ kt, occurs (bracketed (snd kt)) log) levelTranslations with
  | Some (levelKey, _) => "var(--" +:+ levelKey +:+ "-color)"
  | None => "var(--info-color)"
  end.

(** ** Facts: the tokenizer over what is left of the line *)

(** The token that begins [rest], its length and the next state. *)
Definition tok_step (levelTranslations : option translations) (start : bool) (rest : text)
    (st : lex_state) : option string * nat * lex_state :=
  let st := if start then mkLex false (lx_cache st) else st in
  match (if start then timestamp_len rest else None) with
  | Some n => (Some "timestamp", n, st)
  | None =>
      if (0 <? space_run rest)%nat then (None, space_run rest, st)
      else
        match rest with
        | [] => (None, 0%nat, st)
        | ch :: _ =>
            match (if ch =? lenticular_open then lenticular_len rest else None) with
            | Some n => (Some "bracket", n, st)
            | None =>
                if lx_tabDone st then (Some "logString", 1%nat, st)
                else if ch =? open_bracket then
                  let cache := default (_buildLevelCache levelTranslations) (lx_cache st) in
                  let st := mkLex false (Some cache) in
                  match level_match cache rest with
                  | Some name => (Some (level_style cache name), (length name + 2)%nat, st)
                  | None =>
                      match category_len rest with
                      | Some n => (Some "category", n, st)
                      | None => (Some "logString", 1%nat, st)
                      end
                  end
                else (Some "logString", 1%nat, mkLex true (lx_cache st))
            end
        end
  end.

Lemma match_classes_length ps t n : match_classes ps t = Some n → n = length ps ∧ (n <= length t)%nat.
Proof.
  revert t n. induction ps as [|P ps IH]; intros [|c t] n H; cbn in H; try done.
  - injection H as <-. split; [done|cbn; lia].
  - injection H as <-. split; [done|cbn; lia].
  - destruct (P c); [|done]. destruct (match_classes ps t) as [m|] eqn:E; [|done]. injection H as <-.
    apply IH in E as [-> ?]. split; [done|cbn; lia].
Qed.

Lemma through_length x t n : through x t = Some n → (1 <= n <= length t)%nat.
Proof.
  revert n. induction t as [|c t IH]; intros n H; cbn in H; [done|]. destruct (c =? x).
  - injection H as <-. cbn; lia.
  - destruct (through x t) as [m|]; [|done]. injection H as <-. specialize (IH m eq_refl). cbn; lia.
Qed.

Lemma lenticular_length t n : lenticular_len t = Some n → (1 <= n <= length t)%nat.
Proof.
  destruct t as [|c t]; cbn; [done|]. destruct (c =? lenticular_open); [|done].
  destruct (through _ t) as [m|] eqn:E; [|done]. intros [= <-]. apply through_length in E. lia.
Qed.

Lemma category_length t n : category_len t = Some n → (1 <= n <= length t)%nat.
Proof.
  destruct t as [|b [|c t]]; cbn; try done. destruct (_ && _); [|done].
  destruct (through _ t) as [m|] eqn:E; [|done]. intros [= <-]. apply through_length in E. lia.
Qed.

Lemma space_run_length t : (space_run t <= length t)%nat.
Proof. induction t as [|c t IH]; cbn; [lia|]. destruct (is_space_unit c); lia. Qed.

Lemma starts_text_spec p t : starts_text p t = true ↔ ∃ r, t = p ++ r.
Proof.
  revert t. induction p as [|x p IH]; intros t; cbn [starts_text].
  - split; [intros _; by exists t|done].
  - destruct t as [|y t]; [split; [done|by intros [r ?]]|]. rewrite andb_true_iff, Z.eqb_eq, IH. split.
    + intros [-> [r ->]]. by exists r.
    + intros [r [= -> ->]]. split; [done|by exists r].
Qed.

Lemma level_match_spec cache rest name :
  level_match cache rest = Some name → ∃ r, rest = bracketed name ++ r.
Proof.
  unfold level_match. destruct (lc_names cache) as [[|t names]|]; [| |done].
  - destruct (starts_text _ _) eqn:E; [|done]. intros [= <-]. by apply starts_text_spec.
  - intros H. apply List.find_some in H as [_ H]. by apply starts_text_spec.
Qed.

Lemma bracketed_length t : length (bracketed t) = (length t + 2)%nat.
Proof. unfold bracketed. cbn. rewrite length_app. cbn. lia. Qed.

Lemma tok_step_length trs start rest st style n st' :
  rest ≠ [] → tok_step trs start rest st = (style, n, st') → (1 <= n <= length rest)%nat.
Proof.
  intros Hne. unfold tok_step.
  destruct (if start then timestamp_len rest else None) as [k|] eqn:Ets.
  { intros [= _ <- _]. destruct start; [|done]. apply match_classes_length in Ets as [-> ?]. cbn in *. lia. }
  destruct (Nat.ltb_spec 0 (space_run rest)).
  { intros [= _ <- _]. pose proof (space_run_length rest). lia. }
  destruct rest as [|ch rest]; [done|].
  destruct (if ch =? lenticular_open then _ else None) as [k|] eqn:El.
  { intros [= _ <- _]. destruct (ch =? lenticular_open); [|done]. by apply lenticular_length. }
  destruct (lx_tabDone _); [intros [= _ <- _]; cbn; lia|].
  destruct (ch =? open_bracket); [|intros [= _ <- _]; cbn; lia].
  destruct (level_match _ _) as [name|] eqn:Em.
  { intros [= _ <- _]. apply level_match_spec in Em as [r ->].
    rewrite length_app, bracketed_length. lia. }
  destruct (category_len _) as [k|] eqn:Ec; intros [= _ <- _]; [by apply category_length|cbn; lia].
Qed.

Section TokenFacts.
Context {S : Type} {A : StreamApi S} {L : StreamLaws S} (levelTranslations : option translations).

Lemma match_none m (s : S) : m (ahead s) = None → match_len m s = None.
Proof. intros H. pose proof (match_moves m s) as Hm. by rewrite H in Hm. Qed.

Lemma match_some m (s : S) n : m (ahead s) = Some n → ∃ s', match_len m s = Some s' ∧ moves s s' n.
Proof. intros H. pose proof (match_moves m s) as Hm. by rewrite H in Hm. Qed.

Lemma moves_still (s s' : S) n m s'' : moves s s' 0 → moves s' s'' n → (n = m)%nat → moves s s'' m.
Proof.
  intros [H1 H2] [H3 H4] <-. rewrite drop_0 in H1. rewrite andb_true_r in H2. split; congruence.
Qed.

(** On any stream the tokenizer takes what [tok_step] says. *)
Lemma token_step (s : S) st :
  ahead s ≠ [] →
  let '(style, n, st') := tok_step levelTranslations (sol s) (ahead s) st in
  ∃ s', token levelTranslations s st = (style, s', st') ∧ moves s s' n.
Proof.
  intros Hne. unfold tok_step, token.
  destruct (if sol s then timestamp_len (ahead s) else None) as [n|] eqn:Ets.
  { destruct (sol s); [|done]. destruct (match_some _ _ _ Ets) as (s' & -> & Hm). by exists s'. }
  assert ((if sol s then match_len timestamp_len s else None) = None) as ->.
  { destruct (sol s); [by apply match_none|done]. }
  destruct (eat_moves s) as [Hm He]. destruct (eatSpace s) as [ate s1]. cbn [fst snd] in *. subst ate.
  destruct (Nat.ltb_spec 0 (space_run (ahead s))) as [Hlt|Hge]; [by exists s1|].
  replace (space_run (ahead s)) with 0%nat in Hm by lia. pose proof Hm as [Ha _].
  rewrite drop_0 in Ha. rewrite Ha.
  assert (∀ s', moves s1 s' 1 → moves s s' 1) as Hone by (intros s' ?; by apply (moves_still s s1 1 1)).
  assert (moves s1 (next_unit s1) 1) as Hnext by (apply next_moves; by rewrite Ha).
  destruct (ahead s) as [|ch rest] eqn:Er; [done|]. rewrite <- Er in *.
  destruct (if ch =? lenticular_open then lenticular_len (ahead s) else None) as [n|] eqn:El.
  { destruct (ch =? lenticular_open); [|done]. rewrite <- Ha in El.
    destruct (match_some _ _ _ El) as (s' & -> & Hm'). exists s'. split; [done|]. by apply (moves_still s s1 n n). }
  assert ((if ch =? lenticular_open then match_len lenticular_len s1 else None) = None) as ->.
  { destruct (ch =? lenticular_open); [|done]. apply match_none. by rewrite Ha. }
  destruct (lx_tabDone _); [eexists; split; [done|by apply Hone]|].
  destruct (ch =? open_bracket); [|eexists; split; [done|by apply Hone]].
  set (cache := default (_buildLevelCache levelTranslations) _).
  destruct (level_match cache (ahead s)) as [name|] eqn:Em.
  { destruct (match_some (λ t, (λ name0, (length name0 + 2)%nat) <$> level_match cache t) s1
                (length name + 2)%nat) as (s' & -> & Hm'); [by rewrite Ha, Em|].
    exists s'. split; [done|]. by eapply moves_still. }
  rewrite match_none by (by rewrite Ha, Em).
  destruct (category_len (ahead s)) as [n|] eqn:Ec.
  { rewrite <- Ha in Ec. destruct (match_some _ _ _ Ec) as (s' & -> & Hm'). exists s'. split; [done|].
    by apply (moves_still s s1 n n). }
  rewrite match_none by (by rewrite Ha). eexists. split; [done|by apply Hone].
Qed.
End TokenFacts.

(** ** Facts: the tokens of a line *)

Definition style_is (name : string) (t : option string * text) : bool :=
  match fst t with Some s => String.eqb s name | None => false end.

Definition spaces_tok (t : option string * text) : bool :=
  match fst t with None => forallb is_space_unit (snd t) | Some _ => false end.

(** A category or a level. *)
Definition tag_tok (t : option string * text) : bool :=
  match fst t with
  | Some s => String.eqb s "category" || (String.prefix "level" s && existsb (String.eqb s) logTag)
  | None => false
  end.

Definition timestamp_tok (t : option string * text) : bool :=
  style_is "timestamp" t && bool_decide (timestamp_len (snd t) = Some (length (snd t))).

(** Before the message: white space, headings in lenticular brackets, tags,
    and opening brackets that begin no tag. *)
Definition head_tok (t : option string * text) : bool :=
  spaces_tok t || style_is "bracket" t || tag_tok t
  || (style_is "logString" t && bool_decide (snd t = [open_bracket])).

(** In the message: white space, headings, single characters. *)
Definition body_tok (t : option string * text) : bool :=
  spaces_tok t || style_is "bracket" t || (style_is "logString" t && (length (snd t) =? 1)%nat).

Fixpoint head_shape (toks : list (option string * text)) : bool :=
  match toks with
  | [] => true
  | t :: r => if head_tok t then head_shape r else body_tok t && forallb body_tok r
  end.

Definition line_shape (toks : list (option string * text)) : bool :=
  match toks with
  | t :: r => if timestamp_tok t then head_shape r else head_shape toks
  | [] => true
  end.

Definition shape_from (start tabDone : bool) (toks : list (option string * text)) : bool :=
  if start then line_shape toks else if tabDone then forallb body_tok toks else head_shape toks.

Lemma match_classes_take ps t n : match_classes ps t = Some n → match_classes ps (take n t) = Some n.
Proof.
  revert t n. induction ps as [|P ps IH]; intros t n H; [by destruct t; injection H as <-|].
  destruct t as [|c t]; [done|]. cbn in H. destruct (P c) eqn:E; [|done].
  destruct (match_classes ps t) as [m|] eqn:Em; [|done]. injection H as <-.
  cbn. by rewrite E, (IH _ _ Em).
Qed.

Lemma space_run_spaces t : forallb is_space_unit (take (space_run t) t) = true.
Proof. induction t as [|c t IH]; [done|]. cbn. destruct (is_space_unit c) eqn:E; [|done]. cbn. by rewrite E. Qed.

Lemma level_style_tag cache name t : tag_tok (Some (level_style cache name), t) = true.
Proof.
  unfold tag_tok, level_style. cbn [fst]. destruct (level_of _ name) as [key|]; [|done].
  destruct (str_truthy key && _) eqn:E; [|done]. apply andb_true_iff in E as [_ E].
  rewrite E, andb_true_r. apply orb_true_iff. right. apply prefix_app.
Qed.

Lemma head_then t toks : head_tok t = true → head_shape toks = true → head_shape (t :: toks) = true.
Proof. intros H1 H2. cbn. by rewrite H1. Qed.

Lemma body_then t toks : body_tok t = true → forallb body_tok toks = true → forallb body_tok (t :: toks) = true.
Proof. intros H1 H2. cbn. by rewrite H1. Qed.

(** A token that is no time stamp fits at the start of a line as it does in
    the head. *)
Lemma shape_weaken start tabDone t toks :
  style_is "timestamp" t = false → (start = true → tabDone = false) →
  shape_from false tabDone (t :: toks) = true → shape_from start tabDone (t :: toks) = true.
Proof.
  intros Ht Hs. destruct start; [|done]. rewrite (Hs eq_refl). cbn [shape_from line_shape].
  unfold timestamp_tok. by rewrite Ht.
Qed.

Lemma tok_step_shape trs start rest st style n st' toks :
  rest ≠ [] → (start = true → lx_tabDone st = false) → tok_step trs start rest st = (style, n, st') →
  shape_from false (lx_tabDone st') toks = true →
  shape_from start (lx_tabDone st) ((style, take n rest) :: toks) = true.
Proof.
  intros Hne Hst. unfold tok_step.
  destruct (if start then timestamp_len rest else None) as [k|] eqn:Ets.
  { intros [= <- <- <-] Hs. destruct start; [|done]. cbn in Hs. cbn [shape_from line_shape].
    assert (timestamp_tok (Some "timestamp", take k rest) = true) as ->; [|done].
    unfold timestamp_tok. cbn [style_is fst snd]. apply bool_decide_eq_true. unfold timestamp_len in *.
    rewrite (match_classes_take _ _ _ Ets). apply match_classes_length in Ets as [-> ?].
    by rewrite length_take, Nat.min_l. }
  set (st0 := if start then _ else st).
  assert (lx_tabDone st0 = lx_tabDone st) as Hst0 by (unfold st0; destruct start; [by rewrite Hst|done]).
  destruct (Nat.ltb_spec 0 (space_run rest)).
  { intros [= <- <- <-] Hs. apply shape_weaken; [done..|]. rewrite Hst0 in Hs. revert Hs. unfold shape_from.
    destruct (lx_tabDone st); [apply body_then|apply head_then];
      unfold body_tok, head_tok, spaces_tok; cbn [fst snd]; by rewrite space_run_spaces. }
  destruct rest as [|ch rest]; [done|].
  destruct (if ch =? lenticular_open then _ else None) as [k|].
  { intros [= <- <- <-] Hs. apply shape_weaken; [done..|]. rewrite Hst0 in Hs. revert Hs. unfold shape_from.
    by destruct (lx_tabDone st); [apply body_then|apply head_then]. }
  rewrite Hst0. destruct (lx_tabDone st) eqn:Htab.
  { intros [= <- <- <-]. rewrite Hst0. intros Hs. apply shape_weaken; [done..|]. revert Hs. apply body_then. done. }
  destruct (Z.eqb_spec ch open_bracket) as [->|Hch].
  - destruct (level_match _ _) as [name|].
    { intros [= <- <- <-] Hs. pose proof (level_style_tag (default (_buildLevelCache trs) (lx_cache st0)) name) as Ht.
      apply shape_weaken; [|done|].
      - unfold style_is. cbn [fst]. unfold level_style. destruct (level_of _ _) as [key|]; [|done].
        by destruct (str_truthy key && _).
      - revert Hs. apply head_then. unfold head_tok. by rewrite Ht, orb_true_r. }
    destruct (category_len _) as [k|]; intros [= <- <- <-] Hs; (apply shape_weaken; [done..|]);
      revert Hs; by apply head_then.
  - intros [= <- <- <-] Hs. apply shape_weaken; [done..|]. cbn in Hs.
    change (take 1 (ch :: rest)) with [ch]. cbn [shape_from head_shape].
    assert (head_tok (Some "logString", [ch]) = false) as ->; [|done].
    unfold head_tok, spaces_tok, style_is, tag_tok. cbn [fst snd]. apply bool_decide_eq_false. by intros [= ?].
Qed.

Section LineFacts.
Context {S : Type} {A : StreamApi S} {L : StreamLaws S} (levelTranslations : option translations).

Lemma tokens_from_spec fuel (s : S) st :
  (length (ahead s) <= fuel)%nat → (sol s = true → lx_tabDone st = false) →
  ∃ toks st', tokens_from levelTranslations fuel s st = Some (toks, st') ∧
    concat (map snd toks) = ahead s ∧ Forall (λ t, snd t ≠ []) toks ∧
    shape_from (sol s) (lx_tabDone st) toks = true.
Proof.
  revert s st. induction fuel as [|fuel IH]; intros s st Hlen Hsol.
  - destruct (ahead s) eqn:E; [|cbn in Hlen; lia]. exists [], st. cbn. rewrite E.
    split_and!; try done. by destruct (sol s), (lx_tabDone st).
  - cbn [tokens_from]. destruct (ahead s) as [|c r] eqn:E.
    { exists [], st. split_and!; try done. by destruct (sol s), (lx_tabDone st). }
    rewrite <- E in *. assert (ahead s ≠ []) as Hne by (by rewrite E).
    pose proof (token_step levelTranslations s st Hne) as Hstep.
    destruct (tok_step levelTranslations (sol s) (ahead s) st) as [[style n] st'] eqn:Et.
    destruct Hstep as (s' & -> & Ha & Hs').
    pose proof (tok_step_length _ _ _ _ _ _ _ Hne Et) as Hn.
    assert (sol s' = false) as Hsf.
    { rewrite Hs'. destruct (Nat.eqb_spec n 0); [lia|]. by rewrite andb_false_r. }
    destruct (IH s' st') as (toks & st'' & -> & Hc & Hf & Hsh); [rewrite Ha, length_drop; lia|congruence|].
    rewrite Ha, length_drop. replace (length (ahead s) - (length (ahead s) - n))%nat with n by lia.
    eexists _, st''. split; [done|]. split_and!.
    + cbn. rewrite Hc, Ha. apply take_drop.
    + constructor; [|done]. cbn. intros H0. apply (f_equal length) in H0. rewrite length_take in H0. cbn in H0. lia.
    + rewrite Hsf in Hsh. by apply (tok_step_shape _ _ _ _ _ _ _ _ Hne Hsol Et).
Qed.
End LineFacts.

(** C22: for any stream with the documented methods and any translations, the
    tokenizer uses up every line: the tokens are the line cut in pieces, in
    order, none of them empty.  They are a time stamp or none, then white
    space, headings, tags and stray brackets, and from the first other
    character on only white space, headings and single characters. *)
Theorem line_tokens_spec {S} (A : StreamApi S) (L : StreamLaws S) trs line st :
  ∃ toks st', line_tokens trs line st = Some (toks, st') ∧
    concat (map snd toks) = line ∧ Forall (λ t, snd t ≠ []) toks ∧ line_shape toks = true.
Proof.
  unfold line_tokens. destruct (fresh_line line) as [Ha Hs].
  assert (tokens_from trs (length line) (fresh line) st =
          match line with
          | [] => Some ([], st)
          | _ => tokens_from trs (length line) (fresh line) (mkLex false (lx_cache st))
          end) as ->.
  { destruct line as [|c l]; cbn [tokens_from length]; rewrite Ha; [done|].
    assert (token trs (fresh (c :: l)) st = token trs (fresh (c :: l)) (mkLex false (lx_cache st))) as ->; [|done].
    unfold token. by rewrite Hs. }
  destruct line as [|c l] eqn:E; [by exists [], st|]. rewrite <- E in *.
  destruct (tokens_from_spec trs (length line) (fresh line) (mkLex false (lx_cache st))) as (toks & st' & H);
    [by rewrite Ha|done|]. rewrite Ha, Hs in H. destruct H as (H1 & H2 & H3 & H4). by exists toks, st'.
Qed.

Definition sample_levels : translations := [("info", units "Info"); ("warning", units "Warning")].

Lemma line_tokens_spec_witness :
  ∃ toks st', @line_tokens _ plain_stream (Some sample_levels) (units "[Warning] no [Info]") (mkLex true None)
                = Some (toks, st') ∧
    concat (map snd toks) = units "[Warning] no [Info]" ∧ Forall (λ t, snd t ≠ []) toks ∧ line_shape toks = true.
Proof. apply (@line_tokens_spec _ plain_stream plain_stream_laws). Defined.

(** The styles of that line: the second level stands in the message. *)
Example sample_styles :
  (λ r, map fst (fst r)) <$> @line_tokens _ plain_stream (Some sample_levels)
      (units "2025-01-02 03:04:05 [Warning] no [Info]") (mkLex true None) =
  Some ([Some "timestamp"; None; Some "levelWarning"; None; Some "logString"; Some "logString"; None]
        ++ repeat (Some "logString") 6).
Proof. vm_compute. reflexivity. Qed.

(** *** Levels *)

Lemma set_tag_level t key m name :
  level_of (set_tag t key m) name = if decide (name = t) then Some key else level_of m name.
Proof.
  unfold level_of. induction m as [|[u k] m IH]; cbn.
  - destruct (decide (name = t)) as [->|Hne]; [by rewrite bool_decide_eq_true_2|].
    by rewrite bool_decide_eq_false_2.
  - destruct (bool_decide_reflect (u = t)) as [->|Hu]; cbn.
    + destruct (decide (name = t)) as [->|Hne]; [by rewrite bool_decide_eq_true_2|].
      by rewrite bool_decide_eq_false_2.
    + destruct (bool_decide_reflect (u = name)) as [->|Hn]; cbn.
      * destruct (decide (name = t)); [congruence|done].
      * exact IH.
Qed.

Lemma tags_level trs m name :
  name ∉ map snd trs → level_of (fold_left (λ m kt, set_tag (snd kt) (fst kt) m) trs m) name = level_of m name.
Proof.
  revert m. induction trs as [|[k t] trs IH]; intros m Hn; [done|]. cbn [map snd] in Hn.
  apply not_elem_of_cons in Hn as [Ht Hn]. cbn [fold_left fst snd]. rewrite IH by done. rewrite set_tag_level.
  by destruct (decide (name = t)).
Qed.

(** The level of a name is the last one translated so. *)
Lemma cache_level pre key name post :
  name ∉ map snd post →
  level_of (lc_tagMap (_buildLevelCache (Some (pre ++ (key, name) :: post)))) name = Some key.
Proof.
  intros Hn. cbn [_buildLevelCache lc_tagMap]. rewrite fold_left_app. cbn [fold_left fst snd].
  rewrite tags_level by done. rewrite set_tag_level. by destruct (decide (name = name)).
Qed.

Lemma bracketed_inj a b r s :
  close_bracket ∉ a → close_bracket ∉ b → bracketed a ++ r = bracketed b ++ s → a = b ∧ r = s.
Proof.
  unfold bracketed. intros Ha Hb [= H]. rewrite <- !app_assoc in H. cbn in H. revert b Hb H.
  induction a as [|x a IH]; intros [|y b] Hb H; cbn in H.
  - by injection H as ->.
  - injection H as <- _. by destruct Hb; left.
  - injection H as -> _. by destruct Ha; left.
  - injection H as <- H. apply not_elem_of_cons in Ha as [_ Ha], Hb as [_ Hb].
    destruct (IH Ha b Hb H) as [-> ->]. done.
Qed.

Lemma find_level trs name r :
  trs ≠ [] → name ∈ map snd trs → Forall (λ t, close_bracket ∉ t) (map snd trs) →
  level_match (_buildLevelCache (Some trs)) (bracketed name ++ r) = Some name.
Proof.
  intros Hne Hin Hall. unfold level_match. cbn [_buildLevelCache lc_names].
  destruct (map snd trs) as [|t names] eqn:E; [by destruct trs|]. rewrite <- E in *.
  destruct (List.find _ (map snd trs)) as [u|] eqn:Ef.
  - apply List.find_some in Ef as [Hu Hs]. apply starts_text_spec in Hs as [s Hs].
    rewrite <- list_elem_of_In in Hu. rewrite Forall_forall in Hall.
    by apply bracketed_inj in Hs as [-> _]; [|apply Hall..].
  - rewrite list_elem_of_In in Hin. pose proof (List.find_none _ _ Ef name Hin) as H. cbv beta in H.
    assert (starts_text (bracketed name) (bracketed name ++ r) = true) as Ht; [|congruence].
    apply starts_text_spec. by exists r.
Qed.

(** Where names hold no closing bracket, a name in brackets before the
    message is one token, styled by the level that has the name (the last
    such, if several do) when the highlighter knows it, and as a category
    otherwise. *)
Theorem level_token {S} (A : StreamApi S) (L : StreamLaws S) trs pre key name post (s : S) c r :
  trs = pre ++ (key, name) :: post → name ∉ map snd post → Forall (λ t, close_bracket ∉ t) (map snd trs) →
  (c = None ∨ c = Some (_buildLevelCache (Some trs))) →
  ahead s = bracketed name ++ r →
  ∃ s' st', token (Some trs) s (mkLex false c) =
      (Some (let style := "level" +:+ upper_first key in
             if str_truthy key && existsb (String.eqb style) logTag then style else "category"), s', st') ∧
    ahead s' = r ∧ lx_tabDone st' = false.
Proof.
  intros Ht Hpost Hall Hc Ha. assert (ahead s ≠ []) as Hne by (by rewrite Ha).
  pose proof (token_step (Some trs) s (mkLex false c) Hne) as H.
  assert (tok_step (Some trs) (sol s) (ahead s) (mkLex false c) =
    (Some (level_style (_buildLevelCache (Some trs)) name), (length name + 2)%nat,
     mkLex false (Some (_buildLevelCache (Some trs))))) as E.
  { unfold tok_step. rewrite Ha. cbn [bracketed app space_run].
    assert ((if sol s then mkLex false (lx_cache (mkLex false c)) else mkLex false c) = mkLex false c) as ->
      by (by destruct (sol s)).
    assert ((if sol s then timestamp_len (open_bracket :: (name ++ [close_bracket]) ++ r) else None) = None) as ->
      by (by destruct (sol s)).
    cbn [is_space_unit]. change (is_space_unit open_bracket) with false. cbn [Nat.ltb Nat.leb].
    change (open_bracket =? lenticular_open) with false. cbn [lx_tabDone lx_cache].
    change (open_bracket =? open_bracket) with true.
    assert (default (_buildLevelCache (Some trs)) c = _buildLevelCache (Some trs)) as ->
      by (by destruct Hc as [->| ->]).
    pose proof (find_level trs name r) as Hf. unfold bracketed in Hf at 1. cbn [app] in Hf. rewrite Hf; [done|..|done].
    - rewrite Ht. by destruct pre.
    - rewrite Ht, map_app. apply elem_of_app. right. left. }
  rewrite E in H. destruct H as (s' & Htok & Hm & _). exists s', (mkLex false (Some (_buildLevelCache (Some trs)))).
  split_and!; [|rewrite Hm, Ha; apply drop_app_length'; by rewrite bracketed_length|done].
  rewrite Htok. unfold level_style. by rewrite Ht, (cache_level pre key name post Hpost).
Qed.

Lemma level_token_witness :
  ∃ s' st', @token _ plain_stream (Some sample_levels) (true, units "[Warning] x") (mkLex false None) =
      (Some "levelWarning", s', st') ∧ @ahead _ plain_stream s' = units " x" ∧ lx_tabDone st' = false.
Proof.
  apply (@level_token _ plain_stream plain_stream_laws sample_levels [("info", units "Info")] "warning"
           (units "Warning") [] (true, units "[Warning] x") None (units " x")).
  - reflexivity.
  - apply not_elem_of_nil.
  - repeat constructor; refine (bool_decide_eq_true_1 _ _); vm_compute; reflexivity.
  - left. reflexivity.
  - reflexivity.
Defined.
