(* ===== verification/OcPage.v ===== *)
(** [openclash/js/common.js], what the pages share beside the editor: the
    removal of the style rules for reduced motion, times and sizes as text, the
    map of the loading overlays where [WeakMap] is missing, links, the broken
    images and the tidying of the CBI pages; and [tools/codemirror/entry.js]: the
    depth of folds, the preloading of the syntax tree, the styles of the log
    language, the lookup of the active editor and the preparations that run
    once. *)
From stdpp Require Import base gmap list strings.
From Stdlib Require Import ZArith Lia Ascii Bool.
From S2P Require Import Prelude JsNum JsString JsRegExp JsDate OcStyles OcLog.

(** ** Reduced motion *)

(** A rule of a style sheet: a media rule with its condition, or another. *)
Inductive css_rule : Type :=
  | MediaRule (conditionText : string)
  | OtherRule (text : string).

(** [/prefers-reduced-motion.*reduce/] *)
Definition reduced_re : re :=
  RCat (RText "prefers-reduced-motion")
    (RCat (RStar (RChar (λ c, negb (Ascii.eqb c "010" || Ascii.eqb c "013")))) (RText "reduce")).

Definition reduces_motion (r : css_rule) : bool :=
  match r with MediaRule c => re_test reduced_re c | OtherRule _ => false end.

(** [sheet.deleteRule(j)] *)
Definition deleteRule (j : nat) (rules : list css_rule) : list css_rule := take j rules ++ drop (S j) rules.

(** The loop over a sheet's rules, with [j] from [n - 1] down to 0. *)
Fixpoint sweep (n : nat) (rules : list css_rule) : list css_rule :=
  match n with
  | O => rules
  | S j =>
      sweep j (match rules !! j with
               | Some r => if reduces_motion r then deleteRule j rules else rules
               | None => rules
               end)
  end.

(** The sheets of the page; one whose rules may not be read is left alone. *)
Definition sweep_sheets (sheets : list (option (list css_rule))) : list (option (list css_rule)) :=
  map (option_map (λ rules, sweep (length rules) rules)) sheets.

(** ** Times and size_units *)

Section Texts.

(** [s.padStart(2, '0')] *)
Definition pad2 (s : string) : string :=
  match s with
  | EmptyString => "00"
  | String c EmptyString => String "0" s
  | _ => s
  end.

(** What the time zone adds to a time value. *)
Variable offset : Z → Z.

Definition date_text (t : local_time) : string :=
  dec (lt_year t) +:+ "-" +:+ pad2 (dec (lt_month t)) +:+ "-" +:+ pad2 (dec (lt_day t)) +:+ " "
  +:+ pad2 (dec (lt_hours t)) +:+ ":" +:+ pad2 (dec (lt_minutes t)) +:+ ":" +:+ pad2 (dec (lt_seconds t)).

(** The fields of an invalid date are NaN. *)
Definition ocFormatUnixTime (unixTimestamp : option num) : string :=
  match unixTimestamp with
  | None | Some NaN => "--"
  | Some n =>
      if num_eqb n (Fin 0) then "--"
      else
        match num_mul n (Fin 1000) with
        | Fin ms =>
            if Z.abs ms <=? max_time then date_text (local_of offset ms)
            else "NaN-NaN-NaN NaN:NaN:NaN"
        | _ => "NaN-NaN-NaN NaN:NaN:NaN"
        end
  end.

(** [Math.floor(Math.log(bytes) / Math.log(1024))]: the accuracy of [Math.log] is
    left to the browser. *)
Variable level : Z → Z.

Definition size_units : list string := ["B"; "KB"; "MB"; "GB"; "TB"; "PB"].

(** [(n / u).toFixed(1)] for a power [u] of two: in tenths, a half rounded
    up. *)
Definition tenths (n u : Z) : Z := (20 * n + u) / (2 * u).

Definition fixed1 (n u : Z) : string :=
  if 10 ^ 21 <=? n / u then num_to_string (num_of_Z (n / u))
  else let t := tenths n u in dec (t / 10) +:+ "." +:+ dec (t mod 10).

Definition ocFormatBytes (bytes : option num) : string :=
  match bytes with
  | None => "0 B"
  | Some NaN => "NaN undefined"
  | Some (Inf neg) => if neg then "NaN undefined" else "Infinity PB"
  | Some (Fin n) =>
      if n =? 0 then "0 B"
      else if n <? 0 then "NaN undefined"
      else
        let i := if 6 <=? level n then 5 else level n in
        let unit := default "undefined" (if i <? 0 then None else size_units !! Z.to_nat i) in
        (if i =? 0 then dec n else fixed1 n (1024 ^ i)) +:+ " " +:+ unit
  end.

Definition ocFormatFileSize (bytes : option num) : string :=
  match bytes with
  | None | Some NaN => "--"
  | Some n => if num_eqb n (Fin 0) then "--" else ocFormatBytes bytes
  end.
End Texts.

(** ** The map of the loading overlays without [WeakMap]

    Each key carries the name its value is kept under. *)
Section LidMap.
Context {K : Type} `{Countable K} {V : Type}.

Record lid_map : Type := mkLidMap {
  lm_lids : gmap K string;
  lm_values : gmap string V;
}.

(** [m[k._ocLid]]; a key without a name looks under "undefined". *)
Definition lid_of (k : K) (m : lid_map) : string := default "undefined" (lm_lids m !! k).

Definition lid_get (k : K) (m : lid_map) : option V := lm_values m !! lid_of k m.

(** [set], with the name that [Math.random] made. *)
Definition lid_set (id : string) (k : K) (v : V) (m : lid_map) : lid_map :=
  mkLidMap (<[k := id]> (lm_lids m)) (<[id := v]> (lm_values m)).

Definition lid_delete (k : K) (m : lid_map) : lid_map :=
  mkLidMap (lm_lids m) (delete (lid_of k m) (lm_values m)).
End LidMap.
Arguments lid_map K {_ _} V.

(** ** Links, images and CBI pages *)

(** [winOpen]: a new window, or the page itself where that is blocked; the
    handler always returns [false]. *)
Inductive navigation : Type :=
  | NewWindow (url : string)
  | SamePage (url : string).

Definition winOpen (blocked : bool) (url : string) : list navigation * bool :=
  (NewWindow url :: (if blocked then [SamePage url] else []), false).

(** An image whose source cannot be loaded gets the substitute ten seconds
    later; the handler of its errors is still there. *)
Record image : Type := mkImage {
  im_src : string;
  im_lazy : bool;
  im_timers : list string;
}.

Definition imgerrorfuns (imgSrc : string) (im : image) : image :=
  mkImage (im_src im) (im_lazy im) (im_timers im ++ [imgSrc]).

Definition image_timer (im : image) : image :=
  match im_timers im with
  | [] => im
  | s :: l => mkImage s true l
  end.

(** An element with its text and its inline style. *)
Record cbi_element : Type := mkCbiElement {
  ce_id : string;
  ce_text : string;
  ce_display : string;
  ce_textAlign : string;
}.

Definition ocHideEmptyCbiElements (l : list cbi_element) : list cbi_element :=
  map (λ e, if String.eqb (str_trim (ce_text e)) ""
            then mkCbiElement (ce_id e) (ce_text e) "none" (ce_textAlign e) else e) l.

Definition centered_ids : list string :=
  ["Commit"; "Apply"; "Create"; "Back"; "Load_Config"; "Delete_Unused_Servers"; "Delete_Servers";
   "Delete_Proxy_Provider"; "Delete_Groups"; "proxy_mg"; "rule_mg"; "pro_mg"].

(** [[id$="-..."]] *)
Definition id_ends (suffix : string) (e : cbi_element) : bool :=
  let n := String.length (ce_id e) in
  let k := String.length suffix in
  (k <=? n)%nat && String.eqb (String.substring (n - k) k (ce_id e)) suffix.

Definition centered (e : cbi_element) : cbi_element :=
  mkCbiElement (ce_id e) (ce_text e) (ce_display e) "center".

Definition ocCenterCbiActions (l : list cbi_element) : list cbi_element :=
  fold_left (λ l id, map (λ e, if id_ends ("-" +:+ id) e then centered e else e) l) centered_ids l.

(** ** Folds ([entry.js]) *)

Section Folds.

(** [foldable] of a line: the range it can fold; and where a line starts. *)
Variable foldable : nat → option (Z * Z).
Variable line_from : nat → Z.

Definition lines_from_to (fl ll : nat) : list nat := seq fl (S ll - fl).

Definition inside (pos : Z) (r : Z * Z) : bool := (fst r <? pos) && (pos <? snd r).

(** [_foldDepth]: the depths of the lines from [fl] to [ll], with the ranges
    collected first. *)
Definition _foldDepth (fl ll : nat) : list Z :=
  let ranges := omap foldable (lines_from_to fl ll) in
  map (λ n, fold_left (λ d r, if inside (line_from n) r then d + 1 else d) ranges 0) (lines_from_to fl ll).

(** [_foldDepth1]: the depth of one line. *)
Definition _foldDepth1 (lineNo fl ll : nat) : Z :=
  fold_left (λ d n,
    match foldable n with
    | Some r => if inside (line_from lineNo) r then d + 1 else d
    | None => d
    end) (lines_from_to fl ll) 0.
End Folds.

(** ** Preloading the syntax tree ([syntaxPreload])

    The plugin of an editor: the frame it remembers, the frames the browser will
    run, the view (the last line of the viewport and the number of lines), and
    the lines up to which trees were asked for. *)
Record preload : Type := mkPreload {
  pr_rafId : option nat;
  pr_frames : list nat;
  pr_next : nat;
  pr_view : nat * nat;
  pr_asked : list nat;
}.

(** [_preload] *)
Definition preload_target (buffer ll lines : nat) : nat := Nat.min (ll + buffer) lines.

Definition asked_for (buffer : nat) (v : nat * nat) : nat := preload_target buffer (fst v) (snd v).

Definition preload_start (buffer : nat) (v : nat * nat) : preload := mkPreload None [] 0 v [asked_for buffer v].

Definition cancelAnimationFrame (id : option nat) (frames : list nat) : list nat :=
  match id with
  | Some i => List.filter (λ f, negb (Nat.eqb f i)) frames
  | None => frames
  end.

(** [update]: the view is [v] now; without a change it is what it was. *)
Definition preload_update (v : nat * nat) (p : preload) : preload :=
  if bool_decide (v = pr_view p) then p
  else
    mkPreload (Some (pr_next p)) (cancelAnimationFrame (pr_rafId p) (pr_frames p) ++ [pr_next p])
      (S (pr_next p)) v (pr_asked p).

(** The browser runs the first frame. *)
Definition preload_frame (buffer : nat) (p : preload) : preload :=
  match pr_frames p with
  | [] => p
  | _ :: l => mkPreload None l (pr_next p) (pr_view p) (pr_asked p ++ [asked_for buffer (pr_view p)])
  end.

Inductive preload_event : Type :=
  | ViewUpdated (v : nat * nat)
  | FrameRun.

Definition preload_step (buffer : nat) (p : preload) (e : preload_event) : preload :=
  match e with ViewUpdated v => preload_update v p | FrameRun => preload_frame buffer p end.

(** ** The styles of the log language *)

(** [tokenTable] and [logHighlightStyle]: the class of a token's tag. *)
Definition logHighlightStyle : list (string * string) :=
  [("timestamp", "cmt-log-timestamp"); ("bracket", "cmt-log-bracket"); ("category", "cmt-log-category");
   ("logString", "cmt-log-string"); ("logLink", "cmt-log-link"); ("levelInfo", "cmt-log-level-info");
   ("levelWarning", "cmt-log-level-warning"); ("levelError", "cmt-log-level-error");
   ("levelDebug", "cmt-log-level-debug"); ("levelTip", "cmt-log-level-tip");
   ("levelFatal", "cmt-log-level-fatal"); ("levelWatchdog", "cmt-log-level-watchdog")].

Definition log_class (style : string) : option string :=
  snd <$> List.find (λ t, String.eqb (fst t) style) logHighlightStyle.

(** ** The active editor ([getActiveEditor]) *)

(** An element is its number and its classes. *)
Definition dom_element : Type := nat * list string.

(** [e.closest('.c')] among an element and its ancestors, innermost first. *)
Definition closest (c : string) (chain : list dom_element) : option dom_element :=
  List.find (λ e, existsb (String.eqb c) (snd e)) chain.

(** [active]: the focused element with its ancestors; [editors]: the elements
    of the class [cm-editor] in the page's order. *)
Definition getActiveEditor (active : option (list dom_element)) (editors : list dom_element) : option dom_element :=
  let found :=
    match active with
    | Some chain =>
        match closest "cm-mergeView" chain with
        | Some mw => Some mw
        | None => closest "cm-editor" chain
        end
    | None => None
    end in
  match found with Some e => Some e | None => hd_error editors end.

(** ** Preparations that run once *)

Inductive setup : Type :=
  | RegisterLanguage (name : string)
  | UseRenderer.

Record prepared : Type := mkPrepared {
  pp_hljs : bool;
  pp_marked : bool;
  pp_done : list setup;
}.

Definition hljs_languages : list setup := map RegisterLanguage ["yaml"; "yml"; "bash"; "sh"; "shell"; "json"].

Definition _ocEnsureHljs (p : prepared) : prepared :=
  if pp_hljs p then p else mkPrepared true (pp_marked p) (pp_done p ++ hljs_languages).

Definition _ocEnsureMarked (p : prepared) : prepared :=
  if pp_marked p then p
  else
    let p := _ocEnsureHljs (mkPrepared (pp_hljs p) true (pp_done p)) in
    mkPrepared (pp_hljs p) (pp_marked p) (pp_done p ++ [UseRenderer]).

(** [renderMarkdown]; [parse] is [marked.parse], which may throw. *)
Definition renderMarkdown (parse : string → res string) (text : option string) (p : prepared) : string * prepared :=
  match text with
  | None => ("", p)
  | Some t =>
      if negb (str_truthy t) then ("", p)
      else (match parse t with Ok html => html | Throw _ => t end, _ocEnsureMarked p)
  end.

(** ** The theme of the editors *)

(** The editors of the page in order, with the theme of their view where they
    have one; the theme styles; the code style. *)
Record themed_editors : Type := mkThemedEditors {
  te_views : list (option bool);
  te_styles : list string;
  te_code : code_style;
}.

(** [themeExtension], and the effect of [dispatchTheme] on the view. *)
Definition themeExtension (isDark : bool) : bool := isDark.

(** [dispatchTheme], with [txt] the color the page's texts have. *)
Definition dispatchTheme (txt : option string) (isDark : bool) (styles : list string) : bool * list string :=
  (themeExtension isDark, mirrorThemeScrollbar txt isDark styles).

(** The loop of [ocApplyEditorTheme]. *)
Fixpoint dispatch_all (txt : option string) (isDark : bool) (views : list (option bool)) (styles : list string)
    : list (option bool) * list string :=
  match views with
  | [] => ([], styles)
  | None :: views => let '(vs, styles) := dispatch_all txt isDark views styles in (None :: vs, styles)
  | Some _ :: views =>
      let '(theme, styles) := dispatchTheme txt isDark styles in
      let '(vs, styles) := dispatch_all txt isDark views styles in (Some theme :: vs, styles)
  end.

Definition apply_theme (txt : option string) (isDark : bool) (p : themed_editors) : themed_editors :=
  let '(views, styles) := dispatch_all txt isDark (te_views p) (te_styles p) in
  mkThemedEditors views (mirrorThemeScrollbar txt isDark styles) (switchHljsTheme isDark isDark (te_code p)).

(** ** Facts *)

(** Removing from the end leaves exactly the rules that do not match; the rules
    still to be looked at keep their numbers. *)
Lemma sweep_take n rules :
  (n <= length rules)%nat →
  sweep n rules = List.filter (λ r, negb (reduces_motion r)) (take n rules) ++ drop n rules.
Proof.
  revert rules. induction n as [|j IH]; intros rules Hn; [done|]. cbn [sweep].
  destruct (lookup_lt_is_Some_2 rules j) as [r Hr]; [lia|]. rewrite Hr.
  rewrite (take_S_r _ _ _ Hr), List.filter_app. cbn [List.filter].
  assert (length (take j rules) = j) as Hl by (rewrite length_take; lia).
  destruct (reduces_motion r); cbn [negb]; rewrite <- app_assoc; cbn [app].
  - unfold deleteRule. rewrite IH by (rewrite length_app, Hl; lia).
    rewrite take_app_length' by done. by rewrite drop_app_length'.
  - rewrite IH by lia. by rewrite (drop_S _ _ _ Hr).
Qed.

Theorem sweep_spec rules : sweep (length rules) rules = List.filter (λ r, negb (reduces_motion r)) rules.
Proof. by rewrite sweep_take, firstn_all, drop_all, app_nil_r. Qed.

(** The time shown is that of the second the time stamp falls in, as a date of
    the calendar in the local zone. *)
Theorem unix_time_spec offset ts :
  ts ≠ 0 → Z.abs (ts * 1000) <= max_time →
  ∃ t, ocFormatUnixTime offset (Some (Fin ts)) = date_text t ∧ local_ok t ∧
    0 <= ts * 1000 + offset (ts * 1000) - ms_of t < 1000.
Proof.
  intros H0 Hmax. exists (local_of offset (ts * 1000)).
  destruct (local_of_spec offset (ts * 1000)) as [Hok Hms]. split_and!; [|done|lia..].
  unfold ocFormatUnixTime. cbn [num_eqb num_mul]. rewrite (proj2 (Z.eqb_neq ts 0)) by done.
  rewrite num_of_Z_safe by (unfold safe, max_time in *; lia).
  by rewrite (proj2 (Z.leb_le _ _) Hmax).
Qed.

(** ** Sizes *)

Section Sizes.
Context (level : Z → Z).

(** The logarithms are exact enough: the level is the power of 1024 below. *)
Hypothesis level_exact : ∀ n, 0 < n → 0 <= level n ∧ 1024 ^ level n <= n < 1024 ^ (level n + 1).

Lemma tenths_spec n u : 0 < u → - u <= 2 * (10 * n - tenths n u * u) < u.
Proof.
  intros Hu. unfold tenths. pose proof (Z.div_mod (20 * n + u) (2 * u) ltac:(lia)).
  pose proof (Z.mod_pos_bound (20 * n + u) (2 * u) ltac:(lia)). nia.
Qed.

(** A size of at least a kilobyte is shown as a number of tenths of the largest
    unit not above it (petabytes from there on): the value is within half a
    tenth of the size, and between 1.0 and 1024.0 below a thousand petabytes. *)
Theorem bytes_text_spec n :
  1024 <= n < 10 ^ 21 →
  ∃ i unit t, 1 <= i <= 5 ∧ size_units !! Z.to_nat i = Some unit ∧
    ocFormatBytes level (Some (Fin n)) = dec (t / 10) +:+ "." +:+ dec (t mod 10) +:+ " " +:+ unit ∧
    - 1024 ^ i <= 2 * (10 * n - t * 1024 ^ i) < 1024 ^ i ∧
    10 <= t ∧ (n < 1024 ^ 6 → t <= 10240).
Proof.
  intros Hn. destruct (level_exact n) as (Hl0 & Hl1 & Hl2); [lia|].
  set (i := if 6 <=? level n then 5 else level n).
  assert (1 <= level n) as Hge.
  { destruct (Z.eq_dec (level n) 0) as [E|]; [|lia]. rewrite E in Hl2. change (1024 ^ (0 + 1)) with 1024 in Hl2. lia. }
  assert (1 <= i <= 5) as Hi by (unfold i; destruct (6 <=? level n) eqn:E; lia).
  assert (0 < 1024 ^ i) as Hu by (apply Z.pow_pos_nonneg; lia).
  assert (1024 ^ i <= n) as Hlow.
  { etrans; [|exact Hl1]. apply Z.pow_le_mono_r; [lia|]. unfold i. destruct (6 <=? level n) eqn:E; lia. }
  destruct (lookup_lt_is_Some_2 size_units (Z.to_nat i)) as [unit Hunit]; [cbn; lia|].
  pose proof (tenths_spec n (1024 ^ i) Hu) as Ht.
  exists i, unit, (tenths n (1024 ^ i)). split_and!; try lia; [done| | |].
  - unfold ocFormatBytes. rewrite (proj2 (Z.eqb_neq n 0)), (proj2 (Z.ltb_ge n 0)) by lia. fold i.
    rewrite (proj2 (Z.ltb_ge i 0)), (proj2 (Z.eqb_neq i 0)) by lia. rewrite Hunit. cbn [default].
    unfold fixed1. rewrite (proj2 (Z.leb_gt _ _)); [by rewrite !str_app_assoc|].
    apply Z.div_lt_upper_bound; nia.
  - nia.
  - intros H6. assert (n < 1024 * 1024 ^ i) as Hup; [|nia].
    rewrite <- Z.pow_succ_r by lia. unfold i in *. destruct (6 <=? level n) eqn:E; [|by rewrite <- Z.add_1_r].
    change (Z.succ 5) with 6. lia.
Qed.
End Sizes.

(** The level from binary logarithms is exact. *)
Definition log2_level (n : Z) : Z := Z.log2 n / 10.

Lemma log2_level_exact n : 0 < n → 0 <= log2_level n ∧ 1024 ^ log2_level n <= n < 1024 ^ (log2_level n + 1).
Proof.
  intros Hn. unfold log2_level. pose proof (Z.log2_spec n Hn) as [H1 H2]. pose proof (Z.log2_nonneg n).
  pose proof (Z.div_mod (Z.log2 n) 10 ltac:(lia)). pose proof (Z.mod_pos_bound (Z.log2 n) 10 ltac:(lia)).
  assert (0 <= Z.log2 n / 10) by (apply Z.div_pos; lia). change 1024 with (2 ^ 10). rewrite <- !Z.pow_mul_r by lia.
  split; [done|]. split.
  - etrans; [|exact H1]. apply Z.pow_le_mono_r; lia.
  - eapply Z.lt_le_trans; [exact H2|]. apply Z.pow_le_mono_r; lia.
Qed.

Lemma bytes_text_spec_witness :
  ∃ i unit t, 1 <= i <= 5 ∧ size_units !! Z.to_nat i = Some unit ∧
    ocFormatBytes log2_level (Some (Fin 1536000)) = dec (t / 10) +:+ "." +:+ dec (t mod 10) +:+ " " +:+ unit ∧
    - 1024 ^ i <= 2 * (10 * 1536000 - t * 1024 ^ i) < 1024 ^ i ∧
    10 <= t ∧ (1536000 < 1024 ^ 6 → t <= 10240).
Proof. apply (bytes_text_spec log2_level log2_level_exact 1536000). lia. Defined.

(** One byte below a megabyte reads 1024.0 KB. *)
Example rounded_up :
  map (λ n, ocFormatBytes log2_level (Some (Fin n))) [512; 1536; 1048575; 1048576; 3 * 1024 ^ 6] =
  ["512 B"; "1.5 KB"; "1024.0 KB"; "1.0 MB"; "3072.0 PB"].
Proof. vm_compute. reflexivity. Qed.

(** ** Folds *)

Lemma depth_fused (foldable : nat → option (Z * Z)) pos ns d :
  fold_left (λ d r, if inside pos r then d + 1 else d) (omap foldable ns) d =
  fold_left (λ d n, match foldable n with Some r => if inside pos r then d + 1 else d | None => d end) ns d.
Proof. revert d. induction ns as [|n ns IH]; intros d; cbn; [done|]. destruct (foldable n); cbn; apply IH. Qed.

(** The depth of one line is its entry among the depths of the lines. *)
Theorem fold_depth_one foldable line_from fl ll n :
  (fl <= n <= ll)%nat →
  _foldDepth foldable line_from fl ll !! (n - fl)%nat = Some (_foldDepth1 foldable line_from n fl ll).
Proof.
  intros Hn. unfold _foldDepth, _foldDepth1. rewrite list_lookup_fmap.
  assert (lines_from_to fl ll !! (n - fl)%nat = Some n) as ->.
  { unfold lines_from_to. rewrite lookup_seq_lt by lia. f_equal. lia. }
  cbn. by rewrite depth_fused.
Qed.

(** ** Preloading *)

(** At most one frame is to come, and it is the remembered one; when none is,
    the tree was last asked for with the view as it is. *)
Definition preload_ok (buffer : nat) (p : preload) : Prop :=
  match pr_rafId p with
  | Some i => pr_frames p = [i] ∧ (i < pr_next p)%nat
  | None => pr_frames p = [] ∧ last (pr_asked p) = Some (asked_for buffer (pr_view p))
  end.

Theorem preload_settles buffer v evs :
  preload_ok buffer (fold_left (preload_step buffer) evs (preload_start buffer v)).
Proof.
  assert (∀ p, preload_ok buffer p → preload_ok buffer (fold_left (preload_step buffer) evs p)) as H; [|by apply H].
  induction evs as [|ev evs IH]; intros p Hp; [done|]. cbn [fold_left]. apply IH. clear IH.
  destruct p as [raf frames next view asked]. unfold preload_ok in *. cbn in Hp. destruct ev as [v'|]; cbn.
  - unfold preload_update. cbn. case_bool_decide; [done|]. cbn. destruct raf as [i|].
    + destruct Hp as [-> Hi]. cbn. rewrite Nat.eqb_refl. cbn. split; [done|lia].
    + destruct Hp as [-> _]. cbn. split; [done|lia].
  - unfold preload_frame. cbn. destruct raf as [i|].
    + destruct Hp as [-> Hi]. cbn. by rewrite last_snoc.
    + by destruct Hp as [-> Hl].
Qed.

Lemma preload_target_bounds buffer ll lines :
  (ll <= lines)%nat → (ll <= preload_target buffer ll lines <= lines)%nat.
Proof. unfold preload_target. lia. Qed.

(** ** Styles of the log *)

(** Every style of a token has a class, and different styles have different
    ones. *)
Lemma log_class_total style : style ∈ logTag → is_Some (log_class style).
Proof.
  intros H. assert (forallb (λ s, bool_decide (is_Some (log_class s))) logTag = true) as Hall by (vm_compute; done).
  rewrite forallb_forall in Hall. by apply list_elem_of_In, Hall, bool_decide_eq_true_1 in H.
Qed.

Lemma log_level_tag cache name : level_style cache name ∈ logTag.
Proof.
  unfold level_style. assert ("category" ∈ logTag) as Hc by (apply list_elem_of_In; cbn; tauto).
  destruct (level_of _ _); [|done]. destruct (str_truthy _ && existsb _ _) eqn:E; [|done].
  apply andb_true_iff in E as [_ (t & Ht & ->%String.eqb_eq)%existsb_exists]. by apply list_elem_of_In.
Qed.

Theorem token_styled {S} (A : StreamApi S) trs (stream : S) st style :
  fst (fst (token trs stream st)) = Some style → is_Some (log_class style).
Proof.
  intros H. apply log_class_total. revert H. unfold token.
  repeat case_match; cbn; intros [= <-]; try apply log_level_tag; apply list_elem_of_In; cbn; tauto.
Qed.

(** ** Preparations *)

(** Whatever is prepared in whatever order, the languages are registered once,
    before the renderer that highlights with them, and the renderer at most
    once. *)
Inductive preparation : Type := EnsureHljs | EnsureMarked.

Definition prepare (p : prepared) (c : preparation) : prepared :=
  match c with EnsureHljs => _ocEnsureHljs p | EnsureMarked => _ocEnsureMarked p end.

Definition prepared_ok (p : prepared) : Prop :=
  pp_done p = (if pp_hljs p then hljs_languages else []) ++ (if pp_marked p then [UseRenderer] else [])
  ∧ (pp_marked p = true → pp_hljs p = true).

Lemma prepare_ok p c : prepared_ok p → prepared_ok (prepare p c).
Proof.
  destruct p as [h m d]. unfold prepared_ok. cbn. intros [-> Hm].
  destruct c, h, m; try (by specialize (Hm eq_refl)); (split; [|done]); cbn; by rewrite ?app_nil_r.
Qed.

Theorem prepared_once cs :
  let p := fold_left prepare cs (mkPrepared false false []) in
  pp_done p ∈ [[]; hljs_languages; hljs_languages ++ [UseRenderer]].
Proof.
  assert (∀ p, prepared_ok p → prepared_ok (fold_left prepare cs p)) as H.
  { induction cs as [|c cs IH]; intros p Hp; [done|]. by apply IH, prepare_ok. }
  cbv zeta. destruct (H (mkPrepared false false [])) as [-> Hm]; [done|].
  destruct (pp_hljs _), (pp_marked _); try (by specialize (Hm eq_refl)); apply list_elem_of_In; cbn; tauto.
Qed.

(** ** The map without [WeakMap] *)

Section LidMapFacts.
Context {K : Type} `{Countable K} {V : Type}.
Implicit Types m : lid_map K V.

Inductive map_op : Type :=
  | MSet (id : string) (k : K) (v : V)
  | MDelete (k : K).

Definition lid_op (m : lid_map K V) (o : map_op) : lid_map K V :=
  match o with MSet id k v => lid_set id k v m | MDelete k => lid_delete k m end.

(** What the operations mean. *)
Definition ref_op (g : gmap K V) (o : map_op) : gmap K V :=
  match o with MSet _ k v => <[k := v]> g | MDelete k => delete k g end.

(** The names made so far. *)
Definition ids (ops : list map_op) : list string :=
  omap (λ o, match o with MSet id _ _ => Some id | MDelete _ => None end) ops.

Record lid_sim (used : list string) m (g : gmap K V) : Prop := mkLidSim {
  ls_get k : lid_get k m = g !! k;
  ls_used k id : lm_lids m !! k = Some id → id ∈ used;
  ls_inj k k' id : lm_lids m !! k = Some id → lm_lids m !! k' = Some id → k = k';
  ls_values id : is_Some (lm_values m !! id) → id ∈ used;
}.

Lemma lid_sim_set used m g id k v :
  id ∉ used → id ≠ "undefined" → lid_sim used m g → lid_sim (id :: used) (lid_set id k v m) (<[k := v]> g).
Proof.
  intros Hid Hu [Hg Hused Hinj Hv]. constructor; cbn.
  - intros k'. unfold lid_get, lid_of in *. cbn. destruct (decide (k' = k)) as [->|Hk].
    + by rewrite lookup_insert_eq, lookup_insert_eq; cbn; rewrite lookup_insert_eq.
    + rewrite !(lookup_insert_ne _ k) by done. rewrite <- Hg.
      destruct (lm_lids m !! k') as [id'|] eqn:E; cbn; rewrite lookup_insert_ne; try done.
      intros ->. by apply Hused in E.
  - intros k' id'. rewrite elem_of_cons. destruct (decide (k' = k)) as [->|Hk].
    + rewrite lookup_insert_eq. intros [= ->]. by left.
    + rewrite lookup_insert_ne by done. intros ?%Hused. by right.
  - intros k1 k2 id'. destruct (decide (k1 = k)) as [->|H1], (decide (k2 = k)) as [->|H2]; try done;
      rewrite ?lookup_insert_eq, ?lookup_insert_ne by done.
    + intros [= ->] ?%Hused. done.
    + intros E [= ->]. by apply Hused in E.
    + apply Hinj.
  - intros id'. rewrite elem_of_cons. destruct (decide (id' = id)) as [->|Hne]; [by left|].
    rewrite lookup_insert_ne by done. intros ?%Hv. by right.
Qed.

Lemma lid_sim_delete used m g k :
  "undefined" ∉ used → lid_sim used m g → lid_sim used (lid_delete k m) (delete k g).
Proof.
  intros Hu [Hg Hused Hinj Hv]. constructor; cbn; [|done|done|].
  - intros k'. unfold lid_get in *. cbn. unfold lid_of in *. cbn. destruct (decide (k' = k)) as [->|Hk].
    + by rewrite lookup_delete_eq, lookup_delete_eq.
    + rewrite (lookup_delete_ne g) by done. rewrite <- Hg.
      destruct (lm_lids m !! k') as [id'|] eqn:E; cbn.
      * apply lookup_delete_ne. destruct (lm_lids m !! k) as [id|] eqn:E2; cbn.
        -- intros ->. by destruct Hk; eapply Hinj.
        -- intros <-. by apply Hused in E.
      * destruct (lm_lids m !! k) as [id|] eqn:E2; cbn.
        -- rewrite lookup_delete_ne; [done|]. intros ->. by apply Hused in E2.
        -- rewrite lookup_delete_eq. destruct (lm_values m !! "undefined") eqn:E3; [|done].
           exfalso. apply Hu, Hv. rewrite E3. by eexists.
  - intros id [v Hd]. apply Hv. apply lookup_delete_Some in Hd as [_ Hd]. by eexists.
Qed.

(** C34: The substitute for [WeakMap] is a map: after any operations with names that
    do not repeat, each key gives the value last set and not deleted. *)
Theorem lid_map_refines ops k :
  NoDup (ids ops) → "undefined" ∉ ids ops →
  lid_get k (fold_left lid_op ops (mkLidMap ∅ ∅)) = fold_left ref_op ops ∅ !! k.
Proof.
  assert (∀ used m g, lid_sim used m g → NoDup (ids ops ++ used) → "undefined" ∉ ids ops ++ used →
    lid_get k (fold_left lid_op ops m) = fold_left ref_op ops g !! k) as Hgen.
  { induction ops as [|o ops IH]; intros used m g Hs Hnd Hu; cbn [fold_left]; [apply Hs|].
    destruct o as [id k0 v|k0]; cbn in Hnd, Hu.
    - apply NoDup_cons in Hnd as [Hid Hnd]. apply not_elem_of_cons in Hu as [Hne Hu].
      assert (ids ops ++ id :: used ≡ₚ id :: ids ops ++ used) as Hp by (by rewrite Permutation_middle).
      apply (IH (id :: used)).
      + apply lid_sim_set; [rewrite elem_of_app in Hid; naive_solver|by apply not_eq_sym|done].
      + rewrite Hp. by apply NoDup_cons.
      + rewrite Hp. by apply not_elem_of_cons.
    - apply (IH used); [|done|done]. apply lid_sim_delete; [|done]. rewrite elem_of_app in Hu. naive_solver. }
  intros Hnd Hu. apply (Hgen []); rewrite ?app_nil_r; [|done|done].
  constructor; cbn; intros *; unfold lid_get; cbn; rewrite ?lookup_empty; try done.
Qed.
End LidMapFacts.

Lemma lid_map_refines_witness :
  lid_get 1%nat (fold_left lid_op [MSet "a" 1%nat 10; MSet "b" 2%nat 20; MDelete 1%nat; MSet "c" 1%nat 30] (mkLidMap ∅ ∅)) =
  Some 30.
Proof.
  rewrite lid_map_refines; [reflexivity|apply (bool_decide_unpack _); vm_compute; exact I|apply (bool_decide_unpack _); vm_compute; exact I].
Defined.

(** ** CBI pages *)

(** The elements that are centred are those whose id ends with one of the
    names. *)
Lemma ocCenterCbiActions_spec l :
  ocCenterCbiActions l =
  map (λ e, if existsb (λ id, id_ends ("-" +:+ id) e) centered_ids then centered e else e) l.
Proof.
  unfold ocCenterCbiActions. generalize centered_ids as names. intros names. revert l.
  induction names as [|id names IH]; intros l; cbn [fold_left existsb].
  { by rewrite map_id. }
  rewrite IH, map_map. apply map_ext. intros e.
  assert (∀ s, id_ends s (centered e) = id_ends s e) as Hc by done.
  destruct (id_ends ("-" +:+ id) e) eqn:E; cbn [orb]; [|done].
  by destruct (existsb _ names).
Qed.

Lemma cbi_idempotent l :
  ocCenterCbiActions (ocCenterCbiActions l) = ocCenterCbiActions l ∧
  ocHideEmptyCbiElements (ocHideEmptyCbiElements l) = ocHideEmptyCbiElements l.
Proof.
  rewrite !ocCenterCbiActions_spec. unfold ocHideEmptyCbiElements. rewrite !map_map. split; apply map_ext; intros e.
  - set (f := λ e, existsb (λ id, id_ends ("-" +:+ id) e) centered_ids).
    change ((if f (if f e then centered e else e) then centered (if f e then centered e else e)
             else if f e then centered e else e) = if f e then centered e else e).
    destruct (f e) eqn:E; [|by rewrite E]. by destruct (f (centered e)).
  - destruct (String.eqb (str_trim (ce_text e)) "") eqn:E; cbn [ce_text]; by rewrite E.
Qed.

(** ** Themes *)

Lemma dispatch_all_views txt isDark views styles :
  fst (dispatch_all txt isDark views styles) = map (option_map (λ _, isDark)) views.
Proof.
  revert styles. induction views as [|[v|] views IH]; intros styles; cbn; [done|..].
  - specialize (IH (mirrorThemeScrollbar txt isDark styles)). by destruct (dispatch_all _ _ _ _); cbn in *; rewrite IH.
  - specialize (IH styles). by destruct (dispatch_all _ _ _ _); cbn in *; rewrite IH.
Qed.

(** After the page's theme is applied, every editor that has a view shows it,
    and so does the code, whatever theme they had. *)
Theorem apply_theme_all txt isDark p :
  te_views (apply_theme txt isDark p) = map (option_map (λ _, isDark)) (te_views p) ∧
  cs_style (te_code (apply_theme txt isDark p)) = if cs_injected (te_code p) then
      match cs_style (te_code p) with Some _ => Some isDark | None => None end
    else Some isDark.
Proof.
  unfold apply_theme. pose proof (dispatch_all_views txt isDark (te_views p) (te_styles p)) as H.
  destruct (dispatch_all _ _ _ _) as [vs st]. cbn in *. split; [done|].
  unfold switchHljsTheme, injectHljsCSS. by destruct (te_code p) as [[|] [|]].
Qed.
