(* ===== verification/SmartDns.v ===== *)
(** [view/smartdns/smartdns.js] of luci-app-smartdns: the status line, the
    validators of the form and the fields kept in files. *)
From stdpp Require Import base list strings.
From Stdlib Require Import ZArith Lia Ascii Bool.
From S2P Require Import Prelude JsNum JsString JsRegExp Luci Forms.

(** ** Status *)

(** [res[conf]['instances']['smartdns']['running']]: [None] when a step of the
    path fails ([catch]), [Some None] when the last member is missing. *)
Definition getServiceStatus (running : option (option bool)) : bool :=
  match running with Some (Some b) => b | _ => false end.

(** The [server] option of dnsmasq: unset, a text or a list. *)
Inductive uci_value : Type :=
  | UciUnset
  | UciText (s : string)
  | UciList (l : list string).

(** [server.indexOf(line) >= 0]: a part of a text, or an element of a list. *)
Definition value_has (v : uci_value) (line : string) : bool :=
  match v with
  | UciUnset => false
  | UciText s => 0 <=? str_index_of s line
  | UciList l => existsb (String.eqb line) l
  end.

(** What the status line reads: first options of the two files, and the
    page's address. *)
Record status_source : Type := mkStatusSource {
  ss_auto_set_dnsmasq : option string;
  ss_port : option string;
  ss_enabled : option string;
  ss_server : uci_value;
  ss_ui : option string;
  ss_ui_port : option string;
  ss_protocol : string;
  ss_hostname : string;
}.

Definition opt_is (o : option string) (s : string) : bool :=
  match o with Some t => String.eqb t s | None => false end.

(** [a || b] of an option and a text. *)
Definition or_text (o : option string) (d : string) : string :=
  match o with Some t => if str_truthy t then t else d | None => d end.

(** A value in a concatenation. *)
Definition shown_text (o : option string) : string := default "undefined" o.

Section SmartDns.
Context {I : I18n}.

Definition bold (color text : string) : string :=
  "<span style=" +:+ dq +:+ "color:" +:+ color +:+ ";font-weight:bold" +:+ dq +:+ ">" +:+ text.

Definition ui_link (c : status_source) : string :=
  ss_protocol c +:+ "//" +:+ ss_hostname c +:+ ":" +:+ or_text (ss_ui_port c) "6080".

Definition matchLine (c : status_source) : string := "127.0.0.1#" +:+ shown_text (ss_port c).

(** The notice that dnsmasq does not forward to the server. *)
Definition forward_notice (c : status_source) : string :=
  if opt_is (ss_auto_set_dnsmasq c) "1" && negb (opt_is (ss_port c) "53")
     && negb (value_has (ss_server c) (matchLine c))
  then "<br />" +:+ bold "red" (tr "Dnsmasq Forwarded To Smartdns Failure") +:+ "</span>"
  else "".

Definition smartdnsRenderStatus (isRunning : bool) (c : status_source) : string :=
  if isRunning then
    bold "green" ("SmartDNS - " +:+ tr "RUNNING") +:+ "</span>"
    +:+ (if String.eqb (or_text (ss_ui c) "0") "1" then
           "&#160; <a class=" +:+ dq +:+ "cbi-button cbi-button-positive" +:+ dq +:+ " href=" +:+ dq
           +:+ ui_link c +:+ dq +:+ " target=" +:+ dq +:+ "_blank" +:+ dq +:+ ">"
           +:+ tr "Open the WebUI" +:+ "</a>"
         else "")
    +:+ forward_notice c
  else
    bold "red" ("SmartDNS - " +:+ tr "NOT RUNNING") +:+ "</span>"
    +:+ (if opt_is (ss_enabled c) "1" then
           "<br />" +:+ bold "red" (tr "Please check the system logs and check if the configuration is valid.")
           +:+ "</span>"
         else "").

(** ** Validators *)

(** [mode.split(":")[1] == ""] *)
Definition second_empty (mode : string) : bool :=
  match str_split ":" mode !! 1%nat with Some p => String.eqb p "" | None => false end.

Fixpoint check_modes (modes : list string) : verdict :=
  match modes with
  | [] => Valid
  | mode :: rest =>
      if String.eqb mode "ping" then check_modes rest
      else if str_index_of mode "tcp:" =? 0 then
        if second_empty mode then Invalid (tr "TCP port is empty") else check_modes rest
      else if str_index_of mode "tcp-syn:" =? 0 then
        if second_empty mode then Invalid (tr "TCP SYN port is empty") else check_modes rest
      else Invalid (tr "Speed check mode is invalid.")
  end.

Definition speed_check_validate (value : string) : verdict :=
  if String.eqb value "" then Valid
  else if String.eqb value "none" then Valid
  else check_modes (str_split "," value).

Definition between (lo hi c : ascii) : bool :=
  Nat.leb (nat_of_ascii lo) (nat_of_ascii c) && Nat.leb (nat_of_ascii c) (nat_of_ascii hi).

(** [[a-zA-Z0-9\-_]] *)
Definition name_char (c : ascii) : bool :=
  between "a" "z" c || between "A" "Z" c || between "0" "9" c || Ascii.eqb c "-" || Ascii.eqb c "_".

(** [#[4|6]:], with the bar in the class as written. *)
Definition family_re : re :=
  RCat (RText "#") (RCat (RChar (λ c, Ascii.eqb c "4" || Ascii.eqb c "|" || Ascii.eqb c "6")) (RText ":")).

(** [^(#[4|6]:)?[a-zA-Z0-9\-_]+$] *)
Definition ipset_re : re := RCat (ROpt family_re) (RPlus (RChar name_char)).

(** [#[4|6]:[a-zA-Z0-9\-_]+#[a-zA-Z0-9\-_]+#[a-zA-Z0-9\-_]+$] *)
Definition nftset_re : re :=
  let name := RPlus (RChar name_char) in
  RCat family_re (RCat name (RCat (RText "#") (RCat name (RCat (RText "#") name)))).

Definition each_item (matches : string → bool) (message value : string) : verdict :=
  if String.eqb value "" then Valid
  else if forallb matches (str_split "," value) then Valid else Invalid message.

Definition ipset_validate : string → verdict :=
  each_item (re_full ipset_re) (tr "ipset name format error, format: [#[4|6]:]ipsetname").

Definition nftset_message : string := tr "NFTset name format error, format: [#[4|6]:[family#table#set]]".

Definition nftset_validate : string → verdict := each_item (re_full nftset_re) nftset_message.

(** The domain rule list's, whose expression lacks the leading [^]. *)
Definition nftset_rule_validate : string → verdict := each_item (re_ends nftset_re) nftset_message.

Definition url_validate (value : string) : verdict :=
  if String.eqb value "" then Valid
  else if re_begins (RCat (RTexts ["http"; "https"; "ftp"; "sftp"]) (RText "://")) value then Valid
  else Invalid (tr "URL format error, format: http:// or https://").

Definition proxy_server_validate (value : string) : verdict :=
  if String.eqb value "" then Valid
  else if re_begins (RCat (RTexts ["socks5"; "http"]) (RText "://")) value then Valid
  else Invalid (tr "Proxy server URL format error, format: [socks5|http]://user:pass@ip:port.").

(** [flag] and [server_type] are the form's values, [proxy_server] the stored
    one. *)
Definition use_proxy_validate (flag server_type : string) (proxy_server : option string) : verdict :=
  if String.eqb flag "0" then Valid
  else match proxy_server with
       | None | Some "" => Invalid (tr "Please set proxy server first.")
       | Some url =>
           if (String.eqb server_type "udp" || String.eqb server_type "quic" || String.eqb server_type "h3")
              && negb (re_begins (RText "socks5://") url)
           then Invalid (tr "Only socks5 proxy support UDP, QUIC and HTTP3 server.")
           else Valid
       end.

Definition digit : re := RChar is_digit.
Definition digits (lo hi : ascii) : re := RChar (between lo hi).

(** [25[0-5]|2[0-4][0-9]|[01]?[0-9][0-9]?] *)
Definition octet_re : re :=
  RAlt (RCat (RText "25") (digits "0" "5"))
    (RAlt (RCat (RText "2") (RCat (digits "0" "4") digit))
       (RCat (ROpt (digits "0" "1")) (RCat digit (ROpt digit)))).

(** [[0-9]|[1-2][0-9]|3[0-2]] *)
Definition prefix4_re : re :=
  RAlt digit (RAlt (RCat (digits "1" "2") digit) (RCat (RText "3") (digits "0" "2"))).

(** [^(octet\.){3}octet(\/prefix)?$] *)
Definition client_v4_re : re :=
  RCat (RTimes 3 (RCat octet_re (RText "."))) (RCat octet_re (ROpt (RCat (RText "/") prefix4_re))).

Definition hex_char (c : ascii) : bool := between "a" "f" c || between "A" "F" c || between "0" "9" c.

(** [[0-9]|[1-9][0-9]|1[0-1][0-9]|12[0-8]] *)
Definition prefix6_re : re :=
  RAlt digit (RAlt (RCat (digits "1" "9") digit)
    (RAlt (RCat (RText "1") (RCat (digits "0" "1") digit)) (RCat (RText "12") (digits "0" "8")))).

(** [^([a-fA-F0-9]*:){1,7}[a-fA-F0-9]*(\/prefix)?$] *)
Definition client_v6_re : re :=
  let group := RStar (RChar hex_char) in
  RCat (RBetween 1 7 (RCat group (RText ":"))) (RCat group (ROpt (RCat (RText "/") prefix6_re))).

(** [^([0-9A-Fa-f]{2}[:-]){5}([0-9A-Fa-f]{2})$] *)
Definition client_mac_re : re :=
  let pair := RTimes 2 (RChar hex_char) in
  RCat (RTimes 5 (RCat pair (RChar (λ c, Ascii.eqb c ":" || Ascii.eqb c "-")))) pair.

Definition client_addr_validate (value : string) : verdict :=
  if String.eqb value "" then Valid
  else if re_full client_v4_re value then Valid
  else if re_full client_v6_re value then Valid
  else if re_full client_mac_re value then Valid
  else Invalid (tr "Client address format error, please input ip adress or mac address.").

(** [groups]: the [server_group] options of the server sections, as they are
    when the field is validated. *)
Definition server_group_validate (groups : list (option string)) (value : string) : verdict :=
  if String.eqb value "" then Valid
  else if existsb (λ g, opt_is g value) groups then Valid
  else Invalid (format (tr "Server Group %s not exists") [FStr value]).
End SmartDns.

(** ** Fields kept in files *)

(** LuCI's [fs]: [trimmed] gives a file's text without surrounding white space
    and the empty text for a file that cannot be read; [write] replaces it. *)
Class FileStore (F : Type) : Type := {
  trimmed : F → string → string;
  fwrite : F → string → string → F;
}.

Class FileLaws (F : Type) {A : FileStore F} : Prop := {
  trimmed_write f p s : trimmed (fwrite f p s) p = str_trim s;
  trimmed_other f p q s : p ≠ q → trimmed (fwrite f p s) q = trimmed f q;
}.

Section FileFields.
Context {F : Type} {A : FileStore F}.

(** [cfgvalue] and [write] of a field kept in [path]. *)
Definition file_cfgvalue (f : F) (path : string) : string := trimmed f path.

Definition file_write (f : F) (path formvalue : string) : F :=
  if String.eqb (file_cfgvalue f path) formvalue then f
  else fwrite f path (crlf_to_lf (str_trim formvalue) +:+ lf).
End FileFields.
