(* ===== verification/SmartDnsFacts.v ===== *)
(** Facts about the smartdns page ([SmartDns]): what its validators accept,
    and that a text kept in a file reads back as it was saved. *)
From stdpp Require Import base list strings.
From Stdlib Require Import ZArith Lia Ascii Bool.
From S2P Require Import Prelude JsNum JsString JsRegExp Luci Forms SmartDns.

(** ** Speed check modes *)

(** [s.indexOf(pat) == 0] *)
Lemma index_of_start s pat : (str_index_of s pat =? 0) = true ↔ ∃ r, s = pat +:+ r.
Proof.
  unfold str_index_of. rewrite Z.eqb_eq, <- prefix_iff.
  destruct s as [|c s]; cbn [index_of_go]; destruct (String.prefix pat _); try (by split).
  split; [|done]. intros H. pose proof (index_of_go_ge pat s (0 + 1)). lia.
Qed.

(** Something other than a colon follows the method. *)
Definition has_port (p : string) : bool :=
  match p with String c _ => negb (Ascii.eqb c ":") | EmptyString => false end.

Definition mode_ok (m : string) : Prop :=
  m = "ping" ∨ ∃ p, (m = "tcp:" +:+ p ∨ m = "tcp-syn:" +:+ p) ∧ has_port p = true.

Lemma split_first p : ∃ x rest, str_split ":" p = x :: rest ∧ String.eqb x "" = negb (has_port p).
Proof.
  destruct p as [|c p]; [by eexists _, _|]. destruct (Ascii.eqb_spec c ":") as [->|Hne].
  - change (String ":" p) with ("" +:+ String ":" p). rewrite str_split_cons by done. by eexists _, _.
  - unfold str_split. cbn [split_go].
    assert (String.prefix ":" (String c p) = false) as ->.
    { cbn [String.prefix]. destruct (ascii_dec ":" c); [congruence|done]. }
    destruct (split_go ":" 0 p) as [q qs]. eexists _, _. split; [done|]. cbn [has_port].
    by destruct (Ascii.eqb_spec c ":").
Qed.

Lemma second_empty_spec m p : char_free ":" m = true → second_empty (m +:+ String ":" p) = negb (has_port p).
Proof.
  intros Hm. unfold second_empty. rewrite str_split_cons by done.
  destruct (split_first p) as (x & rest & E & Hx). rewrite E. exact Hx.
Qed.

Lemma check_modes_valid `{I18n} modes : check_modes modes = Valid ↔ Forall mode_ok modes.
Proof.
  induction modes as [|m modes IH]; [split; [constructor|done]|].
  rewrite Forall_cons. cbn [check_modes].
  destruct (String.eqb_spec m "ping") as [->|Hping]; [rewrite IH; unfold mode_ok; naive_solver|].
  destruct (str_index_of m "tcp:" =? 0) eqn:Et.
  { pose proof (proj1 (index_of_start _ _) Et) as [p ->].
    change ("tcp:" +:+ p) with ("tcp" +:+ String ":" p). rewrite second_empty_spec by done.
    destruct (has_port p) eqn:Hp; cbn [negb]; [rewrite IH|]; (split; [try done|]).
    - intros Hm. split; [|done]. right. exists p. split; [by left|done].
    - by intros [_ Hm].
    - intros [[?|(q & [Hq|Hq] & Hqp)] _]; [done| |done].
      apply (str_app_inj "tcp:" p q) in Hq as ->. congruence. }
  destruct (str_index_of m "tcp-syn:" =? 0) eqn:Es.
  { pose proof (proj1 (index_of_start _ _) Es) as [p ->].
    change ("tcp-syn:" +:+ p) with ("tcp-syn" +:+ String ":" p). rewrite second_empty_spec by done.
    destruct (has_port p) eqn:Hp; cbn [negb]; [rewrite IH|]; (split; [try done|]).
    - intros Hm. split; [|done]. right. exists p. split; [by right|done].
    - by intros [_ Hm].
    - intros [[?|(q & [Hq|Hq] & Hqp)] _]; [done|done|].
      apply (str_app_inj "tcp-syn:" p q) in Hq as ->. congruence. }
  split; [done|]. intros [[?|(q & Hq & _)] _]; [done|].
  destruct Hq as [Hq|Hq]; [rewrite (proj2 (index_of_start m "tcp:")) in Et|rewrite (proj2 (index_of_start m "tcp-syn:")) in Es];
    done || by exists q.
Qed.

(** A speed check mode is accepted iff it is empty, [none], or a list
    separated by commas of [ping], [tcp:...] and [tcp-syn:...] with something
    other than a colon after the method; ports are not looked at further. *)
Theorem speed_check_validate_iff `{I18n} value :
  speed_check_validate value = Valid ↔
  value = "" ∨ value = "none" ∨ Forall mode_ok (str_split "," value).
Proof.
  unfold speed_check_validate. destruct (String.eqb_spec value ""); [naive_solver|].
  destruct (String.eqb_spec value "none"); [naive_solver|]. rewrite check_modes_valid. naive_solver.
Qed.

(** ** Texts kept in files *)

Lemma trim_end_last s : trim_end s = s ↔ from_option (λ c, is_ws c = false) True (last_of None s).
Proof.
  induction s as [|c s IH]; [done|]. cbn [trim_end last_of]. destruct s as [|d s].
  - cbn. destruct (is_ws c); by split.
  - cbn [last_of] in *. rewrite <- IH. destruct (trim_end (String d s)) as [|e t] eqn:E.
    + split; [destruct (is_ws c)|]; intros [=].
    + split; [intros [= -> ->]; reflexivity|]. intros [= -> ->]. reflexivity.
Qed.

Lemma trim_end_idem s : trim_end (trim_end s) = trim_end s.
Proof.
  induction s as [|c s IH]; [done|]. cbn [trim_end]. destruct (trim_end s) as [|d t] eqn:E.
  - destruct (is_ws c) eqn:Ec; [done|]. cbn. by rewrite Ec.
  - cbn [trim_end] in *. by rewrite IH.
Qed.

Lemma trim_start_head s : trim_start s = s ↔ match s with String c _ => is_ws c = false | EmptyString => True end.
Proof.
  destruct s as [|c s]; [done|]. cbn [trim_start]. destruct (is_ws c); [|done]. split; [|done].
  intros H. assert (∀ t, (String.length (trim_start t) <= String.length t)%nat) as Hl.
  { induction t as [|d t IHt]; cbn; [lia|]. destruct (is_ws d); cbn in *; lia. }
  specialize (Hl s). rewrite H in Hl. cbn in Hl. lia.
Qed.

Lemma trim_start_idem s : trim_start (trim_start s) = trim_start s.
Proof. induction s as [|c s IH]; [done|]. cbn [trim_start]. destruct (is_ws c) eqn:E; [done|]. cbn. by rewrite E. Qed.

Lemma trim_end_app_ws s w : is_ws w = true → trim_end (s +:+ String w "") = trim_end s.
Proof.
  intros Hw. induction s as [|c s IH]; [rewrite str_app_nil_l; cbn [trim_end]; by rewrite Hw|]. rewrite str_app_cons. cbn [trim_end]. by rewrite IH.
Qed.

Lemma trim_end_start s : trim_start s = s → trim_start (trim_end s) = trim_end s.
Proof.
  rewrite !trim_start_head. destruct s as [|c s]; [done|]. intros Hc. cbn [trim_end].
  destruct (trim_end s); [by rewrite Hc|done].
Qed.

Lemma str_trim_ends s : trim_start (str_trim s) = str_trim s ∧ trim_end (str_trim s) = str_trim s.
Proof. unfold str_trim. split; [apply trim_end_start, trim_start_idem|apply trim_end_idem]. Qed.

Lemma crlf_last p s : last_of p (crlf_to_lf s) = last_of p s.
Proof.
  revert p. induction s as [|c s IH]; intros p; [done|]. destruct s as [|d s]; [done|].
  change (crlf_to_lf (String c (String d s))) with
    (if Ascii.eqb c "013" && Ascii.eqb d "010" then crlf_to_lf (String d s) else String c (crlf_to_lf (String d s))).
  destruct (_ && _); [by rewrite IH|]. cbn [last_of]. apply IH.
Qed.

Lemma crlf_head c s : is_ws c = false → ∃ t, crlf_to_lf (String c s) = String c t.
Proof.
  intros Hc. destruct s as [|d s]; [by eexists|].
  change (crlf_to_lf (String c (String d s))) with
    (if Ascii.eqb c "013" && Ascii.eqb d "010" then crlf_to_lf (String d s) else String c (crlf_to_lf (String d s))).
  destruct (Ascii.eqb_spec c "013") as [->|_]; [done|]. by eexists.
Qed.

(** The text written, read back. *)
Lemma written_trimmed v : str_trim (crlf_to_lf (str_trim v) +:+ lf) = crlf_to_lf (str_trim v).
Proof.
  destruct (str_trim_ends v) as [Hs He]. revert Hs He. generalize (str_trim v). intros t Hs He.
  assert (trim_end (crlf_to_lf t) = crlf_to_lf t) as He'.
  { apply trim_end_last. rewrite crlf_last. by apply trim_end_last. }
  unfold str_trim. assert (trim_start (crlf_to_lf t +:+ lf) = crlf_to_lf t +:+ lf ∨ t = "") as [->| ->].
  - destruct t as [|c t]; [by right|]. left. apply trim_start_head in Hs.
    destruct (crlf_head c t Hs) as [u ->]. by apply trim_start_head.
  - unfold lf. rewrite trim_end_app_ws by done. exact He'.
  - done.
Qed.

(** C24: saving a text kept in a file, over any file store with the documented
    behaviour: the field then shows the text without surrounding white space
    and with line feeds for line ends (or as it was, when it was unchanged);
    saving what is shown changes nothing; and no other file changes. *)
Theorem text_field_saved {F} (A : FileStore F) (L : FileLaws F) (f : F) path v :
  let f' := file_write f path v in
  file_cfgvalue f' path =
    (if String.eqb (file_cfgvalue f path) v then v else crlf_to_lf (str_trim v)) ∧
  file_write f' path (file_cfgvalue f' path) = f' ∧
  ∀ q, q ≠ path → file_cfgvalue f' q = file_cfgvalue f q.
Proof.
  intros f'. assert (file_write f' path (file_cfgvalue f' path) = f') as Hw
    by (unfold file_write; by rewrite String.eqb_refl).
  split_and!; [|done|].
  - unfold f', file_write. destruct (String.eqb_spec (file_cfgvalue f path) v) as [<-|Hne]; [done|].
    unfold file_cfgvalue. by rewrite trimmed_write, written_trimmed.
  - intros q Hq. unfold f', file_write. destruct (String.eqb _ v); [done|].
    unfold file_cfgvalue. by rewrite trimmed_other.
Qed.

(** A file store as a function from paths to contents. *)
Definition plain_files : FileStore (string → option string) := {|
  trimmed f p := str_trim (default "" (f p));
  fwrite f p s := λ q, if String.eqb q p then Some s else f q;
|}.

Lemma plain_files_laws : @FileLaws _ plain_files.
Proof.
  constructor; cbn.
  - intros f p s. by rewrite String.eqb_refl.
  - intros f p q s Hne. by destruct (String.eqb_spec q p) as [->|].
Qed.

Lemma text_field_saved_witness :
  let f := λ _ : string, None in
  @file_cfgvalue _ plain_files (@file_write _ plain_files f "/etc/smartdns/custom.conf" " a") "/etc/smartdns/custom.conf"
    = "a".
Proof.
  cbv zeta. destruct (@text_field_saved _ plain_files plain_files_laws (λ _, None) "/etc/smartdns/custom.conf" " a")
    as (H & _ & _). etransitivity; [exact H|]. vm_compute. reflexivity.
Defined.

(** ** Client addresses *)

(** A decimal number of at most [n] digits up to [hi]. *)
Definition number_upto (n : nat) (hi : Z) (s : string) : Prop :=
  s ≠ "" ∧ (String.length s <= n)%nat ∧ str_forall is_digit s = true ∧ parse_digits 10 0 s <= hi.

Definition digit_before (s : string) : list string :=
  map (λ c, String c s) ["0"; "1"; "2"; "3"; "4"; "5"; "6"; "7"; "8"; "9"]%char.

Fixpoint digit_strings (n : nat) : list string :=
  match n with
  | O => [""]
  | S n' => "" :: concat (map digit_before (digit_strings n'))
  end.

Lemma digit_strings_all n s :
  (String.length s <= n)%nat → str_forall is_digit s = true → s ∈ digit_strings n.
Proof.
  revert s. induction n as [|n IH]; intros [|c s] Hl Hd; cbn in Hl; try lia; [left|left|].
  cbn in Hd. apply andb_true_iff in Hd as [Hc Hs]. cbn [digit_strings]. right.
  rewrite list_elem_of_In. apply in_concat. exists (digit_before s). split.
  - apply in_map. rewrite <- list_elem_of_In. apply IH; [lia|done].
  - apply (in_map (λ c, String c s)). revert Hc.
    destruct c as [[] [] [] [] [] [] [] []]; vm_compute; intros Hc; try discriminate Hc; tauto.
Qed.

(** An expression over digits whose matches are short: checked on all. *)
Lemma digits_re r n (P : string → bool) :
  chars_ok is_digit r → max_len r = Some n →
  forallb (λ s, Bool.eqb (re_full r s) (P s)) (digit_strings n) = true →
  ∀ s, lang r s ↔ (String.length s <= n)%nat ∧ str_forall is_digit s = true ∧ P s = true.
Proof.
  intros Hchars Hlen Hall s. rewrite forallb_forall in Hall.
  assert (∀ t, (String.length t <= n)%nat → str_forall is_digit t = true → re_full r t = P t) as Hc.
  { intros t Hl Hd. apply eqb_prop, Hall. rewrite <- list_elem_of_In. by apply digit_strings_all. }
  unfold lang. rewrite <- re_full_spec. split.
  - intros H. assert ((String.length s <= n)%nat ∧ str_forall is_digit s = true) as [Hl Hd].
    { apply re_full_spec in H. split; [by eapply max_len_bound|by eapply chars_forall]. }
    rewrite Hc in H by done. done.
  - intros (Hl & Hd & HP). by rewrite Hc.
Qed.

Lemma between_digit lo hi c :
  (48 <= nat_of_ascii lo)%nat → (nat_of_ascii hi <= 57)%nat → between lo hi c = true → is_digit c = true.
Proof.
  unfold between, is_digit. intros Hlo Hhi [H1%Nat.leb_le H2%Nat.leb_le]%andb_true_iff.
  apply andb_true_iff. split; apply Nat.leb_le; lia.
Qed.

Ltac digit_chars :=
  cbn; repeat split; try (intros c Hc; first [apply Ascii.eqb_eq in Hc as ->; reflexivity | exact Hc |
    (eapply between_digit; [| |exact Hc]); vm_compute; lia]).

Lemma octet_lang s : lang octet_re s ↔ number_upto 3 255 s.
Proof.
  rewrite (digits_re octet_re 3 (λ t, str_truthy t && (parse_digits 10 0 t <=? 255)));
    [|digit_chars|reflexivity|vm_compute; reflexivity].
  unfold number_upto. rewrite andb_true_iff, Z.leb_le.
  assert (str_truthy s = true ↔ s ≠ "") as -> by (by destruct s). tauto.
Qed.

(** A prefix length without a leading zero. *)
Definition prefix_upto (hi : Z) (s : string) : Prop := ∃ k, 0 <= k <= hi ∧ s = dec k.

Lemma prefix4_lang s : lang prefix4_re s ↔ prefix_upto 32 s.
Proof.
  rewrite (digits_re prefix4_re 2 (λ t, existsb (String.eqb t) (map (λ k, dec (Z.of_nat k)) (seq 0 33))));
    [|digit_chars|reflexivity|vm_compute; reflexivity].
  unfold prefix_upto. split.
  - intros (_ & _ & H). apply existsb_exists in H as (t & Ht & E). apply String.eqb_eq in E as <-.
    apply in_map_iff in Ht as (k & <- & Hk). apply in_seq in Hk. exists (Z.of_nat k). split; [lia|done].
  - intros (k & Hk & ->).
    assert (forallb (λ j, (Nat.leb (String.length (dec (Z.of_nat j))) 2)
              && str_forall is_digit (dec (Z.of_nat j))) (seq 0 33) = true) as Hall by (vm_compute; reflexivity).
    rewrite forallb_forall in Hall. specialize (Hall (Z.to_nat k)). rewrite Z2Nat.id in Hall by lia.
    apply andb_true_iff in Hall as [Hl Hd]; [|apply in_seq; lia]. apply Nat.leb_le in Hl.
    split_and!; try done. apply existsb_exists. exists (dec k). split; [|apply String.eqb_refl].
    apply in_map_iff. exists (Z.to_nat k). rewrite Z2Nat.id by lia. split; [done|]. apply in_seq. lia.
Qed.

Lemma lang_then_text r t s :
  context_free r = true → lang (RCat r (RText t)) s ↔ ∃ u, s = u +:+ t ∧ lang r u.
Proof.
  intros Hr. rewrite lang_cat by (done || apply context_text). split.
  - intros (u & v & -> & Hu & ->%lang_text). by exists u.
  - intros (u & -> & Hu). exists u, t. split_and!; try done. by apply lang_text.
Qed.

Lemma lang_text_then r t s :
  context_free r = true → lang (RCat (RText t) r) s ↔ ∃ u, s = t +:+ u ∧ lang r u.
Proof.
  intros Hr. rewrite lang_cat by (done || apply context_text). split.
  - intros (u & v & -> & ->%lang_text & Hv). by exists v.
  - intros (u & -> & Hu). exists t, u. split_and!; try done. by apply lang_text.
Qed.

(** The first form of a client address is exactly a dotted quad of numbers
    of at most three digits up to 255, followed by nothing or by a slash and a
    prefix length from 0 to 32 without leading zeros. *)
Theorem client_v4_re_spec s :
  re_full client_v4_re s = true ↔
  ∃ a b c d t, s = a +:+ "." +:+ b +:+ "." +:+ c +:+ "." +:+ d +:+ t ∧
    Forall (number_upto 3 255) [a; b; c; d] ∧ (t = "" ∨ ∃ n, t = "/" +:+ n ∧ prefix_upto 32 n).
Proof.
  rewrite re_full_spec. fold (lang client_v4_re s). unfold client_v4_re. cbn [RTimes]. split.
  - intros H. apply lang_cat in H as (u & v & -> & Hu & Hv); [|done..].
    apply lang_cat in Hu as (u1 & v1 & -> & (a & -> & Ha)%lang_then_text & Hu); [|done..].
    apply lang_cat in Hu as (u2 & v2 & -> & (b & -> & Hb)%lang_then_text & Hu); [|done..].
    apply lang_cat in Hu as (u3 & v3 & -> & (c & -> & Hc)%lang_then_text & ->%eps_spec); [|done..].
    apply lang_cat in Hv as (d & t & -> & Hd & Ht); [|done..].
    exists a, b, c, d, t. rewrite !str_app_assoc, str_app_nil_l. split; [done|].
    split; [rewrite !Forall_cons; split_and!; [by apply octet_lang..|constructor]|].
    apply lang_opt in Ht as [(n & -> & Hn)%lang_text_then| ->]; [|done|by left].
    right. exists n. split; [done|]. by apply prefix4_lang.
  - intros (a & b & c & d & t & -> & H & Ht). rewrite !Forall_cons in H.
    destruct H as (Ha & Hb & Hc & Hd & _).
    apply lang_cat; [done..|]. exists (a +:+ "." +:+ b +:+ "." +:+ c +:+ "."), (d +:+ t).
    split; [by rewrite !str_app_assoc|]. split.
    + apply lang_cat; [done..|]. exists (a +:+ "."), (b +:+ "." +:+ c +:+ ".").
      split; [by rewrite !str_app_assoc|]. split; [apply lang_then_text; [done|]; exists a; by rewrite octet_lang|].
      apply lang_cat; [done..|]. exists (b +:+ "."), (c +:+ ".").
      split; [by rewrite !str_app_assoc|]. split; [apply lang_then_text; [done|]; exists b; by rewrite octet_lang|].
      apply lang_cat; [done..|]. exists (c +:+ "."), "".
      split; [by rewrite str_app_nil_r|]. split; [|by apply eps_spec].
      apply lang_then_text; [done|]; exists c; by rewrite octet_lang.
    + apply lang_cat; [done..|]. exists d, t. split; [done|]. split; [by apply octet_lang|].
      apply lang_opt. destruct Ht as [->|(n & -> & Hn)]; [by right|left].
      apply lang_text_then; [done|]. exists n. split; [done|]. by apply prefix4_lang.
Qed.
