(* ===== verification/SmartDnsForm.v ===== *)
(** [view/smartdns/smartdns.js] of luci-app-smartdns: the form, section by
    section and tab by tab, each option with its validator. *)
From stdpp Require Import base list strings.
From Stdlib Require Import ZArith Lia Ascii Bool.
From S2P Require Import Prelude JsNum JsString JsRegExp Luci Forms SmartDns.

(** ** Fields *)

(** The validator assigned to an option. *)
Inductive check : Type :=
  | CheckNone
  | CheckSpeed
  | CheckIpset
  | CheckNftset
  | CheckNftsetLoose
  | CheckUrl
  | CheckProxyUrl
  | CheckUseProxy
  | CheckClientAddr
  | CheckServerGroup.

(** An option with the tab it stands on, [""] for none. *)
Record field : Type := mkField {
  fd_tab : string;
  fd_option : form_option;
  fd_check : check;
}.

(** A [download-file] section. *)
Record download : Type := mkDownload {
  dl_type : option string;
  dl_name : string;
}.

(** The names of the downloads of a type. *)
Definition files_of (type : string) (downloads : list download) : list string :=
  map dl_name (List.filter (λ d, opt_is (dl_type d) type) downloads).

(** [groupnames]: the set of the servers' groups, in order of insertion. *)
Definition add_group (names : list string) (group : option string) : list string :=
  match group with
  | None => names
  | Some g => if existsb (String.eqb g) names then names else names ++ [g]
  end.

Definition group_names (groups : list (option string)) : list string := fold_left add_group groups [].

Section SmartDnsForm.
Context {I : I18n}.

(** What a validator that looks at the value alone answers; [use_proxy]
    looks at other fields. *)
Definition field_check (groups : list (option string)) (c : check) : option (string → verdict) :=
  match c with
  | CheckNone => Some (λ _, Valid)
  | CheckSpeed => Some speed_check_validate
  | CheckIpset => Some ipset_validate
  | CheckNftset => Some nftset_validate
  | CheckNftsetLoose => Some nftset_rule_validate
  | CheckUrl => Some url_validate
  | CheckProxyUrl => Some proxy_server_validate
  | CheckClientAddr => Some client_addr_validate
  | CheckServerGroup => Some (server_group_validate groups)
  | CheckUseProxy => None
  end.

(** [for (i = 0; i < 24; i++) o.value(i, i + ':00')] *)
Definition hours : list (string * string) :=
  map (λ i, (dec (Z.of_nat i), dec (Z.of_nat i) +:+ ":00")) (seq 0 24).

(** General settings. *)
Definition sd_settings : list field :=
  [mkField "settings" (option_ Flag "enabled" (tr "Enable") (tr "Enable or disable smartdns server")
     ▷ rmempty false ▷ dflt_bool false) CheckNone;
   mkField "settings" (option_ Value "server_name" (tr "Server Name") (tr "Smartdns server name")
     ▷ placeholder "server name" ▷ datatype "hostname" ▷ attr "rempty" "true") CheckNone;
   mkField "settings" (option_ Value "port" (tr "Local Port") (tr
     "Smartdns local server port, smartdns will be automatically set as main dns when the port is 53.")
     ▷ placeholder "53" ▷ dflt "53" ▷ datatype "port" ▷ attr "rempty" "false") CheckNone;
   mkField "settings" (option_ Flag "auto_set_dnsmasq" (tr "Automatically Set Dnsmasq") (tr
     "Automatically set as upstream of dnsmasq when port changes.") ▷ rmempty false
     ▷ dflt_bool true) CheckNone].

(** The web interface, when its plugin is installed. *)
Definition sd_webui : list field :=
  [mkField "settings" (option_ Flag "ui" (tr "Enable WebUI") (tr
     "Enable or disable smartdns webui plugin.") ▷ rmempty false ▷ dflt_bool false) CheckNone;
   mkField "settings" (option_ Value "ui_port" (tr "WebUI Port") (tr "WebUI server port.")
     ▷ placeholder "6080" ▷ datatype "port" ▷ attr "rempty" "false" ▷ depends "ui" "1") CheckNone;
   mkField "settings" (option_ Value "ui_data_dir" (tr "WebUI Data Dir") (tr
     "Directory for storing the webui database.") ▷ placeholder "/var/lib/smartdns"
     ▷ datatype "string" ▷ attr "rempty" "false" ▷ depends "ui" "1") CheckNone;
   mkField "settings" (option_ Value "ui_log_max_age" (tr "WebUI Log Retention") (tr
     "Number of days to retain webui logs.") ▷ placeholder "30" ▷ datatype "uinteger"
     ▷ attr "rempty" "false" ▷ depends "ui" "1") CheckNone].

(** Advanced settings: speed check, servers and certificates. *)
Definition sd_servers : list field :=
  [mkField "advanced" (option_ Value "speed_check_mode" (tr "Speed Check Mode") (tr
     "Smartdns speed check mode.") ▷ rmempty true ▷ placeholder "default" ▷ values [("", (tr
     "default")); ("ping,tcp:80,tcp:443", "ping,tcp:80,tcp:443");
     ("ping,tcp:443,tcp:80", "ping,tcp:443,tcp:80"); ("tcp:80,tcp:443,ping", "tcp:80,tcp:443,ping");
     ("tcp:443,tcp:80,ping", "tcp:443,tcp:80,ping");
     ("tcp-syn:80,tcp-syn:443,ping", "tcp-syn:80,tcp-syn:443,ping");
     ("tcp-syn:443,tcp-syn:80,ping", "tcp-syn:443,tcp-syn:80,ping"); ("none", (tr
     "None"))]) CheckSpeed;
   mkField "advanced" (option_ ListValue "response_mode" (tr "Response Mode") (tr
     "Smartdns response mode, First Ping: return the first ping IP, Fastest IP: return the fastest IP, Fastest Response: return the fastest DNS response.")
     ▷ rmempty true ▷ placeholder "default" ▷ values [("", (tr "default")); ("first-ping", (tr
     "First Ping")); ("fastest-ip", (tr "Fastest IP")); ("fastest-response", (tr
     "Fastest Response"))]) CheckNone;
   mkField "advanced" (option_ Flag "tcp_server" (tr "TCP Server") (tr "Enable TCP DNS Server")
     ▷ rmempty false ▷ dflt_bool true) CheckNone;
   mkField "advanced" (option_ Flag "tls_server" (tr "DOT Server") (tr "Enable DOT DNS Server")
     ▷ rmempty false ▷ dflt_bool false) CheckNone;
   mkField "advanced" (option_ Value "tls_server_port" (tr "DOT Server Port") (tr
     "Smartdns DOT server port.") ▷ placeholder "853" ▷ dflt "853" ▷ datatype "port"
     ▷ attr "rempty" "false" ▷ depends "tls_server" "1") CheckNone;
   mkField "advanced" (option_ Flag "doh_server" (tr "DOH Server") (tr "Enable DOH DNS Server")
     ▷ rmempty false ▷ dflt_bool false) CheckNone;
   mkField "advanced" (option_ Flag "ddr" (tr "DDR") (tr
     "Enable Discovery of Designated Resolvers for enabled local DNS services.") ▷ rmempty true
     ▷ dflt_bool false) CheckNone;
   mkField "advanced" (option_ Value "doh_server_port" (tr "DOH Server Port") (tr
     "Smartdns DOH server port.") ▷ placeholder "843" ▷ dflt "843" ▷ datatype "port"
     ▷ attr "rempty" "false" ▷ depends "doh_server" "1") CheckNone;
   mkField "advanced" (option_ Value "bind_cert" (tr "Server Cert") (tr
     "Server certificate file path.") ▷ datatype "string"
     ▷ placeholder "/var/etc/smartdns/smartdns/smartdns-cert.pem" ▷ attr "rempty" "true"
     ▷ depends "tls_server" "1" ▷ depends "doh_server" "1") CheckNone;
   mkField "advanced" (option_ Value "bind_cert_key" (tr "Server Cert Key") (tr
     "Server certificate key file path.") ▷ datatype "string"
     ▷ placeholder "/var/etc/smartdns/smartdns/smartdns-key.pem" ▷ attr "rempty" "false"
     ▷ depends "tls_server" "1" ▷ depends "doh_server" "1") CheckNone;
   mkField "advanced" (option_ Value "bind_cert_key_pass" (tr "Server Cert Key Pass") (tr
     "Server certificate key file password.") ▷ datatype "string" ▷ attr "rempty" "false"
     ▷ depends "tls_server" "1" ▷ depends "doh_server" "1") CheckNone;
   mkField "advanced" (option_ Flag "ipv6_server" (tr "IPv6 Server") (tr "Enable IPv6 DNS Server")
     ▷ rmempty false ▷ dflt_bool true) CheckNone;
   mkField "advanced" (option_ Flag "bind_device" (tr "Bind Device") (tr
     "Listen only on the specified interfaces.") ▷ rmempty false ▷ dflt_bool true) CheckNone;
   mkField "advanced" (option_ Value "bind_device_name" (tr "Bind Device Name") (tr
     "Name of device name listen on.") ▷ placeholder "default" ▷ attr "rempty" "true"
     ▷ datatype "string") CheckNone].

(** Advanced settings: selection, cache and sets. *)
Definition sd_cache : list field :=
  [mkField "advanced" (option_ Flag "dualstack_ip_selection" (tr "Dual-stack IP Selection") (tr
     "Enable IP selection between IPv4 and IPv6") ▷ rmempty false ▷ dflt_bool true) CheckNone;
   mkField "advanced" (option_ Flag "prefetch_domain" (tr "Domain prefetch") (tr
     "Enable domain prefetch, accelerate domain response speed.") ▷ rmempty true
     ▷ dflt_bool false) CheckNone;
   mkField "advanced" (option_ Flag "serve_expired" (tr "Serve expired") (tr
     "Attempts to serve old responses from cache with a TTL of 0 in the response without waiting for the actual resolution to finish.")
     ▷ rmempty false ▷ dflt_bool true) CheckNone;
   mkField "advanced" (option_ Value "cache_size" (tr "Cache Size") (tr
     "DNS domain result cache size") ▷ attr "rempty" "true") CheckNone;
   mkField "advanced" (option_ Flag "cache_persist" (tr "Cache Persist") (tr
     "Write cache to disk on exit and load on startup.") ▷ rmempty false ▷ dflt_bool true) CheckNone;
   mkField "advanced" (option_ Flag "resolve_local_hostnames" (tr "Resolve Local Hostnames") (tr
     "Resolve local hostnames by reading Dnsmasq or odhcpd lease files.") ▷ rmempty false
     ▷ dflt_bool true) CheckNone;
   mkField "advanced" (option_ Flag "mdns_lookup" (tr "mDNS Lookup") (tr
     "Resolve local network hostname via mDNS protocol.") ▷ rmempty true
     ▷ dflt_bool false) CheckNone;
   mkField "advanced" (option_ Flag "force_aaaa_soa" (tr "Force AAAA SOA") (tr "Force AAAA SOA.")
     ▷ rmempty true ▷ dflt_bool false) CheckNone;
   mkField "advanced" (option_ Flag "force_https_soa" (tr "Force HTTPS SOA") (tr "Force HTTPS SOA.")
     ▷ rmempty false ▷ dflt_bool true) CheckNone;
   mkField "advanced" (option_ Value "ipset_name" (tr "IPset Name") (tr "IPset name.")
     ▷ rmempty true ▷ datatype "string" ▷ attr "rempty" "true") CheckIpset;
   mkField "advanced" (option_ Value "ipset_no_speed" (tr "No Speed IPset Name") (tr
     "Ipset name, Add domain result to ipset when speed check fails.") ▷ rmempty true
     ▷ datatype "string" ▷ attr "rempty" "true") CheckIpset;
   mkField "advanced" (option_ Value "nftset_name" (tr "NFTset Name") (tr
     "NFTset name, format: [#[4|6]:[family#table#set]]") ▷ rmempty true ▷ datatype "string"
     ▷ attr "rempty" "true") CheckNftset;
   mkField "advanced" (option_ Value "nftset_no_speed" (tr "No Speed NFTset Name") (tr
     "Nftset name, Add domain result to nftset when speed check fails, format: [#[4|6]:[family#table#set]]")
     ▷ rmempty true ▷ datatype "string" ▷ attr "rempty" "true") CheckNftset].

(** Advanced settings: lifetimes and included files. *)
Definition sd_ttl (downloads : list download) : list field :=
  [mkField "advanced" (option_ Value "rr_ttl" (tr "Domain TTL") (tr "TTL for all domain result.")
     ▷ attr "rempty" "true") CheckNone;
   mkField "advanced" (option_ Value "rr_ttl_min" (tr "Domain TTL Min") (tr
     "Minimum TTL for all domain result.") ▷ attr "rempty" "true" ▷ placeholder "600" ▷ dflt "600"
     ▷ attr "optional" "true") CheckNone;
   mkField "advanced" (option_ Value "rr_ttl_max" (tr "Domain TTL Max") (tr
     "Maximum TTL for all domain result.") ▷ attr "rempty" "true") CheckNone;
   mkField "advanced" (option_ Value "rr_ttl_reply_max" (tr "Reply Domain TTL Max") (tr
     "Reply maximum TTL for all domain result.") ▷ attr "rempty" "true") CheckNone;
   mkField "advanced" (option_ Value "server_flags" (tr "Additional Server Args") (tr
     "Additional server args, refer to the help description of the bind option.") ▷ dflt ""
     ▷ attr "rempty" "true") CheckNone;
   mkField "advanced" (option_ DynamicList "conf_files" (tr
     "Include Config Files<br>/etc/smartdns/conf.d") (tr
     "Include other config files from /etc/smartdns/conf.d or custom path, can be downloaded from the download page.")
     ▷ keys (files_of "config" downloads)) CheckNone;
   mkField "advanced" (option_ DynamicList "hosts_files" (tr "Hosts File") (tr
     "Include hosts file.") ▷ rmempty true ▷ keys (files_of "other" downloads)) CheckNone].

(** The second server. *)
Definition sd_second : list field :=
  [mkField "seconddns" (option_ Flag "seconddns_enabled" (tr "Enable") (tr
     "Enable or disable second DNS server.") ▷ dflt_bool false ▷ attr "rempty" "true") CheckNone;
   mkField "seconddns" (option_ Value "seconddns_port" (tr "Local Port") (tr
     "Smartdns local server port") ▷ placeholder "6553" ▷ dflt "6553" ▷ datatype "port"
     ▷ attr "rempty" "false") CheckNone;
   mkField "seconddns" (option_ Flag "seconddns_tcp_server" (tr "TCP Server") (tr
     "Enable TCP DNS Server") ▷ rmempty false ▷ dflt_bool true) CheckNone;
   mkField "seconddns" (option_ Value "seconddns_server_group" (tr "Server Group") (tr
     "Query DNS through specific dns server group, such as office, home.") ▷ rmempty true
     ▷ placeholder "default" ▷ datatype "hostname" ▷ attr "rempty" "true") CheckNone;
   mkField "seconddns" (option_ Flag "seconddns_no_speed_check" (tr "Skip Speed Check") (tr
     "Do not check speed.") ▷ rmempty true ▷ dflt_bool false) CheckNone;
   mkField "seconddns" (option_ Flag "seconddns_no_rule_addr" (tr "Skip Address Rules") (tr
     "Skip address rules.") ▷ rmempty true ▷ dflt_bool false) CheckNone;
   mkField "seconddns" (option_ Flag "seconddns_no_rule_nameserver" (tr "Skip Nameserver Rule") (tr
     "Skip nameserver rules.") ▷ rmempty true ▷ dflt_bool false) CheckNone;
   mkField "seconddns" (option_ Flag "seconddns_no_rule_ipset" (tr "Skip Ipset Rule") (tr
     "Skip ipset rules.") ▷ rmempty true ▷ dflt_bool false) CheckNone;
   mkField "seconddns" (option_ Flag "seconddns_no_rule_soa" (tr "Skip SOA Address Rule") (tr
     "Skip SOA address rules.") ▷ rmempty true ▷ dflt_bool false) CheckNone;
   mkField "seconddns" (option_ Flag "seconddns_no_dualstack_selection" (tr
     "Skip Dualstack Selection") (tr "Skip Dualstack Selection.") ▷ rmempty true
     ▷ dflt_bool false) CheckNone;
   mkField "seconddns" (option_ Flag "seconddns_no_cache" (tr "Skip Cache") (tr "Skip Cache.")
     ▷ rmempty true ▷ dflt_bool false) CheckNone;
   mkField "seconddns" (option_ Flag "seconddns_force_aaaa_soa" (tr "Force AAAA SOA") (tr
     "Force AAAA SOA.") ▷ rmempty true ▷ dflt_bool false) CheckNone;
   mkField "seconddns" (option_ Flag "seconddns_force_https_soa" (tr "Force HTTPS SOA") (tr
     "Force HTTPS SOA.") ▷ rmempty true ▷ dflt_bool false) CheckNone;
   mkField "seconddns" (option_ Flag "seconddns_no_ip_alias" (tr "Skip IP Alias") "" ▷ rmempty true
     ▷ dflt_bool false) CheckNone;
   mkField "seconddns" (option_ Value "seconddns_ipset_name" (tr "IPset Name") (tr "IPset name.")
     ▷ rmempty true ▷ datatype "string" ▷ attr "rempty" "true") CheckIpset;
   mkField "seconddns" (option_ Value "seconddns_nftset_name" (tr "NFTset Name") (tr
     "NFTset name, format: [#[4|6]:[family#table#set]]") ▷ rmempty true ▷ datatype "string"
     ▷ attr "rempty" "true") CheckNftset;
   mkField "seconddns" (option_ Value "seconddns_server_flags" (tr "Additional Server Args") (tr
     "Additional server args, refer to the help description of the bind option.") ▷ dflt ""
     ▷ attr "rempty" "true") CheckNone].

(** DNS64 and file downloads. *)
Definition sd_files : list field :=
  [mkField "dns64" (option_ Value "dns64" (tr "DNS64") "" ▷ placeholder "64:ff9b::/96"
     ▷ datatype "ip6addr" ▷ attr "rempty" "true") CheckNone;
   mkField "files" (option_ Flag "enable_auto_update" (tr "Enable Auto Update") (tr
     "Enable daily (weekly) auto update.") ▷ rmempty true ▷ dflt_bool false
     ▷ attr "rempty" "true") CheckNone;
   mkField "files" (option_ ListValue "auto_update_week_time" (tr "Update Time (Every Week)") ""
     ▷ values [("*", (tr "Every Day")); ("1", (tr "Every Monday")); ("2", (tr "Every Tuesday"));
     ("3", (tr "Every Wednesday")); ("4", (tr "Every Thursday")); ("5", (tr "Every Friday"));
     ("6", (tr "Every Saturday")); ("0", (tr "Every Sunday"))] ▷ dflt "*"
     ▷ depends "enable_auto_update" "1") CheckNone;
   mkField "files" (option_ ListValue "auto_update_day_time" (tr "Update time (every day)") ""
     ▷ values hours ▷ dflt "5" ▷ depends "enable_auto_update" "1") CheckNone;
   mkField "files" (option_ FileUpload "upload_conf_file" (tr "Upload Config File") (tr
     "Upload smartdns config file to /etc/smartdns/conf.d") ▷ rmempty true ▷ datatype "file"
     ▷ attr "rempty" "true" ▷ attr "root_directory" "/etc/smartdns/conf.d") CheckNone;
   mkField "files" (option_ FileUpload "upload_list_file" (tr "Upload Domain List File") (tr
     "Upload domain list file to /etc/smartdns/domain-set") ▷ rmempty true ▷ datatype "file"
     ▷ attr "rempty" "true" ▷ attr "root_directory" "/etc/smartdns/domain-set") CheckNone;
   mkField "files" (option_ FileUpload "upload_other_file" (tr "Upload File") "" ▷ rmempty true
     ▷ datatype "file" ▷ attr "rempty" "true"
     ▷ attr "root_directory" "/etc/smartdns/download") CheckNone;
   mkField "files" (option_ DummyValue "_update" (tr "Update Files") ""
     ▷ attr "button" "btn_update") CheckNone;
   mkField "files" (option_ SectionValue "__files__" (tr "Download Files") (tr
     "List of files to download.") ▷ attr "section" "download-file") CheckNone].

(** The proxy and the custom settings. *)
Definition sd_custom : list field :=
  [mkField "proxy" (option_ Value "proxy_server" (tr "Proxy Server") (tr
     "Proxy Server URL, format: [socks5|http]://user:pass@ip:port.")
     ▷ datatype "string") CheckProxyUrl;
   mkField "custom" (option_ TextValue "custom_conf" "" (tr "smartdns custom settings")
     ▷ attr "rows" "20" ▷ attr "cfgvalue" "/etc/smartdns/custom.conf"
     ▷ attr "write" "/etc/smartdns/custom.conf") CheckNone;
   mkField "custom" (option_ Flag "coredump" (tr "Generate Coredump") (tr
     "Generate Coredump file when smartdns crash, coredump file is located at /tmp/smartdns.xxx.core.")
     ▷ rmempty true ▷ dflt_bool false) CheckNone;
   mkField "custom" (option_ ListValue "log_level" (tr "Log Level") "" ▷ rmempty true ▷ dflt ""
     ▷ values [("", (tr "default")); ("debug", "debug"); ("info", "info"); ("notice", "notice");
     ("warn", "warn"); ("error", "error"); ("fatal", "fatal"); ("off", "off")]) CheckNone;
   mkField "custom" (option_ ListValue "log_output_mode" (tr "Log Output Mode") "" ▷ rmempty true
     ▷ dflt "file" ▷ values [("file", (tr "file")); ("syslog", (tr "syslog"))]) CheckNone;
   mkField "custom" (option_ Value "log_size" (tr "Log Size") "" ▷ rmempty true
     ▷ placeholder "default" ▷ depends "log_output_mode" "file") CheckNone;
   mkField "custom" (option_ Value "log_num" (tr "Log Number") "" ▷ rmempty true
     ▷ placeholder "default" ▷ depends "log_output_mode" "file") CheckNone;
   mkField "custom" (option_ Value "log_file" (tr "Log File") "" ▷ rmempty true
     ▷ placeholder "/var/log/smartdns/smartdns.log" ▷ depends "log_output_mode" "file") CheckNone;
   mkField "custom" (option_ DummyValue "view_log" (tr "View Log") "" ▷ attr "button" "btn_view_log"
     ▷ depends_all [("log_output_mode", "file"); ("log_level", "debug")]
     ▷ depends_all [("log_output_mode", "file"); ("log_level", "info")]
     ▷ depends_all [("log_output_mode", "file"); ("log_level", "notice")]
     ▷ depends_all [("log_output_mode", "file"); ("log_level", "warn")]
     ▷ depends_all [("log_output_mode", "file"); ("log_level", "error")]
     ▷ depends_all [("log_output_mode", "file"); ("log_level", "fatal")]) CheckNone;
   mkField "custom" (option_ Flag "enable_audit_log" (tr "Enable Audit Log") "" ▷ rmempty true
     ▷ dflt_bool false ▷ attr "rempty" "true") CheckNone;
   mkField "custom" (option_ ListValue "audit_log_output_mode" (tr "Audit Log Output Mode") ""
     ▷ rmempty true ▷ dflt "file" ▷ values [("file", (tr "file")); ("syslog", (tr "syslog"))]
     ▷ depends "enable_audit_log" "1") CheckNone;
   mkField "custom" (option_ Value "audit_log_size" (tr "Audit Log Size") "" ▷ rmempty true
     ▷ placeholder "default"
     ▷ depends_all [("enable_audit_log", "1"); ("audit_log_output_mode", "file")]) CheckNone;
   mkField "custom" (option_ Value "audit_log_num" (tr "Audit Log Number") "" ▷ rmempty true
     ▷ placeholder "default"
     ▷ depends_all [("enable_audit_log", "1"); ("audit_log_output_mode", "file")]) CheckNone;
   mkField "custom" (option_ Value "audit_log_file" (tr "Audit Log File") "" ▷ rmempty true
     ▷ placeholder "/var/log/smartdns/smartdns-audit.log"
     ▷ depends_all [("enable_audit_log", "1"); ("audit_log_output_mode", "file")]) CheckNone].

(** The list of downloads. *)
Definition sd_download_file : list field :=
  [mkField "" (option_ Value "name" (tr "File Name") (tr "File Name") ▷ rmempty true
     ▷ datatype "file") CheckNone;
   mkField "" (option_ Value "url" (tr "URL") (tr "URL") ▷ rmempty true
     ▷ datatype "string") CheckUrl;
   mkField "" (option_ ListValue "type" (tr "type") (tr "File Type") ▷ values [("list", (tr
     "domain list (/etc/smartdns/domain-set)")); ("config", (tr
     "smartdns config (/etc/smartdns/conf.d)")); ("ip-set", (tr
     "ip-set file (/etc/smartdns/ip-set)")); ("other", (tr "other file (/etc/smartdns/download)"))]
     ▷ dflt "list" ▷ attr "rempty" "false") CheckNone;
   mkField "" (option_ Value "desc" (tr "Description") (tr "Description") ▷ rmempty true
     ▷ datatype "string") CheckNone].

(** Upstream servers. *)
Definition sd_upstream (groupnames : list string) : list field :=
  [mkField "general" (option_ Flag "enabled" (tr "Enable") "" ▷ rmempty false ▷ dflt_bool true
     ▷ editable) CheckNone;
   mkField "general" (option_ Value "name" (tr "DNS Server Name") "") CheckNone;
   mkField "general" (option_ Value "ip" (tr "DNS Server ip") "" ▷ datatype "or(ipaddr, string)"
     ▷ rmempty false) CheckNone;
   mkField "general" (option_ Value "port" (tr "DNS Server port") "" ▷ placeholder "default"
     ▷ datatype "port" ▷ attr "rempty" "true" ▷ depends "type" "udp" ▷ depends "type" "tcp"
     ▷ depends "type" "tls" ▷ depends "type" "quic") CheckNone;
   mkField "general" (option_ ListValue "type" (tr "DNS Server type") "" ▷ placeholder "udp"
     ▷ values [("udp", (tr "udp")); ("tcp", (tr "tcp")); ("tls", (tr "tls")); ("https", (tr
     "https")); ("quic", (tr "quic")); ("h3", (tr "http3"))] ▷ dflt "udp"
     ▷ attr "rempty" "false") CheckNone;
   mkField "general" (option_ Value "server_group" (tr "DNS Server group") "" ▷ rmempty true
     ▷ placeholder "default" ▷ datatype "hostname" ▷ attr "rempty" "true"
     ▷ keys groupnames) CheckNone].

(** Upstream servers, advanced. *)
Definition sd_upstream_advanced : list field :=
  [mkField "advanced" (option_ Flag "exclude_default_group" (tr "Exclude Default Group") (tr
     "Exclude DNS Server from default group.") ▷ rmempty true ▷ dflt_bool false ▷ editable
     ▷ modalonly) CheckNone;
   mkField "advanced" (option_ Flag "blacklist_ip" (tr "IP Blacklist Filtering") (tr
     "Filtering IP with blacklist") ▷ rmempty true ▷ dflt_bool false ▷ modalonly) CheckNone;
   mkField "advanced" (option_ Value "tls_host_verify" (tr "TLS Hostname Verify") (tr
     "Set TLS hostname to verify.") ▷ dflt "" ▷ datatype "string" ▷ attr "rempty" "true" ▷ modalonly
     ▷ depends "type" "tls" ▷ depends "type" "https" ▷ depends "type" "quic"
     ▷ depends "type" "h3") CheckNone;
   mkField "advanced" (option_ Flag "no_check_certificate" (tr "No check certificate") (tr
     "Do not check certificate.") ▷ rmempty true ▷ dflt_bool false ▷ modalonly
     ▷ depends "type" "tls" ▷ depends "type" "https" ▷ depends "type" "quic"
     ▷ depends "type" "h3") CheckNone;
   mkField "advanced" (option_ Value "host_name" (tr "TLS SNI name") (tr
     "Sets the server name indication for query. '-' for disable SNI name.") ▷ dflt ""
     ▷ datatype "hostname" ▷ attr "rempty" "true" ▷ modalonly ▷ depends "type" "tls"
     ▷ depends "type" "https" ▷ depends "type" "quic" ▷ depends "type" "h3") CheckNone;
   mkField "advanced" (option_ Value "http_host" (tr "HTTP Host") (tr
     "Set the HTTP host used for the query. Use this parameter when the host of the URL address is an IP address.")
     ▷ dflt "" ▷ datatype "hostname" ▷ attr "rempty" "true" ▷ modalonly ▷ depends "type" "https"
     ▷ depends "type" "h3") CheckNone;
   mkField "advanced" (option_ Value "spki_pin" (tr "TLS SPKI Pinning") (tr
     "Used to verify the validity of the TLS server, The value is Base64 encoded SPKI fingerprint, leaving blank to indicate that the validity of TLS is not verified.")
     ▷ dflt "" ▷ datatype "string" ▷ attr "rempty" "true" ▷ modalonly ▷ depends "type" "tls"
     ▷ depends "type" "https" ▷ depends "type" "quic" ▷ depends "type" "h3") CheckNone;
   mkField "advanced" (option_ Value "set_mark" (tr "Marking Packets") (tr "Set mark on packets.")
     ▷ dflt "" ▷ attr "rempty" "true" ▷ datatype "uinteger" ▷ modalonly) CheckNone;
   mkField "advanced" (option_ Flag "use_proxy" (tr "Use Proxy") (tr
     "Use proxy to connect to upstream DNS server.") ▷ dflt_bool false ▷ modalonly
     ▷ attr "optional" "true" ▷ attr "rempty" "true") CheckUseProxy;
   mkField "advanced" (option_ Flag "fallback" (tr "Fallback") (tr
     "Mark this server as a fallback server, use it only when default servers fail.")
     ▷ dflt_bool false ▷ rmempty true ▷ modalonly) CheckNone;
   mkField "advanced" (option_ Value "addition_arg" (tr "Additional Server Args") (tr
     "Additional Args for upstream dns servers") ▷ dflt "" ▷ attr "rempty" "true"
     ▷ modalonly) CheckNone].

(** Client rules. *)
Definition sd_client (groupnames : list string) : list field :=
  [mkField "basic" (option_ Flag "enabled" (tr "Enable") "" ▷ rmempty false
     ▷ dflt_bool false) CheckNone;
   mkField "basic" (option_ DynamicList "client_addr" (tr "Client Address") (tr
     "If a client address is specified, only that client will apply this rule. You can enter an IP address, such as 1.2.3.4, or a MAC address, such as aa:bb:cc:dd:ee:ff.")
     ▷ attr "rempty" "true" ▷ rmempty true ▷ modalonly) CheckClientAddr;
   mkField "basic" (option_ FileUpload "client_addr_file" (tr "Client Address File") (tr
     "Upload client address file, same as Client Address function.") ▷ rmempty true
     ▷ datatype "file" ▷ attr "rempty" "true" ▷ modalonly
     ▷ attr "root_directory" "/etc/smartdns/ip-set") CheckNone;
   mkField "basic" (option_ Value "server_group" (tr "Server Group") (tr
     "DNS Server group belongs to, such as office, home.") ▷ rmempty true ▷ placeholder "default"
     ▷ datatype "hostname" ▷ attr "rempty" "true" ▷ keys groupnames) CheckServerGroup].

(** Client rules, advanced and blocking. *)
Definition sd_client_advanced (downloads : list download) : list field :=
  [mkField "advanced" (option_ Value "speed_check_mode" (tr "Speed Check Mode") (tr
     "Smartdns speed check mode.") ▷ rmempty true ▷ placeholder "default" ▷ values [("", (tr
     "default")); ("ping,tcp:80,tcp:443", "ping,tcp:80,tcp:443");
     ("ping,tcp:443,tcp:80", "ping,tcp:443,tcp:80"); ("tcp:80,tcp:443,ping", "tcp:80,tcp:443,ping");
     ("tcp:443,tcp:80,ping", "tcp:443,tcp:80,ping");
     ("tcp-syn:80,tcp-syn:443,ping", "tcp-syn:80,tcp-syn:443,ping");
     ("tcp-syn:443,tcp-syn:80,ping", "tcp-syn:443,tcp-syn:80,ping"); ("none", (tr
     "None"))]) CheckSpeed;
   mkField "advanced" (option_ Flag "dualstack_ip_selection" (tr "Dual-stack IP Selection") (tr
     "Enable IP selection between IPv4 and IPv6") ▷ rmempty false ▷ dflt_bool true) CheckNone;
   mkField "advanced" (option_ Flag "force_aaaa_soa" (tr "Force AAAA SOA") (tr "Force AAAA SOA.")
     ▷ rmempty true ▷ dflt_bool false) CheckNone;
   mkField "advanced" (option_ Flag "force_https_soa" (tr "Force HTTPS SOA") (tr "Force HTTPS SOA.")
     ▷ rmempty false ▷ dflt_bool true) CheckNone;
   mkField "advanced" (option_ Value "ipset_name" (tr "IPset Name") (tr "IPset name.")
     ▷ rmempty true ▷ datatype "string" ▷ attr "rempty" "true") CheckIpset;
   mkField "advanced" (option_ Value "nftset_name" (tr "NFTset Name") (tr
     "NFTset name, format: [#[4|6]:[family#table#set]]") ▷ rmempty true ▷ datatype "string"
     ▷ attr "rempty" "true") CheckNftset;
   mkField "advanced" (option_ DynamicList "conf_files" (tr
     "Include Config Files<br>/etc/smartdns/conf.d") (tr
     "Include other config files from /etc/smartdns/conf.d or custom path, can be downloaded from the download page.")
     ▷ keys (files_of "config" downloads)) CheckNone;
   mkField "block" (option_ FileUpload "block_domain_set_file" (tr "Domain List File") (tr
     "Upload domain list file.") ▷ rmempty true ▷ datatype "file" ▷ attr "rempty" "true" ▷ editable
     ▷ attr "root_directory" "/etc/smartdns/domain-set") CheckNone].

(** Domain rules: forwarding. *)
Definition sd_forwarding (groupnames : list string) : list field :=
  [mkField "forwarding" (option_ Value "server_group" (tr "Server Group") (tr
     "DNS Server group belongs to, such as office, home.") ▷ rmempty true ▷ placeholder "default"
     ▷ datatype "hostname" ▷ attr "rempty" "true" ▷ keys groupnames) CheckServerGroup;
   mkField "forwarding" (option_ Value "speed_check_mode" (tr "Speed Check Mode") (tr
     "Smartdns speed check mode.") ▷ rmempty true ▷ placeholder "default" ▷ values [("", (tr
     "default")); ("ping,tcp:80,tcp:443", "ping,tcp:80,tcp:443");
     ("ping,tcp:443,tcp:80", "ping,tcp:443,tcp:80"); ("tcp:80,tcp:443,ping", "tcp:80,tcp:443,ping");
     ("tcp:443,tcp:80,ping", "tcp:443,tcp:80,ping");
     ("tcp-syn:80,tcp-syn:443,ping", "tcp-syn:80,tcp-syn:443,ping");
     ("tcp-syn:443,tcp-syn:80,ping", "tcp-syn:443,tcp-syn:80,ping"); ("none", (tr
     "None"))]) CheckSpeed;
   mkField "forwarding" (option_ ListValue "dualstack_ip_selection" (tr
     "Dual-stack IP Selection") (tr "Enable IP selection between IPv4 and IPv6") ▷ rmempty true
     ▷ dflt "default" ▷ modalonly
     ▷ values [("", (tr "default")); ("yes", (tr "Yes")); ("no", (tr "No"))]) CheckNone;
   mkField "forwarding" (option_ Flag "force_aaaa_soa" (tr "Force AAAA SOA") (tr "Force AAAA SOA.")
     ▷ rmempty true ▷ dflt_bool false) CheckNone;
   mkField "forwarding" (option_ Value "ipset_name" (tr "IPset Name") (tr "IPset name.")
     ▷ rmempty true ▷ datatype "string" ▷ attr "rempty" "true") CheckIpset;
   mkField "forwarding" (option_ Value "nftset_name" (tr "NFTset Name") (tr
     "NFTset name, format: [#[4|6]:[family#table#set]]") ▷ rmempty true ▷ datatype "string"
     ▷ attr "rempty" "true") CheckNftset;
   mkField "forwarding" (option_ Value "addition_flag" (tr "Additional Rule Flag") (tr
     "Additional Flags for rules, read help on domain-rule for more information.") ▷ dflt ""
     ▷ attr "rempty" "true" ▷ modalonly) CheckNone;
   mkField "forwarding" (option_ FileUpload "forwarding_domain_set_file" (tr "Domain List File") (tr
     "Upload domain list file, or configure auto download from Download File Setting page.")
     ▷ rmempty true ▷ datatype "file" ▷ attr "rempty" "true" ▷ editable
     ▷ attr "root_directory" "/etc/smartdns/domain-set") CheckNone].

(** Domain rules: lists and addresses. *)
Definition sd_domain_lists : list field :=
  [mkField "forwarding" (option_ TextValue "domain_forwarding_list" (tr "Domain List") (tr
     "Configure forwarding domain name list.") ▷ attr "rows" "10" ▷ attr "cols" "64"
     ▷ attr "monospace" "true" ▷ attr "cfgvalue" "/etc/smartdns/domain-forwarding.list"
     ▷ attr "write" "/etc/smartdns/domain-forwarding.list") CheckNone;
   mkField "block" (option_ FileUpload "block_domain_set_file" (tr "Domain List File") (tr
     "Upload domain list file.") ▷ rmempty true ▷ datatype "file" ▷ attr "rempty" "true" ▷ editable
     ▷ attr "root_directory" "/etc/smartdns/domain-set") CheckNone;
   mkField "block" (option_ TextValue "domain_block_list" (tr "Domain List") (tr
     "Configure block domain list.") ▷ attr "rows" "10" ▷ attr "cols" "64"
     ▷ attr "cfgvalue" "/etc/smartdns/domain-block.list"
     ▷ attr "write" "/etc/smartdns/domain-block.list") CheckNone;
   mkField "domain-rule-list" (option_ SectionValue "__domain-rule-list__" (tr
     "Domain Rule List") (tr "Configure domain rule list.")
     ▷ attr "section" "domain-rule-list") CheckNone].

(** The addresses of domains, a text kept in a file. *)
Definition sd_domain_address : list field :=
  [mkField "domain-address" (option_ TextValue "address_conf" "" (tr
     "Specify an IP address to return for any host in the given domains, Queries in the domains are never forwarded and always replied to with the specified IP address which may be IPv4 or IPv6.")
     ▷ attr "rows" "20" ▷ attr "cfgvalue" "/etc/smartdns/address.conf"
     ▷ attr "write" "/etc/smartdns/address.conf") CheckNone].

(** The domain rule list. *)
Definition sd_domain_rule (groupnames : list string) : list field :=
  [mkField "" (option_ Flag "enabled" (tr "Enable") (tr "Enable") ▷ rmempty false ▷ dflt_bool true
     ▷ editable) CheckNone;
   mkField "" (option_ Value "name" (tr "Domain Rule Name") (tr "Domain Rule Name")) CheckNone;
   mkField "" (option_ Value "server_group" (tr "Server Group") (tr
     "DNS Server group belongs to, such as office, home.") ▷ rmempty true ▷ placeholder "default"
     ▷ datatype "hostname" ▷ attr "rempty" "true" ▷ keys groupnames) CheckServerGroup;
   mkField "" (option_ FileUpload "domain_list_file" (tr "Domain List File") (tr
     "Upload domain list file, or configure auto download from Download File Setting page.")
     ▷ rmempty true ▷ datatype "file" ▷ attr "rempty" "true"
     ▷ attr "root_directory" "/etc/smartdns/domain-set") CheckNone;
   mkField "" (option_ ListValue "block_domain_type" (tr "Block domain") (tr "Block domain.")
     ▷ rmempty true
     ▷ values [("none", (tr "None")); ("all", "IPv4/IPv6"); ("ipv4", "IPv4"); ("ipv6", "IPv6")]
     ▷ modalonly) CheckNone;
   mkField "" (option_ ListValue "dualstack_ip_selection" (tr "Dual-stack IP Selection") (tr
     "Enable IP selection between IPv4 and IPv6") ▷ rmempty true ▷ dflt "default" ▷ modalonly
     ▷ values [("", (tr "default")); ("yes", (tr "Yes")); ("no", (tr "No"))]) CheckNone;
   mkField "" (option_ Value "speed_check_mode" (tr "Speed Check Mode") (tr
     "Smartdns speed check mode.") ▷ rmempty true ▷ placeholder "default" ▷ modalonly
     ▷ values [("", (tr "default")); ("ping,tcp:80,tcp:443", "ping,tcp:80,tcp:443");
     ("ping,tcp:443,tcp:80", "ping,tcp:443,tcp:80"); ("tcp:80,tcp:443,ping", "tcp:80,tcp:443,ping");
     ("tcp:443,tcp:80,ping", "tcp:443,tcp:80,ping");
     ("tcp-syn:80,tcp-syn:443,ping", "tcp-syn:80,tcp-syn:443,ping");
     ("tcp-syn:443,tcp-syn:80,ping", "tcp-syn:443,tcp-syn:80,ping"); ("none", (tr
     "None"))]) CheckSpeed;
   mkField "" (option_ Flag "force_aaaa_soa" (tr "Force AAAA SOA") (tr "Force AAAA SOA.")
     ▷ rmempty true ▷ dflt_bool false ▷ modalonly) CheckNone;
   mkField "" (option_ Value "ipset_name" (tr "IPset Name") (tr "IPset name.") ▷ rmempty true
     ▷ datatype "hostname" ▷ attr "rempty" "true" ▷ modalonly) CheckNone;
   mkField "" (option_ Value "nftset_name" (tr "NFTset Name") (tr
     "NFTset name, format: [#[4|6]:[family#table#set]]") ▷ rmempty true ▷ datatype "string"
     ▷ attr "rempty" "true" ▷ modalonly) CheckNftsetLoose;
   mkField "" (option_ Value "addition_flag" (tr "Additional Rule Flag") (tr
     "Additional Flags for rules, read help on domain-rule for more information.") ▷ dflt ""
     ▷ attr "rempty" "true" ▷ modalonly) CheckNone].

(** IP rules. *)
Definition sd_ip_lists : list field :=
  [mkField "ip-rule-list" (option_ SectionValue "__ip-rule-list__" (tr "IP Rule List") (tr
     "Configure ip rule list.") ▷ attr "section" "ip-rule-list") CheckNone;
   mkField "blackip-list" (option_ TextValue "blackip_ip_conf" "" (tr
     "Configure IP blacklists that will be filtered from the results of specific DNS server.")
     ▷ attr "rows" "20" ▷ attr "cfgvalue" "/etc/smartdns/blacklist-ip.conf"
     ▷ attr "write" "/etc/smartdns/blacklist-ip.conf") CheckNone].

(** The IP rule list. *)
Definition sd_ip_rule : list field :=
  [mkField "" (option_ Flag "enabled" (tr "Enable") (tr "Enable") ▷ rmempty false ▷ dflt_bool true
     ▷ editable) CheckNone;
   mkField "" (option_ Value "name" (tr "IP Rule Name") (tr "IP Rule Name") ▷ rmempty true
     ▷ datatype "string") CheckNone;
   mkField "" (option_ FileUpload "ip_set_file" (tr "IP Set File") (tr "Upload IP set file.")
     ▷ rmempty true ▷ datatype "file" ▷ modalonly
     ▷ attr "root_directory" "/etc/smartdns/ip-set") CheckNone;
   mkField "" (option_ DynamicList "ip_addr" (tr "IP Addresses") (tr "IP addresses, CIDR format.")
     ▷ rmempty true ▷ datatype "ipaddr" ▷ modalonly) CheckNone;
   mkField "" (option_ Flag "whitelist_ip" (tr "Whitelist IP") (tr
     "Whitelist IP Rule, Accept IP addresses within the range.") ▷ rmempty true ▷ dflt_bool false
     ▷ modalonly) CheckNone;
   mkField "" (option_ Flag "blacklist_ip" (tr "Blacklist IP") (tr
     "Blacklist IP Rule, Decline IP addresses within the range.") ▷ rmempty true ▷ dflt_bool false
     ▷ modalonly) CheckNone;
   mkField "" (option_ Flag "ignore_ip" (tr "Ignore IP") (tr "Do not use these IP addresses.")
     ▷ rmempty true ▷ dflt_bool false ▷ modalonly) CheckNone;
   mkField "" (option_ Flag "bogus_nxdomain" (tr "Bogus nxdomain") (tr
     "Return SOA when the requested result contains a specified IP address.") ▷ rmempty true
     ▷ dflt_bool false ▷ modalonly) CheckNone;
   mkField "" (option_ DynamicList "ip_alias" (tr "IP alias") (tr
     "IP Address Mapping, Can be used for CDN acceleration with Anycast IP, such as Cloudflare's CDN.")
     ▷ rmempty true ▷ datatype ("ipaddr(" +:+ dq +:+ "nomask" +:+ dq +:+ ")") ▷ modalonly) CheckNone;
   mkField "" (option_ Value "addition_flag" (tr "Additional Rule Flag") (tr
     "Additional Flags for rules, read help on ip-rule for more information.") ▷ dflt ""
     ▷ attr "rempty" "true" ▷ modalonly) CheckNone].

(** Support. *)
Definition sd_support : list field :=
  [mkField "" (option_ Button "web" "" "" ▷ attr "title" (tr "SmartDNS official website")
     ▷ attr "inputtitle" (tr "open website") ▷ attr "inputstyle" "apply"
     ▷ attr "open" "https://pymumu.github.io/smartdns") CheckNone;
   mkField "" (option_ Button "report" "" "" ▷ attr "title" (tr "Report bugs")
     ▷ attr "inputtitle" (tr "Report bugs") ▷ attr "inputstyle" "apply"
     ▷ attr "open" "https://github.com/pymumu/smartdns/issues") CheckNone;
   mkField "" (option_ Button "Donate" "" "" ▷ attr "title" (tr "Donate to smartdns")
     ▷ attr "inputtitle" (tr "Donate") ▷ attr "inputstyle" "apply"
     ▷ attr "open" "https://pymumu.github.io/smartdns/#donate") CheckNone;
   mkField "" (option_ DummyValue "_restart" (tr "Restart Service") ""
     ▷ attr "button" "btn_restart") CheckNone].

(** The sections of the page, with the two subsections. *)
Definition smartdns_sections (hasUi : bool) (groups : list (option string)) (downloads : list download)
    : list (section_class * string * list field) :=
  let groupnames := group_names groups in
  [(TypedSection, "smartdns",
    sd_settings ++ (if hasUi then sd_webui else []) ++ sd_servers ++ sd_cache ++ sd_ttl downloads
    ++ sd_second ++ sd_files ++ sd_custom);
   (GridSection, "download-file", sd_download_file);
   (GridSection, "server", sd_upstream groupnames ++ sd_upstream_advanced);
   (TypedSection, "client-rule", sd_client groupnames ++ sd_client_advanced downloads);
   (TypedSection, "domain-rule", sd_forwarding groupnames ++ sd_domain_lists ++ sd_domain_address);
   (GridSection, "domain-rule-list", sd_domain_rule groupnames);
   (TypedSection, "ip-rule", sd_ip_lists);
   (GridSection, "ip-rule-list", sd_ip_rule);
   (TypedSection, "smartdns", sd_support)].
End SmartDnsForm.

(** ** Consistency of the form *)

(** Distinct names, and dependencies an option of the section can meet. *)
Definition fields_linked (l : list field) : bool :=
  let os := map fd_option l in
  distinct (map fo_name os) && forallb (depends_ok os) os.

(** The two options whose default is not among their choices. *)
Definition dualstack_choice (o : form_option) : bool :=
  String.eqb (fo_name o) "dualstack_ip_selection" && bool_decide (fo_widget o = ListValue).

Lemma add_group_in names o g : g ∈ add_group names o ↔ g ∈ names ∨ o = Some g.
Proof.
  destruct o as [h|]; cbn [add_group]; [|naive_solver].
  destruct (existsb (String.eqb h) names) eqn:He.
  - apply existsb_exists in He as (x & Hin & ->%String.eqb_eq). apply list_elem_of_In in Hin. naive_solver.
  - rewrite elem_of_app, list_elem_of_singleton. naive_solver.
Qed.

(** The groups offered are the groups the servers have, each once. *)
Lemma group_names_in groups g : g ∈ group_names groups ↔ Some g ∈ groups.
Proof.
  unfold group_names. enough (∀ names, g ∈ fold_left add_group groups names ↔ g ∈ names ∨ Some g ∈ groups) as H.
  { rewrite H. split; [intros [Hn|]; [inversion Hn|done]|by right]. }
  induction groups as [|o groups IH]; intros names; cbn [fold_left].
  - split; [by left|intros [|Hn]; [done|inversion Hn]].
  - rewrite IH, add_group_in, elem_of_cons. naive_solver.
Qed.

Section Consistency.
Context {I : I18n}.

Lemma server_group_offered groups g :
  g ∈ group_names groups → server_group_validate groups g = Valid.
Proof.
  rewrite group_names_in. intros Hin. unfold server_group_validate. destruct (String.eqb g ""); [done|].
  replace (existsb _ groups) with true; [done|]. symmetry. apply existsb_exists.
  exists (Some g). split; [by apply list_elem_of_In|]. cbn. apply String.eqb_refl.
Qed.

(** What a field's choices are checked against, by validator. *)
Definition choices_ok (groups : list (option string)) (f : field) : Prop :=
  match fd_check f with
  | CheckNone | CheckUseProxy => True
  | CheckServerGroup => fo_values (fd_option f) = map (λ k, (k, k)) (group_names groups)
  | c => match field_check groups c with
         | Some v => forallb (λ kv, is_valid (v (fst kv))) (fo_values (fd_option f)) = true
         | None => False
         end
  end.

Lemma choices_ok_valid groups f v k l :
  choices_ok groups f → field_check groups (fd_check f) = Some v →
  (k, l) ∈ fo_values (fd_option f) → v k = Valid.
Proof.
  intros Hok Hc Hin. unfold choices_ok in Hok.
  assert (∀ w : string → verdict, forallb (λ kv, is_valid (w (fst kv))) (fo_values (fd_option f)) = true →
    w k = Valid) as Hall.
  { intros w H. rewrite forallb_forall in H. apply list_elem_of_In in Hin. specialize (H _ Hin). cbn in H.
    by destruct (w k). }
  destruct (fd_check f); cbn in Hc; try discriminate Hc; injection Hc as <-; cbn [field_check] in Hok;
    try exact (Hall _ Hok); [done|].
  rewrite Hok in Hin. apply list_elem_of_fmap in Hin as (g & Heq & Hg). injection Heq as -> _.
  by apply server_group_offered.
Qed.

Lemma sections_linked hasUi groups downloads :
  forallb (λ s, fields_linked (snd s)) (smartdns_sections hasUi groups downloads) = true.
Proof. destruct hasUi; vm_compute; reflexivity. Qed.

Lemma sections_choices hasUi groups downloads :
  Forall (λ s, Forall (choices_ok groups) (snd s)) (smartdns_sections hasUi groups downloads).
Proof. destruct hasUi; repeat constructor. Qed.

Lemma sections_defaults hasUi groups downloads :
  forallb (λ s, forallb (λ f, eqb (default_ok (fd_option f)) (negb (dualstack_choice (fd_option f)))) (snd s))
    (smartdns_sections hasUi groups downloads) = true.
Proof. destruct hasUi; vm_compute; reflexivity. Qed.

(** C23: whatever groups the servers have and whatever files are downloaded,
    with or without the web interface, every section of the form hangs
    together: option names are distinct; an option depends only on values
    that another option of the section can take; every predefined choice
    satisfies the option's own validator, the offered server groups included;
    and every choice list's default is one of its choices, the two
    [dualstack_ip_selection] lists excepted. *)
Theorem smartdns_form_ok hasUi groups downloads cls type fields :
  (cls, type, fields) ∈ smartdns_sections hasUi groups downloads →
  NoDup (map (λ f, fo_name (fd_option f)) fields) ∧
  (∀ f, f ∈ fields →
    depends_ok (map fd_option fields) (fd_option f) = true ∧
    (∀ v k l, field_check groups (fd_check f) = Some v → (k, l) ∈ fo_values (fd_option f) → v k = Valid) ∧
    default_ok (fd_option f) = negb (dualstack_choice (fd_option f))).
Proof.
  intros Hin. pose proof (sections_linked hasUi groups downloads) as Hl.
  pose proof (sections_choices hasUi groups downloads) as Hc.
  pose proof (sections_defaults hasUi groups downloads) as Hd.
  rewrite Forall_forall in Hc. specialize (Hc _ Hin). cbn [snd] in Hc. rewrite Forall_forall in Hc.
  rewrite forallb_forall in Hl, Hd. apply list_elem_of_In in Hin. specialize (Hl _ Hin). specialize (Hd _ Hin).
  cbn [snd] in Hl, Hd. unfold fields_linked in Hl. apply andb_true_iff in Hl as [Hn Hl]. split.
  { apply distinct_NoDup in Hn. by rewrite map_map in Hn. }
  intros f Hf. split; [|split].
  - rewrite forallb_forall in Hl. apply Hl, in_map, list_elem_of_In, Hf.
  - intros v k l. by apply choices_ok_valid, Hc.
  - rewrite forallb_forall in Hd. by apply eqb_prop, Hd, list_elem_of_In.
Qed.
End Consistency.

Section ConsistencyWitness.
#[local] Instance plain_i18n : I18n := Build_I18n (λ s, s) (λ s _, s).

Lemma smartdns_form_ok_witness :
  (TypedSection, "ip-rule", sd_ip_lists) ∈ smartdns_sections true [Some "office"; None; Some "office"] [] ∧
  NoDup (map (λ f, fo_name (fd_option f)) sd_ip_lists).
Proof.
  assert ((TypedSection, "ip-rule", sd_ip_lists) ∈ smartdns_sections true [Some "office"; None; Some "office"] []) as Hin.
  { apply list_elem_of_In. cbv [smartdns_sections In]. repeat (first [left; reflexivity | right]). }
  split; [exact Hin|]. exact (proj1 (smartdns_form_ok true _ _ _ _ _ Hin)).
Defined.
End ConsistencyWitness.
