(* ===== verification/SmartDnsPage.v ===== *)
(** [view/smartdns/smartdns.js]: the sections of the page as they are declared,
    with their titles and tabs, around the fields of [SmartDnsForm]. *)
From stdpp Require Import base list strings.
From Stdlib Require Import ZArith Lia Ascii Bool.
From S2P Require Import Prelude JsString JsArray Luci Forms SmartDns SmartDnsForm.

(** A section without its options: the section it is made in, if it is the
    [subsection] of a field. *)
Record section_head : Type := mkHead {
  sh_class : section_class;
  sh_type : string;
  sh_title : string;
  sh_description : string;
  sh_anonymous : bool;
  sh_addremove : bool;
  sh_sortable : bool;
  sh_nodescriptions : bool;
  sh_tabs : list (string * string * string);
}.

(** [s.tab(name, title, description)] *)
Definition tab (name title : string) : string * string * string := (name, title, "").
Definition tab_with (name title description : string) : string * string * string := (name, title, description).

Section SmartDnsPage.
Context {I : I18n}.

Definition sd_settings_head : section_head :=
  mkHead TypedSection "smartdns" (tr "Settings") (tr "General Settings") true false false false
    [tab "settings" (tr "General Settings"); tab "advanced" (tr "Advanced Settings");
     tab "seconddns" (tr "Second Server Settings"); tab "dns64" (tr "DNS64 Server Settings");
     tab_with "files" (tr "Download Files Setting")
       (tr "Download domain list files for domain-rule and include config files, please refresh the page after download to take effect.");
     tab "proxy" (tr "Proxy Server Settings"); tab "custom" (tr "Custom Settings")].

Definition sd_download_head : section_head :=
  mkHead GridSection "download-file" (tr "Download Files") (tr "List of files to download.") true true true false [].

Definition sd_server_head : section_head :=
  mkHead GridSection "server" (tr "Upstream Servers")
    (tr ("Upstream Servers, support UDP, TCP, TLS, HTTPS, QUIC and HTTP3 protocol. Please configure multiple DNS servers, "
         +:+ "including multiple foreign DNS servers."))
    true true true false [tab "general" (tr "General Settings"); tab "advanced" (tr "Advanced Settings")].

Definition sd_client_head : section_head :=
  mkHead TypedSection "client-rule" (tr "Client Rules")
    (tr "Client Rules Settings, can achieve parental control functionality.") true false false true
    [tab "basic" (tr "Basic Settings"); tab "advanced" (tr "Advanced Settings"); tab "block" (tr "DNS Block Setting")].

Definition sd_domain_head : section_head :=
  mkHead TypedSection "domain-rule" (tr "Domain Rules") (tr "Domain Rules Settings") true false false true
    [tab "forwarding" (tr "DNS Forwarding Setting"); tab "block" (tr "DNS Block Setting");
     tab_with "domain-rule-list" (tr "Domain Rule List") (tr "Set Specific domain rule list.");
     tab_with "domain-address" (tr "Domain Address") (tr "Set Specific domain ip address.")].

Definition sd_domain_list_head : section_head :=
  mkHead GridSection "domain-rule-list" (tr "Domain Rule List") (tr "Configure domain rule list.") true true true false [].

Definition sd_ip_head : section_head :=
  mkHead TypedSection "ip-rule" (tr "IP Rules") (tr "IP Rules Settings") true false false true
    [tab_with "ip-rule-list" (tr "IP Rule List") (tr "Set Specific ip rule list.");
     tab_with "blackip-list" (tr "IP Blacklist") (tr "Set Specific ip blacklist.")].

Definition sd_ip_list_head : section_head :=
  mkHead GridSection "ip-rule-list" (tr "IP Rule List") (tr "Configure ip rule list.") true true true false [].

Definition sd_support_head : section_head :=
  mkHead TypedSection "smartdns" (tr "Technical Support") (tr "If you like this software, please buy me a cup of coffee.")
    true false false false [].

Definition sd_heads : list section_head :=
  [sd_settings_head; sd_download_head; sd_server_head; sd_client_head; sd_domain_head; sd_domain_list_head; sd_ip_head;
   sd_ip_list_head; sd_support_head].

(** The title and description of the page; those given to the map are
    replaced. *)
Definition sd_map_head : string * string :=
  (tr "SmartDNS Server",
   tr ("SmartDNS is a local high-performance DNS server, supports finding fastest IP, "
       +:+ "supports ad filtering, and supports avoiding DNS poisoning.")).

(** [s.tab(...)] and then the options: [taboption] throws for a tab that was
    not declared, and [option] puts a field beside the tabs, which the
    framework accepts only without any. *)
Definition make_fields (tabs : list (string * string * string)) (fields : list field) : res (list field) :=
  fold_left (λ acc f,
    let* done := acc in
    if existsb (String.eqb (fd_tab f)) (map (λ t, fst (fst t)) tabs) then Ok (done ++ [f])
    else if String.eqb (fd_tab f) "" && Nat.eqb (length tabs) 0 then Ok (done ++ [f])
    else Throw "ReferenceError") fields (Ok []).

Fixpoint make_sections (heads : list section_head) (sections : list (section_class * string * list field))
    : res (list (section_head * list field)) :=
  match heads, sections with
  | h :: heads, (_, _, fields) :: sections =>
      let* made := make_fields (sh_tabs h) fields in
      let* rest := make_sections heads sections in
      Ok ((h, made) :: rest)
  | _, _ => Ok []
  end.

(** [render], its sections. *)
Definition smartdns_page (hasUi : bool) (groups : list (option string)) (downloads : list download)
    : res (list (section_head * list field)) :=
  make_sections sd_heads (smartdns_sections hasUi groups downloads).
End SmartDnsPage.

(** ** Facts *)

Section SmartDnsPageFacts.
Context {I : I18n}.

Definition tab_declared (tabs : list (string * string * string)) (f : field) : bool :=
  existsb (String.eqb (fd_tab f)) (map (λ t, fst (fst t)) tabs)
  || (String.eqb (fd_tab f) "" && Nat.eqb (length tabs) 0).

Lemma make_fields_ok tabs fields : forallb (tab_declared tabs) fields = true → make_fields tabs fields = Ok fields.
Proof.
  intros H. unfold make_fields.
  assert (∀ pre, fold_left (λ acc f, let* done := acc in
      if existsb (String.eqb (fd_tab f)) (map (λ t, fst (fst t)) tabs) then Ok (done ++ [f])
      else if String.eqb (fd_tab f) "" && Nat.eqb (length tabs) 0 then Ok (done ++ [f])
      else Throw "ReferenceError") fields (Ok pre) = Ok (pre ++ fields)) as Hgo; [|apply Hgo].
  induction fields as [|f fields IH]; intros pre; cbn; [by rewrite app_nil_r|].
  apply andb_true_iff in H as [Hf Hfs]. unfold tab_declared in Hf.
  destruct (existsb _ _); cbn in Hf |- *; [|rewrite Hf; cbn]; by rewrite (IH Hfs), <- app_assoc.
Qed.

Lemma make_sections_ok heads (sections : list (section_class * string * list field)) :
  Forall2 (λ h s, forallb (tab_declared (sh_tabs h)) (snd s) = true) heads sections →
  make_sections heads sections = Ok (zip heads (map snd sections)).
Proof.
  induction 1 as [|h [[c t] fields] heads sections Hf _ IH]; [done|]. cbn in *.
  rewrite (make_fields_ok _ _ Hf). cbn. by rewrite IH.
Qed.

Lemma heads_match hasUi groups downloads :
  map (λ h, (sh_class h, sh_type h)) sd_heads = map fst (smartdns_sections hasUi groups downloads) ∧
  Forall2 (λ h s, forallb (tab_declared (sh_tabs h)) (snd s) = true) sd_heads (smartdns_sections hasUi groups downloads).
Proof. split; [reflexivity|]. destruct hasUi; repeat constructor. Qed.

(** The page can be made: whatever servers, groups and downloads are configured,
    with or without the web interface, every field goes to a tab its section
    has declared, so that no declaration throws, no field is lost, and every
    section has the fields meant for it. *)
Theorem smartdns_page_made hasUi groups downloads :
  smartdns_page hasUi groups downloads = Ok (zip sd_heads (map snd (smartdns_sections hasUi groups downloads))) ∧
  map (λ h, (sh_class h, sh_type h)) sd_heads = map fst (smartdns_sections hasUi groups downloads).
Proof.
  destruct (heads_match hasUi groups downloads) as [H1 H2]. split; [|exact H1].
  by apply make_sections_ok.
Qed.

(** Every tab of the page has a field. *)
Lemma tabs_used hasUi groups downloads :
  Forall2 (λ h s, forallb (λ t, existsb (λ f, String.eqb (fd_tab f) (fst (fst t))) (snd s)) (sh_tabs h) = true)
    sd_heads (smartdns_sections hasUi groups downloads).
Proof. destruct hasUi; repeat constructor. Qed.
End SmartDnsPageFacts.
