(* ===== verification/OcTheme.v ===== *)
(** [openclash/js/common.js], theme part: the luminance of a CSS colour, the
    detection of a dark page and the attributes the front end derives from
    it. *)
From stdpp Require Import base list strings.
From Stdlib Require Import ZArith Lia Ascii Bool Floats.SpecFloat.
From S2P Require Import Prelude JsNum JsString.

(** ** Colours *)

(** [text.match(/[\d.]+/g)]: the maximal runs of digits and dots. *)
Definition in_number (c : ascii) : bool := is_digit c || Ascii.eqb c ".".

Fixpoint runs_go (s acc : string) : list string :=
  match s with
  | EmptyString => if str_truthy acc then [acc] else []
  | String c r =>
      if in_number c then runs_go r (acc +:+ String c "")
      else if str_truthy acc then acc :: runs_go r "" else runs_go r ""
  end.
Definition number_runs (s : string) : list string := runs_go s "".

(** The decimal digits at the start of a text, and the rest. *)
Fixpoint leading_digits (s : string) : string * string :=
  match s with
  | String c r => if is_digit c then let '(d, t) := leading_digits r in (String c d, t) else ("", s)
  | EmptyString => ("", "")
  end.

Definition double (z : Z) : spec_float := sf_of_num (Fin z).
Definition f_add : spec_float → spec_float → spec_float := SFadd 53 1024.
Definition f_sub : spec_float → spec_float → spec_float := SFsub 53 1024.

(** The double nearest to [n / d], as a decimal literal denotes. *)
Definition literal (n d : Z) : spec_float := sf_div (double n) (double d).

(** [parseFloat] of a run of digits and dots: the digits up to the second
    dot. *)
Definition parseFloat (s : string) : spec_float :=
  let '(whole, rest) := leading_digits s in
  let frac := match rest with String "." r => fst (leading_digits r) | _ => "" end in
  if negb (str_truthy (whole +:+ frac)) then S754_nan
  else
    match parse_digits 10 0 (whole +:+ frac) with
    | 0 => S754_zero false
    | Zpos p => SFdiv 53 1024 (S754_finite false p 0) (S754_finite false (Z.to_pos (10 ^ str_len frac)) 0)
    | Zneg _ => S754_nan
    end.

(** [color.substr(i, 2)] *)
Definition substr2 (i : Z) (s : string) : string := str_upto 2 (str_from i s).

(** [parseInt(color[i] + color[i], 16)] for a text that has the position. *)
Definition doubled (i : Z) (s : string) : string := let c := str_upto 1 (str_from i s) in c +:+ c.

(** [0.2126 * r + 0.7152 * g + 0.0722 * b] *)
Definition weigh (r g b : num) : spec_float :=
  f_add (f_add (sf_mul (literal 2126 10000) (sf_of_num r)) (sf_mul (literal 7152 10000) (sf_of_num g)))
    (sf_mul (literal 722 10000) (sf_of_num b)).

Definition luminanceFromColor (color : string) : spec_float :=
  if str_index_of color "lab(" =? 0 then
    match number_runs color with
    | l :: _ => sf_mul (parseFloat l) (literal 255 100)
    | [] => double 128
    end
  else if String.prefix "#" color then
    if str_len color =? 4 then
      weigh (parseInt (doubled 1 color) 16) (parseInt (doubled 2 color) 16) (parseInt (doubled 3 color) 16)
    else weigh (parseInt (substr2 1 color) 16) (parseInt (substr2 3 color) 16) (parseInt (substr2 5 color) 16)
  else
    match number_runs color with
    | r :: g :: b :: _ => weigh (parseInt r 10) (parseInt g 10) (parseInt b 10)
    | _ => double 128
    end.

Example luminance_white : SFltb (luminanceFromColor "#ffffff") (double 128) = false.
Proof. vm_compute. reflexivity. Qed.
Example luminance_navy : SFltb (luminanceFromColor "rgb(0, 0, 128)") (double 128) = true.
Proof. vm_compute. reflexivity. Qed.
Example luminance_lab : SFltb (luminanceFromColor "lab(50.2% 0 0)") (double 128) = false.
Proof. vm_compute. reflexivity. Qed.

(** ** Detection *)

(** What the browser knows of the page: attributes of the root element (unset,
    or a text), stored items, computed styles, and whether the system prefers
    dark colours. *)
Record surroundings : Type := mkSurroundings {
  su_bs_theme : option string;
  su_theme : option string;
  su_className : string;
  su_stored : string → option string;
  su_custom : string → string;
  su_root_background : string;
  su_body_background : option string;
  su_prefers_dark : bool;
}.

Definition is_text (o : option string) (t : string) : bool :=
  match o with Some s => String.eqb s t | None => false end.

(** [a || b] of two attributes. *)
Definition attr_or (a b : option string) : option string :=
  match a with Some s => if str_truthy s then a else b | None => b end.

Definition or_str (a b : string) : string := if str_truthy a then a else b.

Definition theme_keys : list (string * string) :=
  [("mode", "dark"); ("dark_mode", "1"); ("argon_dark_mode", "1"); ("theme", "dark"); ("luci-theme-mode", "dark")].

(** The loop over the stored items: [None] when it runs to its end. *)
Fixpoint stored_theme (stored : string → option string) (keys : list (string * string)) : option bool :=
  match keys with
  | [] => None
  | (k, dark) :: keys =>
      let v := stored k in
      if is_text v dark then Some true
      else if is_text v "light" || is_text v "0" || is_text v "false" then Some false
      else stored_theme stored keys
  end.

Definition transparent (color : string) : bool :=
  negb (str_truthy color) || String.eqb color "transparent" || String.eqb color "rgba(0, 0, 0, 0)".

(** [cls.indexOf(' name ') >= 0] *)
Definition has_class (className name : string) : bool :=
  0 <=? str_index_of (" " +:+ className +:+ " ") (" " +:+ name +:+ " ").

(** [dm]: the root's [data-darkmode]. *)
Definition detectInitialAutoDark (w : surroundings) (dm : option string) : bool :=
  let v := attr_or (attr_or (su_bs_theme w) (su_theme w)) dm in
  if is_text v "dark" || is_text v "dim" || is_text v "true" then true
  else if is_text v "light" || is_text v "false" then false
  else if existsb (has_class (su_className w)) ["dark"; "dark-mode"; "theme-dark"; "night-mode"] then true
  else
    match stored_theme (su_stored w) theme_keys with
    | Some d => d
    | None =>
        let get n := str_trim (su_custom w n) in
        let checkBg := or_str (or_str (get "--bs-body-bg") (get "--body-bg")) (get "--theme-bg") in
        if negb (transparent checkBg) then SFltb (luminanceFromColor checkBg) (double 128)
        else su_prefers_dark w
    end.

(** [isDarkBackground] of an element with the given background colour. *)
Definition isDarkBackground (w : surroundings) (backgroundColor : string) : bool :=
  let cachedTheme := su_stored w "oc-theme" in
  if is_text cachedTheme "dark" then true
  else if is_text cachedTheme "light" then false
  else
    let bgColor := if transparent backgroundColor then su_root_background w else backgroundColor in
    let lum := luminanceFromColor bgColor in
    if SFltb (double 100) lum && SFltb lum (double 156) && su_prefers_dark w then true
    else SFltb lum (double 128).

(** ** The page *)

(** What the functions keep: the root's [data-darkmode], the content of the
    [color-scheme] meta elements in the head, and the flag
    [_ocThemeInited]. *)
Record themed : Type := mkThemed {
  th_darkmode : option string;
  th_metas : list string;
  th_inited : bool;
}.

(** [localStorage.getItem('oc-theme') || 'auto'] *)
Definition chosen_theme (w : surroundings) : string :=
  match su_stored w "oc-theme" with Some t => or_str t "auto" | None => "auto" end.

Definition wanted_dark (w : surroundings) (dm : option string) : bool :=
  let t := chosen_theme w in
  if String.eqb t "dark" then true
  else if String.eqb t "light" then false
  else match su_body_background w with
       | Some bg => isDarkBackground w bg
       | None => detectInitialAutoDark w dm
       end.

(** The first meta element, made when there is none, takes the content. *)
Definition set_meta (content : string) (metas : list string) : list string :=
  match metas with [] => [content] | _ :: rest => content :: rest end.

Definition ocApplyRootTheme (w : surroundings) (p : themed) : themed :=
  let d := wanted_dark w (th_darkmode p) in
  mkThemed (Some (if d then "true" else "false")) (set_meta (if d then "dark" else "light") (th_metas p))
    (th_inited p).

(** What the functions ask of the rest of the page; [ApplyEditorTheme] carries
    the [isDark] it reads off the root. *)
Inductive request : Type :=
  | ApplyEditorTheme (isDark : bool)
  | HideEmptyCbiElements
  | CenterCbiActions
  | OnDomReady (needsCorrection : bool).

Definition ocApplyEditorTheme (p : themed) : request := ApplyEditorTheme (is_text (th_darkmode p) "true").

Definition ocUpdateTheme (w : surroundings) (p : themed) : themed * list request :=
  let p := ocApplyRootTheme w p in (p, [ocApplyEditorTheme p]).

Definition _ocDomReady (needsCorrection : bool) (w : surroundings) (p : themed) : themed * list request :=
  let p := if needsCorrection then ocApplyRootTheme w p else p in
  (p, [ocApplyEditorTheme p; HideEmptyCbiElements; CenterCbiActions]).

(** [loading]: [document.readyState === 'loading']; the handler registered is
    the request [OnDomReady]. *)
Definition ocInitTheme (loading : bool) (w : surroundings) (p : themed) : themed * list request :=
  if th_inited p then ocUpdateTheme w p
  else
    let p := ocApplyRootTheme w (mkThemed (th_darkmode p) (th_metas p) true) in
    let needsCorrection := String.eqb (chosen_theme w) "auto" in
    if loading then (p, [OnDomReady needsCorrection]) else _ocDomReady needsCorrection w p.

(** ** Facts *)

Definition dark_text (d : bool) : string := if d then "true" else "false".

Lemma is_text_dark d : is_text (Some (dark_text d)) "true" = d.
Proof. by destruct d. Qed.

(** Once the attribute holds an answer, the detection gives it back, unless
    the theme's own attributes decide. *)
Lemma detect_again w dm :
  detectInitialAutoDark w (Some (dark_text (detectInitialAutoDark w dm))) = detectInitialAutoDark w dm.
Proof.
  set (d := detectInitialAutoDark w dm) at 1.
  assert (d = detectInitialAutoDark w dm) as Hd by reflexivity.
  unfold detectInitialAutoDark in Hd |- *. unfold attr_or in *.
  destruct (match su_bs_theme w with Some s => if str_truthy s then su_bs_theme w else su_theme w
            | None => su_theme w end) as [t|] eqn:Hv.
  - destruct (str_truthy t) eqn:Ht; [exact (eq_refl _)|].
    rewrite <- Hd. clear Hd. by destruct d.
  - rewrite <- Hd. clear Hd. by destruct d.
Qed.

Lemma wanted_again w dm : wanted_dark w (Some (dark_text (wanted_dark w dm))) = wanted_dark w dm.
Proof.
  unfold wanted_dark. destruct (String.eqb _ "dark"); [done|]. destruct (String.eqb _ "light"); [done|].
  destruct (su_body_background w); [done|]. apply detect_again.
Qed.

(** The attribute and the meta element agree. *)
Definition theme_coherent (p : themed) : Prop :=
  ∃ d rest, th_darkmode p = Some (dark_text d) ∧ th_metas p = (if d : bool then "dark" else "light") :: rest.

Lemma apply_coherent w p : theme_coherent (ocApplyRootTheme w p).
Proof.
  unfold theme_coherent, ocApplyRootTheme. cbn [th_darkmode th_metas].
  exists (wanted_dark w (th_darkmode p)). destruct (th_metas p) as [|m rest]; by eexists.
Qed.

(** Applying twice is applying once. *)
Lemma apply_idempotent w p : ocApplyRootTheme w (ocApplyRootTheme w p) = ocApplyRootTheme w p.
Proof.
  unfold ocApplyRootTheme. cbn [th_darkmode th_metas th_inited].
  change (if wanted_dark w (th_darkmode p) then "true" else "false") with (dark_text (wanted_dark w (th_darkmode p))).
  rewrite wanted_again. f_equal. by destruct (th_metas p).
Qed.

Lemma applied_darkmode w p : th_darkmode (ocApplyRootTheme w p) = Some (dark_text (wanted_dark w (th_darkmode p))).
Proof. reflexivity. Qed.

Lemma applied_metas w p : length (th_metas (ocApplyRootTheme w p)) = Nat.max 1 (length (th_metas p)).
Proof. cbn. destruct (th_metas p); [done|]. cbn. lia. Qed.

(** The calls other scripts, the browser and this script make. *)
Inductive theme_call : Type :=
  | InitTheme (loading : bool)
  | UpdateTheme
  | DomReady (needsCorrection : bool).

Definition run_call (w : surroundings) (c : theme_call) (p : themed) : themed * list request :=
  match c with
  | InitTheme loading => ocInitTheme loading w p
  | UpdateTheme => ocUpdateTheme w p
  | DomReady b => _ocDomReady b w p
  end.

(** What holds after the theme has been applied in [w]. *)
Definition theme_settled (w : surroundings) (p p' : themed) (reqs : list request) : Prop :=
  theme_coherent p' ∧
  (chosen_theme w = "dark" → th_darkmode p' = Some "true") ∧
  (chosen_theme w = "light" → th_darkmode p' = Some "false") ∧
  length (th_metas p') = Nat.max 1 (length (th_metas p)) ∧
  (∀ b, ApplyEditorTheme b ∈ reqs → th_darkmode p' = Some (dark_text b)) ∧
  ocApplyRootTheme w p' = p'.

Lemma wanted_chosen w dm :
  (chosen_theme w = "dark" → wanted_dark w dm = true) ∧ (chosen_theme w = "light" → wanted_dark w dm = false).
Proof. unfold wanted_dark. split; intros ->; reflexivity. Qed.

Lemma applied_settled w p reqs :
  (∀ b, ApplyEditorTheme b ∈ reqs → b = is_text (th_darkmode (ocApplyRootTheme w p)) "true") →
  theme_settled w p (ocApplyRootTheme w p) reqs.
Proof.
  intros Hr. split_and!; [apply apply_coherent| | |apply applied_metas| |apply apply_idempotent].
  - intros Hc. rewrite applied_darkmode. by rewrite (proj1 (wanted_chosen w _) Hc).
  - intros Hc. rewrite applied_darkmode. by rewrite (proj2 (wanted_chosen w _) Hc).
  - intros b Hb. apply Hr in Hb. rewrite applied_darkmode, is_text_dark in Hb. by rewrite applied_darkmode, Hb.
Qed.

(** The editors hear what the root says. *)
Ltac told :=
  let Hb := fresh in
  intros ? Hb; unfold ocApplyEditorTheme in Hb;
  repeat (apply elem_of_cons in Hb as [Hb|Hb]; [first [discriminate Hb | injection Hb as ->; reflexivity]|]);
  inversion Hb.

(** C31: After each call that applies the theme, whatever the page held before,
    the root's [data-darkmode] and the [color-scheme] meta element agree, a
    stored choice of dark or light is obeyed, at most one meta element was
    added, the editors are told the same as the root says, and applying the
    theme again in the same surroundings changes nothing, although the
    detection then reads the attribute it wrote. *)
Theorem theme_call_settles w c p :
  c ≠ DomReady false →
  theme_settled w p (fst (run_call w c p)) (snd (run_call w c p)).
Proof.
  intros Hc. destruct c as [loading| |[]]; [|by apply applied_settled; told|by apply applied_settled; told|done].
  cbn [run_call]. unfold ocInitTheme. destruct (th_inited p); [by apply applied_settled; told|].
  set (q := mkThemed (th_darkmode p) (th_metas p) true). destruct loading; [by apply (applied_settled w q); told|].
  unfold _ocDomReady. destruct (String.eqb (chosen_theme w) "auto"); cbn [fst snd];
    [rewrite apply_idempotent|]; apply (applied_settled w q); told.
Qed.

Section ThemeWitness.

Definition plain_page : surroundings :=
  mkSurroundings None None "theme-dark" (λ _, None) (λ _, "") "rgb(16, 16, 16)" None false.

(** Before the body is there, the class decides; the answer is kept. *)
Lemma theme_call_settles_witness :
  DomReady true ≠ DomReady false ∧ InitTheme true ≠ DomReady false ∧
  theme_settled plain_page (mkThemed None [] false)
    (mkThemed (Some "true") ["dark"] true) [OnDomReady true].
Proof.
  split; [discriminate|]. split; [discriminate|].
  exact (theme_call_settles plain_page (InitTheme true) (mkThemed None [] false) ltac:(discriminate)).
Defined.
End ThemeWitness.
