(* ===== verification/OcSetup.v ===== *)
(** [tools/codemirror/entry.js]: how an editor is put together: the extensions
    every editor has, the keys with their handlers, the colours of the
    indentation guides, and the configuration of the merge view.  The
    extensions, the keymaps and the two commands behind Tab are CodeMirror's:
    parameters. *)
From stdpp Require Import base list strings.
From Stdlib Require Import ZArith Lia Ascii Bool.
From S2P Require Import Prelude JsString.

(** ** Keys *)

Section Keys.
(** The editor's state; a command may change it, and says whether it did
    anything. *)
Context {View : Type}.

Definition editor_command : Type := View → View * bool.

(** [{ key: ..., run: ... }] *)
Record binding : Type := mkBinding {
  bi_key : string;
  bi_run : editor_command;
}.

(** [a(v) || b(v)] *)
Definition or_else (a b : editor_command) : editor_command := λ v, let '(v', done) := a v in if done then (v', true) else b v'.

(** The commands of the library. *)
Variable acceptCompletion indentMore : editor_command.

Definition tab_binding : binding := mkBinding "Tab" (or_else acceptCompletion indentMore).

(** The keymaps of the library, and the keymap of the editors. *)
Variable defaultKeymap historyKeymap searchKeymap closeBracketsKeymap foldKeymap : list binding.

Definition editor_keymap : list binding :=
  defaultKeymap ++ historyKeymap ++ searchKeymap ++ closeBracketsKeymap ++ foldKeymap ++ [tab_binding].

(** What CodeMirror does with a key: the bindings of the key in order, until
    one says that it handled it. *)
Fixpoint press_key (key : string) (l : list binding) (v : View) : View * bool :=
  match l with
  | [] => (v, false)
  | b :: rest =>
      if String.eqb (bi_key b) key then
        let '(v', done) := bi_run b v in if done then (v', true) else press_key key rest v'
      else press_key key rest v
  end.
End Keys.

Arguments binding : clear implicits.
Arguments editor_command : clear implicits.

(** ** Extensions *)

Inductive extension {View : Type} : Type :=
  | LineNumbers | HighlightActiveLine | HighlightActiveLineGutter | HighlightSpecialChars | DrawSelection | DropCursor
  | RectangularSelection | CrosshairCursor | BracketMatching | FoldGutter | IndentOnInput | History
  | HighlightSelectionMatches | LineWrapping | CloseBrackets | SyntaxPreload
  | KeymapOf (l : list (binding View))
  | Search (top : bool)
  | Placeholder (text : string)
  | BaseTheme (rules : list (string * list (string * string)))
  | GuidePlugin
  | Group (l : list extension).
Arguments extension : clear implicits.

Definition baseExtensions {View} (keymap : list (binding View)) (extra : list (extension View)) : list (extension View) :=
  [LineNumbers; HighlightActiveLine; HighlightActiveLineGutter; HighlightSpecialChars; DrawSelection; DropCursor;
   RectangularSelection; CrosshairCursor; BracketMatching; FoldGutter; IndentOnInput; History;
   HighlightSelectionMatches; LineWrapping; CloseBrackets; SyntaxPreload; KeymapOf keymap] ++ extra.

Definition topSearchExtension {View} : extension View := Search true.
Definition placeholderExtension {View} (text : string) : extension View := Placeholder text.

(** ** The colours of the guides *)

Record guide_colors : Type := mkGuideColors {
  gc_light : option string;
  gc_activeLight : option string;
  gc_dark : option string;
  gc_activeDark : option string;
}.

(** [x || fallback] *)
Definition color_or (x : option string) (fallback : string) : string :=
  match x with Some c => if str_truthy c then c else fallback | None => fallback end.

Definition color_rules (c : guide_colors) : list (string * list (string * string)) :=
  [("&light", [("--oc-im-c", color_or (gc_light c) "#e1e4e8"); ("--oc-im-ca", color_or (gc_activeLight c) "#d0d7de")]);
   ("&dark", [("--oc-im-c", color_or (gc_dark c) "#30363d"); ("--oc-im-ca", color_or (gc_activeDark c) "#484f58")])].

(** [_ocImBaseTheme] *)
Definition _ocImBaseTheme : list (string * list (string * string)) :=
  [(".cm-line", [("position", "relative")]);
   (".cm-oc-im::before",
    [("content", dq +:+ dq); ("position", "absolute"); ("top", "0"); ("left", "6px"); ("right", "0");
     ("height", "var(--oc-lh, 100%)"); ("background", "var(--oc-im)"); ("pointerEvents", "none"); ("zIndex", "-1")]);
   ("&light", [("--oc-im-c", "#e1e4e8"); ("--oc-im-ca", "#d0d7de")]);
   ("&dark", [("--oc-im-c", "#30363d"); ("--oc-im-ca", "#484f58")])].

(** [indentMarkerExtension], its extensions. *)
Definition guide_extensions {View} (colors : option guide_colors) : list (extension View) :=
  [BaseTheme _ocImBaseTheme; match colors with Some c => BaseTheme (color_rules c) | None => Group [] end; GuidePlugin].

(** ** Merge views *)

Record merge_config : Type := mkMergeConfig {
  mc_scanLimit : Z;
  mc_gutter : bool;
  mc_revertControls : string;
  mc_collapseUnchanged : bool;
}.

Definition mergeDefaultConfig : merge_config := mkMergeConfig 5000 true "b-to-a" false.

(** [_ocIsDark()], of the root's [data-darkmode] *)
Definition _ocIsDark (darkmode : option string) : bool :=
  match darkmode with Some t => String.eqb t "true" | None => false end.

(** ** Facts *)

(** The rules of the base themes of an extension. *)
Fixpoint themes {View} (e : extension View) : list (string * list (string * string)) :=
  match e with
  | BaseTheme r => r
  | Group l => flat_map themes l
  | _ => []
  end.

(** The style sheet of an editor: CodeMirror mounts the themes of its
    extensions from the last to the first, so that an earlier extension has
    precedence. *)
Definition sheet {View} (exts : list (extension View)) : list (string * list (string * string)) :=
  flat_map themes (rev exts).

(** The value of a property: that of the last rule that sets it. *)
Definition rule_value (rules : list (string * list (string * string))) (selector property : string) : option string :=
  fold_left (λ acc r,
    if String.eqb (fst r) selector then
      match List.find (λ p, String.eqb (fst p) property) (snd r) with Some p => Some (snd p) | None => acc end
    else acc) rules None.

Definition theme_selector (dark : bool) : string := if dark then "&dark" else "&light".
Definition color_property (active : bool) : string := if active then "--oc-im-ca" else "--oc-im-c".

Definition default_color (dark active : bool) : string :=
  if dark then (if active then "#484f58" else "#30363d") else (if active then "#d0d7de" else "#e1e4e8").

(** Whatever colours are given, a guide has the default one: the extension with
    the given colours comes after the base theme. *)
Lemma guide_color_ignored (View : Type) (colors : option guide_colors) (dark active : bool) :
  rule_value (sheet (@guide_extensions View colors)) (theme_selector dark) (color_property active) =
  Some (default_color dark active).
Proof. destruct colors as [c|], dark, active; reflexivity. Qed.

(** In the order of a style sheet they would be shown. *)
Lemma guide_color_meant (View : Type) (c : guide_colors) (dark active : bool) :
  rule_value (flat_map themes (@guide_extensions View (Some c))) (theme_selector dark) (color_property active) =
  Some (color_or (if dark then (if active then gc_activeDark c else gc_dark c)
                  else (if active then gc_activeLight c else gc_light c)) (default_color dark active)).
Proof. destruct dark, active; reflexivity. Qed.

Section TabFacts.
Context {View : Type}.
Implicit Types l : list (binding View).

Lemma press_app key l m v :
  Forall (λ b, bi_key b ≠ key) l → press_key key (l ++ m) v = press_key key m v.
Proof.
  induction 1 as [|b l Hb _ IH]; cbn; [done|]. apply String.eqb_neq in Hb. by rewrite Hb.
Qed.

(** Where the keymaps of the library leave Tab alone, Tab takes the open
    completion, and indents when there is none: never both. *)
Lemma tab_completes_or_indents (acceptCompletion indentMore : editor_command View) d h s c f v :
  Forall (λ b, bi_key b ≠ "Tab") (d ++ h ++ s ++ c ++ f) →
  press_key "Tab" (editor_keymap acceptCompletion indentMore d h s c f) v =
  (if snd (acceptCompletion v) then acceptCompletion v
   else indentMore (fst (acceptCompletion v))).
Proof.
  intros H. unfold editor_keymap. rewrite !app_assoc.
  rewrite press_app by (by rewrite <- !app_assoc). cbn. unfold or_else.
  destruct (acceptCompletion v) as [v1 [|]]; cbn; [done|]. by destruct (indentMore v1) as [v2 [|]].
Qed.

(** The extensions of a caller come last. *)
Lemma extra_last (keymap : list (binding View)) extra :
  ∃ base, baseExtensions keymap extra = base ++ extra ∧ length base = 17%nat ∧ KeymapOf keymap ∈ base.
Proof.
  unfold baseExtensions. eexists. split; [reflexivity|]. split; [reflexivity|].
  apply list_elem_of_In. cbn. tauto.
Qed.
End TabFacts.

Lemma tab_completes_or_indents_witness :
  let complete : editor_command (list string) := λ v, match v with "popup" :: r => ("completed" :: r, true) | _ => (v, false) end in
  let indent : editor_command (list string) := λ v, ("indented" :: v, true) in
  let enter := mkBinding "Enter" indent in
  press_key "Tab" (editor_keymap complete indent [enter] [] [] [] []) ["popup"] = (["completed"], true).
Proof.
  cbv zeta. rewrite tab_completes_or_indents; [reflexivity|]. repeat constructor. discriminate.
Defined.
