(* ===== verification/OcLoad.v ===== *)
(** [openclash/js/common.js] as a page runs it: each template that needs the
    script includes it, so a page runs it several times, and between the runs
    the templates register the hotkeys and the user presses keys.  The block
    around the guard of the script's second line ends on that line, so every
    inclusion runs the whole script. *)
From stdpp Require Import base list strings.
From Stdlib Require Import ZArith Lia Bool.
From S2P Require Import Prelude JsArray OcEditor OcTheme.

(** The window: [_ocCommonLoaded] and [_ocEditorHotkeysBound], how many
    listeners for keys and for changes of the colour scheme were added, what
    the hotkeys work on and what the theme keeps. *)
Record oc_window : Type := mkWindow {
  wn_loaded : bool;
  wn_bound : bool;
  wn_keys : nat;
  wn_schemes : nat;
  wn_desk : desk;
  wn_theme : themed;
}.

(** The globals the script sets when it runs; the elements keep what they
    have. *)
Definition reset_globals (d : desk) : desk :=
  mkDesk (dk_editors d) 100 false true (None, snd (dk_patch d)) (dk_config_full d) (dk_diff_hidden d).

(** The body of the script, with the value [_ocCommonLoaded] has in it:
    [has_media] is [window.matchMedia], [loading] the state of the document. *)
Definition script_body (has_media loading : bool) (s : surroundings) (w : oc_window) : oc_window :=
  mkWindow (wn_loaded w) false (wn_keys w)
    (if has_media && negb (wn_loaded w) then S (wn_schemes w) else wn_schemes w)
    (reset_globals (wn_desk w)) (fst (ocInitTheme loading s (wn_theme w))).

(** [_ocGuard: { if (window._ocCommonLoaded) break _ocGuard; ... = true; }] *)
Definition guard_block (w : oc_window) : oc_window :=
  if wn_loaded w then w else mkWindow true (wn_bound w) (wn_keys w) (wn_schemes w) (wn_desk w) (wn_theme w).

Definition load_common (has_media loading : bool) (s : surroundings) (w : oc_window) : oc_window :=
  script_body has_media loading s (guard_block w).

(** What a guard around the whole script gives: it runs once, and sees the flag
    as it was before. *)
Definition load_once (has_media loading : bool) (s : surroundings) (w : oc_window) : oc_window :=
  if wn_loaded w then w
  else
    let v := script_body has_media loading s w in
    mkWindow true (wn_bound v) (wn_keys v) (wn_schemes v) (wn_desk v) (wn_theme v).

(** [ocRegisterEditorHotkeys] *)
Definition ocRegisterEditorHotkeys (w : oc_window) : oc_window :=
  if wn_bound w then w else mkWindow (wn_loaded w) true (S (wn_keys w)) (wn_schemes w) (wn_desk w) (wn_theme w).

(** The listener for changes of the colour scheme. *)
Definition on_scheme_change (s : surroundings) (p : themed) : themed :=
  if String.eqb (chosen_theme s) "auto" then
    let p := ocApplyRootTheme s p in
    match su_body_background s with Some _ => fst (ocUpdateTheme s p) | None => p end
  else p.

(** A page: templates that include the script or register the hotkeys, keys,
    and changes of the scheme, after which the surroundings are [s].  Every
    listener runs. *)
Inductive window_event : Type :=
  | Include (has_media loading : bool) (s : surroundings)
  | RegisterHotkeys
  | Press (k : hotkey)
  | SchemeChange (s : surroundings).

Definition with_desk (d : desk) (w : oc_window) : oc_window :=
  mkWindow (wn_loaded w) (wn_bound w) (wn_keys w) (wn_schemes w) d (wn_theme w).

Definition with_theme (p : themed) (w : oc_window) : oc_window :=
  mkWindow (wn_loaded w) (wn_bound w) (wn_keys w) (wn_schemes w) (wn_desk w) p.

Definition run_event (load : bool → bool → surroundings → oc_window → oc_window) (w : oc_window) (e : window_event)
    : oc_window :=
  match e with
  | Include m l s => load m l s w
  | RegisterHotkeys => ocRegisterEditorHotkeys w
  | Press k => with_desk (Nat.iter (wn_keys w) (λ d, on_hotkey d k) (wn_desk w)) w
  | SchemeChange s => with_theme (Nat.iter (wn_schemes w) (on_scheme_change s) (wn_theme w)) w
  end.

Definition run_page (load : bool → bool → surroundings → oc_window → oc_window) (evs : list window_event) (w : oc_window)
    : oc_window := fold_left (run_event load) evs w.

Definition fresh_window (d : desk) (p : themed) : oc_window := mkWindow false false 0 0 d p.

(** ** Facts *)

(** How often the hotkeys are added: at each first registration after an
    inclusion. *)
Fixpoint additions (bound : bool) (evs : list window_event) : nat :=
  match evs with
  | [] => 0
  | Include _ _ _ :: l => additions false l
  | RegisterHotkeys :: l => (if bound then 0 else 1) + additions true l
  | _ :: l => additions bound l
  end.

Lemma load_common_eq m l s w :
  load_common m l s w =
  mkWindow true false (wn_keys w) (wn_schemes w) (reset_globals (wn_desk w)) (fst (ocInitTheme l s (wn_theme w))).
Proof. unfold load_common, script_body, guard_block. destruct w as [[] b k n d p]; cbn; by rewrite andb_false_r. Qed.

Lemma keys_added evs w :
  wn_keys (run_page load_common evs w) = (wn_keys w + additions (wn_bound w) evs)%nat ∧
  wn_schemes (run_page load_common evs w) = wn_schemes w.
Proof.
  revert w. induction evs as [|e evs IH]; intros w; [split; cbn; lia|].
  cbn [run_page fold_left]. fold (run_page load_common evs (run_event load_common w e)).
  destruct (IH (run_event load_common w e)) as [-> ->].
  destruct e as [m l s| |k|s]; cbn [run_event additions]; rewrite ?load_common_eq; cbn; [done| |done|done].
  unfold ocRegisterEditorHotkeys. destruct (wn_bound w) eqn:E; cbn; rewrite ?E; split; lia || done.
Qed.

(** The change of the colour scheme is never followed, whatever the page
    includes and however often. *)
Theorem scheme_never_followed evs d p s :
  run_page load_common (evs ++ [SchemeChange s]) (fresh_window d p) = run_page load_common evs (fresh_window d p).
Proof.
  unfold run_page. rewrite fold_left_app. cbn. fold (run_page load_common evs (fresh_window d p)).
  destruct (keys_added evs (fresh_window d p)) as [_ ->]. cbn. by destruct (run_page _ _ _).
Qed.

(** A guard around the whole script would keep both promises of the source: the
    hotkeys are added at most once, and the listener for the scheme once. *)
Lemma once_added m l s evs d p :
  let w := run_page load_once (Include m l s :: evs) (fresh_window d p) in
  (wn_keys w ≤ 1)%nat ∧ wn_schemes w = Nat.b2n m.
Proof.
  cbn zeta. unfold run_page. cbn [fold_left]. fold (run_page load_once evs (run_event load_once (fresh_window d p) (Include m l s))).
  assert (∀ evs w, wn_loaded w = true →
    let w' := run_page load_once evs w in
    wn_schemes w' = wn_schemes w ∧ (wn_keys w' ≤ wn_keys w + Nat.b2n (negb (wn_bound w)))%nat) as Hrun.
  { clear. induction evs as [|e evs IH]; intros w Hw; [split; cbn; lia|].
    cbn zeta. unfold run_page. cbn [fold_left]. fold (run_page load_once evs (run_event load_once w e)).
    destruct e as [m l s| |k|s]; cbn [run_event].
    - unfold load_once at 2 4. rewrite Hw. by apply IH.
    - unfold ocRegisterEditorHotkeys. destruct (wn_bound w) eqn:E.
      + pose proof (IH w Hw) as [H1 H2]. rewrite E in H2. done.
      + pose proof (IH (mkWindow (wn_loaded w) true (S (wn_keys w)) (wn_schemes w) (wn_desk w) (wn_theme w)) Hw)
          as [H1 H2]. cbn in *. split; [done|lia].
    - by apply (IH (with_desk _ w)).
    - by apply (IH (with_theme _ w)). }
  pose proof (Hrun evs (run_event load_once (fresh_window d p) (Include m l s)) eq_refl) as [H1 H2].
  rewrite H1. cbn in H2 |- *. rewrite andb_true_r. by destruct m.
Qed.

(** The same key handled twice toggles the mode twice. *)
Lemma f11_twice s d i chain :
  desk_ok s d → (i < length (dk_editors d))%nat →
  dk_full (on_hotkey (on_hotkey d (KeyF11 (Some (i, chain)))) (KeyF11 (Some (i, chain)))) = dk_full d.
Proof.
  intros Hd Hi.
  assert (∀ d, desk_ok s d → (i < length (dk_editors d))%nat → dk_full d = false →
    dk_full (enter_fullscreen i chain d) = true) as Henter.
  { clear. intros d Hd Hi Hf. unfold enter_fullscreen.
    apply lookup_lt_is_Some in Hi as [e He]. rewrite He. unfold toggleFullscreen.
    destruct (ed_full e) eqn:Ef; [|done]. exfalso.
    rewrite (do_full s d Hd) in Hf. apply (proj1 (no_full _) Hf i). rewrite list_lookup_fmap, He. cbn. by rewrite Ef. }
  cbn [on_hotkey]. destruct (dk_full d) eqn:Hf.
  - cbn [leave_fullscreen dk_full]. apply Henter; [by apply leave_ok| |done].
    cbn [leave_fullscreen dk_editors]. destruct (find_active 0 (dk_editors d)); [|done].
    unfold list_update. by rewrite length_alter.
  - by rewrite (Henter d Hd Hi Hf).
Qed.

(** Two templates that include the script and register the hotkeys: F11 no
    longer changes the mode of any editor, and one press of Ctrl and plus goes
    two levels. *)
Theorem two_inclusions_cancel m l s m' l' s' d p st i chain :
  let w := run_page load_common [Include m l s; RegisterHotkeys; Include m' l' s'; RegisterHotkeys] (fresh_window d p) in
  desk_ok st (wn_desk w) → (i < length (dk_editors d))%nat →
  let f11 := run_event load_common w (Press (KeyF11 (Some (i, chain)))) in
  wn_keys w = 2%nat ∧
  dk_full (wn_desk f11) = dk_full (wn_desk w) ∧
  ∀ inst, dk_zoom (wn_desk (run_event load_common w (Press (KeyZoomIn (Some inst))))) = 125.
Proof.
  cbv zeta. unfold run_page. cbn [fold_left run_event]. rewrite !load_common_eq.
  cbn [ocRegisterEditorHotkeys wn_bound wn_keys wn_desk wn_theme wn_loaded wn_schemes with_desk Nat.iter nat_rect
       fresh_window].
  intros Hd Hi. split; [done|]. split.
  - by apply (f11_twice st).
  - intros inst. cbn [on_hotkey zoom_to]. unfold ocApplyZoom. by destruct inst.
Qed.

(** Two editors on a plain page. *)
Lemma two_inclusions_cancel_witness :
  let st := mkStyles (λ _, "") (λ _, "") in
  let d := fresh_desk 2 st None in
  let p := mkThemed None [] false in
  let w := run_page load_common [Include true true plain_page; RegisterHotkeys; Include true true plain_page;
             RegisterHotkeys] (fresh_window d p) in
  desk_ok st (wn_desk w) ∧ (0 < length (dk_editors d))%nat ∧
  dk_full (wn_desk (run_event load_common w (Press (KeyF11 (Some (0%nat, [])))))) = false.
Proof.
  cbv zeta.
  assert (desk_ok (mkStyles (λ _, "") (λ _, "")) (fresh_desk 2 (mkStyles (λ _, "") (λ _, "")) None)) as Hd
    by (by apply fresh_desk_ok).
  split; [exact Hd|]. split; [cbn; lia|].
  exact (proj1 (proj2 (two_inclusions_cancel true true plain_page true true plain_page
    (fresh_desk 2 (mkStyles (λ _, "") (λ _, "")) None) (mkThemed None [] false) _ 0 [] Hd ltac:(cbn; lia)))).
Defined.
