(* ===== verification/OcIcons.v ===== *)
(** [openclash/js/oc-icons.js]: the symbols of the OpenClash pages as one
    hidden [svg] element at the head of the body, put there by each page that
    includes the script. *)
From stdpp Require Import base list strings.
From Stdlib Require Import ZArith Lia Ascii Bool.
From S2P Require Import Prelude JsNum JsString Luci.

(** ** The symbols, in the order of the source *)

Definition symbols_1 : list node :=
  [
    E "symbol" [("id", "oc-icon-refresh"); ("viewBox", "0 0 24 24"); ("fill", "none"); ("stroke", "currentColor"); ("stroke-width", "2")]
      (Kids [E "path" [("d", "M23 4v6h-6")] (Kids []);
        E "path" [("d", "M20.49 15a9 9 0 1 1-2.12-9.36L23 10")] (Kids [])]);
    E "symbol" [("id", "oc-icon-close"); ("viewBox", "0 0 24 24"); ("fill", "none"); ("stroke", "currentColor"); ("stroke-width", "2")]
      (Kids [E "line" [("x1", "18"); ("y1", "6"); ("x2", "6"); ("y2", "18")] (Kids []);
        E "line" [("x1", "6"); ("y1", "6"); ("x2", "18"); ("y2", "18")] (Kids [])]);
    E "symbol" [("id", "oc-icon-player-pause"); ("viewBox", "0 0 256 256"); ("fill", "currentColor")]
      (Kids [E "path" [("d", "M200,32H160a16,16,0,0,0-16,16V208a16,16,0,0,0,16,16h40a16,16,0,0,0,16-16V48A16,16,0,0,0,200,32Zm0,176H160V48h40ZM96,32H56A16,16,0,0,0,40,48V208a16,16,0,0,0,16,16H96a16,16,0,0,0,16-16V48A16,16,0,0,0,96,32Zm0,176H56V48H96Z")] (Kids [])]);
    E "symbol" [("id", "oc-icon-player-play"); ("viewBox", "0 0 24 24"); ("fill", "none"); ("stroke", "currentColor"); ("stroke-width", "2"); ("stroke-linecap", "round"); ("stroke-linejoin", "round")]
      (Kids [E "path" [("stroke", "none"); ("d", "M0 0h24v24H0z"); ("fill", "none")] (Kids []);
        E "path" [("d", "M7 4v16l13 -8l-13 -8")] (Kids [])]);
    E "symbol" [("id", "oc-icon-copy"); ("viewBox", "0 0 24 24"); ("fill", "none"); ("stroke", "currentColor"); ("stroke-width", "2")]
      (Kids [E "rect" [("x", "9"); ("y", "9"); ("width", "13"); ("height", "13"); ("rx", "2")] (Kids []);
        E "path" [("d", "M5 15H4a2 2 0 0 1-2-2V4a2 2 0 0 1 2-2h9a2 2 0 0 1 2 2v1")] (Kids [])]);
    E "symbol" [("id", "oc-icon-megaphone"); ("viewBox", "0 0 256 256"); ("fill", "currentColor")]
      (Kids [E "path" [("d", "M228.54,86.66l-176.06-54A16,16,0,0,0,32,48V192a16,16,0,0,0,16,16,16,16,0,0,0,4.52-.65L136,181.73V192a16,16,0,0,0,16,16h32a16,16,0,0,0,16-16v-29.9l28.54-8.75A16.09,16.09,0,0,0,240,138V102A16.09,16.09,0,0,0,228.54,86.66ZM136,165,48,192V48l88,27Zm48,27H152V176.82L184,167Zm40-54-.11,0L152,160.08V79.92l71.89,22,.11,0v36Z")] (Kids [])]);
    E "symbol" [("id", "oc-icon-shield-check"); ("viewBox", "0 0 48 48"); ("fill", "none"); ("stroke", "currentColor"); ("stroke-width", "4"); ("stroke-linejoin", "round")]
      (Kids [E "path" [("d", "M6 9.25564L24.0086 4L42 9.25564V20.0337C42 31.3622 34.7502 41.4194 24.0026 45.0005C13.2521 41.4195 6 31.36 6 20.0287V9.25564Z")] (Kids []);
        E "path" [("d", "M15 23L22 30L34 18"); ("stroke-linecap", "round"); ("stroke-linejoin", "round")] (Kids [])]);
    E "symbol" [("id", "oc-icon-lock"); ("viewBox", "0 0 24 24"); ("fill", "none"); ("stroke", "currentColor"); ("stroke-width", "2")]
      (Kids [E "rect" [("x", "3"); ("y", "11"); ("width", "18"); ("height", "11"); ("rx", "2")] (Kids []);
        E "circle" [("cx", "12"); ("cy", "16"); ("r", "1")] (Kids []);
        E "path" [("d", "M7 11V7a5 5 0 0 1 10 0v4")] (Kids [])]);
    E "symbol" [("id", "oc-icon-home"); ("viewBox", "0 0 24 24"); ("fill", "none"); ("stroke", "currentColor"); ("stroke-width", "2"); ("stroke-linecap", "round"); ("stroke-linejoin", "round")]
      (Kids [E "path" [("d", "M9.75,20.25V14.25h4.5v6h6V11.25a0.75,0.75,0,0,0-0.22-0.53l-7.5-7.5a0.75,0.75,0,0,0-1.06,0l-7.5,7.5A0.75,0.75,0,0,0,3.75,11.25v9Z")] (Kids [])]);
    E "symbol" [("id", "oc-icon-globe"); ("viewBox", "0 0 24 24"); ("fill", "none"); ("stroke", "currentColor"); ("stroke-width", "2"); ("stroke-linecap", "round"); ("stroke-linejoin", "round")]
      (Kids [E "line" [("x1", "3"); ("y1", "12"); ("x2", "21"); ("y2", "12")] (Kids []);
        E "circle" [("cx", "12"); ("cy", "12"); ("r", "9")] (Kids []);
        E "path" [("d", "M15.75,12c0,6-3.75,9-3.75,9s-3.75-3-3.75-9,3.75-9,3.75-9S15.75,6,15.75,12Z")] (Kids [])]);
    E "symbol" [("id", "oc-icon-edit"); ("viewBox", "0 0 24 24"); ("fill", "none"); ("stroke", "currentColor"); ("stroke-width", "2")]
      (Kids [E "path" [("d", "M11 4H4a2 2 0 0 0-2 2v14a2 2 0 0 0 2 2h14a2 2 0 0 0 2-2v-7")] (Kids []);
        E "path" [("d", "M18.5 2.5a2.121 2.121 0 0 1 3 3L12 15l-4 1 1-4 9.5-9.5z")] (Kids [])]);
    E "symbol" [("id", "oc-icon-add"); ("viewBox", "0 0 24 24"); ("fill", "none"); ("stroke", "currentColor"); ("stroke-width", "2")]
      (Kids [E "line" [("x1", "12"); ("y1", "5"); ("x2", "12"); ("y2", "19")] (Kids []);
        E "line" [("x1", "5"); ("y1", "12"); ("x2", "19"); ("y2", "12")] (Kids [])])
  ].

Definition symbols_2 : list node :=
  [
    E "symbol" [("id", "oc-icon-upload"); ("viewBox", "0 0 24 24"); ("fill", "none"); ("stroke", "currentColor"); ("stroke-width", "2"); ("stroke-linecap", "round"); ("stroke-linejoin", "round")]
      (Kids [E "path" [("stroke", "none"); ("d", "M0 0h24v24H0z"); ("fill", "none")] (Kids []);
        E "path" [("d", "M4 17v2a2 2 0 0 0 2 2h12a2 2 0 0 0 2 -2v-2")] (Kids []);
        E "path" [("d", "M7 9l5 -5l5 5")] (Kids []);
        E "path" [("d", "M12 4l0 12")] (Kids [])]);
    E "symbol" [("id", "oc-icon-download"); ("viewBox", "0 0 24 24"); ("fill", "none"); ("stroke", "currentColor"); ("stroke-width", "2")]
      (Kids [E "path" [("d", "M21 15v4a2 2 0 0 1-2 2H5a2 2 0 0 1-2-2v-4")] (Kids []);
        E "polyline" [("points", "7,11 12,16 17,11")] (Kids []);
        E "line" [("x1", "12"); ("y1", "2"); ("x2", "12"); ("y2", "16")] (Kids [])]);
    E "symbol" [("id", "oc-icon-save"); ("viewBox", "0 0 24 24"); ("fill", "none"); ("stroke", "currentColor"); ("stroke-width", "2")]
      (Kids [E "path" [("d", "M19 21H5a2 2 0 0 1-2-2V5a2 2 0 0 1 2-2h11l5 5v11a2 2 0 0 1-2 2z")] (Kids []);
        E "polyline" [("points", "17,21 17,13 7,13 7,21")] (Kids []);
        E "polyline" [("points", "7,3 7,8 15,8")] (Kids [])]);
    E "symbol" [("id", "oc-icon-switch"); ("viewBox", "0 0 24 24"); ("fill", "none"); ("stroke", "currentColor"); ("stroke-width", "2")]
      (Kids [E "polyline" [("points", "17 1 21 5 17 9")] (Kids []);
        E "path" [("d", "M3 11V9a4 4 0 0 1 4-4h14")] (Kids []);
        E "polyline" [("points", "7 23 3 19 7 15")] (Kids []);
        E "path" [("d", "M21 13v2a4 4 0 0 1-4 4H3")] (Kids [])]);
    E "symbol" [("id", "oc-icon-update"); ("viewBox", "0 0 24 24"); ("fill", "none"); ("stroke", "currentColor"); ("stroke-width", "2")]
      (Kids [E "path" [("d", "M21 12a9 9 0 0 0-9-9 9.75 9.75 0 0 0-6.74 2.74L3 8")] (Kids []);
        E "path" [("d", "M3 3v5h5")] (Kids []);
        E "path" [("d", "M3 12a9 9 0 0 0 9 9 9.75 9.75 0 0 0 6.74-2.74L21 16")] (Kids []);
        E "path" [("d", "M21 21v-5h-5")] (Kids [])]);
    E "symbol" [("id", "oc-icon-compare"); ("viewBox", "0 0 24 24"); ("fill", "none"); ("stroke", "currentColor"); ("stroke-width", "2")]
      (Kids [E "rect" [("x", "2"); ("y", "3"); ("width", "8"); ("height", "18"); ("rx", "2")] (Kids []);
        E "rect" [("x", "14"); ("y", "3"); ("width", "8"); ("height", "18"); ("rx", "2")] (Kids [])]);
    E "symbol" [("id", "oc-icon-restore"); ("viewBox", "0 0 24 24"); ("fill", "none"); ("stroke", "currentColor"); ("stroke-width", "2")]
      (Kids [E "rect" [("x", "3"); ("y", "3"); ("width", "18"); ("height", "18"); ("rx", "2")] (Kids [])]);
    E "symbol" [("id", "oc-icon-list"); ("viewBox", "0 0 24 24"); ("fill", "none"); ("stroke", "currentColor"); ("stroke-width", "2")]
      (Kids [E "rect" [("x", "4"); ("y", "4"); ("width", "16"); ("height", "16"); ("rx", "2")] (Kids []);
        E "line" [("x1", "8"); ("y1", "8"); ("x2", "16"); ("y2", "8")] (Kids []);
        E "line" [("x1", "8"); ("y1", "12"); ("x2", "16"); ("y2", "12")] (Kids []);
        E "line" [("x1", "8"); ("y1", "16"); ("x2", "12"); ("y2", "16")] (Kids [])]);
    E "symbol" [("id", "oc-icon-zap"); ("viewBox", "0 0 24 24"); ("fill", "none"); ("stroke", "currentColor"); ("stroke-width", "2")]
      (Kids [E "polygon" [("points", "13 2 3 14 12 14 11 22 21 10 13 10 13 2")] (Kids [])]);
    E "symbol" [("id", "oc-icon-gear"); ("viewBox", "0 0 24 24"); ("fill", "none"); ("stroke", "currentColor"); ("stroke-width", "2")]
      (Kids [E "circle" [("cx", "12"); ("cy", "12"); ("r", "3")] (Kids []);
        E "path" [("d", "M19.4 15a1.65 1.65 0 0 0 .33 1.82l.06.06a2 2 0 1 1-2.83 2.83l-.06-.06a1.65 1.65 0 0 0-1.82-.33 1.65 1.65 0 0 0-1 1.51V21a2 2 0 0 1-4 0v-.09a1.65 1.65 0 0 0-1-1.51 1.65 1.65 0 0 0-1.82.33l-.06.06a2 2 0 1 1-2.83-2.83l.06-.06a1.65 1.65 0 0 0 .33-1.82 1.65 1.65 0 0 0-1.51-1H3a2 2 0 0 1 0-4h.09a1.65 1.65 0 0 0 1.51-1 1.65 1.65 0 0 0-.33-1.82l-.06-.06a2 2 0 1 1 2.83-2.83l.06.06a1.65 1.65 0 0 0 1.82.33h.09a1.65 1.65 0 0 0 1-1.51V3a2 2 0 0 1 4 0v.09a1.65 1.65 0 0 0 1 1.51h.09a1.65 1.65 0 0 0 1.82-.33l.06-.06a2 2 0 1 1 2.83 2.83l-.06.06a1.65 1.65 0 0 0-.33 1.82v.09a1.65 1.65 0 0 0 1.51 1H21a2 2 0 0 1 0 4h-.09a1.65 1.65 0 0 0-1.51 1z")] (Kids [])]);
    E "symbol" [("id", "oc-icon-upload-feather"); ("viewBox", "0 0 24 24"); ("fill", "none"); ("stroke", "currentColor"); ("stroke-width", "2")]
      (Kids [E "path" [("d", "M21 15v4a2 2 0 0 1-2 2H5a2 2 0 0 1-2-2v-4")] (Kids []);
        E "polyline" [("points", "17,11 12,6 7,11")] (Kids []);
        E "line" [("x1", "12"); ("y1", "18"); ("x2", "12"); ("y2", "6")] (Kids [])]);
    E "symbol" [("id", "oc-icon-clock-edit"); ("viewBox", "0 0 24 24"); ("fill", "none"); ("stroke", "currentColor"); ("stroke-width", "2"); ("stroke-linecap", "round"); ("stroke-linejoin", "round")]
      (Kids [E "path" [("stroke", "none"); ("d", "M0 0h24v24H0z"); ("fill", "none")] (Kids []);
        E "path" [("d", "M21 12a9 9 0 1 0 -9.972 8.948c.32 .034 .644 .052 .972 .052")] (Kids []);
        E "path" [("d", "M12 7v5l2 2")] (Kids []);
        E "path" [("d", "M18.42 15.61a2.1 2.1 0 0 1 2.97 2.97l-3.39 3.42h-3v-3l3.42 -3.39")] (Kids [])])
  ].

Definition symbols_3 : list node :=
  [
    E "symbol" [("id", "oc-icon-help"); ("viewBox", "0 0 24 24"); ("fill", "none"); ("stroke", "currentColor"); ("stroke-width", "2"); ("stroke-linecap", "round"); ("stroke-linejoin", "round")]
      (Kids [E "path" [("stroke", "none"); ("d", "M0 0h24v24H0z"); ("fill", "none")] (Kids []);
        E "path" [("d", "M3 12a9 9 0 1 0 18 0a9 9 0 1 0 -18 0")] (Kids []);
        E "path" [("d", "M12 17l0 .01")] (Kids []);
        E "path" [("d", "M12 13.5a1.5 1.5 0 0 1 1 -1.5a2.6 2.6 0 1 0 -3 -4")] (Kids [])]);
    E "symbol" [("id", "oc-icon-chat"); ("viewBox", "0 0 48 48"); ("fill", "none"); ("stroke", "currentColor"); ("stroke-width", "4")]
      (Kids [E "path" [("d", "M4 6H44V36H29L24 41L19 36H4V6Z")] (Kids []);
        E "path" [("d", "M23 21H25.0025")] (Kids []);
        E "path" [("d", "M33.001 21H34.9999")] (Kids []);
        E "path" [("d", "M13.001 21H14.9999")] (Kids [])]);
    E "symbol" [("id", "oc-icon-overwrite"); ("viewBox", "0 0 256 256"); ("fill", "currentColor")]
      (Kids [E "path" [("d", "M12,111l112,64a8,8,0,0,0,7.94,0l112-64a8,8,0,0,0,0-13.9l-112-64a8,8,0,0,0-7.94,0l-112,64A8,8,0,0,0,12,111ZM128,49.21,223.87,104,128,158.79,32.13,104ZM246.94,140A8,8,0,0,1,244,151L132,215a8,8,0,0,1-7.94,0L12,151A8,8,0,0,1,20,137.05l108,61.74,108-61.74A8,8,0,0,1,246.94,140Z")] (Kids [])]);
    E "symbol" [("id", "oc-icon-sun"); ("viewBox", "0 0 24 24"); ("fill", "none"); ("stroke", "currentColor"); ("stroke-width", "2")]
      (Kids [E "circle" [("cx", "12"); ("cy", "12"); ("r", "5")] (Kids []);
        E "line" [("x1", "12"); ("y1", "1"); ("x2", "12"); ("y2", "3")] (Kids []);
        E "line" [("x1", "12"); ("y1", "21"); ("x2", "12"); ("y2", "23")] (Kids []);
        E "line" [("x1", "4.22"); ("y1", "4.22"); ("x2", "5.64"); ("y2", "5.64")] (Kids []);
        E "line" [("x1", "18.36"); ("y1", "18.36"); ("x2", "19.78"); ("y2", "19.78")] (Kids []);
        E "line" [("x1", "1"); ("y1", "12"); ("x2", "3"); ("y2", "12")] (Kids []);
        E "line" [("x1", "21"); ("y1", "12"); ("x2", "23"); ("y2", "12")] (Kids []);
        E "line" [("x1", "4.22"); ("y1", "19.78"); ("x2", "5.64"); ("y2", "18.36")] (Kids []);
        E "line" [("x1", "18.36"); ("y1", "5.64"); ("x2", "19.78"); ("y2", "4.22")] (Kids [])]);
    E "symbol" [("id", "oc-icon-moon"); ("viewBox", "0 0 24 24"); ("fill", "none"); ("stroke", "currentColor"); ("stroke-width", "2")]
      (Kids [E "path" [("d", "M21 12.79A9 9 0 1 1 11.21 3 7 7 0 0 0 21 12.79z")] (Kids [])]);
    E "symbol" [("id", "oc-icon-auto-theme"); ("viewBox", "0 0 48 48"); ("fill", "none"); ("stroke", "currentColor"); ("stroke-width", "4")]
      (Kids [E "path" [("d", "M24 44C29.9601 44 26.3359 35.136 30 31C33.1264 27.4709 44 29.0856 44 24C44 12.9543 35.0457 4 24 4C12.9543 4 4 12.9543 4 24C4 35.0457 12.9543 44 24 44Z")] (Kids []);
        E "path" [("d", "M28 17C29.6569 17 31 15.6569 31 14C31 12.3431 29.6569 11 28 11C26.3431 11 25 12.3431 25 14C25 15.6569 26.3431 17 28 17Z")] (Kids []);
        E "path" [("d", "M16 21C17.6569 21 19 19.6569 19 18C19 16.3431 17.6569 15 16 15C14.3431 15 13 16.3431 13 18C13 19.6569 14.3431 21 16 21Z")] (Kids []);
        E "path" [("d", "M17 34C18.6569 34 20 32.6569 20 31C20 29.3431 18.6569 28 17 28C15.3431 28 14 29.3431 14 31C14 32.6569 15.3431 34 17 34Z")] (Kids [])]);
    E "symbol" [("id", "oc-icon-wiki"); ("viewBox", "0 0 24 24"); ("fill", "none"); ("stroke", "currentColor"); ("stroke-width", "2")]
      (Kids [E "path" [("d", "M22 10v6M2 10l10-5 10 5-10 5z")] (Kids []);
        E "path" [("d", "M6 12v5c3 3 9 3 12 0v-5")] (Kids [])]);
    E "symbol" [("id", "oc-icon-book"); ("viewBox", "0 0 24 24"); ("fill", "none"); ("stroke", "currentColor"); ("stroke-width", "2")]
      (Kids [E "path" [("d", "M2 3h6a4 4 0 0 1 4 4v14a3 3 0 0 0-3-3H2z")] (Kids []);
        E "path" [("d", "M22 3h-6a4 4 0 0 0-4 4v14a3 3 0 0 1 3-3h7z")] (Kids [])]);
    E "symbol" [("id", "oc-icon-star"); ("viewBox", "0 0 24 24"); ("fill", "currentColor")]
      (Kids [E "path" [("d", "M12 0c-6.626 0-12 5.373-12 12 0 5.302 3.438 9.8 8.207 11.387.599.111.793-.261.793-.577v-2.234c-3.338.726-4.033-1.416-4.033-1.416-.546-1.387-1.333-1.756-1.333-1.756-1.089-.745.083-.729.083-.729 1.205.084 1.839 1.237 1.839 1.237 1.07 1.834 2.807 1.304 3.492.997.107-.775.418-1.305.762-1.604-2.665-.305-5.467-1.334-5.467-5.931 0-1.311.469-2.381 1.236-3.221-.124-.303-.535-1.524.117-3.176 0 0 1.008-.322 3.301 1.23.957-.266 1.983-.399 3.003-.404 1.02.005 2.047.138 3.006.404 2.291-1.552 3.297-1.23 3.297-1.23.653 1.653.242 2.874.118 3.176.77.84 1.235 1.911 1.235 3.221 0 4.609-2.807 5.624-5.479 5.921.43.372.823 1.102.823 2.222v3.293c0 .319.192.694.801.576 4.765-1.589 8.199-6.086 8.199-11.386 0-6.627-5.373-12-12-12z")] (Kids [])]);
    E "symbol" [("id", "oc-icon-telegram"); ("viewBox", "0 0 256 256"); ("fill", "none"); ("stroke", "currentColor"); ("stroke-width", "20")]
      (Kids [E "path" [("d", "M80,134.87,170.26,214a8,8,0,0,0,13.09-4.21L224,33.22a1,1,0,0,0-1.34-1.15L20,111.38A6.23,6.23,0,0,0,21,123.3Z"); ("stroke-linecap", "round"); ("stroke-linejoin", "round")] (Kids []);
        E "line" [("x1", "80"); ("y1", "134.87"); ("x2", "223.41"); ("y2", "32.09"); ("stroke-linecap", "round"); ("stroke-linejoin", "round")] (Kids []);
        E "path" [("d", "M124.37,173.78,93.76,205.54A8,8,0,0,1,80,200V134.87"); ("stroke-linecap", "round"); ("stroke-linejoin", "round")] (Kids [])]);
    E "symbol" [("id", "oc-icon-heart"); ("viewBox", "0 0 24 24"); ("fill", "none"); ("stroke", "currentColor"); ("stroke-width", "2")]
      (Kids [E "path" [("d", "M20.84 4.61a5.5 5.5 0 0 0-7.78 0L12 5.67l-1.06-1.06a5.5 5.5 0 0 0-7.78 7.78l1.06 1.06L12 21.23l7.78-7.78 1.06-1.06a5.5 5.5 0 0 0 0-7.78z")] (Kids [])]);
    E "symbol" [("id", "oc-icon-settings"); ("viewBox", "0 0 48 48"); ("fill", "none"); ("stroke", "currentColor"); ("stroke-width", "4"); ("stroke-linejoin", "round")]
      (Kids [E "path" [("d", "M18.2838 43.1713C14.9327 42.1736 11.9498 40.3213 9.58787 37.867C10.469 36.8227 11 35.4734 11 34.0001C11 30.6864 8.31371 28.0001 5 28.0001C4.79955 28.0001 4.60139 28.01 4.40599 28.0292C4.13979 26.7277 4 25.3803 4 24.0001C4 21.9095 4.32077 19.8938 4.91579 17.9995C4.94381 17.9999 4.97188 18.0001 5 18.0001C8.31371 18.0001 11 15.3138 11 12.0001C11 11.0488 10.7786 10.1493 10.3846 9.35011C12.6975 7.1995 15.5205 5.59002 18.6521 4.72314C19.6444 6.66819 21.6667 8.00013 24 8.00013C26.3333 8.00013 28.3556 6.66819 29.3479 4.72314C32.4795 5.59002 35.3025 7.1995 37.6154 9.35011C37.2214 10.1493 37 11.0488 37 12.0001C37 15.3138 39.6863 18.0001 43 18.0001C43.0281 18.0001 43.0562 17.9999 43.0842 17.9995C43.6792 19.8938 44 21.9095 44 24.0001C44 25.3803 43.8602 26.7277 43.594 28.0292C43.3986 28.01 43.2005 28.0001 43 28.0001C39.6863 28.0001 37 30.6864 37 34.0001C37 35.4734 37.531 36.8227 38.4121 37.867C36.0502 40.3213 33.0673 42.1736 29.7162 43.1713C28.9428 40.752 26.676 39.0001 24 39.0001C21.324 39.0001 19.0572 40.752 18.2838 43.1713Z")] (Kids []);
        E "path" [("d", "M24 31C27.866 31 31 27.866 31 24C31 20.134 27.866 17 24 17C20.134 17 17 20.134 17 24C17 27.866 20.134 31 24 31Z")] (Kids [])])
  ].

Definition symbols_4 : list node :=
  [
    E "symbol" [("id", "oc-icon-bug"); ("viewBox", "2 4 20 19"); ("fill", "none"); ("stroke", "currentColor"); ("stroke-width", "2"); ("stroke-linecap", "round"); ("stroke-linejoin", "round")]
      (Kids [E "path" [("stroke", "none"); ("d", "M0 0h24v24H0z"); ("fill", "none")] (Kids []);
        E "path" [("d", "M9 9v-1a3 3 0 0 1 6 0v1")] (Kids []);
        E "path" [("d", "M8 9h8a6 6 0 0 1 1 3v3a5 5 0 0 1 -10 0v-3a6 6 0 0 1 1 -3")] (Kids []);
        E "path" [("d", "M3 13h4")] (Kids []);
        E "path" [("d", "M17 13h4")] (Kids []);
        E "path" [("d", "M12 20v-6")] (Kids []);
        E "path" [("d", "M4 19l3.35 -2")] (Kids []);
        E "path" [("d", "M20 19l-3.35 -2")] (Kids []);
        E "path" [("d", "M4 7l3.75 2.4")] (Kids []);
        E "path" [("d", "M20 7l-3.75 2.4")] (Kids [])]);
    E "symbol" [("id", "oc-icon-play-bugs"); ("viewBox", "0 0 24 24"); ("fill", "none"); ("stroke", "currentColor"); ("stroke-width", "2"); ("stroke-linecap", "round"); ("stroke-linejoin", "round")]
      (Kids [E "path" [("stroke", "none"); ("d", "M0 0h24v24H0z"); ("fill", "none")] (Kids []);
        E "path" [("d", "M3.5 18a2.5 3 0 1 0 5 0a2.5 3 0 1 0 -5 0")] (Kids []);
        E "path" [("d", "M2 17.5h1.5")] (Kids []);
        E "path" [("d", "M8.5 17.5h1.5")] (Kids []);
        E "path" [("d", "M9.5 14.5l-1.5 1.5")] (Kids []);
        E "path" [("d", "M2.5 14.5l1.5 1.5")] (Kids []);
        E "path" [("d", "M2.5 21.5l1.5 -1.5")] (Kids []);
        E "path" [("d", "M8 20l1.5 1.5")] (Kids []);
        E "path" [("d", "M15.5 16l6.5 -5l-11 -8")] (Kids []);
        E "path" [("d", "M13 12.5l2 -1.5l-11 -8v8")] (Kids [])]);
    E "symbol" [("id", "oc-icon-link-tabler"); ("viewBox", "0 0 24 24"); ("fill", "none"); ("stroke", "currentColor"); ("stroke-width", "2"); ("stroke-linecap", "round"); ("stroke-linejoin", "round")]
      (Kids [E "path" [("stroke", "none"); ("d", "M0 0h24v24H0z"); ("fill", "none")] (Kids []);
        E "path" [("d", "M9 15l6 -6")] (Kids []);
        E "path" [("d", "M11 6l.463 -.536a5 5 0 0 1 7.071 7.072l-.534 .464")] (Kids []);
        E "path" [("d", "M13 18l-.397 .534a5.068 5.068 0 0 1 -7.127 0a4.972 4.972 0 0 1 0 -7.071l.524 -.463")] (Kids [])]);
    E "symbol" [("id", "oc-icon-speedtest"); ("viewBox", "0 0 24 24"); ("fill", "none"); ("stroke", "currentColor"); ("stroke-width", "2"); ("stroke-linecap", "round"); ("stroke-linejoin", "round")]
      (Kids [E "path" [("stroke", "none"); ("d", "M0 0h24v24H0z"); ("fill", "none")] (Kids []);
        E "path" [("d", "M5.636 19.364a9 9 0 1 1 12.728 0")] (Kids []);
        E "path" [("d", "M16 9l-4 4")] (Kids [])]);
    E "symbol" [("id", "oc-icon-alert-circle"); ("viewBox", "0 0 24 24"); ("fill", "none"); ("stroke", "currentColor"); ("stroke-width", "2"); ("stroke-linecap", "round"); ("stroke-linejoin", "round")]
      (Kids [E "path" [("d", "M3 12a9 9 0 1 0 18 0a9 9 0 0 0 -18 0")] (Kids []);
        E "path" [("d", "M12 8v4")] (Kids []);
        E "path" [("d", "M12 16h.01")] (Kids [])]);
    E "symbol" [("id", "oc-icon-link"); ("viewBox", "0 0 48 48"); ("fill", "none"); ("stroke", "currentColor"); ("stroke-width", "4"); ("stroke-linecap", "round"); ("stroke-linejoin", "round")]
      (Kids [E "path" [("d", "M26.2401 16.373L17.1001 7.23303C14.4388 4.57168 10.0653 4.6303 7.33158 7.36397C4.59791 10.0976 4.53929 14.4712 7.20064 17.1325L15.1359 25.0678")] (Kids []);
        E "path" [("d", "M32.9027 23.0031L40.838 30.9384C43.4994 33.5998 43.4407 37.9733 40.7071 40.707C37.9734 43.4407 33.5999 43.4993 30.9385 40.8379L21.7985 31.6979")] (Kids []);
        E "path" [("d", "M26.1093 26.1416C28.843 23.4079 28.9016 19.0344 26.2403 16.373")] (Kids []);
        E "path" [("d", "M21.7989 21.7984C19.0652 24.5321 19.0066 28.9056 21.6679 31.5669")] (Kids [])]);
    E "symbol" [("id", "oc-icon-key"); ("viewBox", "0 0 16 16"); ("fill", "currentColor")]
      (Kids [E "path" [("d", "M10.5 0a5.499 5.499 0 1 1-1.288 10.848l-.932.932a.749.749 0 0 1-.53.22H7v.75a.749.749 0 0 1-.22.53l-.5.5a.749.749 0 0 1-.53.22H5v.75a.749.749 0 0 1-.22.53l-.5.5a.749.749 0 0 1-.53.22h-2A1.75 1.75 0 0 1 0 14.25v-2c0-.199.079-.389.22-.53l4.932-4.932A5.5 5.5 0 0 1 10.5 0Zm-4 5.5c-.001.431.069.86.205 1.269a.75.75 0 0 1-.181.768L1.5 12.56v1.69c0 .138.112.25.25.25h1.69l.06-.06v-1.19a.75.75 0 0 1 .75-.75h1.19l.06-.06v-1.19a.75.75 0 0 1 .75-.75h1.19l1.023-1.025a.75.75 0 0 1 .768-.18A4 4 0 1 0 6.5 5.5ZM11 6a1 1 0 1 1 0-2 1 1 0 0 1 0 2Z")] (Kids [])]);
    E "symbol" [("id", "oc-icon-calculator"); ("viewBox", "0 0 48 48"); ("fill", "none"); ("stroke", "currentColor"); ("stroke-width", "4"); ("stroke-linecap", "round"); ("stroke-linejoin", "round")]
      (Kids [E "path" [("d", "M28 32.5H42")] (Kids []);
        E "path" [("d", "M28 41.5H42")] (Kids []);
        E "path" [("d", "M6 13H22")] (Kids []);
        E "path" [("d", "M14 5L14 21")] (Kids []);
        E "path" [("d", "M42 5L6 41")] (Kids [])]);
    E "symbol" [("id", "oc-icon-chevron-down"); ("viewBox", "0 0 24 24"); ("fill", "currentColor")]
      (Kids [E "polygon" [("points", "6,9 18,9 12,15")] (Kids [])]);
    E "symbol" [("id", "oc-icon-trash"); ("viewBox", "0 0 24 24"); ("fill", "none"); ("stroke", "currentColor"); ("stroke-width", "2")]
      (Kids [E "polyline" [("points", "3 6 5 6 21 6")] (Kids []);
        E "path" [("d", "M19 6v14a2 2 0 0 1-2 2H7a2 2 0 0 1-2-2V6m3 0V4a2 2 0 0 1 2-2h2a2 2 0 0 1 2 2v2")] (Kids [])]);
    E "symbol" [("id", "oc-icon-usage-help"); ("viewBox", "0 0 24 24"); ("fill", "none"); ("stroke", "currentColor"); ("stroke-width", "2"); ("stroke-linecap", "round"); ("stroke-linejoin", "round")]
      (Kids [E "rect" [("x", "3"); ("y", "7"); ("width", "18"); ("height", "13"); ("rx", "2")] (Kids []);
        E "circle" [("cx", "9"); ("cy", "13"); ("r", "1")] (Kids []);
        E "circle" [("cx", "15"); ("cy", "13"); ("r", "1")] (Kids []);
        E "line" [("x1", "9"); ("y1", "17"); ("x2", "15"); ("y2", "17")] (Kids []);
        E "path" [("d", "M12 3v4")] (Kids []);
        E "circle" [("cx", "12"); ("cy", "3"); ("r", "1")] (Kids [])]);
    E "symbol" [("id", "oc-icon-eye"); ("viewBox", "0 0 24 24"); ("fill", "none"); ("stroke", "currentColor"); ("stroke-width", "2"); ("stroke-linecap", "round"); ("stroke-linejoin", "round")]
      (Kids [E "path" [("d", "M1 12s4-8 11-8 11 8 11 8-4 8-11 8-11-8-11-8z")] (Kids []);
        E "circle" [("cx", "12"); ("cy", "12"); ("r", "3")] (Kids [])])
  ].

Definition symbols_5 : list node :=
  [
    E "symbol" [("id", "oc-icon-eye-off"); ("viewBox", "0 0 24 24"); ("fill", "none"); ("stroke", "currentColor"); ("stroke-width", "2"); ("stroke-linecap", "round"); ("stroke-linejoin", "round")]
      (Kids [E "path" [("d", "M17.94 17.94A10.07 10.07 0 0 1 12 20c-7 0-11-8-11-8a18.45 18.45 0 0 1 5.06-5.94")] (Kids []);
        E "path" [("d", "M9.9 4.24A9.12 9.12 0 0 1 12 4c7 0 11 8 11 8a18.5 18.5 0 0 1-2.16 3.19")] (Kids []);
        E "path" [("d", "M14.12 14.12a3 3 0 1 1-4.24-4.24")] (Kids []);
        E "line" [("x1", "1"); ("y1", "1"); ("x2", "23"); ("y2", "23")] (Kids [])]);
    E "symbol" [("id", "oc-icon-success"); ("viewBox", "0 0 24 24"); ("fill", "none"); ("stroke", "currentColor"); ("stroke-width", "2.5")]
      (Kids [E "polyline" [("points", "20 6 9 17 4 12")] (Kids [])]);
    E "symbol" [("id", "oc-icon-error"); ("viewBox", "0 0 24 24"); ("fill", "none"); ("stroke", "currentColor"); ("stroke-width", "2.5")]
      (Kids [E "circle" [("cx", "12"); ("cy", "12"); ("r", "10")] (Kids []);
        E "line" [("x1", "15"); ("y1", "9"); ("x2", "9"); ("y2", "15")] (Kids []);
        E "line" [("x1", "9"); ("y1", "9"); ("x2", "15"); ("y2", "15")] (Kids [])]);
    E "symbol" [("id", "oc-icon-copy-bold"); ("viewBox", "0 0 24 24"); ("fill", "currentColor")]
      (Kids [E "path" [("d", "M16 1H4a2 2 0 00-2 2v12h2V3h12V1zM20 5H8a2 2 0 00-2 2v14a2 2 0 002 2h12a2 2 0 002-2V7a2 2 0 00-2-2zm0 16H8V7h12v14z")] (Kids [])]);
    E "symbol" [("id", "oc-icon-user"); ("viewBox", "0 0 24 24"); ("fill", "none"); ("stroke", "currentColor"); ("stroke-width", "2")]
      (Kids [E "path" [("d", "M20 21v-2a4 4 0 0 0-4-4H8a4 4 0 0 0-4 4v2")] (Kids []);
        E "circle" [("cx", "12"); ("cy", "7"); ("r", "4")] (Kids [])]);
    E "symbol" [("id", "oc-icon-login"); ("viewBox", "0 0 24 24"); ("fill", "none"); ("stroke", "currentColor"); ("stroke-width", "2")]
      (Kids [E "path" [("d", "M15 3h4a2 2 0 0 1 2 2v14a2 2 0 0 1-2 2h-4")] (Kids []);
        E "polyline" [("points", "10 17 15 12 10 7")] (Kids []);
        E "line" [("x1", "15"); ("y1", "12"); ("x2", "3"); ("y2", "12")] (Kids [])]);
    E "symbol" [("id", "oc-icon-gift"); ("viewBox", "0 0 24 24"); ("fill", "none"); ("stroke", "currentColor"); ("stroke-width", "2")]
      (Kids [E "polyline" [("points", "20 12 20 22 4 22 4 12")] (Kids []);
        E "rect" [("x", "2"); ("y", "7"); ("width", "20"); ("height", "5")] (Kids []);
        E "line" [("x1", "12"); ("y1", "22"); ("x2", "12"); ("y2", "7")] (Kids []);
        E "path" [("d", "M12 7H7.5a2.5 2.5 0 0 1 0-5C11 2 12 7 12 7z")] (Kids []);
        E "path" [("d", "M12 7h4.5a2.5 2.5 0 0 0 0-5C13 2 12 7 12 7z")] (Kids [])]);
    E "symbol" [("id", "oc-icon-logout"); ("viewBox", "0 0 24 24"); ("fill", "none"); ("stroke", "currentColor"); ("stroke-width", "2")]
      (Kids [E "path" [("d", "M9 21H5a2 2 0 0 1-2-2V5a2 2 0 0 1 2-2h4")] (Kids []);
        E "polyline" [("points", "16,17 21,12 16,7")] (Kids []);
        E "line" [("x1", "21"); ("y1", "12"); ("x2", "9"); ("y2", "12")] (Kids [])]);
    E "symbol" [("id", "oc-icon-bell"); ("viewBox", "0 0 24 24"); ("fill", "none"); ("stroke", "currentColor"); ("stroke-width", "2")]
      (Kids [E "path" [("d", "M18 8A6 6 0 0 0 6 8c0 7-3 9-3 9h18s-3-2-3-9")] (Kids []);
        E "path" [("d", "M13.73 21a2 2 0 0 1-3.46 0")] (Kids [])]);
    E "symbol" [("id", "oc-icon-bell-phosphor"); ("viewBox", "0 0 256 256"); ("fill", "none"); ("stroke", "currentColor"); ("stroke-width", "16")]
      (Kids [E "path" [("d", "M176,232a8,8,0,0,1-8,8H88a8,8,0,0,1,0-16h80A8,8,0,0,1,176,232Zm40-128a87.55,87.55,0,0,1-33.64,69.21A16.24,16.24,0,0,0,176,186v6a16,16,0,0,1-16,16H96a16,16,0,0,1-16-16v-6a16,16,0,0,0-6.23-12.66A87.59,87.59,0,0,1,40,104.49C39.74,56.83,78.26,17.14,125.88,16A88,88,0,0,1,216,104Zm-16,0a72,72,0,0,0-73.74-72c-39,.92-70.47,33.39-70.26,72.39a71.65,71.65,0,0,0,27.64,56.3A32,32,0,0,1,96,186v6h64v-6a32.15,32.15,0,0,1,12.47-25.35A71.65,71.65,0,0,0,200,104Zm-16.11-9.34a57.6,57.6,0,0,0-46.56-46.55,8,8,0,0,0-2.66,15.78c16.57,2.79,30.63,16.85,33.44,33.45A8,8,0,0,0,176,104a9,9,0,0,0,1.35-.11A8,8,0,0,0,183.89,94.66Z")] (Kids [])]);
    E "symbol" [("id", "oc-icon-key-oix"); ("viewBox", "0 0 24 24"); ("fill", "none"); ("stroke", "currentColor"); ("stroke-width", "2")]
      (Kids [E "path" [("d", "M21 2l-2 2m-7.61 7.61a5.5 5.5 0 1 1-7.778 7.778 5.5 5.5 0 0 1 7.777-7.777zm0 0L15.5 7.5m0 0l3 3L22 7l-3-3m-3.5 3.5L19 4")] (Kids [])]);
    E "symbol" [("id", "oc-icon-chevron-oix"); ("viewBox", "0 0 24 24"); ("fill", "none"); ("stroke", "currentColor"); ("stroke-width", "2.5")]
      (Kids [E "polyline" [("points", "6 9 12 15 18 9")] (Kids [])])
  ].

Definition symbols_6 : list node :=
  [
    E "symbol" [("id", "oc-icon-badge"); ("viewBox", "0 0 48 48"); ("fill", "none"); ("stroke", "currentColor"); ("stroke-width", "4"); ("stroke-linejoin", "round")]
      (Kids [E "path" [("d", "M9 40L4 17L14 22L24 8L34 22L44 17L39 40H9Z")] (Kids []);
        E "path" [("d", "M24 33C26.2091 33 28 31.2091 28 29C28 26.7909 26.2091 25 24 25C21.7909 25 20 26.7909 20 29C20 31.2091 21.7909 33 24 33Z")] (Kids [])]);
    E "symbol" [("id", "oc-icon-brand-baidu"); ("viewBox", "0 0 24 24")]
      (Kids [E "path" [("fill", "currentColor"); ("d", "M9.154 0C7.71 0 6.54 1.658 6.54 3.707c0 2.051 1.171 3.71 2.615 3.71 1.446 0 2.614-1.659 2.614-3.71C11.768 1.658 10.6 0 9.154 0zm7.025.594C14.86.58 13.347 2.589 13.2 3.927c-.187 1.745.25 3.487 2.179 3.735 1.933.25 3.175-1.806 3.422-3.364.252-1.555-.995-3.364-2.362-3.674a1.218 1.218 0 0 0-.261-.03zM3.582 5.535a2.811 2.811 0 0 0-.156.008c-2.118.19-2.428 3.24-2.428 3.24-.287 1.41.686 4.425 3.297 3.864 2.617-.561 2.262-3.68 2.183-4.362-.125-1.018-1.292-2.773-2.896-2.75zm16.534 1.753c-2.308 0-2.617 2.119-2.617 3.616 0 1.43.121 3.425 2.988 3.362 2.867-.063 2.553-3.238 2.553-3.988 0-.745-.62-2.99-2.924-2.99zm-8.264 2.478c-1.424.014-2.708.925-3.323 1.947-1.118 1.868-2.863 3.05-3.112 3.363-.25.309-3.61 2.116-2.864 5.42.746 3.301 3.365 3.237 3.365 3.237s1.93.19 4.171-.31c2.24-.495 4.17.123 4.17.123s5.233 1.748 6.665-1.616c1.43-3.364-.808-5.109-.808-5.109s-2.99-2.306-4.736-4.798c-1.072-1.665-2.348-2.268-3.528-2.257zm-2.234 3.84 1.542.024v8.197H7.758c-1.47-.291-2.055-1.292-2.13-1.462-.072-.173-.488-.976-.268-2.343.635-2.049 2.447-2.196 2.447-2.196h1.81zm3.964 2.39v3.881c.096.413.612.488.612.488h1.614v-4.343h1.689v5.782h-3.915c-1.517-.39-1.59-1.465-1.59-1.465v-4.317zm-5.458 1.147c-.66.197-.978.708-1.05.928-.076.22-.247.78-.1 1.269.294 1.095 1.248 1.144 1.248 1.144h1.37v-3.34z")] (Kids [])]);
    E "symbol" [("id", "oc-icon-brand-netease"); ("viewBox", "0 0 24 24")]
      (Kids [E "path" [("fill", "currentColor"); ("d", "M13.046 9.388a3.919 3.919 0 0 0-.66.19c-.809.312-1.447.991-1.666 1.775a2.269 2.269 0 0 0-.074.81c.048.546.333 1.05.764 1.35a1.483 1.483 0 0 0 2.01-.286c.406-.531.355-1.183.24-1.636-.098-.387-.22-.816-.345-1.249a64.76 64.76 0 0 1-.269-.954zm-.82 10.07c-3.984 0-7.224-3.24-7.224-7.223 0-.98.226-3.02 1.884-4.822A7.188 7.188 0 0 1 9.502 5.6a.792.792 0 1 1 .587 1.472 5.619 5.619 0 0 0-2.795 2.462 5.538 5.538 0 0 0-.707 2.7 5.645 5.645 0 0 0 5.638 5.638c1.844 0 3.627-.953 4.542-2.428 1.042-1.68.772-3.931-.627-5.238a3.299 3.299 0 0 0-1.437-.777c.172.589.334 1.18.494 1.772.284 1.12.1 2.181-.519 2.989-.39.51-.956.888-1.592 1.064a3.038 3.038 0 0 1-2.58-.44 3.45 3.45 0 0 1-1.44-2.514c-.04-.467.002-.93.128-1.376.35-1.256 1.356-2.339 2.622-2.826a5.5 5.5 0 0 1 .823-.246l-.134-.505c-.37-1.371.25-2.579 1.547-3.007.329-.109.68-.145 1.025-.105.792.09 1.476.592 1.709 1.023.258.507-.096 1.153-.706 1.153a.788.788 0 0 1-.54-.213c-.088-.08-.163-.174-.259-.247a.825.825 0 0 0-.632-.166.807.807 0 0 0-.634.551c-.056.191-.031.406.02.595.07.256.159.597.217.82 1.11.098 2.162.54 2.97 1.296 1.974 1.844 2.35 4.886.892 7.233-1.197 1.93-3.509 3.177-5.889 3.177zM0 12c0 6.627 5.373 12 12 12s12-5.373 12-12S18.627 0 12 0 0 5.373 0 12Z")] (Kids [])]);
    E "symbol" [("id", "oc-icon-brand-github"); ("viewBox", "0 0 1024 1024")]
      (Kids [E "path" [("fill", "currentColor"); ("fill-rule", "evenodd"); ("d", "M512 0C229.12 0 0 229.12 0 512c0 226.56 146.56 417.92 350.08 485.76 25.6 4.48 35.2-10.88 35.2-24.32 0-12.16-.64-52.48-.64-95.36-128.64 23.68-161.92-31.36-172.16-60.16-5.76-14.72-30.72-60.16-52.48-72.32-17.92-9.6-43.52-33.28-.64-33.92 40.32-.64 69.12 37.12 78.72 52.48 46.08 77.44 119.68 55.68 149.12 42.24 4.48-33.28 17.92-55.68 32.64-68.48-113.92-12.8-232.96-56.96-232.96-252.8 0-55.68 19.84-101.76 52.48-137.6-5.12-12.8-23.04-65.28 5.12-135.68 0 0 42.88-13.44 140.8 52.48 40.96-11.52 84.48-17.28 128-17.28s87.04 5.76 128 17.28c97.92-66.56 140.8-52.48 140.8-52.48 28.16 70.4 10.24 122.88 5.12 135.68 32.64 35.84 52.48 81.28 52.48 137.6 0 196.48-119.68 240-233.6 252.8 18.56 16 34.56 46.72 34.56 94.72 0 68.48-.64 123.52-.64 140.8 0 13.44 9.6 29.44 35.2 24.32C877.44 929.92 1024 737.92 1024 512 1024 229.12 794.88 0 512 0"); ("clip-rule", "evenodd")] (Kids [])]);
    E "symbol" [("id", "oc-icon-brand-youtube"); ("viewBox", "0 0 256 180")]
      (Kids [E "path" [("fill", "red"); ("d", "M250.346 28.075A32.18 32.18 0 0 0 227.69 5.418C207.824 0 127.87 0 127.87 0S47.912.164 28.046 5.582A32.18 32.18 0 0 0 5.39 28.24c-6.009 35.298-8.34 89.084.165 122.97a32.18 32.18 0 0 0 22.656 22.657c19.866 5.418 99.822 5.418 99.822 5.418s79.955 0 99.82-5.418a32.18 32.18 0 0 0 22.657-22.657c6.338-35.348 8.291-89.1-.164-123.134Z")] (Kids []);
        E "path" [("fill", "#FFF"); ("d", "m102.421 128.06 66.328-38.418-66.328-38.418z")] (Kids [])]);
    E "symbol" [("id", "oc-icon-package"); ("viewBox", "0 0 24 24"); ("fill", "none"); ("stroke", "currentColor"); ("stroke-width", "2"); ("stroke-linecap", "round"); ("stroke-linejoin", "round")]
      (Kids [E "path" [("d", "M16.5 9.4 7.55 4.24")] (Kids []);
        E "path" [("d", "M21 16V8a2 2 0 0 0-1-1.73l-7-4a2 2 0 0 0-2 0l-7 4A2 2 0 0 0 3 8v8a2 2 0 0 0 1 1.73l7 4a2 2 0 0 0 2 0l7-4A2 2 0 0 0 21 16z")] (Kids []);
        E "polyline" [("points", "3.29 7 12 12 20.71 7")] (Kids []);
        E "line" [("x1", "12"); ("y1", "22"); ("x2", "12"); ("y2", "12")] (Kids [])]);
    E "symbol" [("id", "oc-icon-cpu"); ("viewBox", "0 0 24 24"); ("fill", "none"); ("stroke", "currentColor"); ("stroke-width", "2"); ("stroke-linecap", "round"); ("stroke-linejoin", "round")]
      (Kids [E "rect" [("x", "4"); ("y", "4"); ("width", "16"); ("height", "16"); ("rx", "2")] (Kids []);
        E "rect" [("x", "9"); ("y", "9"); ("width", "6"); ("height", "6")] (Kids []);
        E "line" [("x1", "9"); ("y1", "1"); ("x2", "9"); ("y2", "4")] (Kids []);
        E "line" [("x1", "15"); ("y1", "1"); ("x2", "15"); ("y2", "4")] (Kids []);
        E "line" [("x1", "9"); ("y1", "20"); ("x2", "9"); ("y2", "23")] (Kids []);
        E "line" [("x1", "15"); ("y1", "20"); ("x2", "15"); ("y2", "23")] (Kids []);
        E "line" [("x1", "20"); ("y1", "9"); ("x2", "23"); ("y2", "9")] (Kids []);
        E "line" [("x1", "20"); ("y1", "14"); ("x2", "23"); ("y2", "14")] (Kids []);
        E "line" [("x1", "1"); ("y1", "9"); ("x2", "4"); ("y2", "9")] (Kids []);
        E "line" [("x1", "1"); ("y1", "14"); ("x2", "4"); ("y2", "14")] (Kids [])]);
    E "symbol" [("id", "oc-icon-history"); ("viewBox", "0 0 24 24"); ("fill", "none"); ("stroke", "currentColor"); ("stroke-width", "2"); ("stroke-linecap", "round"); ("stroke-linejoin", "round")]
      (Kids [E "path" [("d", "M12 8l0 4l2 2")] (Kids []);
        E "path" [("d", "M3.05 11a9 9 0 1 1 .5 4m-.5 5v-5h5")] (Kids [])]);
    E "symbol" [("id", "oc-icon-chart"); ("viewBox", "0 0 24 24"); ("fill", "none"); ("stroke", "currentColor"); ("stroke-width", "2"); ("stroke-linecap", "round"); ("stroke-linejoin", "round")]
      (Kids [E "path" [("stroke", "none"); ("d", "M0 0h24v24H0z"); ("fill", "none")] (Kids []);
        E "path" [("d", "M4 19l16 0")] (Kids []);
        E "path" [("d", "M4 15l4 -6l4 2l4 -5l4 4")] (Kids [])]);
    E "symbol" [("id", "oc-icon-grid"); ("viewBox", "0 0 24 24"); ("fill", "none"); ("stroke", "currentColor"); ("stroke-width", "2"); ("stroke-linecap", "round"); ("stroke-linejoin", "round")]
      (Kids [E "path" [("stroke", "none"); ("d", "M0 0h24v24H0z"); ("fill", "none")] (Kids []);
        E "path" [("d", "M4 4m0 1a1 1 0 0 1 1 -1h4a1 1 0 0 1 1 1v4a1 1 0 0 1 -1 1h-4a1 1 0 0 1 -1 -1z")] (Kids []);
        E "path" [("d", "M14 4m0 1a1 1 0 0 1 1 -1h4a1 1 0 0 1 1 1v4a1 1 0 0 1 -1 1h-4a1 1 0 0 1 -1 -1z")] (Kids []);
        E "path" [("d", "M4 14m0 1a1 1 0 0 1 1 -1h4a1 1 0 0 1 1 1v4a1 1 0 0 1 -1 1h-4a1 1 0 0 1 -1 -1z")] (Kids []);
        E "path" [("d", "M14 14m0 1a1 1 0 0 1 1 -1h4a1 1 0 0 1 1 1v4a1 1 0 0 1 -1 1h-4a1 1 0 0 1 -1 -1z")] (Kids [])]);
    E "symbol" [("id", "oc-icon-cloud-search"); ("viewBox", "0 0 24 24"); ("fill", "none"); ("stroke", "currentColor"); ("stroke-width", "2"); ("stroke-linecap", "round"); ("stroke-linejoin", "round")]
      (Kids [E "path" [("stroke", "none"); ("d", "M0 0h24v24H0z"); ("fill", "none")] (Kids []);
        E "path" [("d", "M11 18.004h-4.343c-2.572 -.004 -4.657 -2.011 -4.657 -4.487c0 -2.475 2.085 -4.482 4.657 -4.482c.393 -1.762 1.794 -3.2 3.675 -3.773c1.88 -.572 3.956 -.193 5.444 1c1.488 1.19 2.162 3.007 1.77 4.769h.99")] (Kids []);
        E "path" [("d", "M15 18a3 3 0 1 0 6 0a3 3 0 1 0 -6 0")] (Kids []);
        E "path" [("d", "M20.2 20.2l1.8 1.8")] (Kids [])]);
    E "symbol" [("id", "oc-icon-device-desktop-search"); ("viewBox", "0 0 24 24"); ("fill", "none"); ("stroke", "currentColor"); ("stroke-width", "2"); ("stroke-linecap", "round"); ("stroke-linejoin", "round")]
      (Kids [E "path" [("stroke", "none"); ("d", "M0 0h24v24H0z"); ("fill", "none")] (Kids []);
        E "path" [("d", "M11.5 16h-7.5a1 1 0 0 1 -1 -1v-10a1 1 0 0 1 1 -1h16a1 1 0 0 1 1 1v6.5")] (Kids []);
        E "path" [("d", "M7 20h4")] (Kids []);
        E "path" [("d", "M9 16v4")] (Kids []);
        E "path" [("d", "M15 18a3 3 0 1 0 6 0a3 3 0 1 0 -6 0")] (Kids []);
        E "path" [("d", "M20.2 20.2l1.8 1.8")] (Kids [])])
  ].
Definition symbols : list node := symbols_1 ++ symbols_2 ++ symbols_3 ++ symbols_4 ++ symbols_5 ++ symbols_6.

(** ** Their text *)

Definition attr_markup (a : string * string) : string := " " +:+ fst a +:+ "=" +:+ dq +:+ snd a +:+ dq.

(** The markup the source spells: an element without children is closed at
    once. *)
Fixpoint markup (n : node) : string :=
  match n with
  | E t a (Kids []) => "<" +:+ t +:+ str_join "" (map attr_markup a) +:+ "/>"
  | E t a (Kids l) =>
      "<" +:+ t +:+ str_join "" (map attr_markup a) +:+ ">" +:+ str_join "" (map markup l) +:+ "</" +:+ t +:+ ">"
  | E t a (One m) => "<" +:+ t +:+ str_join "" (map attr_markup a) +:+ ">" +:+ markup m +:+ "</" +:+ t +:+ ">"
  | E t a (Html s) => "<" +:+ t +:+ str_join "" (map attr_markup a) +:+ ">" +:+ s +:+ "</" +:+ t +:+ ">"
  | TextNode s => s
  end.

Definition SPRITE_ID : string := "oc-icon-sprite".

(** The element: its content is text the browser reads. *)
Definition sprite : node :=
  E "svg" [("id", SPRITE_ID); ("xmlns", "http://www.w3.org/2000/svg");
           ("style", "display:none;position:absolute;width:0;height:0"); ("aria-hidden", "true")]
    (Html (str_join "" (map markup symbols))).

(** ** The script *)

Definition node_id (n : node) : option string :=
  match n with
  | E _ a _ => option_map snd (List.find (λ p, String.eqb (fst p) "id") a)
  | TextNode _ => None
  end.

(** The window's flag, and the children of the body, once there is one; the
    sprite is looked for among them, where the script puts it. *)
Record icon_page : Type := mkIconPage {
  ip_loaded : bool;
  ip_body : option (list node);
}.

Definition has_sprite (body : list node) : bool :=
  existsb (λ n, bool_decide (node_id n = Some SPRITE_ID)) body.

(** One inclusion; without a body the last statement throws, and the flag is
    set already. *)
Definition include_icons (p : icon_page) : res unit * icon_page :=
  if ip_loaded p then (Ok tt, p)
  else
    match ip_body p with
    | None => (Throw "TypeError", mkIconPage true None)
    | Some body =>
        if has_sprite body then (Ok tt, mkIconPage true (Some body))
        else (Ok tt, mkIconPage true (Some (sprite :: body)))
    end.

(** The elements a reader of the page's markup adds below the script. *)
Definition parsed (ns : list node) (p : icon_page) : icon_page :=
  mkIconPage (ip_loaded p) (Some (default [] (ip_body p) ++ ns)).

Inductive icon_event : Type :=
  | IncludeIcons
  | Parsed (ns : list node).

Definition icon_step (p : icon_page) (e : icon_event) : icon_page :=
  match e with IncludeIcons => snd (include_icons p) | Parsed ns => parsed ns p end.

Definition icon_steps (evs : list icon_event) (p : icon_page) : icon_page := fold_left icon_step evs p.

(** What [<use href="#...">] finds of the sprite. *)
Definition symbol_of (id : string) : option node := List.find (λ n, bool_decide (node_id n = Some id)) symbols.

(** ** Facts *)

(** What a reader of the text needs: nothing in it is special in an
    attribute. *)
Definition plain_text (s : string) : bool :=
  char_free "034" s && char_free "<" s && char_free "&" s && char_free ">" s.

Fixpoint plain_markup (n : node) : bool :=
  match n with
  | E t a (Kids l) => plain_text t && forallb (λ p, plain_text (fst p) && plain_text (snd p)) a && forallb plain_markup l
  | _ => false
  end.

(** The attributes a shape cannot do without. *)
Definition required (tag : string) : list string :=
  if String.eqb tag "path" then ["d"]
  else if String.eqb tag "line" then ["x1"; "y1"; "x2"; "y2"]
  else if String.eqb tag "circle" then ["cx"; "cy"; "r"]
  else if String.eqb tag "rect" then ["x"; "y"; "width"; "height"]
  else if String.eqb tag "polyline" || String.eqb tag "polygon" then ["points"]
  else ["unknown"].

Definition shape_ok (n : node) : bool :=
  match n with
  | E t a (Kids []) => forallb (λ k, existsb (String.eqb k) (map fst a)) (required t)
  | _ => false
  end.

Definition symbol_ok (n : node) : bool :=
  match n with
  | E t a (Kids (s :: l)) =>
      String.eqb t "symbol" && forallb shape_ok (s :: l)
      && match a with
         | (i, id) :: (v, box) :: _ =>
             String.eqb i "id" && String.prefix "oc-icon-" id && String.eqb v "viewBox"
             && match map (λ t, parseInt t 10) (str_split " " box) with
                | [Fin x; Fin y; Fin w; Fin h] => (0 <=? x) && (0 <=? y) && (0 <? w) && (0 <? h)
                | _ => false
                end
         | _ => false
         end
  | _ => false
  end.

Fixpoint distinct (l : list string) : bool :=
  match l with [] => true | x :: r => negb (existsb (String.eqb x) r) && distinct r end.

Lemma distinct_spec l : distinct l = true → NoDup l.
Proof.
  induction l as [|x l IH]; cbn; [constructor|]. intros [Hx Hl]%andb_true_iff. constructor; [|by apply IH].
  apply negb_true_iff in Hx. intros Hin. rewrite <- not_true_iff_false in Hx. apply Hx. apply existsb_exists.
  exists x. split; [by apply list_elem_of_In|apply String.eqb_refl].
Qed.

Definition symbol_ids : list string := omap node_id symbols.

(** The sprite's text is safe to write, every symbol has a name of its own, a
    box and only complete shapes. *)
Lemma symbols_ok :
  forallb symbol_ok symbols = true ∧ forallb plain_markup symbols = true ∧ NoDup symbol_ids ∧
  length symbol_ids = length symbols ∧ SPRITE_ID ∉ symbol_ids.
Proof.
  assert (distinct (SPRITE_ID :: symbol_ids) = true) as H by (vm_compute; reflexivity).
  apply distinct_spec, NoDup_cons in H as [H1 H2].
  split; [vm_compute; reflexivity|]. split; [vm_compute; reflexivity|]. split; [done|].
  split; [vm_compute; reflexivity|done].
Qed.

Lemma find_distinct (l : list node) n id :
  NoDup (omap node_id l) → n ∈ l → node_id n = Some id → List.find (λ m, bool_decide (node_id m = Some id)) l = Some n.
Proof.
  induction l as [|m l IH]; intros Hd Hn Hid; [by apply not_elem_of_nil in Hn|]. cbn.
  destruct (bool_decide (node_id m = Some id)) eqn:E.
  - apply bool_decide_eq_true in E. apply elem_of_cons in Hn as [->|Hn]; [done|].
    exfalso. cbn in Hd. rewrite E in Hd. apply NoDup_cons in Hd as [Hd _]. apply Hd.
    apply list_elem_of_omap. eauto.
  - apply bool_decide_eq_false in E. apply elem_of_cons in Hn as [->|Hn]; [done|].
    apply IH; [|done|done]. cbn in Hd. destruct (node_id m); [by apply NoDup_cons in Hd as [_ Hd]|done].
Qed.

(** Every name finds its own symbol. *)
Lemma symbol_found n id : n ∈ symbols → node_id n = Some id → symbol_of id = Some n.
Proof. apply find_distinct. apply symbols_ok. Qed.

(** The sprites of a body. *)
Definition sprites (body : list node) : nat :=
  length (List.filter (λ n, bool_decide (node_id n = Some SPRITE_ID)) body).

Definition icons_ok (p : icon_page) : Prop :=
  match ip_body p with
  | Some body => (sprites body ≤ 1)%nat ∧ (ip_loaded p = true → sprites body = 1%nat)
  | None => ip_loaded p = false
  end.

(** Markup of the page itself, which has no sprite. *)
Definition own_markup (e : icon_event) : Prop :=
  match e with IncludeIcons => True | Parsed ns => sprites ns = 0%nat end.

Lemma sprites_app l m : sprites (l ++ m) = (sprites l + sprites m)%nat.
Proof. unfold sprites. by rewrite List.filter_app, length_app. Qed.

Lemma has_sprite_spec body : has_sprite body = negb (Nat.eqb (sprites body) 0).
Proof.
  unfold has_sprite, sprites. induction body as [|n l IH]; [done|]. cbn.
  by destruct (bool_decide _); cbn.
Qed.

(** Whatever the page includes, and however often, from the first element of
    its body on there is one sprite, in front of everything that was there
    when it was put in. *)
Theorem one_sprite evs body :
  sprites body = 0%nat → Forall own_markup evs → IncludeIcons ∈ evs →
  ∃ body', ip_body (icon_steps evs (mkIconPage false (Some body))) = Some body' ∧ sprites body' = 1%nat.
Proof.
  intros Hb Hevs Hin.
  assert (∀ evs p, Forall own_markup evs → (∃ b, ip_body p = Some b ∧ sprites b = if ip_loaded p then 1%nat else 0%nat) →
    ∃ b, ip_body (icon_steps evs p) = Some b ∧ sprites b = (if ip_loaded (icon_steps evs p) then 1%nat else 0%nat) ∧
      (IncludeIcons ∈ evs ∨ ip_loaded p = true → ip_loaded (icon_steps evs p) = true)) as Hrun.
  { clear. induction evs as [|e evs IH]; intros p Hevs (b & Hp & Hs).
    - exists b. split_and!; [done|done|]. intros [H|H]; [by apply not_elem_of_nil in H|done].
    - apply Forall_cons in Hevs as [He Hevs]. cbn [icon_steps fold_left]. fold (icon_steps evs (icon_step p e)).
      destruct (IH (icon_step p e) Hevs) as (b' & H1 & H2 & H3).
      + destruct e as [|ns]; cbn [icon_step]; unfold include_icons, parsed; rewrite Hp.
        * destruct (ip_loaded p) eqn:E; [exists b; cbn; by rewrite E|].
          rewrite has_sprite_spec, Hs. cbn. exists (sprite :: b). split; [done|].
          change (sprite :: b) with ([sprite] ++ b). rewrite sprites_app, Hs. reflexivity.
        * cbn. exists (b ++ ns). split; [done|]. rewrite sprites_app, Hs. cbn in He. rewrite He. lia.
      + exists b'. split_and!; [done|done|]. intros H. apply H3.
        destruct H as [H|H].
        * apply elem_of_cons in H as [<-|H]; [|by left]. right. cbn [icon_step]. unfold include_icons. rewrite Hp.
          destruct (ip_loaded p) eqn:E; [done|]. by destruct (has_sprite b).
        * right. destruct e as [|ns]; cbn [icon_step]; unfold include_icons; [by rewrite H|done]. }
  destruct (Hrun evs (mkIconPage false (Some body)) Hevs) as (b & H1 & H2 & H3); [by exists body|].
  exists b. split; [done|]. by rewrite H2, (H3 (or_introl Hin)).
Qed.

(** A script in the head of the document finds no body: it throws, and no later
    inclusion puts the icons in. *)
Lemma head_inclusion_lost evs :
  fst (include_icons (mkIconPage false None)) = Throw "TypeError" ∧
  ∀ ns, ip_body (icon_steps (IncludeIcons :: Parsed ns :: replicate evs IncludeIcons) (mkIconPage false None)) = Some ns.
Proof.
  split; [done|]. intros ns. cbn. unfold icon_steps.
  assert (∀ n p, ip_loaded p = true → fold_left icon_step (replicate n IncludeIcons) p = p) as H.
  { induction n as [|n IH]; intros p Hp; [done|]. cbn. unfold include_icons. rewrite Hp. by apply IH. }
  by rewrite H.
Qed.

Lemma one_sprite_witness :
  let evs := [Parsed [E "div" [] (Kids [])]; IncludeIcons; Parsed [E "p" [("id", "x")] (Kids [])]; IncludeIcons] in
  ∃ body', ip_body (icon_steps evs (mkIconPage false (Some []))) = Some body' ∧ sprites body' = 1%nat.
Proof.
  cbv zeta. apply one_sprite; [reflexivity|by repeat constructor|].
  apply elem_of_cons. right. apply elem_of_cons. by left.
Defined.

Example first_symbol :
  option_map markup (symbol_of "oc-icon-chevron-down") =
  Some ("<symbol id=" +:+ dq +:+ "oc-icon-chevron-down" +:+ dq +:+ " viewBox=" +:+ dq +:+ "0 0 24 24" +:+ dq
        +:+ " fill=" +:+ dq +:+ "currentColor" +:+ dq +:+ "><polygon points=" +:+ dq +:+ "6,9 18,9 12,15" +:+ dq
        +:+ "/></symbol>").
Proof. vm_compute. reflexivity. Qed.
