(* ===== verification/OcScroll.v ===== *)
(** [openclash/js/common.js], timed parts: the log that scrolls batch by batch
    ([ocAnimateScroll]), the debounced buttons ([ocDebounce]) and the button
    that confirms a copy ([ocShowCopySuccess]). *)
From stdpp Require Import base list strings.
From Stdlib Require Import ZArith Lia Bool Floats.SpecFloat.
From S2P Require Import Prelude JsNum JsString OcTheme.

(** ** Doubles *)

Definition f_truthy (x : spec_float) : bool :=
  match x with S754_nan | S754_zero _ => false | _ => true end.

(** [x || 0] *)
Definition f_or0 (x : spec_float) : spec_float := if f_truthy x then x else S754_zero false.

(** [Math.min] and [Math.max] *)
Definition f_min (x y : spec_float) : spec_float :=
  match x, y with
  | S754_nan, _ | _, S754_nan => S754_nan
  | S754_zero s, S754_zero t => S754_zero (s || t)
  | _, _ => if SFltb y x then y else x
  end.
Definition f_max (x y : spec_float) : spec_float :=
  match x, y with
  | S754_nan, _ | _, S754_nan => S754_nan
  | S754_zero s, S754_zero t => S754_zero (s && t)
  | _, _ => if SFltb x y then y else x
  end.

Lemma SFltb_asym a b : SFltb a b = true → SFltb b a = false.
Proof.
  unfold SFltb, SFcompare. destruct a as [s|s| |s m e], b as [t|t| |t n f]; try done; try (destruct s, t; done).
  rewrite (Z.compare_antisym e f).
  assert (Pos.compare_cont Eq n m = CompOpp (Pos.compare_cont Eq m n)) as ->
    by (symmetry; apply (Pos.compare_cont_antisym m n Eq)).
  destruct s, t, (Z.compare e f), (Pos.compare_cont Eq m n); done.
Qed.

Lemma SFltb_irrefl a : SFltb a a = false.
Proof. destruct (SFltb a a) eqn:H; [|done]. by rewrite (SFltb_asym _ _ H) in H. Qed.

Lemma f_min_le x y : SFltb x (f_min x y) = false.
Proof.
  assert (SFltb x (if SFltb y x then y else x) = false) as Hif.
  { destruct (SFltb y x) eqn:H; [by apply SFltb_asym|apply SFltb_irrefl]. }
  unfold f_min. destruct x as [s|s| |s m e], y as [t|t| |t n f]; try exact Hif; done.
Qed.

(** ** Scrolling *)

(** What [getComputedStyle] and the layout give, lengths through
    [parseFloat]. *)
Record geometry : Type := mkGeometry {
  ge_paddingTop : spec_float;
  ge_paddingBottom : spec_float;
  ge_rowGap : spec_float;
  ge_children : list Z;
  ge_clientHeight : Z;
}.

Definition ocMaxScroll (g : geometry) : spec_float :=
  let padding := f_add (f_or0 (ge_paddingTop g)) (f_or0 (ge_paddingBottom g)) in
  let contentHeight := fold_left (λ h c, f_add h (double c)) (ge_children g) padding in
  let rowGap := f_or0 (ge_rowGap g) in
  let n := Z.of_nat (length (ge_children g)) in
  let contentHeight :=
    if f_truthy rowGap && (1 <? n) then f_add contentHeight (sf_mul rowGap (double (n - 1))) else contentHeight in
  f_max (double 0) (f_sub contentHeight (double (ge_clientHeight g))).

(** The [animation] object; [an_id] is its identity, [an_startTime] is [None]
    for [null]. *)
Record animation : Type := mkAnimation {
  an_id : nat;
  an_start : spec_float;
  an_target : spec_float;
  an_distance : spec_float;
  an_duration : spec_float;
  an_startTime : option spec_float;
}.

(** The element with the properties the code hangs on it, the frames it has
    requested (each with the animation its closure is for), and the next fresh
    number. *)
Record scroller (F : Type) : Type := mkScroller {
  sc_scrollTop : spec_float;
  sc_anim : option animation;
  sc_animId : option nat;
  sc_willChange : bool;
  sc_pending : bool;
  sc_flush : option F;
  sc_frames : list (nat * nat);
  sc_fresh : nat;
}.

Arguments mkScroller {F}.
Arguments sc_scrollTop {F}.
Arguments sc_anim {F}.
Arguments sc_animId {F}.
Arguments sc_willChange {F}.
Arguments sc_pending {F}.
Arguments sc_flush {F}.
Arguments sc_frames {F}.
Arguments sc_fresh {F}.

Section Scroll.

(** The callbacks, [Math.pow] (which the language leaves to the engine to
    approximate), and what [scrollTop] reads after an assignment. *)
Context {F : Type} (pow : spec_float → spec_float → spec_float) (placed : spec_float → spec_float).

Definition set_top (x : spec_float) (e : scroller F) : scroller F :=
  mkScroller (placed x) (sc_anim e) (sc_animId e) (sc_willChange e) (sc_pending e) (sc_flush e) (sc_frames e)
    (sc_fresh e).

Definition set_flush (flush : option F) (e : scroller F) : scroller F :=
  mkScroller (sc_scrollTop e) (sc_anim e) (sc_animId e) (sc_willChange e) (sc_pending e)
    (match flush with Some _ => flush | None => sc_flush e end) (sc_frames e) (sc_fresh e).

(** The end of a batch: the slot is free; the callback to call when a batch
    waits. *)
Definition end_batch (e : scroller F) : scroller F * option F :=
  (mkScroller (sc_scrollTop e) None None false false (sc_flush e) (sc_frames e) (sc_fresh e),
   if sc_pending e then sc_flush e else None).

(** [requestAnimationFrame(step)] for the animation [a], whose id becomes
    [element.ocScrollAnimId]. *)
Definition request_frame (a : animation) (e : scroller F) : scroller F :=
  mkScroller (sc_scrollTop e) (Some a) (Some (sc_fresh e)) (sc_willChange e) (sc_pending e) (sc_flush e)
    (sc_frames e ++ [(sc_fresh e, an_id a)]) (S (sc_fresh e)).

Definition begin_batch (a : animation) (e : scroller F) : scroller F :=
  mkScroller (sc_scrollTop e) (Some a) (sc_animId e) true (sc_pending e) (sc_flush e) (sc_frames e)
    (S (an_id a)).

Definition batch_duration (isFirst : bool) (distance : spec_float) : spec_float :=
  if isFirst then double 500 else f_min (double 3600) (f_max (double 500) (sf_mul distance (double 10))).

Definition ocAnimateScroll (g : geometry) (flush : option F) (isFirst : bool) (e : scroller F)
    : scroller F * option F :=
  match sc_anim e with
  | Some a =>
      (set_flush flush
         (mkScroller (sc_scrollTop e) (sc_anim e) (sc_animId e) (sc_willChange e) true (sc_flush e)
            (sc_frames e) (sc_fresh e)), None)
  | None =>
      let e := set_flush flush e in
      let target := ocMaxScroll g in
      let start := sc_scrollTop e in
      let distance := f_sub target start in
      if negb isFirst && SFleb distance (literal 1 2) then end_batch (set_top target e)
      else
        let a := mkAnimation (sc_fresh e) start target distance (batch_duration isFirst distance) None in
        (request_frame a (begin_batch a e), None)
  end.

Definition started (a : animation) (timestamp : spec_float) : animation :=
  match an_startTime a with
  | Some t => if f_truthy t then a else mkAnimation (an_id a) (an_start a) (an_target a) (an_distance a)
                (an_duration a) (Some timestamp)
  | None => mkAnimation (an_id a) (an_start a) (an_target a) (an_distance a) (an_duration a) (Some timestamp)
  end.

Definition progress (a : animation) (timestamp : spec_float) : spec_float :=
  let elapsed := f_sub timestamp (default S754_nan (an_startTime a)) in
  f_min (sf_div elapsed (an_duration a)) (double 1).

Definition position (a : animation) (p : spec_float) : spec_float :=
  let eased := f_sub (double 1) (pow (f_sub (double 1) p) (double 3)) in
  f_min (an_target a) (f_add (an_start a) (sf_mul (an_distance a) eased)).

(** [step] of the closure for the animation [owner]. *)
Definition step (owner : nat) (timestamp : spec_float) (e : scroller F) : scroller F * option F :=
  match sc_anim e with
  | Some a =>
      if Nat.eqb (an_id a) owner then
        let a := started a timestamp in
        let p := progress a timestamp in
        let e := set_top (position a p) e in
        if SFltb p (double 1) then (request_frame a e, None)
        else
          let far := SFltb (literal 1 2) (SFabs (f_sub (sc_scrollTop e) (an_target a))) in
          end_batch (if far then set_top (an_target a) e else e)
      else (e, None)
  | None => (e, None)
  end.

Definition take_frame (id : nat) (e : scroller F) : scroller F :=
  mkScroller (sc_scrollTop e) (sc_anim e) (sc_animId e) (sc_willChange e) (sc_pending e) (sc_flush e)
    (List.filter (λ f, negb (Nat.eqb (fst f) id)) (sc_frames e)) (sc_fresh e).

(** What happens to the element: a script shows a batch, the browser runs a
    requested frame, a script empties the log (cancels the frame and clears
    what hangs on the element). *)
Inductive scroll_event : Type :=
  | Animate (g : geometry) (flush : option F) (isFirst : bool)
  | Frame (id : nat) (timestamp : spec_float)
  | Clear.

Definition on_scroll (ev : scroll_event) (e : scroller F) : scroller F * option F :=
  match ev with
  | Animate g flush isFirst => ocAnimateScroll g flush isFirst e
  | Frame id timestamp =>
      match List.find (λ f, Nat.eqb (fst f) id) (sc_frames e) with
      | Some (_, owner) => step owner timestamp (take_frame id e)
      | None => (e, None)
      end
  | Clear =>
      let frames := match sc_animId e with
                    | Some id => sc_frames (take_frame id e)
                    | None => sc_frames e
                    end in
      (mkScroller (placed (double 0)) None None false false None frames (sc_fresh e), None)
  end.

(** The callbacks called, in order, and the element. *)
Fixpoint scroll_run (evs : list scroll_event) (e : scroller F) : list F * scroller F :=
  match evs with
  | [] => ([], e)
  | ev :: evs =>
      let '(e, called) := on_scroll ev e in
      let '(later, e) := scroll_run evs e in
      (match called with Some f => f :: later | None => later end, e)
  end.

Definition fresh_scroller (top : spec_float) : scroller F := mkScroller top None None false false None [] 0.

(** Idle with no frame requested and no batch waiting, or animating with
    exactly one frame to come, its own. *)
Definition scroll_ok (e : scroller F) : Prop :=
  match sc_anim e with
  | None => sc_animId e = None ∧ sc_frames e = [] ∧ sc_willChange e = false ∧ sc_pending e = false
  | Some a => ∃ id, sc_animId e = Some id ∧ sc_frames e = [(id, an_id a)] ∧ sc_willChange e = true
  end.

Lemma started_id a t : an_id (started a t) = an_id a.
Proof. unfold started. destruct (an_startTime a) as [s|]; [|done]. by destruct (f_truthy s). Qed.

Lemma end_batch_ok e : sc_frames e = [] → scroll_ok (fst (end_batch e)).
Proof. done. Qed.

Lemma set_top_frames x e : sc_frames (set_top x e) = sc_frames e.
Proof. done. Qed.

Lemma animate_ok g flush isFirst e : scroll_ok e → scroll_ok (fst (ocAnimateScroll g flush isFirst e)).
Proof.
  unfold scroll_ok, ocAnimateScroll. destruct (sc_anim e) as [a|] eqn:Ha; cbn -[ocMaxScroll]; rewrite ?Ha; [done|].
  intros (_ & Hf & _ & Hp). destruct (_ && _); cbn -[ocMaxScroll]; [done|].
  rewrite Hf. by eexists.
Qed.

(** The one frame of an animating element is its animation's. *)
Lemma frame_cases id t e : scroll_ok e →
  (sc_anim e = None ∧ on_scroll (Frame id t) e = (e, None)) ∨
  (∃ a k, sc_anim e = Some a ∧ sc_animId e = Some k ∧
    on_scroll (Frame id t) e = if Nat.eqb k id then step (an_id a) t (take_frame id e) else (e, None)).
Proof.
  unfold scroll_ok. destruct (sc_anim e) as [a|] eqn:Ha.
  - intros (k & Hk & Hf & _). right. exists a, k. split_and!; [done|done|]. cbn. rewrite Hf. cbn.
    by destruct (Nat.eqb k id).
  - intros (_ & Hf & _). left. cbn. by rewrite Hf.
Qed.

Lemma take_own_frame e a k : scroll_ok e → sc_anim e = Some a → sc_animId e = Some k → sc_frames (take_frame k e) = [].
Proof.
  unfold scroll_ok. intros H Ha Hk. rewrite Ha in H. destruct H as (id & Hid & Hf & _).
  rewrite Hk in Hid. injection Hid as <-. cbn. rewrite Hf. cbn. by rewrite Nat.eqb_refl.
Qed.

Lemma event_ok ev e : scroll_ok e → scroll_ok (fst (on_scroll ev e)).
Proof.
  intros H. destruct ev as [g flush isFirst|id t|]; [by apply animate_ok| |].
  - destruct (frame_cases id t e H) as [[_ ->]|(a & k & Ha & Hk & ->)]; [done|].
    destruct (Nat.eqb k id) eqn:E; [|done]. apply Nat.eqb_eq in E as <-.
    pose proof (take_own_frame e a k H Ha Hk) as Hf.
    assert (sc_willChange e = true) as Hw by (unfold scroll_ok in H; rewrite Ha in H; naive_solver).
    unfold step. change (sc_anim (take_frame k e)) with (sc_anim e). rewrite Ha, Nat.eqb_refl.
    cbv zeta. destruct (SFltb (progress (started a t) t) (double 1)).
    + unfold scroll_ok. cbn [fst request_frame sc_anim sc_animId sc_frames sc_willChange]. rewrite set_top_frames, Hf.
      by eexists.
    + apply end_batch_ok. by case_match.
  - cbn. unfold scroll_ok in *. cbn. destruct (sc_anim e) as [a|] eqn:Ha.
    + destruct H as (k & Hk & Hf & _). rewrite Hk, Hf. cbn. by rewrite Nat.eqb_refl.
    + destruct H as (-> & -> & _). done.
Qed.

Lemma run_scroll_ok evs e : scroll_ok e → scroll_ok (snd (scroll_run evs e)).
Proof.
  revert e. induction evs as [|ev evs IH]; intros e H; cbn [scroll_run]; [done|].
  destruct (on_scroll ev e) as [e1 called] eqn:E.
  assert (scroll_ok e1) as H1 by (rewrite <- (f_equal fst E : _ = e1); by apply event_ok).
  specialize (IH e1 H1). destruct (scroll_run evs e1) as [later e2]. exact IH.
Qed.

Lemma own_frame_step a t id e :
  sc_anim e = Some a → sc_frames e = [(id, an_id a)] →
  let '(e', called) := on_scroll (Frame id t) e in
  if SFltb (progress (started a t) t) (double 1)
  then sc_anim e' = Some (started a t) ∧ sc_pending e' = sc_pending e ∧ called = None
  else sc_anim e' = None ∧ sc_pending e' = false ∧ called = if sc_pending e then sc_flush e else None.
Proof.
  intros Ha Hf. cbn [on_scroll]. rewrite Hf. cbn [List.find fst]. rewrite Nat.eqb_refl. unfold step.
  change (sc_anim (take_frame id e)) with (sc_anim e). rewrite Ha, Nat.eqb_refl. cbv zeta.
  destruct (SFltb (progress (started a t) t) (double 1)); [done|]. unfold end_batch. by case_match.
Qed.

(** C29: However scripts show batches and empty the log, and whichever of the
    requested frames the browser runs at whatever times, an element animates
    one batch at a time with exactly one frame to come, and is never left
    waiting without one.  A batch shown meanwhile leaves the animation alone
    and waits; each frame of the animation either carries on and keeps the
    batch waiting, or ends the animation and calls the stored callback exactly
    when a batch waits.  No position set lies past the target. *)
Theorem scroll_batches evs top :
  let e := snd (scroll_run evs (fresh_scroller top)) in
  scroll_ok e ∧
  (∀ a p, SFltb (an_target a) (position a p) = false) ∧
  (∀ a, sc_anim e = Some a →
    (∀ g flush isFirst, let '(e', called) := ocAnimateScroll g flush isFirst e in
      sc_anim e' = Some a ∧ sc_frames e' = sc_frames e ∧ sc_pending e' = true ∧ called = None) ∧
    ∃ id, sc_frames e = [(id, an_id a)] ∧
      ∀ t, let '(e', called) := on_scroll (Frame id t) e in
        if SFltb (progress (started a t) t) (double 1)
        then sc_anim e' = Some (started a t) ∧ sc_pending e' = sc_pending e ∧ called = None
        else sc_anim e' = None ∧ sc_pending e' = false ∧ called = if sc_pending e then sc_flush e else None).
Proof.
  intros e. assert (scroll_ok e) as Hok by (apply run_scroll_ok; done).
  split; [done|]. split; [intros; apply f_min_le|]. intros a Ha. split.
  - intros g flush isFirst. unfold ocAnimateScroll. rewrite Ha. done.
  - unfold scroll_ok in Hok. rewrite Ha in Hok. destruct Hok as (id & _ & Hf & _).
    exists id. split; [done|]. intros t. by apply own_frame_step.
Qed.
End Scroll.

(** A second batch shown during the first is flushed when the first ends; with
    [Math.pow] computed by multiplication. *)
Example batch_waits :
  let pow x _ := sf_mul x (sf_mul x x) in
  let g := mkGeometry (double 4) (double 4) S754_nan (repeat 18 20) 100 in
  fst (scroll_run pow id
    [Animate g (Some "flush") false; Frame 1 (double 1000); Animate g (Some "flush") false;
     Frame 2 (double 2000); Frame 3 (double 4600); Frame 4 (double 9000)] (fresh_scroller (double 0))) = ["flush"].
Proof. vm_compute. reflexivity. Qed.

(** ** Debounced buttons *)

(** The closure's [timer] with the timers the browser holds, each with its
    button, and the buttons disabled so far; buttons by number. *)
Record debounce : Type := mkDebounce {
  db_timer : option nat;
  db_timers : list (nat * nat);
  db_disabled : list nat;
  db_fresh : nat;
}.

Definition idle_debounce : debounce := mkDebounce None [] [] 1.

Inductive debounce_event : Type :=
  | Press (btn : nat)
  | Timeout (id : nat).

(** One event, with the button [fn] is called on. *)
Definition on_debounce (ev : debounce_event) (d : debounce) : debounce * option nat :=
  match ev with
  | Press btn =>
      let timers := match db_timer d with
                    | Some id => List.filter (λ t, negb (Nat.eqb (fst t) id)) (db_timers d)
                    | None => db_timers d
                    end in
      (mkDebounce (Some (db_fresh d)) (timers ++ [(db_fresh d, btn)]) (btn :: db_disabled d) (S (db_fresh d)), None)
  | Timeout id =>
      match List.find (λ t, Nat.eqb (fst t) id) (db_timers d) with
      | Some (_, btn) =>
          (mkDebounce None (List.filter (λ t, negb (Nat.eqb (fst t) id)) (db_timers d)) (db_disabled d) (db_fresh d),
           Some btn)
      | None => (d, None)
      end
  end.

Fixpoint debounce_run (evs : list debounce_event) (d : debounce) : list nat * debounce :=
  match evs with
  | [] => ([], d)
  | ev :: evs =>
      let '(d, called) := on_debounce ev d in
      let '(later, d) := debounce_run evs d in
      (match called with Some b => b :: later | None => later end, d)
  end.

(** At most one timer runs, and it is the closure's. *)
Definition debounce_ok (d : debounce) : Prop :=
  match db_timer d with
  | None => db_timers d = []
  | Some id => ∃ btn, db_timers d = [(id, btn)] ∧ btn ∈ db_disabled d
  end.

Lemma debounce_step_ok ev d : debounce_ok d → debounce_ok (fst (on_debounce ev d)).
Proof.
  unfold debounce_ok. destruct (db_timer d) as [k|] eqn:Hk.
  - intros (b & Hb & Hin). destruct ev as [btn|id]; cbn; rewrite ?Hk, Hb; cbn.
    + rewrite Nat.eqb_refl. cbn. eexists. split; [done|by left].
    + destruct (Nat.eqb k id) eqn:E; cbn; rewrite ?E, ?Hk; [done|]. by exists b.
  - intros Hb. destruct ev as [btn|id]; cbn; rewrite ?Hk, Hb; cbn; [|by rewrite Hk].
    eexists. split; [done|by left].
Qed.

(** What the buttons call for: a press replaces the button that waits, the end
    of the delay calls it. *)
Fixpoint last_of_bursts (waiting : option (nat * nat)) (fresh : nat) (evs : list debounce_event) : list nat :=
  match evs with
  | [] => []
  | Press btn :: evs => last_of_bursts (Some (fresh, btn)) (S fresh) evs
  | Timeout id :: evs =>
      match waiting with
      | Some (k, btn) =>
          if Nat.eqb k id then btn :: last_of_bursts None fresh evs else last_of_bursts waiting fresh evs
      | None => last_of_bursts None fresh evs
      end
  end.

(** The function is called once for each burst of presses, on the last button
    pressed, which stays disabled until then. *)
Lemma debounce_spec evs d :
  debounce_ok d → fst (debounce_run evs d) = last_of_bursts (head (db_timers d)) (db_fresh d) evs.
Proof.
  revert d. induction evs as [|ev evs IH]; intros d H; cbn [debounce_run last_of_bursts]; [done|].
  pose proof (debounce_step_ok ev d H) as H1. unfold debounce_ok in H.
  specialize (IH _ H1). destruct (on_debounce ev d) as [d1 called] eqn:E. cbn [fst] in *.
  destruct (debounce_run evs d1) as [later d2]. cbn [fst] in IH. subst later.
  destruct ev as [btn|id]; cbn in E.
  - injection E as <- <-. cbn. f_equal. destruct (db_timer d) as [k|]; [destruct H as (b & -> & _); cbn|by rewrite H].
    by rewrite Nat.eqb_refl.
  - destruct (db_timer d) as [k|] eqn:Hk.
    + destruct H as (b & Hb & _). rewrite Hb in *. cbn in E |- *.
      destruct (Nat.eqb k id) eqn:Ek; injection E as <- <-; cbn; by rewrite ?Ek, ?Hb.
    + rewrite H in *. cbn in *. injection E as <- <-. by rewrite H.
Qed.

(** ** Confirming a copy *)

(** A button: its content, whether it carries [copy-success], and the timers
    that put back the content they hold. *)
Record copy_button : Type := mkCopyButton {
  cb_html : string;
  cb_success : bool;
  cb_timers : list string;
}.

Definition check_mark : string :=
  "<svg width=" +:+ dq +:+ "14" +:+ dq +:+ " height=" +:+ dq +:+ "14" +:+ dq +:+ " viewBox=" +:+ dq
  +:+ "0 0 24 24" +:+ dq +:+ " fill=" +:+ dq +:+ "none" +:+ dq +:+ " stroke=" +:+ dq +:+ "currentColor"
  +:+ dq +:+ " stroke-width=" +:+ dq +:+ "3" +:+ dq +:+ " stroke-linecap=" +:+ dq +:+ "round" +:+ dq
  +:+ " stroke-linejoin=" +:+ dq +:+ "round" +:+ dq +:+ "><polyline points=" +:+ dq +:+ "20 6 9 17 4 12"
  +:+ dq +:+ "></polyline></svg>".

Definition ocShowCopySuccess (b : copy_button) : copy_button :=
  mkCopyButton check_mark true (cb_timers b ++ [cb_html b]).

(** The oldest timer ends. *)
Definition copy_timeout (b : copy_button) : copy_button :=
  match cb_timers b with
  | origHTML :: later => mkCopyButton origHTML false later
  | [] => b
  end.

(** What became of the copy: the clipboard's write, when the browser has one,
    and the fallback's command. *)
Definition ocFallbackCopy (copied : bool) (failMessage : option string) (b : option copy_button)
    : option copy_button * option string :=
  if copied then (option_map ocShowCopySuccess b, None)
  else (b, match failMessage with Some m => if str_truthy m then Some m else None | None => None end).

Definition ocCopyToClipboard (clipboard : option bool) (copied : bool) (failMessage : option string)
    (b : option copy_button) : option copy_button * option string :=
  match clipboard with
  | Some true => (option_map ocShowCopySuccess b, None)
  | _ => ocFallbackCopy copied failMessage b
  end.

Lemma copy_restored html : copy_timeout (ocShowCopySuccess (mkCopyButton html false [])) = mkCopyButton html false [].
Proof. reflexivity. Qed.

(** A second copy before the first timer ends keeps the check mark for good. *)
Lemma copy_twice_sticks html :
  copy_timeout (copy_timeout (ocShowCopySuccess (ocShowCopySuccess (mkCopyButton html false [])))) =
  mkCopyButton check_mark false [].
Proof. reflexivity. Qed.
