(* ===== verification/OcDashboard.v ===== *)
(** [openclash/js/common.js], dashboard part: where the front end finds the
    controller, and the addresses of dashboards with the login in them. *)
From stdpp Require Import base list strings.
From Stdlib Require Import ZArith Lia Ascii Bool.
From S2P Require Import Prelude JsNum JsString JsRegExp.

(** ** Addresses

    The browser's [URL] of an [http] or [https] address: parsing and writing
    are the browser's, the setters are those of the URL standard. *)
Record url : Type := mkUrl {
  u_protocol : string;
  u_username : string;
  u_password : string;
  u_hostname : string;
  u_port : string;
  u_pathname : string;
  u_search : string;
  u_hash : string;
}.

(** [parse_url] is [None] where [new URL] throws; [href] is
    [url.toString()]; [params_of] and [params_text] are [new
    URLSearchParams(text)] and its [toString]. *)
Class WebUrl : Type := {
  parse_url : string → option url;
  href : url → string;
  params_of : string → list (string * string);
  params_text : list (string * string) → string;
}.

Definition default_port (protocol : string) : string := if String.eqb protocol "https:" then "443" else "80".

(** A port as a URL keeps it: a number of 16 bits, empty for the protocol's
    own. *)
Definition port_ok (u : url) : Prop :=
  u_port u = "" ∨ ∃ n, 0 <= n < 65536 ∧ u_port u = dec n ∧ u_port u ≠ default_port (u_protocol u).

Class WebUrlLaws {W : WebUrl} : Prop := {
  parse_port s u : parse_url s = Some u → port_ok u;
  params_read_back l : params_of (params_text l) = l;
}.

Definition with_port (p : string) (u : url) : url :=
  mkUrl (u_protocol u) (u_username u) (u_password u) (u_hostname u) p (u_pathname u) (u_search u) (u_hash u).

Fixpoint digits_of (s : string) : string :=
  match s with
  | String c r => if is_digit c then String c (digits_of r) else ""
  | EmptyString => ""
  end.

(** [url.port = v] *)
Definition set_port (v : string) (u : url) : url :=
  if negb (str_truthy v) then with_port "" u
  else
    let d := digits_of v in
    let n := parse_digits 10 0 d in
    if negb (str_truthy d) || (65535 <? n) then u
    else with_port (if String.eqb (dec n) (default_port (u_protocol u)) then "" else dec n) u.

(** [url.protocol = v], from one of [http:] and [https:] to the other. *)
Definition set_protocol (v : string) (u : url) : url :=
  mkUrl v (u_username u) (u_password u) (u_hostname u)
    (if String.eqb (u_port u) (default_port v) then "" else u_port u)
    (u_pathname u) (u_search u) (u_hash u).

(** [pathname = '/'; search = ''; hash = ''] *)
Definition bare (u : url) : url :=
  mkUrl (u_protocol u) (u_username u) (u_password u) (u_hostname u) (u_port u) "/" "" "".

(** [url.hash = '#' + t], for a text the browser has nothing to encode in. *)
Definition set_hash (t : string) (u : url) : url :=
  mkUrl (u_protocol u) (u_username u) (u_password u) (u_hostname u) (u_port u) (u_pathname u) (u_search u)
    ("#" +:+ t).

Definition set_search (t : string) (u : url) : url :=
  mkUrl (u_protocol u) (u_username u) (u_password u) (u_hostname u) (u_port u) (u_pathname u)
    (if str_truthy t then "?" +:+ t else "") (u_hash u).

Definition origin (u : url) : string :=
  u_protocol u +:+ "//" +:+ u_hostname u +:+ (if str_truthy (u_port u) then ":" +:+ u_port u else "").

(** [URLSearchParams]: a list of pairs; [set] replaces the first pair of the
    name and drops the others, [delete] drops all. *)
Definition params_delete (k : string) (l : list (string * string)) : list (string * string) :=
  List.filter (λ p, negb (String.eqb (fst p) k)) l.

Fixpoint params_set (k v : string) (l : list (string * string)) : list (string * string) :=
  match l with
  | [] => [(k, v)]
  | (k', v') :: l => if String.eqb k' k then (k, v) :: params_delete k l else (k', v') :: params_set k v l
  end.

Definition params_get (k : string) (l : list (string * string)) : option string :=
  snd <$> List.find (λ p, String.eqb (fst p) k) l.

(** ** The controller *)

(** The fields of the status reply the functions read; [None] for a missing
    one.  [st_forward_ssl] is unset or decimal digits. *)
Record status : Type := mkStatus {
  st_custom_url : option string;
  st_custom_compatible : option string;
  st_forward_domain : option string;
  st_forward_port : option string;
  st_forward_ssl : option string;
  st_daip : option string;
  st_cn_port : option string;
  st_dase : option string;
}.

(** [x ? String(x).trim() : ''] *)
Definition trimmed_text (o : option string) : string := str_trim (default "" o).

Definition is_set (o : option string) : bool := str_truthy (default "" o).

Section Dashboard.
Context {W : WebUrl} (location_hostname : string).

(** The class of [\x00-\x20], [\x7f-\uffff], the double quote and
    [\ < > { } | ^ `]. *)
Definition forbidden (c : ascii) : bool :=
  let n := nat_of_ascii c in
  Nat.leb n 32 || Nat.leb 127 n
  || existsb (Nat.eqb n) [92; 60; 62; 34; 123; 125; 124; 94; 96]%nat.

Definition hex (c : ascii) : bool := match radix_digit 16 c with Some _ => true | None => false end.

(** [/%(?![0-9a-f]{2})/i] *)
Fixpoint bad_percent (s : string) : bool :=
  match s with
  | EmptyString => false
  | String c r =>
      (Ascii.eqb c "%" && negb (match r with String a (String b _) => hex a && hex b | _ => false end))
      || bad_percent r
  end.

Definition ocGetCustomDashboardURL (st : status) : string :=
  let raw := trimmed_text (st_custom_url st) in
  if negb (str_truthy raw) then ""
  else if negb (str_forall (λ c, negb (forbidden c)) raw) || bad_percent raw then ""
  else
    match parse_url raw with
    | None => ""
    | Some parsed =>
        if (negb (String.eqb (u_protocol parsed) "http:") && negb (String.eqb (u_protocol parsed) "https:"))
           || negb (str_truthy (u_hostname parsed)) || str_truthy (u_username parsed) || str_truthy (u_password parsed)
        then "" else raw
    end.

(** [(\d+)(?:[\/?#]|$)] here: the digits, when one of the ends follows. *)
Definition port_here (s : string) : option string :=
  let d := digits_of s in
  if negb (str_truthy d) then None
  else match str_from (str_len d) s with
       | EmptyString => Some d
       | String c _ => if existsb (Ascii.eqb c) ["/"; "?"; "#"]%char then Some d else None
       end.

(** [/\]:(\d+)(?:[\/?#]|$)/] anywhere. *)
Fixpoint port_after_bracket (s : string) : option string :=
  match s with
  | EmptyString => None
  | String _ r =>
      match (if String.prefix "]:" s then port_here (str_from 2 s) else None) with
      | Some p => Some p
      | None => port_after_bracket r
      end
  end.

(** [[^:\/?#]+:(\d+)(?:[\/?#]|$)] here. *)
Fixpoint port_after_host (started : bool) (s : string) : option string :=
  match s with
  | EmptyString => None
  | String c r =>
      if Ascii.eqb c ":" then if started then port_here r else None
      else if existsb (Ascii.eqb c) ["/"; "?"; "#"]%char then None
      else port_after_host true r
  end.

(** [^https?:\/\/] without regard to case: the text after it. *)
Definition after_scheme (s : string) : option string :=
  let l := str_lower s in
  if String.prefix "http://" l then Some (str_from 7 s)
  else if String.prefix "https://" l then Some (str_from 8 s)
  else None.

Definition embeddedPort (publicHost : string) : string :=
  match port_after_bracket publicHost with
  | Some p => p
  | None =>
      match (match after_scheme publicHost with Some r => port_after_host false r | None => None end) with
      | Some p => p
      | None => default "" (port_after_host false publicHost)
      end
  end.

(** [/^\d+$/] and the range of the number. *)
Definition valid_port (p : string) : bool :=
  str_truthy p && str_forall is_digit p && (0 <? parse_digits 10 0 p) && (parse_digits 10 0 p <=? 65535).

(** [status.db_forward_ssl != 0] *)
Definition forward_ssl (st : status) : bool :=
  match st_forward_ssl st with
  | None => true
  | Some s => negb (str_forall (λ c, Ascii.eqb c "0") s)
  end.

Record base : Type := mkBase {
  b_host : string;
  b_port : string;
  b_proto : string;
  b_origin : string;
  b_secret : string;
  b_isPublic : bool;
}.

Definition use_public (st : status) : bool :=
  is_set (st_daip st) && negb (String.eqb location_hostname (default "" (st_daip st)))
  && str_truthy (trimmed_text (st_forward_domain st)).

(** The body of the [try]: [None] when it throws. *)
Definition public_address (st : status) : option url :=
  let publicHost := trimmed_text (st_forward_domain st) in
  let publicPort := trimmed_text (st_forward_port st) in
  let usePublic := use_public st in
  let rawHost := if usePublic then publicHost else location_hostname in
  let proto := if usePublic && forward_ssl st then "https:" else "http:" in
  match parse_url (match after_scheme rawHost with Some _ => rawHost | None => "http://" +:+ rawHost end) with
  | None => None
  | Some parsed =>
      if negb (str_truthy (u_hostname parsed)) || str_truthy (u_username parsed) || str_truthy (u_password parsed)
      then None
      else
        let legacyPort := if str_truthy (embeddedPort publicHost) then embeddedPort publicHost else u_port parsed in
        let parsed := bare (set_protocol proto parsed) in
        Some (if usePublic && valid_port publicPort then set_port publicPort parsed
              else if usePublic && str_truthy legacyPort then set_port legacyPort parsed
              else if usePublic then set_port (default_port proto) parsed
              else if negb usePublic && valid_port (default "" (st_cn_port st))
              then set_port (default "" (st_cn_port st)) parsed
              else parsed)
  end.

Definition effectivePort (u : url) : string :=
  if str_truthy (u_port u) then u_port u else default_port (u_protocol u).

Definition base_of (u : url) (secret : option string) (isPublic : bool) : base :=
  mkBase (u_hostname u) (effectivePort u) (u_protocol u +:+ "//") (origin u) (default "" secret) isPublic.

(** [None] when the page's own host is no address. *)
Definition ocGetDashboardBaseURL (st : status) : option base :=
  match public_address st with
  | Some u => Some (base_of u (st_dase st) (use_public st))
  | None =>
      match parse_url ("http://" +:+ location_hostname) with
      | None => None
      | Some parsed =>
          let parsed := if is_set (st_cn_port st) then set_port (default "" (st_cn_port st)) parsed else parsed in
          Some (base_of parsed (st_dase st) false)
      end
  end.

(** [origin.replace(/^http/, 'ws')] *)
Definition ocGetDashboardWebSocketOrigin (st : status) : option string :=
  (λ b, if String.prefix "http" (b_origin b) then "ws" +:+ str_from 4 (b_origin b) else b_origin b)
  <$> ocGetDashboardBaseURL st.

(** ** Addresses with the login *)

Definition ocGetDashboardLoginParams (b : base) (clashCompatible : bool) : list (string * string) :=
  let params := params_set (if clashCompatible then "host" else "hostname") (b_host b) [] in
  let params := params_set "port" (b_port b) params in
  if str_truthy (b_secret b) then params_set "secret" (b_secret b) params else params.

(** [params.forEach((value, key) => target.set(key, value))] *)
Definition set_all (params target : list (string * string)) : list (string * string) :=
  fold_left (λ t kv, params_set (fst kv) (snd kv) t) params target.

(** [text.substring(1)] *)
Definition tail_text (s : string) : string := str_from 1 s.

(** The part of a fragment before its [?], and the parameters after it. *)
Definition fragment_route (fragment : string) : string :=
  let separator := str_index_of fragment "?" in
  if separator =? -1 then fragment else str_upto separator fragment.
Definition fragment_params (fragment : string) : list (string * string) :=
  let separator := str_index_of fragment "?" in
  params_of (if separator =? -1 then "" else str_from (separator + 1) fragment).

Definition with_login (b : base) (clashCompatible : bool) (parsed : url) : url :=
  let params := ocGetDashboardLoginParams b clashCompatible in
  if clashCompatible then
    let compatParams := params_delete "hostname" (fragment_params (tail_text (u_hash parsed))) in
    set_hash ("/?" +:+ params_text (set_all params compatParams)) parsed
  else if negb (str_truthy (u_hash parsed)) then
    set_search (params_text (set_all params (params_delete "host" (params_of (tail_text (u_search parsed)))))) parsed
  else
    let hash := tail_text (u_hash parsed) in
    set_hash (fragment_route hash +:+ "?"
              +:+ params_text (set_all params (params_delete "host" (fragment_params hash)))) parsed.

(** [None] when a [new URL] throws. *)
Definition ocBuildExternalDashboardURL (st : status) : option string :=
  let customURL := ocGetCustomDashboardURL st in
  if negb (str_truthy customURL) then Some ""
  else
    match ocGetDashboardBaseURL st, parse_url customURL with
    | Some b, Some parsed => Some (href (with_login b (match st_custom_compatible st with Some t => String.eqb t "1" | None => false end) parsed))
    | _, _ => None
    end.

Definition ocBuildDashboardURL (st : status) (uiPath : string) (needsSetup : bool) : option string :=
  (λ b,
    let url := b_origin b +:+ "/ui/" +:+ uiPath in
    let params := params_text (ocGetDashboardLoginParams b (String.eqb uiPath "dashboard")) in
    url +:+ (if needsSetup then "/#/setup?" +:+ params
             else if String.eqb uiPath "yacd" then "/?" +:+ params
             else if String.eqb uiPath "dashboard" then "/#/?" +:+ params
             else ""))
  <$> ocGetDashboardBaseURL st.
End Dashboard.

(** ** Facts: ports *)

Lemma effective_ok u : port_ok u → ∃ n, 0 <= n < 65536 ∧ effectivePort u = dec n.
Proof.
  unfold effectivePort, default_port. intros [->|(n & Hn & -> & _)]; cbn [str_truthy negb String.eqb].
  - destruct (String.eqb (u_protocol u) "https:"); [exists 443|exists 80]; split; [lia|reflexivity|lia|reflexivity].
  - rewrite dec_truthy. by exists n.
Qed.

Lemma parse_digits_nonneg s acc : 0 <= acc → 0 <= parse_digits 10 acc s.
Proof.
  revert acc. induction s as [|c s IH]; intros acc H; cbn; [done|].
  destruct (radix_digit 10 c) as [d|] eqn:E; [|done]. apply IH.
  unfold radix_digit in E. destruct (digit_val c) as [v|] eqn:Ev; [|done].
  assert (0 <= v) by (unfold digit_val in Ev; repeat case_match; simplify_eq; lia).
  destruct (v <? 10); [injection E as <-|done]. lia.
Qed.

Lemma digits_of_all s : str_forall is_digit s = true → digits_of s = s.
Proof.
  induction s as [|c s IH]; cbn; [done|]. intros [-> H]%andb_true_iff. by rewrite IH.
Qed.

Lemma set_port_ok v u : port_ok u → port_ok (set_port v u).
Proof.
  intros H. unfold set_port. destruct (negb (str_truthy v)); [by left|].
  set (n := parse_digits 10 0 (digits_of v)).
  destruct (negb (str_truthy (digits_of v)) || (65535 <? n)) eqn:E; [done|].
  apply orb_false_iff in E as [_ E%Z.ltb_ge].
  destruct (String.eqb (dec n) (default_port (u_protocol u))) eqn:Ed; [by left|].
  right. exists n. apply String.eqb_neq in Ed. split_and!; [apply parse_digits_nonneg; lia|lia|done|done].
Qed.

Lemma set_protocol_ok v u : port_ok u → port_ok (set_protocol v u).
Proof.
  unfold port_ok. cbn. intros [->|(n & Hn & Hp & _)]; [left; by case_match|].
  destruct (String.eqb (u_port u) (default_port v)) eqn:E; [by left|].
  right. exists n. by apply String.eqb_neq in E.
Qed.

(** A valid port assigned is the effective one, the protocol's own
    included. *)
Lemma set_port_effective v u : valid_port v = true → effectivePort (set_port v u) = dec (parse_digits 10 0 v).
Proof.
  unfold valid_port. rewrite !andb_true_iff, Z.ltb_lt, Z.leb_le. intros [[[Ht Hd] Hlo] Hhi].
  unfold set_port. rewrite (digits_of_all v Hd), Ht. cbn [negb orb].
  destruct (Z.ltb_spec 65535 (parse_digits 10 0 v)); [lia|].
  destruct (String.eqb_spec (dec (parse_digits 10 0 v)) (default_port (u_protocol u))) as [->|Hn]; unfold effectivePort; cbn.
  - done.
  - by rewrite dec_truthy.
Qed.

(** ** Facts: parameters *)

Definition entries (k : string) (l : list (string * string)) : list (string * string) :=
  List.filter (λ p, String.eqb (fst p) k) l.

Lemma entries_delete k l : entries k (params_delete k l) = [].
Proof.
  unfold entries, params_delete. induction l as [|[a v] l IH]; cbn; [done|].
  destruct (String.eqb a k) eqn:E; cbn; [done|]. by rewrite E.
Qed.

Lemma entries_delete_other k k' l : k ≠ k' → entries k (params_delete k' l) = entries k l.
Proof.
  intros Hn. unfold entries, params_delete. induction l as [|[a v] l IH]; cbn; [done|].
  destruct (String.eqb_spec a k') as [->|]; cbn; [|by rewrite IH].
  by rewrite (proj2 (String.eqb_neq k' k)).
Qed.

Lemma entries_set k v l : entries k (params_set k v l) = [(k, v)].
Proof.
  induction l as [|[a w] l IH]; cbn; [by rewrite String.eqb_refl|].
  destruct (String.eqb a k) eqn:E; cbn; rewrite ?String.eqb_refl, ?E; [|done].
  by rewrite (entries_delete k l : List.filter _ _ = []).
Qed.

Lemma entries_set_other k k' v l : k ≠ k' → entries k (params_set k' v l) = entries k l.
Proof.
  intros Hn. assert (String.eqb k' k = false) as Hk by (by apply String.eqb_neq).
  induction l as [|[a w] l IH]; unfold entries in *; cbn; [by rewrite Hk|].
  destruct (String.eqb_spec a k') as [->|]; cbn; rewrite ?Hk.
  - by apply entries_delete_other.
  - by rewrite IH.
Qed.

(** Setting the login: the key of the host, the port, and the secret if there
    is one. *)
Lemma set_login b compat l :
  set_all (ocGetDashboardLoginParams b compat) l =
  let l := params_set "port" (b_port b) (params_set (if compat then "host" else "hostname") (b_host b) l) in
  if str_truthy (b_secret b) then params_set "secret" (b_secret b) l else l.
Proof. unfold ocGetDashboardLoginParams. destruct compat; cbn; by destruct (str_truthy (b_secret b)). Qed.

Lemma split_at_char c s :
  char_free c s = true ∨ ∃ a r, s = a +:+ String c r ∧ char_free c a = true.
Proof.
  induction s as [|d s IH]; [by left|]. destruct (Ascii.eqb_spec c d) as [<-|Hd]; [right; by exists "", s|].
  assert (∀ t, char_free c (String d t) = char_free c t) as Hc.
  { intros t. rewrite char_free_cons. apply Ascii.eqb_neq in Hd. by rewrite ?Hd, ?(Ascii.eqb_sym d c), ?Hd. }
  destruct IH as [H|(a & r & -> & H)]; [left; by rewrite Hc|].
  right. exists (String d a), r. by rewrite Hc.
Qed.

Lemma fragment_route_free s : char_free "?" (fragment_route s) = true.
Proof.
  unfold fragment_route. destruct (split_at_char "?" s) as [H|(a & r & -> & H)].
  - by rewrite (index_of_free _ _ H).
  - rewrite (index_of_app _ _ r H). destruct (Z.eqb_spec (str_len a) (-1)); [unfold str_len in *; lia|].
    by rewrite str_upto_app.
Qed.

Section Params.
Context {W : WebUrl}.

Lemma fragment_params_app route t : char_free "?" route = true → fragment_params (route +:+ "?" +:+ t) = params_of t.
Proof.
  intros H. unfold fragment_params. change ("?" +:+ t) with (String "?" t).
  rewrite (index_of_app _ _ t H). destruct (Z.eqb_spec (str_len route) (-1)); [unfold str_len in *; lia|].
  by rewrite str_from_app.
Qed.

(** Where a dashboard reads its login: in the fragment, or, for one without a
    fragment, in the query. *)
Definition login_query (compat fragment : bool) (u : url) : list (string * string) :=
  if compat || fragment then fragment_params (tail_text (u_hash u)) else params_of (tail_text (u_search u)).

Lemma tail_cons c t : tail_text (String c t) = t.
Proof. reflexivity. Qed.

(** The parameters with the login are the old ones with the login set. *)
Lemma with_login_query `{!WebUrlLaws} b compat u :
  let fragment := str_truthy (u_hash u) in
  login_query compat fragment (with_login b compat u) =
  set_all (ocGetDashboardLoginParams b compat)
    (params_delete (if compat then "hostname" else "host") (login_query compat fragment u)).
Proof.
  unfold with_login, login_query. destruct compat; cbn [orb].
  - unfold set_hash. cbn [u_hash]. change ("#" +:+ ?x) with (String "#" x). rewrite tail_cons.
    change ("/?" +:+ ?x) with ("/" +:+ "?" +:+ x). rewrite fragment_params_app by done. by rewrite params_read_back.
  - destruct (str_truthy (u_hash u)); cbn [negb].
    + unfold set_hash. cbn [u_hash]. change ("#" +:+ ?x) with (String "#" x). rewrite tail_cons.
      rewrite fragment_params_app by apply fragment_route_free. by rewrite params_read_back.
    + unfold set_search. cbn [u_search]. set (l := set_all _ _). destruct (str_truthy (params_text l)) eqn:E.
      * change ("?" +:+ ?x) with (String "?" x). rewrite tail_cons. apply params_read_back.
      * unfold str_truthy in E. apply negb_false_iff, String.eqb_eq in E.
        rewrite <- (params_read_back l), E. done.
Qed.

(** C28: Wherever a dashboard reads its parameters, the address built for it
    carries the login exactly once: the controller's host under the key the
    dashboard expects and not under the other key, the port, and the secret
    when there is one; every other parameter of the custom address is kept. *)
Theorem with_login_roundtrip `{!WebUrlLaws} b compat u :
  let fragment := str_truthy (u_hash u) in
  let old := login_query compat fragment u in
  let new := login_query compat fragment (with_login b compat u) in
  let key := if compat then "host" else "hostname" in
  let other := if compat then "hostname" else "host" in
  entries key new = [(key, b_host b)] ∧ entries "port" new = [("port", b_port b)] ∧ entries other new = [] ∧
  entries "secret" new = (if str_truthy (b_secret b) then [("secret", b_secret b)] else entries "secret" old) ∧
  ∀ k, k ∉ ["host"; "hostname"; "port"; "secret"] → entries k new = entries k old.
Proof.
  cbv zeta. rewrite with_login_query, set_login. cbv zeta.
  generalize (login_query compat (str_truthy (u_hash u)) u); intros old. split_and!.
  - destruct compat, (str_truthy (b_secret b)); by rewrite ?entries_set_other, entries_set by done.
  - destruct compat, (str_truthy (b_secret b)); by rewrite ?entries_set_other, entries_set by done.
  - destruct compat, (str_truthy (b_secret b)); by rewrite ?entries_set_other, entries_delete by done.
  - destruct compat, (str_truthy (b_secret b));
      by rewrite ?entries_set, ?entries_set_other, ?entries_delete_other by done.
  - intros k Hk. destruct compat, (str_truthy (b_secret b));
      rewrite ?entries_set_other by (intros ->; apply Hk; rewrite !elem_of_cons; auto 6);
      apply entries_delete_other; intros ->; apply Hk; rewrite !elem_of_cons; auto 6.
Qed.
End Params.

(** ** Facts: the port of the controller *)

Section Base.
Context {W : WebUrl} {L : WebUrlLaws} (location_hostname : string).

Lemma public_address_ok st u : public_address location_hostname st = Some u → port_ok u.
Proof.
  unfold public_address. cbv zeta. destruct (parse_url _) as [p|] eqn:Hp; [|done].
  apply parse_port in Hp. destruct (_ || _); [done|]. intros [= <-].
  assert (port_ok (bare (set_protocol (if use_public location_hostname st && forward_ssl st then "https:" else "http:") p)))
    as Hb by exact (set_protocol_ok _ _ Hp).
  repeat match goal with |- context [if ?c then _ else _] => destruct c end; try exact Hb; by apply set_port_ok.
Qed.

Lemma public_address_protocol st u :
  public_address location_hostname st = Some u →
  u_protocol u = if use_public location_hostname st && forward_ssl st then "https:" else "http:".
Proof.
  unfold public_address. cbv zeta. destruct (parse_url _) as [p|]; [|done].
  destruct (_ || _); [done|]. intros [= <-].
  assert (∀ v u, u_protocol (set_port v u) = u_protocol u) as Hs by (intros; unfold set_port; by repeat case_match).
  repeat match goal with
         | |- context [if valid_port ?c then _ else _] => destruct (valid_port c)
         | |- context [_ && valid_port ?c] => destruct (valid_port c)
         | |- context [str_truthy ?c] => destruct (str_truthy c)
         | |- context [use_public ?a ?b] => destruct (use_public a b)
         end; cbn [andb negb]; by rewrite ?Hs.
Qed.

(** The port a public address or one of the local network gets. *)
Lemma public_address_port st u :
  public_address location_hostname st = Some u →
  (use_public location_hostname st = true → valid_port (trimmed_text (st_forward_port st)) = true →
   effectivePort u = dec (parse_digits 10 0 (trimmed_text (st_forward_port st)))) ∧
  (use_public location_hostname st = false → valid_port (default "" (st_cn_port st)) = true →
   effectivePort u = dec (parse_digits 10 0 (default "" (st_cn_port st)))).
Proof.
  unfold public_address. cbv zeta. destruct (parse_url _) as [p|]; [|done].
  destruct (_ || _); [done|]. intros [= <-].
  split; intros Hp Hv; rewrite Hp, Hv; cbn [andb negb]; by apply set_port_effective.
Qed.

(** The port in the controller's address is always a 16-bit number in
    decimal.  Behind a public name whose address parses, the protocol follows
    the forwarding setting and a valid configured port is the one used; on the
    local network it is plain [http] with the controller's own port, also when
    that is the protocol's default one. *)
Theorem dashboard_port_bounds st b :
  ocGetDashboardBaseURL location_hostname st = Some b →
  (∃ n, 0 <= n < 65536 ∧ b_port b = dec n) ∧
  (b_isPublic b = true →
     b_proto b = (if forward_ssl st then "https://" else "http://") ∧
     (valid_port (trimmed_text (st_forward_port st)) = true →
      b_port b = dec (parse_digits 10 0 (trimmed_text (st_forward_port st))))) ∧
  (use_public location_hostname st = false →
     b_isPublic b = false ∧
     (valid_port (default "" (st_cn_port st)) = true → b_port b = dec (parse_digits 10 0 (default "" (st_cn_port st))))).
Proof.
  unfold ocGetDashboardBaseURL. destruct (public_address location_hostname st) as [u|] eqn:Hu.
  - intros [= <-]. pose proof (public_address_protocol st u Hu) as Hpr. pose proof (public_address_port st u Hu) as [Hpub Hloc].
    cbn. split; [by apply effective_ok, public_address_ok with st|]. split; [|by eauto].
    intros Hp. rewrite Hpr, Hp. cbn. split; [by destruct (forward_ssl st)|by auto].
  - destruct (parse_url _) as [p|] eqn:Hp; [|done]. apply parse_port in Hp. intros [= <-]. cbn.
    split; [|split; [done|]].
    + apply effective_ok. destruct (is_set _); [by apply set_port_ok|done].
    + intros _. split; [done|]. intros Hv. unfold is_set.
      assert (str_truthy (default "" (st_cn_port st)) = true) as ->
        by (unfold valid_port in Hv; by repeat apply andb_true_iff in Hv as [Hv _]).
      by apply set_port_effective.
Qed.
End Base.

(** ** A browser for addresses of the form scheme, host, port, rest *)

Definition form_safe (c : ascii) : bool :=
  is_word c && negb (Ascii.eqb c "_") || existsb (Ascii.eqb c) ["*"; "-"; "."; "_"]%char.

Definition hex_char (n : nat) : ascii := ascii_of_nat (if Nat.ltb n 10 then 48 + n else 55 + n).

Definition form_char (c : ascii) (rest : string) : string :=
  if form_safe c then String c rest
  else if Ascii.eqb c " " then String "+" rest
  else let n := nat_of_ascii c in String "%" (String (hex_char (n / 16)) (String (hex_char (n mod 16)) rest)).

Fixpoint form_encode (s : string) : string :=
  match s with String c r => form_char c (form_encode r) | EmptyString => "" end.

Definition hex_value (c : ascii) : nat := Z.to_nat (default 0 (radix_digit 16 c)).

Fixpoint form_decode (s : string) : string :=
  match s with
  | EmptyString => ""
  | String "+" r => String " " (form_decode r)
  | String "%" (String a (String b r)) => String (ascii_of_nat (16 * hex_value a + hex_value b)) (form_decode r)
  | String c r => String c (form_decode r)
  end.

Lemma form_decode_char c r : form_decode (form_char c r) = String c (form_decode r).
Proof. destruct c as [[] [] [] [] [] [] [] []]; reflexivity. Qed.

Lemma form_roundtrip s : form_decode (form_encode s) = s.
Proof. induction s as [|c s IH]; cbn [form_encode]; [done|]. by rewrite form_decode_char, IH. Qed.

Lemma form_char_free d c r : d = "&"%char ∨ d = "="%char → char_free d (form_char c r) = char_free d r.
Proof. intros [->| ->]; destruct c as [[] [] [] [] [] [] [] []]; reflexivity. Qed.

Lemma form_free d s : d = "&"%char ∨ d = "="%char → char_free d (form_encode s) = true.
Proof. intros Hd. induction s as [|c s IH]; cbn [form_encode]; [done|]. by rewrite form_char_free. Qed.

Definition form_pair (p : string * string) : string := form_encode (fst p) +:+ String "=" (form_encode (snd p)).

Definition form_unpair (t : string) : string * string :=
  let i := str_index_of t "=" in
  if i =? -1 then (form_decode t, "") else (form_decode (str_upto i t), form_decode (str_from (i + 1) t)).

Lemma form_unpair_pair p : form_unpair (form_pair p) = p.
Proof.
  unfold form_unpair, form_pair. rewrite index_of_app by (apply form_free; by right).
  destruct (Z.eqb_spec (str_len (form_encode (fst p))) (-1)); [unfold str_len in *; lia|].
  rewrite str_upto_app, str_from_app, !form_roundtrip. by destruct p.
Qed.

(** A text up to a mark, and from it on. *)
Definition cut_at (mark s : string) : string * string :=
  let i := str_index_of s mark in if i =? -1 then (s, "") else (str_upto i s, str_from i s).

#[local] Instance plain_web : WebUrl := {|
  parse_url s :=
    match after_scheme s with
    | None => None
    | Some r =>
        let protocol := if String.prefix "https" s then "https:" else "http:" in
        let '(r, hash) := cut_at "#" r in
        let '(r, search) := cut_at "?" r in
        let '(authority, path) := cut_at "/" r in
        let '(host, port) := cut_at ":" authority in
        Some (set_port (tail_text port)
                (mkUrl protocol "" "" host "" (if str_truthy path then path else "/") search hash))
    end;
  href u := origin u +:+ u_pathname u +:+ u_search u +:+ u_hash u;
  params_of t := if str_truthy t then map form_unpair (str_split "&" t) else [];
  params_text l := str_join "&" (map form_pair l);
|}.

Lemma plain_web_laws : WebUrlLaws.
Proof.
  split.
  - intros s u. cbn. destruct (after_scheme s); [|done]. repeat case_match; intros [= <-]; apply set_port_ok; by left.
  - intros [|p l]; [done|]. cbn [params_of params_text plain_web].
    assert (str_split "&" (str_join "&" (map form_pair (p :: l))) = map form_pair (p :: l)) as Hs.
    { apply (str_split_join "&"); [done|]. rewrite Forall_map. apply Forall_true. intros q. unfold form_pair, compose.
      rewrite char_free_app, char_free_cons. by rewrite !form_free by (by left). }
    destruct (str_truthy _) eqn:E.
    + rewrite Hs, map_map. rewrite <- (map_id (p :: l)) at 2. apply map_ext, form_unpair_pair.
    + unfold str_truthy in E. apply negb_false_iff, String.eqb_eq in E. rewrite E in Hs. cbn in Hs.
      injection Hs as Hs _. unfold form_pair in Hs. by destruct (form_encode (fst p)).
Qed.

Definition away : status :=
  mkStatus (Some "https://board.example/ui#/setup?theme=dark&host=old") None (Some "home.example:8443") (Some "443")
    (Some "1") (Some "192.168.1.1") (Some "9090") (Some "s e").

Example external_address :
  ocBuildExternalDashboardURL "home.example" away =
  Some "https://board.example/ui#/setup?theme=dark&hostname=home.example&port=443&secret=s+e".
Proof. vm_compute. reflexivity. Qed.

Lemma with_login_roundtrip_witness :
  entries "port" (login_query false true (with_login (mkBase "h" "443" "https://" "https://h" "s" true) false
    (mkUrl "https:" "" "" "board" "" "/" "" "#/setup?theme=dark&host=old"))) = [("port", "443")].
Proof.
  exact (proj1 (proj2 (with_login_roundtrip (W := plain_web) (H := plain_web_laws)
    (mkBase "h" "443" "https://" "https://h" "s" true) false
    (mkUrl "https:" "" "" "board" "" "/" "" "#/setup?theme=dark&host=old")))).
Defined.

Lemma dashboard_port_bounds_witness :
  ∃ b, ocGetDashboardBaseURL "home.example" away = Some b ∧ b_port b = "443" ∧ b_isPublic b = true ∧
    ∃ n, 0 <= n < 65536 ∧ b_port b = dec n.
Proof.
  eexists. split; [vm_compute; reflexivity|]. split; [reflexivity|]. split; [reflexivity|].
  exact (proj1 (dashboard_port_bounds (L := plain_web_laws) "home.example" away _ eq_refl)).
Defined.
