(* ===== verification/Homebox.v ===== *)
(** [view/netspeedtest/homebox.js] of luci-app-netspeedtest: the page that
    starts and stops the Homebox server, as a machine over clicks, timers and
    the replies to the commands it runs. *)
From stdpp Require Import base list strings.
From Stdlib Require Import ZArith Lia Ascii Bool.
From S2P Require Import Prelude JsNum JsString Luci.

(** ** Commands *)

(** The reply to [fs.exec]: rejected, or the code and the output, [None] for a
    reply without one. *)
Notation exec_reply := (option (Z * option string)).

(** [res.stdout.trim()]: [None] when it throws. *)
Definition trimmed_out (out : option string) : option string := str_trim <$> out.

(** [checkProcess(true)] *)
Definition check_quick (pgrep : exec_reply) : bool :=
  match pgrep with
  | Some (0, out) => match trimmed_out out with Some t => str_truthy t | None => false end
  | _ => false
  end.

(** [checkProcess()]: whether the server runs and its process number; the
    second command is only run when the first finds nothing. *)
Definition check_full (pgrep ps : exec_reply) : bool * option string :=
  let stopped := (false, None) in
  let from_ps :=
    match ps with
    | Some (_, out) =>
        match trimmed_out out with
        | Some pid => (str_truthy pid, if str_truthy pid then Some pid else None)
        | None => stopped
        end
    | None => stopped
    end in
  match pgrep with
  | None => stopped
  | Some (code, out) =>
      if code =? 0 then
        match trimmed_out out with
        | Some pid => if str_truthy pid then (true, Some pid) else from_ps
        | None => stopped
        end
      else from_ps
  end.

(** The operations the page asks of the router. *)
Inductive command : Type :=
  | Exec (path : string) (args : list string)
  | WriteFile (path content : string).

Inductive operation : Type := Start | Stop.

Definition logPath : string := "/tmp/netspeedtest.log".

Definition start_command (port : num) : string :=
  "/usr/bin/homebox serve --port " +:+ num_to_string port +:+ " > " +:+ logPath +:+ " 2>&1 &".

(** [controlService]: the commands it ends up running when none of them is
    rejected; the first one's failure is ignored. *)
Definition controlService (action : operation) (port : num) : list command :=
  match action with
  | Start => [Exec "/usr/bin/killall" ["homebox"]; Exec "/bin/sh" ["-c"; start_command port]]
  | Stop => [Exec "/usr/bin/killall" ["homebox"]; Exec "/etc/init.d/netspeedtest" ["stop"]]
  end.

Definition tab : string := String "009" "".

Definition config_text (newPort : num) (enabled : bool) : string :=
  "config netspeedtest 'config'" +:+ lf +:+ tab +:+ "option homebox_port '" +:+ num_to_string newPort +:+ "'" +:+ lf
  +:+ tab +:+ "option homebox_enabled '" +:+ (if enabled then "1" else "0") +:+ "'" +:+ lf.

(** [saveConfiguration]: it replaces the whole file. *)
Definition saveConfiguration (newPort : num) (enabled : bool) : list command :=
  [WriteFile "/etc/config/netspeedtest" (config_text newPort enabled);
   Exec "/etc/init.d/netspeedtest" [if enabled then "enable" else "disable"]].

(** ** The page *)

(** The module's [state]; [operationType] is [Some] while an operation is in
    progress. *)
Record state : Type := mkState {
  st_running : bool;
  st_port : num;
  st_enabled : bool;
  st_operation : option operation;
}.

(** What the container shows. *)
Inductive panel : Type :=
  | Empty
  | NotRunning
  | HttpsButton (href : string)
  | Iframe (src : string).

Record widgets : Type := mkWidgets {
  w_icon : bool;
  w_status : string;
  w_toggle_text : string;
  w_toggle_class : string;
  w_toggle_disabled : bool;
  w_checked : bool;
  w_port : string;
  w_port_error : bool;
  w_save_disabled : bool;
  w_panel : panel;
}.

(** Where the handler of a click on the toggle button is: it waits for the
    command, for a quick check after [n] earlier ones, for the timer before
    the next, or for the full check that ends it. *)
Inductive stage : Type :=
  | Controlling
  | Checking (n : nat)
  | Waiting (n : nat)
  | Concluding.

(** Handlers under way: of the toggle button, of the save button and of the
    check box. *)
Inductive task : Type :=
  | Toggling (action : operation) (s : stage)
  | SavingPort (newPort : num)
  | SavingEnabled.

Record page : Type := mkPage {
  pg_state : state;
  pg_widgets : widgets;
  pg_tasks : list (nat * task);
  pg_fresh : nat;
}.

Section Homebox.
Context {I : I18n} (isHttps : bool) (hostname : string).

Definition button_text (running : bool) : string := if running then tr "Stop Server" else tr "Start Server".
Definition button_class (running : bool) : string :=
  "btn cbi-button cbi-button-" +:+ (if running then "reset" else "apply").
Definition status_text (running : bool) : string :=
  tr "Homebox Server" +:+ " " +:+ (if running then tr "RUNNING" else tr "NOT RUNNING").

Definition server_url (port : num) : string := "http://" +:+ hostname +:+ ":" +:+ num_to_string port.

Definition panel_of (s : state) : panel :=
  if st_running s then if isHttps then HttpsButton (server_url (st_port s)) else Iframe (server_url (st_port s))
  else NotRunning.

(** An operation whose effect shows is over. *)
Definition reached (s : state) : bool :=
  match st_operation s with
  | Some Stop => negb (st_running s)
  | Some Start => st_running s
  | None => false
  end.

Definition with_operation (o : option operation) (s : state) : state :=
  mkState (st_running s) (st_port s) (st_enabled s) o.

Definition updateStatus (s : state) (w : widgets) : state * widgets :=
  let s' := if reached s then with_operation None s else s in
  let '(text, class, disabled) :=
    match st_operation s' with
    | Some Start => (tr "Starting...", w_toggle_class w, true)
    | Some Stop => (tr "Stopping...", w_toggle_class w, true)
    | None => (button_text (st_running s), button_class (st_running s), false)
    end in
  (s', mkWidgets (st_running s) (status_text (st_running s)) text class disabled (st_enabled s)
         (num_to_string (st_port s)) (w_port_error w) (w_save_disabled w) (panel_of s)).

Definition set_state (s : state) (p : page) : page := mkPage s (pg_widgets p) (pg_tasks p) (pg_fresh p).
Definition set_widgets (w : widgets) (p : page) : page := mkPage (pg_state p) w (pg_tasks p) (pg_fresh p).

Definition refresh (p : page) : page :=
  let '(s, w) := updateStatus (pg_state p) (pg_widgets p) in mkPage s w (pg_tasks p) (pg_fresh p).

Definition find_task (id : nat) (p : page) : option task :=
  snd <$> List.find (λ t, Nat.eqb (fst t) id) (pg_tasks p).

Definition set_task (id : nat) (t : task) (p : page) : page :=
  mkPage (pg_state p) (pg_widgets p)
    (map (λ e, if Nat.eqb (fst e) id then (id, t) else e) (pg_tasks p)) (pg_fresh p).

Definition end_task (id : nat) (p : page) : page :=
  mkPage (pg_state p) (pg_widgets p) (List.filter (λ e, negb (Nat.eqb (fst e) id)) (pg_tasks p)) (pg_fresh p).

Definition add_task (t : task) (p : page) : page :=
  mkPage (pg_state p) (pg_widgets p) (pg_tasks p ++ [(pg_fresh p, t)]) (S (pg_fresh p)).

Definition set_running (b : bool) (s : state) : state := mkState b (st_port s) (st_enabled s) (st_operation s).

(** The listener of the toggle button. *)
Definition click_toggle (p : page) : page * list command :=
  let s := pg_state p in
  if w_toggle_disabled (pg_widgets p) || bool_decide (st_operation s ≠ None) then (p, [])
  else
    let action := if st_running s then Stop else Start in
    (add_task (Toggling action Controlling) (refresh (set_state (with_operation (Some action) s) p)),
     controlService action (st_port s)).

Definition maxChecks : nat := 30.

(** [doCheck], on the reply of a quick check. *)
Definition after_check (action : operation) (n : nat) (isRunning : bool) : stage + bool :=
  match action, isRunning with
  | Stop, false => inr false
  | Start, true => inl Concluding
  | _, _ => if Nat.ltb n maxChecks then inl (Waiting (S n)) else inl Concluding
  end.

(** The end of an operation: [state.running] from the last check. *)
Definition conclude (id : nat) (running : bool) (p : page) : page :=
  refresh (set_state (with_operation None (set_running running (pg_state p))) (end_task id p)).

(** The listener of the save button; a disabled button has no clicks. *)
Definition click_save (p : page) : page * list command :=
  let w := pg_widgets p in
  let newPort := parseInt (w_port w) 10 in
  let set_error e d := mkWidgets (w_icon w) (w_status w) (w_toggle_text w) (w_toggle_class w) (w_toggle_disabled w)
                         (w_checked w) (w_port w) e d (w_panel w) in
  if w_save_disabled w then (p, [])
  else if is_NaN newPort || num_ltb newPort (Fin 1024) || num_ltb (Fin 65535) newPort
  then (set_widgets (set_error true (w_save_disabled w)) p, [])
  else (add_task (SavingPort newPort) (set_widgets (set_error false true) p),
        saveConfiguration newPort (w_checked w)).

Definition set_checked (b : bool) (w : widgets) : widgets :=
  mkWidgets (w_icon w) (w_status w) (w_toggle_text w) (w_toggle_class w) (w_toggle_disabled w) b (w_port w)
    (w_port_error w) (w_save_disabled w) (w_panel w).
Definition set_port_text (t : string) (w : widgets) : widgets :=
  mkWidgets (w_icon w) (w_status w) (w_toggle_text w) (w_toggle_class w) (w_toggle_disabled w) (w_checked w) t
    (w_port_error w) (w_save_disabled w) (w_panel w).
Definition enable_save (w : widgets) : widgets :=
  mkWidgets (w_icon w) (w_status w) (w_toggle_text w) (w_toggle_class w) (w_toggle_disabled w) (w_checked w)
    (w_port w) (w_port_error w) false (w_panel w).

(** The replies to a handler: whether its command succeeded, the outcome of a
    check, or the end of the delay between two checks. *)
Inductive answer : Type :=
  | Done (ok : bool)
  | Quick (pgrep : exec_reply)
  | Full (pgrep ps : exec_reply)
  | Tick.

Definition on_answer (id : nat) (a : answer) (p : page) : page :=
  match find_task id p, a with
  | Some (Toggling action Controlling), Done ok =>
      set_task id (Toggling action (if ok then Checking 0 else Concluding)) p
  | Some (Toggling action (Checking n)), Quick r =>
      match after_check action n (check_quick r) with
      | inl s => set_task id (Toggling action s) p
      | inr running => conclude id running p
      end
  | Some (Toggling action (Waiting n)), Tick => set_task id (Toggling action (Checking n)) p
  | Some (Toggling _ Concluding), Full r1 r2 => conclude id (fst (check_full r1 r2)) p
  | Some (SavingPort newPort), Done ok =>
      let p := end_task id p in
      let p := if ok then
                 let s := pg_state p in
                 refresh (set_state (mkState (st_running s) newPort (w_checked (pg_widgets p)) (st_operation s)) p)
               else p in
      set_widgets (enable_save (pg_widgets p)) p
  | Some SavingEnabled, Done ok =>
      let p := end_task id p in
      let s := pg_state p in
      if ok then refresh (set_state (mkState (st_running s) (st_port s) (w_checked (pg_widgets p)) (st_operation s)) p)
      else set_widgets (set_checked (st_enabled s) (pg_widgets p)) p
  | _, _ => p
  end.

(** What happens to the page. *)
Inductive page_event : Type :=
  | ClickToggle
  | ClickSave
  | TypePort (t : string)
  | CheckBox (b : bool)
  | Answer (id : nat) (a : answer)
  | Poll (pgrep ps : exec_reply).

Definition on_page (e : page_event) (p : page) : page * list command :=
  match e with
  | ClickToggle => click_toggle p
  | ClickSave => click_save p
  | TypePort t => (set_widgets (set_port_text t (pg_widgets p)) p, [])
  | CheckBox b =>
      let p := set_widgets (set_checked b (pg_widgets p)) p in
      (add_task SavingEnabled p, saveConfiguration (st_port (pg_state p)) b)
  | Answer id a => (on_answer id a p, [])
  | Poll r1 r2 =>
      let running := fst (check_full r1 r2) in
      (if eqb running (st_running (pg_state p)) then p else refresh (set_state (set_running running (pg_state p)) p), [])
  end.

(** [parseInt(t)]: without a radix, hexadecimal after [0x]. *)
Definition hex_text (t : string) : bool :=
  let t := trim_start t in
  let t := match t with String "-" r | String "+" r => r | _ => t end in
  String.prefix "0x" t || String.prefix "0X" t.

Definition parseInt_any (t : string) : num := parseInt t (if hex_text t then 16 else 10).

(** [load] and [render], up to the first check. *)
Definition load_state (homebox_port homebox_enabled : option string) : state :=
  mkState false
    (match homebox_port with Some t => if str_truthy t then parseInt_any t else Fin 3300 | None => Fin 3300 end)
    (match homebox_enabled with Some t => String.eqb t "1" | None => false end) None.

Definition opened (s : state) (pgrep ps : exec_reply) : page :=
  let blank := mkWidgets false "" "" "btn cbi-button" false false (num_to_string (st_port s)) false false Empty in
  refresh (mkPage (set_running (fst (check_full pgrep ps)) s) blank [] 0).

Fixpoint page_run (es : list page_event) (p : page) : page * list command :=
  match es with
  | [] => (p, [])
  | e :: es => let '(p, out) := on_page e p in let '(p, more) := page_run es p in (p, out ++ more)
  end.
End Homebox.
