(* ===== verification/HomeboxFacts.v ===== *)
(** [view/netspeedtest/homebox.js]: the page stays coherent with its state,
    and every operation ends. *)
From stdpp Require Import base list strings.
From Stdlib Require Import ZArith Lia Ascii Bool.
From S2P Require Import Prelude JsNum JsString Luci Homebox.

Section HomeboxFacts.
Context {I : I18n} (isHttps : bool) (hostname : string).

(** ** What always holds *)

Definition port_in_range (x : num) : Prop := ∃ n, x = Fin n ∧ 1024 <= n <= 65535.

(** The widgets the state determines. *)
Definition shown (s : state) (w : widgets) : Prop :=
  w_icon w = st_running s ∧ w_status w = status_text (st_running s) ∧ w_panel w = panel_of isHttps hostname s ∧
  w_toggle_disabled w = bool_decide (st_operation s ≠ None) ∧
  match st_operation s with
  | Some Start => w_toggle_text w = tr "Starting..." ∧ st_running s = false
  | Some Stop => w_toggle_text w = tr "Stopping..." ∧ st_running s = true
  | None => w_toggle_text w = button_text (st_running s) ∧ w_toggle_class w = button_class (st_running s)
  end.

Definition is_toggling (t : task) : bool := match t with Toggling _ _ => true | _ => false end.
Definition is_saving (t : task) : bool := match t with SavingPort _ => true | _ => false end.

(** How many tasks are of a kind. *)
Definition count (f : task → bool) (l : list (nat * task)) : nat := length (List.filter (λ e, f (snd e)) l).

#[global] Arguments count : simpl never.

Definition one (b : bool) : nat := if b then 1 else 0.

Definition task_ok (t : task) : Prop :=
  match t with
  | Toggling _ (Checking n) | Toggling _ (Waiting n) => (n <= maxChecks)%nat
  | SavingPort p => port_in_range p
  | _ => True
  end.

Record page_ok (p : page) : Prop := mkPageOk {
  ok_shown : shown (pg_state p) (pg_widgets p);
  ok_port : port_in_range (st_port (pg_state p));
  ok_tasks : Forall (λ t, task_ok (snd t)) (pg_tasks p);
  ok_ids : NoDup (map fst (pg_tasks p)) ∧ Forall (λ t, (fst t < pg_fresh p)%nat) (pg_tasks p);
  ok_operation : st_operation (pg_state p) ≠ None → (0 < count is_toggling (pg_tasks p))%nat;
  ok_save : count is_saving (pg_tasks p) = one (w_save_disabled (pg_widgets p));
}.

(** [updateStatus] makes the widgets show the state. *)
Lemma update_shown s w :
  let '(s', w') := updateStatus isHttps hostname s w in
  shown s' w' ∧ st_running s' = st_running s ∧ st_port s' = st_port s ∧ st_enabled s' = st_enabled s ∧
  (st_operation s = None → st_operation s' = None) ∧ (st_operation s' ≠ None → s' = s) ∧
  w_save_disabled w' = w_save_disabled w ∧ w_checked w' = st_enabled s.
Proof.
  destruct s as [run port en op]. unfold updateStatus, reached, shown, with_operation. cbn.
  destruct op as [[]|], run; cbn; split_and!; try done; naive_solver.
Qed.

(** ** Lists of tasks *)

Lemma find_task_in id p t : find_task id p = Some t → (id, t) ∈ pg_tasks p.
Proof.
  unfold find_task. destruct (List.find _ _) as [[k u]|] eqn:E; [|done]. cbn. intros [= ->].
  apply find_some in E as [Hin Hk%Nat.eqb_eq]. cbn in Hk. subst. by apply list_elem_of_In.
Qed.

Lemma count_cons f k t l : count f ((k, t) :: l) = (one (f t) + count f l)%nat.
Proof. unfold count. cbn. by destruct (f t). Qed.

Lemma count_new f l k t : count f (l ++ [(k, t)]) = (count f l + one (f t))%nat.
Proof. unfold count. rewrite List.filter_app, length_app. cbn. by destruct (f t). Qed.

(** A task's number stands for that task alone. *)
Lemma no_other_end (l : list (nat * task)) id :
  id ∉ map fst l → List.filter (λ e, negb (Nat.eqb (fst e) id)) l = l.
Proof.
  induction l as [|[k v] l IH]; [done|]. cbn. rewrite elem_of_cons. intros Hn.
  rewrite (proj2 (Nat.eqb_neq k id)) by naive_solver. cbn. f_equal. apply IH. naive_solver.
Qed.

Lemma no_other_set (l : list (nat * task)) id u :
  id ∉ map fst l → map (λ e, if Nat.eqb (fst e) id then (id, u) else e) l = l.
Proof.
  induction l as [|[k v] l IH]; [done|]. cbn. rewrite elem_of_cons. intros Hn.
  rewrite (proj2 (Nat.eqb_neq k id)) by naive_solver. f_equal. apply IH. naive_solver.
Qed.

Lemma count_end (f : task → bool) (l : list (nat * task)) id t :
  NoDup (map fst l) → (id, t) ∈ l →
  count f l = (one (f t) + count f (List.filter (λ e, negb (Nat.eqb (fst e) id)) l))%nat.
Proof.
  intros Hnd Hin. induction l as [|[k u] l IH]; [by inversion Hin|]. cbn in Hnd |- *. apply NoDup_cons in Hnd as [Hk Hnd].
  apply elem_of_cons in Hin as [[= -> ->]|Hin].
  - rewrite Nat.eqb_refl. cbn. by rewrite count_cons, no_other_end.
  - destruct (Nat.eqb_spec k id) as [->|]; cbn; [|by rewrite !count_cons, IH by done; lia].
    exfalso. apply Hk, list_elem_of_fmap. by exists (id, t).
Qed.

Lemma count_set (f : task → bool) (l : list (nat * task)) id t u :
  NoDup (map fst l) → (id, t) ∈ l → f u = f t →
  count f (map (λ e, if Nat.eqb (fst e) id then (id, u) else e) l) = count f l.
Proof.
  intros Hnd Hin Hf. induction l as [|[k v] l IH]; [done|]. cbn in Hnd |- *. apply NoDup_cons in Hnd as [Hk Hnd].
  apply elem_of_cons in Hin as [[= -> ->]|Hin].
  - rewrite Nat.eqb_refl, !count_cons, Hf. by rewrite no_other_set.
  - destruct (Nat.eqb_spec k id) as [->|]; [|by rewrite !count_cons, IH].
    exfalso. apply Hk, list_elem_of_fmap. by exists (id, t).
Qed.

Lemma set_ids (l : list (nat * task)) id u :
  map fst (map (λ e, if Nat.eqb (fst e) id then (id, u) else e) l) = map fst l.
Proof.
  rewrite map_map. apply map_ext. intros [k v]. cbn. by destruct (Nat.eqb_spec k id) as [->|].
Qed.

Lemma filter_ids (l : list (nat * task)) f : NoDup (map fst l) → NoDup (map fst (List.filter f l)).
Proof.
  induction l as [|[k v] l IH]; cbn; [done|]. rewrite NoDup_cons. intros [Hk Hnd].
  destruct (f (k, v)); cbn; [|by apply IH]. apply NoDup_cons. split; [|by apply IH].
  intros Hin. apply Hk. apply list_elem_of_fmap in Hin as (x & -> & Hx).
  apply list_elem_of_fmap. exists x. split; [done|]. apply list_elem_of_In in Hx. apply filter_In in Hx as [Hx _].
  by apply list_elem_of_In.
Qed.

(** ** Each move keeps the page coherent *)

Lemma set_task_ok id t u p :
  page_ok p → find_task id p = Some t → task_ok u → is_toggling u = is_toggling t → is_saving u = is_saving t →
  page_ok (set_task id u p).
Proof.
  intros [Hs Hp Ht [Hn Hf] Ho Hv] Hfind Hu Htog Hsav. apply find_task_in in Hfind. split; cbn; [done|done| | | |].
  - rewrite Forall_map. eapply Forall_impl; [exact Ht|]. intros [k v]. cbn. by destruct (Nat.eqb k id).
  - rewrite set_ids. split; [done|]. rewrite Forall_map. eapply Forall_impl; [exact Hf|].
    intros [k v]. cbn. by destruct (Nat.eqb_spec k id) as [->|].
  - by rewrite (count_set is_toggling _ id t u).
  - by rewrite (count_set is_saving _ id t u).
Qed.

Lemma new_task_lists t p :
  page_ok p → task_ok t →
  Forall (λ e, task_ok (snd e)) (pg_tasks p ++ [(pg_fresh p, t)]) ∧
  NoDup (map fst (pg_tasks p ++ [(pg_fresh p, t)])) ∧
  Forall (λ e, (fst e < S (pg_fresh p))%nat) (pg_tasks p ++ [(pg_fresh p, t)]).
Proof.
  intros [_ _ Ht [Hn Hf] _ _] Hu. split_and!.
  - apply Forall_app. split; [done|]. by constructor.
  - rewrite map_app. apply NoDup_app. split; [done|]. split; [|by apply NoDup_singleton]. intros x Hx Hx'.
    apply list_elem_of_singleton in Hx' as ->. apply list_elem_of_fmap in Hx as ([k v] & Hk & Hin).
    rewrite Forall_forall in Hf. specialize (Hf _ Hin). cbn in *. lia.
  - apply Forall_app. split; [|by constructor; [cbn; lia|]]. eapply Forall_impl; [exact Hf|]. cbn. lia.
Qed.

Lemma add_task_ok t p : page_ok p → task_ok t → is_saving t = false → page_ok (add_task t p).
Proof.
  intros Hok Hu Hsav. destruct (new_task_lists t p Hok Hu) as (Ht & Hn & Hf). destruct Hok as [Hs Hp _ _ Ho Hv].
  split; cbn; try done.
  - intros H. rewrite count_new. specialize (Ho H). lia.
  - rewrite count_new, Hv, Hsav. cbn. lia.
Qed.

(** A page whose tasks are in order becomes coherent by [updateStatus]. *)
Lemma refresh_ok p :
  port_in_range (st_port (pg_state p)) → Forall (λ t, task_ok (snd t)) (pg_tasks p) →
  NoDup (map fst (pg_tasks p)) ∧ Forall (λ t, (fst t < pg_fresh p)%nat) (pg_tasks p) →
  (st_operation (pg_state p) ≠ None → (0 < count is_toggling (pg_tasks p))%nat) →
  count is_saving (pg_tasks p) = one (w_save_disabled (pg_widgets p)) →
  page_ok (refresh isHttps hostname p).
Proof.
  intros Hp Ht Hi Ho Hv. unfold refresh. pose proof (update_shown (pg_state p) (pg_widgets p)) as H.
  destruct (updateStatus _ _ _ _) as [s w]. destruct H as (Hsh & _ & Hport & _ & _ & Hop & Hsave & _).
  split; cbn; [done|by rewrite Hport|done|done| |by rewrite Hsave].
  intros Hn. apply Ho. by rewrite <- (Hop Hn).
Qed.

Lemma end_tasks_ok id p :
  page_ok p → Forall (λ t, task_ok (snd t)) (pg_tasks (end_task id p)) ∧
  NoDup (map fst (pg_tasks (end_task id p))) ∧ Forall (λ t, (fst t < pg_fresh (end_task id p))%nat) (pg_tasks (end_task id p)).
Proof.
  intros [_ _ Ht [Hn Hf] _ _]. cbn. rewrite !Forall_forall in *. split_and!.
  - intros t Hin%list_elem_of_In. apply filter_In in Hin as [Hin%list_elem_of_In _]. by apply Ht.
  - by apply filter_ids.
  - intros t Hin%list_elem_of_In. apply filter_In in Hin as [Hin%list_elem_of_In _]. by apply Hf.
Qed.

Lemma conclude_ok id a s running p :
  page_ok p → find_task id p = Some (Toggling a s) → page_ok (conclude isHttps hostname id running p).
Proof.
  intros Hok Hfind. destruct (end_tasks_ok id p Hok) as (Ht & Hn & Hf). apply refresh_ok; cbn in *.
  - apply (ok_port p Hok).
  - done.
  - done.
  - done.
  - rewrite <- (ok_save p Hok). symmetry.
    by apply (count_end is_saving) with (t := Toggling a s); [apply (ok_ids p Hok)|apply find_task_in].
Qed.

Lemma set_running_ok running p : page_ok p → page_ok (refresh isHttps hostname (set_state (set_running running (pg_state p)) p)).
Proof. intros [Hs Hp Ht Hi Ho Hv]. by apply refresh_ok. Qed.

Lemma click_toggle_ok p : page_ok p → page_ok (fst (click_toggle isHttps hostname p)).
Proof.
  intros Hok. unfold click_toggle. destruct (w_toggle_disabled _ || _); [done|]. cbn [fst].
  set (a := if st_running (pg_state p) then Stop else Start).
  destruct (new_task_lists (Toggling a Controlling) p Hok Logic.I) as (Ht & Hn & Hf).
  assert (page_ok (refresh isHttps hostname (add_task (Toggling a Controlling)
            (set_state (with_operation (Some a) (pg_state p)) p)))) as H.
  { apply refresh_ok; cbn; [by destruct Hok|done|done| |].
    - intros _. rewrite count_new. cbn. lia.
    - rewrite count_new, (ok_save p Hok). cbn. lia. }
  revert H. unfold refresh, add_task, set_state. cbn [pg_state pg_widgets pg_tasks pg_fresh].
  destruct (updateStatus _ _ _ _). cbn. done.
Qed.

Lemma click_save_ok p : page_ok p → page_ok (fst (click_save p)).
Proof.
  intros Hok. unfold click_save. cbv zeta. destruct (w_save_disabled _) eqn:Hd; [done|].
  destruct (is_NaN _ || _ || _) eqn:E; [destruct Hok as [? ? ? ? ? Hv]; rewrite Hd in Hv; by split|].
  apply orb_false_iff in E as [E E3]. apply orb_false_iff in E as [E1 E2].
  assert (port_in_range (parseInt (w_port (pg_widgets p)) 10)) as Hr.
  { destruct (parseInt _ 10) as [|[]|n]; try done. exists n. cbn in E2, E3. split; [done|]. lia. }
  destruct (new_task_lists (SavingPort _) p Hok Hr) as (Ht & Hn & Hf). destruct Hok as [Hs Hp _ _ Ho Hv].
  split; cbn; try done; [intros H; rewrite count_new; specialize (Ho H); lia|].
  rewrite count_new, Hv, Hd. done.
Qed.

(** The end of the two saving handlers. *)
Lemma end_other_ok id t p :
  page_ok p → find_task id p = Some t → is_toggling t = false → is_saving t = false → page_ok (end_task id p).
Proof.
  intros Hok Hfind Htog Hsav. destruct (end_tasks_ok id p Hok) as (Ht & Hn & Hf).
  pose proof (count_end is_toggling _ id t (proj1 (ok_ids p Hok)) (find_task_in _ _ _ Hfind)) as H1.
  pose proof (count_end is_saving _ id t (proj1 (ok_ids p Hok)) (find_task_in _ _ _ Hfind)) as H2.
  rewrite Htog in H1. rewrite Hsav in H2. destruct Hok as [Hs Hp _ _ Ho Hv].
  split; try done; cbn in *; [by rewrite <- H1|by rewrite <- H2].
Qed.

Lemma enable_done_ok id ok p :
  page_ok p → find_task id p = Some SavingEnabled → page_ok (on_answer isHttps hostname id (Done ok) p).
Proof.
  intros Hok Hfind. unfold on_answer. rewrite Hfind. cbv zeta.
  pose proof (end_other_ok id SavingEnabled p Hok Hfind eq_refl eq_refl) as He. destruct ok.
  - destruct He as [Hs Hp Ht Hi Ho Hv]. by apply refresh_ok.
  - destruct He as [Hs Hp Ht Hi Ho Hv]. by split; cbn in *.
Qed.

Lemma enable_refresh p :
  let q := refresh isHttps hostname p in
  set_widgets (enable_save (pg_widgets q)) q = refresh isHttps hostname (set_widgets (enable_save (pg_widgets p)) p).
Proof.
  unfold refresh, updateStatus, set_widgets, enable_save. cbn.
  by destruct (st_operation (if reached (pg_state p) then _ else _)) as [[]|].
Qed.

Lemma save_done_ok id np ok p :
  page_ok p → find_task id p = Some (SavingPort np) → page_ok (on_answer isHttps hostname id (Done ok) p).
Proof.
  intros Hok Hfind. unfold on_answer. rewrite Hfind. cbv zeta.
  destruct (end_tasks_ok id p Hok) as (Ht & Hn & Hf).
  pose proof (count_end is_toggling _ id _ (proj1 (ok_ids p Hok)) (find_task_in _ _ _ Hfind)) as H1.
  pose proof (count_end is_saving _ id _ (proj1 (ok_ids p Hok)) (find_task_in _ _ _ Hfind)) as H2.
  pose proof (ok_tasks p Hok) as Hall. rewrite Forall_forall in Hall.
  specialize (Hall _ (find_task_in _ _ _ Hfind)). cbn in Hall, H1, H2.
  destruct Hok as [Hs Hp _ _ Ho Hv].
  assert (count is_saving (pg_tasks (end_task id p)) = 0%nat) as H0 by (unfold one in *; cbn in *; destruct (w_save_disabled _); lia).
  set (q := if ok then _ else _).
  assert (page_ok (set_widgets (enable_save (pg_widgets q)) q)) as H; [|exact H].
  destruct ok; subst q.
  - rewrite enable_refresh. apply refresh_ok; [done..| |exact H0]. intros H. specialize (Ho H). rewrite H1 in Ho. exact Ho.
  - split; [done..| |exact H0]. intros H. specialize (Ho H). rewrite H1 in Ho. exact Ho.
Qed.

Lemma answer_ok id a p : page_ok p → page_ok (on_answer isHttps hostname id a p).
Proof.
  intros Hok. unfold on_answer. destruct (find_task id p) as [[act s|np|]|] eqn:Hfind; [| | |by destruct a].
  - destruct s, a; try done.
    + eapply set_task_ok; [done|done| |done|done]. by destruct ok; cbn; [lia|].
    + destruct (after_check act n (check_quick pgrep)) as [s|running] eqn:E; [|by eapply conclude_ok].
      eapply set_task_ok; [done|done| |done|done]. unfold after_check in E. cbn.
      destruct act, (check_quick pgrep), (Nat.ltb_spec n maxChecks); naive_solver.
    + eapply set_task_ok; [done|done| |done|done].
      assert (task_ok (Toggling act (Waiting n))) as H; [|exact H].
      pose proof (ok_tasks p Hok) as Hall. rewrite Forall_forall in Hall.
      exact (Hall (id, Toggling act (Waiting n)) (find_task_in _ _ _ Hfind)).
    + by eapply conclude_ok.
  - destruct a; try done. pose proof (save_done_ok id np ok p Hok Hfind) as H.
    unfold on_answer in H. by rewrite Hfind in H.
  - destruct a; try done. pose proof (enable_done_ok id ok p Hok Hfind) as H.
    unfold on_answer in H. by rewrite Hfind in H.
Qed.

Lemma event_page_ok e p : page_ok p → page_ok (fst (on_page isHttps hostname e p)).
Proof.
  intros Hok. destruct e; cbn [on_page fst].
  - by apply click_toggle_ok.
  - by apply click_save_ok.
  - destruct Hok. by split.
  - apply add_task_ok; try done. destruct Hok. by split.
  - by apply answer_ok.
  - destruct (eqb _ _); [done|]. by apply set_running_ok.
Qed.

Lemma run_page_ok es p : page_ok p → page_ok (fst (page_run isHttps hostname es p)).
Proof.
  revert p. induction es as [|e es IH]; intros p Hok; cbn [page_run]; [done|].
  pose proof (event_page_ok e p Hok) as H. destruct (on_page isHttps hostname e p) as [p1 out].
  specialize (IH p1 H). by destruct (page_run isHttps hostname es p1).
Qed.

Lemma opened_ok s r1 r2 :
  port_in_range (st_port s) → st_operation s = None → page_ok (opened isHttps hostname s r1 r2).
Proof.
  intros Hp Ho. unfold opened. apply refresh_ok; cbn; [done|constructor|split; constructor|by rewrite Ho|done].
Qed.

(** ** An operation ends *)

(** How many replies a handler may still take. *)
Definition fuel (s : stage) : nat :=
  match s with
  | Controlling => 2 * maxChecks + 3
  | Checking n => 2 * (maxChecks - n) + 2
  | Waiting n => 2 * (maxChecks - n) + 3
  | Concluding => 1
  end.

(** The reply a stage waits for. *)
Definition awaits (s : stage) (a : answer) : Prop :=
  match s, a with
  | Controlling, Done _ | Checking _, Quick _ | Waiting _, Tick | Concluding, Full _ _ => True
  | _, _ => False
  end.

Lemma find_set_task id u t p : find_task id p = Some t → find_task id (set_task id u p) = Some u.
Proof.
  unfold find_task. cbn. induction (pg_tasks p) as [|[k v] l IH]; cbn; [done|].
  destruct (Nat.eqb k id) eqn:E; cbn; [by rewrite Nat.eqb_refl|]. rewrite E. exact IH.
Qed.

Lemma find_end_task id p : find_task id (end_task id p) = None.
Proof.
  unfold find_task. cbn. induction (pg_tasks p) as [|[k v] l IH]; cbn; [done|].
  destruct (Nat.eqb k id) eqn:E; cbn; [done|]. by rewrite E.
Qed.

Lemma refresh_find id p : find_task id (refresh isHttps hostname p) = find_task id p.
Proof. unfold refresh. by destruct (updateStatus _ _ _ _). Qed.

Lemma conclude_ends id b p :
  let q := conclude isHttps hostname id b p in
  find_task id q = None ∧ st_operation (pg_state q) = None ∧ st_running (pg_state q) = b.
Proof.
  unfold conclude. cbv zeta. rewrite refresh_find. split; [apply find_end_task|].
  unfold refresh. pose proof (update_shown (with_operation None (set_running b (pg_state p))) (pg_widgets (end_task id p))) as H.
  cbn. destruct (updateStatus _ _ _ _) as [s w]. naive_solver.
Qed.

Lemma awaited_answer id act s a p :
  page_ok p → find_task id p = Some (Toggling act s) → awaits s a →
  let q := on_answer isHttps hostname id a p in
  (∃ s', find_task id q = Some (Toggling act s') ∧ (fuel s' < fuel s)%nat) ∨
  (find_task id q = None ∧ st_operation (pg_state q) = None).
Proof.
  intros Hok Hfind Haw. unfold on_answer. rewrite Hfind.
  pose proof (ok_tasks p Hok) as Hall. rewrite Forall_forall in Hall.
  specialize (Hall _ (find_task_in _ _ _ Hfind)). cbn in Hall.
  destruct s, a; try done; cbv zeta.
  - left. eexists. split; [by eapply find_set_task|]. destruct ok; unfold fuel, maxChecks; lia.
  - destruct (after_check act n (check_quick pgrep)) as [s|running] eqn:E.
    + left. eexists. split; [by eapply find_set_task|]. unfold after_check in E.
      destruct act, (check_quick pgrep), (Nat.ltb_spec n maxChecks); simplify_eq; unfold fuel, maxChecks in *; lia.
    + right. destruct (conclude_ends id running p) as (? & ? & _). done.
  - left. eexists. split; [by eapply find_set_task|]. unfold fuel. lia.
  - right. destruct (conclude_ends id (fst (check_full pgrep ps)) p) as (? & ? & _). done.
Qed.

(** Nothing else moves a handler. *)
Lemma find_add id t u p : find_task id p = Some t → find_task id (add_task u p) = Some t.
Proof.
  unfold find_task. cbn. induction (pg_tasks p) as [|[k v] l IH]; cbn; [done|].
  by destruct (Nat.eqb k id).
Qed.

Lemma find_set_other id k u p : id ≠ k → find_task id (set_task k u p) = find_task id p.
Proof.
  intros Hn. unfold find_task. cbn. induction (pg_tasks p) as [|[j v] l IH]; cbn; [done|].
  destruct (Nat.eqb_spec j k) as [->|]; cbn; [|by destruct (Nat.eqb j id)].
  by rewrite (proj2 (Nat.eqb_neq k id)).
Qed.

Lemma find_end_other id k p : id ≠ k → find_task id (end_task k p) = find_task id p.
Proof.
  intros Hn. unfold find_task. cbn. induction (pg_tasks p) as [|[j v] l IH]; cbn; [done|].
  destruct (Nat.eqb_spec j k) as [->|]; cbn; [|by destruct (Nat.eqb j id)].
  by rewrite (proj2 (Nat.eqb_neq k id)).
Qed.

Lemma answer_other id k a p :
  id ≠ k → find_task id (on_answer isHttps hostname k a p) = find_task id p.
Proof.
  intros Hn. unfold on_answer.
  destruct (find_task k p) as [[act s|np|]|]; [destruct s| | |]; destruct a; try done; cbv zeta.
  - by apply find_set_other.
  - destruct (after_check _ _ _); [by apply find_set_other|]. unfold conclude. rewrite refresh_find. by apply find_end_other.
  - by apply find_set_other.
  - unfold conclude. rewrite refresh_find. by apply find_end_other.
  - destruct ok; [|by apply find_end_other].
    change (find_task id (refresh isHttps hostname
      (set_state (mkState (st_running (pg_state p)) np (w_checked (pg_widgets p)) (st_operation (pg_state p))) (end_task k p)))
      = find_task id p).
    rewrite refresh_find. by apply find_end_other.
  - destruct ok; [rewrite refresh_find|]; by apply find_end_other.
Qed.

Lemma other_event id t e p :
  find_task id p = Some t → (∀ a, e ≠ Answer id a) → find_task id (fst (on_page isHttps hostname e p)) = Some t.
Proof.
  intros Hf He. destruct e; cbn [on_page fst].
  - unfold click_toggle. destruct (_ || _); [done|]. cbn [fst]. apply find_add. by rewrite refresh_find.
  - unfold click_save. cbv zeta. destruct (w_save_disabled _); [done|]. destruct (_ || _); [done|].
    by apply (find_add _ _ _ (set_widgets _ p)).
  - done.
  - by apply (find_add _ _ _ (set_widgets _ p)).
  - rewrite answer_other; [done|]. intros ->. by apply (He a).
  - destruct (eqb _ _); [done|]. by rewrite refresh_find.
Qed.

(** C26: On a page opened with a stored port in range, after any clicks, edits,
    polls and replies: the status line, the toggle button and the container
    show the state, the button is disabled exactly while an operation is in
    progress, an operation in progress has a handler that will end it, the
    save button is disabled exactly while a save is under way, and the port
    stays between 1024 and 65535.  A handler ends within 63 replies: each
    reply it waits for either ends it, with the button free again, or leaves
    it strictly closer to its end, and no other event moves it. *)
Theorem homebox_coherent s r1 r2 es :
  port_in_range (st_port s) → st_operation s = None →
  let p := fst (page_run isHttps hostname es (opened isHttps hostname s r1 r2)) in
  page_ok p ∧
  ∀ id act st a, find_task id p = Some (Toggling act st) → awaits st a →
    (fuel st <= 63)%nat ∧
    (∀ e, (∀ a', e ≠ Answer id a') → find_task id (fst (on_page isHttps hostname e p)) = Some (Toggling act st)) ∧
    let q := on_answer isHttps hostname id a p in
    (∃ st', find_task id q = Some (Toggling act st') ∧ (fuel st' < fuel st)%nat) ∨
    (find_task id q = None ∧ st_operation (pg_state q) = None ∧ w_toggle_disabled (pg_widgets q) = false).
Proof.
  intros Hp Ho p. assert (page_ok p) as Hok by (by apply run_page_ok, opened_ok).
  split; [done|]. intros id act st a Hfind Haw.
  split; [destruct st; unfold fuel, maxChecks; lia|]. split; [intros e; by apply other_event|].
  destruct (awaited_answer id act st a p Hok Hfind Haw) as [H|[H1 H2]]; [by left|right].
  split; [done|]. split; [done|].
  pose proof (ok_shown _ (answer_ok id a p Hok)) as (_ & _ & _ & Hd & _). by rewrite Hd, H2.
Qed.
End HomeboxFacts.

Section HomeboxWitness.
#[local] Instance plain_i18n : I18n := Build_I18n (λ s, s) (λ s _, s).

(** A start whose third check finds the server. *)
Lemma homebox_coherent_witness :
  let up := Some (0, Some "4211") in
  let none := Some (1, None) in
  let p := fst (page_run false "router"
    [ClickToggle; Answer 0 (Done true); Answer 0 (Quick none); Answer 0 Tick; Answer 0 (Quick up)]
    (opened false "router" (load_state (Some "3300") None) none none)) in
  page_ok false "router" p ∧ find_task 0 p = Some (Toggling Start Concluding) ∧
  w_panel (pg_widgets (on_answer false "router" 0 (Full up none) p)) = Iframe "http://router:3300".
Proof.
  cbv zeta. split; [|split; vm_compute; reflexivity].
  assert (port_in_range (Fin 3300)) as Hr by (exists 3300; split; [reflexivity|lia]).
  exact (proj1 (homebox_coherent false "router" (load_state (Some "3300") None) (Some (1, None)) (Some (1, None))
    [ClickToggle; Answer 0 (Done true); Answer 0 (Quick (Some (1, None))); Answer 0 Tick;
     Answer 0 (Quick (Some (0, Some "4211")))] Hr eq_refl)).
Defined.

(** An operation that a poll saw through frees the button while its handler is
    still under way; the handler of the next operation can then be cut short
    by the end of the first. *)
Example overlapping_operations :
  let up := Some (0, Some "4211") in
  let none := Some (1, None) in
  let p := fst (page_run false "router"
    [ClickToggle; Answer 0 (Done true); Poll up none; ClickToggle; Answer 0 (Quick up); Answer 0 (Full up none)]
    (opened false "router" (load_state None None) none none)) in
  find_task 1 p = Some (Toggling Stop Controlling) ∧ st_operation (pg_state p) = None ∧
  w_toggle_disabled (pg_widgets p) = false.
Proof. vm_compute. done. Qed.
End HomeboxWitness.
