(* ===== verification/Iperf3.v ===== *)
(** [view/netspeedtest/iperf3.js] of luci-app-netspeedtest: the page that
    starts and stops the iperf3 server, as a machine over clicks, polls and
    the replies to the commands it runs.  The commands and the process check
    have the forms of the Homebox page. *)
From stdpp Require Import base list strings.
From Stdlib Require Import ZArith Lia Ascii Bool.
From S2P Require Import Prelude JsNum JsString Luci Homebox.

(** ** Commands *)

(** The commands of [checkProcess]; the second is run when the first finds
    nothing. *)
Definition pgrep_command : command := Exec "/usr/bin/pgrep" ["iperf3"].
Definition ps_command : command := Exec "/bin/ps" ["-w"; "-C"; "iperf3"; "-o"; "pid="].

(** What the reply to the first command settles, [None] where the second one is
    run; a rejection, and an output there is none of, end the check. *)
Definition pgrep_answer (r : exec_reply) : option bool :=
  match r with
  | None => Some false
  | Some (code, out) =>
      if code =? 0 then
        match trimmed_out out with
        | Some pid => if str_truthy pid then Some true else None
        | None => Some false
        end
      else None
  end.

(** What the reply to the second command says. *)
Definition ps_answer (r : exec_reply) : bool :=
  match r with
  | Some (_, out) => match trimmed_out out with Some pid => str_truthy pid | None => false end
  | None => false
  end.

(** [checkProcess] is the full check of the Homebox page with another name. *)
Lemma check_parts pgrep ps :
  match pgrep_answer pgrep with Some b => b | None => ps_answer ps end = fst (check_full pgrep ps).
Proof.
  destruct pgrep as [[code out]|]; [|done]. cbn. destruct (code =? 0).
  - destruct (trimmed_out out) as [pid|]; [|done]. destruct (str_truthy pid); [done|].
    by destruct ps as [[? out']|]; [cbn; destruct (trimmed_out out')|].
  - by destruct ps as [[? out']|]; [cbn; destruct (trimmed_out out')|].
Qed.

(** [saveConfiguration]: the whole file is written. *)
Definition iperf3_config (newPort : num) (enabled : option bool) : string :=
  "config netspeedtest 'config'" +:+ lf +:+ tab +:+ "option iperf3port '" +:+ num_to_string newPort +:+ "'" +:+ lf
  +:+ tab +:+ "option iperf3_enabled '" +:+ (if default false enabled then "1" else "0") +:+ "'" +:+ lf.

Definition write_config (newPort : num) (enabled : option bool) : command :=
  WriteFile "/etc/config/netspeedtest" (iperf3_config newPort enabled).

Definition set_autostart (enabled : option bool) : command :=
  Exec "/etc/init.d/netspeedtest" [if default false enabled then "enable" else "disable"].

Definition prepare_log : command :=
  Exec "/bin/sh" ["-c"; "mkdir -p /tmp/netspeedtest && touch " +:+ logPath +:+ " && chmod 644 " +:+ logPath].

(** [commands[action]] *)
Definition iperf3_command (action : operation) (port : num) : command :=
  Exec "/bin/sh" ["-c"; match action with
    | Start => "/usr/bin/iperf3 -s -D -p " +:+ num_to_string port +:+ " --logfile " +:+ logPath +:+ " 2>&1"
    | Stop => "/usr/bin/killall -q iperf3"
    end].

(** ** The page *)

(** [state]; the property [enabled] does not exist until something sets it,
    and nothing does. *)
Record server : Type := mkServer { sv_running : bool; sv_port : num; sv_enabled : option bool }.

(** [None] for the status before the first check. *)
Record controls : Type := mkControls {
  c_icon : option bool;
  c_status : string;
  c_toggle_text : string;
  c_toggle_class : string;
  c_toggle_disabled : bool;
  c_port : string;
  c_port_error : bool;
}.

(** What a check of the process is for: the page just opened, the end of a
    toggle, the poll. *)
Inductive purpose : Type := Opening | Toggled | Polling.

(** Handlers under way; a check waits for its first command ([Scanning]) or for
    its second ([Listing]). *)
Inductive job : Type :=
  | Preparing (port : num)
  | Commanding (action : operation)
  | Pausing
  | Scanning (u : purpose)
  | Listing (u : purpose)
  | Writing (enabled : option bool)
  | Autostarting.

Record iperf3_page : Type := mkIperf3 {
  ip_server : server;
  ip_controls : controls;
  ip_ready : bool;
  ip_jobs : list (nat * job);
  ip_fresh : nat;
  ip_errors : nat;
}.

Inductive reply : Type :=
  | Done (ok : bool)
  | Elapsed
  | Answered (r : exec_reply).

Inductive iperf3_event : Type :=
  | Toggle
  | Save
  | TypePort (t : string)
  | Reply (id : nat) (r : reply)
  | Tick.

Section Iperf3.
Context {I : I18n}.

Definition iperf3_status (running : bool) : string :=
  tr "Iperf3 Server " +:+ (if running then tr "RUNNING" else tr "NOT RUNNING").

Definition toggle_text (running : bool) : string := if running then tr "Stop Server" else tr "Start Server".
Definition toggle_class (running : bool) : string :=
  "btn cbi-button cbi-button-" +:+ (if running then "reset" else "apply").

(** [updateStatus] *)
Definition show_status (s : server) (c : controls) : controls :=
  mkControls (Some (sv_running s)) (iperf3_status (sv_running s)) (toggle_text (sv_running s))
    (toggle_class (sv_running s)) (c_toggle_disabled c) (num_to_string (sv_port s)) (c_port_error c).

Definition set_disabled (b : bool) (c : controls) : controls :=
  mkControls (c_icon c) (c_status c) (c_toggle_text c) (c_toggle_class c) b (c_port c) (c_port_error c).
Definition set_error (b : bool) (c : controls) : controls :=
  mkControls (c_icon c) (c_status c) (c_toggle_text c) (c_toggle_class c) (c_toggle_disabled c) (c_port c) b.
Definition set_port (t : string) (c : controls) : controls :=
  mkControls (c_icon c) (c_status c) (c_toggle_text c) (c_toggle_class c) (c_toggle_disabled c) t (c_port_error c).

Definition with_controls (f : controls → controls) (p : iperf3_page) : iperf3_page :=
  mkIperf3 (ip_server p) (f (ip_controls p)) (ip_ready p) (ip_jobs p) (ip_fresh p) (ip_errors p).

Definition add_job (j : job) (p : iperf3_page) : iperf3_page :=
  mkIperf3 (ip_server p) (ip_controls p) (ip_ready p) (ip_jobs p ++ [(ip_fresh p, j)]) (S (ip_fresh p)) (ip_errors p).

Definition put_job (id : nat) (j : job) (p : iperf3_page) : iperf3_page :=
  mkIperf3 (ip_server p) (ip_controls p) (ip_ready p)
    (map (λ e, if Nat.eqb (fst e) id then (id, j) else e) (ip_jobs p)) (ip_fresh p) (ip_errors p).

Definition end_job (id : nat) (p : iperf3_page) : iperf3_page :=
  mkIperf3 (ip_server p) (ip_controls p) (ip_ready p) (List.filter (λ e, negb (Nat.eqb (fst e) id)) (ip_jobs p))
    (ip_fresh p) (ip_errors p).

Definition find_job (id : nat) (p : iperf3_page) : option job :=
  snd <$> List.find (λ e, Nat.eqb (fst e) id) (ip_jobs p).

(** [state.running = running; updateStatus()] *)
Definition set_server (running : bool) (p : iperf3_page) : iperf3_page :=
  let s := mkServer running (sv_port (ip_server p)) (sv_enabled (ip_server p)) in
  mkIperf3 s (show_status s (ip_controls p)) (ip_ready p) (ip_jobs p) (ip_fresh p) (ip_errors p).

Definition add_error (p : iperf3_page) : iperf3_page :=
  mkIperf3 (ip_server p) (ip_controls p) (ip_ready p) (ip_jobs p) (ip_fresh p) (S (ip_errors p)).

(** The toggle button.  Its handler returns nothing, so that [createHandlerFn],
    which enables the button again when the handler's promise settles, does so
    at once. *)
Definition click_toggle (p : iperf3_page) : iperf3_page * list command :=
  let s := ip_server p in
  if c_toggle_disabled (ip_controls p) then (p, [])
  else
    let p := with_controls (set_disabled false) p in
    if sv_running s then (add_job (Commanding Stop) p, [iperf3_command Stop (sv_port s)])
    else (add_job (Preparing (sv_port s)) p, [prepare_log]).

(** The save button. *)
Definition click_save (p : iperf3_page) : iperf3_page * list command :=
  let newPort := parseInt_any (c_port (ip_controls p)) in
  if is_NaN newPort || num_ltb newPort (Fin 1024) || num_ltb (Fin 65535) newPort
  then (with_controls (set_error true) p, [])
  else (add_job (Writing (sv_enabled (ip_server p))) (with_controls (set_error false) p),
        [write_config newPort (sv_enabled (ip_server p))]).

(** The end of a toggle whose command or check failed. *)
Definition fail_toggle (id : nat) (p : iperf3_page) : iperf3_page :=
  with_controls (set_disabled false) (add_error (end_job id p)).

(** The end of a check. *)
Definition conclude_check (u : purpose) (running : bool) (id : nat) (p : iperf3_page) : iperf3_page :=
  let p := end_job id p in
  match u with
  | Toggled => with_controls (set_disabled false) (set_server running p)
  | Opening =>
      let p := with_controls (set_disabled false) (set_server running p) in
      mkIperf3 (ip_server p) (ip_controls p) true (ip_jobs p) (ip_fresh p) (ip_errors p)
  | Polling => if eqb running (sv_running (ip_server p)) then p else set_server running p
  end.

Definition on_reply (id : nat) (r : reply) (p : iperf3_page) : iperf3_page * list command :=
  match find_job id p, r with
  | Some (Preparing port), Done true => (put_job id (Commanding Start) p, [iperf3_command Start port])
  | Some (Commanding _), Done true => (put_job id Pausing p, [])
  | Some (Preparing _), Done false | Some (Commanding _), Done false => (fail_toggle id p, [])
  | Some Pausing, Elapsed => (put_job id (Scanning Toggled) p, [pgrep_command])
  | Some (Scanning u), Answered a =>
      match pgrep_answer a with
      | Some running => (conclude_check u running id p, [])
      | None => (put_job id (Listing u) p, [ps_command])
      end
  | Some (Listing u), Answered a => (conclude_check u (ps_answer a) id p, [])
  | Some (Writing enabled), Done true => (put_job id Autostarting p, [set_autostart enabled])
  | Some (Writing _), Done false | Some Autostarting, Done _ => (end_job id p, [])
  | _, _ => (p, [])
  end.

(** The poll, which the end of the first check starts. *)
Definition on_tick (p : iperf3_page) : iperf3_page * list command :=
  if ip_ready p then (add_job (Scanning Polling) p, [pgrep_command]) else (p, []).

Definition on_iperf3 (e : iperf3_event) (p : iperf3_page) : iperf3_page * list command :=
  match e with
  | Toggle => click_toggle p
  | Save => click_save p
  | TypePort t => (with_controls (set_port t) p, [])
  | Reply id r => on_reply id r p
  | Tick => on_tick p
  end.

Fixpoint iperf3_run (es : list iperf3_event) (p : iperf3_page) : iperf3_page * list command :=
  match es with
  | [] => (p, [])
  | e :: es => let '(p, out) := on_iperf3 e p in let '(p, more) := iperf3_run es p in (p, out ++ more)
  end.

(** [load] and [render]. *)
Definition loaded_port (iperf3port : option string) : num :=
  match iperf3port with Some t => if str_truthy t then parseInt_any t else Fin 5201 | None => Fin 5201 end.

Definition rendered (iperf3port : option string) : iperf3_page :=
  let port := loaded_port iperf3port in
  mkIperf3 (mkServer false port None)
    (mkControls None (tr "Checking status...") (tr "Loading...") "btn cbi-button" true (num_to_string port) false)
    false [(0%nat, Scanning Opening)] 1 0.

(** The page opened: the first check begins, then what happens. *)
Definition iperf3_session (iperf3port : option string) (es : list iperf3_event) : iperf3_page * list command :=
  let '(p, out) := iperf3_run es (rendered iperf3port) in (p, pgrep_command :: out).

(** ** What holds of the page *)

Definition valid_port (x : num) : Prop := ∃ n, x = Fin n ∧ 1024 <= n <= 65535.

(** The commands a page opened with [port] may run. *)
Definition allowed (port : num) (c : command) : Prop :=
  c = prepare_log ∨ c = iperf3_command Start port ∨ c = iperf3_command Stop port ∨
  (∃ n, valid_port n ∧ c = write_config n None) ∨ c = set_autostart None ∨
  c = pgrep_command ∨ c = ps_command.

Definition job_ok (port : num) (j : job) : Prop :=
  match j with Preparing q => q = port | Writing e => e = None | _ => True end.

Record iperf3_ok (port : num) (p : iperf3_page) : Prop := mkIperf3Ok {
  io_port : sv_port (ip_server p) = port;
  io_enabled : sv_enabled (ip_server p) = None;
  io_ready : ip_ready p = true →
    c_icon (ip_controls p) = Some (sv_running (ip_server p)) ∧
    c_status (ip_controls p) = iperf3_status (sv_running (ip_server p)) ∧
    c_toggle_text (ip_controls p) = toggle_text (sv_running (ip_server p)) ∧
    c_toggle_class (ip_controls p) = toggle_class (sv_running (ip_server p)) ∧
    c_toggle_disabled (ip_controls p) = false;
  io_jobs : Forall (λ e, job_ok port (snd e)) (ip_jobs p);
}.

Lemma find_job_in id p j : find_job id p = Some j → (id, j) ∈ ip_jobs p.
Proof.
  unfold find_job. destruct (List.find _ _) as [[k u]|] eqn:E; [|done]. intros [= ->].
  apply find_some in E as [Hin Hk]. cbn in Hk. apply Nat.eqb_eq in Hk as ->. by apply list_elem_of_In.
Qed.

Lemma controls_ok port f p :
  (ip_ready p = true → ∀ c, c_toggle_disabled c = false → c_toggle_disabled (f c) = false) →
  (∀ c, c_icon (f c) = c_icon c ∧ c_status (f c) = c_status c ∧ c_toggle_text (f c) = c_toggle_text c ∧
        c_toggle_class (f c) = c_toggle_class c) →
  iperf3_ok port p → iperf3_ok port (with_controls f p).
Proof.
  intros Hd Hf [H1 H2 H3 H4]. split; try done. cbn. intros Hr. specialize (H3 Hr).
  destruct (Hf (ip_controls p)) as (-> & -> & -> & ->). destruct H3 as (H5 & H6 & H7 & H8 & H9).
  repeat split; try done. by apply Hd.
Qed.

Lemma end_job_ok port id p : iperf3_ok port p → iperf3_ok port (end_job id p).
Proof.
  intros [H1 H2 H3 H4]. split; try done. cbn. rewrite Forall_forall in H4 |- *.
  intros e He. apply H4. apply list_elem_of_In, filter_In in He as [He _]. by apply list_elem_of_In.
Qed.

Lemma add_job_ok port j p : job_ok port j → iperf3_ok port p → iperf3_ok port (add_job j p).
Proof. intros Hj [H1 H2 H3 H4]. split; try done. cbn. apply Forall_app. split; [done|]. by apply Forall_singleton. Qed.

Lemma put_job_ok port id j p : job_ok port j → iperf3_ok port p → iperf3_ok port (put_job id j p).
Proof.
  intros Hj [H1 H2 H3 H4]. split; try done. cbn. rewrite Forall_map. eapply Forall_impl; [exact H4|].
  intros [k u] Hu. cbn. by destruct (Nat.eqb k id).
Qed.

Lemma set_server_ok port b p :
  c_toggle_disabled (ip_controls p) = false ∨ ip_ready p = false →
  iperf3_ok port p → iperf3_ok port (set_server b p).
Proof. intros Hd [H1 H2 H3 H4]. split; try done. cbn. intros Hr. by destruct Hd as [->|Hn]; [|congruence]. Qed.

Lemma toggle_enabled port p : iperf3_ok port p → c_toggle_disabled (ip_controls p) = false ∨ ip_ready p = false.
Proof. intros [_ _ H _]. destruct (ip_ready p); [left; by destruct H as (_ & _ & _ & _ & ?)|by right]. Qed.

Lemma port_checked x :
  is_NaN x || num_ltb x (Fin 1024) || num_ltb (Fin 65535) x = false → valid_port x.
Proof.
  destruct x as [|[]|n]; try done. cbn. intros [H1 H2]%orb_false_iff.
  apply Z.ltb_ge in H1, H2. exists n. split; [done|lia].
Qed.

(** One event keeps the page in order and runs only allowed commands. *)
Definition step_allowed (port : num) (r : iperf3_page * list command) : Prop :=
  iperf3_ok port (fst r) ∧ Forall (allowed port) (snd r).

Lemma quiet_step port p : iperf3_ok port p → step_allowed port (p, []).
Proof. intros H. by split. Qed.

Lemma one_command port p c : iperf3_ok port p → allowed port c → step_allowed port (p, [c]).
Proof. intros H Hc. split; [done|]. by apply Forall_singleton. Qed.

Lemma toggle_step port p : iperf3_ok port p → step_allowed port (click_toggle p).
Proof.
  intros H. pose proof (io_port _ _ H) as Hp. unfold click_toggle.
  destruct (c_toggle_disabled _); [by apply quiet_step|]. rewrite Hp.
  assert (iperf3_ok port (with_controls (set_disabled false) p)) as Hc by (by apply controls_ok).
  destruct (sv_running _); apply one_command; unfold allowed; auto; by apply add_job_ok.
Qed.

Lemma save_step port p : iperf3_ok port p → step_allowed port (click_save p).
Proof.
  intros H. unfold click_save. rewrite (io_enabled _ _ H).
  destruct (is_NaN _ || _ || _) eqn:E; [by apply quiet_step, controls_ok|].
  apply port_checked in E. apply one_command; [by apply add_job_ok, controls_ok|].
  unfold allowed. right. right. right. left. eauto.
Qed.

Lemma conclude_check_ok port u b id p : iperf3_ok port p → iperf3_ok port (conclude_check u b id p).
Proof.
  intros H%(end_job_ok port id). unfold conclude_check. destruct u.
  - destruct H as [H1 H2 H3 H4]. by split.
  - apply controls_ok; [done..|]. apply set_server_ok; [by apply (toggle_enabled port)|done].
  - destruct (eqb _ _); [done|]. by apply set_server_ok; [apply (toggle_enabled port)|].
Qed.

Lemma reply_step port id r p : iperf3_ok port p → step_allowed port (on_reply id r p).
Proof.
  intros H. unfold on_reply. destruct (find_job id p) as [j|] eqn:Ej; [|by apply quiet_step].
  assert (job_ok port j) as Hj.
  { apply find_job_in in Ej. pose proof (io_jobs _ _ H) as Hf. rewrite Forall_forall in Hf. by apply (Hf (id, j)). }
  assert (step_allowed port (fail_toggle id p, [])) as Hfail.
  { apply quiet_step, controls_ok; [done..|]. destruct (end_job_ok port id p H). by split. }
  destruct j, r as [[|]| |a]; try (by apply quiet_step); try done; cbn in Hj; subst;
    try (apply one_command; [by apply put_job_ok|]; unfold allowed; tauto);
    try (by apply quiet_step, put_job_ok); try (by apply quiet_step, end_job_ok);
    try (by apply quiet_step, conclude_check_ok).
  destruct (pgrep_answer a); [by apply quiet_step, conclude_check_ok|].
  apply one_command; [by apply put_job_ok|]. unfold allowed. tauto.
Qed.

Lemma tick_step port p : iperf3_ok port p → step_allowed port (on_tick p).
Proof.
  intros H. unfold on_tick. destruct (ip_ready p); [|by apply quiet_step].
  apply one_command; [by apply add_job_ok|]. unfold allowed. tauto.
Qed.

Lemma iperf3_step port e p : iperf3_ok port p → step_allowed port (on_iperf3 e p).
Proof.
  intros H. destruct e; cbn [on_iperf3].
  - by apply toggle_step.
  - by apply save_step.
  - by apply quiet_step, controls_ok.
  - by apply reply_step.
  - by apply tick_step.
Qed.

Lemma iperf3_run_ok port es p : iperf3_ok port p → step_allowed port (iperf3_run es p).
Proof.
  revert p. induction es as [|e es IH]; intros p H; [by apply quiet_step|]. cbn [iperf3_run].
  pose proof (iperf3_step port e p H) as Hs. destruct (on_iperf3 e p) as [p' out]. destruct Hs as [Hp Ho]. cbn in Hp, Ho.
  specialize (IH p' Hp). destruct (iperf3_run es p') as [q more]. destruct IH as [Hq Hm].
  split; [done|]. by apply Forall_app.
Qed.

(** C27: the iperf3 page, after any clicks, edits, polls and replies in any
    order: from the end of the first check on, the status line, its symbol and
    the button show the state the page holds and the button can be
    pressed; and the page never runs anything but these commands: [pgrep] and
    [ps], which look for the process when the page opens, after a toggle and at
    each poll; the preparation of the log, the start of
    the server on the port the page was loaded with (a saved port counts only
    after a reload) and its stop; the writing of a configuration whose port is
    between 1024 and 65535 with the autostart turned off, and the command that
    turns the autostart off. *)
Theorem iperf3_page_ok iperf3port es :
  let '(p, out) := iperf3_session iperf3port es in
  (ip_ready p = true →
     c_icon (ip_controls p) = Some (sv_running (ip_server p)) ∧
     c_status (ip_controls p) = iperf3_status (sv_running (ip_server p)) ∧
     c_toggle_text (ip_controls p) = toggle_text (sv_running (ip_server p)) ∧
     c_toggle_class (ip_controls p) = toggle_class (sv_running (ip_server p)) ∧
     c_toggle_disabled (ip_controls p) = false) ∧
  Forall (allowed (loaded_port iperf3port)) out.
Proof.
  pose proof (iperf3_run_ok (loaded_port iperf3port) es (rendered iperf3port)) as H. unfold iperf3_session.
  destruct (iperf3_run _ _) as [p out]. destruct H as [[_ _ Hr _] Ho].
  - split; try done. by apply Forall_singleton.
  - split; [done|]. constructor; [unfold allowed; tauto|done].
Qed.

(** The reply to a check that finds nothing, and to one that finds the server. *)
Definition nothing_found : reply := Answered (Some (1, Some "")).
Definition server_found : reply := Answered (Some (0, Some "7")).

(** The first check of a page, of a server that does not run. *)
Definition first_check : list iperf3_event := [Reply 0 nothing_found; Reply 0 nothing_found].

(** A check runs its second command when the first finds nothing, after a
    toggle and at a poll as well. *)
Lemma check_commands :
  snd (iperf3_session None (first_check ++ [Toggle; Reply 1 (Done true); Reply 1 (Done true); Reply 1 Elapsed;
                                            Reply 1 server_found; Tick; Reply 2 nothing_found]))
  = [pgrep_command; ps_command; prepare_log; iperf3_command Start (Fin 5201); pgrep_command; pgrep_command; ps_command].
Proof. reflexivity. Qed.

(** The button does not wait: two clicks start two servers. *)
Lemma two_starts :
  snd (iperf3_session None (first_check ++ [Toggle; Toggle; Reply 1 (Done true); Reply 2 (Done true)]))
  = [pgrep_command; ps_command; prepare_log; prepare_log; iperf3_command Start (Fin 5201);
     iperf3_command Start (Fin 5201)].
Proof. reflexivity. Qed.

(** A saved port is not used, and the field falls back to the old one. *)
Lemma saved_port_ignored :
  let '(p, out) := iperf3_session (Some "5300")
                     (first_check ++ [TypePort "6000"; Save; Toggle; Reply 2 (Done true); Tick; Reply 3 server_found]) in
  out = [pgrep_command; ps_command; write_config (Fin 6000) None; prepare_log; iperf3_command Start (Fin 5300);
         pgrep_command] ∧
  c_port (ip_controls p) = "5300".
Proof. by vm_compute. Qed.

(** Saving a port turns the service's autostart off. *)
Lemma save_disables :
  snd (iperf3_session None [TypePort "6000"; Save; Reply 1 (Done true)])
  = [pgrep_command; write_config (Fin 6000) None; Exec "/etc/init.d/netspeedtest" ["disable"]].
Proof. reflexivity. Qed.
End Iperf3.
