(* ===== verification/NetSpeed.v ===== *)
(** [view/netspeedtest/wanspeedtest.js] of luci-app-netspeedtest: reading the
    result file of a speed test and showing it, on the first page view and on
    every poll.  The symbols in front of some labels are written as the octets
    of their UTF-8 form. *)
From stdpp Require Import base list strings.
From Stdlib Require Import ZArith Lia Ascii Bool.
From S2P Require Import Prelude JsNum JsString JsRegExp Luci.

(** ** The result file *)

Definition Timeout : Z := 300 * 1000.
Definition ResultFile : string := "/tmp/netspeedtest_result".
Definition SpeedtestScript : string := "/usr/bin/netspeedtest.sh".

(** [res[2] ? res[2].trim().split('\n') : []] *)
Definition result_content (file : option string) : list string :=
  match file with
  | Some t => if str_truthy t then str_split lf (str_trim t) else []
  | None => []
  end.

(** [res[3] ? res[3].mtime * 1000 : 0]; the file's time in seconds, [None] for
    the empty reply that stands for a failed [stat], whose time is [NaN]. *)
Definition result_mtime (mtime : option Z) : option Z := option_map (λ t, t * 1000) mtime.

(** [detectVersions]: which programs are installed. *)
Record versions : Type := mkVersions {
  vs_ookla : bool;
  vs_python : bool;
  vs_available : bool;
}.
Definition detectVersions (ookla python : bool) : versions := mkVersions ookla python (ookla || python).

Definition isTesting (now : Z) (content : list string) (mtime : option Z) : bool :=
  match content with
  | [] => false
  | first :: _ =>
      String.eqb (str_trim first) "Testing"
      && match mtime with Some t => now - t <? Timeout | None => false end
  end.

(** The [type] and [data] of a parsed result. *)
Inductive result : Type :=
  | RNothing
  | RTesting
  | RFailed
  | RUrl (url : string)
  | RSpeed (text : string)
  | RUnknown (text : string).

Definition not_space (c : ascii) : bool := negb (is_ws c).

(** The longest run without white space here. *)
Fixpoint word_here (s : string) : string :=
  match s with
  | String c r => if not_space c then String c (word_here r) else ""
  | EmptyString => ""
  end.

(** [/https?:\/\/[^\s]+/] at the start of a text. *)
Definition url_here (s : string) : option string :=
  let scheme := if String.prefix "http://" s then Some "http://"
                else if String.prefix "https://" s then Some "https://" else None in
  match scheme with
  | None => None
  | Some p =>
      let w := word_here (str_from (str_len p) s) in
      if str_truthy w then Some (p +:+ w) else None
  end.

(** [line.match(/https?:\/\/[^\s]+/)]: the leftmost address. *)
Fixpoint first_url (s : string) : option string :=
  match url_here s with
  | Some u => Some u
  | None => match s with String _ r => first_url r | EmptyString => None end
  end.

(** [line.match(/label/i)] *)
Definition mentions (label line : string) : bool := re_test (RText_i label) line.

(** The loop over the lines for an address after [Result URL:]. *)
Fixpoint result_url (content : list string) : option string :=
  match content with
  | [] => None
  | line :: rest =>
      if mentions "Result URL:" line then
        match first_url line with Some u => Some u | None => result_url rest end
      else result_url rest
  end.

Definition is_address (line : string) : bool :=
  re_begins (RCat (RTexts ["http"; "https"]) (RText "://")) line || re_ends (RText ".png") line.

Definition parseResult (content : list string) : result :=
  match content with
  | [] => RNothing
  | first :: _ =>
      let firstLine := str_trim first in
      let all := str_join lf content in
      if String.eqb firstLine "Testing" then RTesting
      else if String.eqb firstLine "Test failed" then RFailed
      else
        match result_url content with
        | Some u => RUrl u
        | None =>
            if is_address firstLine then RUrl firstLine
            else if mentions "Download:" firstLine || mentions "Upload:" firstLine then RSpeed all
            else if existsb (mentions "Download:") content && existsb (mentions "Upload:") content then RSpeed all
            else RUnknown all
        end
  end.

(** ** Starting a test *)

(** The command line [startSpeedTest] gives to the shell, after writing
    [Testing] to the result file. *)
Definition shell_command (version : string) : string :=
  SpeedtestScript +:+ (if str_truthy version then " --version " +:+ version else "") +:+ " > /dev/null 2>&1 &".

(** [startSpeedTest]: the files written and the programs run, given whether
    the write and the first shell succeed. *)
Inductive action : Type :=
  | Write (path content : string)
  | Run (path : string) (args : list string).

Definition startSpeedTest (version : string) (written ash : bool) : list action :=
  Write ResultFile ("Testing" +:+ lf)
  :: (if written then
        Run "/bin/ash" ["-c"; shell_command version]
        :: (if ash then [] else [Run "/bin/sh" ["-c"; shell_command version]])
      else []).

(** The version the start button asks for: the selected one, or the default
    when the selection is not on the page. *)
Definition chosen_version (selected : option string) (has_ookla : bool) : string :=
  match selected with Some v => v | None => if has_ookla then "ookla" else "python" end.

(** [test_version]: its choices and its default. *)
Definition version_choices (v : versions) : list (string * string) :=
  (if vs_ookla v then [("ookla", "Ookla SpeedTest")] else [])
  ++ (if vs_python v then [("python", "Python speedtest-cli")] else []).
Definition version_default (v : versions) : option string :=
  if vs_ookla v then Some "ookla" else if vs_python v then Some "python" else None.

(** ** Showing a result *)

(** The first occurrence of a text, letter case aside, removed. *)
Fixpoint remove_first (label line : string) : string :=
  if String.prefix (str_lower label) (str_lower line) then str_drop (String.length label) line
  else match line with String c r => String c (remove_first label r) | EmptyString => "" end.

(** [img.replace('/result/c/', '/result/')]: the first occurrence. *)
Fixpoint drop_c (url : string) : string :=
  if String.prefix "/result/c/" url then "/result/" +:+ str_drop 10 url
  else match url with String c r => String c (drop_c r) | EmptyString => "" end.

(** [imageUrl] *)
Definition image_url (data : string) : string :=
  let imageUrl := if re_ends (RText ".png") data then data else data +:+ ".png" in
  if 0 <=? str_index_of imageUrl "speedtest.net/result/" then drop_c imageUrl else imageUrl.

(** The lines a result is made of; the last one of each kind counts. *)
Record speeds : Type := mkSpeeds {
  sp_download : string;
  sp_upload : string;
  sp_latency : string;
  sp_packetLoss : string;
  sp_server : string;
  sp_isp : string;
}.

Definition read_line (s : speeds) (line : string) : speeds :=
  if mentions "Download:" line then
    mkSpeeds line (sp_upload s) (sp_latency s) (sp_packetLoss s) (sp_server s) (sp_isp s)
  else if mentions "Upload:" line then
    mkSpeeds (sp_download s) line (sp_latency s) (sp_packetLoss s) (sp_server s) (sp_isp s)
  else if mentions "Latency:" line || mentions "Idle Latency:" line then
    mkSpeeds (sp_download s) (sp_upload s) line (sp_packetLoss s) (sp_server s) (sp_isp s)
  else if mentions "Packet Loss:" line then
    mkSpeeds (sp_download s) (sp_upload s) (sp_latency s) line (sp_server s) (sp_isp s)
  else if mentions "Server:" line then
    mkSpeeds (sp_download s) (sp_upload s) (sp_latency s) (sp_packetLoss s) line (sp_isp s)
  else if mentions "ISP:" line then
    mkSpeeds (sp_download s) (sp_upload s) (sp_latency s) (sp_packetLoss s) (sp_server s) line
  else s.

Definition read_speeds (text : string) : speeds :=
  fold_left read_line (str_split lf text) (mkSpeeds "" "" "" "" "" "").

Definition escapeHTML (str : string) : string :=
  replace_char "'" "&#39;" (replace_char "034" "&quot;" (replace_char ">" "&gt;" (replace_char "<" "&lt;"
    (replace_char "&" "&amp;" str)))).

Section NetSpeed.
Context {I : I18n}.

(** The markup of a row: the value's own label cut off. *)
Definition speed_row (style label value_style value : string) : string :=
  "<div style='" +:+ style +:+ "'>" +:+ "<span style='font-weight:bold'>" +:+ label +:+ "</span> "
  +:+ "<span style='" +:+ value_style +:+ "'>" +:+ value +:+ "</span>" +:+ "</div>".

Definition when (line html : string) : string := if str_truthy line then html else "".

Definition latency_value (line : string) : string :=
  str_trim (remove_first "Idle Latency:" (remove_first "Latency:" line)).

Definition speed_html (s : speeds) : string :=
  "<div style='margin-left:20px; padding:10px; background:#f5f5f5; border-radius:4px'>"
  +:+ "<strong>" +:+ tr "Test Results:" +:+ "</strong>"
  +:+ when (sp_server s) ("<div style='margin-top:5px; padding:5px; color:#666'>" +:+ str_trim (sp_server s) +:+ "</div>")
  +:+ when (sp_download s)
        (speed_row "margin-top:10px; padding:8px; background:#e8f5e8; border-radius:4px" ("⬇️ " +:+ tr "Download:")
           "color:#2e7d32; font-weight:500" (str_trim (remove_first "Download:" (sp_download s))))
  +:+ when (sp_upload s)
        (speed_row "margin-top:5px; padding:8px; background:#e3f2fd; border-radius:4px" ("⬆️ " +:+ tr "Upload:")
           "color:#1565c0; font-weight:500" (str_trim (remove_first "Upload:" (sp_upload s))))
  +:+ when (sp_latency s)
        (speed_row "margin-top:5px; padding:5px; background:#f5f5f5; border-radius:4px" ("⏱️ " +:+ tr "Latency:")
           "color:#666" (latency_value (sp_latency s)))
  +:+ when (sp_packetLoss s)
        ("<div style='margin-top:5px; padding:5px; color:#666'>" +:+ str_trim (sp_packetLoss s) +:+ "</div>")
  +:+ "</div>".

Definition testing_html : string :=
  "<span style='color:green;font-weight:bold;margin-left:20px'>"
  +:+ "<img src='/luci-static/resources/icons/loading.svg' height='17' style='vertical-align:middle; margin-right:5px'/> "
  +:+ tr "Speed testing in progress..." +:+ "</span>".

Definition nothing_html : string :=
  "<span style='color:gray;margin-left:20px'>" +:+ "<em>" +:+ tr "No test results yet." +:+ "</em>" +:+ "</span>".

Definition unknown_html (data : string) : string :=
  "<div style='margin-left:20px; padding:10px; background:#f5f5f5; border-radius:4px'>"
  +:+ "<strong>" +:+ tr "Test Results:" +:+ "</strong><br>"
  +:+ "<pre style='margin:5px 0 0 0; font-family:inherit; white-space:pre-wrap; color:#2e7d32'>"
  +:+ escapeHTML data +:+ "</pre>" +:+ "</div>".

Definition result_html (r : result) : string :=
  match r with
  | RFailed =>
      "<span style='color:red;font-weight:bold;margin-left:20px'>" +:+ "⚠️ "
      +:+ tr "Test failed. Please check log for details." +:+ "</span>"
  | RUrl data =>
      "<div style='max-width:500px; margin-left:20px'>" +:+ "<a href='" +:+ data +:+ "' target='_blank'>"
      +:+ "<img src='" +:+ data
      +:+ "' style='max-width:100%; border-radius:4px; box-shadow:0 2px 4px rgba(0,0,0,0.1)' " +:+ "</a><br>" +:+ "</div>"
  | RSpeed data => speed_html (read_speeds data)
  | RUnknown data => unknown_html data
  | RNothing | RTesting => nothing_html
  end.

(** [poll_status]: whether the start button is disabled, and the content of
    the result area. *)
Definition poll_status (now : Z) (file : option string) (mtime : option Z) : bool * string :=
  let content := result_content file in
  let is_testing := isTesting now content (result_mtime mtime) in
  (is_testing, if is_testing then testing_html else result_html (parseResult content)).

(** The result area of the first view. *)
Definition area (children : kids) : node := E "div" [("id", "speedtest_result"); ("class", "cbi-section")] children.

Definition speed_item (style label value_style value : string) : node :=
  E "div" [("style", style)]
    (Kids [E "span" [("style", "font-weight:bold")] (Html label); E "span" [("style", value_style)] (Html value)]).

Definition first_view (is_testing : bool) (r : result) : node :=
  if is_testing then
    area (Kids [E "span" [("style", "color:green;font-weight:bold;margin-left:20px")]
      (Kids [E "img" [("src", "/luci-static/resources/icons/loading.svg"); ("height", "17");
                      ("style", "vertical-align:middle; margin-right:5px")] (Kids []);
             Txt (tr "Speed testing in progress...")])])
  else
    match r with
    | RFailed =>
        area (Kids [E "span" [("style", "color:red;font-weight:bold;margin-left:20px")]
          (Kids [Txt ("⚠️ " +:+ tr "Test failed. Please check log for details.")])])
    | RUrl data =>
        area (Kids [E "div" [("style", "max-width:500px; margin-left:20px")]
          (Kids [E "a" [("href", data); ("target", "_blank")]
                   (Kids [E "img" [("src", image_url data);
                     ("style", "max-width:100%; border-radius:4px; box-shadow:0 2px 4px rgba(0,0,0,0.1)")] (Kids [])]);
                 E "br" [] (Kids []);
                 E "small" [] (Kids [E "a" [("href", data); ("target", "_blank");
                   ("style", "display:inline-block; margin-top:5px; color:#0066cc")] (Html (tr "View detailed results"))])])])
    | RSpeed data =>
        let s := read_speeds data in
        let part (line : string) (n : node) := if str_truthy line then [n] else [] in
        area (Kids [E "div" [("style", "margin-left:20px; padding:10px; background:#f5f5f5; border-radius:4px")]
          (Kids (E "strong" [] (Html (tr "Test Results:"))
             :: part (sp_download s) (speed_item "margin-top:10px; padding:8px; background:#e8f5e8; border-radius:4px"
                  ("⬇️ " +:+ tr "Download:" +:+ " ") "color:#2e7d32; font-weight:500"
                  (str_trim (remove_first "Download:" (sp_download s))))
             ++ part (sp_upload s) (speed_item "margin-top:5px; padding:8px; background:#e3f2fd; border-radius:4px"
                  ("⬆️ " +:+ tr "Upload:" +:+ " ") "color:#1565c0; font-weight:500"
                  (str_trim (remove_first "Upload:" (sp_upload s))))
             ++ part (sp_latency s) (speed_item "margin-top:5px; padding:5px; background:#f5f5f5; border-radius:4px"
                  ("⏱️ " +:+ tr "Latency:" +:+ " ") "color:#666" (latency_value (sp_latency s)))))])
    | RUnknown data =>
        area (Kids [E "div" [("style", "margin-left:20px; padding:10px; background:#f5f5f5; border-radius:4px")]
          (Kids [E "strong" [] (Html (tr "Test Results:")); E "br" [] (Kids []);
                 E "pre" [("style", "margin:5px 0 0 0; font-family:inherit; white-space:pre-wrap; color:#2e7d32")]
                   (Html (escapeHTML data))])])
    | RNothing | RTesting =>
        area (Kids [E "span" [("style", "color:gray;margin-left:20px")]
          (Kids [E "em" [] (Html (tr "No test results yet."))])])
    end.
End NetSpeed.

(** ** Facts *)

Lemma word_here_split s :
  ∃ r, s = word_here s +:+ r ∧ str_forall not_space (word_here s) = true ∧
    (r = "" ∨ ∃ c r', r = String c r' ∧ is_ws c = true).
Proof.
  induction s as [|c s (r & Hs & Hw & Hr)]; cbn [word_here]; [exists ""; by split_and!; [..|left]|].
  destruct (not_space c) eqn:E.
  - exists r. rewrite str_app_cons, <- Hs. cbn. by rewrite E.
  - exists (String c s). split_and!; [done|done|]. right. exists c, s. split; [done|].
    unfold not_space in E. by apply negb_false_iff in E.
Qed.

Lemma prefix_split p s : String.prefix p s = true → s = p +:+ str_from (str_len p) s.
Proof.
  revert s. induction p as [|c p IH]; intros s H; [done|]. destruct s as [|d s]; [done|].
  cbn [String.prefix] in H. destruct (ascii_dec c d) as [->|]; [|done].
  rewrite str_app_cons. f_equal. rewrite (IH s H) at 1. f_equal.
  unfold str_from, str_len. cbn [String.length]. by rewrite !Nat2Z.id.
Qed.

(** An address: a scheme and at least one more character, without white
    space. *)
Definition address (u : string) : Prop :=
  ∃ w, w ≠ "" ∧ str_forall not_space w = true ∧ (u = "http://" +:+ w ∨ u = "https://" +:+ w).

Lemma url_here_spec s u :
  url_here s = Some u → address u ∧ ∃ r, s = u +:+ r ∧ (r = "" ∨ ∃ c r', r = String c r' ∧ is_ws c = true).
Proof.
  unfold url_here.
  assert (∀ p, String.prefix p s = true →
    (let w := word_here (str_from (str_len p) s) in if str_truthy w then Some (p +:+ w) else None) = Some u →
    ∃ w, w ≠ "" ∧ str_forall not_space w = true ∧ u = p +:+ w ∧
      ∃ r, s = u +:+ r ∧ (r = "" ∨ ∃ c r', r = String c r' ∧ is_ws c = true)) as Hp.
  { intros p Hpre Hu. cbv zeta in Hu. destruct (word_here_split (str_from (str_len p) s)) as (r & Hs & Hw & Hr).
    destruct (str_truthy (word_here (str_from (str_len p) s))) eqn:E; [|done]. injection Hu as <-.
    exists (word_here (str_from (str_len p) s)). split_and!; [|done|done|].
    - intros H0. by rewrite H0 in E.
    - exists r. split; [|done]. rewrite str_app_assoc, <- Hs. by apply prefix_split. }
  destruct (String.prefix "http://" s) eqn:E1.
  - intros H. destruct (Hp _ E1 H) as (w & ? & ? & ? & ?). split; [|done]. exists w. auto.
  - destruct (String.prefix "https://" s) eqn:E2; [|done].
    intros H. destruct (Hp _ E2 H) as (w & ? & ? & ? & ?). split; [|done]. exists w. auto.
Qed.

Lemma first_url_spec s u :
  first_url s = Some u →
  address u ∧ ∃ a r, s = a +:+ u +:+ r ∧ (r = "" ∨ ∃ c r', r = String c r' ∧ is_ws c = true).
Proof.
  induction s as [|c s IH]; cbn [first_url]; [intros H|].
  - destruct (url_here "") as [v|] eqn:E; [|done]. by destruct (url_here_spec _ _ E) as [? (r & ? & _)].
  - destruct (url_here (String c s)) as [v|] eqn:E.
    + intros [= ->]. destruct (url_here_spec _ _ E) as [? (r & ? & ?)]. split; [done|]. by exists "", r.
    + intros H. destruct (IH H) as (? & a & r & -> & ?). split; [done|]. exists (String c a), r. done.
Qed.

Lemma result_url_in content u :
  result_url content = Some u → ∃ line, line ∈ content ∧ mentions "Result URL:" line = true ∧ first_url line = Some u.
Proof.
  induction content as [|line rest IH]; cbn [result_url]; [done|]. intros H.
  destruct (mentions "Result URL:" line) eqn:Em.
  - destruct (first_url line) as [v|] eqn:Ef.
    + injection H as ->. exists line. split; [by left|done].
    + destruct (IH H) as (l & ? & ?). exists l. split; [by right|done].
  - destruct (IH H) as (l & ? & ?). exists l. split; [by right|done].
Qed.

(** A result read as an address is one: either a line with [Result URL:]
    holds it, cut out from its scheme to the next white space or the end, or
    the whole first line, trimmed, begins with a scheme or ends in [.png]; and
    a file that announces a running or a failed test is never read as one. *)
Theorem parseResult_url content u :
  parseResult content = RUrl u →
  (∀ first rest, content = first :: rest → str_trim first ≠ "Testing" ∧ str_trim first ≠ "Test failed") ∧
  ((address u ∧ ∃ line a r, line ∈ content ∧ mentions "Result URL:" line = true ∧
      line = a +:+ u +:+ r ∧ (r = "" ∨ ∃ c r', r = String c r' ∧ is_ws c = true)) ∨
   (∃ first rest, content = first :: rest ∧ u = str_trim first ∧ is_address u = true)).
Proof.
  unfold parseResult. destruct content as [|first rest]; [done|]. cbv zeta.
  destruct (String.eqb_spec (str_trim first) "Testing") as [|H1]; [done|].
  destruct (String.eqb_spec (str_trim first) "Test failed") as [|H2]; [done|].
  intros H. split; [by intros ? ? [= <- <-]|]. destruct (result_url (first :: rest)) as [v|] eqn:Eu.
  - injection H as ->. left. destruct (result_url_in _ _ Eu) as (line & Hin & Hm & Hf).
    destruct (first_url_spec _ _ Hf) as (Ha & a & r & Hs & Hr). split; [done|]. by exists line, a, r.
  - destruct (is_address (str_trim first)) eqn:Ea; [|by repeat case_match].
    injection H as <-. right. by exists first, rest.
Qed.

Lemma parseResult_url_witness :
  parseResult ["Speedtest by Ookla"; "Result URL: https://www.speedtest.net/result/c/1 "] =
    RUrl "https://www.speedtest.net/result/c/1" ∧
  str_trim "Speedtest by Ookla" ≠ "Testing".
Proof.
  assert (parseResult ["Speedtest by Ookla"; "Result URL: https://www.speedtest.net/result/c/1 "] =
    RUrl "https://www.speedtest.net/result/c/1") as H by (vm_compute; reflexivity).
  split; [exact H|]. exact (proj1 (proj1 (parseResult_url _ _ H) _ _ eq_refl)).
Defined.

(** A test announced but not finished within five minutes is given up: the
    button is free again and the area says that there is no result. *)
Lemma stale_test `{I18n} now first rest mtime :
  str_trim first = "Testing" → Timeout <= now - mtime →
  isTesting now (first :: rest) (Some mtime) = false ∧ result_html (parseResult (first :: rest)) = nothing_html.
Proof.
  intros Hf Ht. unfold isTesting, parseResult. cbv zeta. rewrite Hf. cbn [String.eqb].
  change (String.eqb "Testing" "Testing") with true. cbn [andb]. split; [by apply Z.ltb_ge|done].
Qed.

Section Examples.
#[local] Instance netspeed_i18n : I18n := Build_I18n (λ s, s) (λ s _, s).

(** The image of the poll is the address itself, that of the first view the
    picture. *)
Example poll_shows_page :
  image_url "https://www.speedtest.net/result/c/1" = "https://www.speedtest.net/result/1.png".
Proof. vm_compute. reflexivity. Qed.

(** A quote in an address ends the attribute it is written into. *)
Example address_breaks_attribute :
  0 <=? str_index_of (snd (poll_status 0 (Some "Result URL: http://x'onclick='alert(1)") None))
    "<a href='http://x'onclick='alert(1)'" = true.
Proof. vm_compute. reflexivity. Qed.

(** [Latency:] is cut out of [Idle Latency:], whose own removal never finds
    it. *)
Example idle_latency : latency_value "Idle Latency: 5 ms" = "Idle  5 ms".
Proof. vm_compute. reflexivity. Qed.
End Examples.
