(* ===== verification/OnlineSpeed.v ===== *)
(** [view/netspeedtest/onlinespeedtest.js]: the page that embeds a speed test
    site: the list of sites, the frame, and the stored choice. *)
From stdpp Require Import base list strings.
From Stdlib Require Import ZArith Lia Ascii Bool.
From S2P Require Import Prelude JsString JsArray Luci.

Section OnlineSpeed.
Context {St : Type} {U : Uci St} {I : I18n}.

Definition default_site : string := "https://plugin.speedtest.cn/taste#/?t=1767018285493".

Definition sites : list (string * string) :=
  [(default_site, "speedtest.cn"); ("https://static.hdslb.com/", "hdslb.com"); ("https://test.ustc.edu.cn/", "ustc.edu.cn");
   ("https://www1.szu.edu.cn/nc/speedtest/", "szu.edu.cn"); ("https://10000.gd.cn/#/speed", "gd.cn");
   ("https://speed.cloudflare.com/", "cloudflare.com"); ("https://fast.com/", "Netflix fast.com");
   ("//openspeedtest.com/speedtest", "openspeedtest.com")].

(** [uci.get('netspeedtest', 'config', 'speedtest_site') || ...] *)
Definition stored_site (st : St) : string :=
  match opt_text (uci_get st "netspeedtest" "config" "speedtest_site") with
  | Some t => if str_truthy t then t else default_site
  | None => default_site
  end.

(** The page: the configuration, the variable of the script, the option the
    list shows and the source of the frame. *)
Record speed_page : Type := mkSpeedPage {
  sp_uci : St;
  sp_current : string;
  sp_selected : string;
  sp_frame : string;
}.

(** The option a list shows: the one marked as selected, or else its first. *)
Definition shown_option (current : string) : string :=
  match List.find (λ s, String.eqb current (fst s)) sites with
  | Some s => fst s
  | None => from_option fst "" (hd_error sites)
  end.

(** [render].  The test for an empty address stands after the default was
    put in. *)
Definition render_speed (st : St) : speed_page :=
  let current := stored_site st in
  let '(current, st) :=
    if negb (str_truthy current)
    then (default_site, uci_set st "netspeedtest" "config" "speedtest_site" (UStr default_site))
    else (current, st) in
  mkSpeedPage st current (shown_option current) current.

(** The [change] listener of the list. *)
Definition choose_site (url : string) (p : speed_page) : speed_page :=
  if str_truthy url then
    mkSpeedPage (uci_set (sp_uci p) "netspeedtest" "config" "speedtest_site" (UStr url)) url url url
  else mkSpeedPage (sp_uci p) (sp_current p) url (sp_frame p).

(** The list and the frame on the page. *)
Definition site_option (current : string) (s : string * string) : node :=
  E "option" (("value", fst s) :: if String.eqb current (fst s) then [("selected", "selected")] else [])
    (Html (snd s)).

Definition site_select (current : string) : node :=
  E "div" [("class", "cbi-value")]
    (Kids [E "label" [("class", "cbi-value-title"); ("for", "speedtest-site-select")]
             (Html (tr "Select speed measurement station"));
           E "div" [("class", "cbi-value-field")]
             (Kids [E "select" [("id", "speedtest-site-select"); ("class", "cbi-input-select")]
                      (Kids (map (site_option current) sites));
                    E "small" [("id", "save-status");
                               ("style", "display: block; margin-top: 5px; color: #28a745; opacity: 0; transition: opacity 0.3s;")]
                      (Kids [])])]).

Definition site_frame (current : string) : list node :=
  [E "div" [("style", "display:flex;justify-content:space-between;align-items:center;padding: 0.5rem 1rem;")]
     (Kids [E "span" [("style", "font-weight:bold;")] (Html (tr "NetSpeedtest"))]);
   E "div" [("style", "height: calc(100% - 33px);")]
     (Kids [E "iframe" [("id", "speedtest-iframe"); ("src", current);
                        ("style", "width:100%;height:100%;border:none;background: #fff")] (Kids [])])].
End OnlineSpeed.
Arguments speed_page : clear implicits.

(** ** Facts *)

Section OnlineFacts.
Context {St : Type} {U : Uci St} {UL : UciLaws U}.

Lemma stored_site_ne (st : St) : str_truthy (stored_site st) = true.
Proof. unfold stored_site. destruct (opt_text _) as [t|]; [|done]. by destruct (str_truthy t) eqn:E. Qed.

(** The page never stores a site on its own. *)
Lemma render_speed_uci (st : St) : sp_uci (render_speed st) = st ∧ sp_frame (render_speed st) = stored_site st.
Proof. unfold render_speed. by rewrite stored_site_ne. Qed.

(** The list, the frame and the variable agree, and the choice is what the
    next visit shows. *)
Definition speed_ok (p : speed_page St) : Prop :=
  sp_frame p = sp_current p ∧ sp_current p = stored_site (sp_uci p) ∧
  (sp_current p ∈ map fst sites → sp_selected p = sp_current p).

Lemma shown_listed current : current ∈ map fst sites → shown_option current = current.
Proof.
  unfold shown_option. intros Hin. destruct (List.find _ sites) as [s|] eqn:E.
  - apply find_some in E as [_ E]. symmetry. by apply String.eqb_eq.
  - apply list_elem_of_fmap in Hin as (s & -> & Hs%list_elem_of_In).
    pose proof (find_none _ _ E s Hs) as Hn. cbn in Hn. by rewrite String.eqb_refl in Hn.
Qed.

Lemma choose_stored (st : St) url :
  str_truthy url = true → "config" ∈ map sec_name (uci_view st "netspeedtest") →
  stored_site (uci_set st "netspeedtest" "config" "speedtest_site" (UStr url)) = url.
Proof.
  intros Hu Hc. unfold stored_site. rewrite get_view, set_view by (intros [= ->]; done).
  assert (∀ l n (f : section → section) s, find_section n l = Some s → (∀ s, sec_name (f s) = sec_name s) →
    find_section n (on_section n f l) = Some (f s)) as Hf.
  { intros l n f s Hs Hn. unfold find_section, on_section in *. induction l as [|x l IH]; [done|]. cbn in *.
    destruct (String.eqb (sec_name x) n) eqn:E; cbn; [rewrite Hn, E|rewrite E; by apply IH]. by injection Hs as ->. }
  destruct (find_section "config" (uci_view st "netspeedtest")) as [s|] eqn:E.
  - rewrite (Hf _ _ _ _ E) by done. unfold sec_opt, sec_put. cbn [sec_opts].
    rewrite opt_lookup_put. cbn. by rewrite !Hu.
  - exfalso. apply list_elem_of_fmap in Hc as (s & Hn & Hs%list_elem_of_In).
    pose proof (find_none _ _ E s Hs) as Hx. cbn in Hx. by rewrite <- Hn, String.eqb_refl in Hx.
Qed.

Theorem speed_page_ok (st : St) urls :
  "config" ∈ map sec_name (uci_view st "netspeedtest") → Forall (λ u, str_truthy u = true) urls →
  speed_ok (fold_left (λ p u, choose_site u p) urls (render_speed st)).
Proof.
  intros Hc Hu.
  assert (∀ p, "config" ∈ map sec_name (uci_view (sp_uci p) "netspeedtest") → speed_ok p →
    speed_ok (fold_left (λ p u, choose_site u p) urls p)) as H.
  { induction Hu as [|u urls Hu _ IH]; intros p Hp Hok; [done|]. cbn [fold_left].
    assert (UStr u ≠ UStr "") as Hne by (intros [= ->]; done).
    apply IH; unfold choose_site; rewrite Hu; cbn.
    - rewrite set_view by done. by rewrite on_section_names.
    - split_and!; [done| |done]. symmetry. by apply choose_stored. }
  apply H; [by rewrite (proj1 (render_speed_uci st))|]. unfold render_speed. rewrite stored_site_ne. cbn.
  split_and!; [done..|]. apply shown_listed.
Qed.
End OnlineFacts.

(** A stored site that is not in the list: the frame shows it and the list
    shows another. *)
Definition odd_store : mem_uci := λ _,
  [mkSection "config" "netspeedtest" [("speedtest_site", UStr "https://example.org/")]].

Example unlisted_site :
  let p := render_speed odd_store in (sp_frame p, sp_selected p) = ("https://example.org/", default_site).
Proof. reflexivity. Qed.
