(* ===== verification/LogViews.v ===== *)
(** The log pages of the small applications: [ddns-go/log.js],
    [timecontrol/log.js], [smartdns/log.js], [openlist2/logs.js] and
    [netspeedtest/logs.js]: which lines they show in which order, and what a
    refresh does to the scroll position. *)
From stdpp Require Import base list strings.
From Stdlib Require Import ZArith Lia Ascii Bool Sorted.
From S2P Require Import Prelude JsNum JsString JsArray JsRegExp Luci.

(** ** Matching at the start of a line *)

(** A piece of an expression: one character of a class, a run of white space,
    or one or two digits. *)
Inductive piece : Type :=
  | PChar (P : ascii → bool)
  | PSpaces
  | PDigits2.

Fixpoint spaces_here (s : string) : string * string :=
  match s with
  | String c r => if is_ws c then let '(w, t) := spaces_here r in (String c w, t) else ("", s)
  | EmptyString => ("", "")
  end.

(** The text a sequence of pieces matches at the start, and the rest; the
    pieces that follow a run never match what the run can take. *)
Fixpoint pieces_here (ps : list piece) (s : string) : option (string * string) :=
  match ps with
  | [] => Some ("", s)
  | PChar P :: ps =>
      match s with
      | String c r => if P c then (λ '(m, t), (String c m, t)) <$> pieces_here ps r else None
      | EmptyString => None
      end
  | PSpaces :: ps =>
      let '(w, t) := spaces_here s in
      if str_truthy w then (λ '(m, t), (w +:+ m, t)) <$> pieces_here ps t else None
  | PDigits2 :: ps =>
      match s with
      | String c r =>
          if is_digit c then
            match r with
            | String d r' =>
                if is_digit d then (λ '(m, t), (String c (String d m), t)) <$> pieces_here ps r'
                else (λ '(m, t), (String c m, t)) <$> pieces_here ps r
            | EmptyString => (λ '(m, t), (String c m, t)) <$> pieces_here ps r
            end
          else None
      | EmptyString => None
      end
  end.

Definition upper_letter (c : ascii) : bool := let n := nat_of_ascii c in Nat.leb 65 n && Nat.leb n 90.
Definition lower_letter (c : ascii) : bool := let n := nat_of_ascii c in Nat.leb 97 n && Nat.leb n 122.
Definition P_digits (n : nat) : list piece := repeat (PChar is_digit) n.
Definition P_is (c : ascii) : piece := PChar (Ascii.eqb c).
Definition P_month : list piece := [PChar upper_letter; PChar lower_letter; PChar lower_letter].

(** [\d{2}:\d{2}:\d{2}] *)
Definition P_clock : list piece := P_digits 2 ++ [P_is ":"] ++ P_digits 2 ++ [P_is ":"] ++ P_digits 2.

(** [[A-Z][a-z]{2}\s+[A-Z][a-z]{2}\s+\d{1,2}\s+\d{2}:\d{2}:\d{2}\s+\d{4}] *)
Definition syslog_stamp : list piece :=
  P_month ++ [PSpaces] ++ P_month ++ [PSpaces; PDigits2; PSpaces] ++ P_clock ++ [PSpaces] ++ P_digits 4.

(** [\d{4}\/\d{2}\/\d{2}\s+\d{2}:\d{2}:\d{2}] *)
Definition own_stamp : list piece :=
  P_digits 4 ++ [P_is "/"] ++ P_digits 2 ++ [P_is "/"] ++ P_digits 2 ++ [PSpaces] ++ P_clock.

(** [\[\d{4}-\d{2}-\d{2} \d{2}:\d{2}:\d{2}\]] *)
Definition bracket_stamp : list piece :=
  [P_is "["] ++ P_digits 4 ++ [P_is "-"] ++ P_digits 2 ++ [P_is "-"] ++ P_digits 2 ++ [P_is " "] ++ P_clock ++ [P_is "]"].

Definition includes (s part : string) : bool := 0 <=? str_index_of s part.

(** ** ddns-go *)

(** A line taken apart. *)
Record extracted : Type := mkExtracted {
  ex_timestamp : option string;
  ex_message : string;
}.

(** No carriage return, which a dot does not match. *)
Definition one_line : string → bool := char_free "013".

(** The expression for a line of the system log: what follows the first colon
    after the program's name, without the white space in front. *)
Definition after_name (line : string) : option string :=
  let rest := str_from (str_index_of line "ddns-go" + 7) line in
  let i := str_index_of rest ":" in
  if (i =? -1) || negb (one_line line) then None else Some (trim_start (str_from (i + 1) rest)).

(** The program's own stamp, white space and the message: the leftmost. *)
Fixpoint own_stamped (line : string) : option extracted :=
  match (match pieces_here own_stamp line with
         | Some (stamp, rest) =>
             let '(w, message) := spaces_here rest in
             if str_truthy w && one_line message then Some (mkExtracted (Some stamp) message) else None
         | None => None
         end) with
  | Some e => Some e
  | None => match line with String _ r => own_stamped r | EmptyString => None end
  end.

Definition extractDDNSGoMessage (line : string) : option extracted :=
  if negb (str_truthy line) || negb (includes line "ddns-go") then None
  else
    match after_name line, pieces_here syslog_stamp line with
    | Some message, Some (stamp, _) => Some (mkExtracted (Some stamp) message)
    | _, _ =>
        match own_stamped line with
        | Some e => Some e
        | None => Some (mkExtracted None line)
        end
    end.

Definition line_class (line : string) : string :=
  if includes line "err" || includes line "ERROR" || includes line "failed" then "log-line log-error"
  else if includes line "warn" || includes line "WARNING" then "log-line log-warning"
  else "log-line".

Definition formatLogLine (line : string) : option node :=
  if negb (str_truthy (str_trim line)) then None
  else
    match extractDDNSGoMessage line with
    | None => None
    | Some e =>
        Some (E "div" [("class", line_class line)]
          (match ex_timestamp e with
           | Some t =>
               if str_truthy t then
                 Kids [E "span" [("class", "log-timestamp")] (Html (t +:+ " "));
                       E "span" [("class", "log-message")] (Html (ex_message e))]
               else Html (ex_message e)
           | None => Html (ex_message e)
           end))
    end.

Section LogViews.
Context {I : I18n}.

Definition no_logs : node := E "div" [("class", "log-line")] (Html (tr "No ddns-go logs found.")).

(** The lines shown, in the order of the log. *)
Definition formatted_lines (logContent : string) : list node :=
  omap (λ l, let line := str_trim l in
    if negb (str_truthy line) || includes line "No ddns-go logs found" then None else formatLogLine line)
    (str_split lf logContent).

Definition formatLogContent (logContent : string) : node :=
  if negb (str_truthy (str_trim logContent)) then no_logs
  else match formatted_lines logContent with
       | [] => no_logs
       | l => E "div" [] (Kids (rev l))
       end.

(** What the helper's reply may be. *)
Inductive log_reply : Type :=
  | LNull
  | LText (s : string)
  | LStdout (s : string)
  | LData (s : string)
  | LOther (json : string).

Definition reply_content (r : log_reply) : string :=
  str_trim (match r with
            | LNull => ""
            | LText s | LStdout s | LData s | LOther s => s
            end).

(** ** Refreshing a log *)

(** The container: its content, the content last read, whether it is scrolled
    to its top, and the scroll position. *)
Record log_view : Type := mkLogView {
  lv_shown : node;
  lv_last : string;
  lv_top : bool;
  lv_scrollTop : Z;
}.

(** The container's heights before and after its content changes. *)
Record heights : Type := mkHeights {
  h_prev : Z;
  h_new : Z;
}.

(** The [scroll] listener. *)
Definition on_scroll_log (scrollTop : Z) (v : log_view) : log_view :=
  mkLogView (lv_shown v) (lv_last v) (scrollTop <=? 1) scrollTop.

(** [fetchLogs] of ddns-go: [None] for a rejected call, whose message is
    shown. *)
Definition fetchLogs (h : heights) (reply : log_reply + string) (v : log_view) : log_view :=
  match reply with
  | inl r =>
      let logContent := reply_content r in
      if String.eqb logContent (lv_last v) then v
      else
        mkLogView (formatLogContent logContent) logContent (lv_top v)
          (if lv_top v then lv_scrollTop v else lv_scrollTop v + (h_new h - h_prev h))
  | inr message =>
      mkLogView (E "div" [("class", "log-line log-error")]
          (Html (format (tr "Failed to read logs: %s")
             [FStr (if str_truthy message then message else "Resource not found")])))
        (lv_last v) (lv_top v) (lv_scrollTop v)
  end.

(** [clearLogs], when the helper has cleared the log: the content last read
    is forgotten and the log is fetched again. *)
Definition cleared (h : heights) (reply : log_reply + string) (v : log_view) : log_view :=
  fetchLogs h reply (mkLogView (lv_shown v) "" (lv_top v) (lv_scrollTop v)).

(** ** timecontrol *)

(** The text between the brackets of a line's time stamp. *)
Definition bracket_text (line : string) : option string :=
  match pieces_here bracket_stamp line with
  | Some (m, _) => Some (str_upto (str_len m - 2) (str_from 1 m))
  | None => None
  end.

(** [new Date(text).getTime()] and [Date.now()]. *)
Context (date_of : string → Z) (now : Z).

Definition parseLogTimestamp (logLine : string) : Z :=
  match bracket_text logLine with Some t => date_of t | None => now end.

(** [timeB - timeA] is negative. *)
Definition later_line (a b : string) : bool := parseLogTimestamp b <? parseLogTimestamp a.

Definition log_lines (logContent : string) : list string :=
  List.filter (λ l, str_truthy (str_trim l)) (str_split lf logContent).

Definition reverseLogLines (logContent : string) : string :=
  if negb (str_truthy (str_trim logContent)) then logContent
  else str_join lf (sort_by later_line (log_lines logContent)).

Definition formatted_line (l : string) : option node :=
  let line := str_trim l in
  if negb (str_truthy line) then None
  else
    Some (E "div" [("class", "log-line")]
      (match pieces_here bracket_stamp line with
       | Some (m, _) =>
           Kids [E "span" [("class", "log-timestamp"); ("title", default "" (bracket_text line))] (Html (m +:+ " "));
                 E "span" [] (Html (str_from (str_len m + 1) line))]
       | None => Kids [E "span" [] (Html line)]
       end)).

Definition formatLogLines (logContent : string) : node :=
  if negb (str_truthy (str_trim logContent)) then E "div" [("class", "log-line")] (Html (tr "Log is clean."))
  else E "div" [] (Kids (omap formatted_line (str_split lf logContent))).

(** The poll: the file's text, or the error's. *)
Definition poll_log (h : heights) (reply : string + string) (v : log_view) : log_view :=
  let clean := tr "Log is clean." in
  match reply with
  | inl text =>
      let logContent := if String.eqb (str_trim text) "" then clean else str_trim text in
      if String.eqb logContent (lv_last v) then v
      else
        let isNewContent := negb (String.eqb (lv_last v) "") && negb (String.eqb (lv_last v) clean) in
        mkLogView (formatLogLines (reverseLogLines logContent)) logContent (lv_top v)
          (if lv_top v || isNewContent then 0 else lv_scrollTop v + (h_new h - h_prev h))
  | inr err =>
      let logContent := if includes err "NotFoundError" then tr "Log file does not exist."
                        else format (tr "Unknown error: %s") [FStr err] in
      if String.eqb logContent (lv_last v) then v
      else mkLogView (formatLogLines logContent) logContent (lv_top v) (lv_scrollTop v)
  end.

(** The clear button, when the helper has cleared the log. *)
Definition clear_log (v : log_view) : log_view :=
  let logContent := tr "Log is clean." in mkLogView (formatLogLines logContent) logContent true (lv_scrollTop v).

(** ** smartdns *)

(** The poll: the output of [tail], or the error's text. *)
Definition smartdns_log (reply : string + string) : node :=
  E "pre" [("wrap", "pre")]
    (Kids [Txt (match reply with
                | inl stdout => if str_truthy (str_trim stdout) then str_trim stdout else tr "Log is clean."
                | inr err =>
                    if includes err "NotFoundError" then tr "Log file does not exist."
                    else format (tr "Unknown error: %s") [FStr err]
                end)]).

(** ** openlist2 and netspeedtest *)

Definition esc : string := String "027" "".

(** The colour marks of a level; every occurrence is removed. *)
Definition mark (code level : string) : string := esc +:+ "[" +:+ code +:+ "m" +:+ level +:+ esc +:+ "[0m".

Definition remove_all (part s : string) : string := str_join "" (str_split part s).

Definition log_text (res : string) : string :=
  remove_all (mark "31" "ERRO") (remove_all (mark "36" "INFO") (remove_all (mark "33" "WARN")
    (str_join lf (str_split lf (str_trim res))))).

(** The text area, with the position the user scrolled to. *)
Record text_view : Type := mkTextView {
  tv_value : string;
  tv_userScrolled : bool;
  tv_scrollPosition : Z;
  tv_scrollTop : Z;
}.

Definition pollLog (scrollHeight : Z) (res : string) (v : text_view) : text_view :=
  let value := if str_truthy (log_text res) then log_text res else tr "No log data." in
  mkTextView value (tv_userScrolled v) (tv_scrollPosition v)
    (if negb (tv_userScrolled v) then scrollHeight else tv_scrollPosition v).

(** The [scroll] listener, which assignments to [scrollTop] call too. *)
Definition on_scroll_text (scrollTop : Z) (v : text_view) : text_view :=
  mkTextView (tv_value v) true scrollTop scrollTop.
End LogViews.

(** ** Facts *)

Lemma filter_none {A} (f : A → bool) l : (∀ x, x ∈ l → f x = false) → List.filter f l = [].
Proof.
  induction l as [|x l IH]; intros H; [done|]. cbn. rewrite (H x) by (by left). apply IH.
  intros y Hy. apply H. by right.
Qed.

Section LogFacts.
Context {I : I18n} (date_of : string → Z) (now : Z).

Lemma later_line_spec a b :
  later_line date_of now a b = true ↔ parseLogTimestamp date_of now b < parseLogTimestamp date_of now a.
Proof. apply Z.ltb_lt. Qed.

Lemma later_line_neg a b :
  later_line date_of now a b = false ↔ parseLogTimestamp date_of now a <= parseLogTimestamp date_of now b.
Proof. apply Z.ltb_ge. Qed.

Lemma later_line_asym a b : later_line date_of now a b = true → later_line date_of now b a = false.
Proof. rewrite later_line_spec, later_line_neg. lia. Qed.

Lemma later_not_after_trans x y z :
  not_after (later_line date_of now) x y → not_after (later_line date_of now) y z →
  not_after (later_line date_of now) x z.
Proof. unfold not_after. rewrite !later_line_neg. lia. Qed.

(** Of the lines of one time, sorting keeps the order. *)
Lemma lines_stable t l :
  List.filter (λ x, parseLogTimestamp date_of now x =? t) (sort_by (later_line date_of now) l) =
  List.filter (λ x, parseLogTimestamp date_of now x =? t) l.
Proof.
  destruct (List.find (λ x, parseLogTimestamp date_of now x =? t) l) as [c|] eqn:Hf.
  - apply find_some in Hf as [_ Hc%Z.eqb_eq].
    assert (∀ x, (parseLogTimestamp date_of now x =? t) = same_class (later_line date_of now) c x) as Hcl.
    { intros x. unfold same_class. apply eq_bool_prop_intro.
      rewrite !Is_true_true, andb_true_iff, !negb_true_iff, !later_line_neg. lia. }
    rewrite !(List.filter_ext _ _ Hcl). apply sort_by_stable. intros x y.
    rewrite <- !Hcl, later_line_spec. lia.
  - pose proof (find_none _ _ Hf) as Hn. transitivity (@nil string); [|symmetry].
    + apply filter_none. intros x Hx. apply Hn, list_elem_of_In. by rewrite sort_by_perm in Hx.
    + apply filter_none. intros x Hx. by apply Hn, list_elem_of_In.
Qed.

(** The timecontrol log is shown newest first: the lines shown are the
    lines of the file that are not blank, each once, in descending order of
    their time stamps, and lines of the same time keep the order of the
    file. *)
Theorem reverseLogLines_sorted logContent :
  str_truthy (str_trim logContent) = true →
  ∃ l, reverseLogLines date_of now logContent = str_join lf l ∧
    l ≡ₚ log_lines logContent ∧
    StronglySorted (λ a b, parseLogTimestamp date_of now b <= parseLogTimestamp date_of now a) l ∧
    ∀ t, List.filter (λ x, parseLogTimestamp date_of now x =? t) l =
         List.filter (λ x, parseLogTimestamp date_of now x =? t) (log_lines logContent).
Proof.
  intros Hc. unfold reverseLogLines. rewrite Hc. cbn [negb].
  exists (sort_by (later_line date_of now) (log_lines logContent)).
  split; [done|]. split; [apply sort_by_perm|]. split; [|intros t; apply lines_stable].
  pose proof (sort_by_sorted (later_line date_of now) later_line_asym later_not_after_trans (log_lines logContent)) as H.
  induction H as [|x l Hl IH Hx]; constructor; [done|].
  eapply Forall_impl; [exact Hx|]. intros y. unfold not_after. by rewrite later_line_neg.
Qed.

(** A refresh that reads the same again changes nothing. *)
Lemma poll_log_idempotent h h' reply v :
  poll_log date_of now h' reply (poll_log date_of now h reply v) = poll_log date_of now h reply v.
Proof.
  unfold poll_log. destruct reply as [text|err].
  - set (c := if String.eqb (str_trim text) "" then _ else _).
    destruct (String.eqb_spec c (lv_last v)) as [->|]; cbn [lv_last]; by rewrite String.eqb_refl.
  - set (c := if includes err "NotFoundError" then _ else _).
    destruct (String.eqb_spec c (lv_last v)) as [->|]; cbn [lv_last]; by rewrite String.eqb_refl.
Qed.

(** After a failed read, ddns-go's page keeps showing the error while the log
    stays what it was. *)
Lemma fetch_error_sticks h h' content message v :
  lv_last v = str_trim content →
  lv_shown (fetchLogs h' (inl (LStdout content)) (fetchLogs h (inr message) v)) =
  lv_shown (fetchLogs h (inr message) v).
Proof. intros Hl. cbn. rewrite Hl. unfold reply_content. by rewrite String.eqb_refl. Qed.
End LogFacts.

(** Three lines, the middle one without a time stamp. *)
Lemma reverseLogLines_sorted_witness :
  let date_of t := parse_digits 10 0 (str_from 17 t) in
  let log := "[2024-01-01 10:00:01] a" +:+ lf +:+ "b" +:+ lf +:+ "[2024-01-01 10:00:03] c" in
  reverseLogLines date_of 2 log = "[2024-01-01 10:00:03] c" +:+ lf +:+ "b" +:+ lf +:+ "[2024-01-01 10:00:01] a" ∧
  ∃ l, reverseLogLines date_of 2 log = str_join lf l ∧ l ≡ₚ log_lines log.
Proof.
  cbv zeta. split; [vm_compute; reflexivity|].
  destruct (reverseLogLines_sorted (λ t, parse_digits 10 0 (str_from 17 t)) 2
    ("[2024-01-01 10:00:01] a" +:+ lf +:+ "b" +:+ lf +:+ "[2024-01-01 10:00:03] c") eq_refl) as (l & H1 & H2 & _).
  exists l. split; [exact H1|exact H2].
Defined.

Example syslog_line :
  extractDDNSGoMessage "Mon Jan  1 10:00:00 2024 daemon.err ddns-go[12]: 2024/01/01 10:00:00 ok" =
  Some (mkExtracted (Some "Mon Jan  1 10:00:00 2024") "2024/01/01 10:00:00 ok").
Proof. vm_compute. reflexivity. Qed.

Example own_line :
  extractDDNSGoMessage "ddns-go 2024/01/01 10:00:00 ok" = Some (mkExtracted (Some "2024/01/01 10:00:00") "ok").
Proof. vm_compute. reflexivity. Qed.
