(* ===== verification/AppForms.v ===== *)
(** The option forms of the small applications: OpenList
    ([openlist2/basic.js]), DDNS-GO ([ddns-go/config.js]), UnblockNeteaseMusic
    ([unblockneteasemusic/config.js]), time control ([timecontrol/basic.js])
    and qBittorrent ([qbittorrent.js]).  Handlers of buttons are named, not
    included; texts outside ASCII are written as the octets of their UTF-8
    form. *)
From stdpp Require Import base list strings.
From Stdlib Require Import ZArith Lia Ascii Bool.
From S2P Require Import Prelude JsNum JsString JsArray JsObject Luci Forms SmartDnsForm.

(** ** Choices of hosts *)

(** A host the network knows. *)
Record host_hint : Type := mkHostHint {
  hh_mac : string;
  hh_name : option string;
  hh_ips : list string;
}.

Section AppForms.
Context {I : I18n}.

(** OpenList: basic settings. *)
Definition ol_basic : list form_option :=
  [option_ Flag "enabled" (tr "Enabled") "" ▷ attr "tab" "basic" ▷ dflt_bool false ▷ rmempty false;
   option_ Value "port" (tr "Port") "" ▷ attr "tab" "basic" ▷ datatype "and(port,min(1))"
     ▷ dflt "5244" ▷ rmempty false;
   option_ Value "delayed_start" (tr "Delayed Start (seconds)") "" ▷ attr "tab" "basic"
     ▷ datatype "uinteger" ▷ dflt "0" ▷ rmempty false;
   option_ Flag "allow_wan" (tr "Open firewall port") "" ▷ attr "tab" "basic" ▷ rmempty false;
   option_ Value "data_dir" (tr "Data directory") "" ▷ attr "tab" "basic" ▷ dflt "/etc/openlist2";
   option_ Value "temp_dir" (tr "Cache directory") "" ▷ attr "tab" "basic" ▷ dflt "/tmp/openlist2"
     ▷ rmempty false;
   option_ Button "_newpassword" (tr "Reset Password") (tr "Generate a new random password.")
     ▷ attr "tab" "basic" ▷ attr "inputtitle" (tr "Reset Password") ▷ attr "inputstyle" "apply"
     ▷ attr "onclick" "handleResetPassword"].

(** OpenList: global settings. *)
Definition ol_global : list form_option :=
  [option_ Flag "force" (tr "Force read config") (tr
     "Setting this to true will force the program to read the configuration file, ignoring environment variables.")
     ▷ attr "tab" "global" ▷ dflt_bool true ▷ rmempty false;
   option_ Value "site_url" (tr "Site URL") (tr
     "When the web is reverse proxied to a subdirectory, this option must be filled out to ensure proper functioning of the web. Do not include \'/\' at the end of the URL")
     ▷ attr "tab" "global";
   option_ Value "cdn" (tr "CDN URL") "" ▷ attr "tab" "global" ▷ dflt "";
   option_ Value "jwt_secret" (tr "JWT Key") "" ▷ attr "tab" "global" ▷ dflt "";
   option_ Value "token_expires_in" (tr "Login Validity Period (hours)") "" ▷ attr "tab" "global"
     ▷ datatype "uinteger" ▷ dflt "48" ▷ rmempty false;
   option_ Value "max_connections" (tr "Max Connections") (tr
     "0 is unlimited, It is recommend to set a low number of concurrency (10-20) for poor performance device")
     ▷ attr "tab" "global" ▷ dflt "0" ▷ datatype "uinteger" ▷ rmempty false;
   option_ Value "max_concurrency" (tr "Max concurrency of local proxies") (tr
     "0 is unlimited, Limit the maximum concurrency of local agents. The default value is 64")
     ▷ attr "tab" "global" ▷ dflt "0" ▷ datatype "uinteger" ▷ rmempty false;
   option_ Flag "tls_insecure_skip_verify" (tr "Disable TLS Verify") "" ▷ attr "tab" "global"
     ▷ dflt_bool true ▷ rmempty false;
   option_ Value "auto_memory_limit" (tr "Auto Memory Limit (GB)") (tr
     "Automatically set memory limit based on device memory size, in GB. 0 to disable.")
     ▷ attr "tab" "global" ▷ datatype "uinteger" ▷ dflt "4" ▷ rmempty false;
   option_ Value "min_free_memory" (tr "Min Free Memory (MB)") (tr
     "Minimum free memory to keep, in MB. The program will try to free memory when below this value.")
     ▷ attr "tab" "global" ▷ datatype "uinteger" ▷ dflt "0" ▷ rmempty false;
   option_ Value "max_block_limit" (tr "Max Block Limit") (tr
     "Maximum number of blocking goroutines. 0 is unlimited.") ▷ attr "tab" "global"
     ▷ datatype "uinteger" ▷ dflt "0" ▷ rmempty false;
   option_ Value "proxy_address" (tr "Proxy Address") (tr
     "HTTP proxy address for outgoing requests, e.g. http://127.0.0.1:7890") ▷ attr "tab" "global"
     ▷ dflt ""].

(** OpenList: logs. *)
Definition ol_log : list form_option :=
  [option_ Flag "log" (tr "Enable Logs") "" ▷ attr "tab" "log" ▷ dflt "1" ▷ rmempty false;
   option_ Value "log_path" (tr "Log path") "" ▷ attr "tab" "log" ▷ dflt "/var/log/openlist2.log"
     ▷ rmempty false ▷ depends "log" "1";
   option_ Value "log_max_size" (tr "Max Size (MB)") "" ▷ attr "tab" "log" ▷ datatype "uinteger"
     ▷ dflt "10" ▷ rmempty false ▷ depends "log" "1";
   option_ Value "log_max_backups" (tr "Max backups") "" ▷ attr "tab" "log" ▷ datatype "uinteger"
     ▷ dflt "5" ▷ rmempty false ▷ depends "log" "1";
   option_ Value "log_max_age" (tr "Max age") "" ▷ attr "tab" "log" ▷ datatype "uinteger"
     ▷ dflt "28" ▷ rmempty false ▷ depends "log" "1";
   option_ Flag "log_compress" (tr "Log Compress") "" ▷ attr "tab" "log" ▷ dflt "false"
     ▷ rmempty false ▷ depends "log" "1"].

(** OpenList: database. *)
Definition ol_database : list form_option :=
  [option_ ListValue "database_type" (tr "Database Type") "" ▷ attr "tab" "database"
     ▷ dflt "sqlite3" ▷ values [("sqlite3", (tr "SQLite")); ("mysql", (tr "MySQL"));
     ("postgres", (tr "PostgreSQL"))];
   option_ Value "mysql_host" (tr "Database Host") "" ▷ attr "tab" "database"
     ▷ depends "database_type" "mysql" ▷ depends "database_type" "postgres";
   option_ Value "mysql_port" (tr "Database Port") "" ▷ attr "tab" "database" ▷ datatype "port"
     ▷ dflt "3306" ▷ depends "database_type" "mysql" ▷ depends "database_type" "postgres";
   option_ Value "mysql_username" (tr "Database Username") "" ▷ attr "tab" "database"
     ▷ depends "database_type" "mysql" ▷ depends "database_type" "postgres";
   option_ Value "mysql_password" (tr "Database Password") "" ▷ attr "tab" "database"
     ▷ depends "database_type" "mysql" ▷ depends "database_type" "postgres";
   option_ Value "mysql_database" (tr "Database Name") "" ▷ attr "tab" "database"
     ▷ depends "database_type" "mysql" ▷ depends "database_type" "postgres";
   option_ Value "mysql_table_prefix" (tr "Database Table Prefix") "" ▷ attr "tab" "database"
     ▷ dflt "x_" ▷ depends "database_type" "mysql" ▷ depends "database_type" "postgres";
   option_ Value "mysql_ssl_mode" (tr "Database SSL Mode") "" ▷ attr "tab" "database"
     ▷ depends "database_type" "mysql" ▷ depends "database_type" "postgres";
   option_ Value "mysql_dsn" (tr "Database DSN") "" ▷ attr "tab" "database"
     ▷ depends "database_type" "mysql" ▷ depends "database_type" "postgres"].

(** OpenList: protocols. *)
Definition ol_scheme : list form_option :=
  [option_ Flag "ssl" (tr "Enable SSL") "" ▷ attr "tab" "scheme" ▷ rmempty false;
   option_ Flag "force_https" (tr "Force HTTPS") "" ▷ attr "tab" "scheme" ▷ rmempty false
     ▷ depends "ssl" "1";
   option_ Value "ssl_cert" (tr "SSL cert") (tr "SSL certificate file path") ▷ attr "tab" "scheme"
     ▷ rmempty false ▷ depends "ssl" "1";
   option_ Value "ssl_key" (tr "SSL key") (tr "SSL key file path") ▷ attr "tab" "scheme"
     ▷ rmempty false ▷ depends "ssl" "1";
   option_ Flag "enable_h3" (tr "Enable HTTP/3") (tr "Enable HTTP/3 (QUIC) protocol.")
     ▷ attr "tab" "scheme" ▷ rmempty false ▷ depends "ssl" "1";
   option_ Flag "enable_h2c" (tr "Enable H2C") (tr "Enable HTTP/2 over cleartext (h2c).")
     ▷ attr "tab" "scheme" ▷ rmempty false].

(** OpenList: task threads. *)
Definition ol_tasks : list form_option :=
  [option_ Value "download_workers" (tr "Download Workers") "" ▷ attr "tab" "tasks"
     ▷ datatype "uinteger" ▷ dflt "5" ▷ rmempty false;
   option_ Value "download_max_retry" (tr "Download Max Retry") "" ▷ attr "tab" "tasks"
     ▷ datatype "uinteger" ▷ dflt "1" ▷ rmempty false;
   option_ Value "transfer_workers" (tr "Transfer Workers") "" ▷ attr "tab" "tasks"
     ▷ datatype "uinteger" ▷ dflt "5" ▷ rmempty false;
   option_ Value "transfer_max_retry" (tr "Transfer Max Retry") "" ▷ attr "tab" "tasks"
     ▷ datatype "uinteger" ▷ dflt "2" ▷ rmempty false;
   option_ Value "upload_workers" (tr "Upload Workers") "" ▷ attr "tab" "tasks"
     ▷ datatype "uinteger" ▷ dflt "5" ▷ rmempty false;
   option_ Value "upload_max_retry" (tr "Upload Max Retry") "" ▷ attr "tab" "tasks"
     ▷ datatype "uinteger" ▷ dflt "0" ▷ rmempty false;
   option_ Value "copy_workers" (tr "Copy Workers") "" ▷ attr "tab" "tasks" ▷ datatype "uinteger"
     ▷ dflt "5" ▷ rmempty false;
   option_ Value "copy_max_retry" (tr "Copy Max Retry") "" ▷ attr "tab" "tasks"
     ▷ datatype "uinteger" ▷ dflt "2" ▷ rmempty false;
   option_ Value "move_workers" (tr "Move Workers") "" ▷ attr "tab" "tasks" ▷ datatype "uinteger"
     ▷ dflt "5" ▷ rmempty false;
   option_ Value "move_max_retry" (tr "Move Max Retry") "" ▷ attr "tab" "tasks"
     ▷ datatype "uinteger" ▷ dflt "2" ▷ rmempty false;
   option_ Value "decompress_workers" (tr "Decompress Workers") "" ▷ attr "tab" "tasks"
     ▷ datatype "uinteger" ▷ dflt "5" ▷ rmempty false;
   option_ Value "decompress_max_retry" (tr "Decompress Max Retry") "" ▷ attr "tab" "tasks"
     ▷ datatype "uinteger" ▷ dflt "2" ▷ rmempty false;
   option_ Value "decompress_upload_workers" (tr "Decompress Upload Workers") ""
     ▷ attr "tab" "tasks" ▷ datatype "uinteger" ▷ dflt "5" ▷ rmempty false;
   option_ Value "decompress_upload_max_retry" (tr "Decompress Upload Max Retry") ""
     ▷ attr "tab" "tasks" ▷ datatype "uinteger" ▷ dflt "2" ▷ rmempty false;
   option_ Flag "allow_retry_canceled" (tr "Allow Retry Canceled Tasks") (tr
     "Allow retrying tasks that have been canceled.") ▷ attr "tab" "tasks" ▷ rmempty false].

(** OpenList: CORS, S3, FTP, SFTP and MCP. *)
Definition ol_access : list form_option :=
  [option_ Value "cors_allow_origins" (tr "Allow Origins") "" ▷ attr "tab" "cors" ▷ dflt "*"
     ▷ rmempty false;
   option_ Value "cors_allow_methods" (tr "Allow Methods") "" ▷ attr "tab" "cors" ▷ dflt "*"
     ▷ rmempty false;
   option_ Value "cors_allow_headers" (tr "Allow Headers") "" ▷ attr "tab" "cors" ▷ dflt "*"
     ▷ rmempty false;
   option_ Flag "s3" (tr "Enabled S3") "" ▷ attr "tab" "s3" ▷ rmempty false;
   option_ Value "s3_port" (tr "Port") "" ▷ attr "tab" "s3" ▷ datatype "and(port,min(1))"
     ▷ dflt "5246" ▷ rmempty false;
   option_ Flag "s3_ssl" (tr "Enable SSL") "" ▷ attr "tab" "s3" ▷ rmempty false;
   option_ Flag "ftp" (tr "Enabled FTP") "" ▷ attr "tab" "ftp" ▷ rmempty false;
   option_ Value "ftp_port" (tr "FTP Port") "" ▷ attr "tab" "ftp" ▷ datatype "and(port,min(1))"
     ▷ dflt "5221" ▷ rmempty false;
   option_ Value "find_pasv_port_attempts" (tr
     "Max retries on port conflict during passive transfer") "" ▷ attr "tab" "ftp"
     ▷ datatype "uinteger" ▷ dflt "50" ▷ rmempty false;
   option_ Flag "active_transfer_port_non_20" (tr "Enable non-20 port for active transfer") ""
     ▷ attr "tab" "ftp" ▷ rmempty false;
   option_ Value "idle_timeout" (tr "Client idle timeout (seconds)") "" ▷ attr "tab" "ftp"
     ▷ datatype "uinteger" ▷ dflt "900" ▷ rmempty false;
   option_ Value "connection_timeout" (tr "Connection timeout (seconds)") "" ▷ attr "tab" "ftp"
     ▷ datatype "uinteger" ▷ dflt "30" ▷ rmempty false;
   option_ Flag "disable_active_mode" (tr "Disable active transfer mode") "" ▷ attr "tab" "ftp"
     ▷ rmempty false;
   option_ Flag "default_transfer_binary" (tr "Enable binary transfer mode") "" ▷ attr "tab" "ftp"
     ▷ rmempty false;
   option_ Flag "enable_active_conn_ip_check" (tr "Client IP check in active transfer mode") ""
     ▷ attr "tab" "ftp" ▷ rmempty false;
   option_ Flag "enable_pasv_conn_ip_check" (tr "Client IP check in passive transfer mode") ""
     ▷ attr "tab" "ftp" ▷ rmempty false;
   option_ Flag "sftp" (tr "Enabled SFTP") "" ▷ attr "tab" "sftp" ▷ rmempty false;
   option_ Value "sftp_port" (tr "SFTP Port") "" ▷ attr "tab" "sftp" ▷ datatype "and(port,min(1))"
     ▷ dflt "5222" ▷ rmempty false;
   option_ Flag "mcp" (tr "Enabled MCP") (tr "Enable MCP (Model Context Protocol) server.")
     ▷ attr "tab" "mcp" ▷ rmempty false].

(** DDNS-GO. *)
Definition ddns_go_options : list form_option :=
  [option_ Flag "enabled" (tr "Enable") "" ▷ dflt_bool false ▷ rmempty false;
   option_ Value "port" (tr "Listen port") "" ▷ dflt "9876" ▷ rmempty false ▷ datatype "string"
     ▷ attr "description" (tr "Port number (1-65535)");
   option_ Value "time" (tr "Update interval (seconds)") "" ▷ dflt "300"
     ▷ datatype "range(60,86400)" ▷ attr "description" (tr "Update interval in seconds (60-86400)");
   option_ Value "ctimes" (tr "Provider comparison interval") "" ▷ dflt "5" ▷ datatype "range(1,60)"
     ▷ attr "description" (tr "Number of times to compare with service provider (1-60)");
   option_ Value "skipverify" (tr "Skip verifying certificates") "" ▷ dflt "0"
     ▷ values [("0", (tr "No")); ("1", (tr "Yes"))];
   option_ Value "dns" (tr "Specify DNS resolution server") "" ▷ values [("223.5.5.5", (tr
     "Ali DNS 223.5.5.5")); ("223.6.6.6", (tr "Ali DNS 223.6.6.6")); ("119.29.29.29", (tr
     "Tencent DNS 119.29.29.29")); ("1.1.1.1", (tr "CloudFlare DNS 1.1.1.1")); ("8.8.8.8", (tr
     "Google DNS 8.8.8.8")); ("8.8.4.4", (tr "Google DNS 8.8.4.4"))] ▷ datatype "ipaddr";
   option_ Flag "noweb" (tr "Do not start web services") "" ▷ dflt "0" ▷ rmempty false;
   option_ Value "delay" (tr "Delayed Start (seconds)") "" ▷ dflt "60";
   option_ Button "_newpassword" (tr "Reset account password") "" ▷ attr "inputtitle" (tr "Reset")
     ▷ attr "inputstyle" "apply" ▷ attr "onclick" "handleResetPassword";
   option_ Button "_update" (tr "Check Update") "" ▷ attr "inputtitle" (tr "Check")
     ▷ attr "inputstyle" "apply" ▷ attr "onclick" "handleUpdate";
   option_ DummyValue "_update_status" (tr "Current Version") "" ▷ rawhtml].

(** UnblockNeteaseMusic: sources and behaviour. *)
Definition un_sources : list form_option :=
  [option_ Flag "enable" (tr "启用服务") "" ▷ dflt_bool false ▷ rmempty false;
   option_ DynamicList "music_source" (tr "音源接口") (tr "留空以使用默认音源。") ▷ values [("bilibili", (tr
     "Bilibili 音乐")); ("bilivideo", (tr "Bilibili 音乐 (bilivideo)")); ("bodian", (tr "波点音乐"));
     ("joox", (tr "JOOX 音乐")); ("kugou", (tr "酷狗音乐")); ("kuwo", (tr "酷我音乐")); ("migu", (tr "咪咕音乐"));
     ("pyncmd", (tr "网易云音乐（pyncmd）")); ("qq", (tr "QQ 音乐")); ("youtube", (tr "Youtube 音乐"));
     ("youtubedl", (tr "Youtube 音乐（youtube-dl）")); ("ytdlp", (tr "Youtube 音乐（yt-dlp）"))];
   option_ Value "joox_cookie" (tr "JOOX Cookie") (tr "在 joox.com 获取，需要 wmid 和 session_key 值。")
     ▷ placeholder "wmid=; session_key=" ▷ attr "password" "true" ▷ rmempty false
     ▷ depends_all [("music_source", "joox"); ("!contains", "true")];
   option_ Value "migu_cookie" (tr "Migu Cookie") (tr "通过抓包手机客户端请求获取，需要 aversionid 值。")
     ▷ attr "password" "true" ▷ depends_all [("music_source", "migu"); ("!contains", "true")];
   option_ Value "qq_cookie" (tr "QQ Cookie") (tr "在 y.qq.com 获取，需要 uin 和 qm_keyst 值。")
     ▷ placeholder "uin=; qm_keyst=" ▷ attr "password" "true" ▷ rmempty false
     ▷ depends_all [("music_source", "qq"); ("!contains", "true")];
   option_ Value "youtube_key" (tr "Youtube API Key") (tr
     "API Key 申请地址：https://developers.google.com/youtube/v3/getting-started#before-you-start")
     ▷ attr "password" "true" ▷ depends_all [("music_source", "youtube"); ("!contains", "true")];
   option_ Flag "follow_source_order" (tr "顺序查询") (tr "默认为并行查询并返回第一个结果，开启后将严格按照配置音源的顺序进行查询。")
     ▷ dflt_bool false;
   option_ Flag "search_album" (tr "附加专辑名") (tr
     "在其他音源搜索歌曲时携带专辑名称（默认搜索条件 <code>歌曲名 - 歌手</code>，启用后搜索条件 <code>歌曲名 - 歌手 专辑名</code>）。")
     ▷ dflt_bool false;
   option_ Flag "enable_flac" (tr "启用无损音质") (tr "目前仅支持酷狗、酷我、咪咕、pyncmd、QQ 音源。") ▷ dflt_bool false
     ▷ depends "music_source" "" ▷ depends_all [("music_source", "kugou"); ("!contains", "true")]
     ▷ depends_all [("music_source", "kuwo"); ("!contains", "true")]
     ▷ depends_all [("music_source", "migu"); ("!contains", "true")]
     ▷ depends_all [("music_source", "pyncmd"); ("!contains", "true")]
     ▷ depends_all [("music_source", "qq"); ("!contains", "true")];
   option_ Flag "select_max_br" (tr "选取最高音质") (tr "选择所有音源中的最高码率替换音频。") ▷ dflt_bool false
     ▷ depends "enable_flac" "1";
   option_ ListValue "replace_music_source" (tr "音源替换") (tr "当源音乐音质低于指定数值时，尝试强制使用其他平台的高音质版本进行替换。")
     ▷ values [("dont_replace", (tr "不强制替换音乐音源")); ("lower_than_192kbps", (tr
     "当音质低于 192 Kbps（中）时")); ("lower_than_320kbps", (tr "当音质低于 320 Kbps（高）时"));
     ("lower_than_999kbps", (tr "当音质低于 999 Kbps（无损）时")); ("replace_all", (tr "替换所有音乐音源"))]
     ▷ dflt "dont_replace";
   option_ Flag "disable_upgrade_check" (tr "禁用更新检查") (tr "拦截网易云音乐客户端更新请求，全平台支持。") ▷ dflt_bool false;
   option_ Flag "block_ads" (tr "屏蔽广告") "启用后，可屏蔽应用内<strong>部分</strong>广告。" ▷ dflt_bool false;
   option_ ListValue "local_vip" (tr "伪装本地 VIP") (tr "设置后，可以使用去广告、个性换肤、鲸云音效等本地功能。")
     ▷ values [("", (tr "禁用")); ("cvip", (tr "CVIP")); ("svip", (tr "SVIP"))];
   option_ Flag "auto_update" (tr "启用自动更新") (tr "启用后，每天将定时自动检查最新核心版本并更新。") ▷ dflt_bool false;
   option_ ListValue "update_time" "检查更新时间" (tr "设定每天自动检查更新时间。") ▷ values hours ▷ dflt "3"
     ▷ depends "auto_update" "1"].

(** UnblockNeteaseMusic: certificate and advanced settings. *)
Definition un_advanced : list form_option :=
  [option_ Button "_download_cert" (tr "CA 根证书") (tr "Linux / iOS / MacOSX 在信任根证书后方可正常使用。")
     ▷ attr "inputstyle" "apply" ▷ attr "inputtitle" (tr "下载 ca.crt");
   option_ Flag "advanced_mode" (tr "启用进阶设置") (tr "非必要不推荐启用。") ▷ dflt_bool false;
   option_ ListValue "log_level" (tr "日志等级") ""
     ▷ values [("debug", (tr "调试")); ("info", (tr "信息（默认）")); ("silent", (tr "静默"))] ▷ dflt "info"
     ▷ depends "advanced_mode" "1";
   option_ Value "http_port" (tr "HTTP 监听端口") "" ▷ datatype "port" ▷ dflt "5200" ▷ rmempty false
     ▷ depends "hijack_ways" "dont_hijack" ▷ depends "hijack_ways" "use_ipset";
   option_ Value "https_port" (tr "HTTPS 监听端口") "" ▷ datatype "port" ▷ dflt "5201" ▷ rmempty false
     ▷ depends "hijack_ways" "dont_hijack" ▷ depends "hijack_ways" "use_ipset";
   option_ Value "endpoint_url" (tr "EndPoint") (tr "音源地址反代（包装）。") ▷ dflt "https://music.163.com"
     ▷ rmempty false ▷ depends "advanced_mode" "1";
   option_ Value "cnrelay" (tr "UNM Bridge 服务器") (tr "使用 UnblockNeteaseMusic 中继桥（bridge）以获取音源信息。")
     ▷ placeholder "http(s)://host:port" ▷ depends "advanced_mode" "1";
   option_ ListValue "hijack_ways" (tr "劫持方法") (tr
     "如果使用 Hosts 劫持，监听端口将固定为 80/443，请注意更改您的 webUI 端口。") ▷ values [("dont_hijack", (tr "不开启劫持"));
     ("use_ipset", (tr "使用 IPSet 劫持")); ("use_hosts", (tr "使用 Hosts 劫持"))] ▷ dflt "dont_hijack"
     ▷ rmempty false ▷ depends "advanced_mode" "1";
   option_ Flag "pub_access" (tr "部署到公网") (tr "默认仅放行局域网请求，如需提供公开访问请勾选此选项。") ▷ dflt_bool false
     ▷ depends "advanced_mode" "1";
   option_ Flag "strict_mode" (tr "启用严格模式") (tr
     "若将服务部署到公网，则强烈建议使用严格模式，此模式下仅放行网易云音乐所属域名的请求。<br/>注意：该模式下不能使用全局代理。") ▷ dflt_bool false
     ▷ depends "advanced_mode" "1";
   option_ Value "netease_server_ip" (tr "网易云服务器 IP") "" ▷ datatype "ipaddr"
     ▷ depends "advanced_mode" "1";
   option_ Value "proxy_server_ip" (tr "代理服务器地址") (tr "使用代理服务器获取音乐信息。")
     ▷ placeholder "http(s)://host:port" ▷ depends "advanced_mode" "1";
   option_ Value "self_issue_cert_crt" (tr "自签发证书公钥位置") ""
     ▷ values [("/usr/share/unblockneteasemusic/core/server.crt", (tr "内置公钥"));
     ("/usr/share/unblockneteasemusic/server.crt", "/usr/share/unblockneteasemusic/server.crt")]
     ▷ dflt "/usr/share/unblockneteasemusic/core/server.crt" ▷ datatype "file"
     ▷ depends "advanced_mode" "1";
   option_ Button "_upload_cert" (tr "上传公钥") "" ▷ attr "inputstyle" "action"
     ▷ attr "inputtitle" (tr "上传...")
     ▷ depends "self_issue_cert_crt" "/usr/share/unblockneteasemusic/server.crt"
     ▷ attr "upload" "server.crt" ▷ modalonly;
   option_ Value "self_issue_cert_key" (tr "自签发证书私钥位置") ""
     ▷ values [("/usr/share/unblockneteasemusic/core/server.key", (tr "内置私钥"));
     ("/usr/share/unblockneteasemusic/server.key", "/usr/share/unblockneteasemusic/server.key")]
     ▷ dflt "/usr/share/unblockneteasemusic/core/server.key" ▷ datatype "file"
     ▷ depends "advanced_mode" "1";
   option_ Button "_upload_key" (tr "上传私钥") "" ▷ attr "inputstyle" "action"
     ▷ attr "inputtitle" (tr "上传...")
     ▷ depends "self_issue_cert_key" "/usr/share/unblockneteasemusic/server.key"
     ▷ attr "upload" "server.key" ▷ modalonly].

(** UnblockNeteaseMusic: exceptions; the choices are the known hosts. *)
Definition un_acl (host_choices : list (string * string)) : list form_option :=
  [option_ Flag "enable" (tr "启用") "" ▷ dflt_bool true ▷ rmempty false;
   option_ Value "mac_addr" (tr "MAC 地址") "" ▷ datatype "macaddr" ▷ values host_choices
     ▷ rmempty false;
   option_ ListValue "filter_mode" (tr "规则") "" ▷ values [("disable_all", (tr "不代理 HTTP 和 HTTPS"));
     ("disable_http", (tr "不代理 HTTP")); ("disable_https", (tr "不代理 HTTPS"))] ▷ dflt "disable_all"
     ▷ rmempty false].

(** Time control: global settings. *)
Definition tc_global : list form_option :=
  [option_ ListValue "list_type" (tr "Control Mode") (tr
     "blacklist: Block the networking of the target address, whitelist: Only allow networking for the target address and block all other addresses.")
     ▷ attr "class" "cbiRichListValue" ▷ rmempty false ▷ values [("blacklist", (tr "Blacklist"))]
     ▷ dflt "blacklist";
   option_ ListValue "chain" (tr "Control Intensity") (tr
     "Pay attention to strong control: machines under control will not be able to connect to the software router backend!")
     ▷ attr "class" "cbiRichListValue" ▷ values [("forward", (tr "Ordinary forward control"));
     ("input", (tr "Strong input control"))] ▷ dflt "forward" ▷ rmempty false].

(** Time control: the device of a rule, the choices of the address being the
    known hosts. *)
Definition tc_device_target (host_choices : list (string * string)) : list form_option :=
  [option_ Value "comment" (tr "Comment") "" ▷ attr "optional" "true"
     ▷ placeholder (tr "Description");
   option_ Flag "enable" (tr "Enabled") "" ▷ rmempty false ▷ dflt "1";
   option_ Value "mac" (tr "IP/MAC Address") "" ▷ rmempty false ▷ values host_choices].

(** Time control: the mode of a rule. *)
Definition tc_time_mode : form_option :=
  option_ ListValue "time_mode" (tr "Time Control Mode") "" ▷ attr "class" "cbiRichListValue"
     ▷ values [("period", (tr "Time Period Control (allow in period)")); ("duration", (tr
     "Allow Duration Control (allow limited time)")); ("combined", (tr
     "Combined Control (allow in period + limit duration)"))] ▷ dflt "period" ▷ rmempty false.

(** Time control: what a mode asks for. *)
Definition tc_device_limits : list form_option :=
  [option_ Value "timestart" (tr "Allow Start Time") "" ▷ placeholder "00:00" ▷ dflt "00:00"
     ▷ depends_all [("time_mode", "period"); ("!contains", "true")]
     ▷ depends_all [("time_mode", "combined"); ("!contains", "true")];
   option_ Value "timeend" (tr "Allow End Time") "" ▷ placeholder "00:00" ▷ dflt "00:00"
     ▷ depends_all [("time_mode", "period"); ("!contains", "true")]
     ▷ depends_all [("time_mode", "combined"); ("!contains", "true")];
   option_ Value "duration" (tr "Allowed Duration (minutes)") "" ▷ placeholder "60" ▷ dflt "60"
     ▷ datatype "min(1)" ▷ depends_all [("time_mode", "duration"); ("!contains", "true")]
     ▷ depends_all [("time_mode", "combined"); ("!contains", "true")]
     ▷ attr "description" (tr "设备上线后允许上网的分钟数，超过后将被禁止上网");
   option_ ListValue "reset_cycle" (tr "Reset Cycle") "" ▷ attr "class" "cbiRichListValue"
     ▷ values [("daily", (tr "Daily Reset")); ("weekly", (tr "Weekly Reset")); ("monthly", (tr
     "Monthly Reset")); ("never", (tr "Never Reset (until manual reset)"))] ▷ dflt "daily"
     ▷ depends_all [("time_mode", "duration"); ("!contains", "true")]
     ▷ depends_all [("time_mode", "combined"); ("!contains", "true")]
     ▷ attr "description" (tr "时长重置周期");
   option_ Flag "use_duration" (tr "Enable Duration Limit in Period") "" ▷ dflt "0"
     ▷ depends_all [("time_mode", "combined"); ("!contains", "true")]
     ▷ attr "description" (tr "在允许的时间段内限制上网时长");
   option_ Value "week" (tr "Week Day (1~7)") "" ▷ values [("0", (tr "Everyday")); ("1", (tr
     "Monday")); ("2", (tr "Tuesday")); ("3", (tr "Wednesday")); ("4", (tr "Thursday")); ("5", (tr
     "Friday")); ("6", (tr "Saturday")); ("7", (tr "Sunday")); ("1,2,3,4,5", (tr "Workday"));
     ("6,7", (tr "Rest Day"))] ▷ dflt "0" ▷ rmempty false ▷ attr "description" (tr "允许上网的星期")].

(** Time control: devices. *)
Definition tc_device (host_choices : list (string * string)) : list form_option :=
  tc_device_target host_choices ++ tc_time_mode :: tc_device_limits.

(** qBittorrent. *)
Definition qb_options : list form_option :=
  [option_ Flag "enabled" (tr "Enable") "" ▷ dflt_bool false ▷ rmempty false;
   option_ Value "port" (tr "WebUI Listen port") "" ▷ datatype "port" ▷ dflt "8080" ▷ rmempty false;
   option_ Value "profile_dir" (tr "Configuration files Path") "" ▷ dflt "/etc/qbittorrent"
     ▷ rmempty false].

(** ** Known hosts as choices *)

(** Time control: the displays by key, an [ip:] and a [mac:] one for each
    address of each host. *)
Definition put_ip (h : host_hint) (o : jsobj string) (ip : string) : jsobj string :=
  let name := match hh_name h with Some n => if str_truthy n then n else tr " " | None => tr " " end in
  let o := obj_put ("mac:" +:+ hh_mac h) (format "MAC: %s (%s - %s)" [FStr (hh_mac h); FStr ip; FStr name]) o in
  obj_put ("ip:" +:+ ip) (format "IP: %s (%s - %s)" [FStr ip; FStr (hh_mac h); FStr name]) o.

Definition hostOptions (hosts : list host_hint) : jsobj string :=
  fold_left (λ o h, fold_left (put_ip h) (hh_ips h) o) hosts [].

(** [localeCompare] is the browser's: whether the first text comes before the
    second. *)
Context (locale_before : string → string → bool).

Definition display (o : jsobj string) (key : string) : string := default "" (obj_own key o).

Definition sortedKeys (o : jsobj string) : list string :=
  sort_by (λ a b, locale_before (display o a) (display o b)) (obj_names o).

(** The keys with a prefix, without it. *)
Definition choices_of (prefix : string) (o : jsobj string) : list (string * string) :=
  omap (λ key, if String.prefix prefix key then Some (str_from (str_len prefix) key, display o key) else None)
    (sortedKeys o).

Definition tc_host_choices (hosts : list host_hint) : list (string * string) :=
  choices_of "ip:" (hostOptions hosts) ++ choices_of "mac:" (hostOptions hosts).

(** UnblockNeteaseMusic: the hosts by address, with a name or a number as a
    hint. *)
Definition un_host_choices (hosts : list host_hint) : list (string * string) :=
  map (λ h, let hint := match hh_name h with
                        | Some n => if str_truthy n then Some n else head (hh_ips h)
                        | None => head (hh_ips h)
                        end in
            (hh_mac h, match hint with
                       | Some t => if str_truthy t then format "%s (%s)" [FStr (hh_mac h); FStr t] else hh_mac h
                       | None => hh_mac h
                       end)) hosts.

(** The forms, section by section. *)
Definition app_sections (tc_hosts un_hosts : list host_hint) : list (string * list form_option) :=
  [("openlist2", ol_basic ++ ol_global ++ ol_log ++ ol_database ++ ol_scheme ++ ol_tasks ++ ol_access);
   ("ddns-go", ddns_go_options);
   ("unblockneteasemusic", un_sources ++ un_advanced);
   ("acl_rule", un_acl (un_host_choices un_hosts));
   ("timecontrol", tc_global);
   ("device", tc_device (tc_host_choices tc_hosts));
   ("qbittorrent", qb_options)].

(** ** Facts *)

Lemma put_elem {A} k j (v : A) o : k ∈ obj_names (obj_put j v o) ↔ k ∈ obj_names o ∨ k = j.
Proof.
  rewrite obj_put_names. case_bool_decide; [naive_solver|].
  rewrite elem_of_app, list_elem_of_singleton. done.
Qed.

Lemma put_ips_names h ips o k :
  k ∈ obj_names (fold_left (put_ip h) ips o) ↔
  k ∈ obj_names o ∨ (∃ ip, ip ∈ ips ∧ (k = "ip:" +:+ ip ∨ k = "mac:" +:+ hh_mac h)).
Proof.
  revert o. induction ips as [|ip ips IH]; intros o; cbn [fold_left].
  - split; [by left|]. intros [|(? & Hin & _)]; [done|inversion Hin].
  - rewrite IH. unfold put_ip. rewrite !put_elem. setoid_rewrite elem_of_cons. naive_solver.
Qed.

Lemma hostOptions_names hosts k :
  k ∈ obj_names (hostOptions hosts) ↔
  ∃ h ip, h ∈ hosts ∧ ip ∈ hh_ips h ∧ (k = "ip:" +:+ ip ∨ k = "mac:" +:+ hh_mac h).
Proof.
  unfold hostOptions. enough (∀ o, k ∈ obj_names (fold_left (λ o h, fold_left (put_ip h) (hh_ips h) o) hosts o) ↔
    k ∈ obj_names o ∨ ∃ h ip, h ∈ hosts ∧ ip ∈ hh_ips h ∧ (k = "ip:" +:+ ip ∨ k = "mac:" +:+ hh_mac h)) as H.
  { rewrite H. split; [intros [Hn|]; [inversion Hn|done]|by right]. }
  induction hosts as [|h hosts IH]; intros o; cbn [fold_left].
  - split; [by left|]. intros [|(? & ? & Hin & _)]; [done|inversion Hin].
  - rewrite IH, put_ips_names. setoid_rewrite elem_of_cons. naive_solver.
Qed.

Lemma hostOptions_NoDup hosts : NoDup (obj_names (hostOptions hosts)).
Proof.
  unfold hostOptions. enough (∀ o, NoDup (obj_names o) →
    NoDup (obj_names (fold_left (λ o h, fold_left (put_ip h) (hh_ips h) o) hosts o))) as H by (apply H; constructor).
  assert (∀ h ips o, NoDup (obj_names o) → NoDup (obj_names (fold_left (put_ip h) ips o))) as H1.
  { intros h ips. induction ips as [|ip ips IH]; intros o Ho; cbn [fold_left]; [done|].
    apply IH. unfold put_ip. by apply obj_put_NoDup, obj_put_NoDup. }
  induction hosts as [|h hosts IH]; intros o Ho; cbn [fold_left]; [done|]. by apply IH, H1.
Qed.

Lemma str_from_prefix p t : str_from (str_len p) (p +:+ t) = t.
Proof.
  unfold str_from, str_len. rewrite Nat2Z.id. induction p as [|c p IH]; [done|]. rewrite str_app_cons. exact IH.
Qed.

Lemma prefix_inv p s : String.prefix p s = true → s = p +:+ str_from (str_len p) s.
Proof.
  revert s. induction p as [|c p IH]; intros s H; [done|]. destruct s as [|d s]; [done|].
  cbn [String.prefix] in H. destruct (ascii_dec c d) as [->|]; [|done].
  rewrite str_app_cons. f_equal. rewrite (IH s H) at 1. f_equal.
  unfold str_from, str_len. cbn [String.length]. by rewrite !Nat2Z.id.
Qed.

Lemma NoDup_omap {A B} (f : A → option B) (l : list A) :
  (∀ x y z, f x = Some z → f y = Some z → x = y) → NoDup l → NoDup (omap f l).
Proof.
  intros Hf. induction 1 as [|x l Hx Hl IH]; cbn; [constructor|].
  destruct (f x) as [z|] eqn:E; [|done]. constructor; [|done].
  rewrite list_elem_of_omap. intros (y & Hy & Hz). by rewrite (Hf x y z E Hz) in Hx.
Qed.

(** The keys offered under a prefix, each once. *)
Lemma choices_of_keys p o :
  NoDup (obj_names o) →
  NoDup (map fst (choices_of p o)) ∧ ∀ k, k ∈ map fst (choices_of p o) ↔ (p +:+ k) ∈ obj_names o.
Proof.
  intros Hnd.
  assert (map fst (choices_of p o) = omap (λ key, if String.prefix p key then Some (str_from (str_len p) key) else None) (sortedKeys o)) as ->.
  { unfold choices_of. induction (sortedKeys o) as [|key l IH]; [done|]. cbn.
    destruct (String.prefix p key); cbn; by rewrite IH. }
  split.
  - apply NoDup_omap.
    + intros k1 k2 k. destruct (String.prefix p k1) eqn:E1, (String.prefix p k2) eqn:E2; try done.
      intros [= H1] [= H2]. rewrite (prefix_inv _ _ E1), (prefix_inv _ _ E2). congruence.
    + unfold sortedKeys. by rewrite sort_by_perm.
  - intros k. rewrite list_elem_of_omap. unfold sortedKeys. setoid_rewrite sort_by_perm. split.
    + intros (key & Hin & Hk). destruct (String.prefix p key) eqn:E; [|done]. injection Hk as <-.
      by rewrite <- (prefix_inv _ _ E).
    + intros Hin. exists (p +:+ k). split; [done|]. by rewrite prefix_app, str_from_prefix.
Qed.

Lemma prefix_inj p a b : p +:+ a = p +:+ b → a = b.
Proof. induction p as [|c p IH]; [done|]. rewrite !str_app_cons. intros [= H]. by apply IH. Qed.

(** The options of every form are linked, and their defaults are choices but
    for [log_compress]. *)
Lemma app_sections_ok tc_hosts un_hosts :
  forallb (λ s, distinct (map fo_name (snd s)) && forallb (depends_ok (snd s)) (snd s)
    && forallb (λ o, eqb (default_ok o) (negb (String.eqb (fo_name o) "log_compress"))) (snd s))
    (app_sections tc_hosts un_hosts) = true.
Proof. vm_compute. reflexivity. Qed.

(** Whatever hosts the network knows, the forms of the five applications
    hang together: in each section option names are distinct, options depend
    only on values other options of the section can take, and every default is
    possible, that of [log_compress] excepted; and the address choices of a
    time control device are the addresses of the known hosts and the hosts
    that have one, each once. *)
Theorem app_forms_ok tc_hosts un_hosts :
  (∀ name os, (name, os) ∈ app_sections tc_hosts un_hosts →
    NoDup (map fo_name os) ∧
    ∀ o, o ∈ os → depends_ok os o = true ∧ default_ok o = negb (String.eqb (fo_name o) "log_compress")) ∧
  (let ips := choices_of "ip:" (hostOptions tc_hosts) in
   let macs := choices_of "mac:" (hostOptions tc_hosts) in
   tc_host_choices tc_hosts = ips ++ macs ∧ NoDup (map fst ips) ∧ NoDup (map fst macs) ∧
   (∀ k, k ∈ map fst ips ↔ ∃ h, h ∈ tc_hosts ∧ k ∈ hh_ips h) ∧
   (∀ k, k ∈ map fst macs ↔ ∃ h, h ∈ tc_hosts ∧ hh_mac h = k ∧ hh_ips h ≠ [])).
Proof.
  split.
  - intros name os Hin%list_elem_of_In. pose proof (app_sections_ok tc_hosts un_hosts) as H.
    rewrite forallb_forall in H. specialize (H _ Hin). cbn [snd] in H.
    apply andb_true_iff in H as [[Hn Hd]%andb_true_iff Hdef]. rewrite forallb_forall in Hd, Hdef.
    split; [by apply distinct_NoDup|]. intros o Ho%list_elem_of_In. split; [by apply Hd|by apply eqb_prop, Hdef].
  - cbv zeta. destruct (choices_of_keys "ip:" _ (hostOptions_NoDup tc_hosts)) as [Hip1 Hip2].
    destruct (choices_of_keys "mac:" _ (hostOptions_NoDup tc_hosts)) as [Hm1 Hm2].
    split_and!; [done|done|done| |]; intros k.
    + rewrite Hip2, hostOptions_names. split.
      * intros (h & ip & Hh & Hip & [H|H]); [apply prefix_inj in H as ->; by exists h|done].
      * intros (h & Hh & Hk). exists h, k. auto.
    + rewrite Hm2, hostOptions_names. split.
      * intros (h & ip & Hh & Hip & [H|H]); [done|apply prefix_inj in H as ->]. exists h. split_and!; [done|done|].
        intros Hnil. rewrite Hnil in Hip. inversion Hip.
      * intros (h & Hh & <- & Hne). destruct (hh_ips h) as [|ip ips] eqn:E; [done|]. exists h, ip.
        rewrite E. split_and!; [done|by left|by right].
Qed.
End AppForms.
