(* ===== verification/AppStatus.v ===== *)
(** Status lines of the small applications: DDNS-GO
    ([ddns-go/config.js], [ddns-go/ddns-go.js]), OpenList
    ([openlist2/basic.js]), time control ([timecontrol/basic.js]),
    UnblockNeteaseMusic ([unblockneteasemusic/config.js], [status.js]) and
    qBittorrent ([qbittorrent.js]).  Symbols and texts outside ASCII are written as
    the octets of their UTF-8 form. *)
From stdpp Require Import base list strings.
From Stdlib Require Import ZArith Lia Ascii Bool.
From S2P Require Import Prelude JsNum JsString JsRegExp Luci Homebox NetSpeed LogViews.

Section AppStatus.
Context {I : I18n}.

(** ** DDNS-GO *)

(** [checkProcess]: the first command's failure, or its output missing, is
    ignored; the second one's ends the check. *)
Definition ddns_checkProcess (pidof ps : exec_reply) : bool * option string :=
  let from_ps :=
    match ps with
    | Some (_, out) =>
        match trimmed_out out with
        | Some pid => (str_truthy pid, if str_truthy pid then Some pid else None)
        | None => (false, None)
        end
    | None => (false, None)
    end in
  match pidof with
  | Some (code, out) =>
      if code =? 0 then match trimmed_out out with Some pid => (true, Some pid) | None => from_ps end
      else from_ps
  | None => from_ps
  end.

Definition extractPortNumber (portValue : string) : string :=
  if negb (str_truthy portValue) then "9876"
  else if includes portValue ":" then default "" (last (str_split ":" portValue))
  else portValue.

Definition running_text (isRunning : bool) : string := if isRunning then tr "RUNNING" else tr "NOT RUNNING".
Definition running_color (isRunning : bool) : string := if isRunning then "green" else "red".
Definition running_icon (isRunning : bool) : string := if isRunning then "✓" else "✗".

Definition ddns_renderStatus (hostname : string) (isRunning : bool) (listen_port version : string) : string :=
  let versionText := if str_truthy version then "v" +:+ version else "" in
  format ("<em><span style=" +:+ dq +:+ "color:%s" +:+ dq +:+ ">%s <strong>%s %s - %s</strong></span></em>")
    [FStr (running_color isRunning); FStr (running_icon isRunning); FStr (tr "DDNS-Go"); FStr versionText;
     FStr (running_text isRunning)]
  +:+ (if isRunning then
         format ("&#160;<a class=" +:+ dq +:+ "btn cbi-button" +:+ dq +:+ " href=" +:+ dq +:+ "http://%s:%s" +:+ dq
                 +:+ " target=" +:+ dq +:+ "_blank" +:+ dq +:+ ">%s</a>")
           [FStr hostname; FStr listen_port; FStr (tr "Open Web Interface")]
       else "").

(** [updateMessageMap], in the order of its entries. *)
Definition updateMessageMap : list (string * string) :=
  map (λ k, (k, tr k))
    ["Already the latest version"; "New version available"; "Update successful"; "Download update failed";
     "Update check failed"; "Update status unknown"].

(** [message.replace(en, zh)]: the first occurrence. *)
Fixpoint replace_first (en zh message : string) : string :=
  if String.prefix en message then zh +:+ str_drop (String.length en) message
  else match message with String c r => String c (replace_first en zh r) | EmptyString => "" end.

Definition translated (message : string) : string :=
  match List.find (λ e, includes message (fst e)) updateMessageMap with
  | Some (en, zh) => replace_first en zh message
  | None => message
  end.

Definition colored (color icon message : string) : string :=
  format ("<span style=" +:+ dq +:+ "color:" +:+ color +:+ dq +:+ ">" +:+ icon +:+ " %s</span>") [FStr message].

(** [status] and [message] of the update's reply. *)
Definition renderUpdateStatus (status message : option string) : string :=
  match status with
  | None | Some "" =>
      "<span style=" +:+ dq +:+ "color:orange" +:+ dq +:+ "> ⚠ " +:+ tr "Update status unknown" +:+ "</span>"
  | Some s =>
      let message := translated (default "" message) in
      if String.eqb s "updated" then colored "green" "✓" message
      else if String.eqb s "update_available" then colored "blue" "↻" message
      else if String.eqb s "latest" then colored "green" "✓" message
      else if String.eqb s "download_failed" || String.eqb s "check_failed" then colored "red" "✗" message
      else colored "orange" "?" message
  end.

(** [ddns-go.js]: what the container shows. *)
Definition embedded_port (port : option string) : string :=
  let p := match port with Some t => if str_truthy t then t else "[::]:9876" | None => "[::]:9876" end in
  default "" (last (str_split ":" p)).

Inductive embedded : Type :=
  | Message (text : string)
  | OpenButton (href : string)
  | Frame (src : string).

Definition ddns_container (isRunning isHttps : bool) (hostname : string) (port noweb : option string) : embedded :=
  let off := match noweb with Some t => String.eqb t "1" | None => false end in
  if negb isRunning || off then
    Message (if off then tr "DDNS-GO Web Interface Disabled" else tr "DDNS-GO Service Not Running")
  else
    let href := "http://" +:+ hostname +:+ ":" +:+ embedded_port port in
    if isHttps then OpenButton href else Frame href.

(** ** OpenList *)

(** [stdout.match(/password:\s*(\S+)/)[1]]: [None] when there is no match and
    the access throws. *)
Fixpoint new_password (stdout : string) : option string :=
  match (if String.prefix "password:" stdout then
           let w := word_here (trim_start (str_drop 9 stdout)) in
           if str_truthy w then Some w else None
         else None) with
  | Some w => Some w
  | None => match stdout with String _ r => new_password r | EmptyString => None end
  end.

(** The protocol of the web interface: unset for other texts. *)
Definition web_protocol (ssl : option string) : option string :=
  let s := match ssl with Some t => if str_truthy t then t else "0" | None => "0" end in
  if String.eqb s "0" then Some "http:" else if String.eqb s "1" then Some "https:" else None.

Definition status_span : string :=
  "<em><span style=" +:+ dq +:+ "color:%s" +:+ dq +:+ "><strong>%s %s</strong></span></em>".

Definition ol_renderStatus (hostname : string) (isRunning : bool) (protocol : option string) (webport site_url : string)
    : string :=
  if isRunning then
    let buttonUrl :=
      if str_truthy site_url && str_truthy (str_trim site_url) then site_url
      else default "undefined" protocol +:+ "//" +:+ hostname +:+ ":" +:+ webport +:+ "/" in
    format status_span [FStr "green"; FStr "OpenList"; FStr (tr "RUNNING")]
    +:+ format ("<input class=" +:+ dq +:+ "cbi-button-reload" +:+ dq +:+ " type=" +:+ dq +:+ "button" +:+ dq
                +:+ " style=" +:+ dq +:+ "margin-left: 50px" +:+ dq +:+ " value=" +:+ dq +:+ "%s" +:+ dq
                +:+ " onclick=" +:+ dq +:+ "window.open('%s')" +:+ dq +:+ ">")
          [FStr (tr "Open Web Interface"); FStr buttonUrl]
  else format status_span [FStr "red"; FStr "OpenList"; FStr (tr "NOT RUNNING")].

(** ** qBittorrent *)

Definition qb_renderStatus (hostname : string) (isRunning : bool) (webport : string) : string :=
  if isRunning then
    format status_span [FStr "green"; FStr (tr "qBittorrent"); FStr (tr "RUNNING")]
    +:+ format ("<input class=" +:+ dq +:+ "cbi-button-reload" +:+ dq +:+ " type=" +:+ dq +:+ "button" +:+ dq
                +:+ " style=" +:+ dq +:+ "margin-left: 50px" +:+ dq +:+ " value=" +:+ dq +:+ "%s" +:+ dq
                +:+ " onclick=" +:+ dq +:+ "window.open('//%s:%s/')" +:+ dq +:+ ">")
          [FStr (tr "Open Web Interface"); FStr hostname; FStr webport]
  else format status_span [FStr "red"; FStr (tr "qBittorrent"); FStr (tr "NOT RUNNING")].

(** ** Time control *)

(** [checkTimeControlProcess], on the output of [ps w]: the process number is
    looked up and then dropped. *)
Definition checkTimeControlProcess (ps : exec_reply) : bool * option string :=
  match ps with
  | Some (0, Some stdout) => (existsb (λ line, includes line "timecontrolctrl") (str_split lf stdout), None)
  | _ => (false, None)
  end.

Definition renderServiceStatus (isRunning : bool) (pid : option string) : string :=
  format ("<em><span style=" +:+ dq +:+ "color:%s" +:+ dq +:+ ">%s <strong>%s %s</strong></span></em>")
    [FStr (running_color isRunning); FStr (running_icon isRunning); FStr (tr "TimeControl Service");
     FStr (running_text isRunning)]
  +:+ match pid with
      | Some p => if isRunning && str_truthy p then " <small>(PID: " +:+ p +:+ ")</small>" else ""
      | None => ""
      end.

(** The status line never shows a process number. *)
Lemma pid_never_shown ps :
  let '(running, pid) := checkTimeControlProcess ps in
  renderServiceStatus running pid = renderServiceStatus running None.
Proof. by destruct ps as [[[] [s|]]|]. Qed.

(** The parts of a device row the time mode shows. *)
Record row_parts : Type := mkRowParts {
  rp_times : bool;
  rp_duration : bool;
  rp_use_duration : bool;
  rp_reset_cycle : bool;
}.

Definition time_mode_parts (mode : string) : row_parts :=
  let mode_is := String.eqb mode in
  mkRowParts (mode_is "period" || mode_is "combined") (mode_is "duration" || mode_is "combined") (mode_is "combined")
    (mode_is "duration" || mode_is "combined").

(** ** UnblockNeteaseMusic *)

Definition un_renderStatus (isRunning : bool) : string :=
  if isRunning then format status_span [FStr "green"; FStr (tr "UnblockNeteaseMusic"); FStr (tr "运行中")]
  else format status_span [FStr "red"; FStr (tr "UnblockNeteaseMusic"); FStr (tr "未运行")].

(** What an upload does to the page and the file. *)
Inductive upload_step : Type :=
  | Notify (text : string)
  | RemoveFile (path : string).

(** [uploadCertificate]: the size of the uploaded file, or the error's
    message.  For an empty file the message names [tyupe], which is not
    defined: the evaluation throws, and the handler of errors takes over. *)
Definition uploadCertificate (type filename : string) (uploaded : Z + string) : list upload_step :=
  match uploaded with
  | inl size =>
      if size <=? 0 then [Notify "tyupe is not defined"]
      else [Notify (format (tr "您的 %s 已成功上传。大小：%sB。") [FStr type; FNum (Fin size)])]
  | inr message => [Notify message]
  end.

(** An empty certificate is not removed. *)
Lemma empty_certificate_stays type filename :
  RemoveFile ("/usr/share/unblockneteasemusic/" +:+ filename) ∉ uploadCertificate type filename (inl 0).
Proof. cbn. rewrite elem_of_cons, elem_of_nil. naive_solver. Qed.

(** [status.js]: the version line, by the helper's exit code. *)
Definition version_span : string :=
  "<div style=" +:+ dq +:+ "color:%s;margin-top:5px;" +:+ dq +:+ "><strong>%s</strong></div>".

Definition core_version (reply : exec_reply) : string :=
  let red t := format version_span [FStr "red"; FStr t] in
  match reply with
  | Some (0, Some stdout) => format version_span [FStr "green"; FStr (str_trim stdout)]
  | Some (2, _) => red (tr "未安装")
  | _ => red (tr "未知错误")
  end.

(** The description after an update: unchanged for other codes. *)
Definition update_description (reply : exec_reply) (description : string) : string :=
  match reply with
  | Some (0, _) => tr "更新成功。"
  | Some (1, _) => tr "更新失败。"
  | Some (2, _) => tr "更新程序正在运行中。"
  | Some (3, _) => tr "当前已是最新版本。"
  | Some _ => description
  | None => tr "更新失败。"
  end.

(** The log, as it is shown on every poll. *)
Definition un_log (reply : string + string) : node :=
  E "pre" [("wrap", "pre")]
    (Kids [Txt (match reply with
                | inl res => if str_truthy (str_trim res) then str_trim res else tr "当前无日志。"
                | inr err =>
                    if includes err "NotFoundError" then tr "日志文件不存在。"
                    else format (tr "未知错误：%s。") [FStr err]
                end)]).

End AppStatus.
