(* ===== verification/Services.v ===== *)
(** What the small applications ask of the router, as scripts ([Async]): the
    service list behind the status lines, the process checks, the restart and
    the update of DDNS-GO ([ddns-go/config.js], [ddns-go.js], [log.js]), the
    password of OpenList ([openlist2/basic.js], [logs.js]), the core and the
    debug report of UnblockNeteaseMusic ([status.js]), the logs of smartdns and
    time control ([smartdns/log.js], [timecontrol/log.js]). *)
From stdpp Require Import base list strings.
From Stdlib Require Import ZArith Lia Ascii Bool.
From S2P Require Import Prelude JsNum JsString JsMatch Async Luci Homebox NetSpeed LogViews AppStatus SmartDns.

Open Scope async_scope.

(** ** Values of the RPC replies *)

Inductive json : Type :=
  | JUndef
  | JNull
  | JBool (b : bool)
  | JNum (n : num)
  | JStr (s : string)
  | JArr (l : list json)
  | JObj (fields : list (string * json)).

Definition jtruthy (v : json) : bool :=
  match v with
  | JUndef | JNull => false
  | JBool b => b
  | JNum n => num_truthy n
  | JStr s => str_truthy s
  | JArr _ | JObj _ => true
  end.

(** [v[k]], for a name that no prototype has. *)
Definition jget (v : json) (k : string) : res json :=
  match v with
  | JUndef | JNull => Throw "TypeError"
  | JObj fields => Ok (from_option snd JUndef (List.find (λ f, String.eqb (fst f) k) fields))
  | _ => Ok JUndef
  end.

(** [String(v)] *)
Fixpoint jstring (v : json) : string :=
  match v with
  | JUndef => "undefined"
  | JNull => "null"
  | JBool b => if b then "true" else "false"
  | JNum n => num_to_string n
  | JStr s => s
  | JArr l => str_join "," (map (λ x, match x with JUndef | JNull => "" | _ => jstring x end) l)
  | JObj _ => "[object Object]"
  end.

(** ** Requests *)

(** An element as a script has it: looked up in the document, or held in a
    variable since it was made (a button also as the target of its event). *)
Inductive place : Type :=
  | Found (key : string)
  | Held (variable : string).

(** What a script does to the page. *)
Inductive act : Type :=
  | SetHtml (el : place) (html : string)
  | SetText (el : place) (text : string)
  | SetDisabled (el : place) (b : bool)
  | Content (el : place) (n : node)
  | AlertBox (text : string)
  | Notification (text : string)
  | ShowModal (title : string) (body : list node)
  | RemoveLast
  | AppendModal (n : node)
  | HideModal
  | ResetMap (description : string)
  | CopyText (text : string)
  | PollStatus
  | ReloadPage.

(** What [uci.apply] rejects with: the error of a call, or the status the router
    answers, a number. *)
Inductive apply_failure : Type :=
  | Raised (message : string)
  | Refused (status : Z).

(** Requests of the router, answered by a promise; a change kept in the browser;
    a timer; the lookup of an element, and of a property of the window; an
    action on the page. *)
Inductive web : Type → Type :=
  | FsExec (path : string) (args : list string) : web (string + (Z * option string))
  | FsText (verb path : string) (args : list string) : web (string + string)
  | FsWrite (path content : string) : web (string + unit)
  | FsFileType (path : string) : web (string + option string)
  | Rpc (object method : string) (args : list string) : web (string + json)
  | UciDo (step : string) (args : list string) : web (string + unit)
  | UciSet (config section option value : string) : web unit
  | UciApply : web (apply_failure + unit)
  | Wait (ms : Z) : web unit
  | Exists (key : string) : web bool
  | Defined (property : string) : web bool
  | Do (a : act) : web unit.

Definition fs_exec (path : string) (args : list string) : promise web (Z * option string) := send (FsExec path args).
Definition read_text (verb path : string) (args : list string) : promise web string := send (FsText verb path args).
Definition fs_write (path content : string) : promise web unit := send (FsWrite path content).
Definition rpc (object method : string) (args : list string) : promise web json := send (Rpc object method args).
Definition uci_do (step : string) (args : list string) : promise web unit := send (UciDo step args).
Definition uci_set (config section option value : string) : promise web unit := perform (UciSet config section option value).

(** [error.message], as the text it becomes: a number has no [message]. *)
Definition apply_message (e : apply_failure) : string :=
  match e with Raised message => message | Refused _ => "undefined" end.

(** [uci.apply], with what its handler of errors shows of a rejection. *)
Definition uci_apply : promise web unit :=
  abind (send UciApply) (λ r, match r with inl e => reject (apply_message e) | inr _ => resolve tt end).

Definition do (a : act) : promise web unit := perform (Do a).
Definition wait (ms : Z) : promise web unit := perform (Wait ms).
Definition get_element (key : string) : promise web bool := perform (Exists key).
Definition window_has (property : string) : promise web bool := perform (Defined property).
Definition pass : promise web unit := resolve tt.

(** [res.stdout.trim()] *)
Definition trimmed_stdout (out : option string) : promise web string :=
  match out with Some t => resolve (str_trim t) | None => reject "TypeError" end.

(** ** The service list *)

(** [res[name]['instances'][inst]['running']], [false] where that throws. *)
Definition service_running (name inst : string) (res : json) : json :=
  match rbind (jget res name) (λ s, rbind (jget s "instances") (λ i, rbind (jget i inst) (λ x, jget x "running"))) with
  | Ok v => v
  | Throw _ => JBool false
  end.

(** [service_status] of an application. *)
Definition service_status (name inst : string) : promise web json :=
  let! res := resolveDefault (rpc "service" "list" [name]) (JObj []) in
  resolve (service_running name inst res).

(** The poll of a status line; [checked] tells whether the page looks if the
    element is there. *)
Definition status_poll (checked : bool) (name inst : string) (render : bool → string) : promise web unit :=
  let! res := resolveDefault (service_status name inst) JUndef in
  let! found := get_element "service_status" in
  if found then do (SetHtml (Found "service_status") (render (jtruthy res)))
  else if checked then pass
  else reject "TypeError".

Section Services.
Context {I : I18n}.

Definition qb_poll (hostname webport : string) : promise web unit :=
  status_poll false "qbittorrent" "instance1" (λ r, qb_renderStatus hostname r webport).
Definition un_poll : promise web unit :=
  status_poll false "unblockneteasemusic" "unblockneteasemusic" un_renderStatus.
Definition ol_poll (hostname : string) (protocol : option string) (webport site_url : string) : promise web unit :=
  status_poll true "openlist2" "openlist2" (λ r, ol_renderStatus hostname r protocol webport site_url).
Definition sd_poll (c : status_source) : promise web unit :=
  status_poll true "smartdns" "smartdns" (λ r, smartdnsRenderStatus r c).

(** [isSmartdnsUiAvailable] *)
Definition isSmartdnsUiAvailable : promise web bool :=
  catch (let! res := send (FsFileType "/usr/lib/smartdns_ui.so") in
         resolve (match res with Some t => String.eqb t "file" | None => false end))
        (λ _, resolve false).

(** ** DDNS-GO *)

(** [checkProcess]: the first command may fail; the second decides then. *)
Definition checkProcess : promise web (bool * option string) :=
  let! first := catch
    (let! (code, out) := fs_exec "/bin/pidof" ["ddns-go"] in
     if code =? 0 then let! pid := trimmed_stdout out in resolve (Some (true, Some pid)) else resolve None)
    (λ _, resolve None) in
  match first with
  | Some r => resolve r
  | None =>
      catch (let! (_, out) := fs_exec "/bin/ps" ["-C"; "ddns-go"; "-o"; "pid="] in
             let! pid := trimmed_stdout out in
             resolve (negb (String.eqb pid ""), if str_truthy pid then Some pid else None))
            (λ _, resolve (false, None))
  end.

(** [getVersionInfo] and [checkUpdateStatus] *)
Definition object_of (p : promise web json) : promise web json :=
  catch (let! result := resolveDefault p (JObj []) in resolve (if jtruthy result then result else JObj []))
        (λ _, resolve (JObj [])).

Definition getVersionInfo : promise web json := object_of (rpc "luci.ddns-go" "get_ver" []).
Definition checkUpdateStatus : promise web json := object_of (rpc "luci.ddns-go" "last_update" []).

(** [versionInfo.version || ''] *)
Definition version_text (info : json) : promise web string :=
  let! v := of_res (jget info "version") in resolve (if jtruthy v then jstring v else "").

(** [window.statusPoll]; the two checks ask for different things, so that
    their order does not matter. *)
Definition statusPoll (hostname listen_port : string) : promise web unit :=
  catch (let! process := checkProcess in
         let! info := getVersionInfo in
         let! version := version_text info in
         do (SetHtml (Held "statusView") (ddns_renderStatus hostname (fst process) listen_port version)))
        (λ _, do (SetHtml (Held "statusView")
                    ("<span style=" +:+ dq +:+ "color:orange" +:+ dq +:+ ">⚠ " +:+ tr "Status check error" +:+ "</span>"))).

(** [document.querySelectorAll(...)?.checked]: a list of nodes has no
    [checked], whatever the boxes in it. *)
Definition checked_of (boxes : list bool) : option bool := None.

Definition failure (text : string) (e : string) : string := tr "ERROR:" +:+ lf +:+ text +:+ lf +:+ e.

Definition restarted : string := tr "SUCCESS:" +:+ lf +:+ tr "DDNS-Go service restarted successfully".

(** [handleRestartService]; the parameter of the error handler is what
    [error.message] reads as. *)
Definition handleRestartService (boxes : list bool) : promise web unit :=
  let enabledValue := if default false (checked_of boxes) then "1" else "0" in
  catch
    (uci_set "ddns-go" "config" "enabled" enabledValue ;!
     uci_do "save" ["ddns-go"] ;!
     uci_apply ;!
     (let! _ := fs_exec "/etc/init.d/ddns-go" ["stop"] in pass) ;!
     wait 1000 ;!
     (if String.eqb enabledValue "1" then let! _ := fs_exec "/etc/init.d/ddns-go" ["start"] in pass else pass) ;!
     do (AlertBox restarted) ;!
     let! polled := window_has "statusPoll" in
     if (polled : bool) then do PollStatus else pass)
    (λ e, do (AlertBox (failure (tr "Failed to restart service:") e))).

(** [updateInfo.status], and [updateInfo.message], whose [includes] throws for
    anything but a text. *)
Definition status_of (info : json) : res (option string) :=
  rbind (jget info "status") (λ v, Ok (if jtruthy v then Some (jstring v) else None)).

Definition message_of (info : json) : res (option string) :=
  rbind (jget info "message") (λ v,
    match v with
    | JStr s => Ok (Some s)
    | _ => if jtruthy v then Throw "TypeError" else Ok None
    end).

Definition rendered_update (info : json) : promise web string :=
  let! status := of_res (status_of info) in
  match status with
  | None => resolve (renderUpdateStatus None None)
  | Some s => let! m := of_res (message_of info) in resolve (renderUpdateStatus (Some s) m)
  end.

Definition version_line (span version : string) : string :=
  format span [FStr (tr "Current Version"); FStr version].

Definition show_version (span : string) : promise web unit :=
  let! info := getVersionInfo in
  let! version := version_text info in
  do (SetHtml (Found "update_status") (version_line span version)).

Definition green_version : string :=
  "<span style=" +:+ dq +:+ "color:green" +:+ dq +:+ ">✓ %s v%s</span>".

(** [update_successful || status === 'updated'] *)
Definition update_done (info : json) : promise web bool :=
  let! s := of_res (jget info "update_successful") in
  if jtruthy s then resolve true
  else
    let! t := of_res (jget info "status") in
    resolve (match t with JStr t => String.eqb t "updated" | _ => false end).

(** [handleUpdate], with its timers. *)
Definition handleUpdate : promise web unit :=
  catch
    (let! found := get_element "update_status" in
     (if found
      then do (SetHtml (Found "update_status") ("<span class=" +:+ dq +:+ "spinning" +:+ dq +:+ "></span> "
                                        +:+ tr "Updating, please wait..."))
      else pass) ;!
     let! info := checkUpdateStatus in
     (if found then let! html := rendered_update info in do (SetHtml (Found "update_status") html) else pass) ;!
     let! updated := update_done info in
     if (updated : bool) then
       (let! polled := window_has "statusPoll" in if (polled : bool) then do PollStatus else pass) ;!
       catch (wait 3000 ;!
              let! again := get_element "update_status" in
              if again then show_version green_version else pass) (λ _, pass)
     else pass)
    (λ _,
      let! found := get_element "update_status" in
      if found then
        do (SetHtml (Found "update_status") ("<span style=" +:+ dq +:+ "color:red" +:+ dq +:+ ">✗ " +:+ tr "Update failed" +:+ "</span>")) ;!
        catch (wait 5000 ;! show_version "<span>%s v%s</span>") (λ _, pass)
      else pass).

(** [checkRunning] of [ddns-go.js], which does not catch, and its poll. *)
Definition checkRunning : promise web bool :=
  let! (code, _) := fs_exec "/bin/pidof" ["ddns-go"] in
  if code =? 0 then resolve true
  else let! (grep, _) := fs_exec "/bin/ash" ["-c"; "ps | grep -q " +:+ dq +:+ "[d]dns-go" +:+ dq] in resolve (grep =? 0).

Definition running_poll (isRunning : bool) : promise web unit :=
  let! newStatus := checkRunning in
  if eqb newStatus isRunning then pass else do ReloadPage.

(** [clearLogs] of the log page, with its timer; [fetch] is [fetchLogs]. *)
Definition clearLogs (fetch : promise web unit) : promise web unit :=
  do (SetDisabled (Held "button") true) ;!
  do (SetText (Held "button") (tr "Clearing...")) ;!
  finally
    (catch (let! _ := fs_exec "/usr/libexec/ddns-go-call" ["clear_logs"] in
            do (SetText (Held "button") (tr "Logs cleared!")) ;! fetch)
           (λ _, do (SetText (Held "button") (tr "Failed to clear"))))
    (wait 2000 ;! do (SetDisabled (Held "button") false) ;! do (SetText (Held "button") (tr "Clear Logs"))).

(** A log is drawn again when its content is not the one last read. *)
Definition show_change (before after : log_view) : promise web unit :=
  if String.eqb (lv_last after) (lv_last before) then pass
  else do (Content (Held "log_container") (lv_shown after)).

(** The text of a reply that has a code only. *)
Definition code_json (code : Z) : string := "{" +:+ dq +:+ "code" +:+ dq +:+ ":" +:+ num_to_string (Fin code) +:+ "}".

(** [fetchLogs] of the log page, as the request behind [LogViews.fetchLogs]. *)
Definition ddns_fetch (h : heights) (v : log_view) : promise web unit :=
  catch (let! (code, out) := fs_exec "/usr/libexec/ddns-go-call" ["get_logs"] in
         show_change v (fetchLogs h (inl (match out with Some t => LStdout t | None => LOther (code_json code) end)) v))
        (λ err, do (Content (Held "log_container") (lv_shown (fetchLogs h (inr err) v))) ;! reject err).

(** ** Logs of smartdns and time control *)

Definition sd_clear_log : promise web unit :=
  do (SetDisabled (Held "button") true) ;!
  do (SetText (Held "button") (tr "Clear Logs...")) ;!
  catch (let! _ := fs_exec "/usr/libexec/smartdns-call" ["clear_log"] in
         do (SetText (Held "button") (tr "Logs cleared successfully!")) ;!
         do (Content (Held "log_textarea") (E "pre" [("wrap", "pre")] (Kids [Txt (tr "Log is clean.")]))) ;!
         wait 5000 ;! do (SetDisabled (Held "button") false) ;! do (SetText (Held "button") (tr "Clear Logs")))
        (λ _, do (SetText (Held "button") (tr "Failed to clear log.")) ;!
              wait 5000 ;! do (SetDisabled (Held "button") false) ;! do (SetText (Held "button") (tr "Clear Logs"))).

(** The poll; an output that is missing throws, like a failed call. *)
Definition sd_log_poll : promise web unit :=
  catch (let! (_, out) := fs_exec "/usr/libexec/smartdns-call" ["tail"] in
         match out with
         | Some t => do (Content (Held "log_textarea") (smartdns_log (inl t)))
         | None => reject "TypeError"
         end)
        (λ err, do (Content (Held "log_textarea") (smartdns_log (inr err)))).

Definition tc_clear_log : promise web unit :=
  do (SetDisabled (Held "button") true) ;!
  do (SetText (Held "button") (tr "Clear Logs...")) ;!
  catch (let! _ := read_text "exec_direct" "/usr/libexec/timecontrol-call" ["clear_log"] in
         do (SetText (Held "button") (tr "Logs cleared successfully!")) ;!
         do (SetDisabled (Held "button") false) ;!
         do (SetText (Held "button") (tr "Clear Logs")) ;!
         do (Content (Held "log_container") (formatLogLines (tr "Log is clean."))))
        (λ _, do (SetText (Held "button") (tr "Failed to clear log.")) ;!
              do (SetDisabled (Held "button") false) ;!
              do (SetText (Held "button") (tr "Clear Logs"))).

(** The poll of time control's log, as the request behind [LogViews.poll_log]. *)
Definition tc_log_poll (date_of : string → Z) (now : Z) (h : heights) (v : log_view) : promise web unit :=
  catch (let! res := read_text "read_direct" "/var/log/timecontrol.log" ["text"] in
         show_change v (poll_log date_of now h (inl res) v))
        (λ err, show_change v (poll_log date_of now h (inr err) v)).

(** ** Time control *)

Definition tc_check : promise web (bool * option string) :=
  catch (let! (code, out) := fs_exec "/bin/ps" ["w"] in
         if negb (code =? 0) then resolve (false, None)
         else match out with
              | Some stdout => resolve (checkTimeControlProcess (Some (code, Some stdout)))
              | None => reject "TypeError"
              end)
        (λ _, resolve (false, None)).

(** The first check and each poll of the status line. *)
Definition tc_status : promise web unit :=
  catch (let! (running, pid) := tc_check in do (SetHtml (Held "statusView") (renderServiceStatus running pid)))
        (λ _, do (SetHtml (Held "statusView")
                    ("<span style=" +:+ dq +:+ "color:orange" +:+ dq +:+ ">⚠ " +:+ tr "Status check failed" +:+ "</span>"))).

(** ** OpenList *)

Definition password_alert (p : string) : string :=
  tr "Username:" +:+ "admin" +:+ lf +:+ tr "New Password:" +:+ p +:+ lf +:+ lf
  +:+ tr "New password has been copied to clipboard.".

(** [handleResetPassword]: a failure is only logged. *)
Definition ol_handleResetPassword (data_dir : option string) : promise web unit :=
  let dir := match data_dir with Some d => if str_truthy d then d else "/etc/openlist2" | None => "/etc/openlist2" end in
  catch (let! (_, out) := fs_exec "/usr/bin/openlist2" ["admin"; "random"; "--data"; dir] in
         match option_map new_password out with
         | Some (Some p) => do (CopyText p) ;! do (AlertBox (password_alert p))
         | _ => reject "TypeError"
         end)
        (λ _, pass).

(** [handleCleanLogs] of OpenList; the page of netspeedtest has the same but
    does not load [ui], so that its handler of errors throws. *)
Definition handleCleanLogs (has_ui : bool) (log_path : string) : promise web unit :=
  catch (fs_write log_path "") (λ e, if has_ui then do (Notification e) else reject "ReferenceError").

(** ** UnblockNeteaseMusic *)

Definition unm_helper : string := "/usr/share/unblockneteasemusic/update.sh".

Definition unknown_error (err : string) : string := format (tr "未知错误：%s。") [FStr err].

Definition remove_core : promise web unit :=
  catch (let! _ := fs_exec unm_helper ["remove_core"] in do (ResetMap "删除完毕。"))
        (λ err, do (Notification (unknown_error err)) ;! do (ResetMap "删除失败。")).

Definition update_core (description : string) : promise web unit :=
  catch (let! r := fs_exec unm_helper ["update_core"] in do (ResetMap (update_description (Some r) description)))
        (λ err, do (Notification (unknown_error err)) ;! do (ResetMap (update_description None description))).

(** The debug report: the report with a button that copies it, or an error. *)
Definition report_nodes (res : string) : list node :=
  if str_truthy res then
    [E "p" [] (Html (tr "提交 issue 时，您只需附上最后的链接，无需提供整个输出。"));
     E "textarea" [("id", "content_debugLog"); ("class", "cbi-input-textarea"); ("style", "font-size:13px; resize: none");
                   ("readonly", "readonly"); ("wrap", "soft"); ("rows", "30")] (Kids [Txt (str_trim res)]);
     E "div" [("class", "right")]
       (Kids [E "button" [("class", "btn cbi-button-action")] (Html (tr "复制"));
              E "button" [("class", "btn")] (Html (tr "关闭"))])]
  else
    [E "p" [] (Html (tr "错误"));
     E "pre" [("class", "errors")] (Kids [Txt (tr "无法打印调试报告。")]);
     E "div" [("class", "right")] (Kids [Txt ""; E "button" [("class", "btn")] (Html (tr "关闭"))])].

Fixpoint append_all (l : list node) : promise web unit :=
  match l with [] => pass | n :: l => do (AppendModal n) ;! append_all l end.

Definition debug_report : promise web unit :=
  do (ShowModal (tr "打印调试报告") [E "p" [("class", "spinning")] (Html (tr "正在打印调试报告中..."))]) ;!
  catch (let! res := read_text "exec_direct" "/usr/bin/unm-debug" [] in do RemoveLast ;! append_all (report_nodes res))
        (λ err, do (Notification (format (tr "无法打印调试报告：%s。") [FStr err])) ;! do HideModal).

(** The links in the report: two sequences of items, of which the leftmost
    match of either is taken.  A dot of the expression is any character of the
    line. *)
Definition in_line (c : ascii) : bool := negb (Ascii.eqb c "010" || Ascii.eqb c "013").

Definition link_items (host : list item) : list item :=
  [Texts false ["https://"]] ++ host ++ [Texts false ["/"]; JsMatch.Run in_line 0; JsMatch.One in_line; Texts false ["txt"]].

Definition links_re : list (list item) :=
  [link_items [Texts false ["litter"]; JsMatch.One in_line; Texts false ["catbox"]; JsMatch.One in_line; Texts false ["moe"]];
   link_items [Texts false ["transfer"]; JsMatch.One in_line; Texts false ["sh"]]].

Fixpoint links_go (fuel : nat) (s : string) : list string :=
  match fuel with
  | O => []
  | S fuel =>
      match first_some (λ items, match_items items s) links_re with
      | Some (ps, rest) => text_of ps :: links_go fuel rest
      | None => match s with String _ s => links_go fuel s | EmptyString => [] end
      end
  end.

Definition links (s : string) : list string := links_go (S (String.length s)) s.

(** The text the button copies. *)
Definition copied (report : string) : string :=
  match links report with [] => report | l => str_join lf l end.
End Services.

(** ** What the steps show *)

(** The actions on the page, in their order. *)
Definition act_of (s : taken web) : option act :=
  match s with Step _ e _ => match e with Do a => Some a | _ => None end end.

Definition acts (tr : list (taken web)) : list act := omap act_of tr.

(** The error of a request that was rejected, as [error.message] reads. *)
Definition error_of (s : taken web) : option string :=
  match s with
  | Step _ e x =>
      match e in web X return X → option string with
      | FsExec _ _ | FsText _ _ _ | FsWrite _ _ | FsFileType _ | Rpc _ _ _ | UciDo _ _ =>
          λ r, match r with inl err => Some err | inr _ => None end
      | UciApply => λ r, match r with inl err => Some (apply_message err) | inr _ => None end
      | UciSet _ _ _ _ | Wait _ | Exists _ | Defined _ | Do _ => λ _, None
      end x
  end.

Definition errors (tr : list (taken web)) : list string := omap error_of tr.

(** The status codes with which the router refused to apply a change. *)
Definition refusal_of (s : taken web) : option Z :=
  match s with
  | Step _ e x =>
      match e in web X return X → option Z with
      | UciApply => λ r, match r with inl (Refused n) => Some n | _ => None end
      | _ => λ _, None
      end x
  end.

Definition refusals (tr : list (taken web)) : list Z := omap refusal_of tr.

(** Whether the window was found to have a property. *)
Definition window_of (property : string) (s : taken web) : option bool :=
  match s with
  | Step _ e x =>
      match e in web X return X → option bool with
      | Defined p => λ b, if String.eqb p property then Some b else None
      | _ => λ _, None
      end x
  end.

(** The commands run. *)
Definition command_of (s : taken web) : option (string * list string) :=
  match s with Step _ e _ => match e with FsExec path args => Some (path, args) | _ => None end end.

Definition commands (tr : list (taken web)) : list (string * list string) := omap command_of tr.

(** The outcome of a script for every answer: by cases on the answers. *)
Ltac answers :=
  cbn; intros;
  repeat match goal with
         | x : (string + _)%type |- _ => destruct x
         | x : (Z * option string)%type |- _ => destruct x
         | x : unit |- _ => destruct x
         | x : option string |- _ => destruct x
         | |- context [if ?c then _ else _] => destruct c eqn:?
         | |- context [match ?c with _ => _ end] => is_var c; destruct c
         | |- ∀ _, _ => intro
         | _ => progress cbn
         end.

(** The step that failed is the [n]-th one. *)
Ltac failed_at n :=
  match goal with
  | |- ∃ _ _ _, ?s = _ ∧ _ =>
      let t := eval cbn in (drop n s) in
      let b := eval cbn in (take n s) in
      match t with
      | ?f :: ?r => exists b, f, r; split_and!; [reflexivity|reflexivity|repeat constructor; by eexists]
      end
  end.

Section Outcomes.
Context {I : I18n}.

(** C30: what the restart button of DDNS-GO does and says, whatever the router
    answers.  It never starts the service, whatever the box says: the one command
    it runs is the stop.  If every request is answered, with
    whatever exit code of the stop, the page says that the service was
    restarted, although it was at most stopped, and checks the status again where
    the window has a [statusPoll].  If a request is rejected, no request of the router follows it and
    the page shows the text of its error; where the apply is refused with a
    status code, which has no message, that text is [undefined].  Nothing is
    left unhandled. *)
Theorem restart_reports boxes :
  wp (handleRestartService boxes) (λ steps r,
    r = inr tt ∧ Forall (eq ("/etc/init.d/ddns-go", ["stop"])) (commands steps) ∧
    match errors steps with
    | [] => ∃ polled, omap (window_of "statusPoll") steps = [polled] ∧
              commands steps = [("/etc/init.d/ddns-go", ["stop"])] ∧
              acts steps = AlertBox restarted :: (if polled : bool then [PollStatus] else [])
    | e :: others =>
        others = [] ∧ acts steps = [AlertBox (failure (tr "Failed to restart service:") e)] ∧
        (refusals steps ≠ [] → e = "undefined") ∧
        ∃ before failing after, steps = before ++ failing :: after ∧ error_of failing = Some e ∧
          Forall (λ s, is_Some (act_of s)) after
    end).
Proof.
  unfold handleRestartService, checked_of. answers;
    (split_and!; [done|by repeat constructor|..]); try done; try (by eexists);
    first [failed_at 1%nat|failed_at 2%nat|failed_at 3%nat].
Qed.

(** No handler of these pages leaves a rejection behind. *)
Lemma object_of_settles p : settles (object_of p).
Proof. unfold object_of. eauto with async. Qed.

Lemma checkProcess_settles : settles checkProcess.
Proof.
  unfold checkProcess. apply settles_await; [eauto with async|].
  intros [r|]; eauto with async.
Qed.

Lemma append_all_settles l : settles (append_all l).
Proof. induction l; cbn; eauto with async. Qed.

Lemma finally_settles {A} (p : promise web A) f : settles p → settles f → settles (finally p f).
Proof.
  intros Hp Hf. unfold settles, finally. apply wp_bind. eapply wp_mono; [|exact Hp]. intros tr [e|a] [b Hb]; [done|].
  apply wp_bind. eapply wp_mono; [|exact Hf]. intros tr' [e|c] [b' Hb']; [done|]. by eexists.
Qed.

Ltac settle :=
  repeat match goal with
         | |- settles (resolve _) => apply settles_resolve
         | |- settles (perform _) => apply settles_perform
         | |- settles (catch _ _) => apply settles_catch; intros ?
         | |- settles (finally _ _) => apply finally_settles
         | |- settles (await checkProcess _) => apply settles_await; [apply checkProcess_settles|intros ?]
         | |- settles (await _ _) => apply settles_await; [|intros ?]
         | |- settles (if ?c then _ else _) => destruct c
         end.

Lemma handlers_settle boxes fetch dir host port core date_of now h v :
  settles (statusPoll host port) ∧ settles (handleRestartService boxes) ∧ settles handleUpdate ∧
  settles (clearLogs fetch) ∧ settles sd_clear_log ∧ settles sd_log_poll ∧ settles tc_clear_log ∧
  settles (tc_log_poll date_of now h v) ∧
  settles tc_check ∧ settles tc_status ∧ settles (ol_handleResetPassword dir) ∧ settles remove_core ∧
  settles (update_core core) ∧ settles debug_report.
Proof.
  unfold statusPoll, handleRestartService, handleUpdate, clearLogs, sd_clear_log, sd_log_poll, tc_clear_log, tc_log_poll,
    tc_check, tc_status, ol_handleResetPassword, remove_core, update_core, debug_report, show_change,
    do, wait, get_element, window_has, pass.
  split_and!; settle.
Qed.

(** The status line shows what the service list says: the service runs exactly
    if the list was answered and its instance is marked as running. *)
Lemma getServiceStatus_answer name inst :
  wp (service_status name inst) (λ steps r,
    ∃ answer, steps = [Step _ (Rpc "service" "list" [name]) answer] ∧
      r = inr (service_running name inst (match answer with inr v => v | inl _ => JObj [] end))).
Proof. intros [e|v]; cbn; by eexists. Qed.

Lemma service_running_true name inst res :
  jtruthy (service_running name inst res) = true →
  ∃ s i x v, jget res name = Ok s ∧ jget s "instances" = Ok i ∧ jget i inst = Ok x ∧ jget x "running" = Ok v ∧
    jtruthy v = true.
Proof.
  unfold service_running. destruct (jget res name) as [s|] eqn:H1; cbn; [|done].
  destruct (jget s "instances") as [i|] eqn:H2; cbn; [|done]. destruct (jget i inst) as [x|] eqn:H3; cbn; [|done].
  destruct (jget x "running") as [v|] eqn:H4; cbn; [|done]. intros Hv. by exists s, i, x, v.
Qed.

Lemma status_poll_shows checked name inst render :
  wp (status_poll checked name inst render) (λ steps r,
    ∃ (answer : string + json) (found : bool),
      steps = Step _ (Rpc "service" "list" [name]) answer :: Step _ (Exists "service_status") found ::
        (if found then [Step _ (Do (SetHtml (Found "service_status")
           (render (match answer with inr v => jtruthy (service_running name inst v) | inl _ => false end)))) tt]
         else []) ∧
      r = if found || checked then inr tt else inl "TypeError").
Proof.
  intros answer. destruct answer as [e|v]; intros found; destruct found; cbn; try intros []; destruct checked; cbn.
  all: match goal with |- context [Step (string + json) _ ?a] => match goal with |- context [Step bool _ ?f] => exists a, f end end.
  all: done.
Qed.

(** [checkProcess] computes [ddns_checkProcess] from its two replies; the
    second command is run only if the first does not tell. *)
Definition reply_of (answer : string + (Z * option string)) : exec_reply :=
  match answer with inl _ => None | inr r => Some r end.

Lemma checkProcess_spec :
  wp checkProcess (λ steps r, ∃ first second : string + (Z * option string),
    r = inr (ddns_checkProcess (reply_of first) (reply_of second)) ∧
    (steps = [Step _ (FsExec "/bin/pidof" ["ddns-go"]) first] ∨
     steps = [Step _ (FsExec "/bin/pidof" ["ddns-go"]) first;
              Step _ (FsExec "/bin/ps" ["-C"; "ddns-go"; "-o"; "pid="]) second])).
Proof.
  intros first. destruct first as [e|[code [out|]]]; cbn; [|destruct (code =? 0) eqn:Hc; cbn|destruct (code =? 0) eqn:Hc; cbn].
  2: { exists (inr (code, Some out)), (inl ""). cbn. rewrite Hc. by split; [|left]. }
  all: intros second; destruct second as [e2|[c2 [o2|]]]; cbn.
  all: match goal with |- context [Step (string + (Z * option string)) (FsExec "/bin/pidof" _) ?a] =>
         match goal with |- context [Step (string + (Z * option string)) (FsExec "/bin/ps" _) ?b] => exists a, b end end.
  all: cbn; rewrite ?Hc; (split; [|by right]); try done.
Qed.

(** A button that a script disables is given back with its label, whatever
    the answers: after the last change it is enabled and reads "Clear". *)
Definition released (label : string) (tr : list (taken web)) : Prop :=
  List.last (omap (λ a, match a with SetDisabled (Held "button") b => Some b | _ => None end) (acts tr)) true = false ∧
  List.last (omap (λ a, match a with SetText (Held "button") t => Some t | _ => None end) (acts tr)) "" = label.

Lemma sd_clear_released : wp sd_clear_log (λ steps _, released (tr "Clear Logs") steps).
Proof. unfold sd_clear_log. answers; done. Qed.

Lemma tc_clear_released : wp tc_clear_log (λ steps _, released (tr "Clear Logs") steps).
Proof. unfold tc_clear_log. answers; done. Qed.

Lemma ddns_clear_released h v : wp (clearLogs (ddns_fetch h v)) (λ steps _, released (tr "Clear Logs") steps).
Proof. unfold clearLogs, ddns_fetch, show_change. answers; done. Qed.
End Outcomes.
