(* ===== verification/AppPages.v ===== *)
(** The pages of the small applications and of smartdns as their views draw
    them: what is loaded first, the form with its sections, and the nodes the
    polls and handlers of [Services] work on.  The options of the sections are
    in [AppForms] and [SmartDnsForm]; what the framework makes of a form is
    not modelled, and the nodes drawn are those of the views. *)
From stdpp Require Import base list strings.
From Stdlib Require Import ZArith Lia Ascii Bool.
From S2P Require Import Prelude JsNum JsString JsArray Luci Forms AppForms AppStatus LogViews Async Services OnlineSpeed.

Open Scope async_scope.

(** A section of a page: nodes drawn by a [render] of its own, or options, by
    tabs or not. *)
Inductive page_section : Type :=
  | Drawn (n : node)
  | Fields (s : form_section) (title description : string) (tabs : list (string * string)).

(** A page that is a form. *)
Record form_page : Type := mkFormPage {
  fp_config : string;
  fp_title : string;
  fp_description : string;
  fp_sections : list page_section;
}.

Definition drawn (p : form_page) : list node :=
  omap (λ s, match s with Drawn n => Some n | Fields _ _ _ _ => None end) (fp_sections p).

(** ** Style sheets *)

Definition sd_log_css : string :=
"
			#log_textarea {
				margin-top: 10px;
			}
			#log_textarea pre {
				background-color: #f7f7f7;
				color: #333;
				padding: 10px;
				border: 1px solid #ccc;
				border-radius: 4px;
				font-family: Consolas, Menlo, Monaco, monospace;
				font-size: 14px;
				line-height: 1.5;
				white-space: pre-wrap;
				word-wrap: break-word;
				overflow-y: auto;
				max-height: 650px;
			}
			#.description {
				background-color: #33ccff;
			}
			.cbi-button-danger {
				background-color: #fff;
				color: #f00;
				border: 1px solid #f00;
				border-radius: 4px;
				padding: 4px 8px;
				font-size: 14px;
				cursor: pointer;
				margin-top: 10px;
			}
			.cbi-button-danger:hover {
				background-color: #f00;
				color: #fff;
			}
			.cbi-section small {
				margin-left: 10px;
			}
			.cbi-section .cbi-section-actions {
				margin-top: 10px;
			}
			.cbi-section .cbi-section-actions-right {
				text-align: right;
			}
		".

Definition tc_log_css : string :=
"
			#log_textarea pre {
				padding: 10px; /* 内边距 */
				border-bottom: 1px solid #ddd; /* 边框颜色 */
				font-size: small;
				line-height: 1.3; /* 行高 */
				white-space: pre-wrap;
				word-wrap: break-word;
				overflow-y: auto;
			}
			.cbi-section small {
				margin-left: 1rem;
				font-size: small; 
			}
			.log-container {
				display: flex;
				flex-direction: column;
				max-height: 1200px;
				overflow-y: auto;
				border-radius: 3px;
				margin-top: 10px;
				padding: 5px;
			}
			.log-line {
				padding: 3px 0;
				font-family: monospace;
				font-size: 12px;
				line-height: 1.4;
			}
			.log-line:last-child {
				border-bottom: none;
			}
			.log-timestamp {
				margin-right: 10px;
			}
		".

Definition ddns_log_css : string :=
"
			.log-container {
				max-height: 1200px;
				overflow-y: auto;
				border-radius: 3px;
				margin-top: 10px;
				padding: 5px;
				background-color: var(--background-color);
				font-family: monospace;
				font-size: 12px;
				border: 1px solid var(--border-color);
			}
			.log-line {
				padding: 3px 5px;
				font-family: monospace;
				font-size: 12px;
				line-height: 1.4;
				border-bottom: 1px solid var(--border-color-light);
				white-space: pre-wrap;
				word-break: break-all;
			}
			.log-line:last-child {
				border-bottom: none;
			}
			.log-timestamp {
				color: #0066cc;
				margin-right: 10px;
				font-weight: bold;
			}
			.log-error {
				color: #cc0000;
			}
			.log-warning {
				color: #ff9900;
			}
			.control-buttons {
				margin-bottom: 10px;
				display: flex;
				gap: 5px;
			}

		".

Definition un_log_css : string :=
"									#log_textarea {									padding: 10px;								text-align: left;						}									#log_textarea pre {								padding: .5rem;								word-break: break-all;							margin: 0;							}									.description {									background-color: #33ccff;					}".

Definition site_css : string :=
"
                .speedtest-wrapper {
                    transition: all 0.3s ease;
                }
                
                .speedtest-wrapper:hover {
                    box-shadow: 0 4px 20px rgba(0,0,0,0.15);
                }
                
                #save-status {
                    transition: opacity 0.3s ease;
                }
                
                @media (prefers-color-scheme: dark) {
                    .speedtest-wrapper {
                        background: #2d2d2d;
                    }
                    
                    .speedtest-wrapper > div:first-child {
                        background: #3d3d3d;
                        border-color: #555;
                    }
                    
                    .speedtest-wrapper > div:first-child span {
                        color: #e0e0e0;
                    }
                }
                
                @media (max-width: 768px) {
                    .speedtest-wrapper {
                        height: 500px;
                    }
                    
                    .cbi-value-title {
                        width: 100% !important;
                        margin-bottom: 5px;
                    }
                    
                    .cbi-value-field {
                        width: 100% !important;
                    }
                    
                    #speedtest-site-select {
                        max-width: 100%;
                    }
                }
            ".

Section AppPages.
Context {I : I18n}.

(** [L.resource(path)], and [L.env.pollinterval] as text. *)
Variable resource : string → string.
Variable pollinterval : string.

(** The order [localeCompare] gives. *)
Variable locale_before : string → string → bool.

Definition load_config (config : string) : promise web unit := uci_do "load" [config].

(** ** Forms with a status line *)

Definition status_bar (kids : list node) : node := E "div" [("class", "cbi-section"); ("id", "status_bar")] (Kids kids).
Definition service_line (text : string) : node := E "p" [("id", "service_status")] (Html text).

Definition qb_page : form_page :=
  mkFormPage "qbittorrent" (tr "qBittorrent")
    (tr "qBittorrent is a cross-platform free and open-source BitTorrent client. Default username & password: admin / adminadmin")
    [Drawn (status_bar [service_line (tr "Collecting data...")]);
     Fields (mkFormSection (NamedSection "config") "qbittorrent" false false false false qb_options) "" "" []].

Definition ol_tabs : list (string * string) :=
  [("basic", tr "Basic Settings"); ("global", tr "Global Settings"); ("log", tr "Logs"); ("database", tr "Database");
   ("scheme", tr "Web Protocol"); ("tasks", tr "Task threads"); ("cors", tr "CORS Settings"); ("s3", tr "Object Storage");
   ("ftp", tr "FTP"); ("sftp", tr "SFTP"); ("mcp", tr "MCP")].

Definition openlist_page : form_page :=
  mkFormPage "openlist2" (tr "OpenList") (tr "A file list program that supports multiple storage.")
    [Drawn (status_bar [service_line (tr "Collecting data...")]);
     Fields (mkFormSection (NamedSection "@openlist2[0]") "openlist2" false false false false
               (ol_basic ++ ol_global ++ ol_log ++ ol_database ++ ol_scheme ++ ol_tasks ++ ol_access)) "" "" ol_tabs].

Definition un_page (hosts : list host_hint) : form_page :=
  mkFormPage "unblockneteasemusic" (tr "解除网易云音乐播放限制")
    (tr ("原理：采用 [Bilibili/JOOX/酷狗/酷我/咪咕/pyncmd/QQ/Youtube] 等音源，替换网易云音乐 无版权/收费 歌曲链接<br/>"
         +:+ "具体使用方法参见：<a href=" +:+ dq +:+ "https://github.com/UnblockNeteaseMusic/luci-app-unblockneteasemusic" +:+ dq
         +:+ " target=" +:+ dq +:+ "_blank" +:+ dq +:+ ">GitHub @UnblockNeteaseMusic/luci-app-unblockneteasemusic</a>"))
    [Drawn (status_bar [service_line (tr "收集数据中...")]);
     Fields (mkFormSection (NamedSection "config") "unblockneteasemusic" false false false false (un_sources ++ un_advanced))
       "" "" [];
     Fields (mkFormSection TableSection "acl_rule" true true true false (un_acl (un_host_choices hosts)))
       (tr "例外客户端规则") (tr "可以为局域网客户端分别设置不同的例外模式。") []].

Definition by_author : node :=
  E "span" [] (Kids [Txt (tr "© github ");
                     E "a" [("href", "https://github.com/sirpdboy"); ("target", "_blank"); ("style", "text-decoration: none;")]
                       (Html "by sirpdboy")]).

(** [statusView] *)
Definition tc_status_view : node :=
  service_line ("<span class=" +:+ dq +:+ "spinning" +:+ dq +:+ "> </span> " +:+ tr "Checking service status...").

Definition tc_page (hosts : list host_hint) : form_page :=
  mkFormPage "timecontrol" (tr "Internet Time Control")
    (tr "Users can limit their internet usage time through MAC and IP, with available IP ranges such as 192.168.110.00 to 192.168.10.200"
     +:+ "<br/>" +:+ tr "黑名单模式时间控制方式:" +:+ "<br/>"
     +:+ tr "1. 时间段控制: 指定的机器在设定时间段内可以上网，其他时间不能上网" +:+ "<br/>"
     +:+ tr "2. 允许上机时长: 指定的机器上线后可以上网指定时长，超过时长后不能上网" +:+ "<br/>"
     +:+ tr "3. 组合控制: 在时间段内+时长限制（在允许的时间段内限制上网时长）" +:+ "<br/>"
     +:+ tr "Suggested feedback:" +:+ " <a href=" +:+ dq +:+ "https://github.com/sirpdboy/luci-app-timecontrol.git" +:+ dq
     +:+ " target=" +:+ dq +:+ "_blank" +:+ dq +:+ ">GitHub @timecontrol</a>")
    [Drawn (status_bar
       [tc_status_view;
        E "div" [("style", "text-align: right; font-style: italic;")] (Kids [by_author])]);
     Fields (mkFormSection TypedSection "timecontrol" false true false false tc_global) "" "" [];
     Fields (mkFormSection TableSection "device" true true false false (tc_device (tc_host_choices locale_before hosts)))
       (tr "Device Rules") "" []].

(** A choice of time control's list: with a description, one text for the
    closed list and one for the open one. *)
Definition rich_choice (title : string) (description : option string) : list node :=
  match description with
  | Some d =>
      if str_truthy d then
        [E "span" [("class", "hide-open")] (Kids [Txt title]);
         E "div" [("class", "hide-close"); ("style", "min-width:25vw")]
           (Kids [E "strong" [] (Kids [Txt title]); E "br" [] (Kids []);
                  E "span" [("style", "white-space:normal")] (Html d)])]
      else [Txt title]
  | None => [Txt title]
  end.

(** The fields of DDNS-GO, of which the last shows the version: it is asked for
    when the form is made, and put where the field was drawn. *)
Definition version_field (currentVersion : string) : node :=
  E "div" [("style", "margin: 5px 0;")]
    (Kids [E "span" [("id", "update_status")]
             (Html (if str_truthy currentVersion then format "v%s" [FStr currentVersion] else tr "Loading..."))]).

(** [statusView] *)
Definition ddns_status_view : node :=
  E "p" [("id", "control_status")]
    (Html ("<span class=" +:+ dq +:+ "spinning" +:+ dq +:+ "></span> " +:+ tr "Checking status...")).

Definition ddns_page (currentVersion : string) : form_page :=
  mkFormPage "ddns-go" (tr "DDNS-GO")
    (tr "DDNS-GO automatically obtains your public IPv4 or IPv6 address and resolves it to the corresponding domain name service.")
    [Drawn (status_bar [ddns_status_view]);
     Fields (mkFormSection (NamedSection "config") "basic" false false false false ddns_go_options) "" "" [];
     Drawn (version_field currentVersion)].

(** What follows the version: nothing catches a failure of it. *)
Definition initial_version : promise web unit :=
  let! info := getVersionInfo in
  let! version := version_text info in
  let! found := get_element "update_status" in
  if found then do (SetHtml (Found "update_status") ("<span>v" +:+ version +:+ "</span>")) else pass.

(** The status section of smartdns. *)
Definition sd_status_node : node :=
  E "div" [("class", "cbi-section")] (Kids [E "div" [("id", "service_status")] (Html (tr "Collecting data ..."))]).

(** [pollAdded]: the poll is added by the first drawing of the section. *)
Definition draw_status (pollAdded : bool) (polls : nat) : bool * nat * node :=
  (true, if pollAdded then polls else S polls, sd_status_node).

(** ** Pages that show a log *)

Definition loading_image (alt text : string) : node :=
  E "img" [("src", resource "icons/loading.gif"); ("alt", alt); ("style", "vertical-align:middle")] (Html text).

Definition right_actions : node := E "div" [("class", "cbi-section-actions cbi-section-actions-right")] (Kids []).

Definition style_node (css : string) : node := E "style" [] (Kids [Txt css]).

(** The areas of the logs, each held in a variable. *)
Definition sd_log_area : node := E "div" [("id", "log_textarea")] (One (loading_image (tr "Loading...") (tr "Collecting data ..."))).

Definition tc_log_area : node :=
  E "div" [("class", "log-container"); ("id", "log_container")] (One (loading_image (tr "Loading...") (tr "Collecting data ..."))).

Definition ddns_log_area : node :=
  E "div" [("class", "log-container"); ("id", "log_container"); ("style", "min-height: 200px;")]
    (One (E "div" [("class", "log-line")] (Html (tr "Loading logs...")))).

Definition un_log_area : node := E "div" [("id", "log_textarea")] (One (loading_image (tr "Loading") (tr "Collecting data..."))).

Definition sd_log_page : node :=
  E "div" [("class", "cbi-map")]
    (Kids [style_node sd_log_css;
           E "div" [("class", "cbi-section")]
             (Kids [E "th" [] (Kids [E "button" [("class", "cbi-button cbi-button-remove")] (Html (tr "Clear Logs"))]);
                    E "th" [] (Kids [E "button" [("class", "cbi-button cbi-button-apply")] (Html (tr "Back SmartDNS"))]);
                    sd_log_area;
                    E "small" [] (Html (format (tr "Refresh every %s seconds.") [FStr pollinterval]));
                    right_actions])]).

Definition tc_log_page : node :=
  E "div" [("class", "cbi-map")]
    (Kids [style_node tc_log_css;
           E "div" [("class", "cbi-section")]
             (Kids [E "div" [] (Kids [E "button" [("class", "cbi-button cbi-button-remove")] (Html (tr "Clear Logs"))]);
                    tc_log_area;
                    E "small" [] (Html (format (tr "Refresh every 5 seconds.") [FStr pollinterval]));
                    right_actions]);
           E "div" [("style", "text-align: right;  font-style: italic;")] (Kids [by_author])]).

Definition ddns_log_page : node :=
  E "div" [("class", "cbi-map")]
    (Kids [style_node ddns_log_css;
           E "div" [("class", "cbi-section")]
             (Kids [E "div" [("class", "control-buttons")]
                      (Kids [E "button" [("class", "cbi-button cbi-button-remove")] (Html (tr "Clear Logs"))]);
                    ddns_log_area;
                    E "small" [] (Kids [Txt (format (tr "Refresh every 5 seconds.") [FStr pollinterval])])])]).

(** The log of UnblockNeteaseMusic, drawn in its form. *)
Definition un_log_page : list node :=
  [style_node un_log_css;
   E "div" [("class", "cbi-map")]
     (Kids [E "h3" [("name", "content")] (Html (tr "运行日志"));
            E "div" [("class", "cbi-section")]
              (Kids [un_log_area;
                     E "div" [("style", "text-align:right")]
                       (One (E "small" [] (Html (format (tr "每 %s 秒刷新。") [FStr pollinterval]))))])])].

Definition un_log_poll : promise web unit :=
  catch (let! res := read_text "read" "/var/run/unblockneteasemusic/run.log" ["text"] in
         do (Content (Held "log_textarea") (un_log (inl res))))
        (λ err, do (Content (Held "log_textarea") (un_log (inr err)))).

Definition un_status_page : form_page :=
  mkFormPage "unblockneteasemusic" "" ""
    [Fields (mkFormSection (NamedSection "config") "unblockneteasemusic" false true false false
       [option_ DummyValue "_core_version" (tr "核心版本") "" ▷ rawhtml;
        option_ Button "_remove_core" (tr "删除核心") (tr "删除核心后，需手动点击下面的按钮重新下载，有助于解决版本冲突问题。")
          ▷ attr "inputstyle" "remove";
        option_ Button "_update_core" (tr "更新核心") (tr "更新完毕后会自动在后台重启插件，无需手动重启。") ▷ attr "inputstyle" "action";
        option_ Button "_debug_log" (tr "调试报告") (tr "若您遇到使用上的问题，请点此打印调试报告，并将其附在您的 issue 中。")
          ▷ attr "inputstyle" "action" ▷ attr "inputtitle" (tr "打印报告");
        option_ DummyValue "_logview" "" ""]) (tr "核心管理") "" []].

(** ** The frame of a test site *)

Definition site_container (current : string) : node :=
  E "div" [("class", "speedtest-wrapper mobiliframe");
           ("style", "width:100%;height:550px;position:relative;overflow:hidden;margin-top:20px;")]
    (Kids (site_frame current ++ [E "style" [] (Html site_css)])).
End AppPages.

(** ** What the scripts find on their pages *)

(** The ids of a node and its descendants, in document order. *)
Fixpoint ids_of (n : node) : list string :=
  match n with
  | E _ a k =>
      map snd (List.filter (λ p, String.eqb (fst p) "id") a)
      ++ match k with Kids l => flat_map ids_of l | Html _ => [] | One m => ids_of m end
  | TextNode _ => []
  end.

(** A node and its descendants. *)
Fixpoint nodes_of (n : node) : list node :=
  n :: match n with
       | E _ _ k => match k with Kids l => flat_map nodes_of l | Html _ => [] | One m => nodes_of m end
       | TextNode _ => []
       end.

(** The key by which a step looks an element up, or under which the element was
    found that it changes. *)
Definition looked_up (s : taken web) : option string :=
  match s with
  | Step _ e _ =>
      match e with
      | Exists key => Some key
      | Do (SetHtml (Found key) _) | Do (SetText (Found key) _) | Do (SetDisabled (Found key) _) | Do (Content (Found key) _) =>
          Some key
      | _ => None
      end
  end.

(** The variable whose element a step fills. *)
Definition filled (s : taken web) : option string :=
  match s with
  | Step _ e _ =>
      match e with Do (SetHtml (Held v) _) | Do (Content (Held v) _) => Some v | _ => None end
  end.

Definition element_count (id : string) (page : list node) : nat :=
  length (List.filter (String.eqb id) (flat_map ids_of page)).

(** Every element a script looks up is one element of the page, and it fills
    no other, whatever the router answers. *)
Definition works_on (page : list node) (p : promise web unit) : Prop :=
  wp p (λ steps _,
    omap filled steps = [] ∧ ∀ id, id ∈ omap looked_up steps → element_count id page = 1%nat).

(** The script looks nothing up: it fills the element the page drew and
    [variable] holds. *)
Definition fills (page : list node) (variable : string) (area : node) (p : promise web unit) : Prop :=
  area ∈ flat_map nodes_of page ∧
  wp p (λ steps _, omap looked_up steps = [] ∧ Forall (eq variable) (omap filled steps)).

(** A browser that shows [page] answers lookups truly. *)
Definition shows (page : list node) (env : ∀ X, web X → X) : Prop :=
  ∀ id, env bool (Exists id) = negb (Nat.eqb (element_count id page) 0).

(** A step that names one element only. *)
Definition names_only (id : string) (s : taken web) : Prop :=
  filled s = None ∧ (looked_up s = None ∨ looked_up s = Some id).

Definition fills_only (variable : string) (s : taken web) : Prop :=
  looked_up s = None ∧ (filled s = None ∨ filled s = Some variable).

Lemma omap_none {A B} (f : A → option B) l : Forall (λ x, f x = None) l → omap f l = [].
Proof. induction 1 as [|x l Hx _ IH]; [done|]. cbn. by rewrite Hx. Qed.

Lemma names_works id page p : all_steps (names_only id) p → element_count id page = 1%nat → works_on page p.
Proof.
  intros Hp Hid. eapply wp_mono; [|exact Hp]. intros tr r H. split.
  - apply omap_none. eapply Forall_impl; [exact H|]. by intros s [? _].
  - intros i Hi. apply list_elem_of_omap in Hi as (s & Hs & Ht). rewrite Forall_forall in H.
    destruct (H s Hs) as [_ [Hn|Hn]]; [congruence|]. rewrite Hn in Ht. injection Ht as <-. exact Hid.
Qed.

Lemma fills_variable variable area page p :
  all_steps (fills_only variable) p → area ∈ flat_map nodes_of page → fills page variable area p.
Proof.
  intros Hp Hin. split; [done|]. eapply wp_mono; [|exact Hp]. intros tr r H. split.
  - apply omap_none. eapply Forall_impl; [exact H|]. by intros s [? _].
  - rewrite Forall_forall. intros i Hi. apply list_elem_of_omap in Hi as (s & Hs & Ht). rewrite Forall_forall in H.
    destruct (H s Hs) as [_ [Hn|Hn]]; congruence.
Qed.

Ltac names :=
  repeat match goal with
         | |- all_steps _ (Ret _) => apply all_steps_resolve
         | |- all_steps _ (resolve _) => apply all_steps_resolve
         | |- all_steps _ (reject _) => apply all_steps_resolve
         | |- all_steps _ (of_res ?r) => destruct r; apply all_steps_resolve
         | |- all_steps _ (perform _) => apply all_steps_perform; intros ?; split; first [done|by left|by right]
         | |- all_steps _ (send _) => apply all_steps_call; [intros ?; by split; [|left]|intros ?; apply all_steps_resolve]
         | |- all_steps _ (Call _ _) => apply all_steps_call; [intros ?; by split; [|left]|intros ?]
         | |- all_steps _ (catch _ _) => apply all_steps_catch; [|intros ?]
         | |- all_steps _ (resolveDefault _ _) => apply all_steps_catch; [|intros ?]
         | |- all_steps _ (finally _ _) => apply all_steps_bind; [|intros ?]
         | |- all_steps _ (await _ _) => apply all_steps_await; [|intros ?]
         | |- all_steps _ (abind _ _) => apply all_steps_bind; [|intros ?]
         | |- all_steps _ (match ?c with _ => _ end) => destruct c
         end.

Section PageFacts.
Context {I : I18n}.

Lemma status_poll_names checked name inst render :
  all_steps (names_only "service_status") (status_poll checked name inst render).
Proof. unfold status_poll, service_status, get_element, do, pass, rpc. names. Qed.

Lemma getVersionInfo_names id : all_steps (names_only id) getVersionInfo.
Proof. unfold getVersionInfo, object_of, rpc. names. Qed.

Lemma version_text_names id info : all_steps (names_only id) (version_text info).
Proof. unfold version_text. names. Qed.

Lemma update_names span :
  all_steps (names_only "update_status") (show_version span) ∧
  all_steps (names_only "update_status") initial_version ∧ all_steps (names_only "update_status") handleUpdate.
Proof.
  unfold handleUpdate, initial_version, show_version, checkUpdateStatus, object_of, rendered_update, update_done,
    get_element, window_has, do, wait, pass, rpc.
  split_and!; names; first [apply getVersionInfo_names|apply version_text_names].
Qed.

(** The scripts that look nothing up. *)
Lemma statusPoll_fills hostname port : all_steps (fills_only "statusView") (statusPoll hostname port).
Proof.
  unfold statusPoll, checkProcess, getVersionInfo, object_of, version_text, trimmed_stdout, fs_exec, rpc, do. names.
Qed.

Lemma tc_status_fills : all_steps (fills_only "statusView") tc_status.
Proof. unfold tc_status, tc_check, fs_exec, do. names. Qed.

Lemma log_scripts_fill date_of now h v :
  all_steps (fills_only "log_container") (ddns_fetch h v) ∧
  all_steps (fills_only "log_container") (clearLogs (ddns_fetch h v)) ∧
  all_steps (fills_only "log_container") (tc_log_poll date_of now h v) ∧
  all_steps (fills_only "log_container") tc_clear_log ∧
  all_steps (fills_only "log_textarea") sd_clear_log ∧ all_steps (fills_only "log_textarea") sd_log_poll ∧
  all_steps (fills_only "log_textarea") un_log_poll.
Proof.
  unfold ddns_fetch, clearLogs, tc_clear_log, tc_log_poll, sd_clear_log, sd_log_poll, un_log_poll, show_change,
    fs_exec, read_text, do, wait, pass.
  split_and!; names.
Qed.

(** On a page that has the element, a poll that does not look whether it is
    there ends well. *)
Lemma found_poll_succeeds (env : ∀ X, web X → X) checked name inst render :
  env bool (Exists "service_status") = true → snd (run_with env (status_poll checked name inst render)) = inr tt.
Proof.
  intros He. destruct (wp_run env _ _ (status_poll_shows checked name inst render)) as (answer & found & Hs & Hr).
  destruct found; [exact Hr|]. exfalso.
  unfold status_poll, service_status, resolveDefault, rpc in Hs. cbn in Hs.
  destruct (env _ (Rpc "service" "list" [name])) as [e|j]; cbn in Hs; rewrite He in Hs; cbn in Hs; congruence.
Qed.

(** C37: The elements the pages' scripts change are elements of their pages.
    The status polls of qBittorrent, OpenList, UnblockNeteaseMusic and smartdns and the
    two scripts that show the version of DDNS-GO look an element up by its id, and the page has
    exactly one element of that id, so that the polls of qBittorrent and
    UnblockNeteaseMusic, which do not look whether they found it, never fail on
    their own page.  The status polls of DDNS-GO and time
    control, and the polls and clear buttons of the logs of DDNS-GO, time
    control, smartdns and UnblockNeteaseMusic (which has no such button) look
    nothing up: they fill the element they hold, and the page has that
    element. *)
Theorem scripts_find_their_elements resource pollinterval locale_before un_hosts tc_hosts date_of now h v env :
  ((∀ host port, works_on (drawn qb_page) (qb_poll host port)) ∧
   (∀ host protocol port url, works_on (drawn openlist_page) (ol_poll host protocol port url)) ∧
   works_on (drawn (un_page un_hosts)) un_poll ∧
   (∀ source, works_on [sd_status_node] (sd_poll source)) ∧
   ∀ version, works_on (drawn (ddns_page version)) initial_version ∧ works_on (drawn (ddns_page version)) handleUpdate) ∧
  ((∀ host port, shows (drawn qb_page) env → snd (run_with env (qb_poll host port)) = inr tt) ∧
   (shows (drawn (un_page un_hosts)) env → snd (run_with env un_poll) = inr tt)) ∧
  ((∀ version host port, fills (drawn (ddns_page version)) "statusView" ddns_status_view (statusPoll host port)) ∧
   fills (drawn (tc_page locale_before tc_hosts)) "statusView" tc_status_view tc_status ∧
   fills [ddns_log_page pollinterval] "log_container" ddns_log_area (ddns_fetch h v) ∧
   fills [ddns_log_page pollinterval] "log_container" ddns_log_area (clearLogs (ddns_fetch h v)) ∧
   fills [tc_log_page resource pollinterval] "log_container" (tc_log_area resource) (tc_log_poll date_of now h v) ∧
   fills [tc_log_page resource pollinterval] "log_container" (tc_log_area resource) tc_clear_log ∧
   fills [sd_log_page resource pollinterval] "log_textarea" (sd_log_area resource) sd_log_poll ∧
   fills [sd_log_page resource pollinterval] "log_textarea" (sd_log_area resource) sd_clear_log ∧
   fills (un_log_page resource pollinterval) "log_textarea" (un_log_area resource) un_log_poll).
Proof.
  destruct (log_scripts_fill date_of now h v) as (H1 & H2 & H3 & H4 & H5 & H6 & H7).
  destruct (update_names "") as (_ & Hi & Hu). split_and!.
  5: { intros version. by split; apply (names_works "update_status"). }
  1-4: intros; by apply (names_works "service_status"); [apply status_poll_names|].
  1-2: intros; apply found_poll_succeeds; match goal with H : shows _ _ |- _ => by rewrite H end.
  all: intros; apply fills_variable; [first [done|apply statusPoll_fills|apply tc_status_fills]|].
  all: cbn; rewrite !elem_of_cons; tauto.
Qed.
End PageFacts.

(** The browser that shows the page of qBittorrent, and a router that answers
    nothing. *)
Definition dead_router (X : Type) (e : web X) : X :=
  match e with
  | FsExec _ _ => inl "" | FsText _ _ _ => inl "" | FsWrite _ _ => inl "" | FsFileType _ => inl ""
  | Rpc _ _ _ => inl "" | UciDo _ _ => inl "" | UciSet _ _ _ _ => tt | UciApply => inl (Refused 6) | Wait _ => tt
  | Exists id => negb (Nat.eqb (element_count id (drawn (@qb_page plain_i18n))) 0) | Defined _ => true | Do _ => tt
  end.

Lemma scripts_find_their_elements_witness :
  shows (drawn (@qb_page plain_i18n)) dead_router ∧
  snd (run_with dead_router (@qb_poll plain_i18n "router" "8080")) = inr tt.
Proof.
  split; [by intros id|].
  pose proof (@scripts_find_their_elements plain_i18n (λ p, p) "5" (λ _ _, true) [] [] (λ _, 0) 0 (mkHeights 0 0)
                (mkLogView (Txt "") "" true 0) dead_router) as H.
  refine (proj1 (proj1 (proj2 H)) "router" "8080" _). by intros id.
Defined.
