(* ===== verification/AppActions.v ===== *)
(** What the controls of the small applications and of smartdns do beside their
    declarations in [AppForms] and [SmartDnsForm]: buttons that run a command
    or open a page, the download of a certificate, the fields time control
    shows for a mode, lists of another look, the known hosts. *)
From stdpp Require Import base list strings infinite.
From Stdlib Require Import ZArith Lia Ascii Bool.
From S2P Require Import Prelude JsNum JsString Luci Forms AppForms LogViews Async SmartDnsForm SmartDnsPage Services AppPages.

Open Scope async_scope.

Section AppActions.
Context {I : I18n}.

(** ** Buttons of smartdns *)

(** What a click leads to: requests, another address in this window, or one in
    a new window. *)
Inductive clicked : Type :=
  | Requests (p : promise web unit)
  | GoesTo (url : string)
  | Opens (url : string).

(** [fs.exec('/etc/init.d/smartdns', [action])], of which only a rejection is
    shown. *)
Definition sd_service (action : string) : promise web unit :=
  catch (let! _ := fs_exec "/etc/init.d/smartdns" [action] in pass) (λ e, do (Notification e)).

(** The buttons the form draws, and its [Button] options, by name. *)
Definition sd_button_node (cls id text : string) : node := E "button" [("class", cls); ("id", id)] (Kids [Txt (tr text)]).

Definition sd_update_button : node * clicked :=
  (sd_button_node "btn cbi-button cbi-button-apply" "btn_update" "Update", Requests (sd_service "updatefiles")).
Definition sd_view_log_button : node * clicked :=
  (sd_button_node "btn cbi-button" "btn_view_log" "View Log", GoesTo "/cgi-bin/luci/admin/services/smartdns/log").
Definition sd_restart_button : node * clicked :=
  (sd_button_node "btn cbi-button cbi-button-apply" "btn_restart" "Restart", Requests (sd_service "restart")).

Definition sd_support_click (name : string) : option clicked :=
  if String.eqb name "web" then Some (Opens "https://pymumu.github.io/smartdns")
  else if String.eqb name "report" then Some (Opens "https://github.com/pymumu/smartdns/issues")
  else if String.eqb name "Donate" then Some (Opens "https://pymumu.github.io/smartdns/#donate")
  else None.

(** [load] and [render]: the groups of the servers and the downloads are read
    from the configuration that was loaded. *)
Definition sd_load : promise web bool :=
  load_config "dhcp" ;! load_config "smartdns" ;! isSmartdnsUiAvailable.

Definition sd_view (groups : list (option string)) (downloads : list download)
    : promise web (list (section_head * list field)) :=
  let! hasUi := sd_load in of_res (smartdns_page hasUi groups downloads).

(** ** The certificate of UnblockNeteaseMusic *)

(** The browser: the links in the document's body, the addresses of objects
    with their content, and the files saved. *)
Record browser : Type := mkBrowser {
  br_links : list string;
  br_urls : list (string * string);
  br_saved : list (string * string);
}.

(** The address of a new object is the browser's. *)
Context (fresh_url : list string → string).

Definition createObjectURL (blob : string) (b : browser) : string * browser :=
  let url := fresh_url (map fst (br_urls b)) in
  (url, mkBrowser (br_links b) ((url, blob) :: br_urls b) (br_saved b)).
Definition revokeObjectURL (url : string) (b : browser) : browser :=
  mkBrowser (br_links b) (List.filter (λ u, negb (String.eqb (fst u) url)) (br_urls b)) (br_saved b).
Definition append_link (url : string) (b : browser) : browser :=
  mkBrowser (br_links b ++ [url]) (br_urls b) (br_saved b).
(** The link appended last is removed. *)
Definition remove_link (b : browser) : browser := mkBrowser (removelast (br_links b)) (br_urls b) (br_saved b).
(** A click on a link with a [download] attribute saves what its address
    stands for. *)
Definition click_link (url file : string) (b : browser) : browser :=
  match List.find (λ u, String.eqb (fst u) url) (br_urls b) with
  | Some (_, blob) => mkBrowser (br_links b) (br_urls b) (br_saved b ++ [(file, blob)])
  | None => b
  end.

(** The click: the answer to [read_direct] is the certificate or an error; the
    notification, if any. *)
Definition download_cert (read : string + string) (b : browser) : browser * option string :=
  match read with
  | inl e => (b, Some (format (tr "下载文件失败：%s。") [FStr e]))
  | inr blob =>
      let '(url, b) := createObjectURL blob b in
      let b := append_link url b in
      let b := click_link url "ca.crt" b in
      let b := remove_link b in
      (revokeObjectURL url b, None)
  end.

(** The list of sources offers no text of one's own: the entry that asks for
    one is taken out of the list the framework drew, if it drew any. *)
Fixpoint remove_custom (items : list string) : list string :=
  match items with
  | [] => []
  | v :: items => if String.eqb v "-" then items else v :: remove_custom items
  end.
Definition music_source_widget (dl : option (list string)) : option (list string) := option_map remove_custom dl.

(** ** Time control *)

(** [onchange] of the mode, in the row it finds: the [display] of the parents
    of the fields that are there. *)
Definition mode_display (mode field : string) : string :=
  let either a b := if String.eqb mode a || String.eqb mode b then "" else "none" in
  if String.eqb field "timestart" || String.eqb field "timeend" then either "period" "combined"
  else if String.eqb field "use_duration" then either "combined" "combined"
  else either "duration" "combined".

Definition time_mode_changed (mode : string) (row : option (list string)) : list (string * string) :=
  match row with
  | Some cells =>
      map (λ f, (f, mode_display mode f))
        (List.filter (λ f, existsb (String.eqb f) cells) ["timestart"; "timeend"; "duration"; "use_duration"; "reset_cycle"])
  | None => []
  end.

(** [cbiRichListValue]: the dropdown it draws. *)
Record dropdown : Type := mkDropdown {
  dr_value : option string;
  dr_choices : list (string * string);
  dr_sort : list string;
  dr_optional : bool;
  dr_select_placeholder : option string;
  dr_custom_placeholder : option string;
  dr_disabled : bool;
}.

Definition rich_or (a b : option string) : option string :=
  match a with Some t => if str_truthy t then a else b | None => b end.

Definition rich_widget (o : form_option) (select_placeholder custom_placeholder : option string)
    (readonly : option bool) (map_readonly : bool) (cfgvalue : option string) : dropdown :=
  mkDropdown
    (match cfgvalue with
     | Some v => Some v
     | None => match fo_default o with DText d => Some d | _ => None end
     end)
    (fo_values o) (map fst (fo_values o)) true
    (rich_or select_placeholder (fo_placeholder o)) (rich_or custom_placeholder (fo_placeholder o))
    (default map_readonly readonly).

(** [getHostList]: what the framework knows of the hosts, as it answers. *)
Record raw_host : Type := mkRawHost {
  rh_ipv4 : option string;
  rh_mac : option string;
  rh_name : option string;
  rh_ipv6 : option string;
}.
Inductive hints_reply : Type :=
  | HintsRejected
  | HintsObject
  | HintsArray (l : list raw_host).

Definition truthy_text (t : option string) : option string :=
  match t with Some t => if str_truthy t then Some t else None | None => None end.

(** An object has no [length]: it counts as no host. *)
Definition getHostList (reply : hints_reply) : list (string * string * string * string) :=
  match reply with
  | HintsRejected | HintsObject => []
  | HintsArray hosts =>
      omap (λ h, match truthy_text (rh_ipv4 h), truthy_text (rh_mac h) with
                 | Some ip, Some mac => Some (ip, mac, default "" (truthy_text (rh_name h)), default "" (truthy_text (rh_ipv6 h)))
                 | _, _ => None
                 end) hosts
  end.
End AppActions.

(** ** Facts *)

Section ActionFacts.
Context {I : I18n}.

(** A service button makes one request and never ends in an error; only a
    request that is rejected shows on the page, not an exit code. *)
Theorem sd_service_reports action :
  wp (sd_service action) (λ steps r,
    r = inr tt ∧
    ((∃ reply, steps = [Step _ (FsExec "/etc/init.d/smartdns" [action]) (inr reply)]) ∨
     ∃ e, steps = [Step _ (FsExec "/etc/init.d/smartdns" [action]) (inl e); Step _ (Do (Notification e)) tt])).
Proof.
  unfold sd_service. intros [e|reply]; cbn; [intros []; cbn|]; (split; [done|]); [right|left]; by eexists.
Qed.

(** C35: The page of smartdns appears for every configuration, whether or not the
    web interface is installed or can be asked for: only a configuration file
    that does not load keeps it away, with the error of that request. *)
Theorem sd_view_appears groups downloads :
  wp (sd_view groups downloads) (λ steps r,
    match r with
    | inr page => ∃ hasUi, page = zip sd_heads (map snd (smartdns_sections hasUi groups downloads))
    | inl e => ∃ config, Step _ (UciDo "load" [config]) (inl e) ∈ steps
    end).
Proof.
  assert (∀ hasUi, smartdns_page hasUi groups downloads =
    Ok (zip sd_heads (map snd (smartdns_sections hasUi groups downloads)))) as Hp
    by (intros hasUi; apply (proj1 (smartdns_page_made hasUi groups downloads))).
  unfold sd_view, sd_load, isSmartdnsUiAvailable, load_config, uci_do, send.
  intros [e|[]]; cbn -[smartdns_page smartdns_sections sd_heads]; [exists "dhcp"; by left|].
  intros [e|[]]; cbn -[smartdns_page smartdns_sections sd_heads]; [exists "smartdns"; right; by left|].
  intros [e|t]; cbn -[smartdns_page smartdns_sections sd_heads]; rewrite Hp; cbn -[smartdns_sections sd_heads]; by eexists.
Qed.

Lemma find_fresh (urls : list (string * string)) (url : string) :
  url ∉ map fst urls → List.filter (λ u, negb (String.eqb (fst u) url)) urls = urls.
Proof.
  intros H. induction urls as [|[u b] urls IH]; [done|]. cbn in *. apply not_elem_of_cons in H as [Hu Hs].
  destruct (String.eqb_spec u url) as [->|]; [done|]. cbn. by rewrite IH.
Qed.

(** The download leaves the page as it was: one file is saved, under the name
    of the certificate and with its content, the link is out of the document
    and the address of the object is given back; a failed read changes nothing
    but for the notification. *)
Theorem download_restores (fresh_url : list string → string) read b :
  (∀ l, fresh_url l ∉ l) →
  download_cert fresh_url read b =
    match read with
    | inl e => (b, Some (format (tr "下载文件失败：%s。") [FStr e]))
    | inr blob => (mkBrowser (br_links b) (br_urls b) (br_saved b ++ [("ca.crt", blob)]), None)
    end.
Proof.
  intros Hf. destruct read as [e|blob]; [done|]. unfold download_cert, createObjectURL, click_link, append_link.
  cbn. rewrite String.eqb_refl. cbn. unfold remove_link, revokeObjectURL. cbn.
  by rewrite String.eqb_refl, removelast_last, find_fresh.
Qed.

(** Taking out the entry for other texts leaves the sources the form offers. *)
Lemma sources_kept (l : list string) : "-" ∉ l → music_source_widget (Some (l ++ ["-"])) = Some l.
Proof.
  intros H. cbn. f_equal. induction l as [|v l IH]; [done|]. cbn.
  apply not_elem_of_cons in H as [Hv Hl]. destruct (String.eqb_spec v "-") as [->|]; [done|]. by rewrite IH.
Qed.

Lemma sources_offered o :
  find_option "music_source" un_sources = Some o → music_source_widget (Some (map fst (fo_values o) ++ ["-"])) = Some (map fst (fo_values o)).
Proof.
  intros [= <-]. apply sources_kept. intros Hin. cbn in Hin. by repeat (apply elem_of_cons in Hin as [[=]|Hin]); apply elem_of_nil in Hin.
Qed.

(** A dependency on the mode, as the framework reads it where [!contains] is
    set: the text occurs in the value. *)
Definition met_by (mode : string) (alternative : list (string * string)) : bool :=
  forallb (λ '(n, v), String.prefix "!" n || String.eqb n "time_mode" && includes mode v) alternative.

(** For the modes of the form, the fields the hook shows are those whose
    declared dependencies hold; so the hook and the declaration agree. *)
Theorem time_mode_fields mode o :
  mode ∈ map fst (fo_values tc_time_mode) → o ∈ tc_device_limits → fo_depends o ≠ [] →
  time_mode_changed mode (Some [fo_name o]) =
    [(fo_name o, if existsb (met_by mode) (fo_depends o) then "" else "none")].
Proof.
  intros Hm Ho Hd. unfold tc_device_limits in Ho.
  repeat (apply elem_of_cons in Hm as [->|Hm]; [|]); [..|by apply elem_of_nil in Hm];
    (repeat (apply elem_of_cons in Ho as [->|Ho]; [first [by exfalso; apply Hd|reflexivity]|]); by apply elem_of_nil in Ho).
Qed.

(** Any other text, such as the name of a section, hides them all. *)
Lemma no_mode_hides mode field :
  mode ∉ map fst (fo_values tc_time_mode) → mode_display mode field = "none".
Proof.
  cbn. rewrite !not_elem_of_cons. intros (H1 & H2 & H3 & _). unfold mode_display.
  apply String.eqb_neq in H1 as ->, H2 as ->, H3 as ->. by repeat case_match.
Qed.

(** The hosts listed have both addresses, in the order of the answer. *)
Lemma getHostList_complete reply ip mac name ip6 :
  (ip, mac, name, ip6) ∈ getHostList reply → str_truthy ip = true ∧ str_truthy mac = true.
Proof.
  destruct reply as [| |hosts]; [by intros ?%elem_of_nil..|]. cbn. intros (h & _ & Hh)%list_elem_of_omap.
  unfold truthy_text in Hh.
  destruct (rh_ipv4 h) as [a|]; [|done]. destruct (str_truthy a) eqn:Ea; [|done].
  destruct (rh_mac h) as [m|]; [|done]. destruct (str_truthy m) eqn:Em; [|done]. by simplify_eq.
Qed.
End ActionFacts.

(** A page with a link and an object of its own. *)
Lemma download_restores_witness :
  let b := mkBrowser ["a"] [("blob:x", "y")] [] in
  (∀ l : list string, fresh l ∉ l) ∧
  download_cert (I := plain_i18n) fresh (inr "pem") b = (mkBrowser ["a"] [("blob:x", "y")] [("ca.crt", "pem")], None).
Proof.
  split; [intros l; apply infinite_is_fresh|].
  exact (download_restores (I := plain_i18n) fresh (inr "pem") (mkBrowser ["a"] [("blob:x", "y")] []) infinite_is_fresh).
Defined.

Lemma time_mode_fields_witness :
  time_mode_changed "duration" (Some ["use_duration"]) = [("use_duration", "none")].
Proof.
  refine (time_mode_fields (I := plain_i18n) "duration" (default tc_time_mode (tc_device_limits (I := plain_i18n) !! 4%nat)) _ _ _).
  - apply elem_of_cons. right. apply elem_of_cons. by left.
  - cbn. do 4 (apply elem_of_cons; right). apply elem_of_cons. by left.
  - discriminate.
Defined.
