(* ===== verification/MwanPages.v ===== *)
(** What the views of mwan3 put around the framework's form: the toolbar of the
    policy page ([network/policy.js]), the fields, hints and result of the
    simulator ([network/simulator.js]), and the page of the user script
    ([network/notify.js]).  The form as the framework draws it is a parameter. *)
From stdpp Require Import base list strings.
From Stdlib Require Import ZArith Lia Ascii Bool.
From S2P Require Import Prelude JsNum JsString JsArray JsObject Luci Components EditorNode AppPages.
From S2P Require Import Validators Widgets Policy PolicyPage Simulator.

(** ** Insertion into a page *)

(** Whether [querySelector] of a class finds the element. *)
Definition bears_class (c : string) (n : node) : bool :=
  match n with
  | E _ a _ => existsb (String.eqb c) (str_split " " (default "" (get_attr "class" a)))
  | TextNode _ => false
  end.

(** The new node after the first element of a list, or below it, that the
    condition picks, in document order. *)
Definition after_in (P : node → bool) (below : node → option node) (t : node) : list node → option (list node) :=
  fix go l := match l with
              | [] => None
              | n :: l' =>
                  if P n then Some (n :: t :: l')
                  else match below n with
                       | Some n' => Some (n' :: l')
                       | None => option_map (cons n) (go l')
                       end
              end.

(** [descr.parentNode.insertBefore(t, descr.nextSibling)] where [descr] is the
    first such element below the node. *)
Fixpoint insert_after (P : node → bool) (t : node) (n : node) : option node :=
  match n with
  | E g a (Kids l) => option_map (λ l', E g a (Kids l')) (after_in P (insert_after P t) t l)
  | E g a (One m) =>
      if P m then Some (E g a (Kids [m; t])) else option_map (λ m', E g a (One m')) (insert_after P t m)
  | _ => None
  end.

(** [node.insertBefore(t, node.firstChild)] *)
Definition insert_first (t : node) (n : node) : node :=
  match n with
  | E g a (Kids l) => E g a (Kids (t :: l))
  | E g a (One m) => E g a (Kids [t; m])
  | E g a (Html s) => E g a (Kids (t :: if str_truthy s then [TextNode s] else []))
  | TextNode s => TextNode s
  end.

Definition insert_toolbar (t : node) (n : node) : node :=
  match insert_after (bears_class "cbi-map-descr") t n with
  | Some n' => n'
  | None => insert_first t n
  end.

Section MwanPages.
Context {I : I18n}.

(** The policy page: the form with the toolbar of the preference. *)
Definition policy_page (form : node) : node := insert_toolbar toolbar form.

(** ** The simulator *)

(** The first input or select of a field gets the width the fields share; the
    framework draws a field with one of the two. *)
Definition marked_field (field : node) : node :=
  let add a := set_attr "class" (let present := default "" (get_attr "class" a) in
                                 if str_truthy present then present +:+ " mwan3-sim-field" else "mwan3-sim-field") a in
  match on_first "input" add field with
  | Some f => f
  | None => with_first "select" add field
  end.

Definition append_child (t : node) (n : node) : node :=
  match n with
  | E g a (Kids l) => E g a (Kids (l ++ [t]))
  | E g a (One m) => E g a (Kids [m; t])
  | E g a (Html s) => E g a (Kids ((if str_truthy s then [TextNode s] else []) ++ [t]))
  | TextNode s => TextNode s
  end.

Definition hint_node (text : string) : node :=
  E "span" [("class", "mwan3-sim-hint " +:+ textClass (Some muted))] (Kids (if str_truthy text then [TextNode text] else [])).

(** The two address fields with their hints. *)
Definition hinted_field (field : node) (text : string) : node := append_child (hint_node text) (marked_field field).

Definition simulator_page (mapNode : node) (result : list node) : node :=
  E "div" []
    (Kids [mapNode;
           E "div" [("class", "right mwan3-sim-actions")]
             (Kids [E "button" [("class", "cbi-button cbi-button-apply")] (Html (tr "Simulate"))]);
           E "div" [] (Kids result)]).

(** ** The hints over time

    What the page does with the two hints: every run clears them; a run that
    has its names resolved writes those that were resolved, the first also
    when the second was not; typing in a field clears its hint. *)
Record hints : Type := mkHints {
  ht_src : string;
  ht_dst : string;
}.

Inductive hint_event : Type :=
  | RunStarted
  | Resolved (src dst : option string)
  | TypedSrc
  | TypedDst.

Definition on_hint (h : hints) (e : hint_event) : hints :=
  match e with
  | RunStarted => mkHints "" ""
  | Resolved src dst => mkHints (default (ht_src h) src) (default (ht_dst h) dst)
  | TypedSrc => mkHints "" (ht_dst h)
  | TypedDst => mkHints (ht_src h) ""
  end.

Definition hints_after (evs : list hint_event) : hints := fold_left on_hint evs (mkHints "" "").

(** What the answers to the two name requests write: nothing when the source
    has no address, the source's hint only when the destination has none. *)
Definition resolution (srcRaw dstRaw family : string) (src dst : option answer) : hint_event :=
  let written raw a := match a, use_resolved raw family a with
                       | Some _, Some (_, hint) => Some hint
                       | _, _ => None
                       end in
  match use_resolved srcRaw family src with
  | None => Resolved None None
  | Some _ => Resolved (written srcRaw src) (written dstRaw dst)
  end.

(** ** The user script *)

Definition notify_notes : string :=
  tr ("This section allows you to modify the content of " +:+ dq +:+ "/etc/mwan3.user" +:+ dq +:+ ".") +:+ "<br/>"
  +:+ tr "The file is also preserved during sysupgrade." +:+ "<br/>" +:+ "<br />"
  +:+ tr "Notes:" +:+ "<br />"
  +:+ tr "This file is interpreted as a shell script." +:+ "<br />"
  +:+ tr "The first line of the script must be &#34;#!/bin/sh&#34; without quotes." +:+ "<br />"
  +:+ tr "Lines beginning with # are comments and are not executed." +:+ "<br />"
  +:+ tr "Put your custom mwan3 action here, they will be executed with each netifd hotplug interface event on interfaces for which mwan3 is enabled."
  +:+ "<br />" +:+ "<br />"
  +:+ tr "There are three main environment variables that are passed to this script." +:+ "<br />" +:+ "<br />"
  +:+ format (tr "%s: Name of the action that triggered this event") [FStr "$ACTION"] +:+ "<br />"
  +:+ format (tr "* %s: Is called by netifd and mwan3track") [FStr "ifup"] +:+ "<br />"
  +:+ format (tr "* %s: Is called by netifd and mwan3track") [FStr "ifdown"] +:+ "<br />"
  +:+ format (tr "* %s: Is only called by mwan3track if tracking was successful") [FStr "connected"] +:+ "<br />"
  +:+ format (tr "* %s: Is only called by mwan3track if tracking has failed") [FStr "disonnected"] +:+ "<br />"
  +:+ format (tr ("%s: Name of the interface which went up or down (e.g. " +:+ dq +:+ "wan" +:+ dq +:+ " or " +:+ dq +:+ "wwan" +:+ dq +:+ ")"))
        [FStr "$INTERFACE"] +:+ "<br />"
  +:+ format (tr ("%s: Name of Physical device which interface went up or down (e.g. " +:+ dq +:+ "eth0" +:+ dq +:+ " or " +:+ dq +:+ "wwan0" +:+ dq +:+ ")"))
        [FStr "$DEVICE"] +:+ "<br />".

(** [render], with the framework's text area for the script; a user who may not
    write gets it disabled, and no save. *)
Definition notify_page (textarea : string → bool → node) (readonly : bool) (mwan3user : option string) : list node :=
  [E "h2" [] (Html (tr "MultiWAN Manager - Notify"));
   E "p" [("class", "cbi-section-descr")] (Html notify_notes);
   textarea (default "" mwan3user) readonly].
End MwanPages.

(** ** Facts *)

Lemma element_count_E id g a l :
  element_count id [E g a (Kids l)] = (length (List.filter (String.eqb id) (map snd (List.filter (λ p, String.eqb (fst p) "id") a)))
                                       + element_count id l)%nat.
Proof. unfold element_count. cbn. by rewrite app_nil_r, List.filter_app, length_app. Qed.

Lemma element_count_one id g a m : element_count id [E g a (One m)] = element_count id [E g a (Kids [m])].
Proof. unfold element_count. cbn. by rewrite !app_nil_r. Qed.

Lemma element_count_cons id n l : element_count id (n :: l) = (element_count id [n] + element_count id l)%nat.
Proof. unfold element_count. cbn. by rewrite app_nil_r, List.filter_app, length_app. Qed.

(** An inserted node is in the result once more than it was before, and the
    other ids stay, wherever it went. *)
Lemma after_in_ids P below t l l' id :
  Forall (λ n, ∀ n', below n = Some n' → element_count id [n'] = (element_count id [t] + element_count id [n])%nat) l →
  after_in P below t l = Some l' →
  element_count id l' = (element_count id [t] + element_count id l)%nat.
Proof.
  pose proof (element_count_cons id) as Hc.
  intros Hl. revert l'. induction Hl as [|n l Hn _ IH]; intros l'; cbn [after_in]; [done|].
  destruct (P n); [intros [= <-]; rewrite (Hc n (t :: l)), (Hc t l), (Hc n l); lia|].
  destruct (below n) as [n'|] eqn:E; [intros [= <-]; rewrite (Hc n' l), (Hc n l), (Hn _ eq_refl); lia|].
  destruct (after_in P below t l) as [l0|] eqn:El; cbn [option_map]; [|done]. intros [= <-].
  rewrite (Hc n l0), (Hc n l), (IH _ eq_refl). lia.
Qed.

Lemma insert_after_ids P t n n' id :
  insert_after P t n = Some n' → element_count id [n'] = (element_count id [t] + element_count id [n])%nat.
Proof.
  revert n'. induction n as [s|g a s|g a l Hl|g a m Hm] using node_nested; intros n'; cbn [insert_after]; try done.
  - destruct (after_in P (insert_after P t) t l) as [l'|] eqn:El; cbn [option_map]; [|done]. intros [= <-].
    rewrite !element_count_E. rewrite (after_in_ids P (insert_after P t) t l l' id); [lia| |done].
    eapply Forall_impl; [exact Hl|]. intros x Hx x' Hx'. by apply Hx.
  - destruct (P m); [intros [= <-]|].
    + rewrite element_count_one, !element_count_E, element_count_cons, (element_count_cons id m []). cbn. lia.
    + destruct (insert_after P t m) as [m'|] eqn:Em; cbn [option_map]; [|done]. intros [= <-].
      rewrite !element_count_one, !element_count_E. specialize (Hm _ eq_refl).
      rewrite (element_count_cons id m' []), (element_count_cons id m []). lia.
Qed.

(** The box of the preference is on the page once, whether the form has a
    description or not. *)
Theorem preference_shown `{I18n} g a (l : list node) :
  element_count "pref_delete_members" [E g a (Kids l)] = 0%nat →
  element_count "pref_delete_members" [policy_page (E g a (Kids l))] = 1%nat.
Proof.
  intros Hl. unfold policy_page, insert_toolbar.
  destruct (insert_after _ toolbar (E g a (Kids l))) as [n'|] eqn:E.
  - rewrite (insert_after_ids _ _ _ _ _ E), Hl. reflexivity.
  - cbn [insert_first]. rewrite element_count_E, element_count_cons in *. cbn in *. lia.
Qed.

Lemma preference_shown_witness :
  element_count "pref_delete_members"
    [@policy_page plain_i18n (E "div" [] (Kids [E "h2" [] (Html "t"); E "div" [("class", "cbi-map-descr")] (Html "d");
                                               E "div" [] (Kids [])]))] = 1%nat.
Proof. by apply preference_shown. Defined.

Section HintFacts.
Context {I : I18n} {V : Validation}.

(** The hints a run that goes on carries to its end are those it wrote. *)
Lemma resolution_written i src dst reqs k :
  resolved_then i src dst = Ask reqs k →
  ∃ s sh dh, k = refreshed s sh dh ∧
    hints_after [RunStarted; resolution (trimmed (inp_src i)) (trimmed (inp_dst i)) (default "" (inp_family i)) src dst]
    = mkHints sh dh.
Proof.
  unfold resolved_then, resolution, hints_after. cbn -[use_resolved].
  destruct (use_resolved (trimmed (inp_src i)) _ src) as [[sip sh]|] eqn:Es; [|done].
  destruct (use_resolved (trimmed (inp_dst i)) _ dst) as [[dip dh]|] eqn:Ed; [|done].
  intros [= <- <-]. eexists _, sh, dh. split; [reflexivity|].
  assert (∀ raw fam a ip h, use_resolved raw fam a = Some (ip, h) → a = None → h = "") as Hnone.
  { intros raw fam a ip h H ->. cbn in H. by injection H. }
  destruct src as [a1|]; rewrite ?Es; cbn -[use_resolved]; [|rewrite (Hnone _ _ _ _ _ Es eq_refl)];
    (destruct dst as [a2|]; rewrite ?Ed; cbn; [|rewrite (Hnone _ _ _ _ _ Ed eq_refl)]); reflexivity.
Qed.

(** Typing while the names are being resolved does not keep the hint of the
    earlier name away: it appears beside the new text. *)
Lemma hint_beside_new_text sh :
  ht_src (hints_after [RunStarted; TypedSrc; Resolved (Some sh) None]) = sh.
Proof. reflexivity. Qed.

(** Without a pending run, a field that was typed in has no hint. *)
Lemma typed_clears evs : ht_src (hints_after (evs ++ [TypedSrc])) = "" ∧ ht_dst (hints_after (evs ++ [TypedDst])) = "".
Proof. unfold hints_after. by rewrite !fold_left_app. Qed.
End HintFacts.
