(* ===== verification/WanPage.v ===== *)
(** [view/netspeedtest/wanspeedtest.js] as scripts: what the page asks for when
    it is loaded and polled, what a click on its button does, and what it then
    shows ([NetSpeed] has the parsing and the texts). *)
From stdpp Require Import base list strings.
From Stdlib Require Import ZArith Lia Ascii Bool.
From S2P Require Import Prelude JsNum JsString Luci Forms Async NetSpeed Services AppPages.

Open Scope async_scope.

Section WanPage.
Context {I : I18n}.

(** The time of a [fs.stat] answer in seconds; [None] for the default [{}]. *)
Definition mtime_of (v : json) : option Z :=
  match v with
  | JObj fields =>
      match List.find (λ f, String.eqb (fst f) "mtime") fields with
      | Some (_, JNum (Fin t)) => Some t
      | _ => None
      end
  | _ => None
  end.

(** [fs.stat], of which the page reads the time only. *)
Definition stat (path : string) : promise web (option Z) :=
  resolveDefault (let! v := rpc "file" "stat" [path] in resolve (mtime_of v)) None.

Definition read_result : promise web (option string) :=
  resolveDefault (let! t := read_text "read" ResultFile [] in resolve (Some t)) None.

(** [startSpeedTest] as the requests it makes. *)
Definition start_requests (version : string) : promise web unit :=
  fs_write ResultFile ("Testing" +:+ lf) ;!
  (let! _ := catch (fs_exec "/bin/ash" ["-c"; shell_command version])
                   (λ _, fs_exec "/bin/sh" ["-c"; shell_command version]) in pass).

(** The click on the start button: the flag is set on the option, not on the
    button; errors are dropped. *)
Definition wan_onclick (selected : option string) (has_ookla : bool) : promise web unit :=
  catch (start_requests (chosen_version selected has_ookla)) (λ _, pass).

(** [write] of the version list: the choice is stored at once. *)
Definition version_write (section_id formvalue : string) : promise web unit :=
  uci_set "netspeedtest" section_id "test_version" formvalue ;!
  uci_do "save" ["netspeedtest"].

(** One poll, at the time [now]; the button and the area may be missing. *)
Definition wan_poll (now : Z) : promise web unit :=
  let! _ := stat "/usr/bin/ookla-speedtest" in
  let! _ := stat "/usr/bin/speedtest" in
  let! file := read_result in
  let! mtime := stat ResultFile in
  let '(disabled, html) := poll_status now file mtime in
  let! button := get_element ".cbi-button-apply" in
  (if button then do (SetDisabled (Found ".cbi-button-apply") disabled) else pass) ;!
  let! area := get_element "speedtest_result" in
  if area then do (SetHtml (Found "speedtest_result") html) else pass.

(** [load]: which programs are installed (their reply has a path), the result
    file and its time.  The configuration that cannot be loaded is the one
    failure that keeps the page away. *)
Record loaded : Type := mkLoaded {
  ld_ookla : bool;
  ld_python : bool;
  ld_file : option string;
  ld_mtime : option Z;
}.

Definition has_path (v : json) : bool :=
  if jtruthy v then match jget v "path" with Ok p => jtruthy p | Throw _ => false end else false.

Definition stat_path (path : string) : promise web bool :=
  resolveDefault (let! v := rpc "file" "stat" [path] in resolve (has_path v)) false.

Definition wan_load : promise web loaded :=
  let! ookla := stat_path "/usr/bin/ookla-speedtest" in
  let! python := stat_path "/usr/bin/speedtest" in
  let! file := read_result in
  let! mtime := stat ResultFile in
  load_config "netspeedtest" ;!
  resolve (mkLoaded ookla python file mtime).

(** The options of the form: the version, and the button that starts. *)
Definition version_option (v : versions) : form_option :=
  let o := option_ ListValue "test_version" (tr "Select Test Version") "" ▷ values (version_choices v) in
  match version_default v with Some d => o ▷ dflt d | None => o end.

Definition start_option (is_testing : bool) : form_option :=
  let o := option_ Button "start" (tr "Start Speed Test") "" ▷ attr "inputtitle" (tr "Click to start speed test")
             ▷ attr "inputstyle" "apply" in
  if is_testing then o ▷ attr "readonly" "true" else o.

(** [render], at the time [now]. *)
Definition wan_page (now : Z) (r : loaded) : form_page :=
  let content := result_content (ld_file r) in
  let is_testing := isTesting now content (result_mtime (ld_mtime r)) in
  mkFormPage "netspeedtest" (tr "Wan SpeedTest") ""
    [Drawn (first_view is_testing (parseResult content));
     Fields (mkFormSection (NamedSection "config") "netspeedtest" false true false false
               [version_option (detectVersions (ld_ookla r) (ld_python r)); start_option is_testing]) "" "" []].
End WanPage.

(** ** Facts *)

(** What a step does to the router. *)
Definition effect_of (s : taken web) : option NetSpeed.action :=
  match s with
  | Step _ e _ =>
      match e with
      | FsWrite path content => Some (NetSpeed.Write path content)
      | FsExec path args => Some (NetSpeed.Run path args)
      | _ => None
      end
  end.

Definition effects (tr : list (taken web)) : list NetSpeed.action := omap effect_of tr.

Section WanFacts.
Context {I : I18n}.

(** The requests are those of [startSpeedTest], given how the write and the
    first shell end; nothing is left unhandled. *)
Theorem wan_onclick_refines selected has_ookla :
  wp (wan_onclick selected has_ookla) (λ steps r,
    r = inr tt ∧ ∃ written ash, effects steps = startSpeedTest (chosen_version selected has_ookla) written ash).
Proof.
  unfold wan_onclick, start_requests. intros [e|[]]; cbn; [by split; [|exists false, false]|].
  intros [e|r]; cbn; [|by split; [|exists true, true]].
  intros [e2|r2]; cbn; (split; [done|by exists true, false]).
Qed.

(** A click changes nothing on the page: until the next poll the button can be
    clicked again, and the second test runs beside the first. *)
Lemma wan_onclick_no_acts selected has_ookla :
  wp (wan_onclick selected has_ookla) (λ steps _, acts steps = []).
Proof.
  unfold wan_onclick, start_requests. intros [e|[]]; cbn; [done|]. intros [e|r]; cbn; [|done].
  by intros [e2|r2]; cbn.
Qed.

(** The parts of the page a poll finds. *)
Definition shown_poll (button area : bool) (status : bool * string) : list act :=
  (if button then [SetDisabled (Found ".cbi-button-apply") (fst status)] else [])
  ++ (if area then [SetHtml (Found "speedtest_result") (snd status)] else []).

(** Every poll shows the state of the result file it read, failures of its
    requests included. *)
Lemma stat_settles path : settles (stat path).
Proof. apply settles_default. Qed.

Theorem wan_poll_shows now :
  wp (wan_poll now) (λ steps r,
    r = inr tt ∧ ∃ file mtime button area, acts steps = shown_poll button area (poll_status now file mtime)).
Proof.
  unfold wan_poll, stat, read_result, resolveDefault.
  intros [e1|v1]; cbn -[poll_status mtime_of]; intros [e2|v2]; cbn -[poll_status mtime_of];
    intros [e3|v3]; cbn -[poll_status mtime_of]; intros [e4|v4]; cbn -[poll_status mtime_of];
    match goal with |- context [poll_status now ?f ?m] =>
      destruct (poll_status now f m) as [d h] eqn:Ep end;
    repeat (intros []; cbn -[poll_status mtime_of]); (split; [done|]);
    match type of Ep with poll_status now ?f ?m = _ => exists f, m end; rewrite Ep;
    first [exists true, true; reflexivity|exists true, false; reflexivity
          |exists false, true; reflexivity|exists false, false; reflexivity].
Qed.

(** ** The first view and the polls *)

(** The default is one of the choices; without any the form has none. *)
Lemma version_default_offered v :
  match version_default v with
  | Some d => d ∈ map fst (version_choices v)
  | None => version_choices v = []
  end.
Proof. destruct v as [[] [] a]; cbn; rewrite ?elem_of_cons; auto. Qed.

Lemma wan_load_replies env r :
  snd (run_with env wan_load) = inr r →
  ld_file r = match env _ (FsText "read" ResultFile []) with inr t => Some t | inl _ => None end ∧
  ld_mtime r = match env _ (Rpc "file" "stat" [ResultFile]) with inr v => mtime_of v | inl _ => None end.
Proof.
  unfold wan_load, stat_path, stat, read_result, read_text, load_config, uci_do, rpc, resolveDefault. cbn -[mtime_of has_path].
  destruct (env _ (Rpc "file" "stat" ["/usr/bin/ookla-speedtest"])); cbn -[mtime_of has_path];
    destruct (env _ (Rpc "file" "stat" ["/usr/bin/speedtest"])); cbn -[mtime_of has_path];
    destruct (env _ (FsText "read" ResultFile [])); cbn -[mtime_of has_path];
    destruct (env _ (Rpc "file" "stat" [ResultFile])); cbn -[mtime_of has_path];
    destruct (env _ (UciDo "load" ["netspeedtest"])); cbn -[mtime_of has_path]; intros [= <-]; done.
Qed.

(** What a poll leaves, by the answers of the router. *)
Lemma wan_poll_acts env now :
  acts (fst (run_with env (wan_poll now))) =
    shown_poll (env _ (Exists ".cbi-button-apply")) (env _ (Exists "speedtest_result"))
      (poll_status now (match env _ (FsText "read" ResultFile []) with inr t => Some t | inl _ => None end)
         (match env _ (Rpc "file" "stat" [ResultFile]) with inr v => mtime_of v | inl _ => None end)).
Proof.
  unfold wan_poll, stat, read_result, read_text, rpc, resolveDefault. cbn -[mtime_of poll_status].
  destruct (env _ (Rpc "file" "stat" ["/usr/bin/ookla-speedtest"])); cbn -[mtime_of poll_status];
    destruct (env _ (Rpc "file" "stat" ["/usr/bin/speedtest"])); cbn -[mtime_of poll_status];
    destruct (env _ (FsText "read" ResultFile [])); cbn -[mtime_of poll_status];
    destruct (env _ (Rpc "file" "stat" [ResultFile])); cbn -[mtime_of poll_status];
    destruct (poll_status _ _ _) as [d h]; cbn;
    destruct (env _ (Exists ".cbi-button-apply")) eqn:E1; cbn; rewrite ?E1; cbn;
    destruct (env _ (Exists "speedtest_result")) eqn:E2; cbn; rewrite ?E2; cbn; reflexivity.
Qed.

(** The options of a page. *)
Definition page_options (p : form_page) : list form_option :=
  flat_map (λ s, match s with Fields f _ _ _ => fs_options f | Drawn _ => [] end) (fp_sections p).

(** The page as it is first drawn and the first poll agree: given the same
    replies at the same time, the button is made read-only exactly when the
    poll disables it, and the area the poll fills is one element of the page. *)
Theorem first_poll_agrees env now r :
  snd (run_with env wan_load) = inr r →
  let testing := isTesting now (result_content (ld_file r)) (result_mtime (ld_mtime r)) in
  let html := if testing then testing_html else result_html (parseResult (result_content (ld_file r))) in
  acts (fst (run_with env (wan_poll now))) =
    shown_poll (env _ (Exists ".cbi-button-apply")) (env _ (Exists "speedtest_result")) (testing, html) ∧
  element_count "speedtest_result" (drawn (wan_page now r)) = 1%nat ∧
  (∀ o, find_option "start" (page_options (wan_page now r)) = Some o → (("readonly", "true") ∈ fo_attrs o ↔ testing = true)).
Proof.
  intros H. cbv zeta. destruct (wan_load_replies env r H) as [Hf Ht]. split_and!.
  - rewrite wan_poll_acts, <- Hf, <- Ht. reflexivity.
  - unfold wan_page. cbn [drawn fp_sections omap list_omap]. unfold element_count.
    destruct (isTesting _ _ _); [reflexivity|]. cbn [first_view].
    destruct (parseResult _) as [| | |u|t|t]; try reflexivity.
    unfold first_view. destruct (read_speeds t) as [d u l].
    cbn [sp_download sp_upload sp_latency]. by destruct (str_truthy d), (str_truthy u), (str_truthy l).
  - intros o. unfold wan_page. generalize (isTesting now (result_content (ld_file r)) (result_mtime (ld_mtime r))).
    intros testing Ho. assert (o = start_option testing) as ->.
    { unfold version_option in Ho. destruct (version_default _) in Ho; destruct testing; by injection Ho as <-. }
    destruct testing; cbn; rewrite !elem_of_cons, elem_of_nil; naive_solver.
Qed.
End WanFacts.

(** A test started a second ago, on a router with both programs. *)
Definition busy_router (X : Type) (e : web X) : X :=
  match e with
  | FsExec _ _ => inl "" | FsText _ _ _ => inr ("Testing" +:+ lf) | FsWrite _ _ => inl "" | FsFileType _ => inl ""
  | Rpc _ _ [path] =>
      if String.eqb path ResultFile then inr (JObj [("mtime", JNum (Fin 100))]) else inr (JObj [("path", JStr path)])
  | Rpc _ _ _ => inl "" | UciDo _ _ => inr tt | UciSet _ _ _ _ => tt | UciApply => inr tt
  | Wait _ => tt | Exists _ => true | Defined _ => true | Do _ => tt
  end.

Lemma first_poll_agrees_witness :
  let r := mkLoaded true true (Some ("Testing" +:+ lf)) (Some 100) in
  snd (run_with busy_router wan_load) = inr r ∧
  acts (fst (run_with busy_router (wan_poll (I := plain_i18n) 101000))) =
    [SetDisabled (Found ".cbi-button-apply") true; SetHtml (Found "speedtest_result") (testing_html (I := plain_i18n))].
Proof.
  cbv zeta. split; [reflexivity|].
  exact (proj1 (first_poll_agrees (I := plain_i18n) busy_router 101000
                  (mkLoaded true true (Some ("Testing" +:+ lf)) (Some 100)) eq_refl)).
Defined.
