(* ===== verification/LogArea.v ===== *)
(** The log pages of netspeedtest and openlist2 ([netspeedtest/logs.js],
    [openlist2/logs.js]) with the text area a browser gives them: the top of
    the text is kept within its height, and a top that changes, by the user or
    by the page, makes the browser call the [scroll] listener later.  The
    texts and the two handlers are in [LogViews]. *)
From stdpp Require Import base list strings relations.
From Stdlib Require Import ZArith Lia Bool.
From S2P Require Import Prelude JsNum JsString Luci LogViews Async Services.

Open Scope Z_scope.

Section LogArea.
Context {I : I18n}.

(** The height of the text as the browser lays it out, and of the visible part
    of the area. *)
Variable text_height : string → Z.
Variable clientHeight : Z.

Definition scrollHeight (text : string) : Z := Z.max clientHeight (text_height text).

(** The highest top a text has, at which its end is shown. *)
Definition bottom (text : string) : Z := scrollHeight text - clientHeight.

(** The page's variables, and whether the browser has an event to deliver. *)
Record area_state : Type := mkArea {
  ar_view : text_view;
  ar_pending : bool;
}.

(** [render]: an empty area whose user has not scrolled. *)
Definition area_start : area_state := mkArea (mkTextView "" false 0 0) false.

(** A new top for a text: within its height, and announced when it differs
    from the top before. *)
Definition put_top (before : Z) (v : text_view) (pending : bool) : area_state :=
  let top := Z.max 0 (Z.min (tv_scrollTop v) (bottom (tv_value v))) in
  mkArea (mkTextView (tv_value v) (tv_userScrolled v) (tv_scrollPosition v) top)
    (pending || negb (Z.eqb top before)).

(** What a poll shows for the content of the file. *)
Definition shown_log (res : string) : string := if str_truthy (log_text res) then log_text res else tr "No log data.".

(** A poll; the height read is that of the text just put in. *)
Definition area_poll (res : string) (a : area_state) : area_state :=
  put_top (tv_scrollTop (ar_view a)) (pollLog (scrollHeight (shown_log res)) res (ar_view a)) (ar_pending a).

(** The user moves the text. *)
Definition area_user (top : Z) (a : area_state) : area_state :=
  let v := ar_view a in
  put_top (tv_scrollTop v) (mkTextView (tv_value v) (tv_userScrolled v) (tv_scrollPosition v) top) (ar_pending a).

(** The browser calls the listener. *)
Definition area_event (a : area_state) : area_state :=
  if ar_pending a then mkArea (on_scroll_text (tv_scrollTop (ar_view a)) (ar_view a)) false else a.

(** What can happen. *)
Inductive area_step : area_state → area_state → Prop :=
  | AreaPoll res a : area_step a (area_poll res a)
  | AreaUser top a : area_step a (area_user top a)
  | AreaEvent a : area_step a (area_event a).

(** What happens while the user leaves the page alone and the log is at least
    [h] high. *)
Inductive area_quiet (h : Z) : area_state → area_state → Prop :=
  | QuietPoll res a : h ≤ bottom (shown_log res) → area_quiet h a (area_poll res a)
  | QuietEvent a : area_quiet h a (area_event a).

(** ** The page of netspeedtest *)

(** [log_path], before and after the configuration was loaded; the literal is
    not from the configuration. *)
Definition nst_log_path (loaded : bool) : option string := if loaded then Some "/tmp/netspeedtest.log" else None.

(** The button; the page does not load [ui]. *)
Definition nst_clean (log_path : string) : promise web unit := handleCleanLogs false log_path.

Definition clear_button (indent : string) : node :=
  E "input" [("class", "btn cbi-button-action"); ("type", "button");
             ("style", "margin-left: " +:+ indent +:+ "px; margin-top: 10px;"); ("value", tr "Clear logs")] (Kids []).

Definition log_area_node (attrs : list (string * string)) (style : string) : node :=
  E "div" [("id", "log_textarea")]
    (One (E "textarea" (attrs ++ [("class", "cbi-input-textarea"); ("wrap", "off"); ("readonly", "readonly");
                                  ("style", style)]) (Kids []))).

Definition refresh_note (pollinterval : Z) : node := E "small" [] (Html (format (tr "Refresh every %s seconds.") [FNum (Fin pollinterval)])).

Definition nst_page (pollinterval : Z) : node :=
  E "div" [("class", "cbi-map")]
    (Kids [E "div" [("class", "cbi-section")]
       (Kids [clear_button "20";
              log_area_node [] "width: calc(100% - 20px); height: 535px; margin: 10px; overflow-y: scroll;";
              E "div" [("style", "text-align: right")] (Kids [refresh_note pollinterval]);
              E "div" [("class", "cbi-section-actions cbi-section-actions-right")] (Kids [])])]).

(** ** The page of openlist2, of which the fragment has one child *)

Definition ol_log_path (configured : option string) : string :=
  match configured with
  | Some p => if str_truthy p then p else "/var/log/openlist2.log"
  | None => "/var/log/openlist2.log"
  end.

Definition ol_page (pollinterval : Z) : node :=
  E "div" [("class", "cbi-map")]
    (Kids [E "div" [("class", "cbi-section")]
       (Kids [clear_button "10";
              log_area_node [("id", "log_content")]
                "width: calc(100% - 20px);height: 535px;margin: 10px;overflow-y: scroll;";
              E "div" [("style", "text-align:right")] (One (refresh_note pollinterval))])]).
End LogArea.

(** ** Facts *)

Section LogAreaFacts.
Context {I : I18n} (text_height : string → Z) (clientHeight : Z).
Notation bottom := (bottom text_height clientHeight).
Notation area_poll := (area_poll text_height clientHeight).
Notation area_step := (area_step text_height clientHeight).
Notation area_quiet := (area_quiet text_height clientHeight).

(** The position the page keeps is the top, unless an event is on its way. *)
Definition area_ok (a : area_state) : Prop :=
  let v := ar_view a in
  0 ≤ tv_scrollTop v ≤ bottom (tv_value v) ∧
  (ar_pending a = false → tv_userScrolled v = false → tv_scrollTop v = 0).

Lemma bottom_nonneg text : 0 ≤ bottom text.
Proof. unfold LogArea.bottom, scrollHeight. lia. Qed.

Lemma shown_value h res v : tv_value (pollLog h res v) = shown_log res.
Proof. done. Qed.

(** The top is always one the text has, and an area whose user has not
    scrolled and that has nothing to announce is at its start. *)
Lemma area_step_ok a b : area_step a b → area_ok a → area_ok b.
Proof.
  intros H [Hb Hp]. destruct H as [res a|top a|a]; unfold area_ok, area_user, LogArea.area_poll, put_top in *; cbn.
  - pose proof (bottom_nonneg (shown_log res)). unfold shown_log in *. split; [lia|].
    intros [Hpend Hb2%negb_false_iff%Z.eqb_eq]%orb_false_iff Hu. rewrite Hb2. auto.
  - pose proof (bottom_nonneg (tv_value (ar_view a))). split; [lia|].
    intros [Hpend Hb2%negb_false_iff%Z.eqb_eq]%orb_false_iff Hu. rewrite Hb2. auto.
  - unfold area_event. destruct (ar_pending a) eqn:E; cbn; [split; [exact Hb|by intros _ [=]]|split; [exact Hb|intros _; exact (Hp eq_refl)]].
Qed.

Theorem area_reachable_ok a : rtc area_step area_start a → area_ok a.
Proof.
  intros H. cut (area_ok area_start → area_ok a).
  { intros Hc. apply Hc. split; [|done]. cbn. pose proof (bottom_nonneg ""). lia. }
  induction H as [|x y z Hxy _ IH]; [done|]. intros Hx. exact (IH (area_step_ok x y Hxy Hx)).
Qed.

(** The page holds the position [y]. *)
Definition held (y : Z) (a : area_state) : Prop :=
  let v := ar_view a in tv_userScrolled v = true ∧ tv_scrollPosition v = y ∧ tv_scrollTop v = y.

Lemma quiet_held h y a b : 0 ≤ y ≤ h → area_quiet h a b → held y a → held y b.
Proof.
  intros Hy H (Hu & Hp & Ht). destruct H as [res a Hh|a].
  - unfold held, LogArea.area_poll, put_top, pollLog in *. cbn. rewrite Hu, Hp. cbn.
    unfold shown_log in Hh. repeat split. lia.
  - unfold area_event, held in *. destruct (ar_pending a); [|by repeat split]. cbn. by repeat split.
Qed.

Lemma quiet_run h y a b : 0 ≤ y ≤ h → rtc (area_quiet h) a b → held y a → held y b.
Proof. intros Hy H. induction H as [|a b c Hab _ IH]; [done|]. intros Ha. by eapply IH, quiet_held. Qed.

(** The place the user moved to is kept through every poll while the log is
    long enough to have it. *)
Theorem user_place_kept a top h b :
  0 ≤ top ≤ h → h ≤ bottom (tv_value (ar_view a)) → top ≠ tv_scrollTop (ar_view a) →
  rtc (area_quiet h) (area_event (area_user text_height clientHeight top a)) b → tv_scrollTop (ar_view b) = top.
Proof.
  intros Ht Hh Hne H. refine (proj2 (proj2 (quiet_run h top _ b Ht H _))).
  unfold area_user, put_top, held. cbn [ar_view ar_pending tv_scrollTop tv_value].
  assert (Z.max 0 (Z.min top (bottom (tv_value (ar_view a)))) = top) as -> by lia.
  unfold area_event. cbn. apply Z.eqb_neq in Hne. rewrite Hne, orb_true_r. by repeat split.
Qed.

(** The page stops following the log by itself: the first poll whose text does
    not fit moves the text to its end, the browser announces that to the
    listener, and the page takes it for the user's choice.  Every later text
    is shown at that place, whatever was appended. *)
Theorem log_not_followed res a :
  0 ≤ clientHeight → 0 < bottom (shown_log res) →
  rtc (area_quiet (bottom (shown_log res))) (area_event (area_poll res area_start)) a →
  tv_scrollTop (ar_view a) = bottom (shown_log res) ∧ tv_userScrolled (ar_view a) = true.
Proof.
  intros Hc Hb H.
  cut (held (bottom (shown_log res)) a). { intros (? & _ & ?). done. }
  refine (quiet_run _ _ _ a _ H _); [lia|].
  unfold LogArea.area_poll, put_top, held, area_start, shown_log in *. cbn.
  set (text := if str_truthy (log_text res) then _ else _) in *.
  assert (Z.max 0 (Z.min (scrollHeight text_height clientHeight text) (bottom text)) = bottom text) as ->.
  { unfold LogArea.bottom in *. unfold scrollHeight in *. lia. }
  unfold area_event. cbn. destruct (Z.eqb_spec (bottom text) 0); [lia|]. by cbn.
Qed.
End LogAreaFacts.

(** A log of three lines in an area of two, then one of four: the fourth line
    is not shown. *)
Lemma log_not_followed_witness :
  let h (t : string) := 20 * Z.of_nat (length (str_split lf t)) in
  let three := "a" +:+ lf +:+ "b" +:+ lf +:+ "c" in
  let four := three +:+ lf +:+ "d" in
  let b := @area_poll plain_i18n h 40 four (area_event (@area_poll plain_i18n h 40 three area_start)) in
  tv_value (ar_view b) = four ∧ tv_scrollTop (ar_view b) = 20 ∧ bottom h 40 four = 40.
Proof.
  cbv zeta. split; [vm_compute; reflexivity|]. split; [|vm_compute; reflexivity].
  refine (proj1 (@log_not_followed plain_i18n (λ t, 20 * Z.of_nat (length (str_split lf t))) 40 ("a" +:+ lf +:+ "b" +:+ lf +:+ "c") _ ltac:(lia) eq_refl _)).
  apply rtc_once. apply QuietPoll. vm_compute. discriminate.
Defined.
