(* ===== verification/DdnsReset.v ===== *)
(** [handleResetPassword] of [ddns-go/config.js]: resetting the user name and
    the password of DDNS-GO in its YAML file.  A text is a list of code
    units below 256. *)
From stdpp Require Import base list strings.
From Stdlib Require Import ZArith Lia Ascii Bool.
From S2P Require Import Prelude JsString JsRegExp JsMatch Luci LogViews.

(** ** The file *)

(** A character [.] matches. *)
Definition not_line_end (c : ascii) : bool := negb (Ascii.eqb c "010" || Ascii.eqb c "013").

(** The expression of the replacement: the key, white space (of any lines) and
    the rest of the line. *)
Definition username_re : list item := [Texts false ["username:"]; Run is_ws 0; Run not_line_end 0].

(** [$1admin] *)
Definition to_admin (ps : list string) : string :=
  match ps with key :: ws :: _ => key +:+ ws +:+ "admin" | _ => "" end.

Definition rename_users (s : string) : string := replace_all username_re to_admin s.

Definition user_entry : string :=
  lf +:+ "user:" +:+ lf +:+ "    username: admin" +:+ lf
  +:+ "    password: $2a$10$G1xO1cVUYtSpPYwV/Jk3l.u7PxLUxo03wntWG6VA9BxAftNWfZEhK".

(** The content written back. *)
Definition reset_content (s : string) : string :=
  let s := rename_users s in
  if includes s "user:" then s else s +:+ user_entry.

(** ** The handler *)

Definition configFile : string := "/etc/ddns-go/ddns-go-config.yaml".

(** What the handler does, in order. *)
Inductive reset_effect : Type :=
  | Modal (title : string) (texts buttons : list string)
  | HideModal
  | Execute (path : string) (args : list string)
  | ReadFile (path : string)
  | SaveFile (path content : string)
  | Alert (message : string).

Section Reset.
Context {I : I18n}.

Definition waiting_modal : reset_effect :=
  Modal (tr "Resetting Password") [tr "Resetting admin username and password, please wait..."] [].

Definition success_modal : reset_effect :=
  Modal (tr "Username and Password Reset Successful")
    [tr "Username: admin, Password: admin12345";
     tr "You need to restart DDNS-Go service for the changes to take effect."]
    [tr "Restart Service Now"; tr "Restart Later"].

Definition partial_modal : reset_effect :=
  Modal (tr "Partial Reset")
    [tr "DDNS-Go command reset may have failed, but configuration file has been updated.";
     tr "Username: admin, Password: admin12345";
     tr "You may need to restart DDNS-Go service manually."]
    [tr "Restart Service Now"; tr "Close"].

Definition reset_failed (message : string) : list reset_effect :=
  [HideModal; Alert (tr "ERROR:" +:+ lf +:+ tr "Reset username/password failed:" +:+ lf +:+ message)].

Definition reset_command : reset_effect :=
  Execute "/usr/bin/ddns-go" ["-resetPassword"; "admin12345"; "-c"; configFile].

(** [handleResetPassword], given the outcome of each request it may make: the
    message of the rejection, or the code of the command and the content of
    the file. *)
Definition handleResetPassword (run : string + Z) (file : string + string) (saved : string + unit)
    : list reset_effect :=
  waiting_modal :: reset_command ::
  match run with
  | inl e => reset_failed e
  | inr code =>
      let result := [HideModal; if code =? 0 then success_modal else partial_modal] in
      ReadFile configFile ::
      match file with
      | inl e => reset_failed e
      | inr content =>
          if str_truthy (str_trim content) then
            SaveFile configFile (reset_content content) ::
            match saved with inl e => reset_failed e | inr _ => result end
          else result
      end
  end.
End Reset.

(** ** What is written *)

(** A text that ends a line. *)
Definition line_ends (s : string) : Prop :=
  match s with EmptyString => True | String c _ => not_line_end c = false end.

Lemma run_all P s t : str_forall P s = true → (match t with EmptyString => True | String c _ => P c = false end) →
  run_length P (s +:+ t) = String.length s.
Proof.
  induction s as [|c s IH]; intros Hs Ht.
  - rewrite str_app_nil_l. destruct t as [|c t]; [done|]. cbn. by rewrite Ht.
  - cbn in Hs. apply andb_true_iff in Hs as [Hc Hs]. rewrite str_app_cons. cbn. by rewrite Hc, IH.
Qed.

Lemma take_app_str s t : str_take (String.length s) (s +:+ t) = s ∧ str_drop (String.length s) (s +:+ t) = t.
Proof. induction s as [|c s [IH1 IH2]]; [by destruct t|]. rewrite str_app_cons. cbn. by rewrite IH1, IH2. Qed.

Lemma run_head least n : (least <= n)%nat → ∃ l, down_to least n = n :: l.
Proof. intros H. destruct n; cbn [down_to]; (destruct (_ <? _)%nat eqn:E; [apply Nat.ltb_lt in E; lia|]); eauto. Qed.

(** A run takes all it can when the rest then matches. *)
Lemma match_run P items s t ps rest :
  str_forall P s = true → (match t with EmptyString => True | String c _ => P c = false end) →
  match_items items t = Some (ps, rest) → match_items (Run P 0 :: items) (s +:+ t) = Some (s :: ps, rest).
Proof.
  intros Hs Ht Hm. cbn [match_items candidates]. rewrite run_all by done.
  destruct (run_head 0 (String.length s)) as [l ->]; [lia|]. cbn [first_some].
  destruct (take_app_str s t) as [-> ->]. by rewrite Hm.
Qed.

Lemma match_username ws t :
  str_forall is_ws ws = true → line_ends t →
  match_items username_re ("username:" +:+ ws +:+ "admin" +:+ t) = Some (["username:"; ws; "admin"], t).
Proof.
  intros Hws Ht. unfold username_re. rewrite match_items_start.
  erewrite match_run; [reflexivity|done|done|].
  erewrite match_run; [reflexivity|done| |reflexivity]. destruct t; [done|exact Ht].
Qed.

(** The longest run and what stops it. *)
Lemma run_split P s :
  ∃ a b, s = a +:+ b ∧ str_forall P a = true ∧ (match b with EmptyString => True | String c _ => P c = false end).
Proof.
  induction s as [|c s (a & b & -> & Ha & Hb)]; [by exists "", ""|].
  destruct (P c) eqn:Hc; [|by exists "", (String c (a +:+ b))].
  exists (String c a), b. split; [done|]. cbn. by rewrite Hc, Ha.
Qed.

Lemma match_any_username s :
  ∃ ws line rest, match_items username_re ("username:" +:+ s) = Some (["username:"; ws; line], rest) ∧
    str_forall is_ws ws = true ∧ line_ends rest.
Proof.
  destruct (run_split is_ws s) as (ws & s' & -> & Hws & Hs').
  destruct (run_split not_line_end s') as (line & rest & -> & Hline & Hrest).
  exists ws, line, rest. split; [|done]. unfold username_re. rewrite match_items_start.
  erewrite match_run; [reflexivity|done|exact Hs'|].
  by erewrite match_run; [reflexivity|done|exact Hrest|].
Qed.

(** The first user name of a text, or none. *)
Lemma exec_username s :
  match exec username_re s with
  | Some (b, ps, rest) =>
      ∃ ws line, ps = ["username:"; ws; line] ∧ s = b +:+ "username:" +:+ ws +:+ line +:+ rest ∧
        str_forall is_ws ws = true ∧ line_ends rest ∧ none_in "username:" b "username:"
  | None => none_in "username:" s ""
  end.
Proof.
  induction s as [|c s IH]; [done|]. cbn [exec].
  destruct (String.prefix "username:" (String c s)) eqn:E.
  - apply prefix_iff in E as [r ->]. destruct (match_any_username r) as (ws & line & rest & Hm & Hws & Hr).
    rewrite Hm. exists ws, line. apply match_items_text in Hm. split; [done|]. split; [|done].
    rewrite str_app_nil_l, <- Hm. cbn [text_of fold_right]. by rewrite str_app_nil_r, !str_app_assoc.
  - unfold username_re at 1. rewrite match_items_prefix by done.
    destruct (exec username_re s) as [[[b ps] rest]|].
    + destruct IH as (ws & line & -> & -> & Hws & Hr & Hb). exists ws, line. repeat split; try done.
      change (String c (b +:+ "username:" +:+ ws +:+ line +:+ rest))
        with (String c b +:+ "username:" +:+ ws +:+ line +:+ rest) in E.
      rewrite <- str_app_assoc, prefix_ext in E; [done|]. rewrite str_length_app. cbn. lia.
    + cbn [none_in]. by rewrite str_app_nil_r.
Qed.

Lemma username_consuming : consuming username_re.
Proof. intros s b ps rest H. pose proof (exec_username s) as E. rewrite H in E. by destruct E as (ws & line & -> & _). Qed.

(** The name in a match, after the replacement. *)
Definition as_admin (m : string * list string) : string * list string :=
  match m with (b, [key; ws; _]) => (b, [key; ws; "admin"]) | _ => m end.

Lemma rename_head s : line_ends s → line_ends (rename_users s).
Proof.
  intros Hs. unfold rename_users. pose proof (exec_username s) as E.
  destruct (exec username_re s) as [[[b ps] rest]|] eqn:Ex; [|by rewrite replace_none].
  rewrite (replace_some _ _ _ b ps rest username_consuming Ex).
  destruct E as (ws & line & -> & -> & _). destruct b as [|c b]; [discriminate Hs|exact Hs].
Qed.

Lemma line_ends_app s z : line_ends s → line_ends z → line_ends (s +:+ z).
Proof. by destruct s. Qed.

(** The names of a renamed text, whatever lines follow it. *)
Lemma matches_renamed n s z :
  (String.length s <= n)%nat → line_ends z →
  all_matches username_re (rename_users s +:+ z) =
  (map as_admin (fst (all_matches username_re s)) ++
     fst (all_matches username_re (snd (all_matches username_re s) +:+ z)),
   snd (all_matches username_re (snd (all_matches username_re s) +:+ z))).
Proof.
  revert s. induction n as [|n IH]; intros s Hn Hz; pose proof (exec_username s) as E;
    destruct (exec username_re s) as [[[b ps] rest]|] eqn:Ex.
  - apply exec_shorter in Ex; [lia|apply username_consuming].
  - unfold rename_users. rewrite replace_none, (all_matches_none _ s) by done.
    cbn [map fst snd app]. apply surjective_pairing.
  - pose proof (exec_shorter _ _ _ _ _ username_consuming Ex) as Hlt.
    unfold rename_users. rewrite (replace_some _ _ _ b ps rest username_consuming Ex).
    rewrite (all_matches_some _ _ b ps rest username_consuming Ex). fold (rename_users rest).
    destruct E as (ws & line & -> & -> & Hws & Hr & Hb). cbn [to_admin fst snd map as_admin].
    rewrite !str_app_assoc.
    pose proof (match_username ws (rename_users rest +:+ z) Hws
                  (line_ends_app _ _ (rename_head rest Hr) Hz)) as Hm.
    pose proof (exec_before "username:" [Run is_ws 0; Run not_line_end 0] b _ _ _
                  (none_in_ext _ _ _ Hb) Hm) as He.
    rewrite (all_matches_some _ _ _ _ _ username_consuming He), IH by (done || lia). done.
  - unfold rename_users. rewrite replace_none, (all_matches_none _ s) by done.
    cbn [map fst snd app]. apply surjective_pairing.
Qed.

Lemma last_username_free n s :
  (String.length s <= n)%nat → none_in "username:" (snd (all_matches username_re s)) "".
Proof.
  revert s. induction n as [|n IH]; intros s Hn; pose proof (exec_username s) as E;
    destruct (exec username_re s) as [[[b ps] rest]|] eqn:Ex.
  - apply exec_shorter in Ex; [lia|apply username_consuming].
  - by rewrite (all_matches_none _ s).
  - rewrite (all_matches_some _ _ b ps rest username_consuming Ex). cbn. apply IH.
    apply exec_shorter in Ex; [lia|apply username_consuming].
  - by rewrite (all_matches_none _ s).
Qed.

Lemma to_admin_twice l t : put_back to_admin (map as_admin l, t) = put_back to_admin (l, t).
Proof.
  unfold put_back. cbn. induction l as [|[b ps] l IH]; [done|]. cbn. rewrite IH.
  destruct ps as [|k [|w [|x [|y r]]]]; done.
Qed.

(** Lines that follow, up to a mark of their own, are kept. *)
Lemma put_back_app f l t z : put_back f (l, t +:+ z) = put_back f (l, t) +:+ z.
Proof. unfold put_back. cbn. induction l as [|[b ps] l IH]; [done|]. cbn. by rewrite IH, !str_app_assoc. Qed.

Lemma put_back_more f l m t : put_back f (l ++ m, t) = put_back f (l, put_back f (m, t)).
Proof. unfold put_back. cbn. by rewrite fold_right_app. Qed.

Lemma rename_then s z :
  line_ends z →
  rename_users (rename_users s +:+ z)
  = put_back to_admin (fst (all_matches username_re s), rename_users (snd (all_matches username_re s) +:+ z)).
Proof.
  intros Hz. unfold rename_users at 1, replace_all. rewrite (matches_renamed (String.length s)) by done.
  rewrite put_back_more, to_admin_twice. unfold rename_users, replace_all.
  by destruct (all_matches username_re (_ +:+ z)).
Qed.

Lemma rename_free s : none_in "username:" s "" → rename_users s = s ∧ all_matches username_re s = ([], s).
Proof.
  intros H. assert (exec username_re s = None) as E by (by apply exec_none).
  split; [by apply replace_none|by apply all_matches_none].
Qed.

Lemma rename_twice s : rename_users (rename_users s) = rename_users s.
Proof.
  pose proof (rename_then s "" Logic.I) as H. rewrite !str_app_nil_r in H. rewrite H.
  destruct (rename_free (snd (all_matches username_re s))) as [-> _]; [by apply (last_username_free (String.length s))|].
  unfold rename_users, replace_all. by destruct (all_matches username_re s).
Qed.

(** The entry added at the end of a text without user names. *)
Definition entry_password : string :=
  lf +:+ "    password: $2a$10$G1xO1cVUYtSpPYwV/Jk3l.u7PxLUxo03wntWG6VA9BxAftNWfZEhK".

Lemma entry_matches t :
  none_in "username:" t "" →
  all_matches username_re (t +:+ user_entry)
  = ([(t +:+ (lf +:+ "user:" +:+ lf +:+ "    "), ["username:"; " "; "admin"])], entry_password).
Proof.
  intros Ht.
  assert (t +:+ user_entry = (t +:+ (lf +:+ "user:" +:+ lf +:+ "    ")) +:+ "username:" +:+ " " +:+ "admin" +:+ entry_password)
    as -> by (by rewrite str_app_assoc).
  erewrite (all_matches_some _ _ _ _ entry_password username_consuming).
  2: { apply exec_before; [|by apply match_username]. apply none_in_app. split; [|by vm_compute].
       by apply none_in_stops. }
  rewrite (all_matches_none username_re entry_password) by reflexivity. done.
Qed.

Lemma rename_entry s : rename_users (rename_users s +:+ user_entry) = rename_users s +:+ user_entry.
Proof.
  rewrite rename_then by done.
  pose proof (last_username_free (String.length s) s (le_n _)) as Hf.
  assert (rename_users (snd (all_matches username_re s) +:+ user_entry)
          = snd (all_matches username_re s) +:+ user_entry) as ->.
  { unfold rename_users at 1, replace_all. rewrite entry_matches by done. unfold put_back.
    cbn [fst snd fold_right to_admin]. by rewrite !str_app_assoc. }
  rewrite put_back_app. unfold rename_users, replace_all. by destruct (all_matches username_re s).
Qed.

Lemma includes_entry s : includes (s +:+ user_entry) "user:" = true.
Proof. unfold includes. apply Z.leb_le. unfold user_entry. rewrite <- (str_app_assoc s lf).
  apply index_of_contains.
Qed.

(** ** The file, line by line *)

(** The lines of a text, each with the character that ends it. *)
Fixpoint split_lines (s : string) : list (string * string) :=
  match s with
  | EmptyString => [("", "")]
  | String c s' =>
      if not_line_end c
      then match split_lines s' with (l, e) :: ls => (String c l, e) :: ls | [] => [] end
      else ("", String c "") :: split_lines s'
  end.

Definition joined (ls : list (string * string)) : string := fold_right (λ '(l, e) s, l +:+ e +:+ s) "" ls.

(** A line around its first [username:]. *)
Fixpoint around_key (l : string) : option (string * string) :=
  if String.prefix "username:" l then Some ("", str_drop 9 l)
  else match l with
       | EmptyString => None
       | String c l' => match around_key l' with Some (b, r) => Some (String c b, r) | None => None end
       end.

(** The user name a line gives. *)
Definition line_name (l : string) : option string :=
  match around_key l with Some (_, r) => Some (str_trim r) | None => None end.

Definition line_names (s : string) : list string := omap line_name (map fst (split_lines s)).

(** The line with the name [admin]: nothing else of it changes. *)
Definition admin_line (l : string) : string :=
  match around_key l with
  | Some (b, r) => b +:+ "username:" +:+ str_take (run_length is_ws r) r +:+ "admin"
  | None => l
  end.

Definition admin_lines (s : string) : string := joined (map (λ '(l, e), (admin_line l, e)) (split_lines s)).

(** Every name stands on the line of its key. *)
Definition names_on_lines (s : string) : Prop := "" ∉ line_names s.

Lemma around_key_spec l :
  match around_key l with
  | Some (b, r) => l = b +:+ "username:" +:+ r ∧ none_in "username:" b ("username:" +:+ r)
  | None => none_in "username:" l ""
  end.
Proof.
  induction l as [|c l IH]; [done|]. cbn [around_key]. destruct (String.prefix "username:" (String c l)) eqn:E.
  - apply prefix_iff in E as [r E]. rewrite E. by split.
  - destruct (around_key l) as [[b r]|].
    + destruct IH as [-> Hn]. split; [done|]. split; [|done]. exact E.
    + split; [|done]. by rewrite str_app_nil_r.
Qed.

(** What follows the key does not matter. *)
Lemma none_in_more t b r r' : none_in t b (t +:+ r) → none_in t b (t +:+ r').
Proof.
  intros H. apply none_in_ext. induction b as [|c b IH]; [done|]. destruct H as [Hc Hb]. split; [|by apply IH].
  rewrite <- str_app_assoc, prefix_ext in Hc; [done|]. rewrite str_length_app. lia.
Qed.

Lemma around_key_first b r :
  none_in "username:" b ("username:" +:+ r) → around_key (b +:+ "username:" +:+ r) = Some (b, r).
Proof.
  induction b as [|c b IH].
  - intros _. rewrite str_app_nil_l. assert (String.prefix "username:" ("username:" +:+ r) = true) as E by (apply prefix_iff; by exists r).
    destruct (take_app_str "username:" r) as [_ Hd].
    change ("username:" +:+ r) with (String "u" ("sername:" +:+ r)) in *. cbn [around_key]. by rewrite E.
  - intros [E Hn]. rewrite !str_app_cons in *. cbn [around_key]. by rewrite E, IH.
Qed.

(** A text, from its first line on. *)
Lemma split_lines_first s :
  (str_forall not_line_end s = true ∧ split_lines s = [(s, "")]) ∨
  ∃ l c s', s = l +:+ String c s' ∧ str_forall not_line_end l = true ∧ not_line_end c = false ∧
    split_lines s = (l, String c "") :: split_lines s'.
Proof.
  induction s as [|c s IH]; [by left|]. cbn [split_lines]. destruct (not_line_end c) eqn:Hc.
  - destruct IH as [[Hs ->]|(l & d & s' & -> & Hl & Hd & ->)].
    + left. split; [|done]. cbn. by rewrite Hc, Hs.
    + right. exists (String c l), d, s'. repeat split; try done. cbn. by rewrite Hc, Hl.
  - right. by exists "", c, s.
Qed.

Lemma split_line l c s :
  str_forall not_line_end l = true → not_line_end c = false →
  split_lines (l +:+ String c s) = (l, String c "") :: split_lines s.
Proof.
  intros Hl Hc. induction l as [|d l IH]; [rewrite str_app_nil_l; cbn; by rewrite Hc|].
  cbn in Hl. apply andb_true_iff in Hl as [Hd Hl]. rewrite str_app_cons. cbn. by rewrite Hd, IH.
Qed.

Lemma split_last l : str_forall not_line_end l = true → split_lines l = [(l, "")].
Proof.
  induction l as [|d l IH]; [done|]. cbn. intros [Hd Hl]%andb_true_iff. by rewrite Hd, IH.
Qed.

(** Text before a match is kept. *)
Lemma exec_prefix t items b s :
  none_in t b s →
  exec (Texts false [t] :: items) (b +:+ s)
  = match exec (Texts false [t] :: items) s with Some (b', ps, rest) => Some (b +:+ b', ps, rest) | None => None end.
Proof.
  induction b as [|c b IH].
  - intros _. rewrite str_app_nil_l. by destruct (exec _ s) as [[[b' ps] rest]|].
  - intros [Hc Hb]. rewrite str_app_cons in *. cbn [exec]. rewrite match_items_prefix by done. rewrite IH by done.
    by destruct (exec _ s) as [[[b' ps] rest]|].
Qed.

Lemma rename_prefix b s : none_in "username:" b s → rename_users (b +:+ s) = b +:+ rename_users s.
Proof.
  intros Hb. pose proof (exec_prefix _ [Run is_ws 0; Run not_line_end 0] b s Hb) as E. fold username_re in E.
  unfold rename_users. destruct (exec username_re s) as [[[b' ps] rest]|] eqn:Es.
  - rewrite (replace_some _ _ _ _ _ _ username_consuming E), (replace_some _ _ _ _ _ _ username_consuming Es).
    by rewrite str_app_assoc.
  - by rewrite !replace_none.
Qed.

(** White space, then what follows it. *)
Lemma ws_split r : str_trim r ≠ "" →
  ∃ c r', r = str_take (run_length is_ws r) r +:+ String c r' ∧ is_ws c = false ∧
    str_forall is_ws (str_take (run_length is_ws r) r) = true.
Proof.
  intros Hr. destruct (run_split is_ws r) as (a & b & -> & Ha & Hb). rewrite run_all by done.
  destruct (take_app_str a b) as [-> _]. destruct b as [|c b]; [|by exists c, b].
  destruct Hr. rewrite str_app_nil_r. unfold str_trim.
  assert (trim_start a = "") as -> by (clear Hb; induction a as [|c a IH]; [done|]; cbn in *; destruct (is_ws c); [auto|done]).
  done.
Qed.

(** A line is rewritten by itself. *)
Lemma rename_line l t :
  str_forall not_line_end l = true → line_ends t → line_name l ≠ Some "" →
  rename_users (l +:+ t) = admin_line l +:+ rename_users t.
Proof.
  intros Hl Ht Hn. unfold line_name, admin_line in *. pose proof (around_key_spec l) as E.
  destruct (around_key l) as [[b r]|].
  - destruct E as [-> Hb]. destruct (ws_split r) as (c & r' & Er & Hc & Hws); [congruence|].
    rewrite !str_forall_app in Hl. apply andb_true_iff in Hl as [_ [_ Hl]%andb_true_iff].
    rewrite Er, str_forall_app in Hl. apply andb_true_iff in Hl as [_ Hl].
    remember (str_take (run_length is_ws r) r) as ws eqn:Ews. clear Ews Hn. subst r.
    assert (match_items username_re ("username:" +:+ (ws +:+ (String c r' +:+ t)))
            = Some (["username:"; ws; String c r'], t)) as Hm.
    { unfold username_re. rewrite match_items_start. erewrite match_run; [reflexivity|done|exact Hc|].
      by erewrite match_run; [reflexivity|done|destruct t; [done|exact Ht]|reflexivity]. }
    assert (none_in "username:" b ("username:" +:+ (ws +:+ (String c r' +:+ t)))) as Hb'.
    { by eapply none_in_more. }
    pose proof (exec_before _ _ _ _ _ _ Hb' Hm) as He. fold username_re in He.
    unfold rename_users at 1. rewrite !str_app_assoc, (replace_some _ _ _ _ _ _ username_consuming He).
    cbn [to_admin]. by rewrite !str_app_assoc.
  - apply rename_prefix. destruct t as [|c t]; [done|]. apply none_in_stops; [|done]. by destruct c as [[] [] [] [] [] [] [] []].
Qed.

(** A line end is no part of a key. *)
Lemma line_end_free c : not_line_end c = false → char_free c "username:" = true.
Proof. intros [->%Ascii.eqb_eq| ->%Ascii.eqb_eq]%negb_false_iff%orb_true_iff; done. Qed.

Lemma rename_line_end c s : not_line_end c = false → rename_users (String c s) = String c (rename_users s).
Proof.
  intros Hc. apply (rename_prefix (String c "")). split; [|done].
  by apply negb_false_iff, orb_true_iff in Hc as [->%Ascii.eqb_eq| ->%Ascii.eqb_eq].
Qed.

Lemma line_names_line l c s :
  str_forall not_line_end l = true → not_line_end c = false →
  line_names (l +:+ String c s) = match line_name l with Some n => [n] | None => [] end ++ line_names s.
Proof.
  intros Hl Hc. unfold line_names. rewrite split_line by done. cbn [map fst omap list_omap].
  by destruct (line_name l).
Qed.

Lemma names_on_lines_cons l c s :
  str_forall not_line_end l = true → not_line_end c = false →
  names_on_lines (l +:+ String c s) ↔ line_name l ≠ Some "" ∧ names_on_lines s.
Proof.
  intros Hl Hc. unfold names_on_lines. rewrite line_names_line by done.
  destruct (line_name l) as [n|]; [|rewrite app_nil_l; by split; [|intros []]]. cbn [app]. rewrite not_elem_of_cons. intuition congruence.
Qed.

(** Where every name stands on the line of its key, the replacement is the
    replacement line by line. *)
Lemma rename_admin_lines n s :
  (String.length s <= n)%nat → names_on_lines s → rename_users s = admin_lines s.
Proof.
  revert s. induction n as [|n IH]; intros s Hn Hs; [by destruct s; [|cbn in Hn; lia]|].
  unfold admin_lines. destruct (split_lines_first s) as [[Hl E]|(l & c & s' & -> & Hl & Hc & E)].
  - rewrite E. cbn. rewrite !str_app_nil_r. rewrite <- (str_app_nil_r s) at 1. rewrite rename_line; try done.
    + unfold rename_users. by rewrite replace_none, str_app_nil_r.
    + intros En. apply Hs. unfold line_names. rewrite E. cbn. rewrite En. apply list_elem_of_here.
  - apply names_on_lines_cons in Hs as [Hn' Hs]; [|done..]. rewrite str_length_app in Hn. cbn in Hn.
    rewrite rename_line, rename_line_end, IH, E by (done || lia). cbn. by rewrite str_app_cons.
Qed.

Lemma admin_line_free l : str_forall not_line_end l = true → str_forall not_line_end (admin_line l) = true.
Proof.
  intros Hl. unfold admin_line. pose proof (around_key_spec l) as E. destruct (around_key l) as [[b r]|]; [|done].
  destruct E as [-> _]. rewrite !str_forall_app in *. apply andb_true_iff in Hl as [-> [-> Hr]%andb_true_iff]. cbn.
  rewrite andb_true_r. rewrite <- (take_drop_str (run_length is_ws r) r), str_forall_app in Hr.
  by apply andb_true_iff in Hr as [-> _].
Qed.

Lemma split_admin_lines n s :
  (String.length s <= n)%nat → split_lines (admin_lines s) = map (λ '(l, e), (admin_line l, e)) (split_lines s).
Proof.
  revert s. induction n as [|n IH]; intros s Hn; [by destruct s; [|cbn in Hn; lia]|].
  unfold admin_lines. destruct (split_lines_first s) as [[Hl E]|(l & c & s' & -> & Hl & Hc & E)]; rewrite E.
  - cbn. rewrite !str_app_nil_r. apply split_last. by apply admin_line_free.
  - cbn. rewrite !str_app_cons, str_app_nil_l. rewrite split_line; [|by apply admin_line_free|done].
    rewrite str_length_app in Hn. cbn in Hn. f_equal. apply IH. lia.
Qed.

(** White space before [admin] is trimmed away. *)
Lemma trim_admin ws : str_forall is_ws ws = true → str_trim (ws +:+ "admin") = "admin".
Proof.
  intros H. unfold str_trim. assert (trim_start (ws +:+ "admin") = "admin") as ->; [|done].
  induction ws as [|c ws IH]; [done|]. cbn in H. apply andb_true_iff in H as [Hc H].
  rewrite str_app_cons. cbn. by rewrite Hc, IH.
Qed.

Lemma run_is_ws r : str_forall is_ws (str_take (run_length is_ws r) r) = true.
Proof.
  destruct (run_split is_ws r) as (a & b & -> & Ha & Hb). rewrite run_all by done. by destruct (take_app_str a b) as [-> _].
Qed.

Lemma admin_line_name l : line_name (admin_line l) = (λ _, "admin") <$> line_name l.
Proof.
  unfold line_name, admin_line. pose proof (around_key_spec l) as E. destruct (around_key l) as [[b r]|] eqn:El.
  - destruct E as [_ Hb]. rewrite around_key_first by (by eapply none_in_more). cbn. f_equal. apply trim_admin, run_is_ws.
  - by rewrite El.
Qed.

Lemma admin_lines_names s : line_names (admin_lines s) = map (λ _, "admin") (line_names s).
Proof.
  unfold line_names. rewrite (split_admin_lines (String.length s)) by done.
  induction (split_lines s) as [|[l e] ls IH]; [done|]. cbn in *. rewrite admin_line_name.
  destruct (line_name l); cbn; by rewrite <- IH.
Qed.

(** The entry stands on lines of its own. *)
Definition entry_lines : string := str_drop 1 user_entry.

Lemma entry_lines_names : line_names entry_lines = ["admin"].
Proof. by vm_compute. Qed.

Lemma line_names_entry s : line_names (s +:+ user_entry) = line_names s ++ ["admin"].
Proof.
  assert (user_entry = String "010" entry_lines) as -> by reflexivity. pose proof entry_lines_names as He.
  remember entry_lines as z eqn:Ez. clear Ez.
  remember (String.length s) as n eqn:En. assert (String.length s <= n)%nat as Hn by lia. clear En.
  revert s Hn. induction n as [|n IH]; intros s Hn.
  - destruct s; [|cbn in Hn; lia]. by rewrite line_names_line, He.
  - destruct (split_lines_first s) as [[Hl E]|(l & c & s' & -> & Hl & Hc & E)].
    + rewrite line_names_line, He by done. f_equal. unfold line_names. rewrite E. cbn. by destruct (line_name s).
    + rewrite str_length_app in Hn. cbn in Hn. rewrite str_app_assoc, str_app_cons, (line_names_line l c s'), line_names_line by done.
      rewrite (IH s') by lia. by rewrite app_assoc.
Qed.

(** C25: the reset of the configuration file, read line by line.  Where every
    line that holds [username:] gives a name after it (something other than
    white space), the text written back is the text in which each such line has
    [admin] in place of all that follows its first [username:] and the white
    space there, and every other line is as it was; the entry of the
    user [admin] is added at the end exactly when the text so changed nowhere
    contains [user:], in whatever word ([notifyuser: bob] counts).  Every user name of the
    text written back is then [admin].  (Where only white space follows a key on
    its line, the next lines are taken for the name: see [empty_name_eats_line].)
    For any text whatever, what is written
    back contains [user:], and a second reset changes nothing. *)
Theorem reset_content_spec s :
  (names_on_lines s →
     reset_content s
       = (if includes (admin_lines s) "user:" then admin_lines s else admin_lines s +:+ user_entry) ∧
     Forall (eq "admin") (line_names (reset_content s))) ∧
  includes (reset_content s) "user:" = true ∧
  reset_content (reset_content s) = reset_content s.
Proof.
  split.
  - intros Hs. assert (reset_content s = (if includes (admin_lines s) "user:" then admin_lines s else admin_lines s +:+ user_entry)) as ->.
    { unfold reset_content. by rewrite (rename_admin_lines (String.length s)). }
    split; [done|]. assert (Forall (eq "admin") (line_names (admin_lines s))) as H.
    { rewrite admin_lines_names. apply Forall_map. by apply Forall_true. }
    destruct (includes _ _); [done|]. rewrite line_names_entry. apply Forall_app. by split; [|constructor].
  - unfold reset_content at 1 3 4. destruct (includes (rename_users s) "user:") eqn:E.
    + split; [done|]. unfold reset_content. by rewrite rename_twice, E.
    + split; [apply includes_entry|]. unfold reset_content. by rewrite rename_entry, includes_entry.
Qed.

Lemma reset_content_spec_witness :
  let s := "user:" +:+ lf +:+ "    username:  bob" +:+ lf +:+ "    password: x" +:+ lf in
  names_on_lines s ∧
  reset_content s = "user:" +:+ lf +:+ "    username:  admin" +:+ lf +:+ "    password: x" +:+ lf ∧
  Forall (eq "admin") (line_names (reset_content s)).
Proof.
  intros s. assert (names_on_lines s) as Hs by (unfold names_on_lines; apply (bool_decide_unpack _); reflexivity).
  split; [exact Hs|]. split; [|exact (proj2 (proj1 (reset_content_spec s) Hs))].
  rewrite (proj1 (proj1 (reset_content_spec s) Hs)). reflexivity.
Defined.

(** Where the name is empty, the expression runs on to the next line: the
    password goes. *)
Lemma empty_name_eats_line :
  reset_content ("user:" +:+ lf +:+ "    username:" +:+ lf +:+ "    password: x" +:+ lf)
  = "user:" +:+ lf +:+ "    username:" +:+ lf +:+ "    admin" +:+ lf.
Proof. reflexivity. Qed.

(** A dialog speaks of success exactly when the command succeeded and the file
    could be read and, where it has a content, written. *)
Lemma reset_outcome `{I18n} run file saved :
  success_modal ∈ handleResetPassword run file saved ↔
  run = inr 0 ∧ ∃ content, file = inr content ∧ (str_truthy (str_trim content) = true → saved = inr tt).
Proof.
  unfold handleResetPassword, reset_failed. destruct run as [e|code].
  { split; [|by intros [? _]]. rewrite !elem_of_cons. intros [?|[?|[?|[?|?%elem_of_nil]]]]; done. }
  destruct file as [e|content].
  { split; [|by intros [_ (? & ? & _)]]. rewrite !elem_of_cons. intros [?|[?|[?|[?|[?|?%elem_of_nil]]]]]; done. }
  assert (success_modal = (if code =? 0 then success_modal else partial_modal) ↔ code = 0) as Hm.
  { destruct (Z.eqb_spec code 0); [done|]. by split. }
  destruct (str_truthy (str_trim content)) eqn:E.
  - destruct saved as [e|[]].
    + split; [rewrite !elem_of_cons; intros [?|[?|[?|[?|[?|[?|?%elem_of_nil]]]]]]; done|].
      intros [_ (c & [= ->] & H1)]. by specialize (H1 E).
    + rewrite !elem_of_cons, elem_of_nil, Hm. split; [|intros [[= ->] _]; tauto].
      intros [?|[?|[?|[?|[?|[->|?]]]]]]; try done. split; [done|]. by exists content.
  - rewrite !elem_of_cons, elem_of_nil, Hm. split; [|intros [[= ->] _]; tauto].
    intros [?|[?|[?|[?|[->|?]]]]]; try done. split; [done|]. exists content. split; [done|]. congruence.
Qed.
